(* ===== verification/_CoqProject ===== *)
-Q . S2P
Prelude.v
Proto.v
Mock.v
Mocks.v
GoMem.v
DeepCopy.v
Json.v
Template.v
Crd.v
Progress.v
Convert.v
Kube.v
Service.v
K8sServer.v
Controller.v
K8sSystem.v
K8sRace.v
DbBase.v
DbWorkflow.v
DbTemplate.v
DbMock.v
DbTyped.v
Migrations.v
DbServer.v
DbHardware.v
HwWrapper.v
Client.v
Cli.v
CliCmd.v
CliSystem.v
DbReport.v
DbRace.v
Worker.v
Docker.v
WorkerRun.v
K8sWorker.v
LogCapture.v
Config.v
WorkerMain.v
CliMain.v
Daemon.v
Servers.v
Mains.v
System.v
