(* ===== verification/Prelude.v ===== *)
(** * Tinkerbell tink: a verification development

    Tink provisions machines. An operator stores templates (YAML with Go template
    directives) and hardware, and creates workflows from them; a workflow is a list
    of tasks, each bound to a worker, with a list of actions, each a container to
    run. A server hands the workflows out over gRPC; a worker on each machine polls
    it, runs its actions and reports their states. The server has two backends: a
    PostgreSQL database, and Kubernetes resources together with a controller that
    renders templates and enforces timeouts. A command-line client calls the server.

    ** Files, and what they model under src/

    - This file: the state monad of the Go code ([go]: a computation returns,
      panics or exits, with the state so far), errors, machine integers, durations,
      indexing, map iteration in any order ([MapRange]), strings and paths.
    - [Proto]: the messages of protos/.
    - [Mock], [Mocks]: the mocked clients of protos/ (mock.go), as programs of
      goroutines that share them.
    - [GoMem]: a heap of Go values (pointers, slices, maps, structs) and copying.
    - [DeepCopy]: the types of pkg/apis/core/v1alpha1 and zz_generated.deepcopy.go.
    - [Json]: JSON of encoding/json: printing, parsing, and values of any type.
    - [Template]: workflow/ (types, validator, renderer, template functions).
    - [Crd]: pkg/apis/core/v1alpha1, the resources as records with their methods.
    - [Progress]: the invariant of a workflow resource: the successes come first,
      then at most one action that is started, then pending ones.
    - [Convert]: pkg/convert.
    - [Kube]: the index functions of pkg/controllers/manager.go, and the interface
      of the Kubernetes client ([KubeClient], laws [KubeLaws]: a write that returns an
      error may have been stored or not) with an in-memory cluster that satisfies it.
    - [Service]: what both backends share: messages, streams, and the class
      [WorkflowService] of the calls a worker makes.
    - [K8sServer]: server/kubernetes_api_workflow.go and kubernetes_unimplemented.go.
    - [Controller]: pkg/controllers/workflow/controller.go and retry.go.
    - [K8sSystem]: server and controller on one cluster, as a step relation.
    - [K8sRace]: the same handlers split at the calls of the API server, which keeps
      versions: reads from caches that lag behind, conflicts, and patches. Its runs are
      restricted by two parameters: [defined] to reports of states that have a name,
      [locked] to patches that arrive on the status they were computed from.
    - [DbBase]: the tables of db/migration after all migrations, transactions and
      queries of database/sql with an oracle for failing calls, db/db.go.
    - [DbWorkflow]: db/workflow.go. [DbTemplate]: db/template.go and db/hardware.go.
      [DbTyped]: the types and constraints of the tables.
    - [DbMock]: the interface of a database (db/db.go) as the class [Database], with
      [TinkDB] and the mock of db/mock as instances; internal/tests.
    - [Migrations]: db/migration, each migration as its SQL statements, and a
      PostgreSQL that executes them on a schema with rows.
    - [DbServer]: server/dbserver.go, dbserver_workflow.go,
      dbserver_worker_workflow.go and dbserver_template.go; every handler increments
      the in-flight gauge and defers its decrement where the source does.
    - [DbHardware]: server/dbserver_hardware.go, with the watchers.
    - [HwWrapper]: pkg/hardware_wrapper.go and the JSON of the hardware message.
    - [Client]: client/main.go, and a server behind gRPC as its client sees it, the
      class [TinkClient], with the database-backed server as an instance.
    - [Cli]: cmd/tink-cli/cmd/get and delete. [CliCmd]: the commands for templates,
      hardware and workflows. [CliSystem]: the commands with the database-backed
      server. [CliMain]: the flags of the client, the groups of its commands and the
      commands that generate completions and documentation (cmd/tink-cli/cmd).
    - [DbReport]: the correctness of what a worker calls of [DbServer].
    - [DbRace]: reports split at their calls of the database, and interleaved.
    - [Worker]: cmd/tink-worker/worker/worker.go.
    - [Docker]: the container managers of tink-worker and virtual-worker.
    - [WorkerRun]: the contract a service owes to a worker ([WorkflowContract]) and
      the run of a worker against it; a service and a container manager that record
      the reports and the containers of a run ([recording_service],
      [recording_manager]).
    - [K8sWorker]: the Kubernetes-backed server keeps the contract for workflows of
      one task; controller, server and worker together.
    - [LogCapture]: the log capturers of both workers.
    - [Config]: flags, files and environment of tink-server and tink-controller.
      [WorkerMain]: the programs tink-worker and virtual-worker (cmd/root.go).
    - [Daemon]: how tink-server and tink-controller come up (cmd/tink-server,
      cmd/tink-controller, grpc-server, http-server, server/kubernetes_api.go,
      pkg/controllers/manager.go, metrics, the migrations of db), and the life of
      tink-server as a step relation, in which the steps of the program are told from
      those of clients and the operating system.
    - [Servers]: what tink-server serves: the services that each backend registers on
      the gRPC server, the dispatch of calls to the handlers of what is registered, and
      the pages and the mux of the HTTP server.
    - [Mains]: the main functions of the programs, and how they end.
    - [System]: the database-backed server keeps the contract; worker and server
      together.

    Handlers are functions of the same name as in the source, over the state they
    touch; a function that loops is split into the loop and the rest. What is not
    in the repository is a class: the Kubernetes client, PostgreSQL's reading of
    texts ([DbEnv]), the template engine and YAML ([TemplateEnv]), the Docker API
    ([DockerClient]), the faults of network, files and clock ([WorkerEnv]), floats
    ([Floats]), the texts of flags ([FlagText]), the old environment ([LegacyEnv]),
    certificates, listeners, clientcmd and controller-runtime ([DaemonEnv]),
    sql-migrate ([Migrate]), the metadata types of apimachinery with their copies
    ([CopyEnv]), the generators of cobra ([CobraGen]) and the server of grpc-go
    ([GrpcServer]). Each has an instance, used by the witnesses. JSON of hardware is
    a class for the server ([HardwareJson]), which [HwWrapper] implements.

    ** What the theorems show

    - Templates: exactly which templates render, and the bound on names.
    - Resources: the current action is the first whose status the scan stops at (the
      first that is not successful when all statuses have names), the list sent to
      workers is that of all actions in order and the index points to it there, conversions lose nothing they have
      fields for, and the environment does not depend on the order of maps.
    - Kubernetes backend: the effect and the refusals of a report, of a state with or
      without a name, to whom contexts
      are sent, what reconciling does to new, running and settled workflows, that
      the invariant of [Progress] holds in every reachable cluster, and that a
      workflow of one task is run to success, from its creation, by a reconciliation
      and a poll of its worker. Reports on later tasks are refused.
    - Kubernetes backend, interleaved: whatever old versions are read and whichever
      writes fail, stored workflows keep the invariant and a report that is accepted
      acts at once on what is stored; successes are final as long as no patch of the
      controller is applied to a status it was not computed from, and any patch that is
      undoes the reports that came before it.
    - Copies: [DeepCopy] of every resource is equal to the original and shares no
      memory with it.
    - Database: every update is atomic under failing calls; the tables stay well
      typed, with unique names of templates, as their columns demand; what creation, deletion, updates,
      versions of data, templates and hardware store and read back. The migrations
      lead to exactly these tables; from every earlier version they preserve the rows
      and what the schema demands of them, or fail, and when they fail.
    - Database-backed server: how every report is answered and what it stores, also
      when a value does not fit its column, the invariant of the
      state rows in every reachable database, to whom contexts are sent, the state
      that is shown, completion of workflows, balanced gauges, the check of MAC
      addresses, and the inputs on which handlers panic.
    - Database-backed server, interleaved: however the calls of concurrent reports
      follow each other, the state rows keep their invariant. As long as no report
      writes over a state it has not read, the run refines one of whole reports and
      the index of a workflow never decreases; a report that does sets the workflow
      back to where it was when the report read it.
    - Worker: against any service that keeps the contract it runs the containers of its
      actions and reports them, in order and each once, up to the first action of
      another worker; with the database-backed server a workflow of
      one worker completes; what becomes of the data file; the commands for
      timeouts and failures never run with Docker; which logs are captured.
    - Command-line client: templates and hardware that are sent to the
      database-backed server are shown as they were; what get, list and delete print
      and do for any arguments, and where they leave things out, panic or overwrite;
      the progress shown is the share of the actions that are done.
    - JSON: what is printed is parsed back, and the wrapper loses nothing of a
      hardware whose numbers a float represents.
    - Mocks: no call of goroutines that share a mock is lost, and they never deadlock.
    - Programs: where every setting comes from; what is true of a server that serves;
      the migrations; after a signal the server terminates once the clients of open
      streams have left, after the failure of one of its servers it waits for the
      other, whatever happens. Which calls and paths
      a server answers, with either backend; with which status the programs end, and
      what they close and send before.
    - Test doubles: the mock of the database accepts the templates that the table
      accepts; it deletes by another key.

    Statements about what is returned are total: the model has no fuel except for
    the number of turns of the worker's endless loop ([ProcessWorkflowActions]) and
    for the JSON parser, whose fuel is the length of the text and which is proved
    enough for every printed value; every other recursion is structural. Theorems
    that promise a success have hypotheses that the calls outside do not fail; the
    others hold for every pattern of failures.

    ** What is not modelled

    Logging, the values of histograms, TLS, gRPC and HTTP themselves, the generated
    marshalling of messages, and protos/packet, which no code uses: code of libraries
    or generated for them, without decisions of this repository. The handlers of the
    database-backed server run one at a time against the database, as its
    serializable transactions give it, except for reports, whose transactions
    [DbRace] interleaves, and for the versions of data
    ([DbWorkflow.data_version_race]); a worker or a client receives a stream after
    its handler has run. [Migrations] has the statements that the migrations use, with
    the names PostgreSQL gives to constraints; plain indexes constrain nothing. In
    [K8sRace] a cache may return any version that was stored, and a report and a
    reconciliation read one version each; a worker is not part of its runs, which
    hold for reports of any origin and order. The mux of [Servers] has patterns
    without a host or a slash at the end, as the program registers them. A commit that
    returns an error stores nothing ([DbBase]). Texts are byte strings, the limit of a
    column counts bytes, letters are folded as in ASCII, and [Json] neither replaces invalid UTF-8 nor escapes U+2028 and
    U+2029. *)
From stdpp Require Export base tactics gmap strings list fin_maps sorting pretty.
From Stdlib Require Export ZArith Lia.
From stdpp Require Import options.
Set Default Proof Using "Type".

Declare Scope go_scope.
Delimit Scope go_scope with go.
#[global] Open Scope Z_scope.

(** ** Outcomes and the state monad of the Go code

    A Go computation either returns a value, panics or ends the process with
    [os.Exit]. The state it has mutated so far is kept in the three cases. *)
Inductive outcome (A : Type) : Type :=
  | Ret (a : A)
  | Panic (msg : string)
  | Exit (status : Z).
Arguments Ret {_} _.
Arguments Panic {_} _.
Arguments Exit {_} _.

Definition go (S A : Type) : Type := S → outcome A * S.

Definition go_ret {S A} (a : A) : go S A := λ s, (Ret a, s).
Definition go_bind {S A B} (c : go S A) (k : A → go S B) : go S B := λ s,
  match c s with
  | (Ret a, s') => k a s'
  | (Panic m, s') => (Panic m, s')
  | (Exit n, s') => (Exit n, s')
  end.
Definition go_get {S} : go S S := λ s, (Ret s, s).
Definition go_put {S} (s : S) : go S unit := λ _, (Ret tt, s).
Definition go_modify {S} (f : S → S) : go S unit := λ s, (Ret tt, f s).
Definition go_panic {S A} (m : string) : go S A := λ s, (Panic m, s).
Definition go_exit {S A} (n : Z) : go S A := λ s, (Exit n, s).

(** Runs a computation over a part of the state, given by its getter and
    setter. *)
Definition go_zoom {S T A} (get : T → S) (set : S → T → T) (c : go S A) : go T A :=
  λ t, let '(o, s) := c (get t) in (o, set s t).

Notation "'let*' x ':=' c 'in' k" := (go_bind c (λ x, k))
  (at level 10, x pattern, c at level 99, k at level 200,
   format "'[v' 'let*'  x  ':='  c  'in' '/' k ']'") : go_scope.
Notation "c1 ';;;' c2" := (go_bind c1 (λ _, c2))
  (at level 100, c2 at level 200, right associativity) : go_scope.

(** [defer d()] around the rest of a function: it runs when the rest returns or
    panics, not when the process exits. *)
Definition go_defer {S A} (d : go S unit) (c : go S A) : go S A := λ s,
  match c s with
  | (Exit n, s') => (Exit n, s')
  | (o, s') =>
      match d s' with
      | (Ret _, s2) => (o, s2)
      | (Panic m, s2) => (Panic m, s2)
      | (Exit n, s2) => (Exit n, s2)
      end
  end.

(** ** Errors *)

(** The gRPC status codes the sources name, and the two that gRPC itself returns
    for a service that is not registered and for a server that is gone. *)
Inductive code :=
  | OK | Unknown | InvalidArgument | NotFound | FailedPrecondition | Aborted | Unimplemented
  | Unavailable.

#[global] Instance code_eq_dec : EqDecision code.
Proof. solve_decision. Defined.

(** Go errors: the sentinels the code compares with, errors raised by the
    database driver or another collaborator, messages made with [errors.New]
    and [fmt.Errorf], gRPC statuses, and errors wrapped with a message. *)
Inductive error :=
  | ErrNoRows
  | EOF
  | KubeNotFound
  | ExtErr (msg : string)
  | NewErr (msg : string)
  | StatusErr (c : code) (msg : string)
  | WrapErr (e : error) (msg : string).

#[global] Instance error_eq_dec : EqDecision error.
Proof. solve_decision. Defined.

(** [errors.Wrap], [errors.WithMessage]: nil stays nil. *)
Definition wrap (e : option error) (msg : string) : option error :=
  (λ e, WrapErr e msg) <$> e.

(** [errors.Is(err, target)] for a sentinel. *)
Fixpoint err_is (e target : error) : bool :=
  bool_decide (e = target) ||
  match e with WrapErr e' _ => err_is e' target | _ => false end.

(** [err.Error()]. *)
Fixpoint err_string (e : error) : string :=
  match e with
  | ErrNoRows => "sql: no rows in result set"
  | EOF => "EOF"
  | KubeNotFound => "not found"
  | ExtErr m => m
  | NewErr m => m
  | StatusErr _ m => m
  | WrapErr e m => m +:+ ": " +:+ err_string e
  end.

(** A value or an error, for functions whose value is not used on error. *)
Inductive result (A : Type) : Type := Ok (a : A) | Err (e : error).
Arguments Ok {_} _.
Arguments Err {_} _.

Definition result_err {A} (r : result A) : option error :=
  match r with Ok _ => None | Err e => Some e end.

(** Early return on error: [try x := c onerr h in k] binds the value of [c] or
    returns what [h] makes of its error. *)
Definition go_try {S A B} (c : go S (result A)) (h : error → B) (k : A → go S B) : go S B :=
  go_bind c (λ r, match r with Ok a => k a | Err e => go_ret (h e) end).
Notation "'try' x ':=' c 'onerr' h 'in' k" := (go_try c h (λ x, k))
  (at level 10, x pattern, c at level 99, h at level 99, k at level 200,
   format "'[v' 'try'  x  ':='  c  'onerr'  h  'in' '/' k ']'") : go_scope.

Lemma go_bind_Ret {S A B} (c : go S A) (k : A → go S B) s a s' :
  c s = (Ret a, s') → go_bind c k s = k a s'.
Proof. unfold go_bind. by intros ->. Qed.

Lemma go_try_Ret {S A B} (c : go S (result A)) (h : error → B) (k : A → go S B) s r s' :
  c s = (Ret r, s') →
  go_try c h k s = match r with Ok a => k a s' | Err e => (Ret (h e), s') end.
Proof. unfold go_try, go_bind. intros ->. by destruct r. Qed.

(** ** Machine integers

    [int] is 64 bits wide on the platforms the project builds for. *)
Definition wrap_bits (w : Z) (z : Z) : Z := (z + 2 ^ (w - 1)) mod 2 ^ w - 2 ^ (w - 1).
Definition wrap32 : Z → Z := wrap_bits 32.
Definition wrap64 : Z → Z := wrap_bits 64.
Definition in_int32 (z : Z) : Prop := -2 ^ 31 ≤ z < 2 ^ 31.
Definition in_int64 (z : Z) : Prop := -2 ^ 63 ≤ z < 2 ^ 63.

Lemma wrap64_id z : in_int64 z → wrap64 z = z.
Proof.
  unfold in_int64, wrap64, wrap_bits. intros H.
  change (2 ^ (64 - 1)) with (2 ^ 63). change (2 ^ 64) with (2 * 2 ^ 63).
  rewrite Z.mod_small; lia.
Qed.

Lemma wrap32_id z : in_int32 z → wrap32 z = z.
Proof.
  unfold in_int32, wrap32, wrap_bits. intros H.
  change (2 ^ (32 - 1)) with (2 ^ 31). change (2 ^ 32) with (2 * 2 ^ 31).
  rewrite Z.mod_small; lia.
Qed.

(** ** Durations

    A [time.Duration] is an [int64] of nanoseconds: [time.Duration(n) *
    time.Second] wraps, [t.Sub(u)] saturates. [Duration.Seconds()] goes through
    a [float64]; the truncation below is exact up to 2^23 seconds. *)
Definition second : Z := 1000000000.
Definition seconds_dur (n : Z) : Z := wrap64 (n * second).
Definition time_sub (t u : Z) : Z := Z.max (-2 ^ 63) (Z.min (2 ^ 63 - 1) (t - u)).
Definition dur_seconds (d : Z) : Z := Z.quot d second.

(** ** Indexing

    [xs[i]] panics when the index is out of range. *)
Definition zlookup {A} (l : list A) (i : Z) : option A :=
  if decide (0 ≤ i) then l !! Z.to_nat i else None.

Definition go_index {S A} (l : list A) (i : Z) : go S A :=
  match zlookup l i with
  | Some a => go_ret a
  | None => go_panic "index out of range"
  end.

Lemma zlookup_of_nat {A} (l : list A) (n : nat) : zlookup l (Z.of_nat n) = l !! n.
Proof. unfold zlookup. rewrite decide_True by lia. by rewrite Nat2Z.id. Qed.

Lemma zlookup_Some {A} (l : list A) i x :
  zlookup l i = Some x ↔ 0 ≤ i ∧ l !! Z.to_nat i = Some x.
Proof. unfold zlookup. case_decide; naive_solver. Qed.

Lemma zlookup_is_Some {A} (l : list A) i :
  is_Some (zlookup l i) ↔ 0 ≤ i < Z.of_nat (length l).
Proof.
  unfold zlookup. case_decide.
  - rewrite lookup_lt_is_Some. lia.
  - split; [intros [? ?]; done | lia].
Qed.

Lemma zlookup_None {A} (l : list A) i :
  zlookup l i = None ↔ i < 0 ∨ Z.of_nat (length l) ≤ i.
Proof.
  rewrite eq_None_not_Some, zlookup_is_Some. lia.
Qed.

(** ** Ranging over a map

    Go visits the keys of a map in an unspecified order; what the code computes
    is parameterised by that order. *)
Class MapRange := {
  range_map : gmap string string → list (string * string);
  range_map_perm m : range_map m ≡ₚ map_to_list m
}.

(** [for k, v := range src { dst[k] = v }]. *)
Definition copy_map `{MapRange} (src dst : gmap string string) : gmap string string :=
  foldl (λ m kv, <[kv.1:=kv.2]> m) dst (range_map src).

Lemma foldl_insert_list (l : list (string * string)) (dst : gmap string string) :
  NoDup l.*1 → foldl (λ m kv, <[kv.1:=kv.2]> m) dst l = list_to_map l ∪ dst.
Proof.
  revert dst. induction l as [|[k v] l IH]; intros dst Hnd; csimpl.
  { by rewrite (left_id_L ∅ (∪)). }
  inversion_clear Hnd as [|?? Hk Hnd']. rewrite IH by done.
  rewrite <- insert_union_l. symmetry. apply insert_union_r.
  by apply not_elem_of_list_to_map_1.
Qed.

Lemma range_map_NoDup `{MapRange} m : NoDup (range_map m).*1.
Proof. rewrite range_map_perm. apply NoDup_fst_map_to_list. Qed.

(** Whatever the order, the source overrides the destination. *)
Lemma copy_map_union `{MapRange} src dst : copy_map src dst = src ∪ dst.
Proof.
  unfold copy_map. rewrite foldl_insert_list by apply range_map_NoDup.
  rewrite (list_to_map_proper _ (map_to_list src)).
  - by rewrite list_to_map_to_list.
  - apply range_map_NoDup.
  - apply range_map_perm.
Qed.

(** ** Strings of the Go standard library *)

(** [strings.HasPrefix]. *)
Definition HasPrefix (s p : string) : bool := String.prefix p s.

(** [strings.Split(s, sep)] for a separator of one byte; never empty. *)
Fixpoint split_on (sep : Ascii.ascii) (s : string) : list string :=
  match s with
  | EmptyString => [""]
  | String c s' =>
      match split_on sep s' with
      | [] => [""]
      | w :: ws => if Ascii.eqb c sep then "" :: w :: ws else String c w :: ws
      end
  end.

(** [strings.Join]. *)
Definition Join (l : list string) (sep : string) : string := String.concat sep l.

(** [strings.ToLower] on one ASCII byte, and on a string of them. *)
Definition ascii_lower (c : Ascii.ascii) : Ascii.ascii :=
  let n := Ascii.nat_of_ascii c in
  if decide (65 ≤ n ∧ n ≤ 90)%nat then Ascii.ascii_of_nat (n + 32) else c.
Fixpoint ToLower (s : string) : string :=
  match s with
  | EmptyString => EmptyString
  | String c s' => String (ascii_lower c) (ToLower s')
  end.

(** [strings.EqualFold] on ASCII strings. *)
Definition EqualFold (s t : string) : bool := bool_decide (ToLower s = ToLower t).

(** [len(s)]. *)
Definition strlen (s : string) : Z := Z.of_nat (String.length s).

(** [strings.ReplaceAll(s, old, new)] for an [old] of one byte. *)
Fixpoint replace_char (old : Ascii.ascii) (new : string) (s : string) : string :=
  match s with
  | EmptyString => EmptyString
  | String c s' =>
      (if Ascii.eqb c old then new else String c EmptyString) +:+ replace_char old new s'
  end.

(** [path.Clean] and [path.Join] (and their namesakes of path/filepath on
    Unix): the elements that are not empty, without [.] and with [..] resolved
    lexically. *)
Definition slash : Ascii.ascii := Ascii.ascii_of_nat 47.
Fixpoint clean_elems (rooted : bool) (acc : list string) (l : list string) : list string :=
  match l with
  | [] => rev acc
  | e :: l' =>
      if decide (e = "" ∨ e = ".") then clean_elems rooted acc l'
      else if decide (e = "..") then
        match acc with
        | d :: acc' =>
            if decide (d = "..") then clean_elems rooted (e :: acc) l'
            else clean_elems rooted acc' l'
        | [] => if rooted then clean_elems rooted [] l' else clean_elems rooted [e] l'
        end
      else clean_elems rooted (e :: acc) l'
  end.
Definition Clean (p : string) : string :=
  let rooted := HasPrefix p "/" in
  let elems := clean_elems rooted [] (split_on slash p) in
  if rooted then "/" +:+ Join elems "/"
  else if decide (elems = []) then "." else Join elems "/".
Definition path_Join (l : list string) : string :=
  let l := filter (λ e, e ≠ "") l in
  if decide (l = []) then "" else Clean (Join l "/").

(** [strconv.Itoa], [%v] and [%d] of an integer. *)
Definition Itoa (z : Z) : string := pretty z.

(** [strconv.Atoi] on texts that do not overflow. *)
Fixpoint digits (acc : Z) (s : string) : option Z :=
  match s with
  | EmptyString => Some acc
  | String c s' =>
      let n := Z.of_nat (Ascii.nat_of_ascii c) in
      if decide (48 ≤ n ∧ n ≤ 57) then digits (10 * acc + (n - 48)) s' else None
  end.
Definition Atoi (s : string) : option Z :=
  match s with
  | EmptyString => None
  | String c s' =>
      if Ascii.eqb c (Ascii.ascii_of_nat 45) then (if decide (s' = "") then None else Z.opp <$> digits 0 s')
      else if Ascii.eqb c (Ascii.ascii_of_nat 43) then (if decide (s' = "") then None else digits 0 s')
      else digits 0 s
  end.

Lemma ascii_lower_idemp c : ascii_lower (ascii_lower c) = ascii_lower c.
Proof. by destruct c as [[] [] [] [] [] [] [] []]. Qed.

Lemma ToLower_idemp s : ToLower (ToLower s) = ToLower s.
Proof. induction s; simpl; [done|]. by rewrite ascii_lower_idemp, IHs. Qed.

Lemma string_app_nil s : s +:+ "" = s.
Proof.
  induction s as [|c s IH]; [done|].
  change (String c s +:+ "") with (String c (s +:+ "")). by rewrite IH.
Qed.

Lemma ToLower_empty s : ToLower s = "" ↔ s = "".
Proof. destruct s; simpl; split; congruence. Qed.

Lemma split_on_nonempty sep s : split_on sep s ≠ [].
Proof. destruct s; simpl; [done|]. repeat case_match; done. Qed.

(** Splitting and joining again with the same byte gives the string back. *)
Lemma split_join sep s : Join (split_on sep s) (String sep "") = s.
Proof.
  induction s as [|c s IH]; simpl; [done|].
  destruct (split_on sep s) as [|w ws] eqn:E; [by apply split_on_nonempty in E|].
  destruct (Ascii.eqb_spec c sep) as [->|]; simpl.
  - rewrite <- IH. done.
  - rewrite <- IH. by destruct ws.
Qed.
