(* ===== verification/Proto.v ===== *)
(** * Proto: the protobuf messages of the services

    The messages of protos/workflow, protos/template and protos/hardware that
    the modelled code reads or writes. [State] is an open proto3 enum, hence an
    [int32] with named constants; a pointer to a message or a timestamp is an
    [option]; a timestamp counts nanoseconds since the epoch. *)
From S2P Require Import Prelude.
From stdpp Require Import options.

(** ** protos/workflow: the state enum *)
Abbreviation State := Z (only parsing).
Definition State_STATE_PENDING : State := 0.
Definition State_STATE_RUNNING : State := 1.
Definition State_STATE_FAILED : State := 2.
Definition State_STATE_TIMEOUT : State := 3.
Definition State_STATE_SUCCESS : State := 4.

Definition State_name : gmap Z string :=
  {[ 0 := "STATE_PENDING"; 1 := "STATE_RUNNING"; 2 := "STATE_FAILED";
     3 := "STATE_TIMEOUT"; 4 := "STATE_SUCCESS" ]}.

Definition State_value : gmap string Z :=
  {[ "STATE_PENDING" := 0; "STATE_RUNNING" := 1; "STATE_FAILED" := 2;
     "STATE_TIMEOUT" := 3; "STATE_SUCCESS" := 4 ]}.

(** Indexing a Go map gives the zero value when the key is absent. *)
Definition state_name_of (s : State) : string := default "" (State_name !! s).
Definition state_value_of (n : string) : State := default 0 (State_value !! n).

(** [State.String()]: the name, or the number in decimal for a value that the
    enum does not name. *)
Definition state_string (s : State) : string := default (Itoa s) (State_name !! s).

Definition known_state (s : State) : Prop := 0 ≤ s ≤ 4.

#[global] Instance known_state_dec s : Decision (known_state s).
Proof. unfold known_state. apply _. Defined.

(** ** protos/workflow: messages *)
Record WorkflowContext := {
  wc_WorkflowId : string;
  wc_CurrentWorker : string;
  wc_CurrentTask : string;
  wc_CurrentAction : string;
  wc_CurrentActionIndex : Z;
  wc_CurrentActionState : State;
  wc_TotalNumberOfActions : Z
}.

#[global] Instance WorkflowContext_eq_dec : EqDecision WorkflowContext.
Proof. solve_decision. Defined.

(** [&pb.WorkflowContext{}]. *)
Definition zeroWorkflowContext : WorkflowContext :=
  {| wc_WorkflowId := ""; wc_CurrentWorker := ""; wc_CurrentTask := "";
     wc_CurrentAction := ""; wc_CurrentActionIndex := 0; wc_CurrentActionState := 0;
     wc_TotalNumberOfActions := 0 |}.

Record WorkflowAction := {
  wa_TaskName : string;
  wa_Name : string;
  wa_Image : string;
  wa_Timeout : Z;
  wa_Command : list string;
  wa_OnTimeout : list string;
  wa_OnFailure : list string;
  wa_WorkerId : string;
  wa_Volumes : list string;
  wa_Environment : list string;
  wa_Pid : string
}.

#[global] Instance WorkflowAction_eq_dec : EqDecision WorkflowAction.
Proof. solve_decision. Defined.

(** A [WorkflowActionList] is its [ActionList] field. *)
Abbreviation WorkflowActionList := (list WorkflowAction) (only parsing).

Record WorkflowActionStatus := {
  ws_WorkflowId : string;
  ws_TaskName : string;
  ws_ActionName : string;
  ws_ActionStatus : State;
  ws_Seconds : Z;
  ws_Message : string;
  ws_CreatedAt : option Z;
  ws_WorkerId : string
}.

#[global] Instance WorkflowActionStatus_eq_dec : EqDecision WorkflowActionStatus.
Proof. solve_decision. Defined.

(** The message [Workflow]. *)
Record PbWorkflow := {
  pw_Id : string;
  pw_Template : string;
  pw_Hardware : string;
  pw_State : State;
  pw_CreatedAt : option Z;
  pw_UpdatedAt : option Z;
  pw_DeletedAt : option Z;
  pw_Data : string
}.

(** Requests and responses on the workflow data. *)
Record GetWorkflowDataRequest := { gd_WorkflowId : string; gd_Version : Z }.
Record GetWorkflowDataResponse := { gr_Data : string; gr_Version : Z }.
Record UpdateWorkflowDataRequest := {
  ud_WorkflowId : string; ud_Metadata : string; ud_Data : string }.

(** ** protos/template *)
Record WorkflowTemplate := {
  wt_Id : string;
  wt_Name : string;
  wt_CreatedAt : option Z;
  wt_UpdatedAt : option Z;
  wt_DeletedAt : option Z;
  wt_Data : string
}.

Definition zeroWorkflowTemplate : WorkflowTemplate :=
  {| wt_Id := ""; wt_Name := ""; wt_CreatedAt := None; wt_UpdatedAt := None;
     wt_DeletedAt := None; wt_Data := "" |}.

(** The [oneof] of a template [GetRequest], with its two getters. *)
Inductive GetBy := GetRequest_Id (id : string) | GetRequest_Name (name : string).
Definition GetRequest_GetId (r : option GetBy) : string :=
  match r with Some (GetRequest_Id i) => i | _ => "" end.
Definition GetRequest_GetName (r : option GetBy) : string :=
  match r with Some (GetRequest_Name n) => n | _ => "" end.

(** ** Facts about the enum *)
Lemma state_value_name s : known_state s → state_value_of (state_name_of s) = s.
Proof.
  unfold known_state. intros Hs.
  assert (s = 0 ∨ s = 1 ∨ s = 2 ∨ s = 3 ∨ s = 4) as Hc by lia.
  destruct Hc as [->|[->|[->|[->| ->]]]]; reflexivity.
Qed.

Lemma state_name_lookup s : is_Some (State_name !! s) ↔ known_state s.
Proof.
  unfold known_state, State_name. split.
  - intros [n Hn]. repeat (apply lookup_insert_Some in Hn as [[<- _]|[_ Hn]]; [lia|]).
    apply lookup_singleton_Some in Hn as [<- _]. lia.
  - intros Hs.
    assert (s = 0 ∨ s = 1 ∨ s = 2 ∨ s = 3 ∨ s = 4) as Hc by lia.
    destruct Hc as [->|[->|[->|[->| ->]]]]; vm_compute; eauto.
Qed.

Lemma state_name_unknown s : ¬ known_state s → state_name_of s = "".
Proof.
  intros Hs. unfold state_name_of.
  destruct (State_name !! s) eqn:E; [|done].
  exfalso. apply Hs, state_name_lookup. eauto.
Qed.

Lemma state_name_nonempty s : known_state s → state_name_of s ≠ "".
Proof.
  unfold known_state. intros Hs.
  assert (s = 0 ∨ s = 1 ∨ s = 2 ∨ s = 3 ∨ s = 4) as Hc by lia.
  destruct Hc as [->|[->|[->|[->| ->]]]]; vm_compute; congruence.
Qed.

Lemma state_name_inj s t :
  known_state s → known_state t → state_name_of s = state_name_of t → s = t.
Proof. intros Hs Ht E. by rewrite <- (state_value_name s), E, state_value_name. Qed.

Lemma state_name_value s n : State_name !! s = Some n → State_value !! n = Some s.
Proof.
  intros Hn. assert (known_state s) as Hk by (apply state_name_lookup; eauto).
  unfold known_state in Hk. assert (s = 0 ∨ s = 1 ∨ s = 2 ∨ s = 3 ∨ s = 4) as Hc by lia.
  destruct Hc as [->|[->|[->|[->| ->]]]]; vm_compute in Hn; simplify_eq; reflexivity.
Qed.
