(* ===== verification/Mock.v ===== *)
(** * Mock: the mocked clients as concurrent objects (src/protos/*/mock.go)

    A method of a mock panics when no function was given for it; otherwise it
    appends its arguments to the list of calls of the method, under the lock of the
    method, and calls the function. Its companion reads the list under the lock.
    Goroutines that share a mock interleave between any two of these statements, and
    the append reads the slice and writes it. *)
From S2P Require Import Prelude.
From stdpp Require Import options.

(** An interface that is mocked: its methods, what they take and return. *)
Class MockSig := {
  method : Type;
  #[global] method_eq_dec :: EqDecision method;
  arg : method → Type;
  res : method → Type;
  iface : string;
  method_name : method → string
}.

(** Functions on methods whose type depends on the method. *)
Definition dupd `{MockSig} {P : method → Type} (m : method) (x : P m) (f : ∀ m, P m) (m' : method) : P m' :=
  match decide (m = m') with left e => eq_rect m P x m' e | right _ => f m' end.
Lemma dupd_eq `{MockSig} {P : method → Type} m (x : P m) f : dupd m x f m = x.
Proof.
  unfold dupd. destruct (decide (m = m)) as [e|]; [|done]. by rewrite (proof_irrel e eq_refl).
Qed.
Lemma dupd_ne `{MockSig} {P : method → Type} m m' (x : P m) f : m ≠ m' → dupd m x f m' = f m'.
Proof. intros Hm. unfold dupd. by destruct (decide (m = m')). Qed.

(** ** Statements *)
Section mock.
Context `{SIG : MockSig}.

Inductive instr :=
  (** [if mock.XFunc == nil { panic(...) }]. *)
  | ICheck (m : method)
  | ILock (m : method)
  | IUnlock (m : method)
  | IRLock (m : method)
  | IRUnlock (m : method)
  (** A local variable becomes the slice of calls. *)
  | ILoad (m : method)
  (** The slice of calls becomes that of the local variable with one more entry. *)
  | IStore (m : method) (a : arg m)
  (** [mock.XFunc(...)], and the return with its result. *)
  | IInvoke (m : method) (a : arg m)
  | IReturn (m : method) (r : res m)
  (** [return calls]. *)
  | IResult (m : method).

(** The body of a method, and that of its companion. *)
Definition mock_method (m : method) (a : arg m) : list instr :=
  [ICheck m; ILock m; ILoad m; IStore m a; IUnlock m; IInvoke m a].
Definition mock_calls (m : method) : list instr := [IRLock m; ILoad m; IRUnlock m; IResult m].

Definition nil_message (m : method) : string :=
  iface +:+ "Mock." +:+ method_name m +:+ "Func: method is nil but " +:+ iface +:+ "." +:+
  method_name m +:+ " was just called".

(** ** Goroutines *)
Inductive event :=
  | EStored (m : method) (a : arg m)
  | EReturned (m : method) (r : res m)
  | ERead (m : method) (l : list (arg m)).
Record thread := { t_prog : list instr; t_reg : ∀ m, list (arg m); t_log : list event }.
(** A lock with the goroutines that hold it. *)
Record RWMutex := { rw_writer : option nat; rw_readers : gset nat }.
Record State := {
  st_calls : ∀ m, list (arg m); st_lock : method → RWMutex; st_threads : list thread }.

(** The functions of the mock: the statements of mocks they run, and the result. *)
Context (Func : ∀ m, option (arg m → list instr * res m)).

Definition set_thread (i : nat) (p : list instr) (reg : ∀ m, list (arg m)) (log : list event) (s : State) : State :=
  {| st_calls := st_calls s; st_lock := st_lock s;
     st_threads := <[i := {| t_prog := p; t_reg := reg; t_log := log |}]> (st_threads s) |}.
Definition set_lock (m : method) (l : RWMutex) (s : State) : State :=
  {| st_calls := st_calls s; st_lock := λ m', if decide (m = m') then l else st_lock s m';
     st_threads := st_threads s |}.
Definition set_calls (m : method) (l : list (arg m)) (s : State) : State :=
  {| st_calls := dupd m l (st_calls s); st_lock := st_lock s; st_threads := st_threads s |}.

(** The next statement of the goroutine [i]; none when it has ended, waits for a
    lock, or panics. *)
Definition step (i : nat) (s : State) : option State :=
  t ← st_threads s !! i;
  let go p := set_thread i p (t_reg t) (t_log t) s in
  match t_prog t with
  | [] => None
  | ICheck m :: p => match Func m with None => None | Some _ => Some (go p) end
  | ILock m :: p =>
      if decide (rw_writer (st_lock s m) = None ∧ rw_readers (st_lock s m) = ∅)
      then Some (set_lock m {| rw_writer := Some i; rw_readers := ∅ |} (go p)) else None
  | IUnlock m :: p =>
      Some (set_lock m {| rw_writer := None; rw_readers := rw_readers (st_lock s m) |} (go p))
  | IRLock m :: p =>
      if decide (rw_writer (st_lock s m) = None)
      then Some (set_lock m {| rw_writer := None; rw_readers := {[i]} ∪ rw_readers (st_lock s m) |} (go p))
      else None
  | IRUnlock m :: p =>
      Some (set_lock m {| rw_writer := rw_writer (st_lock s m);
                          rw_readers := rw_readers (st_lock s m) ∖ {[i]} |} (go p))
  | ILoad m :: p => Some (set_thread i p (dupd m (st_calls s m) (t_reg t)) (t_log t) s)
  | IStore m a :: p =>
      Some (set_calls m (t_reg t m ++ [a])
              (set_thread i p (t_reg t) (t_log t ++ [EStored m a]) s))
  | IInvoke m a :: p =>
      match Func m with
      | None => None
      | Some f => Some (go ((f a).1 ++ IReturn m (f a).2 :: p))
      end
  | IReturn m r :: p => Some (set_thread i p (t_reg t) (t_log t ++ [EReturned m r]) s)
  | IResult m :: p => Some (set_thread i p (t_reg t) (t_log t ++ [ERead m (t_reg t m)]) s)
  end.
Definition steps (s s' : State) : Prop := ∃ i, step i s = Some s'.

(** The panic that the goroutine [i] is about to raise. *)
Definition panics (i : nat) (s : State) : option string :=
  t ← st_threads s !! i;
  match t_prog t with
  | ICheck m :: _ => match Func m with None => Some (nil_message m) | Some _ => None end
  | IInvoke m _ :: _ => match Func m with None => Some "invalid memory address" | Some _ => None end
  | _ => None
  end.

(** A mock that was not called, and the goroutines that will use it. *)
Definition start (progs : list (list instr)) : State :=
  {| st_calls _ := []; st_lock _ := {| rw_writer := None; rw_readers := ∅ |};
     st_threads := (λ p, {| t_prog := p; t_reg _ := []; t_log := [] |}) <$> progs |}.

(** Code that uses the mock through its methods only. *)
Inductive uses : list instr → Prop :=
  | uses_nil : uses []
  | uses_method m a p : uses p → uses (mock_method m a ++ p)
  | uses_calls m p : uses p → uses (mock_calls m ++ p)
  | uses_return m r p : uses p → uses (IReturn m r :: p).

Lemma uses_app p q : uses p → uses q → uses (p ++ q).
Proof. induction 1; intros; simpl; [done|..]; try rewrite <- app_assoc; by constructor; auto. Qed.

(** ** Who holds a lock *)

(** The lock that a goroutine holds, by what is left of its program; [true] for
    writing. *)
Definition holds (p : list instr) : option (method * bool) :=
  match p with
  | ILoad m :: IStore _ _ :: _ | IStore m _ :: _ | IUnlock m :: _ => Some (m, true)
  | ILoad m :: IRUnlock _ :: _ | IRUnlock m :: _ => Some (m, false)
  | _ => None
  end.

(** What is left of a program that uses the mock. *)
Inductive rest : list instr → Prop :=
  | rest_uses p : uses p → rest p
  | rest_method k m a p : uses p → rest (drop k (mock_method m a) ++ p)
  | rest_calls k m p : uses p → rest (drop k (mock_calls m) ++ p).

Lemma holds_uses p : uses p → holds p = None.
Proof. by destruct 1. Qed.

(** The statements that may come next, each with what follows it. *)
Definition next_ok (p : list instr) : Prop :=
  match p with
  | [] => True
  | ICheck m :: q => ∃ a q', q = ILock m :: ILoad m :: IStore m a :: q'
  | ILock m :: q => ∃ a q', q = ILoad m :: IStore m a :: q'
  | IRLock m :: q => ∃ q', q = ILoad m :: IRUnlock m :: q'
  | ILoad m :: q => (∃ a q', q = IStore m a :: q') ∨ (∃ q', q = IRUnlock m :: q')
  | IStore m a :: q => ∃ q', q = IUnlock m :: q'
  | IUnlock m :: q => ∃ a q', q = IInvoke m a :: q'
  | IRUnlock m :: q => ∃ q', q = IResult m :: q'
  | IInvoke _ _ :: q | IReturn _ _ :: q | IResult _ :: q => uses q
  end.
Lemma rest_next p : rest p → next_ok p ∧ rest (tail p).
Proof.
  assert (∀ q, uses q → next_ok q ∧ rest (tail q)) as Huses.
  { destruct 1 as [|m a q Hu|m q Hu|m r q Hu]; simpl; (split; [by eauto|]).
    - by apply rest_uses, uses_nil.
    - by apply (rest_method 1 m a).
    - by apply (rest_calls 1 m).
    - by apply rest_uses. }
  destruct 1 as [p Hu|k m a p Hu|k m p Hu]; [by apply Huses|..].
  - destruct k as [|[|[|[|[|[|k]]]]]]; simpl; [(split; [by eauto|])..|].
    + by apply (rest_method 1 m a).
    + by apply (rest_method 2 m a).
    + by apply (rest_method 3 m a).
    + by apply (rest_method 4 m a).
    + by apply (rest_method 5 m a).
    + by apply rest_uses.
    + rewrite drop_nil. by apply Huses.
  - destruct k as [|[|[|[|k]]]]; simpl; [(split; [by eauto|])..|].
    + by apply (rest_calls 1 m).
    + by apply (rest_calls 2 m).
    + by apply (rest_calls 3 m).
    + by apply rest_uses.
    + rewrite drop_nil. by apply Huses.
Qed.

(** *** The invariant *)
Definition holder (s : State) (m : method) (w : bool) (i : nat) : Prop :=
  ∃ t, st_threads s !! i = Some t ∧ holds (t_prog t) = Some (m, w).

(** The arguments that a goroutine has stored for a method. *)
Definition stored_of (m : method) (e : event) : list (arg m) :=
  match e with
  | EStored m' a => match decide (m' = m) with left e => [eq_rect m' arg a m e] | right _ => [] end
  | _ => []
  end.
Definition stored (m : method) (t : thread) : list (arg m) := t_log t ≫= stored_of m.

(** What a goroutine knows of the list of calls. *)
Definition reg_ok (calls : ∀ m, list (arg m)) (t : thread) : Prop :=
  match t_prog t with
  | IStore m _ :: _ => t_reg t m = calls m
  | IRUnlock m :: _ | IResult m :: _ => t_reg t m `prefix_of` calls m
  | _ => True
  end.

Record mock_ok (s : State) : Prop := {
  mk_writer m i : rw_writer (st_lock s m) = Some i ↔ holder s m true i;
  mk_readers m i : i ∈ rw_readers (st_lock s m) ↔ holder s m false i;
  mk_excl m i : rw_writer (st_lock s m) = Some i → rw_readers (st_lock s m) = ∅;
  mk_rest i t : st_threads s !! i = Some t → rest (t_prog t) ∧ reg_ok (st_calls s) t;
  mk_calls m : st_calls s m ≡ₚ st_threads s ≫= stored m;
  mk_order i t m : st_threads s !! i = Some t → stored m t `sublist_of` st_calls s m;
  mk_reads i t m l : st_threads s !! i = Some t → ERead m l ∈ t_log t → l `prefix_of` st_calls s m
}.

(** A goroutine that goes on, with new entries in its log. *)
Lemma bind_insert {A B} (f : A → list B) (l : list A) i x y :
  l !! i = Some x → (∃ z, f y = f x ++ z) →
  ∃ z, f y = f x ++ z ∧ (<[i := y]> l ≫= f) ≡ₚ (l ≫= f) ++ z.
Proof.
  intros Hi [z Hz]. exists z. split; [done|]. revert i Hi. induction l as [|a l IH]; intros [|i] Hi;
    simplify_eq/=.
  - rewrite Hz. rewrite <- !app_assoc. f_equiv. apply Permutation_app_comm.
  - rewrite IH by done. by rewrite app_assoc.
Qed.

Lemma mock_ok_update s i t calls' lock' t' :
  mock_ok s → st_threads s !! i = Some t →
  (∀ m j, rw_writer (lock' m) = Some j ↔
     if decide (j = i) then holds (t_prog t') = Some (m, true) else rw_writer (st_lock s m) = Some j) →
  (∀ m j, j ∈ rw_readers (lock' m) ↔
     if decide (j = i) then holds (t_prog t') = Some (m, false) else j ∈ rw_readers (st_lock s m)) →
  (∀ m j, rw_writer (lock' m) = Some j → rw_readers (lock' m) = ∅) →
  rest (t_prog t') → reg_ok calls' t' →
  (∀ m, calls' m = st_calls s m ∧ stored m t' = stored m t ∨
     holds (t_prog t) = Some (m, true) ∧
     ∃ a, calls' m = st_calls s m ++ [a] ∧ stored m t' = stored m t ++ [a]) →
  (∀ m l, ERead m l ∈ t_log t' → l `prefix_of` calls' m) →
  mock_ok {| st_calls := calls'; st_lock := lock'; st_threads := <[i := t']> (st_threads s) |}.
Proof.
  intros Hok Hi Hw Hr Hx Hrest Hreg Hc Hreads.
  assert (i < length (st_threads s))%nat as Hlt by by eapply lookup_lt_Some.
  assert (∀ m, ∃ z, calls' m = st_calls s m ++ z ∧ stored m t' = stored m t ++ z) as Hz.
  { intros m. destruct (Hc m) as [[-> ->]|(_ & a & -> & ->)]; [exists []; by rewrite !app_nil_r|by eauto]. }
  assert (∀ m, st_calls s m `prefix_of` calls' m) as Hpre.
  { intros m. destruct (Hz m) as (z & -> & _). by eexists. }
  assert (∀ w m j, holder {| st_calls := calls'; st_lock := lock'; st_threads := <[i:=t']> (st_threads s) |} m w j
    ↔ if decide (j = i) then holds (t_prog t') = Some (m, w) else holder s m w j) as Hh.
  { intros w m j. unfold holder. simpl. case_decide as E; [subst j|].
    - rewrite list_lookup_insert_eq by done. split; [by intros (? & [= <-] & ?)|by eauto].
    - by rewrite list_lookup_insert_ne by done. }
  split; simpl.
  - intros m j. rewrite Hw, Hh. case_decide; [done|]. apply (mk_writer _ Hok).
  - intros m j. rewrite Hr, Hh. case_decide; [done|]. apply (mk_readers _ Hok).
  - done.
  - intros j u [(-> & -> & _)|[Hne Hj]]%list_lookup_insert_Some; [done|].
    destruct (mk_rest _ Hok _ _ Hj) as [Hu Hru]. split; [done|]. unfold reg_ok in *.
    assert (∀ m, t_reg u m `prefix_of` st_calls s m → t_reg u m `prefix_of` calls' m) as Hp
      by (intros m ?; by etrans).
    destruct (t_prog u) as [|[] q] eqn:Ep; auto.
    destruct (Hc m) as [[-> _]|[Hti _]]; [done|].
    assert (rw_writer (st_lock s m) = Some i) as Hwi by (apply (mk_writer _ Hok); by eexists).
    assert (rw_writer (st_lock s m) = Some j) as Hwj.
    { apply (mk_writer _ Hok). exists u. by rewrite Ep. }
    congruence.
  - intros m. destruct (Hz m) as (z & Hcz & Hsz).
    destruct (bind_insert (stored m) (st_threads s) i t t') as (z' & Hsz' & Hp); [done|by eauto|].
    assert (z' = z) as -> by (apply (app_inv_head (stored m t)); congruence).
    by rewrite Hcz, Hp, (mk_calls _ Hok m).
  - intros j u m [(-> & -> & _)|[_ Hj]]%list_lookup_insert_Some; destruct (Hz m) as (z & Hcz & Hsz);
      rewrite Hcz.
    + rewrite Hsz. apply sublist_app; [by eapply (mk_order _ Hok)|done].
    + apply sublist_inserts_r. by eapply (mk_order _ Hok).
  - intros j u m l [(-> & -> & _)|[_ Hj]]%list_lookup_insert_Some; [by auto|].
    intros Hl. etrans; [by eapply (mk_reads _ Hok)|done].
Qed.

(** Statements that touch neither a lock nor the calls. *)
Lemma mock_ok_local s i t p reg log :
  mock_ok s → st_threads s !! i = Some t → holds p = holds (t_prog t) → rest p →
  reg_ok (st_calls s) {| t_prog := p; t_reg := reg; t_log := log |} →
  (∀ m, log ≫= stored_of m = stored m t) →
  (∀ m l, ERead m l ∈ log → ERead m l ∈ t_log t ∨ l `prefix_of` st_calls s m) →
  mock_ok (set_thread i p reg log s).
Proof.
  intros Hok Hi Hh Hrest Hreg Hst Hreads.
  apply (mock_ok_update s i t); try done; simpl.
  - intros m j. case_decide as E; [|done]. subst j. rewrite Hh, (mk_writer _ Hok). split; [|intros ?; by exists t].
    intros (t0 & ? & ?). by simplify_eq.
  - intros m j. case_decide as E; [|done]. subst j. rewrite Hh, (mk_readers _ Hok). split; [|intros ?; by exists t].
    intros (t0 & ? & ?). by simplify_eq.
  - apply (mk_excl _ Hok).
  - intros m. left. split; [done|]. apply Hst.
  - intros m l Hl. destruct (Hreads _ _ Hl) as [?|?]; [by eapply (mk_reads _ Hok)|done].
Qed.

(** Statements on a lock. *)
Lemma mock_ok_lock s i t m0 w p l :
  mock_ok s → st_threads s !! i = Some t → rest p →
  reg_ok (st_calls s) {| t_prog := p; t_reg := t_reg t; t_log := t_log t |} →
  (** The lock is taken, or given back. *)
  (holds (t_prog t) = None ∧ holds p = Some (m0, w) ∨ holds (t_prog t) = Some (m0, w) ∧ holds p = None) →
  (∀ j, rw_writer l = Some j ↔
     if decide (j = i) then holds p = Some (m0, true) else rw_writer (st_lock s m0) = Some j) →
  (∀ j, j ∈ rw_readers l ↔
     if decide (j = i) then holds p = Some (m0, false) else j ∈ rw_readers (st_lock s m0)) →
  (∀ j, rw_writer l = Some j → rw_readers l = ∅) →
  mock_ok (set_lock m0 l (set_thread i p (t_reg t) (t_log t) s)).
Proof.
  intros Hok Hi Hrest Hreg Hh Hw Hr Hx.
  assert (∀ m w', m ≠ m0 → holds (t_prog t) ≠ Some (m, w') ∧ holds p ≠ Some (m, w')) as Hne.
  { intros m w' Hm. destruct Hh as [[-> ->]|[-> ->]]; split; congruence. }
  apply (mock_ok_update s i t); try done; simpl.
  - intros m j. case_decide as E; [subst m; apply Hw|].
    case_decide as Ej; [subst j|done]. rewrite (mk_writer _ Hok). split.
    + intros (t0 & ? & ?). simplify_eq. by destruct (Hne m true (not_eq_sym E)).
    + by destruct (Hne m true (not_eq_sym E)).
  - intros m j. case_decide as E; [subst m; apply Hr|].
    case_decide as Ej; [subst j|done]. rewrite (mk_readers _ Hok). split.
    + intros (t0 & ? & ?). simplify_eq. by destruct (Hne m false (not_eq_sym E)).
    + by destruct (Hne m false (not_eq_sym E)).
  - intros m j. case_decide; [apply Hx|apply (mk_excl _ Hok)].
  - by left.
  - intros m l' Hl. by eapply (mk_reads _ Hok).
Qed.

Lemma stored_new (log : list event) m a m' :
  (log ++ [EStored m a]) ≫= stored_of m' =
    (log ≫= stored_of m') ++ match decide (m = m') with left e => [eq_rect m arg a m' e] | right _ => [] end.
Proof. rewrite bind_app. simpl. by rewrite app_nil_r. Qed.

(** The store of a call. *)
Lemma mock_ok_store s i t m a p :
  mock_ok s → st_threads s !! i = Some t → t_prog t = IStore m a :: p → rest p →
  holds p = Some (m, true) → (∃ q, p = IUnlock m :: q) →
  mock_ok (set_calls m (t_reg t m ++ [a]) (set_thread i p (t_reg t) (t_log t ++ [EStored m a]) s)).
Proof.
  intros Hok Hi Ep Hrest Hh [q Hq].
  destruct (mk_rest _ Hok _ _ Hi) as [_ Hreg]. unfold reg_ok in Hreg. rewrite Ep in Hreg.
  assert (holds (t_prog t) = Some (m, true)) as Hh' by by rewrite Ep.
  apply (mock_ok_update s i t); try done; simpl.
  - intros m' j. case_decide as E; [subst j|done]. rewrite Hh, <- Hh', (mk_writer _ Hok).
    split; [intros (? & ? & ?); by simplify_eq|intros ?; by exists t].
  - intros m' j. case_decide as E; [subst j|done]. rewrite Hh, <- Hh', (mk_readers _ Hok).
    split; [intros (? & ? & ?); by simplify_eq|intros ?; by exists t].
  - apply (mk_excl _ Hok).
  - by rewrite Hq.
  - intros m'. unfold stored. simpl. rewrite stored_new. destruct (decide (m = m')) as [<-|Hm].
    + right. split; [done|]. exists a. by rewrite dupd_eq, Hreg.
    + left. by rewrite dupd_ne, app_nil_r by done.
  - intros m' l [Hl|Hl]%elem_of_app; [|by apply list_elem_of_singleton in Hl].
    pose proof (mk_reads _ Hok _ _ _ _ Hi Hl) as Hp. destruct (decide (m = m')) as [<-|Hm].
    + rewrite dupd_eq, Hreg. by apply prefix_app_r.
    + by rewrite dupd_ne.
Qed.

Lemma uses_reg_ok calls p reg log :
  uses p → reg_ok calls {| t_prog := p; t_reg := reg; t_log := log |}.
Proof. by destruct 1. Qed.
Lemma log_local t log m : log = t_log t → log ≫= stored_of m = stored m t.
Proof. by intros ->. Qed.

Lemma start_ok progs : Forall uses progs → mock_ok (start progs).
Proof.
  intros Hp.
  assert (∀ i t, st_threads (start progs) !! i = Some t → uses (t_prog t) ∧ t_log t = []) as Ht.
  { intros i t. simpl. rewrite list_lookup_fmap. intros (p & Hi & ->)%fmap_Some. simpl.
    split; [|done]. by eapply Forall_lookup_1. }
  assert (∀ m w i, ¬ holder (start progs) m w i) as Hno.
  { intros m w i (t & [Hu _]%Ht & Hh). by rewrite holds_uses in Hh. }
  split.
  - intros m i. split; [done|by intros ?%Hno].
  - intros m i. split; [set_solver|by intros ?%Hno].
  - done.
  - intros i [p r l] [Hu _]%Ht. split; [by apply rest_uses|by apply uses_reg_ok].
  - intros m. simpl. clear. induction progs; [done|]. by csimpl.
  - intros i t m [_ Hl]%Ht. unfold stored. rewrite Hl. apply sublist_nil_l.
  - intros i t m l [_ Hl]%Ht. rewrite Hl. by intros ?%elem_of_nil.
Qed.

Section run.
#[local] Set Default Proof Using "Type*".
Context (Func_uses : ∀ m f a, Func m = Some f → uses (f a).1).

Lemma step_ok i s s' : step i s = Some s' → mock_ok s → mock_ok s'.
Proof.
  intros Hs Hok. unfold step in Hs. destruct (st_threads s !! i) as [t|] eqn:Hi; [|done]. simpl in Hs.
  destruct (mk_rest _ Hok _ _ Hi) as [Hrest Hreg]. destruct (rest_next _ Hrest) as [Hn Hq].
  assert (∀ m w, holds (t_prog t) = Some (m, w) → holder s m w i) as Hown by (intros; by exists t).
  unfold reg_ok in Hreg.
  destruct (t_prog t) as [|[m|m|m|m|m|m|m a|m a|m r|m] p] eqn:Ep; [done|..]; simpl in Hn, Hq, Hown.
  - destruct (Func m); [|done]. simplify_eq. destruct Hn as (a & q & ->).
    apply (mock_ok_local _ _ t); rewrite ?Ep; auto using log_local.
  - case_decide as Hfree; [|done]. simplify_eq. destruct Hfree as [Hw Hr], Hn as (a & q & ->).
    apply (mock_ok_lock _ _ t _ true); rewrite ?Ep; auto; intros j; simpl; try done.
    + case_decide; naive_solver.
    + case_decide; [subst; set_solver|by rewrite Hr].
  - simplify_eq. destruct Hn as (a & q & ->). specialize (Hown m true eq_refl).
    apply (mk_writer _ Hok) in Hown. pose proof (mk_excl _ Hok _ _ Hown) as Hr.
    apply (mock_ok_lock _ _ t _ true); rewrite ?Ep; auto; intros j; simpl; try done.
    + case_decide; [done|]. rewrite Hown. naive_solver.
    + case_decide; [subst; set_solver|done].
  - case_decide as Hw; [|done]. simplify_eq. destruct Hn as (q & ->).
    apply (mock_ok_lock _ _ t _ false); rewrite ?Ep; auto; intros j; simpl; try done.
    + case_decide; naive_solver.
    + case_decide; [subst|]; set_solver.
  - simplify_eq. destruct Hn as (q & ->). specialize (Hown m false eq_refl).
    apply (mk_readers _ Hok) in Hown.
    assert (∀ j, rw_writer (st_lock s m) ≠ Some j) as Hw.
    { intros j Hj. apply (mk_excl _ Hok) in Hj. set_solver. }
    apply (mock_ok_lock _ _ t _ false); rewrite ?Ep; auto; intros j; simpl; try done.
    + case_decide; [|done]. naive_solver.
    + case_decide; [subst|]; set_solver.
    + intros Hj. by destruct (Hw j).
  - simplify_eq. apply (mock_ok_local _ _ t); rewrite ?Ep; auto using log_local.
    + by destruct Hn as [(a & q & ->)|(q & ->)].
    + destruct Hn as [(a & q & ->)|(q & ->)]; unfold reg_ok; simpl; by rewrite dupd_eq.
  - simplify_eq. destruct Hn as (q & ->). by apply (mock_ok_store s i t); eauto.
  - destruct (Func m) as [f|] eqn:Ef; [|done]. simplify_eq.
    assert (uses ((f a).1 ++ IReturn m (f a).2 :: p)) as Hu.
    { apply uses_app; [by eapply Func_uses|by constructor]. }
    apply (mock_ok_local _ _ t); rewrite ?Ep; auto using log_local, uses_reg_ok, rest_uses.
    by apply holds_uses.
  - simplify_eq. apply (mock_ok_local _ _ t); rewrite ?Ep; auto using uses_reg_ok.
    + by apply holds_uses.
    + intros m'. rewrite bind_app. simpl. by rewrite app_nil_r.
    + intros m' l [?|Hl]%elem_of_app; [by left|by apply list_elem_of_singleton in Hl].
  - simplify_eq. apply (mock_ok_local _ _ t); rewrite ?Ep; auto using uses_reg_ok.
    + by apply holds_uses.
    + intros m'. rewrite bind_app. simpl. by rewrite app_nil_r.
    + intros m' l [?|Hl]%elem_of_app; [by left|]. apply list_elem_of_singleton in Hl. right.
      change (match ERead m' l with ERead n x => x `prefix_of` st_calls s n | _ => True end).
      by rewrite Hl.
Qed.

Lemma reached_ok progs s : Forall uses progs → rtc steps (start progs) s → mock_ok s.
Proof.
  intros Hp Hr. pose proof (start_ok _ Hp) as Hok. revert Hok.
  induction Hr as [|s1 s2 s3 [i Hi] _ IH]; [done|]. intros Hok. by eapply IH, step_ok.
Qed.

(** A goroutine that holds a lock goes on. *)
Lemma holder_steps s m w i : mock_ok s → holder s m w i → ∃ s', step i s = Some s'.
Proof using Type.
  intros Hok (t & Hi & Hh). destruct (mk_rest _ Hok _ _ Hi) as [Hrest _].
  unfold step. rewrite Hi. simpl.
  destruct (t_prog t) as [|[] p]; simpl in Hh; try done; by eexists.
Qed.
(** So does any that has statements left, some goroutine, or there is a panic. *)
Lemma some_steps s i t :
  mock_ok s → st_threads s !! i = Some t → t_prog t ≠ [] →
  (∃ s', steps s s') ∨ ∃ msg, panics i s = Some msg.
Proof.
  intros Hok Hi Hne. destruct (mk_rest _ Hok _ _ Hi) as [Hrest _].
  assert (∀ m, (∃ j, rw_writer (st_lock s m) = Some j) ∨ (∃ j, j ∈ rw_readers (st_lock s m)) →
    ∃ s', steps s s') as Hheld.
  { intros m [[j Hj]|[j Hj]]; [apply (mk_writer _ Hok) in Hj|apply (mk_readers _ Hok) in Hj];
      destruct (holder_steps _ _ _ _ Hok Hj) as [s' ?]; by exists s', j. }
  destruct (step i s) as [s'|] eqn:Hs; [left; by exists s', i|].
  unfold step in Hs. unfold panics. rewrite Hi in *. simpl in *.
  destruct (t_prog t) as [|[m|m|m|m|m|m|m a|m a|m r|m] p] eqn:Ep; try done.
  - destruct (Func m); [done|by eauto].
  - case_decide as Hf; [done|]. left. apply (Hheld m).
    destruct (rw_writer (st_lock s m)) as [j|]; [by eauto|]. right.
    apply set_choose_L. naive_solver.
  - case_decide as Hf; [done|]. left. apply (Hheld m).
    destruct (rw_writer (st_lock s m)) as [j|]; [by eauto|done].
  - destruct (Func m); [done|by eauto].
Qed.

(** C27 Goroutines that share a mock lose no call, however they interleave, also when
    the functions of the mock use it themselves. At any time the list of calls of a
    method has exactly the arguments that the goroutines have stored, those of one
    goroutine in the order of its calls; a list that was read stays a prefix of it;
    and as long as a goroutine has something to do, some goroutine can go on, unless
    one panics because a function is missing: there is no deadlock. *)
Theorem mock_records_calls progs s :
  Forall uses progs → rtc steps (start progs) s →
  (∀ m, st_calls s m ≡ₚ st_threads s ≫= stored m) ∧
  (∀ i t m, st_threads s !! i = Some t → stored m t `sublist_of` st_calls s m) ∧
  (∀ i t m l, st_threads s !! i = Some t → ERead m l ∈ t_log t → l `prefix_of` st_calls s m) ∧
  (∀ i t, st_threads s !! i = Some t → t_prog t ≠ [] →
     (∃ s', steps s s') ∨ ∃ msg, panics i s = Some msg).
Proof.
  intros Hp Hr. pose proof (reached_ok _ _ Hp Hr) as Hok.
  split_and!; [apply (mk_calls _ Hok)|apply (mk_order _ Hok)|apply (mk_reads _ Hok)|].
  intros i t. by apply some_steps.
Qed.
End run.

(** Runs by the goroutines of a list, in its order. *)
Definition run (l : list nat) (s : State) : option State := foldl (λ o i, o ≫= step i) (Some s) l.
Lemma run_rtc l s s' : run l s = Some s' → rtc steps s s'.
Proof.
  assert (∀ l', foldl (λ o i, o ≫= step i) None l' = None) as Hnone by by induction l'.
  unfold run. revert s. induction l as [|i l IH]; simpl; intros s H; [by simplify_eq|].
  destruct (step i s) as [s1|] eqn:E; [|by rewrite Hnone in H].
  eapply rtc_l; [by exists i|by apply IH].
Qed.
End mock.
Arguments EStored {_} _ _.

(** ** Witness *)

(** An interface of two methods on numbers; the function of the first calls the
    second. *)
Definition demo_sig : MockSig :=
  {| method := bool; arg _ := nat; res _ := nat; iface := "Demo";
     method_name m := if m then "Put" else "Get" |}.
Definition demo_Func (m : bool) : option (nat → list (instr (SIG := demo_sig)) * nat) :=
  Some (λ a, if m then (mock_method (SIG := demo_sig) false (a + 1)%nat, a) else ([], 0%nat)).
Definition demo_progs : list (list (instr (SIG := demo_sig))) :=
  [mock_method (SIG := demo_sig) true 1%nat; mock_method (SIG := demo_sig) true 2%nat;
   mock_calls (SIG := demo_sig) true].

(** The second goroutine is checked while the first holds the lock. *)
Definition demo_run : list nat := [0; 0; 1; 0; 0; 0; 2; 2; 2; 1; 1; 1; 1; 1; 2; 0; 0; 0; 0; 0; 0]%nat.
Lemma mock_records_calls_witness :
  match run (SIG := demo_sig) demo_Func demo_run (start (SIG := demo_sig) demo_progs) with
  | Some s => st_calls s true = [1; 2]%nat ∧ st_calls s false = [2]%nat ∧
              st_calls s true ≡ₚ st_threads s ≫= stored (SIG := demo_sig) true
  | None => False
  end.
Proof.
  destruct (run _ _ _) as [s|] eqn:E; [|by vm_compute in E].
  assert (Forall (uses (SIG := demo_sig)) demo_progs) as Hp.
  { repeat constructor. }
  split_and!.
  - vm_compute in E. by injection E as <-.
  - vm_compute in E. by injection E as <-.
  - eapply (mock_records_calls (SIG := demo_sig) demo_Func); [|exact Hp|by eapply run_rtc].
    intros m f a [= <-]. destruct m; simpl; [|constructor].
    apply (uses_method (SIG := demo_sig) false (a + 1)%nat []). constructor.
Defined.
