(* ===== verification/Mocks.v ===== *)
(** * Mocks: the mocked gRPC clients (src/protos/{workflow,template,hardware}/mock.go)

    For each mocked interface its methods, the arguments that a call records (the
    entries of [calls]) and what its function returns, and each method and companion
    as a program of [Mock]. A mock does not look into values: the types of Go are a
    parameter, by their names. *)
From S2P Require Import Prelude Mock.
From stdpp Require Import options.

Section mocks.
Context (go_type : string → Type).

(** The arguments of a unary call and of a call that opens a stream, and a result
    with an error. *)
Definition unary (t : string) : Type :=
  (go_type "context.Context" * go_type t * list (go_type "grpc.CallOption"))%type.
Definition returns (t : string) : Type := (go_type t * option error)%type.

(** ** [WorkflowServiceClientMock] *)
Inductive WorkflowServiceClientMock_method :=
  | WorkflowServiceClientMock_mCreateWorkflow
  | WorkflowServiceClientMock_mDeleteWorkflow
  | WorkflowServiceClientMock_mGetWorkflow
  | WorkflowServiceClientMock_mGetWorkflowActions
  | WorkflowServiceClientMock_mGetWorkflowContext
  | WorkflowServiceClientMock_mGetWorkflowContextList
  | WorkflowServiceClientMock_mGetWorkflowContexts
  | WorkflowServiceClientMock_mGetWorkflowData
  | WorkflowServiceClientMock_mGetWorkflowDataVersion
  | WorkflowServiceClientMock_mGetWorkflowMetadata
  | WorkflowServiceClientMock_mListWorkflows
  | WorkflowServiceClientMock_mReportActionStatus
  | WorkflowServiceClientMock_mShowWorkflowEvents
  | WorkflowServiceClientMock_mUpdateWorkflowData.
#[global] Instance WorkflowServiceClientMock_method_eq_dec : EqDecision WorkflowServiceClientMock_method.
Proof. solve_decision. Defined.
Definition WorkflowServiceClientMock_arg (m : WorkflowServiceClientMock_method) : Type :=
  match m with
  | WorkflowServiceClientMock_mCreateWorkflow => unary "*workflow.CreateRequest"
  | WorkflowServiceClientMock_mDeleteWorkflow => unary "*workflow.GetRequest"
  | WorkflowServiceClientMock_mGetWorkflow => unary "*workflow.GetRequest"
  | WorkflowServiceClientMock_mGetWorkflowActions => unary "*workflow.WorkflowActionsRequest"
  | WorkflowServiceClientMock_mGetWorkflowContext => unary "*workflow.GetRequest"
  | WorkflowServiceClientMock_mGetWorkflowContextList => unary "*workflow.WorkflowContextRequest"
  | WorkflowServiceClientMock_mGetWorkflowContexts => unary "*workflow.WorkflowContextRequest"
  | WorkflowServiceClientMock_mGetWorkflowData => unary "*workflow.GetWorkflowDataRequest"
  | WorkflowServiceClientMock_mGetWorkflowDataVersion => unary "*workflow.GetWorkflowDataRequest"
  | WorkflowServiceClientMock_mGetWorkflowMetadata => unary "*workflow.GetWorkflowDataRequest"
  | WorkflowServiceClientMock_mListWorkflows => unary "*workflow.Empty"
  | WorkflowServiceClientMock_mReportActionStatus => unary "*workflow.WorkflowActionStatus"
  | WorkflowServiceClientMock_mShowWorkflowEvents => unary "*workflow.GetRequest"
  | WorkflowServiceClientMock_mUpdateWorkflowData => unary "*workflow.UpdateWorkflowDataRequest"
  end%type.
Definition WorkflowServiceClientMock_res (m : WorkflowServiceClientMock_method) : Type :=
  match m with
  | WorkflowServiceClientMock_mCreateWorkflow => returns "*workflow.CreateResponse"
  | WorkflowServiceClientMock_mDeleteWorkflow => returns "*workflow.Empty"
  | WorkflowServiceClientMock_mGetWorkflow => returns "*workflow.Workflow"
  | WorkflowServiceClientMock_mGetWorkflowActions => returns "*workflow.WorkflowActionList"
  | WorkflowServiceClientMock_mGetWorkflowContext => returns "*workflow.WorkflowContext"
  | WorkflowServiceClientMock_mGetWorkflowContextList => returns "*workflow.WorkflowContextList"
  | WorkflowServiceClientMock_mGetWorkflowContexts => returns "workflow.WorkflowService_GetWorkflowContextsClient"
  | WorkflowServiceClientMock_mGetWorkflowData => returns "*workflow.GetWorkflowDataResponse"
  | WorkflowServiceClientMock_mGetWorkflowDataVersion => returns "*workflow.GetWorkflowDataResponse"
  | WorkflowServiceClientMock_mGetWorkflowMetadata => returns "*workflow.GetWorkflowDataResponse"
  | WorkflowServiceClientMock_mListWorkflows => returns "workflow.WorkflowService_ListWorkflowsClient"
  | WorkflowServiceClientMock_mReportActionStatus => returns "*workflow.Empty"
  | WorkflowServiceClientMock_mShowWorkflowEvents => returns "workflow.WorkflowService_ShowWorkflowEventsClient"
  | WorkflowServiceClientMock_mUpdateWorkflowData => returns "*workflow.Empty"
  end%type.
Definition WorkflowServiceClientMock_name (m : WorkflowServiceClientMock_method) : string :=
  match m with
  | WorkflowServiceClientMock_mCreateWorkflow => "CreateWorkflow"
  | WorkflowServiceClientMock_mDeleteWorkflow => "DeleteWorkflow"
  | WorkflowServiceClientMock_mGetWorkflow => "GetWorkflow"
  | WorkflowServiceClientMock_mGetWorkflowActions => "GetWorkflowActions"
  | WorkflowServiceClientMock_mGetWorkflowContext => "GetWorkflowContext"
  | WorkflowServiceClientMock_mGetWorkflowContextList => "GetWorkflowContextList"
  | WorkflowServiceClientMock_mGetWorkflowContexts => "GetWorkflowContexts"
  | WorkflowServiceClientMock_mGetWorkflowData => "GetWorkflowData"
  | WorkflowServiceClientMock_mGetWorkflowDataVersion => "GetWorkflowDataVersion"
  | WorkflowServiceClientMock_mGetWorkflowMetadata => "GetWorkflowMetadata"
  | WorkflowServiceClientMock_mListWorkflows => "ListWorkflows"
  | WorkflowServiceClientMock_mReportActionStatus => "ReportActionStatus"
  | WorkflowServiceClientMock_mShowWorkflowEvents => "ShowWorkflowEvents"
  | WorkflowServiceClientMock_mUpdateWorkflowData => "UpdateWorkflowData"
  end.
Definition WorkflowServiceClientMock : MockSig :=
  {| method := WorkflowServiceClientMock_method; arg := WorkflowServiceClientMock_arg;
     res := WorkflowServiceClientMock_res; iface := "WorkflowServiceClient";
     method_name := WorkflowServiceClientMock_name |}.
Definition WorkflowServiceClientMock_CreateWorkflow ctx in_ opts :=
  mock_method (SIG := WorkflowServiceClientMock) WorkflowServiceClientMock_mCreateWorkflow (ctx, in_, opts).
Definition WorkflowServiceClientMock_CreateWorkflowCalls :=
  mock_calls (SIG := WorkflowServiceClientMock) WorkflowServiceClientMock_mCreateWorkflow.
Definition WorkflowServiceClientMock_DeleteWorkflow ctx in_ opts :=
  mock_method (SIG := WorkflowServiceClientMock) WorkflowServiceClientMock_mDeleteWorkflow (ctx, in_, opts).
Definition WorkflowServiceClientMock_DeleteWorkflowCalls :=
  mock_calls (SIG := WorkflowServiceClientMock) WorkflowServiceClientMock_mDeleteWorkflow.
Definition WorkflowServiceClientMock_GetWorkflow ctx in_ opts :=
  mock_method (SIG := WorkflowServiceClientMock) WorkflowServiceClientMock_mGetWorkflow (ctx, in_, opts).
Definition WorkflowServiceClientMock_GetWorkflowCalls :=
  mock_calls (SIG := WorkflowServiceClientMock) WorkflowServiceClientMock_mGetWorkflow.
Definition WorkflowServiceClientMock_GetWorkflowActions ctx in_ opts :=
  mock_method (SIG := WorkflowServiceClientMock) WorkflowServiceClientMock_mGetWorkflowActions (ctx, in_, opts).
Definition WorkflowServiceClientMock_GetWorkflowActionsCalls :=
  mock_calls (SIG := WorkflowServiceClientMock) WorkflowServiceClientMock_mGetWorkflowActions.
Definition WorkflowServiceClientMock_GetWorkflowContext ctx in_ opts :=
  mock_method (SIG := WorkflowServiceClientMock) WorkflowServiceClientMock_mGetWorkflowContext (ctx, in_, opts).
Definition WorkflowServiceClientMock_GetWorkflowContextCalls :=
  mock_calls (SIG := WorkflowServiceClientMock) WorkflowServiceClientMock_mGetWorkflowContext.
Definition WorkflowServiceClientMock_GetWorkflowContextList ctx in_ opts :=
  mock_method (SIG := WorkflowServiceClientMock) WorkflowServiceClientMock_mGetWorkflowContextList (ctx, in_, opts).
Definition WorkflowServiceClientMock_GetWorkflowContextListCalls :=
  mock_calls (SIG := WorkflowServiceClientMock) WorkflowServiceClientMock_mGetWorkflowContextList.
Definition WorkflowServiceClientMock_GetWorkflowContexts ctx in_ opts :=
  mock_method (SIG := WorkflowServiceClientMock) WorkflowServiceClientMock_mGetWorkflowContexts (ctx, in_, opts).
Definition WorkflowServiceClientMock_GetWorkflowContextsCalls :=
  mock_calls (SIG := WorkflowServiceClientMock) WorkflowServiceClientMock_mGetWorkflowContexts.
Definition WorkflowServiceClientMock_GetWorkflowData ctx in_ opts :=
  mock_method (SIG := WorkflowServiceClientMock) WorkflowServiceClientMock_mGetWorkflowData (ctx, in_, opts).
Definition WorkflowServiceClientMock_GetWorkflowDataCalls :=
  mock_calls (SIG := WorkflowServiceClientMock) WorkflowServiceClientMock_mGetWorkflowData.
Definition WorkflowServiceClientMock_GetWorkflowDataVersion ctx in_ opts :=
  mock_method (SIG := WorkflowServiceClientMock) WorkflowServiceClientMock_mGetWorkflowDataVersion (ctx, in_, opts).
Definition WorkflowServiceClientMock_GetWorkflowDataVersionCalls :=
  mock_calls (SIG := WorkflowServiceClientMock) WorkflowServiceClientMock_mGetWorkflowDataVersion.
Definition WorkflowServiceClientMock_GetWorkflowMetadata ctx in_ opts :=
  mock_method (SIG := WorkflowServiceClientMock) WorkflowServiceClientMock_mGetWorkflowMetadata (ctx, in_, opts).
Definition WorkflowServiceClientMock_GetWorkflowMetadataCalls :=
  mock_calls (SIG := WorkflowServiceClientMock) WorkflowServiceClientMock_mGetWorkflowMetadata.
Definition WorkflowServiceClientMock_ListWorkflows ctx in_ opts :=
  mock_method (SIG := WorkflowServiceClientMock) WorkflowServiceClientMock_mListWorkflows (ctx, in_, opts).
Definition WorkflowServiceClientMock_ListWorkflowsCalls :=
  mock_calls (SIG := WorkflowServiceClientMock) WorkflowServiceClientMock_mListWorkflows.
Definition WorkflowServiceClientMock_ReportActionStatus ctx in_ opts :=
  mock_method (SIG := WorkflowServiceClientMock) WorkflowServiceClientMock_mReportActionStatus (ctx, in_, opts).
Definition WorkflowServiceClientMock_ReportActionStatusCalls :=
  mock_calls (SIG := WorkflowServiceClientMock) WorkflowServiceClientMock_mReportActionStatus.
Definition WorkflowServiceClientMock_ShowWorkflowEvents ctx in_ opts :=
  mock_method (SIG := WorkflowServiceClientMock) WorkflowServiceClientMock_mShowWorkflowEvents (ctx, in_, opts).
Definition WorkflowServiceClientMock_ShowWorkflowEventsCalls :=
  mock_calls (SIG := WorkflowServiceClientMock) WorkflowServiceClientMock_mShowWorkflowEvents.
Definition WorkflowServiceClientMock_UpdateWorkflowData ctx in_ opts :=
  mock_method (SIG := WorkflowServiceClientMock) WorkflowServiceClientMock_mUpdateWorkflowData (ctx, in_, opts).
Definition WorkflowServiceClientMock_UpdateWorkflowDataCalls :=
  mock_calls (SIG := WorkflowServiceClientMock) WorkflowServiceClientMock_mUpdateWorkflowData.

(** ** [WorkflowService_ListWorkflowsClientMock] *)
Inductive WorkflowService_ListWorkflowsClientMock_method :=
  | WorkflowService_ListWorkflowsClientMock_mCloseSend
  | WorkflowService_ListWorkflowsClientMock_mContext
  | WorkflowService_ListWorkflowsClientMock_mHeader
  | WorkflowService_ListWorkflowsClientMock_mRecv
  | WorkflowService_ListWorkflowsClientMock_mRecvMsg
  | WorkflowService_ListWorkflowsClientMock_mSendMsg
  | WorkflowService_ListWorkflowsClientMock_mTrailer.
#[global] Instance WorkflowService_ListWorkflowsClientMock_method_eq_dec : EqDecision WorkflowService_ListWorkflowsClientMock_method.
Proof. solve_decision. Defined.
Definition WorkflowService_ListWorkflowsClientMock_arg (m : WorkflowService_ListWorkflowsClientMock_method) : Type :=
  match m with
  | WorkflowService_ListWorkflowsClientMock_mCloseSend => unit
  | WorkflowService_ListWorkflowsClientMock_mContext => unit
  | WorkflowService_ListWorkflowsClientMock_mHeader => unit
  | WorkflowService_ListWorkflowsClientMock_mRecv => unit
  | WorkflowService_ListWorkflowsClientMock_mRecvMsg => go_type "interface{}"
  | WorkflowService_ListWorkflowsClientMock_mSendMsg => go_type "interface{}"
  | WorkflowService_ListWorkflowsClientMock_mTrailer => unit
  end%type.
Definition WorkflowService_ListWorkflowsClientMock_res (m : WorkflowService_ListWorkflowsClientMock_method) : Type :=
  match m with
  | WorkflowService_ListWorkflowsClientMock_mCloseSend => option error
  | WorkflowService_ListWorkflowsClientMock_mContext => go_type "context.Context"
  | WorkflowService_ListWorkflowsClientMock_mHeader => returns "metadata.MD"
  | WorkflowService_ListWorkflowsClientMock_mRecv => returns "*workflow.Workflow"
  | WorkflowService_ListWorkflowsClientMock_mRecvMsg => option error
  | WorkflowService_ListWorkflowsClientMock_mSendMsg => option error
  | WorkflowService_ListWorkflowsClientMock_mTrailer => go_type "metadata.MD"
  end%type.
Definition WorkflowService_ListWorkflowsClientMock_name (m : WorkflowService_ListWorkflowsClientMock_method) : string :=
  match m with
  | WorkflowService_ListWorkflowsClientMock_mCloseSend => "CloseSend"
  | WorkflowService_ListWorkflowsClientMock_mContext => "Context"
  | WorkflowService_ListWorkflowsClientMock_mHeader => "Header"
  | WorkflowService_ListWorkflowsClientMock_mRecv => "Recv"
  | WorkflowService_ListWorkflowsClientMock_mRecvMsg => "RecvMsg"
  | WorkflowService_ListWorkflowsClientMock_mSendMsg => "SendMsg"
  | WorkflowService_ListWorkflowsClientMock_mTrailer => "Trailer"
  end.
Definition WorkflowService_ListWorkflowsClientMock : MockSig :=
  {| method := WorkflowService_ListWorkflowsClientMock_method; arg := WorkflowService_ListWorkflowsClientMock_arg;
     res := WorkflowService_ListWorkflowsClientMock_res; iface := "WorkflowService_ListWorkflowsClient";
     method_name := WorkflowService_ListWorkflowsClientMock_name |}.
Definition WorkflowService_ListWorkflowsClientMock_CloseSend :=
  mock_method (SIG := WorkflowService_ListWorkflowsClientMock) WorkflowService_ListWorkflowsClientMock_mCloseSend tt.
Definition WorkflowService_ListWorkflowsClientMock_CloseSendCalls :=
  mock_calls (SIG := WorkflowService_ListWorkflowsClientMock) WorkflowService_ListWorkflowsClientMock_mCloseSend.
Definition WorkflowService_ListWorkflowsClientMock_Context :=
  mock_method (SIG := WorkflowService_ListWorkflowsClientMock) WorkflowService_ListWorkflowsClientMock_mContext tt.
Definition WorkflowService_ListWorkflowsClientMock_ContextCalls :=
  mock_calls (SIG := WorkflowService_ListWorkflowsClientMock) WorkflowService_ListWorkflowsClientMock_mContext.
Definition WorkflowService_ListWorkflowsClientMock_Header :=
  mock_method (SIG := WorkflowService_ListWorkflowsClientMock) WorkflowService_ListWorkflowsClientMock_mHeader tt.
Definition WorkflowService_ListWorkflowsClientMock_HeaderCalls :=
  mock_calls (SIG := WorkflowService_ListWorkflowsClientMock) WorkflowService_ListWorkflowsClientMock_mHeader.
Definition WorkflowService_ListWorkflowsClientMock_Recv :=
  mock_method (SIG := WorkflowService_ListWorkflowsClientMock) WorkflowService_ListWorkflowsClientMock_mRecv tt.
Definition WorkflowService_ListWorkflowsClientMock_RecvCalls :=
  mock_calls (SIG := WorkflowService_ListWorkflowsClientMock) WorkflowService_ListWorkflowsClientMock_mRecv.
Definition WorkflowService_ListWorkflowsClientMock_RecvMsg (m : go_type "interface{}") :=
  mock_method (SIG := WorkflowService_ListWorkflowsClientMock) WorkflowService_ListWorkflowsClientMock_mRecvMsg m.
Definition WorkflowService_ListWorkflowsClientMock_RecvMsgCalls :=
  mock_calls (SIG := WorkflowService_ListWorkflowsClientMock) WorkflowService_ListWorkflowsClientMock_mRecvMsg.
Definition WorkflowService_ListWorkflowsClientMock_SendMsg (m : go_type "interface{}") :=
  mock_method (SIG := WorkflowService_ListWorkflowsClientMock) WorkflowService_ListWorkflowsClientMock_mSendMsg m.
Definition WorkflowService_ListWorkflowsClientMock_SendMsgCalls :=
  mock_calls (SIG := WorkflowService_ListWorkflowsClientMock) WorkflowService_ListWorkflowsClientMock_mSendMsg.
Definition WorkflowService_ListWorkflowsClientMock_Trailer :=
  mock_method (SIG := WorkflowService_ListWorkflowsClientMock) WorkflowService_ListWorkflowsClientMock_mTrailer tt.
Definition WorkflowService_ListWorkflowsClientMock_TrailerCalls :=
  mock_calls (SIG := WorkflowService_ListWorkflowsClientMock) WorkflowService_ListWorkflowsClientMock_mTrailer.

(** ** [TemplateServiceClientMock] *)
Inductive TemplateServiceClientMock_method :=
  | TemplateServiceClientMock_mCreateTemplate
  | TemplateServiceClientMock_mDeleteTemplate
  | TemplateServiceClientMock_mGetTemplate
  | TemplateServiceClientMock_mListTemplates
  | TemplateServiceClientMock_mUpdateTemplate.
#[global] Instance TemplateServiceClientMock_method_eq_dec : EqDecision TemplateServiceClientMock_method.
Proof. solve_decision. Defined.
Definition TemplateServiceClientMock_arg (m : TemplateServiceClientMock_method) : Type :=
  match m with
  | TemplateServiceClientMock_mCreateTemplate => unary "*template.WorkflowTemplate"
  | TemplateServiceClientMock_mDeleteTemplate => unary "*template.GetRequest"
  | TemplateServiceClientMock_mGetTemplate => unary "*template.GetRequest"
  | TemplateServiceClientMock_mListTemplates => unary "*template.ListRequest"
  | TemplateServiceClientMock_mUpdateTemplate => unary "*template.WorkflowTemplate"
  end%type.
Definition TemplateServiceClientMock_res (m : TemplateServiceClientMock_method) : Type :=
  match m with
  | TemplateServiceClientMock_mCreateTemplate => returns "*template.CreateResponse"
  | TemplateServiceClientMock_mDeleteTemplate => returns "*template.Empty"
  | TemplateServiceClientMock_mGetTemplate => returns "*template.WorkflowTemplate"
  | TemplateServiceClientMock_mListTemplates => returns "template.TemplateService_ListTemplatesClient"
  | TemplateServiceClientMock_mUpdateTemplate => returns "*template.Empty"
  end%type.
Definition TemplateServiceClientMock_name (m : TemplateServiceClientMock_method) : string :=
  match m with
  | TemplateServiceClientMock_mCreateTemplate => "CreateTemplate"
  | TemplateServiceClientMock_mDeleteTemplate => "DeleteTemplate"
  | TemplateServiceClientMock_mGetTemplate => "GetTemplate"
  | TemplateServiceClientMock_mListTemplates => "ListTemplates"
  | TemplateServiceClientMock_mUpdateTemplate => "UpdateTemplate"
  end.
Definition TemplateServiceClientMock : MockSig :=
  {| method := TemplateServiceClientMock_method; arg := TemplateServiceClientMock_arg;
     res := TemplateServiceClientMock_res; iface := "TemplateServiceClient";
     method_name := TemplateServiceClientMock_name |}.
Definition TemplateServiceClientMock_CreateTemplate ctx in_ opts :=
  mock_method (SIG := TemplateServiceClientMock) TemplateServiceClientMock_mCreateTemplate (ctx, in_, opts).
Definition TemplateServiceClientMock_CreateTemplateCalls :=
  mock_calls (SIG := TemplateServiceClientMock) TemplateServiceClientMock_mCreateTemplate.
Definition TemplateServiceClientMock_DeleteTemplate ctx in_ opts :=
  mock_method (SIG := TemplateServiceClientMock) TemplateServiceClientMock_mDeleteTemplate (ctx, in_, opts).
Definition TemplateServiceClientMock_DeleteTemplateCalls :=
  mock_calls (SIG := TemplateServiceClientMock) TemplateServiceClientMock_mDeleteTemplate.
Definition TemplateServiceClientMock_GetTemplate ctx in_ opts :=
  mock_method (SIG := TemplateServiceClientMock) TemplateServiceClientMock_mGetTemplate (ctx, in_, opts).
Definition TemplateServiceClientMock_GetTemplateCalls :=
  mock_calls (SIG := TemplateServiceClientMock) TemplateServiceClientMock_mGetTemplate.
Definition TemplateServiceClientMock_ListTemplates ctx in_ opts :=
  mock_method (SIG := TemplateServiceClientMock) TemplateServiceClientMock_mListTemplates (ctx, in_, opts).
Definition TemplateServiceClientMock_ListTemplatesCalls :=
  mock_calls (SIG := TemplateServiceClientMock) TemplateServiceClientMock_mListTemplates.
Definition TemplateServiceClientMock_UpdateTemplate ctx in_ opts :=
  mock_method (SIG := TemplateServiceClientMock) TemplateServiceClientMock_mUpdateTemplate (ctx, in_, opts).
Definition TemplateServiceClientMock_UpdateTemplateCalls :=
  mock_calls (SIG := TemplateServiceClientMock) TemplateServiceClientMock_mUpdateTemplate.

(** ** [TemplateService_ListTemplatesClientMock] *)
Inductive TemplateService_ListTemplatesClientMock_method :=
  | TemplateService_ListTemplatesClientMock_mCloseSend
  | TemplateService_ListTemplatesClientMock_mContext
  | TemplateService_ListTemplatesClientMock_mHeader
  | TemplateService_ListTemplatesClientMock_mRecv
  | TemplateService_ListTemplatesClientMock_mRecvMsg
  | TemplateService_ListTemplatesClientMock_mSendMsg
  | TemplateService_ListTemplatesClientMock_mTrailer.
#[global] Instance TemplateService_ListTemplatesClientMock_method_eq_dec : EqDecision TemplateService_ListTemplatesClientMock_method.
Proof. solve_decision. Defined.
Definition TemplateService_ListTemplatesClientMock_arg (m : TemplateService_ListTemplatesClientMock_method) : Type :=
  match m with
  | TemplateService_ListTemplatesClientMock_mCloseSend => unit
  | TemplateService_ListTemplatesClientMock_mContext => unit
  | TemplateService_ListTemplatesClientMock_mHeader => unit
  | TemplateService_ListTemplatesClientMock_mRecv => unit
  | TemplateService_ListTemplatesClientMock_mRecvMsg => go_type "interface{}"
  | TemplateService_ListTemplatesClientMock_mSendMsg => go_type "interface{}"
  | TemplateService_ListTemplatesClientMock_mTrailer => unit
  end%type.
Definition TemplateService_ListTemplatesClientMock_res (m : TemplateService_ListTemplatesClientMock_method) : Type :=
  match m with
  | TemplateService_ListTemplatesClientMock_mCloseSend => option error
  | TemplateService_ListTemplatesClientMock_mContext => go_type "context.Context"
  | TemplateService_ListTemplatesClientMock_mHeader => returns "metadata.MD"
  | TemplateService_ListTemplatesClientMock_mRecv => returns "*template.WorkflowTemplate"
  | TemplateService_ListTemplatesClientMock_mRecvMsg => option error
  | TemplateService_ListTemplatesClientMock_mSendMsg => option error
  | TemplateService_ListTemplatesClientMock_mTrailer => go_type "metadata.MD"
  end%type.
Definition TemplateService_ListTemplatesClientMock_name (m : TemplateService_ListTemplatesClientMock_method) : string :=
  match m with
  | TemplateService_ListTemplatesClientMock_mCloseSend => "CloseSend"
  | TemplateService_ListTemplatesClientMock_mContext => "Context"
  | TemplateService_ListTemplatesClientMock_mHeader => "Header"
  | TemplateService_ListTemplatesClientMock_mRecv => "Recv"
  | TemplateService_ListTemplatesClientMock_mRecvMsg => "RecvMsg"
  | TemplateService_ListTemplatesClientMock_mSendMsg => "SendMsg"
  | TemplateService_ListTemplatesClientMock_mTrailer => "Trailer"
  end.
Definition TemplateService_ListTemplatesClientMock : MockSig :=
  {| method := TemplateService_ListTemplatesClientMock_method; arg := TemplateService_ListTemplatesClientMock_arg;
     res := TemplateService_ListTemplatesClientMock_res; iface := "TemplateService_ListTemplatesClient";
     method_name := TemplateService_ListTemplatesClientMock_name |}.
Definition TemplateService_ListTemplatesClientMock_CloseSend :=
  mock_method (SIG := TemplateService_ListTemplatesClientMock) TemplateService_ListTemplatesClientMock_mCloseSend tt.
Definition TemplateService_ListTemplatesClientMock_CloseSendCalls :=
  mock_calls (SIG := TemplateService_ListTemplatesClientMock) TemplateService_ListTemplatesClientMock_mCloseSend.
Definition TemplateService_ListTemplatesClientMock_Context :=
  mock_method (SIG := TemplateService_ListTemplatesClientMock) TemplateService_ListTemplatesClientMock_mContext tt.
Definition TemplateService_ListTemplatesClientMock_ContextCalls :=
  mock_calls (SIG := TemplateService_ListTemplatesClientMock) TemplateService_ListTemplatesClientMock_mContext.
Definition TemplateService_ListTemplatesClientMock_Header :=
  mock_method (SIG := TemplateService_ListTemplatesClientMock) TemplateService_ListTemplatesClientMock_mHeader tt.
Definition TemplateService_ListTemplatesClientMock_HeaderCalls :=
  mock_calls (SIG := TemplateService_ListTemplatesClientMock) TemplateService_ListTemplatesClientMock_mHeader.
Definition TemplateService_ListTemplatesClientMock_Recv :=
  mock_method (SIG := TemplateService_ListTemplatesClientMock) TemplateService_ListTemplatesClientMock_mRecv tt.
Definition TemplateService_ListTemplatesClientMock_RecvCalls :=
  mock_calls (SIG := TemplateService_ListTemplatesClientMock) TemplateService_ListTemplatesClientMock_mRecv.
Definition TemplateService_ListTemplatesClientMock_RecvMsg (m : go_type "interface{}") :=
  mock_method (SIG := TemplateService_ListTemplatesClientMock) TemplateService_ListTemplatesClientMock_mRecvMsg m.
Definition TemplateService_ListTemplatesClientMock_RecvMsgCalls :=
  mock_calls (SIG := TemplateService_ListTemplatesClientMock) TemplateService_ListTemplatesClientMock_mRecvMsg.
Definition TemplateService_ListTemplatesClientMock_SendMsg (m : go_type "interface{}") :=
  mock_method (SIG := TemplateService_ListTemplatesClientMock) TemplateService_ListTemplatesClientMock_mSendMsg m.
Definition TemplateService_ListTemplatesClientMock_SendMsgCalls :=
  mock_calls (SIG := TemplateService_ListTemplatesClientMock) TemplateService_ListTemplatesClientMock_mSendMsg.
Definition TemplateService_ListTemplatesClientMock_Trailer :=
  mock_method (SIG := TemplateService_ListTemplatesClientMock) TemplateService_ListTemplatesClientMock_mTrailer tt.
Definition TemplateService_ListTemplatesClientMock_TrailerCalls :=
  mock_calls (SIG := TemplateService_ListTemplatesClientMock) TemplateService_ListTemplatesClientMock_mTrailer.

(** ** [HardwareServiceClientMock] *)
Inductive HardwareServiceClientMock_method :=
  | HardwareServiceClientMock_mAll
  | HardwareServiceClientMock_mByID
  | HardwareServiceClientMock_mByIP
  | HardwareServiceClientMock_mByMAC
  | HardwareServiceClientMock_mDelete
  | HardwareServiceClientMock_mDeprecatedWatch
  | HardwareServiceClientMock_mPush.
#[global] Instance HardwareServiceClientMock_method_eq_dec : EqDecision HardwareServiceClientMock_method.
Proof. solve_decision. Defined.
Definition HardwareServiceClientMock_arg (m : HardwareServiceClientMock_method) : Type :=
  match m with
  | HardwareServiceClientMock_mAll => unary "*hardware.Empty"
  | HardwareServiceClientMock_mByID => unary "*hardware.GetRequest"
  | HardwareServiceClientMock_mByIP => unary "*hardware.GetRequest"
  | HardwareServiceClientMock_mByMAC => unary "*hardware.GetRequest"
  | HardwareServiceClientMock_mDelete => unary "*hardware.DeleteRequest"
  | HardwareServiceClientMock_mDeprecatedWatch => unary "*hardware.GetRequest"
  | HardwareServiceClientMock_mPush => unary "*hardware.PushRequest"
  end%type.
Definition HardwareServiceClientMock_res (m : HardwareServiceClientMock_method) : Type :=
  match m with
  | HardwareServiceClientMock_mAll => returns "hardware.HardwareService_AllClient"
  | HardwareServiceClientMock_mByID => returns "*hardware.Hardware"
  | HardwareServiceClientMock_mByIP => returns "*hardware.Hardware"
  | HardwareServiceClientMock_mByMAC => returns "*hardware.Hardware"
  | HardwareServiceClientMock_mDelete => returns "*hardware.Empty"
  | HardwareServiceClientMock_mDeprecatedWatch => returns "hardware.HardwareService_DeprecatedWatchClient"
  | HardwareServiceClientMock_mPush => returns "*hardware.Empty"
  end%type.
Definition HardwareServiceClientMock_name (m : HardwareServiceClientMock_method) : string :=
  match m with
  | HardwareServiceClientMock_mAll => "All"
  | HardwareServiceClientMock_mByID => "ByID"
  | HardwareServiceClientMock_mByIP => "ByIP"
  | HardwareServiceClientMock_mByMAC => "ByMAC"
  | HardwareServiceClientMock_mDelete => "Delete"
  | HardwareServiceClientMock_mDeprecatedWatch => "DeprecatedWatch"
  | HardwareServiceClientMock_mPush => "Push"
  end.
Definition HardwareServiceClientMock : MockSig :=
  {| method := HardwareServiceClientMock_method; arg := HardwareServiceClientMock_arg;
     res := HardwareServiceClientMock_res; iface := "HardwareServiceClient";
     method_name := HardwareServiceClientMock_name |}.
Definition HardwareServiceClientMock_All ctx in_ opts :=
  mock_method (SIG := HardwareServiceClientMock) HardwareServiceClientMock_mAll (ctx, in_, opts).
Definition HardwareServiceClientMock_AllCalls :=
  mock_calls (SIG := HardwareServiceClientMock) HardwareServiceClientMock_mAll.
Definition HardwareServiceClientMock_ByID ctx in_ opts :=
  mock_method (SIG := HardwareServiceClientMock) HardwareServiceClientMock_mByID (ctx, in_, opts).
Definition HardwareServiceClientMock_ByIDCalls :=
  mock_calls (SIG := HardwareServiceClientMock) HardwareServiceClientMock_mByID.
Definition HardwareServiceClientMock_ByIP ctx in_ opts :=
  mock_method (SIG := HardwareServiceClientMock) HardwareServiceClientMock_mByIP (ctx, in_, opts).
Definition HardwareServiceClientMock_ByIPCalls :=
  mock_calls (SIG := HardwareServiceClientMock) HardwareServiceClientMock_mByIP.
Definition HardwareServiceClientMock_ByMAC ctx in_ opts :=
  mock_method (SIG := HardwareServiceClientMock) HardwareServiceClientMock_mByMAC (ctx, in_, opts).
Definition HardwareServiceClientMock_ByMACCalls :=
  mock_calls (SIG := HardwareServiceClientMock) HardwareServiceClientMock_mByMAC.
Definition HardwareServiceClientMock_Delete ctx in_ opts :=
  mock_method (SIG := HardwareServiceClientMock) HardwareServiceClientMock_mDelete (ctx, in_, opts).
Definition HardwareServiceClientMock_DeleteCalls :=
  mock_calls (SIG := HardwareServiceClientMock) HardwareServiceClientMock_mDelete.
Definition HardwareServiceClientMock_DeprecatedWatch ctx in_ opts :=
  mock_method (SIG := HardwareServiceClientMock) HardwareServiceClientMock_mDeprecatedWatch (ctx, in_, opts).
Definition HardwareServiceClientMock_DeprecatedWatchCalls :=
  mock_calls (SIG := HardwareServiceClientMock) HardwareServiceClientMock_mDeprecatedWatch.
Definition HardwareServiceClientMock_Push ctx in_ opts :=
  mock_method (SIG := HardwareServiceClientMock) HardwareServiceClientMock_mPush (ctx, in_, opts).
Definition HardwareServiceClientMock_PushCalls :=
  mock_calls (SIG := HardwareServiceClientMock) HardwareServiceClientMock_mPush.

(** ** [HardwareService_AllClientMock] *)
Inductive HardwareService_AllClientMock_method :=
  | HardwareService_AllClientMock_mCloseSend
  | HardwareService_AllClientMock_mContext
  | HardwareService_AllClientMock_mHeader
  | HardwareService_AllClientMock_mRecv
  | HardwareService_AllClientMock_mRecvMsg
  | HardwareService_AllClientMock_mSendMsg
  | HardwareService_AllClientMock_mTrailer.
#[global] Instance HardwareService_AllClientMock_method_eq_dec : EqDecision HardwareService_AllClientMock_method.
Proof. solve_decision. Defined.
Definition HardwareService_AllClientMock_arg (m : HardwareService_AllClientMock_method) : Type :=
  match m with
  | HardwareService_AllClientMock_mCloseSend => unit
  | HardwareService_AllClientMock_mContext => unit
  | HardwareService_AllClientMock_mHeader => unit
  | HardwareService_AllClientMock_mRecv => unit
  | HardwareService_AllClientMock_mRecvMsg => go_type "interface{}"
  | HardwareService_AllClientMock_mSendMsg => go_type "interface{}"
  | HardwareService_AllClientMock_mTrailer => unit
  end%type.
Definition HardwareService_AllClientMock_res (m : HardwareService_AllClientMock_method) : Type :=
  match m with
  | HardwareService_AllClientMock_mCloseSend => option error
  | HardwareService_AllClientMock_mContext => go_type "context.Context"
  | HardwareService_AllClientMock_mHeader => returns "metadata.MD"
  | HardwareService_AllClientMock_mRecv => returns "*hardware.Hardware"
  | HardwareService_AllClientMock_mRecvMsg => option error
  | HardwareService_AllClientMock_mSendMsg => option error
  | HardwareService_AllClientMock_mTrailer => go_type "metadata.MD"
  end%type.
Definition HardwareService_AllClientMock_name (m : HardwareService_AllClientMock_method) : string :=
  match m with
  | HardwareService_AllClientMock_mCloseSend => "CloseSend"
  | HardwareService_AllClientMock_mContext => "Context"
  | HardwareService_AllClientMock_mHeader => "Header"
  | HardwareService_AllClientMock_mRecv => "Recv"
  | HardwareService_AllClientMock_mRecvMsg => "RecvMsg"
  | HardwareService_AllClientMock_mSendMsg => "SendMsg"
  | HardwareService_AllClientMock_mTrailer => "Trailer"
  end.
Definition HardwareService_AllClientMock : MockSig :=
  {| method := HardwareService_AllClientMock_method; arg := HardwareService_AllClientMock_arg;
     res := HardwareService_AllClientMock_res; iface := "HardwareService_AllClient";
     method_name := HardwareService_AllClientMock_name |}.
Definition HardwareService_AllClientMock_CloseSend :=
  mock_method (SIG := HardwareService_AllClientMock) HardwareService_AllClientMock_mCloseSend tt.
Definition HardwareService_AllClientMock_CloseSendCalls :=
  mock_calls (SIG := HardwareService_AllClientMock) HardwareService_AllClientMock_mCloseSend.
Definition HardwareService_AllClientMock_Context :=
  mock_method (SIG := HardwareService_AllClientMock) HardwareService_AllClientMock_mContext tt.
Definition HardwareService_AllClientMock_ContextCalls :=
  mock_calls (SIG := HardwareService_AllClientMock) HardwareService_AllClientMock_mContext.
Definition HardwareService_AllClientMock_Header :=
  mock_method (SIG := HardwareService_AllClientMock) HardwareService_AllClientMock_mHeader tt.
Definition HardwareService_AllClientMock_HeaderCalls :=
  mock_calls (SIG := HardwareService_AllClientMock) HardwareService_AllClientMock_mHeader.
Definition HardwareService_AllClientMock_Recv :=
  mock_method (SIG := HardwareService_AllClientMock) HardwareService_AllClientMock_mRecv tt.
Definition HardwareService_AllClientMock_RecvCalls :=
  mock_calls (SIG := HardwareService_AllClientMock) HardwareService_AllClientMock_mRecv.
Definition HardwareService_AllClientMock_RecvMsg (m : go_type "interface{}") :=
  mock_method (SIG := HardwareService_AllClientMock) HardwareService_AllClientMock_mRecvMsg m.
Definition HardwareService_AllClientMock_RecvMsgCalls :=
  mock_calls (SIG := HardwareService_AllClientMock) HardwareService_AllClientMock_mRecvMsg.
Definition HardwareService_AllClientMock_SendMsg (m : go_type "interface{}") :=
  mock_method (SIG := HardwareService_AllClientMock) HardwareService_AllClientMock_mSendMsg m.
Definition HardwareService_AllClientMock_SendMsgCalls :=
  mock_calls (SIG := HardwareService_AllClientMock) HardwareService_AllClientMock_mSendMsg.
Definition HardwareService_AllClientMock_Trailer :=
  mock_method (SIG := HardwareService_AllClientMock) HardwareService_AllClientMock_mTrailer tt.
Definition HardwareService_AllClientMock_TrailerCalls :=
  mock_calls (SIG := HardwareService_AllClientMock) HardwareService_AllClientMock_mTrailer.

End mocks.

(** The panic of a method for which no function was given. *)
Example unset_method_panics :
  let ty := λ _ : string, unit in
  panics (SIG := TemplateServiceClientMock ty) (λ _, None) 0
    (start (SIG := TemplateServiceClientMock ty) [TemplateServiceClientMock_GetTemplate ty tt tt []]) =
  Some ("TemplateServiceClientMock.GetTemplateFunc: method is nil but " +:+
        "TemplateServiceClient.GetTemplate was just called").
Proof. reflexivity. Qed.
