(* ===== verification/GoMem.v ===== *)
(** * GoMem: Go values in memory, and copies of them

    Values of Go as they lie in memory: structs hold their fields, while pointers,
    slices and maps refer to cells of a heap. The types of the fields, what it means
    for a value to have a type and for one value to be a deep copy of another, the
    statements that controller-gen generates for each kind of field, and that they
    make deep copies. *)
From S2P Require Import Prelude.
From stdpp Require Import options.

(** ** Values, cells, types *)
Abbreviation loc := nat (only parsing).

#[local] Unset Elimination Schemes.
Inductive gval :=
  | VStr (s : string)
  | VInt (z : Z)
  | VBool (b : bool)
  | VPtr (p : option loc)
  (** The array, the offset in it, the length and the capacity. *)
  | VSlice (s : option (loc * nat * nat * nat))
  | VMap (m : option loc)
  | VStruct (fields : list (string * gval)).

Inductive cell :=
  | CVal (v : gval)
  | CArr (l : list gval)
  | CMap (m : gmap string gval).

Abbreviation heap := (gmap loc cell) (only parsing).

Inductive ty :=
  | TScalar
  | TPtr (t : ty)
  | TSlice (t : ty)
  | TMap (t : ty)
  | TStruct (fields : list (string * ty)).

#[local] Set Elimination Schemes.

Section fields.
Context (R : ty → gval → Prop) (R2 : string → ty → gval → gval → Prop) (B : ty → bool).
Fixpoint fields_have (fs : list (string * ty)) (vs : list (string * gval)) : Prop :=
  match fs, vs with
  | [], [] => True
  | (n, t) :: fs', (n', x) :: vs' => n' = n ∧ R t x ∧ fields_have fs' vs'
  | _, _ => False
  end.
Fixpoint fields_match (fs : list (string * ty)) (vs vs' : list (string * gval)) : Prop :=
  match fs, vs, vs' with
  | [], [], [] => True
  | (n, t) :: fs', (n1, x1) :: l1, (n2, x2) :: l2 =>
      n1 = n ∧ n2 = n ∧ R2 n t x1 x2 ∧ fields_match fs' l1 l2
  | _, _, _ => False
  end.
Fixpoint fields_all (fs : list (string * ty)) : bool :=
  match fs with [] => true | (_, t) :: fs' => B t && fields_all fs' end.
End fields.

Definition is_scalar (v : gval) : Prop :=
  match v with VStr _ | VInt _ | VBool _ => True | _ => False end.

(** The elements of a slice. *)
Definition window (off len : nat) (l : list gval) : list gval := take len (drop off l).

(** A value of type [T] in the heap [h]. *)
Fixpoint has_type (T : ty) (h : heap) (v : gval) : Prop :=
  match T with
  | TScalar => is_scalar v
  | TPtr t =>
      match v with
      | VPtr None => True
      | VPtr (Some l) => match h !! l with Some (CVal x) => has_type t h x | _ => False end
      | _ => False
      end
  | TSlice t =>
      match v with
      | VSlice None => True
      | VSlice (Some (l, off, len, cap)) =>
          match h !! l with
          | Some (CArr xs) => (len ≤ cap)%nat ∧ (off + cap ≤ length xs)%nat ∧
              Forall (has_type t h) (window off len xs)
          | _ => False
          end
      | _ => False
      end
  | TMap t =>
      match v with
      | VMap None => True
      | VMap (Some l) =>
          match h !! l with Some (CMap m) => map_Forall (λ _, has_type t h) m | _ => False end
      | _ => False
      end
  | TStruct fs =>
      match v with VStruct vs => fields_have (λ t, has_type t h) fs vs | _ => False end
  end.

(** [v'] in [h'] is a deep copy of [v] in [h]: the same value, in cells that [h]
    does not have; its slices have no spare capacity. *)
Fixpoint copy_of (T : ty) (h : heap) (v : gval) (h' : heap) (v' : gval) : Prop :=
  match T with
  | TScalar => is_scalar v ∧ v' = v
  | TPtr t =>
      match v, v' with
      | VPtr None, VPtr None => True
      | VPtr (Some l), VPtr (Some l') => h !! l' = None ∧
          match h !! l, h' !! l' with
          | Some (CVal x), Some (CVal x') => copy_of t h x h' x'
          | _, _ => False
          end
      | _, _ => False
      end
  | TSlice t =>
      match v, v' with
      | VSlice None, VSlice None => True
      | VSlice (Some (l, off, len, _)), VSlice (Some (l', 0%nat, len', cap')) =>
          h !! l' = None ∧ len' = len ∧ cap' = len ∧
          match h !! l, h' !! l' with
          | Some (CArr xs), Some (CArr xs') =>
              Forall2 (λ x x', copy_of t h x h' x') (window off len xs) xs'
          | _, _ => False
          end
      | _, _ => False
      end
  | TMap t =>
      match v, v' with
      | VMap None, VMap None => True
      | VMap (Some l), VMap (Some l') => h !! l' = None ∧
          match h !! l, h' !! l' with
          | Some (CMap m), Some (CMap m') => map_Forall2 (λ _ x x', copy_of t h x h' x') m m'
          | _, _ => False
          end
      | _, _ => False
      end
  | TStruct fs =>
      match v, v' with
      | VStruct vs, VStruct vs' => fields_match (λ _ t x x', copy_of t h x h' x') fs vs vs'
      | _, _ => False
      end
  end.

(** A type without references. *)
Fixpoint flat (T : ty) : bool :=
  match T with
  | TScalar => true
  | TStruct fs => fields_all flat fs
  | _ => false
  end.

(** ** Statements *)
Abbreviation copier := (gval → go heap gval) (only parsing).

Definition type_error {S A} : go S A := go_panic "invalid type".

Definition load (l : loc) : go heap cell := λ h,
  match h !! l with
  | Some c => (Ret c, h)
  | None => (Panic "invalid memory address or nil pointer dereference", h)
  end.
Definition alloc (c : cell) : go heap loc := λ h, let l := fresh (dom h) in (Ret l, <[l := c]> h).

(** Assignment of what [in] points to. *)
Definition assign : copier := go_ret.

(** [if in.F != nil] for a pointer, and [DeepCopy]: a new cell for a copy of what it
    points to. *)
Definition copy_ptr (f : copier) : copier := λ v,
  (match v with
   | VPtr None => go_ret (VPtr None)
   | VPtr (Some l) =>
       let* c := load l in
       match c with
       | CVal x => let* x' := f x in let* l' := alloc (CVal x') in go_ret (VPtr (Some l'))
       | _ => type_error
       end
   | _ => type_error
   end)%go.

(** An object is returned as an interface, which is nil when the copy is. *)
Definition copy_object (f : copier) : gval → go heap (option gval) := λ v,
  (let* c := f v in
   match c with
   | VPtr None => go_ret None
   | _ => go_ret (Some c)
   end)%go.

Fixpoint copy_elems (f : copier) (l : list gval) : go heap (list gval) :=
  match l with
  | [] => go_ret []
  | x :: l' =>
      (let* x' := f x in let* l'' := copy_elems f l' in go_ret (x' :: l''))%go
  end.

(** [if in.F != nil] for a slice: [make] with the length of the slice, and the loop
    over the elements or [copy]. *)
Definition copy_slice (f : copier) : copier := λ v,
  (match v with
   | VSlice None => go_ret (VSlice None)
   | VSlice (Some (l, off, len, _)) =>
       let* c := load l in
       match c with
       | CArr xs =>
           let* xs' := copy_elems f (window off len xs) in
           let* l' := alloc (CArr xs') in go_ret (VSlice (Some (l', 0%nat, len, len)))
       | _ => type_error
       end
   | _ => type_error
   end)%go.

(** The order in which a map is visited. *)
Class RangeOrder := {
  range_entries : gmap string gval → list (string * gval);
  range_entries_perm m : range_entries m ≡ₚ map_to_list m
}.

Section maps.
Context `{RO : RangeOrder}.

Fixpoint copy_entries (f : copier) (l : list (string * gval)) (out : gmap string gval)
    : go heap (gmap string gval) :=
  match l with
  | [] => go_ret out
  | (k, x) :: l' => (let* x' := f x in copy_entries f l' (<[k := x']> out))%go
  end.

(** [if in.F != nil] for a map: [make], and the loop over the entries. *)
Definition copy_gomap (f : copier) : copier := λ v,
  (match v with
   | VMap None => go_ret (VMap None)
   | VMap (Some l) =>
       let* c := load l in
       match c with
       | CMap m =>
           let* m' := copy_entries f (range_entries m) ∅ in
           let* l' := alloc (CMap m') in go_ret (VMap (Some l'))
       | _ => type_error
       end
   | _ => type_error
   end)%go.
End maps.

(** A statement about the field [n] of a struct. *)
Fixpoint on_field (n : string) (f : copier) (vs : list (string * gval))
    : go heap (list (string * gval)) :=
  match vs with
  | [] => type_error
  | (n', x) :: vs' =>
      (if decide (n' = n) then let* x' := f x in go_ret ((n', x') :: vs')
       else let* vs'' := on_field n f vs' in go_ret ((n', x) :: vs''))%go
  end.

Fixpoint on_fields (cs : list (string * copier)) (vs : list (string * gval))
    : go heap (list (string * gval)) :=
  match cs with
  | [] => go_ret vs
  | (n, f) :: cs' => (let* vs' := on_field n f vs in on_fields cs' vs')%go
  end.

(** The assignment of the whole struct, and then the statements for some of its
    fields. *)
Definition copy_struct (cs : list (string * copier)) : copier := λ v,
  (match v with
   | VStruct vs => let* vs' := on_fields cs vs in go_ret (VStruct vs')
   | _ => type_error
   end)%go.

(** ** Deep copies *)

(** A statement that makes deep copies of the values of a type. *)
Definition deep (T : ty) (f : copier) : Prop :=
  ∀ h v, has_type T h v → ∀ h1, h ⊆ h1 →
  ∃ v' h', f v h1 = (Ret v', h') ∧ h1 ⊆ h' ∧ copy_of T h v h' v'.

(** ** Lemmas *)
Lemma ty_ind' (P : ty → Prop) :
  P TScalar → (∀ t, P t → P (TPtr t)) → (∀ t, P t → P (TSlice t)) → (∀ t, P t → P (TMap t)) →
  (∀ fs, Forall (λ f, P f.2) fs → P (TStruct fs)) → ∀ t, P t.
Proof.
  intros Hs Hp Hl Hm Hf. fix IH 1. intros [|t|t|t|fs]; [done|by apply Hp|by apply Hl|by apply Hm|].
  apply Hf. induction fs as [|[n t] fs IHf]; constructor; [apply IH|exact IHf].
Qed.

Lemma fields_match_impl (R R' : string → ty → gval → gval → Prop) fs vs vs' :
  Forall (λ f, ∀ x x', R f.1 f.2 x x' → R' f.1 f.2 x x') fs →
  fields_match R fs vs vs' → fields_match R' fs vs vs'.
Proof.
  intros Hf. revert vs vs'. induction Hf as [|[n t] fs Ht _ IH]; intros vs vs'; [done|].
  destruct vs as [|[n1 x1] vs]; [done|]. destruct vs' as [|[n2 x2] vs']; [done|]. simpl in *.
  intros (-> & -> & HR & Hrest). split_and!; [done|done|by apply Ht|by apply IH].
Qed.

(** A copy depends only on the cells that the original heap does not have. *)
Lemma copy_of_agree T h v h1 h2 v' :
  (∀ l c, h !! l = None → h1 !! l = Some c → h2 !! l = Some c) →
  copy_of T h v h1 v' → copy_of T h v h2 v'.
Proof.
  intros Hag. revert v v'. induction T as [|t IH|t IH|t IH|fs IH] using ty_ind'; intros v v'; simpl.
  - done.
  - destruct v as [| | |[l|]| | |]; try done; destruct v' as [| | |[l'|]| | |]; try done.
    intros [Hl H]. split; [done|]. destruct (h !! l) as [[x| |]|]; try done.
    destruct (h1 !! l') as [[x'| |]|] eqn:E; try done. rewrite (Hag _ _ Hl E). by apply IH.
  - destruct v as [| | | |[[[[l off] len] cap]|]| |]; try done;
      destruct v' as [| | | |[[[[l' [|]] len'] cap']|]| |]; try done.
    intros (Hl & ? & ? & H). split_and!; [done..|]. destruct (h !! l) as [[|xs|]|]; try done.
    destruct (h1 !! l') as [[|xs'|]|] eqn:E; try done. rewrite (Hag _ _ Hl E).
    eapply Forall2_impl; [exact H|]. intros. by apply IH.
  - destruct v as [| | | | |[l|]|]; try done; destruct v' as [| | | | |[l'|]|]; try done.
    intros [Hl H]. split; [done|]. destruct (h !! l) as [[| |m]|]; try done.
    destruct (h1 !! l') as [[| |m']|] eqn:E; try done. rewrite (Hag _ _ Hl E).
    eapply map_Forall2_impl; [exact H|]. intros. by apply IH.
  - destruct v as [| | | | | |vs]; try done; destruct v' as [| | | | | |vs']; try done.
    apply fields_match_impl. eapply Forall_impl; [exact IH|]. simpl. auto.
Qed.

Lemma copy_of_mono T h v h1 h2 v' : h1 ⊆ h2 → copy_of T h v h1 v' → copy_of T h v h2 v'.
Proof. intros Hs. apply copy_of_agree. intros l c _ Hl. by eapply lookup_weaken. Qed.

(** A value without references is a copy of itself. *)
Lemma flat_copy T h v h' : flat T = true → has_type T h v → copy_of T h v h' v.
Proof.
  revert v. induction T as [|t IH|t IH|t IH|fs IH] using ty_ind'; intros v Hf Hv; try done.
  simpl in *. destruct v as [| | | | | |vs]; try done. revert vs Hf Hv.
  induction IH as [|[n t] fs Ht _ IHf]; intros vs Hf Hv; destruct vs as [|[n' x] vs]; try done.
  simpl in *. apply andb_true_iff in Hf as [Hf1 Hf2]. destruct Hv as (-> & Hx & Hv).
  split_and!; [done|done|by apply Ht|by apply IHf].
Qed.

(** Allocation. *)
Lemma alloc_spec c h1 :
  ∃ l, alloc c h1 = (Ret l, <[l := c]> h1) ∧ h1 !! l = None ∧ h1 ⊆ <[l := c]> h1.
Proof.
  exists (fresh (dom h1)). assert (h1 !! fresh (dom h1) = None) as Hn.
  { apply not_elem_of_dom, is_fresh. }
  split; [done|]. split; [done|]. by apply insert_subseteq.
Qed.
Lemma load_spec l c h1 : h1 !! l = Some c → load l h1 = (Ret c, h1).
Proof. intros H. unfold load. by rewrite H. Qed.

Lemma deep_assign T : flat T = true → deep T assign.
Proof. intros Hf h v Hv h1 Hs. eexists _, _. split; [done|]. split; [done|]. by apply flat_copy. Qed.

Lemma deep_ptr t f : deep t f → deep (TPtr t) (copy_ptr f).
Proof.
  intros Hf h v Hv h1 Hs. destruct v as [| | |[l|]| | |]; try done.
  2:{ by eexists _, _. }
  simpl in Hv. destruct (h !! l) as [[x| |]|] eqn:E; try done.
  unfold copy_ptr. rewrite (go_bind_Ret _ _ _ _ _ (load_spec _ _ _ (lookup_weaken _ _ _ _ E Hs))).
  destruct (Hf h x Hv h1 Hs) as (x' & h2 & Hrun & Hs2 & Hc). rewrite (go_bind_Ret _ _ _ _ _ Hrun).
  destruct (alloc_spec (CVal x') h2) as (l' & Ha & Hl & Hs3). rewrite (go_bind_Ret _ _ _ _ _ Ha).
  eexists _, _. split; [done|]. split; [by etrans|]. simpl. rewrite E, lookup_insert_eq.
  split; [by eapply lookup_weaken_None; [|by etrans]|]. by eapply copy_of_mono.
Qed.

Lemma copy_elems_deep t f h l h1 :
  deep t f → Forall (has_type t h) l → h ⊆ h1 →
  ∃ l' h', copy_elems f l h1 = (Ret l', h') ∧ h1 ⊆ h' ∧ Forall2 (λ x x', copy_of t h x h' x') l l'.
Proof.
  intros Hf Hl. revert h1. induction Hl as [|x l Hx _ IH]; intros h1 Hs; simpl.
  { eexists _, _. split; [done|]. split; [done|constructor]. }
  destruct (Hf h x Hx h1 Hs) as (x' & h2 & Hrun & Hs2 & Hc). rewrite (go_bind_Ret _ _ _ _ _ Hrun).
  destruct (IH h2) as (l' & h3 & Hrun3 & Hs3 & Hc3); [by etrans|].
  rewrite (go_bind_Ret _ _ _ _ _ Hrun3). eexists _, _. split; [done|]. split; [by etrans|].
  constructor; [by eapply copy_of_mono|done].
Qed.

Lemma deep_slice t f : deep t f → deep (TSlice t) (copy_slice f).
Proof.
  intros Hf h v Hv h1 Hs. destruct v as [| | | |[[[[l off] len] cap]|]| |]; try done.
  2:{ by eexists _, _. }
  simpl in Hv. destruct (h !! l) as [[|xs|]|] eqn:E; try done. destruct Hv as (_ & _ & Hxs).
  unfold copy_slice. rewrite (go_bind_Ret _ _ _ _ _ (load_spec _ _ _ (lookup_weaken _ _ _ _ E Hs))).
  destruct (copy_elems_deep t f h _ h1 Hf Hxs Hs) as (xs' & h2 & Hrun & Hs2 & Hc).
  rewrite (go_bind_Ret _ _ _ _ _ Hrun).
  destruct (alloc_spec (CArr xs') h2) as (l' & Ha & Hl & Hs3). rewrite (go_bind_Ret _ _ _ _ _ Ha).
  eexists _, _. split; [done|]. split; [by etrans|]. simpl. rewrite E, lookup_insert_eq.
  split_and!; [by eapply lookup_weaken_None; [|by etrans]|done|done|].
  eapply Forall2_impl; [exact Hc|]. intros. by eapply copy_of_mono.
Qed.

Section map_lemmas.
Context `{RO : RangeOrder}.

Lemma copy_entries_deep t f h l h1 out :
  deep t f → NoDup l.*1 → Forall (λ kv, has_type t h kv.2) l → h ⊆ h1 →
  ∃ out' h', copy_entries f l out h1 = (Ret out', h') ∧ h1 ⊆ h' ∧
    ∀ k, match (list_to_map l : gmap string gval) !! k with
         | Some x => ∃ x', out' !! k = Some x' ∧ copy_of t h x h' x'
         | None => out' !! k = out !! k
         end.
Proof.
  intros Hf Hnd Hl. revert h1 out. induction Hl as [|[k0 x] l Hx _ IH]; intros h1 out Hs; simpl.
  { eexists _, _. split; [done|]. split; [done|]. done. }
  csimpl in *. apply NoDup_cons in Hnd as [Hk0 Hnd].
  destruct (Hf h x Hx h1 Hs) as (x' & h2 & Hrun & Hs2 & Hc). rewrite (go_bind_Ret _ _ _ _ _ Hrun).
  destruct (IH Hnd h2 (<[k0 := x']> out)) as (out' & h3 & Hrun3 & Hs3 & Hout); [by etrans|].
  rewrite Hrun3. eexists _, _. split; [done|]. split; [by etrans|]. intros k. specialize (Hout k).
  destruct (decide (k = k0)) as [->|Hne].
  - rewrite lookup_insert_eq. apply not_elem_of_list_to_map_1 in Hk0. rewrite Hk0, lookup_insert_eq in Hout.
    exists x'. split; [done|]. by eapply copy_of_mono.
  - rewrite lookup_insert_ne by done. destruct (list_to_map l !! k); [done|].
    by rewrite lookup_insert_ne in Hout.
Qed.

Lemma range_entries_map m : (list_to_map (range_entries m) : gmap string gval) = m.
Proof.
  rewrite (list_to_map_proper _ (map_to_list m)); [apply list_to_map_to_list| |apply range_entries_perm].
  rewrite range_entries_perm. apply NoDup_fst_map_to_list.
Qed.

Lemma deep_map t f : deep t f → deep (TMap t) (copy_gomap f).
Proof.
  intros Hf h v Hv h1 Hs. destruct v as [| | | | |[l|]|]; try done.
  2:{ by eexists _, _. }
  simpl in Hv. destruct (h !! l) as [[| |m]|] eqn:E; try done.
  unfold copy_gomap. rewrite (go_bind_Ret _ _ _ _ _ (load_spec _ _ _ (lookup_weaken _ _ _ _ E Hs))).
  destruct (copy_entries_deep t f h (range_entries m) h1 ∅) as (m' & h2 & Hrun & Hs2 & Hc);
    [done| | |done|].
  { rewrite range_entries_perm. apply NoDup_fst_map_to_list. }
  { rewrite range_entries_perm. apply map_Forall_to_list in Hv.
    eapply Forall_impl; [exact Hv|]. by intros []. }
  rewrite (go_bind_Ret _ _ _ _ _ Hrun). rewrite range_entries_map in Hc.
  destruct (alloc_spec (CMap m') h2) as (l' & Ha & Hl & Hs3). rewrite (go_bind_Ret _ _ _ _ _ Ha).
  eexists _, _. split; [done|]. split; [by etrans|]. simpl. rewrite E, lookup_insert_eq.
  split; [by eapply lookup_weaken_None; [|by etrans]|]. intros k. specialize (Hc k).
  destruct (m !! k) as [x|].
  - destruct Hc as (x' & -> & Hc). constructor. by eapply copy_of_mono.
  - rewrite Hc, lookup_empty. constructor.
Qed.
End map_lemmas.

(** *** Structs *)

(** In a struct that is being copied, the fields of [D] are copied and the others
    are those of the original. *)
Definition copied_fields (D : gset string) (h : heap) (fs : list (string * ty))
    (vs : list (string * gval)) (h' : heap) (cur : list (string * gval)) : Prop :=
  fields_match (λ n t x x', if decide (n ∈ D) then copy_of t h x h' x' else x' = x) fs vs cur.

Fixpoint field_type (n : string) (fs : list (string * ty)) : option ty :=
  match fs with
  | [] => None
  | (n', t) :: fs' => if String.eqb n' n then Some t else field_type n fs'
  end.

Lemma copied_fields_mono D h fs vs h1 h2 cur :
  h1 ⊆ h2 → copied_fields D h fs vs h1 cur → copied_fields D h fs vs h2 cur.
Proof.
  intros Hs. apply fields_match_impl, Forall_forall. intros f _ x x'. case_decide; [|done].
  by apply copy_of_mono.
Qed.

Lemma copied_fields_other n D h fs vs h1 cur :
  n ∉ fs.*1 → copied_fields D h fs vs h1 cur → copied_fields ({[n]} ∪ D) h fs vs h1 cur.
Proof.
  intros Hn. apply fields_match_impl, Forall_forall. intros [n' t] Hin x x'. simpl.
  assert (n' ≠ n). { intros ->. apply Hn. by apply (list_elem_of_fmap_2 fst) in Hin. }
  repeat case_decide; set_solver.
Qed.

Lemma on_field_spec n f t D h fs vs cur h1 :
  NoDup fs.*1 → field_type n fs = Some t → n ∉ D → deep t f →
  fields_have (λ t, has_type t h) fs vs → h ⊆ h1 → copied_fields D h fs vs h1 cur →
  ∃ cur' h', on_field n f cur h1 = (Ret cur', h') ∧ h1 ⊆ h' ∧
    copied_fields ({[n]} ∪ D) h fs vs h' cur'.
Proof.
  intros Hnd Ht HD Hf Hv Hs Hc. unfold copied_fields in Hc.
  revert vs cur Hnd Ht Hv Hc. induction fs as [|[n' t'] fs IH]; intros vs cur Hnd Ht Hv Hc; [done|].
  destruct vs as [|[n1 x] vs]; [done|]. destruct cur as [|[n2 x2] cur]; [done|].
  simpl in Hv, Hc. destruct Hv as (-> & Hx & Hv). destruct Hc as (_ & -> & Hxx & Hc).
  csimpl in *. apply NoDup_cons in Hnd as [Hn' Hnd]. destruct (String.eqb_spec n' n) as [->|Hne].
  - injection Ht as ->. rewrite decide_False in Hxx by done. subst x2.
    destruct (Hf h x Hx h1 Hs) as (x' & h2 & Hrun & Hs2 & Hcx).
    rewrite decide_True, (go_bind_Ret _ _ _ _ _ Hrun) by done. eexists _, _. split; [done|].
    split; [done|]. split_and!; [done|done| |].
    + by rewrite decide_True by set_solver.
    + apply copied_fields_other; [done|]. by eapply copied_fields_mono.
  - destruct (IH vs cur Hnd Ht Hv Hc) as (cur' & h2 & Hrun & Hs2 & Hc2).
    rewrite decide_False, (go_bind_Ret _ _ _ _ _ Hrun) by done. eexists _, _. split; [done|].
    split; [done|]. split_and!; [done|done| |exact Hc2].
    repeat case_decide; [by eapply copy_of_mono|set_solver..|done].
Qed.

Lemma on_fields_spec cs D h fs vs cur h1 :
  NoDup fs.*1 → NoDup cs.*1 → Forall (λ c, c.1 ∉ D) cs →
  Forall (λ c, from_option (λ t, deep t c.2) False (field_type c.1 fs)) cs →
  fields_have (λ t, has_type t h) fs vs → h ⊆ h1 → copied_fields D h fs vs h1 cur →
  ∃ cur' h', on_fields cs cur h1 = (Ret cur', h') ∧ h1 ⊆ h' ∧
    copied_fields (list_to_set cs.*1 ∪ D) h fs vs h' cur'.
Proof.
  intros Hnd Hcs HD Hall Hv. revert D cur h1 Hcs HD.
  induction Hall as [|[n f] cs Hf _ IH]; intros D cur h1 Hcs HD Hs Hc; simpl.
  { exists cur, h1. split; [done|]. split; [done|]. by rewrite (left_id_L ∅ (∪)). }
  csimpl in *. apply NoDup_cons in Hcs as [Hn Hcs]. apply Forall_cons in HD as [Hn' HD].
  destruct (field_type n fs) as [t|] eqn:Ht; [|done]. simpl in Hf, Hn'.
  destruct (on_field_spec n f t D h fs vs cur h1) as (cur1 & h2 & Hrun & Hs2 & Hc2); try done.
  rewrite (go_bind_Ret _ _ _ _ _ Hrun).
  destruct (IH ({[n]} ∪ D) cur1 h2 Hcs) as (cur' & h3 & Hrun3 & Hs3 & Hc3); [|by etrans|done|].
  { rewrite Forall_forall in HD |- *. intros c Hin. specialize (HD c Hin).
    assert (c.1 ≠ n); [|set_solver]. intros <-. apply Hn. by apply list_elem_of_fmap_2. }
  exists cur', h3. split; [done|]. split; [by etrans|].
  change (copied_fields ({[n]} ∪ list_to_set cs.*1 ∪ D) h fs vs h3 cur').
  by rewrite (comm_L (∪) {[n]}), <- (assoc_L (∪)).
Qed.

Lemma deep_struct fs cs :
  bool_decide (NoDup fs.*1) = true → bool_decide (NoDup cs.*1) = true →
  Forall (λ c, from_option (λ t, deep t c.2) False (field_type c.1 fs)) cs →
  forallb (λ f, bool_decide (f.1 ∈ cs.*1) || flat f.2) fs = true →
  deep (TStruct fs) (copy_struct cs).
Proof.
  intros Hnd%bool_decide_eq_true Hcs%bool_decide_eq_true Hall Hrest h v Hv h1 Hs.
  destruct v as [| | | | | |vs]; try done. simpl in Hv.
  assert (copied_fields ∅ h fs vs h1 vs) as Hinit.
  { clear -Hv. unfold copied_fields. revert vs Hv. induction fs as [|[n t] fs IH];
      intros [|[n' x] vs] Hv; try done. simpl in *. destruct Hv as (-> & _ & Hv).
    split_and!; [done|done|by rewrite decide_False by set_solver|by apply IH]. }
  destruct (on_fields_spec cs ∅ h fs vs vs h1) as (cur & h2 & Hrun & Hs2 & Hc); try done.
  { apply Forall_forall. set_solver. }
  unfold copy_struct. rewrite (go_bind_Ret _ _ _ _ _ Hrun). eexists _, _. split; [done|].
  split; [done|]. simpl. rewrite (right_id_L ∅ (∪)) in Hc. unfold copied_fields in Hc.
  clear -Hv Hc Hrest. revert vs cur Hv Hc Hrest. induction fs as [|[n t] fs IH];
    intros [|[n1 x] vs] [|[n2 x'] cur] Hv Hc Hrest; try done. simpl in *.
  apply andb_true_iff in Hrest as [Hr Hrest]. destruct Hv as (-> & Hx & Hv).
  destruct Hc as (_ & -> & Hxx & Hc). split_and!; [done|done| |by apply IH].
  case_decide as Hin; [done|]. subst x'. apply flat_copy; [|done].
  rewrite elem_of_list_to_set in Hin. apply orb_true_iff in Hr as [Hr|Hr]; [|done].
  by apply bool_decide_eq_true in Hr.
Qed.
