(* ===== verification/DeepCopy.v ===== *)
(** * DeepCopy: the types of the resources and their deep copies
    (src/pkg/apis/core/v1alpha1, with zz_generated.deepcopy.go)

    The controller reads workflows that its cache shares with others, changes a
    [DeepCopy] of what it read, and compares the two; the other components treat
    resources as values. Here the resources lie in memory ([GoMem]), every struct is
    the list of its fields, and the generated functions copy the fields that refer
    to memory. They make deep copies exactly because no such field is left out. *)
From S2P Require Import Prelude GoMem.
From stdpp Require Import options.

(** What the copies use of k8s.io/api and k8s.io/apimachinery. *)
Class CopyEnv := {
  TypeMeta_ty : ty;
  TypeMeta_flat : flat TypeMeta_ty = true;
  ObjectMeta_ty : ty;
  ObjectMeta_DeepCopyInto : gval → go heap gval;
  ObjectMeta_deep : deep ObjectMeta_ty ObjectMeta_DeepCopyInto;
  ListMeta_ty : ty;
  ListMeta_DeepCopyInto : gval → go heap gval;
  ListMeta_deep : deep ListMeta_ty ListMeta_DeepCopyInto;
  Time_ty : ty;
  Time_DeepCopy : gval → go heap gval;
  Time_deep : deep (TPtr Time_ty) Time_DeepCopy;
  Quantity_ty : ty;
  Quantity_DeepCopy : gval → go heap gval;
  Quantity_deep : deep Quantity_ty Quantity_DeepCopy;
  TypedLocalObjectReference_ty : ty;
  TypedLocalObjectReference_DeepCopyInto : gval → go heap gval;
  TypedLocalObjectReference_deep :
    deep TypedLocalObjectReference_ty TypedLocalObjectReference_DeepCopyInto
}.

Section resources.
Context `{CE : CopyEnv} `{RO : RangeOrder}.
Abbreviation copier := (gval → go heap gval) (only parsing).

(** ** The types *)
Definition Disk_ty : ty := TStruct
   [("Device", TScalar)].
Definition MetadataInstanceOperatingSystem_ty : ty := TStruct
   [("Slug", TScalar);
    ("Distro", TScalar);
    ("Version", TScalar);
    ("ImageTag", TScalar);
    ("OsSlug", TScalar)].
Definition MetadataCustom_ty : ty := TStruct
   [("PreinstalledOperatingSystemVersion", TPtr MetadataInstanceOperatingSystem_ty);
    ("PrivateSubnets", TSlice TScalar)].
Definition MetadataFacility_ty : ty := TStruct
   [("PlanSlug", TScalar);
    ("PlanVersionSlug", TScalar);
    ("FacilityCode", TScalar)].
Definition MetadataInstanceIP_ty : ty := TStruct
   [("Address", TScalar);
    ("Netmask", TScalar);
    ("Gateway", TScalar);
    ("Family", TScalar);
    ("Public", TScalar);
    ("Management", TScalar)].
Definition MetadataInstanceStorageDiskPartition_ty : ty := TStruct
   [("Label", TScalar);
    ("Number", TScalar);
    ("Size", TScalar);
    ("Start", TScalar);
    ("TypeGUID", TScalar)].
Definition MetadataInstanceStorageDisk_ty : ty := TStruct
   [("Device", TScalar);
    ("WipeTable", TScalar);
    ("Partitions", TSlice (TPtr MetadataInstanceStorageDiskPartition_ty))].
Definition MetadataInstanceStorageFile_ty : ty := TStruct
   [("Path", TScalar);
    ("Contents", TScalar);
    ("Mode", TScalar);
    ("UID", TScalar);
    ("GID", TScalar)].
Definition MetadataInstanceStorageMountFilesystemOptions_ty : ty := TStruct
   [("Force", TScalar);
    ("Options", TSlice TScalar)].
Definition MetadataInstanceStorageMount_ty : ty := TStruct
   [("Device", TScalar);
    ("Format", TScalar);
    ("Files", TSlice (TPtr MetadataInstanceStorageFile_ty));
    ("Create", TPtr MetadataInstanceStorageMountFilesystemOptions_ty);
    ("Point", TScalar)].
Definition MetadataInstanceStorageFilesystem_ty : ty := TStruct
   [("Mount", TPtr MetadataInstanceStorageMount_ty)].
Definition MetadataInstanceStorageRAID_ty : ty := TStruct
   [("Name", TScalar);
    ("Level", TScalar);
    ("Devices", TSlice TScalar);
    ("Spare", TScalar)].
Definition MetadataInstanceStorage_ty : ty := TStruct
   [("Disks", TSlice (TPtr MetadataInstanceStorageDisk_ty));
    ("Raid", TSlice (TPtr MetadataInstanceStorageRAID_ty));
    ("Filesystems", TSlice (TPtr MetadataInstanceStorageFilesystem_ty))].
Definition MetadataInstance_ty : ty := TStruct
   [("ID", TScalar);
    ("State", TScalar);
    ("Hostname", TScalar);
    ("AllowPxe", TScalar);
    ("Rescue", TScalar);
    ("OperatingSystem", TPtr MetadataInstanceOperatingSystem_ty);
    ("AlwaysPxe", TScalar);
    ("IpxeScriptURL", TScalar);
    ("Ips", TSlice (TPtr MetadataInstanceIP_ty));
    ("Userdata", TScalar);
    ("CryptedRootPassword", TScalar);
    ("Tags", TSlice TScalar);
    ("Storage", TPtr MetadataInstanceStorage_ty);
    ("SSHKeys", TSlice TScalar);
    ("NetworkReady", TScalar)].
Definition MetadataManufacturer_ty : ty := TStruct
   [("ID", TScalar);
    ("Slug", TScalar)].
Definition HardwareMetadata_ty : ty := TStruct
   [("State", TScalar);
    ("BondingMode", TScalar);
    ("Manufacturer", TPtr MetadataManufacturer_ty);
    ("Instance", TPtr MetadataInstance_ty);
    ("Custom", TPtr MetadataCustom_ty);
    ("Facility", TPtr MetadataFacility_ty)].
Definition IP_ty : ty := TStruct
   [("Address", TScalar);
    ("Netmask", TScalar);
    ("Gateway", TScalar);
    ("Family", TScalar)].
Definition DHCP_ty : ty := TStruct
   [("MAC", TScalar);
    ("Hostname", TScalar);
    ("LeaseTime", TScalar);
    ("NameServers", TSlice TScalar);
    ("TimeServers", TSlice TScalar);
    ("Arch", TScalar);
    ("UEFI", TScalar);
    ("IfaceName", TScalar);
    ("IP", TPtr IP_ty);
    ("VLANID", TScalar)].
Definition IPXE_ty : ty := TStruct
   [("URL", TScalar);
    ("Contents", TScalar)].
Definition OSIE_ty : ty := TStruct
   [("BaseURL", TScalar);
    ("Kernel", TScalar);
    ("Initrd", TScalar)].
Definition Netboot_ty : ty := TStruct
   [("AllowPXE", TPtr TScalar);
    ("AllowWorkflow", TPtr TScalar);
    ("IPXE", TPtr IPXE_ty);
    ("OSIE", TPtr OSIE_ty)].
Definition Interface_ty : ty := TStruct
   [("Netboot", TPtr Netboot_ty);
    ("DHCP", TPtr DHCP_ty)].
Definition HardwareSpec_ty : ty := TStruct
   [("BMCRef", TPtr TypedLocalObjectReference_ty);
    ("Interfaces", TSlice Interface_ty);
    ("Metadata", TPtr HardwareMetadata_ty);
    ("TinkVersion", TScalar);
    ("Disks", TSlice Disk_ty);
    ("Resources", TMap Quantity_ty);
    ("UserData", TPtr TScalar);
    ("VendorData", TPtr TScalar)].
Definition HardwareStatus_ty : ty := TStruct
   [("State", TScalar)].
Definition Hardware_ty : ty := TStruct
   [("TypeMeta", TypeMeta_ty);
    ("ObjectMeta", ObjectMeta_ty);
    ("Spec", HardwareSpec_ty);
    ("Status", HardwareStatus_ty)].
Definition HardwareList_ty : ty := TStruct
   [("TypeMeta", TypeMeta_ty);
    ("ListMeta", ListMeta_ty);
    ("Items", TSlice Hardware_ty)].
Definition WorkflowSpec_ty : ty := TStruct
   [("TemplateRef", TScalar);
    ("HardwareRef", TScalar);
    ("HardwareMap", TMap TScalar)].
Definition Action_ty : ty := TStruct
   [("Name", TScalar);
    ("Image", TScalar);
    ("Timeout", TScalar);
    ("Command", TSlice TScalar);
    ("Volumes", TSlice TScalar);
    ("Pid", TScalar);
    ("Environment", TMap TScalar);
    ("Status", TScalar);
    ("StartedAt", TPtr Time_ty);
    ("Seconds", TScalar);
    ("Message", TScalar)].
Definition Task_ty : ty := TStruct
   [("Name", TScalar);
    ("WorkerAddr", TScalar);
    ("Actions", TSlice Action_ty);
    ("Volumes", TSlice TScalar);
    ("Environment", TMap TScalar)].
Definition WorkflowStatus_ty : ty := TStruct
   [("State", TScalar);
    ("GlobalTimeout", TScalar);
    ("Tasks", TSlice Task_ty)].
Definition Workflow_ty : ty := TStruct
   [("TypeMeta", TypeMeta_ty);
    ("ObjectMeta", ObjectMeta_ty);
    ("Spec", WorkflowSpec_ty);
    ("Status", WorkflowStatus_ty)].
Definition WorkflowList_ty : ty := TStruct
   [("TypeMeta", TypeMeta_ty);
    ("ListMeta", ListMeta_ty);
    ("Items", TSlice Workflow_ty)].
Definition TemplateSpec_ty : ty := TStruct
   [("Data", TPtr TScalar)].
Definition TemplateStatus_ty : ty := TStruct
   [("State", TScalar)].
Definition Template_ty : ty := TStruct
   [("TypeMeta", TypeMeta_ty);
    ("ObjectMeta", ObjectMeta_ty);
    ("Spec", TemplateSpec_ty);
    ("Status", TemplateStatus_ty)].
Definition TemplateList_ty : ty := TStruct
   [("TypeMeta", TypeMeta_ty);
    ("ListMeta", ListMeta_ty);
    ("Items", TSlice Template_ty)].
Definition WorkflowDataSpec_ty : ty := TStruct
   [("WorkflowRef", TScalar)].
Definition WorkflowDataStatus_ty : ty := TStruct
   [("Data", TScalar);
    ("Metadata", TScalar)].
Definition WorkflowData_ty : ty := TStruct
   [("TypeMeta", TypeMeta_ty);
    ("ObjectMeta", ObjectMeta_ty);
    ("Spec", WorkflowSpec_ty);
    ("Status", WorkflowStatus_ty)].
Definition WorkflowDataList_ty : ty := TStruct
   [("TypeMeta", TypeMeta_ty);
    ("ListMeta", ListMeta_ty);
    ("Items", TSlice WorkflowData_ty)].

(** ** The copies *)
Definition Disk_DeepCopyInto : copier := assign.
Definition Disk_DeepCopy : copier := copy_ptr Disk_DeepCopyInto.
Definition MetadataInstanceOperatingSystem_DeepCopyInto : copier := assign.
Definition MetadataInstanceOperatingSystem_DeepCopy : copier := copy_ptr MetadataInstanceOperatingSystem_DeepCopyInto.
Definition MetadataCustom_DeepCopyInto : copier := copy_struct
   [("PreinstalledOperatingSystemVersion", copy_ptr assign);
    ("PrivateSubnets", copy_slice assign)].
Definition MetadataCustom_DeepCopy : copier := copy_ptr MetadataCustom_DeepCopyInto.
Definition MetadataFacility_DeepCopyInto : copier := assign.
Definition MetadataFacility_DeepCopy : copier := copy_ptr MetadataFacility_DeepCopyInto.
Definition MetadataInstanceIP_DeepCopyInto : copier := assign.
Definition MetadataInstanceIP_DeepCopy : copier := copy_ptr MetadataInstanceIP_DeepCopyInto.
Definition MetadataInstanceStorageDiskPartition_DeepCopyInto : copier := assign.
Definition MetadataInstanceStorageDiskPartition_DeepCopy : copier := copy_ptr MetadataInstanceStorageDiskPartition_DeepCopyInto.
Definition MetadataInstanceStorageDisk_DeepCopyInto : copier := copy_struct
   [("Partitions", copy_slice (copy_ptr assign))].
Definition MetadataInstanceStorageDisk_DeepCopy : copier := copy_ptr MetadataInstanceStorageDisk_DeepCopyInto.
Definition MetadataInstanceStorageFile_DeepCopyInto : copier := assign.
Definition MetadataInstanceStorageFile_DeepCopy : copier := copy_ptr MetadataInstanceStorageFile_DeepCopyInto.
Definition MetadataInstanceStorageMountFilesystemOptions_DeepCopyInto : copier := copy_struct
   [("Options", copy_slice assign)].
Definition MetadataInstanceStorageMountFilesystemOptions_DeepCopy : copier := copy_ptr MetadataInstanceStorageMountFilesystemOptions_DeepCopyInto.
Definition MetadataInstanceStorageMount_DeepCopyInto : copier := copy_struct
   [("Files", copy_slice (copy_ptr assign));
    ("Create", copy_ptr MetadataInstanceStorageMountFilesystemOptions_DeepCopyInto)].
Definition MetadataInstanceStorageMount_DeepCopy : copier := copy_ptr MetadataInstanceStorageMount_DeepCopyInto.
Definition MetadataInstanceStorageFilesystem_DeepCopyInto : copier := copy_struct
   [("Mount", copy_ptr MetadataInstanceStorageMount_DeepCopyInto)].
Definition MetadataInstanceStorageFilesystem_DeepCopy : copier := copy_ptr MetadataInstanceStorageFilesystem_DeepCopyInto.
Definition MetadataInstanceStorageRAID_DeepCopyInto : copier := copy_struct
   [("Devices", copy_slice assign)].
Definition MetadataInstanceStorageRAID_DeepCopy : copier := copy_ptr MetadataInstanceStorageRAID_DeepCopyInto.
Definition MetadataInstanceStorage_DeepCopyInto : copier := copy_struct
   [("Disks", copy_slice (copy_ptr MetadataInstanceStorageDisk_DeepCopyInto));
    ("Raid", copy_slice (copy_ptr MetadataInstanceStorageRAID_DeepCopyInto));
    ("Filesystems", copy_slice (copy_ptr MetadataInstanceStorageFilesystem_DeepCopyInto))].
Definition MetadataInstanceStorage_DeepCopy : copier := copy_ptr MetadataInstanceStorage_DeepCopyInto.
Definition MetadataInstance_DeepCopyInto : copier := copy_struct
   [("OperatingSystem", copy_ptr assign);
    ("Ips", copy_slice (copy_ptr assign));
    ("Tags", copy_slice assign);
    ("Storage", copy_ptr MetadataInstanceStorage_DeepCopyInto);
    ("SSHKeys", copy_slice assign)].
Definition MetadataInstance_DeepCopy : copier := copy_ptr MetadataInstance_DeepCopyInto.
Definition MetadataManufacturer_DeepCopyInto : copier := assign.
Definition MetadataManufacturer_DeepCopy : copier := copy_ptr MetadataManufacturer_DeepCopyInto.
Definition HardwareMetadata_DeepCopyInto : copier := copy_struct
   [("Manufacturer", copy_ptr assign);
    ("Instance", copy_ptr MetadataInstance_DeepCopyInto);
    ("Custom", copy_ptr MetadataCustom_DeepCopyInto);
    ("Facility", copy_ptr assign)].
Definition HardwareMetadata_DeepCopy : copier := copy_ptr HardwareMetadata_DeepCopyInto.
Definition IP_DeepCopyInto : copier := assign.
Definition IP_DeepCopy : copier := copy_ptr IP_DeepCopyInto.
Definition DHCP_DeepCopyInto : copier := copy_struct
   [("NameServers", copy_slice assign);
    ("TimeServers", copy_slice assign);
    ("IP", copy_ptr assign)].
Definition DHCP_DeepCopy : copier := copy_ptr DHCP_DeepCopyInto.
Definition IPXE_DeepCopyInto : copier := assign.
Definition IPXE_DeepCopy : copier := copy_ptr IPXE_DeepCopyInto.
Definition OSIE_DeepCopyInto : copier := assign.
Definition OSIE_DeepCopy : copier := copy_ptr OSIE_DeepCopyInto.
Definition Netboot_DeepCopyInto : copier := copy_struct
   [("AllowPXE", copy_ptr assign);
    ("AllowWorkflow", copy_ptr assign);
    ("IPXE", copy_ptr assign);
    ("OSIE", copy_ptr assign)].
Definition Netboot_DeepCopy : copier := copy_ptr Netboot_DeepCopyInto.
Definition Interface_DeepCopyInto : copier := copy_struct
   [("Netboot", copy_ptr Netboot_DeepCopyInto);
    ("DHCP", copy_ptr DHCP_DeepCopyInto)].
Definition Interface_DeepCopy : copier := copy_ptr Interface_DeepCopyInto.
Definition HardwareSpec_DeepCopyInto : copier := copy_struct
   [("BMCRef", copy_ptr TypedLocalObjectReference_DeepCopyInto);
    ("Interfaces", copy_slice Interface_DeepCopyInto);
    ("Metadata", copy_ptr HardwareMetadata_DeepCopyInto);
    ("Disks", copy_slice assign);
    ("Resources", copy_gomap Quantity_DeepCopy);
    ("UserData", copy_ptr assign);
    ("VendorData", copy_ptr assign)].
Definition HardwareSpec_DeepCopy : copier := copy_ptr HardwareSpec_DeepCopyInto.
Definition HardwareStatus_DeepCopyInto : copier := assign.
Definition HardwareStatus_DeepCopy : copier := copy_ptr HardwareStatus_DeepCopyInto.
Definition Hardware_DeepCopyInto : copier := copy_struct
   [("TypeMeta", assign);
    ("ObjectMeta", ObjectMeta_DeepCopyInto);
    ("Spec", HardwareSpec_DeepCopyInto);
    ("Status", assign)].
Definition Hardware_DeepCopy : copier := copy_ptr Hardware_DeepCopyInto.
Definition Hardware_DeepCopyObject : gval → go heap (option gval) := copy_object Hardware_DeepCopy.
Definition HardwareList_DeepCopyInto : copier := copy_struct
   [("TypeMeta", assign);
    ("ListMeta", ListMeta_DeepCopyInto);
    ("Items", copy_slice Hardware_DeepCopyInto)].
Definition HardwareList_DeepCopy : copier := copy_ptr HardwareList_DeepCopyInto.
Definition HardwareList_DeepCopyObject : gval → go heap (option gval) := copy_object HardwareList_DeepCopy.
Definition WorkflowSpec_DeepCopyInto : copier := copy_struct
   [("HardwareMap", copy_gomap assign)].
Definition WorkflowSpec_DeepCopy : copier := copy_ptr WorkflowSpec_DeepCopyInto.
Definition Action_DeepCopyInto : copier := copy_struct
   [("Command", copy_slice assign);
    ("Volumes", copy_slice assign);
    ("Environment", copy_gomap assign);
    ("StartedAt", Time_DeepCopy)].
Definition Action_DeepCopy : copier := copy_ptr Action_DeepCopyInto.
Definition Task_DeepCopyInto : copier := copy_struct
   [("Actions", copy_slice Action_DeepCopyInto);
    ("Volumes", copy_slice assign);
    ("Environment", copy_gomap assign)].
Definition Task_DeepCopy : copier := copy_ptr Task_DeepCopyInto.
Definition WorkflowStatus_DeepCopyInto : copier := copy_struct
   [("Tasks", copy_slice Task_DeepCopyInto)].
Definition WorkflowStatus_DeepCopy : copier := copy_ptr WorkflowStatus_DeepCopyInto.
Definition Workflow_DeepCopyInto : copier := copy_struct
   [("TypeMeta", assign);
    ("ObjectMeta", ObjectMeta_DeepCopyInto);
    ("Spec", WorkflowSpec_DeepCopyInto);
    ("Status", WorkflowStatus_DeepCopyInto)].
Definition Workflow_DeepCopy : copier := copy_ptr Workflow_DeepCopyInto.
Definition Workflow_DeepCopyObject : gval → go heap (option gval) := copy_object Workflow_DeepCopy.
Definition WorkflowList_DeepCopyInto : copier := copy_struct
   [("TypeMeta", assign);
    ("ListMeta", ListMeta_DeepCopyInto);
    ("Items", copy_slice Workflow_DeepCopyInto)].
Definition WorkflowList_DeepCopy : copier := copy_ptr WorkflowList_DeepCopyInto.
Definition WorkflowList_DeepCopyObject : gval → go heap (option gval) := copy_object WorkflowList_DeepCopy.
Definition TemplateSpec_DeepCopyInto : copier := copy_struct
   [("Data", copy_ptr assign)].
Definition TemplateSpec_DeepCopy : copier := copy_ptr TemplateSpec_DeepCopyInto.
Definition TemplateStatus_DeepCopyInto : copier := assign.
Definition TemplateStatus_DeepCopy : copier := copy_ptr TemplateStatus_DeepCopyInto.
Definition Template_DeepCopyInto : copier := copy_struct
   [("TypeMeta", assign);
    ("ObjectMeta", ObjectMeta_DeepCopyInto);
    ("Spec", TemplateSpec_DeepCopyInto);
    ("Status", assign)].
Definition Template_DeepCopy : copier := copy_ptr Template_DeepCopyInto.
Definition Template_DeepCopyObject : gval → go heap (option gval) := copy_object Template_DeepCopy.
Definition TemplateList_DeepCopyInto : copier := copy_struct
   [("TypeMeta", assign);
    ("ListMeta", ListMeta_DeepCopyInto);
    ("Items", copy_slice Template_DeepCopyInto)].
Definition TemplateList_DeepCopy : copier := copy_ptr TemplateList_DeepCopyInto.
Definition TemplateList_DeepCopyObject : gval → go heap (option gval) := copy_object TemplateList_DeepCopy.
Definition WorkflowDataSpec_DeepCopyInto : copier := assign.
Definition WorkflowDataSpec_DeepCopy : copier := copy_ptr WorkflowDataSpec_DeepCopyInto.
Definition WorkflowDataStatus_DeepCopyInto : copier := assign.
Definition WorkflowDataStatus_DeepCopy : copier := copy_ptr WorkflowDataStatus_DeepCopyInto.
Definition WorkflowData_DeepCopyInto : copier := copy_struct
   [("TypeMeta", assign);
    ("ObjectMeta", ObjectMeta_DeepCopyInto);
    ("Spec", WorkflowSpec_DeepCopyInto);
    ("Status", WorkflowStatus_DeepCopyInto)].
Definition WorkflowData_DeepCopy : copier := copy_ptr WorkflowData_DeepCopyInto.
Definition WorkflowData_DeepCopyObject : gval → go heap (option gval) := copy_object WorkflowData_DeepCopy.
Definition WorkflowDataList_DeepCopyInto : copier := copy_struct
   [("TypeMeta", assign);
    ("ListMeta", ListMeta_DeepCopyInto);
    ("Items", copy_slice WorkflowData_DeepCopyInto)].
Definition WorkflowDataList_DeepCopy : copier := copy_ptr WorkflowDataList_DeepCopyInto.
Definition WorkflowDataList_DeepCopyObject : gval → go heap (option gval) := copy_object WorkflowDataList_DeepCopy.

(** ** Every type is copied deeply *)
Create HintDb deep.
#[local] Hint Resolve deep_ptr deep_slice deep_map ObjectMeta_deep ListMeta_deep Time_deep
  Quantity_deep TypedLocalObjectReference_deep : deep.
#[local] Hint Extern 1 (deep _ assign) => 
  apply deep_assign; first [exact TypeMeta_flat | vm_compute; reflexivity] : deep.

(** The fields of a struct that have a statement are copied by it, and the others
    have no references. *)
Ltac deep_type :=
  first
    [ apply deep_assign; vm_compute; reflexivity
    | apply deep_struct;
      [ vm_compute; reflexivity | vm_compute; reflexivity
      | repeat (apply Forall_cons; split); [..|apply Forall_nil; exact I];
        cbv [fst snd field_type String.eqb Ascii.eqb Bool.eqb from_option]; auto with deep nocore
      | vm_compute; reflexivity ] ].

Lemma Disk_deep : deep Disk_ty Disk_DeepCopyInto.
Proof. deep_type. Qed.
#[local] Hint Resolve Disk_deep : deep.
Lemma MetadataInstanceOperatingSystem_deep : deep MetadataInstanceOperatingSystem_ty MetadataInstanceOperatingSystem_DeepCopyInto.
Proof. deep_type. Qed.
#[local] Hint Resolve MetadataInstanceOperatingSystem_deep : deep.
Lemma MetadataCustom_deep : deep MetadataCustom_ty MetadataCustom_DeepCopyInto.
Proof. deep_type. Qed.
#[local] Hint Resolve MetadataCustom_deep : deep.
Lemma MetadataFacility_deep : deep MetadataFacility_ty MetadataFacility_DeepCopyInto.
Proof. deep_type. Qed.
#[local] Hint Resolve MetadataFacility_deep : deep.
Lemma MetadataInstanceIP_deep : deep MetadataInstanceIP_ty MetadataInstanceIP_DeepCopyInto.
Proof. deep_type. Qed.
#[local] Hint Resolve MetadataInstanceIP_deep : deep.
Lemma MetadataInstanceStorageDiskPartition_deep : deep MetadataInstanceStorageDiskPartition_ty MetadataInstanceStorageDiskPartition_DeepCopyInto.
Proof. deep_type. Qed.
#[local] Hint Resolve MetadataInstanceStorageDiskPartition_deep : deep.
Lemma MetadataInstanceStorageDisk_deep : deep MetadataInstanceStorageDisk_ty MetadataInstanceStorageDisk_DeepCopyInto.
Proof. deep_type. Qed.
#[local] Hint Resolve MetadataInstanceStorageDisk_deep : deep.
Lemma MetadataInstanceStorageFile_deep : deep MetadataInstanceStorageFile_ty MetadataInstanceStorageFile_DeepCopyInto.
Proof. deep_type. Qed.
#[local] Hint Resolve MetadataInstanceStorageFile_deep : deep.
Lemma MetadataInstanceStorageMountFilesystemOptions_deep : deep MetadataInstanceStorageMountFilesystemOptions_ty MetadataInstanceStorageMountFilesystemOptions_DeepCopyInto.
Proof. deep_type. Qed.
#[local] Hint Resolve MetadataInstanceStorageMountFilesystemOptions_deep : deep.
Lemma MetadataInstanceStorageMount_deep : deep MetadataInstanceStorageMount_ty MetadataInstanceStorageMount_DeepCopyInto.
Proof. deep_type. Qed.
#[local] Hint Resolve MetadataInstanceStorageMount_deep : deep.
Lemma MetadataInstanceStorageFilesystem_deep : deep MetadataInstanceStorageFilesystem_ty MetadataInstanceStorageFilesystem_DeepCopyInto.
Proof. deep_type. Qed.
#[local] Hint Resolve MetadataInstanceStorageFilesystem_deep : deep.
Lemma MetadataInstanceStorageRAID_deep : deep MetadataInstanceStorageRAID_ty MetadataInstanceStorageRAID_DeepCopyInto.
Proof. deep_type. Qed.
#[local] Hint Resolve MetadataInstanceStorageRAID_deep : deep.
Lemma MetadataInstanceStorage_deep : deep MetadataInstanceStorage_ty MetadataInstanceStorage_DeepCopyInto.
Proof. deep_type. Qed.
#[local] Hint Resolve MetadataInstanceStorage_deep : deep.
Lemma MetadataInstance_deep : deep MetadataInstance_ty MetadataInstance_DeepCopyInto.
Proof. deep_type. Qed.
#[local] Hint Resolve MetadataInstance_deep : deep.
Lemma MetadataManufacturer_deep : deep MetadataManufacturer_ty MetadataManufacturer_DeepCopyInto.
Proof. deep_type. Qed.
#[local] Hint Resolve MetadataManufacturer_deep : deep.
Lemma HardwareMetadata_deep : deep HardwareMetadata_ty HardwareMetadata_DeepCopyInto.
Proof. deep_type. Qed.
#[local] Hint Resolve HardwareMetadata_deep : deep.
Lemma IP_deep : deep IP_ty IP_DeepCopyInto.
Proof. deep_type. Qed.
#[local] Hint Resolve IP_deep : deep.
Lemma DHCP_deep : deep DHCP_ty DHCP_DeepCopyInto.
Proof. deep_type. Qed.
#[local] Hint Resolve DHCP_deep : deep.
Lemma IPXE_deep : deep IPXE_ty IPXE_DeepCopyInto.
Proof. deep_type. Qed.
#[local] Hint Resolve IPXE_deep : deep.
Lemma OSIE_deep : deep OSIE_ty OSIE_DeepCopyInto.
Proof. deep_type. Qed.
#[local] Hint Resolve OSIE_deep : deep.
Lemma Netboot_deep : deep Netboot_ty Netboot_DeepCopyInto.
Proof. deep_type. Qed.
#[local] Hint Resolve Netboot_deep : deep.
Lemma Interface_deep : deep Interface_ty Interface_DeepCopyInto.
Proof. deep_type. Qed.
#[local] Hint Resolve Interface_deep : deep.
Lemma HardwareSpec_deep : deep HardwareSpec_ty HardwareSpec_DeepCopyInto.
Proof. deep_type. Qed.
#[local] Hint Resolve HardwareSpec_deep : deep.
Lemma HardwareStatus_deep : deep HardwareStatus_ty HardwareStatus_DeepCopyInto.
Proof. deep_type. Qed.
#[local] Hint Resolve HardwareStatus_deep : deep.
Lemma Hardware_deep : deep Hardware_ty Hardware_DeepCopyInto.
Proof. deep_type. Qed.
#[local] Hint Resolve Hardware_deep : deep.
Lemma HardwareList_deep : deep HardwareList_ty HardwareList_DeepCopyInto.
Proof. deep_type. Qed.
#[local] Hint Resolve HardwareList_deep : deep.
Lemma WorkflowSpec_deep : deep WorkflowSpec_ty WorkflowSpec_DeepCopyInto.
Proof. deep_type. Qed.
#[local] Hint Resolve WorkflowSpec_deep : deep.
Lemma Action_deep : deep Action_ty Action_DeepCopyInto.
Proof. deep_type. Qed.
#[local] Hint Resolve Action_deep : deep.
Lemma Task_deep : deep Task_ty Task_DeepCopyInto.
Proof. deep_type. Qed.
#[local] Hint Resolve Task_deep : deep.
Lemma WorkflowStatus_deep : deep WorkflowStatus_ty WorkflowStatus_DeepCopyInto.
Proof. deep_type. Qed.
#[local] Hint Resolve WorkflowStatus_deep : deep.
Lemma Workflow_deep : deep Workflow_ty Workflow_DeepCopyInto.
Proof. deep_type. Qed.
#[local] Hint Resolve Workflow_deep : deep.
Lemma WorkflowList_deep : deep WorkflowList_ty WorkflowList_DeepCopyInto.
Proof. deep_type. Qed.
#[local] Hint Resolve WorkflowList_deep : deep.
Lemma TemplateSpec_deep : deep TemplateSpec_ty TemplateSpec_DeepCopyInto.
Proof. deep_type. Qed.
#[local] Hint Resolve TemplateSpec_deep : deep.
Lemma TemplateStatus_deep : deep TemplateStatus_ty TemplateStatus_DeepCopyInto.
Proof. deep_type. Qed.
#[local] Hint Resolve TemplateStatus_deep : deep.
Lemma Template_deep : deep Template_ty Template_DeepCopyInto.
Proof. deep_type. Qed.
#[local] Hint Resolve Template_deep : deep.
Lemma TemplateList_deep : deep TemplateList_ty TemplateList_DeepCopyInto.
Proof. deep_type. Qed.
#[local] Hint Resolve TemplateList_deep : deep.
Lemma WorkflowDataSpec_deep : deep WorkflowDataSpec_ty WorkflowDataSpec_DeepCopyInto.
Proof. deep_type. Qed.
#[local] Hint Resolve WorkflowDataSpec_deep : deep.
Lemma WorkflowDataStatus_deep : deep WorkflowDataStatus_ty WorkflowDataStatus_DeepCopyInto.
Proof. deep_type. Qed.
#[local] Hint Resolve WorkflowDataStatus_deep : deep.
Lemma WorkflowData_deep : deep WorkflowData_ty WorkflowData_DeepCopyInto.
Proof. deep_type. Qed.
#[local] Hint Resolve WorkflowData_deep : deep.
Lemma WorkflowDataList_deep : deep WorkflowDataList_ty WorkflowDataList_DeepCopyInto.
Proof. deep_type. Qed.
#[local] Hint Resolve WorkflowDataList_deep : deep.

(** The resources and their lists, with the copies of pointers to them. *)
Definition resource_copies : list (ty * copier) :=
  [(Workflow_ty, Workflow_DeepCopy); (WorkflowList_ty, WorkflowList_DeepCopy);
   (Hardware_ty, Hardware_DeepCopy); (HardwareList_ty, HardwareList_DeepCopy);
   (Template_ty, Template_DeepCopy); (TemplateList_ty, TemplateList_DeepCopy);
   (WorkflowData_ty, WorkflowData_DeepCopy); (WorkflowDataList_ty, WorkflowDataList_DeepCopy)].

Lemma resource_copies_deep : Forall (λ p, deep (TPtr p.1) p.2) resource_copies.
Proof. repeat (apply Forall_cons; split); [..|by apply Forall_nil]; apply deep_ptr; auto with deep nocore. Qed.

(** C20 [DeepCopy] of every resource returns a value equal to the original, all of
    whose cells are new, and leaves the memory there was as it is; whatever is
    written to the original or to anything else that existed before, the copy stays
    what it is. Its slices have no spare capacity. *)
Theorem resources_deep_copied T f h v :
  (T, f) ∈ resource_copies → has_type (TPtr T) h v →
  ∃ v' h', f v h = (Ret v', h') ∧ h ⊆ h' ∧ copy_of (TPtr T) h v h' v' ∧
    ∀ h2, (∀ l, h !! l = None → h2 !! l = h' !! l) → copy_of (TPtr T) h v h2 v'.
Proof.
  intros Hin Hv. pose proof resource_copies_deep as Hd. rewrite Forall_forall in Hd.
  destruct (Hd _ Hin h v Hv h (reflexivity h)) as (v' & h' & Hrun & Hs & Hc). exists v', h'.
  split_and!; [done..|]. intros h2 H2. eapply copy_of_agree; [|exact Hc].
  intros l c Hl Hc'. by rewrite H2.
Qed.
End resources.

(** ** Witnesses *)
Lemma deep_scalars_struct n : deep (TStruct [(n, TScalar)]) assign.
Proof. by apply deep_assign. Qed.
Definition demo_copy_env : CopyEnv :=
  {| TypeMeta_ty := TStruct [("Kind", TScalar); ("APIVersion", TScalar)]; TypeMeta_flat := eq_refl;
     ObjectMeta_ty := TStruct [("Name", TScalar)]; ObjectMeta_DeepCopyInto := assign;
     ObjectMeta_deep := deep_scalars_struct "Name";
     ListMeta_ty := TStruct [("ResourceVersion", TScalar)]; ListMeta_DeepCopyInto := assign;
     ListMeta_deep := deep_scalars_struct "ResourceVersion";
     Time_ty := TScalar; Time_DeepCopy := copy_ptr assign;
     Time_deep := deep_ptr _ _ (deep_assign TScalar eq_refl);
     Quantity_ty := TScalar; Quantity_DeepCopy := assign; Quantity_deep := deep_assign TScalar eq_refl;
     TypedLocalObjectReference_ty := TScalar; TypedLocalObjectReference_DeepCopyInto := assign;
     TypedLocalObjectReference_deep := deep_assign TScalar eq_refl |}.
Definition demo_range_order : RangeOrder :=
  {| range_entries := map_to_list; range_entries_perm m := reflexivity _ |}.
#[local] Existing Instance demo_copy_env.
#[local] Existing Instance demo_range_order.

(** A template at address 0, whose data is at address 1. *)
Definition demo_memory : heap :=
  {[ 0%nat := CVal (VStruct
       [("TypeMeta", VStruct [("Kind", VStr "Template"); ("APIVersion", VStr "v1alpha1")]);
        ("ObjectMeta", VStruct [("Name", VStr "tpl")]);
        ("Spec", VStruct [("Data", VPtr (Some 1%nat))]); ("Status", VStruct [("State", VStr "")])]);
     1%nat := CVal (VStr "yaml") ]}.

Lemma resources_deep_copied_witness :
  ∃ v' h', Template_DeepCopy (VPtr (Some 0%nat)) demo_memory = (Ret v', h') ∧ demo_memory ⊆ h' ∧
    copy_of (TPtr Template_ty) demo_memory (VPtr (Some 0%nat)) h' v'.
Proof.
  destruct (resources_deep_copied Template_ty Template_DeepCopy demo_memory (VPtr (Some 0%nat)))
    as (v' & h' & H1 & H2 & H3 & _).
  - do 4 apply list_elem_of_further. apply list_elem_of_here.
  - vm_compute. repeat split.
  - by exists v', h'.
Defined.

(** An assignment instead of the copy leaves the text of a template shared. *)
Example assignment_is_shallow :
  ¬ copy_of (TPtr Template_ty) demo_memory (VPtr (Some 0%nat))
      (copy_ptr assign (VPtr (Some 0%nat)) demo_memory).2 (VPtr (Some 2%nat)).
Proof. vm_compute. intuition discriminate. Qed.
