(* ===== verification/Json.v ===== *)
(** * Json: the JSON texts of encoding/json

    Values, the printer of [json.Marshal] (with its escaping for HTML) and the
    parser of [json.Unmarshal], as far as the hardware wrapper and the client use
    them, and the proof that parsing what was printed gives the value back.
    Numbers are kept as their literals; reading one into an [interface{}] goes
    through a [float64] ([Floats]). The limit of 10000 levels of nesting and the
    replacement of invalid UTF-8 are left out, as is the escaping of U+2028 and U+2029,
    which are printed as their bytes here. *)
From S2P Require Import Prelude.
From stdpp Require Import options.

(** ** Values *)
#[local] Unset Elimination Schemes.
Inductive jvalue :=
  | JNull
  | JBool (b : bool)
  | JNum (lit : string)
  | JStr (s : string)
  | JArr (l : list jvalue)
  | JObj (l : list (string * jvalue)).
#[local] Set Elimination Schemes.

(** Induction with the hypothesis for every element and every member. *)
Lemma jvalue_ind (P : jvalue → Prop) :
  P JNull → (∀ b, P (JBool b)) → (∀ lit, P (JNum lit)) → (∀ s, P (JStr s)) →
  (∀ l, Forall P l → P (JArr l)) → (∀ l, Forall (λ p, P p.2) l → P (JObj l)) → ∀ v, P v.
Proof.
  intros Hn Hb Hm Hs Ha Ho. fix IH 1. intros [| b | lit | s | l | l]; [done|done|done|done| |].
  - apply Ha. induction l; constructor; [apply IH|assumption].
  - apply Ho. induction l as [|[k v] l IHl]; constructor; [apply IH|assumption].
Qed.

(** ** Characters *)
Definition chr (n : nat) : Ascii.ascii := Ascii.ascii_of_nat n.
Definition c_quote := chr 34.
Definition c_back := chr 92.
Definition c_comma := chr 44.
Definition c_colon := chr 58.
Definition c_lbrack := chr 91.
Definition c_rbrack := chr 93.
Definition c_lbrace := chr 123.
Definition c_rbrace := chr 125.
Definition c_u := chr 117.
Definition str1 (c : Ascii.ascii) : string := String c EmptyString.
Definition is_char (c d : Ascii.ascii) : bool := bool_decide (c = d).

Definition is_ws (c : Ascii.ascii) : bool :=
  let n := Ascii.nat_of_ascii c in
  bool_decide (n = 32 ∨ n = 9 ∨ n = 10 ∨ n = 13)%nat.
Fixpoint skip_ws (s : string) : string :=
  match s with
  | String c s' => if is_ws c then skip_ws s' else s
  | EmptyString => EmptyString
  end.

Definition is_digit (c : Ascii.ascii) : bool :=
  let n := Ascii.nat_of_ascii c in bool_decide (48 ≤ n ∧ n ≤ 57)%nat.

(** ** Printing *)
Definition hex_digit (n : nat) : Ascii.ascii := chr (if decide (n < 10)%nat then 48 + n else 87 + n).

(** One byte of a string as the encoder writes it. *)
Definition escape (c : Ascii.ascii) : string :=
  let n := Ascii.nat_of_ascii c in
  if decide (n = 34 ∨ n = 92)%nat then String c_back (str1 c)
  else if decide (n = 10)%nat then String c_back (str1 (chr 110))
  else if decide (n = 13)%nat then String c_back (str1 (chr 114))
  else if decide (n = 9)%nat then String c_back (str1 (chr 116))
  else if decide (n < 32 ∨ n = 60 ∨ n = 62 ∨ n = 38)%nat then
    String c_back (String c_u (String (chr 48) (String (chr 48)
      (String (hex_digit (n / 16)) (str1 (hex_digit (n mod 16)))))))
  else str1 c.
Fixpoint escape_all (s : string) : string :=
  match s with
  | EmptyString => EmptyString
  | String c s' => escape c +:+ escape_all s'
  end.
Definition print_str (s : string) : string :=
  String c_quote (escape_all s +:+ str1 c_quote).

Fixpoint json_print (v : jvalue) : string :=
  match v with
  | JNull => "null"
  | JBool true => "true"
  | JBool false => "false"
  | JNum lit => lit
  | JStr s => print_str s
  | JArr l => String c_lbrack (Join (map json_print l) "," +:+ str1 c_rbrack)
  | JObj l =>
      String c_lbrace (Join (map (λ p, print_str p.1 +:+ String c_colon (json_print p.2)) l) ","
        +:+ str1 c_rbrace)
  end.

(** ** Parsing *)
Definition hex_val (c : Ascii.ascii) : option Z :=
  let n := Z.of_nat (Ascii.nat_of_ascii c) in
  if decide (48 ≤ n ≤ 57) then Some (n - 48)
  else if decide (97 ≤ n ≤ 102) then Some (n - 87)
  else if decide (65 ≤ n ≤ 70) then Some (n - 55)
  else None.
Definition hex4 (a b c d : Ascii.ascii) : option Z :=
  a ← hex_val a; b ← hex_val b; c ← hex_val c; d ← hex_val d;
  Some (((a * 16 + b) * 16 + c) * 16 + d).
Definition zchr (z : Z) : Ascii.ascii := chr (Z.to_nat z).

(** A code point in UTF-8. *)
Definition utf8 (r : Z) : string :=
  if decide (r < 128) then str1 (zchr r)
  else if decide (r < 2048) then
    String (zchr (192 + r / 64)) (str1 (zchr (128 + r mod 64)))
  else if decide (r < 65536) then
    String (zchr (224 + r / 4096)) (String (zchr (128 + r / 64 mod 64)) (str1 (zchr (128 + r mod 64))))
  else
    String (zchr (240 + r / 262144)) (String (zchr (128 + r / 4096 mod 64))
      (String (zchr (128 + r / 64 mod 64)) (str1 (zchr (128 + r mod 64))))).
Definition high_surrogate (r : Z) : bool := bool_decide (55296 ≤ r < 56320).
Definition low_surrogate (r : Z) : bool := bool_decide (56320 ≤ r < 57344).
Definition replacement_char : Z := 65533.

(** The byte after a backslash. *)
Definition unescape (c : Ascii.ascii) : option Ascii.ascii :=
  let n := Ascii.nat_of_ascii c in
  if decide (n = 34 ∨ n = 92 ∨ n = 47)%nat then Some c
  else if decide (n = 98)%nat then Some (chr 8)
  else if decide (n = 102)%nat then Some (chr 12)
  else if decide (n = 110)%nat then Some (chr 10)
  else if decide (n = 114)%nat then Some (chr 13)
  else if decide (n = 116)%nat then Some (chr 9)
  else None.

Definition prepend (p : string) (r : option (string * string)) : option (string * string) :=
  '(t, rest) ← r; Some (p +:+ t, rest).

(** The rest of a string literal after its opening quote: its text and what
    follows. Half of a surrogate pair becomes the replacement character. *)
Fixpoint parse_string (s : string) : option (string * string) :=
  match s with
  | EmptyString => None
  | String c s1 =>
      if is_char c c_quote then Some (EmptyString, s1)
      else if is_char c c_back then
        match s1 with
        | EmptyString => None
        | String e s2 =>
            if is_char e c_u then
              match s2 with
              | String h1 (String h2 (String h3 (String h4 s3))) =>
                  match hex4 h1 h2 h3 h4 with
                  | None => None
                  | Some r =>
                      if high_surrogate r then
                        match s3 with
                        | String b (String u (String k1 (String k2 (String k3 (String k4 s4))))) =>
                            if is_char b c_back && is_char u c_u then
                              match hex4 k1 k2 k3 k4 with
                              | None => None
                              | Some r2 =>
                                  if low_surrogate r2 then
                                    prepend (utf8 (65536 + (r - 55296) * 1024 + (r2 - 56320)))
                                      (parse_string s4)
                                  else prepend (utf8 replacement_char) (parse_string s3)
                              end
                            else prepend (utf8 replacement_char) (parse_string s3)
                        | _ => prepend (utf8 replacement_char) (parse_string s3)
                        end
                      else if low_surrogate r then
                        prepend (utf8 replacement_char) (parse_string s3)
                      else prepend (utf8 r) (parse_string s3)
                  end
              | _ => None
              end
            else match unescape e with
                 | Some b => prepend (str1 b) (parse_string s2)
                 | None => None
                 end
        end
      else if decide (Ascii.nat_of_ascii c < 32)%nat then None
      else prepend (str1 c) (parse_string s1)
  end.

(** Numbers: the longest run of bytes that occur in numbers, which has to be
    one. *)
Definition num_char (c : Ascii.ascii) : bool :=
  let n := Ascii.nat_of_ascii c in
  is_digit c || bool_decide (n = 43 ∨ n = 45 ∨ n = 46 ∨ n = 69 ∨ n = 101)%nat.
Fixpoint span (p : Ascii.ascii → bool) (s : string) : string * string :=
  match s with
  | EmptyString => (EmptyString, EmptyString)
  | String c s' =>
      if p c then let '(a, b) := span p s' in (String c a, b) else (EmptyString, s)
  end.
Definition valid_exponent (s : string) : bool :=
  match s with
  | EmptyString => true
  | String e s1 =>
      (is_char e (chr 101) || is_char e (chr 69)) &&
      (let s2 := match s1 with
                 | String g s2 => if is_char g (chr 43) || is_char g (chr 45) then s2 else s1
                 | EmptyString => s1
                 end in
       let '(d, r) := span is_digit s2 in bool_decide (d ≠ "" ∧ r = ""))
  end.
Definition valid_fraction (s : string) : bool :=
  match s with
  | String c s1 =>
      if is_char c (chr 46) then
        let '(d, r) := span is_digit s1 in bool_decide (d ≠ "") && valid_exponent r
      else valid_exponent s
  | EmptyString => true
  end.
Definition valid_natural (s : string) : bool :=
  match s with
  | EmptyString => false
  | String c s1 =>
      if is_char c (chr 48) then valid_fraction s1
      else is_digit c && valid_fraction (span is_digit s1).2
  end.
Definition valid_num (s : string) : bool :=
  match s with
  | String c s1 => if is_char c (chr 45) then valid_natural s1 else valid_natural s
  | EmptyString => false
  end.

(** The text after a keyword. *)
Fixpoint strip (p s : string) : option string :=
  match p, s with
  | EmptyString, _ => Some s
  | String c p', String d s' => if is_char c d then strip p' s' else None
  | _, _ => None
  end.
Definition keyword (s : string) : option (jvalue * string) :=
  match strip "null" s, strip "true" s, strip "false" s with
  | Some r, _, _ => Some (JNull, r)
  | _, Some r, _ => Some (JBool true, r)
  | _, _, Some r => Some (JBool false, r)
  | _, _, _ => None
  end.

(** A value, the elements of an array after its bracket and the members of an
    object after its brace, with fuel for the nesting and the elements. *)
Fixpoint parse_value (f : nat) (s : string) : option (jvalue * string) :=
  match f with
  | O => None
  | S f =>
      match skip_ws s with
      | EmptyString => None
      | String c s1 =>
          if is_char c c_quote then '(t, r) ← parse_string s1; Some (JStr t, r)
          else if is_char c c_lbrack then
            match skip_ws s1 with
            | String d s2 =>
                if is_char d c_rbrack then Some (JArr [], s2)
                else '(l, r) ← parse_elems f s1; Some (JArr l, r)
            | EmptyString => None
            end
          else if is_char c c_lbrace then
            match skip_ws s1 with
            | String d s2 =>
                if is_char d c_rbrace then Some (JObj [], s2)
                else '(l, r) ← parse_members f s1; Some (JObj l, r)
            | EmptyString => None
            end
          else if num_char c then
            let '(lit, r) := span num_char (String c s1) in
            if valid_num lit then Some (JNum lit, r) else None
          else keyword (String c s1)
      end
  end
with parse_elems (f : nat) (s : string) : option (list jvalue * string) :=
  match f with
  | O => None
  | S f =>
      '(v, s1) ← parse_value f s;
      match skip_ws s1 with
      | EmptyString => None
      | String c s2 =>
          if is_char c c_comma then '(l, r) ← parse_elems f s2; Some (v :: l, r)
          else if is_char c c_rbrack then Some ([v], s2)
          else None
      end
  end
with parse_members (f : nat) (s : string) : option (list (string * jvalue) * string) :=
  match f with
  | O => None
  | S f =>
      match skip_ws s with
      | EmptyString => None
      | String q s0 =>
          if is_char q c_quote then
            '(k, s1) ← parse_string s0;
            match skip_ws s1 with
            | EmptyString => None
            | String c s2 =>
                if is_char c c_colon then
                  '(v, s3) ← parse_value f s2;
                  match skip_ws s3 with
                  | EmptyString => None
                  | String c' s4 =>
                      if is_char c' c_comma then
                        '(l, r) ← parse_members f s4; Some ((k, v) :: l, r)
                      else if is_char c' c_rbrace then Some ([(k, v)], s4)
                      else None
                  end
                else None
            end
          else None
      end
  end.

(** The first value of a text, as a [json.Decoder] reads it, and the value of a
    whole text, as [json.Unmarshal] does. *)
Definition json_first (s : string) : option (jvalue * string) :=
  parse_value (S (String.length s)) s.
Definition json_parse (s : string) : option jvalue :=
  '(v, r) ← json_first s; if decide (skip_ws r = "") then Some v else None.

(** ** Reading into an [interface{}]

    Numbers become a [float64], printed again as encoding/json does: [float_text]
    is that text, [None] for a number out of range. Integers of up to 53 bits keep
    their decimal text, and the text of a number is read as the same number. An
    object becomes a map: the last of several members of one name counts, and
    printing goes by the order of the keys. *)
Definition integer_text (z : Z) : string := Itoa z.

Class Floats := {
  float_text : string → option string;
  float_text_int z : Z.abs z ≤ 2 ^ 53 → float_text (integer_text z) = Some (integer_text z);
  float_text_valid l l' : float_text l = Some l' → valid_num l' = true;
  float_text_idemp l l' : float_text l = Some l' → float_text l' = Some l'
}.

Fixpoint obj_insert (k : string) (v : jvalue) (l : list (string * jvalue))
    : list (string * jvalue) :=
  match l with
  | [] => [(k, v)]
  | (k', v') :: l' =>
      match String.compare k k' with
      | Eq => (k, v) :: l'
      | Lt => (k, v) :: l
      | Gt => (k', v') :: obj_insert k v l'
      end
  end.
Fixpoint obj_lookup (k : string) (l : list (string * jvalue)) : option jvalue :=
  match l with
  | [] => None
  | (k', v) :: l' => if decide (k = k') then Some v else obj_lookup k l'
  end.
Definition obj_of (l : list (string * jvalue)) : list (string * jvalue) :=
  foldl (λ m p, obj_insert p.1 p.2 m) [] l.

Fixpoint to_any `{Floats} (v : jvalue) : option jvalue :=
  match v with
  | JNum lit => JNum <$> float_text lit
  | JArr l => JArr <$> mapM to_any l
  | JObj l => (λ m, JObj (obj_of m)) <$> mapM (λ p, pair p.1 <$> to_any p.2) l
  | v => Some v
  end.

(** ** Printing and parsing again *)
Fixpoint all_chars (p : Ascii.ascii → bool) (s : string) : bool :=
  match s with EmptyString => true | String c s' => p c && all_chars p s' end.

(** The values that have a JSON text: their numbers are number literals. *)
Fixpoint json_ok (v : jvalue) : bool :=
  match v with
  | JNum lit => valid_num lit
  | JArr l => forallb json_ok l
  | JObj l => forallb (λ p, json_ok p.2) l
  | _ => true
  end.

(** The fuel that parsing a value takes. *)
Fixpoint json_size (v : jvalue) : nat :=
  match v with
  | JArr l => S (list_sum (map (λ v, S (json_size v)) l))
  | JObj l => S (list_sum (map (λ p, S (json_size p.2)) l))
  | _ => 1
  end.

(** A text that does not continue a number. *)
Definition stops (s : string) : bool :=
  match s with EmptyString => true | String c _ => negb (num_char c) end.

Lemma str_app_cons c (a b : string) : String c a +:+ b = String c (a +:+ b).
Proof. done. Qed.

Lemma str_app_nil_l (a : string) : EmptyString +:+ a = a.
Proof. done. Qed.

Lemma str_app_assoc (a b c : string) : (a +:+ b) +:+ c = a +:+ (b +:+ c).
Proof.
  induction a as [|x a IH]; [done|]. by rewrite !str_app_cons, IH.
Qed.

Lemma str_length_app (a b : string) :
  String.length (a +:+ b) = (String.length a + String.length b)%nat.
Proof. induction a as [|x a IH]; [done|]. rewrite str_app_cons. simpl. by rewrite IH. Qed.

Lemma parse_escape c t : parse_string (escape c +:+ t) = prepend (str1 c) (parse_string t).
Proof. destruct c as [[] [] [] [] [] [] [] []]; reflexivity. Qed.

Lemma parse_string_print s rest :
  parse_string (escape_all s +:+ String c_quote rest) = Some (s, rest).
Proof.
  induction s as [|c s IH]; [reflexivity|]. simpl.
  rewrite str_app_assoc, parse_escape, IH. reflexivity.
Qed.

Lemma span_app p a b :
  all_chars p a = true → match b with EmptyString => true | String c _ => negb (p c) end = true →
  span p (a +:+ b) = (a, b).
Proof.
  intros Ha Hb. induction a as [|c a IH]; [rewrite str_app_nil_l|rewrite str_app_cons]; simpl in *.
  - destruct b as [|d b]; simpl; [done|]. by destruct (p d).
  - destruct (p c); [|done]. by rewrite IH.
Qed.

Lemma span_spec p s a b : span p s = (a, b) → s = a +:+ b ∧ all_chars p a = true.
Proof.
  revert a b. induction s as [|c s IH]; intros a b Hs; simpl in Hs; [by simplify_eq|].
  destruct (p c) eqn:Hc; [|by simplify_eq].
  destruct (span p s) as [a' b'] eqn:E. simplify_eq. destruct (IH a' b eq_refl) as [-> Ha].
  simpl. by rewrite Hc, Ha.
Qed.

Lemma all_chars_app p a b : all_chars p (a +:+ b) = all_chars p a && all_chars p b.
Proof.
  induction a as [|c a IH]; [done|]. rewrite str_app_cons. simpl. by rewrite IH, andb_assoc.
Qed.

Lemma all_chars_impl (p q : Ascii.ascii → bool) s :
  (∀ c, p c = true → q c = true) → all_chars p s = true → all_chars q s = true.
Proof.
  intros Hpq. induction s as [|c s IH]; simpl; [done|].
  intros [Hc Hs]%andb_prop. by rewrite (Hpq c Hc), IH.
Qed.

Lemma digits_num s : all_chars is_digit s = true → all_chars num_char s = true.
Proof. apply all_chars_impl. intros c Hc. unfold num_char. by rewrite Hc. Qed.

Lemma is_char_true c d : is_char c d = true → c = d.
Proof. apply bool_decide_eq_true. Qed.

(** A number literal has the bytes of numbers only. *)
Lemma valid_exponent_chars s : valid_exponent s = true → all_chars num_char s = true.
Proof.
  destruct s as [|e s1]; [done|]. simpl. intros [He H2]%andb_prop.
  apply orb_prop in He. apply andb_true_intro.
  split; [by destruct He as [->%is_char_true| ->%is_char_true]|].
  destruct s1 as [|g s2]; [done|]. destruct (is_char g _ || is_char g _) eqn:Hg; simpl.
  - apply andb_true_intro. split; [apply orb_prop in Hg; by destruct Hg as [->%is_char_true| ->%is_char_true]|].
    destruct (span is_digit s2) as [d r] eqn:E. apply bool_decide_eq_true in H2 as [_ ->].
    apply span_spec in E as [-> Hd]. rewrite string_app_nil. by apply digits_num.
  - destruct (span is_digit (String g s2)) as [d r] eqn:E.
    apply bool_decide_eq_true in H2 as [_ ->]. apply span_spec in E as [E Hd].
    rewrite string_app_nil in E. apply digits_num in Hd. by rewrite <- E in Hd.
Qed.

Lemma valid_fraction_chars s : valid_fraction s = true → all_chars num_char s = true.
Proof.
  destruct s as [|c s1]; [done|]. unfold valid_fraction. destruct (is_char c (chr 46)) eqn:Hc.
  - apply is_char_true in Hc as ->. destruct (span is_digit s1) as [d r] eqn:E.
    intros [_ He]%andb_prop. apply span_spec in E as [-> Hd]. simpl.
    by rewrite all_chars_app, (digits_num _ Hd), (valid_exponent_chars _ He).
  - apply valid_exponent_chars.
Qed.

Lemma valid_natural_chars s : valid_natural s = true → all_chars num_char s = true.
Proof.
  destruct s as [|c s1]; [done|]. simpl. destruct (is_char c (chr 48)) eqn:Hc.
  - apply is_char_true in Hc as ->. intros H. by rewrite (valid_fraction_chars _ H).
  - intros [Hd Hf]%andb_prop. destruct (span is_digit s1) as [d r] eqn:E.
    apply span_spec in E as [-> Hs]. simpl in Hf.
    rewrite all_chars_app, (digits_num _ Hs), (valid_fraction_chars _ Hf).
    unfold num_char. by rewrite Hd.
Qed.

Lemma valid_num_chars s : valid_num s = true → all_chars num_char s = true ∧ s ≠ "".
Proof.
  destruct s as [|c s1]; [done|]. intros H. split; [|done]. revert H. unfold valid_num.
  destruct (is_char c (chr 45)) eqn:Hc.
  - apply is_char_true in Hc as ->. intros H. apply (valid_natural_chars s1 H).
  - apply (valid_natural_chars (String c s1)).
Qed.

(** What the parser does on the first byte of a printed value. *)
Lemma parse_array f s :
  parse_value (S f) (String c_lbrack s) =
  match skip_ws s with
  | String d s2 =>
      if is_char d c_rbrack then Some (JArr [], s2)
      else '(l, r) ← parse_elems f s; Some (JArr l, r)
  | EmptyString => None
  end.
Proof. reflexivity. Qed.

Lemma parse_object f s :
  parse_value (S f) (String c_lbrace s) =
  match skip_ws s with
  | String d s2 =>
      if is_char d c_rbrace then Some (JObj [], s2)
      else '(l, r) ← parse_members f s; Some (JObj l, r)
  | EmptyString => None
  end.
Proof. reflexivity. Qed.

Lemma parse_number f lit rest :
  valid_num lit = true → stops rest = true →
  parse_value (S f) (lit +:+ rest) = Some (JNum lit, rest).
Proof.
  intros Hv Hr. destruct (valid_num_chars _ Hv) as [Hc Hne].
  pose proof (span_app num_char lit rest Hc Hr) as Hspan.
  destruct lit as [|c lit]; [done|]. rewrite str_app_cons in *.
  simpl in Hc. apply andb_prop in Hc as [Hc _]. clear Hne.
  assert (is_ws c = false ∧ is_char c c_quote = false ∧ is_char c c_lbrack = false ∧
          is_char c c_lbrace = false) as (Hw & Hq & Hb & Hl)
    by (revert Hc; clear; destruct c as [[] [] [] [] [] [] [] []]; vm_compute; naive_solver).
  cbn [parse_value]. cbn [skip_ws]. rewrite Hw, Hq, Hb, Hl, Hc, Hspan, Hv. done.
Qed.

(** The first byte of a printed value is neither white space nor a closing
    bracket. *)
Lemma print_head v :
  json_ok v = true → ∃ c s, json_print v = String c s ∧ is_ws c = false ∧
    is_char c c_rbrack = false ∧ is_char c c_rbrace = false.
Proof.
  destruct v as [| [] | lit | s | l | l]; intros Hok;
    try (eexists _, _; split; [reflexivity|]; vm_compute; done).
  simpl in Hok. destruct (valid_num_chars _ Hok) as [Hc Hne]. destruct lit as [|c lit]; [done|].
  eexists _, _. split; [reflexivity|]. simpl in Hc. apply andb_prop in Hc as [Hc _].
  revert Hc. clear. destruct c as [[] [] [] [] [] [] [] []]; vm_compute; naive_solver.
Qed.

Lemma skip_ws_print v rest :
  json_ok v = true → skip_ws (json_print v +:+ rest) = json_print v +:+ rest.
Proof.
  intros Hok. destruct (print_head v Hok) as (c & s & -> & Hw & _).
  rewrite str_app_cons. simpl. by rewrite Hw.
Qed.

Lemma Join_cons2 (a b : string) l sep : Join (a :: b :: l) sep = a +:+ sep +:+ Join (b :: l) sep.
Proof. done. Qed.

Definition parses (v : jvalue) : Prop :=
  json_ok v = true → ∀ f rest, (json_size v ≤ f)%nat → stops rest = true →
  parse_value f (json_print v +:+ rest) = Some (v, rest).

Lemma parse_elems_print v l :
  Forall parses (v :: l) → forallb json_ok (v :: l) = true →
  ∀ f rest, (list_sum (map (λ v, S (json_size v)) (v :: l)) ≤ f)%nat →
  parse_elems f (Join (map json_print (v :: l)) "," +:+ String c_rbrack rest) = Some (v :: l, rest).
Proof.
  revert v. induction l as [|v' l IH]; intros v Hall Hok f rest Hf;
    (destruct f as [|f]; [simpl in Hf; lia|]); inversion_clear Hall as [|? ? Hv Hl];
    cbn [forallb] in Hok; apply andb_prop in Hok as [Hokv Hokl].
  - cbn [map]. change (Join [json_print v] ",") with (json_print v). cbn [parse_elems].
    rewrite (Hv Hokv) by (simpl in *; done || lia). reflexivity.
  - cbn [map] in *. rewrite Join_cons2, str_app_assoc. cbn [parse_elems].
    rewrite str_app_assoc. change ("," +:+ ?s) with (String c_comma s) at 1.
    rewrite (Hv Hokv) by (simpl in *; done || lia). cbn [option_bind mbind].
    cbn [skip_ws]. change (is_ws c_comma) with false. cbn iota.
    change (is_char c_comma c_comma) with true. cbn iota.
    rewrite (IH v' Hl Hokl f rest) by (simpl in *; lia). reflexivity.
Qed.

Lemma parse_members_print p l :
  Forall (λ p, parses p.2) (p :: l) → forallb (λ p, json_ok p.2) (p :: l) = true →
  ∀ f rest, (list_sum (map (λ p, S (json_size p.2)) (p :: l)) ≤ f)%nat →
  parse_members f
    (Join (map (λ p, print_str p.1 +:+ String c_colon (json_print p.2)) (p :: l)) "," +:+
     String c_rbrace rest) = Some (p :: l, rest).
Proof.
  assert (∀ f k (v : jvalue) s,
    parse_members (S f) ((print_str k +:+ String c_colon (json_print v)) +:+ s) =
    '(v, s3) ← parse_value f (json_print v +:+ s);
    match skip_ws s3 with
    | EmptyString => None
    | String c' s4 =>
        if is_char c' c_comma then '(l, r) ← parse_members f s4; Some ((k, v) :: l, r)
        else if is_char c' c_rbrace then Some ([(k, v)], s4)
        else None
    end) as Hstep.
  { intros f k v s. unfold print_str. rewrite !str_app_cons, !str_app_assoc, !str_app_cons.
    cbn [parse_members]. cbn [skip_ws]. change (is_ws c_quote) with false. cbn iota.
    change (is_char c_quote c_quote) with true. cbn iota.
    unfold str1. rewrite str_app_cons, str_app_nil_l, parse_string_print. reflexivity. }
  revert p. induction l as [|p' l IH]; intros [k v] Hall Hok f rest Hf;
    (destruct f as [|f]; [simpl in Hf; lia|]); inversion_clear Hall as [|? ? Hv Hl];
    cbn [forallb] in Hok; apply andb_prop in Hok as [Hokv Hokl]; cbn [map fst snd] in *.
  - change (Join [?x] ",") with x. rewrite Hstep, (Hv Hokv) by (simpl in *; done || lia).
    reflexivity.
  - rewrite Join_cons2, str_app_assoc, Hstep, str_app_assoc.
    change ("," +:+ ?s) with (String c_comma s) at 1.
    rewrite (Hv Hokv) by (simpl in *; done || lia). cbn [option_bind mbind].
    cbn [skip_ws]. change (is_ws c_comma) with false. cbn iota.
    change (is_char c_comma c_comma) with true. cbn iota.
    rewrite (IH p' Hl Hokl f rest) by (simpl in *; lia). reflexivity.
Qed.

(** Parsing a printed value, with any text that does not continue a number
    after it. *)
Lemma parse_value_print v : parses v.
Proof.
  induction v as [| [] | lit | s | l IH | l IH] using jvalue_ind; intros Hok f rest Hf Hr;
    (destruct f as [|f]; [simpl in Hf; lia|]); try reflexivity.
  - by apply parse_number.
  - cbn [json_print]. unfold print_str. rewrite str_app_cons, str_app_assoc. cbn [parse_value].
    cbn [skip_ws]. change (is_ws c_quote) with false. cbn iota.
    change (is_char c_quote c_quote) with true. cbn iota.
    unfold str1. rewrite str_app_cons, str_app_nil_l, parse_string_print. reflexivity.
  - cbn [json_print]. rewrite str_app_cons, str_app_assoc, parse_array. unfold str1.
    rewrite str_app_cons, str_app_nil_l.
    destruct l as [|v l]; [reflexivity|]. simpl in Hok. apply andb_prop in Hok as Hok'.
    destruct (print_head v (proj1 Hok')) as (c & s & Hv & Hw & Hb & _).
    assert (∃ t, Join (map json_print (v :: l)) "," +:+ String c_rbrack rest = String c t) as [t Ht].
    { destruct l; cbn [map];
        [change (Join [?x] ",") with x|rewrite Join_cons2, str_app_assoc];
        rewrite Hv, str_app_cons; eauto. }
    pose proof (parse_elems_print v l IH Hok f rest) as Hp. rewrite Ht in *.
    cbn [skip_ws]. rewrite Hw, Hb, Hp by (simpl in *; lia). reflexivity.
  - cbn [json_print]. rewrite str_app_cons, str_app_assoc, parse_object. unfold str1.
    rewrite str_app_cons, str_app_nil_l.
    destruct l as [|p l]; [reflexivity|].
    assert (∃ t, Join (map (λ p, print_str p.1 +:+ String c_colon (json_print p.2)) (p :: l)) ","
      +:+ String c_rbrace rest = String c_quote t) as [t Ht].
    { destruct l; cbn [map];
        [change (Join [?x] ",") with x|rewrite Join_cons2, str_app_assoc];
        unfold print_str; rewrite !str_app_cons; eauto. }
    pose proof (parse_members_print p l IH Hok f rest) as Hp. rewrite Ht in *.
    cbn [skip_ws]. change (is_ws c_quote) with false. cbn iota.
    change (is_char c_quote c_rbrace) with false. cbn iota.
    rewrite Hp by (simpl in *; lia). reflexivity.
Qed.

Lemma list_sum_Join {A} (f : A → string) (g : A → nat) l :
  Forall (λ a, (g a ≤ S (String.length (f a)))%nat) l → l ≠ [] →
  (list_sum (map g l) ≤ S (String.length (Join (map f l) ",")))%nat.
Proof.
  intros Hall Hne. induction Hall as [|a l Ha Hl IH]; [done|].
  destruct l as [|b l]; cbn [map] in *.
  - change (Join [f a] ",") with (f a). simpl. lia.
  - rewrite Join_cons2, !str_length_app. change (String.length ",") with 1%nat.
    specialize (IH ltac:(done)). simpl in *. lia.
Qed.

Lemma json_size_print v :
  json_ok v = true → (json_size v ≤ String.length (json_print v))%nat.
Proof.
  induction v as [| [] | lit | s | l IH | l IH] using jvalue_ind; intros Hok;
    try (simpl; lia).
  - simpl in *. apply valid_num_chars in Hok as [_ Hne]. destruct lit; [done|]. simpl. lia.
  - cbn [json_size json_print]. destruct (decide (l = [])) as [->|Hne]; [simpl; lia|].
    cbn [String.length]. rewrite str_length_app. simpl in Hok.
    pose proof (list_sum_Join json_print (λ v, S (json_size v)) l) as Hs.
    cbn [str1 String.length]. enough (list_sum (map (λ v, S (json_size v)) l) ≤
      S (String.length (Join (map json_print l) ",")))%nat by lia.
    apply Hs; [|done].
    rewrite Forall_forall in IH |- *. intros v Hv. apply le_n_S, IH; [done|].
    rewrite forallb_forall in Hok. by apply Hok, list_elem_of_In.
  - cbn [json_size json_print]. destruct (decide (l = [])) as [->|Hne]; [simpl; lia|].
    cbn [String.length]. rewrite str_length_app. simpl in Hok.
    pose proof (list_sum_Join (λ p, print_str p.1 +:+ String c_colon (json_print p.2))
      (λ p, S (json_size p.2)) l) as Hs.
    cbn [str1 String.length]. enough (list_sum (map (λ p, S (json_size p.2)) l) ≤
      S (String.length (Join (map (λ p, print_str p.1 +:+ String c_colon (json_print p.2)) l) ",")))%nat
      by lia.
    apply Hs; [|done].
    rewrite Forall_forall in IH |- *. intros p Hp. rewrite str_length_app. cbn [String.length].
    assert (json_size p.2 ≤ String.length (json_print p.2))%nat; [|lia].
    apply (IH p Hp). rewrite forallb_forall in Hok. by apply (Hok p), list_elem_of_In.
Qed.

(** The first value of a text that starts with a printed value, and a printed
    value alone. *)
Lemma json_first_print v rest :
  json_ok v = true → stops rest = true →
  json_first (json_print v +:+ rest) = Some (v, rest).
Proof.
  intros Hok Hr. apply parse_value_print; [done| |done].
  rewrite str_length_app. pose proof (json_size_print v Hok). lia.
Qed.

Lemma json_parse_print v : json_ok v = true → json_parse (json_print v) = Some v.
Proof.
  intros Hok. unfold json_parse. pose proof (json_first_print v "" Hok eq_refl) as H.
  rewrite string_app_nil in H. rewrite H. done.
Qed.

(** ** The values of an [interface{}] *)
Definition key_lt (p q : string * jvalue) : Prop := String.compare p.1 q.1 = Lt.

Lemma compare_lt_trans a b c :
  String.compare a b = Lt → String.compare b c = Lt → String.compare a c = Lt.
Proof.
  intros Hab Hbc.
  assert (String.le a c) as Hac.
  { etrans; [|]; unfold String.le, String.leb; [by rewrite Hab|by rewrite Hbc]. }
  unfold String.le, String.leb in Hac. destruct (String.compare a c) eqn:E; [|done|done].
  apply String.compare_eq_iff in E as ->.
  rewrite String.compare_antisym, Hbc in Hab. done.
Qed.

Lemma compare_refl a : String.compare a a = Eq.
Proof.
  pose proof (String.compare_antisym a a) as H. destruct (String.compare a a); done.
Qed.

Lemma obj_insert_Forall (P : string * jvalue → Prop) k v l :
  P (k, v) → Forall P l → Forall P (obj_insert k v l).
Proof.
  intros Hkv. induction 1 as [|[k' v'] l Hp Hl IH]; simpl; [by repeat constructor|].
  destruct (String.compare k k'); repeat (constructor; try done).
Qed.

Lemma obj_insert_sorted k v l :
  StronglySorted key_lt l → StronglySorted key_lt (obj_insert k v l).
Proof.
  induction 1 as [|[k' v'] l Hl IH Hh]; simpl; [by repeat constructor|].
  destruct (String.compare k k') eqn:E.
  - apply String.compare_eq_iff in E as ->. constructor; [done|].
    eapply Forall_impl; [exact Hh|]. done.
  - constructor; [by constructor|]. constructor; [done|].
    eapply Forall_impl; [exact Hh|]. intros [k2 v2] H2. by eapply compare_lt_trans.
  - constructor; [done|]. apply obj_insert_Forall; [|done].
    unfold key_lt. simpl. rewrite String.compare_antisym, E. done.
Qed.

Lemma obj_of_sorted l : StronglySorted key_lt (obj_of l).
Proof.
  unfold obj_of. assert (StronglySorted key_lt ([] : list (string * jvalue))) as H by constructor.
  revert H. generalize ([] : list (string * jvalue)).
  induction l as [|[k v] l IH]; intros m Hm; simpl; [done|]. by apply IH, obj_insert_sorted.
Qed.

Lemma obj_of_Forall (P : string * jvalue → Prop) l : Forall P l → Forall P (obj_of l).
Proof.
  unfold obj_of. intros Hl. assert (Forall P []) as H by constructor. revert H Hl.
  generalize ([] : list (string * jvalue)).
  induction l as [|[k v] l IH]; intros m Hm Hl; simpl; [done|].
  inversion_clear Hl. apply IH; [by apply obj_insert_Forall|done].
Qed.

Lemma obj_insert_last k v l :
  Forall (λ p, String.compare p.1 k = Lt) l → obj_insert k v l = l ++ [(k, v)].
Proof.
  induction 1 as [|[k' v'] l Hp Hl IH]; simpl in *; [done|].
  rewrite String.compare_antisym, Hp. simpl. by rewrite IH.
Qed.

(** A sorted object is its own map. *)
Lemma obj_of_id l : StronglySorted key_lt l → obj_of l = l.
Proof.
  unfold obj_of. intros Hl.
  enough (∀ m, StronglySorted key_lt (m ++ l) →
    foldl (λ m p, obj_insert p.1 p.2 m) m l = m ++ l) as H by by apply (H []).
  clear Hl. induction l as [|[k v] l IH]; intros m Hm; simpl; [by rewrite app_nil_r|].
  rewrite obj_insert_last.
  - rewrite IH; rewrite <- (assoc_L (++)); done.
  - rewrite Forall_forall. intros p Hp. 
    apply (StronglySorted_app_1_elem_of _ _ _ p (k, v) Hm); [done|]. by apply list_elem_of_here.
Qed.

Lemma obj_lookup_insert k v l : obj_lookup k (obj_insert k v l) = Some v.
Proof.
  induction l as [|[k' v'] l IH]; simpl; [by rewrite decide_True|].
  destruct (String.compare k k') eqn:E; simpl; [by rewrite decide_True..|].
  rewrite decide_False; [done|]. intros ->. by rewrite compare_refl in E.
Qed.

Lemma obj_lookup_insert_ne k k' v l : k ≠ k' → obj_lookup k (obj_insert k' v l) = obj_lookup k l.
Proof.
  intros Hne. induction l as [|[k2 v2] l IH]; simpl; [by rewrite decide_False|].
  destruct (String.compare k' k2) eqn:E; simpl.
  - apply String.compare_eq_iff in E as ->. by rewrite !(decide_False (P := k = k2)).
  - by rewrite (decide_False (P := k = k')).
  - by rewrite IH.
Qed.

(** What an [interface{}] can hold: numbers that are texts of floats, and
    objects sorted by their keys. *)
Section any.
Context `{FL : Floats}.

Fixpoint any_ok (v : jvalue) : Prop :=
  match v with
  | JNum lit => float_text lit = Some lit
  | JArr l => foldr and True (map any_ok l)
  | JObj l => StronglySorted key_lt l ∧ foldr and True (map (λ p, any_ok p.2) l)
  | _ => True
  end.

Lemma foldr_and_Forall {A} (P : A → Prop) l : foldr and True (map P l) ↔ Forall P l.
Proof.
  induction l as [|a l IH]; simpl; [split; [constructor|done]|].
  rewrite IH. split; [by intros []; constructor|by inversion_clear 1].
Qed.

Lemma any_json_ok v : any_ok v → json_ok v = true.
Proof.
  induction v as [| b | lit | s | l IH | l IH] using jvalue_ind; intros Hv; try done.
  - simpl in *. by eapply float_text_valid.
  - simpl in *. rewrite foldr_and_Forall in Hv. apply forallb_forall. intros v Hin%list_elem_of_In.
    rewrite Forall_forall in IH, Hv. auto.
  - simpl in *. destruct Hv as [_ Hv]. rewrite foldr_and_Forall in Hv. apply forallb_forall.
    intros p Hin%list_elem_of_In. rewrite Forall_forall in IH, Hv. by apply IH, Hv.
Qed.

(** Reading gives such a value, and reading such a value changes nothing. *)
Lemma to_any_ok v v' : to_any v = Some v' → any_ok v'.
Proof.
  revert v'. induction v as [| b | lit | s | l IH | l IH] using jvalue_ind; intros v' Hv;
    simpl in Hv; try by simplify_eq.
  - destruct (float_text lit) as [lit'|] eqn:E; simplify_eq/=. by eapply float_text_idemp.
  - destruct (mapM to_any l) as [l'|] eqn:E; simplify_eq/=. apply foldr_and_Forall.
    apply mapM_Some_1 in E. induction E as [|v v' l l' Hv Hl IHl]; [constructor|].
    inversion_clear IH. constructor; auto.
  - destruct (mapM _ l) as [l'|] eqn:E; simplify_eq/=. split; [apply obj_of_sorted|].
    apply foldr_and_Forall, obj_of_Forall.
    apply mapM_Some_1 in E. induction E as [|p p' l l' Hp Hl IHl]; [constructor|].
    inversion_clear IH. constructor; auto.
    destruct (to_any p.2) eqn:E'; simplify_eq/=. auto.
Qed.

Lemma to_any_id v : any_ok v → to_any v = Some v.
Proof.
  induction v as [| b | lit | s | l IH | l IH] using jvalue_ind; intros Hv; simpl in *; try done.
  - by rewrite Hv.
  - rewrite foldr_and_Forall in Hv. enough (mapM to_any l = Some l) as -> by done.
    apply mapM_Some_2. induction l as [|v l IHl]; [constructor|].
    inversion_clear IH. inversion_clear Hv. constructor; auto.
  - destruct Hv as [Hs Hv]. rewrite foldr_and_Forall in Hv.
    enough (mapM (λ p, pair p.1 <$> to_any p.2) l = Some l) as ->
      by (simpl; by rewrite obj_of_id).
    clear Hs. apply mapM_Some_2. induction l as [|[k v] l IHl]; [constructor|].
    inversion_clear IH as [|? ? H1 ?]. inversion_clear Hv as [|? ? H2 ?].
    constructor; auto. simpl in *. by rewrite H1.
Qed.
End any.

(** ** Integers as numbers *)

(** [strconv.ParseInt(lit, 10, 64)] on a number literal. *)
Definition parse_int64 (lit : string) : option Z :=
  z ← Atoi lit; if decide (-2 ^ 63 ≤ z ∧ z < 2 ^ 63) then Some z else None.

Lemma digits_app acc a b :
  all_chars is_digit a = true → digits acc (a +:+ b) = digits acc a ≫= λ acc', digits acc' b.
Proof.
  revert acc. induction a as [|c a IH]; intros acc; [done|].
  rewrite str_app_cons. simpl. intros [Hc Ha]%andb_prop.
  apply bool_decide_eq_true in Hc. rewrite !decide_True by lia. by apply IH.
Qed.

Lemma pretty_char_digit n : (n < 10)%N →
  is_digit (pretty_N_char n) = true ∧
  (n ≠ 0%N → is_char (pretty_N_char n) (chr 48) = false) ∧
  ∀ acc, digits acc (str1 (pretty_N_char n)) = Some (10 * acc + Z.of_N n).
Proof.
  intros Hn.
  assert (n = 0 ∨ n = 1 ∨ n = 2 ∨ n = 3 ∨ n = 4 ∨ n = 5 ∨ n = 6 ∨ n = 7 ∨ n = 8 ∨ n = 9)%N
    as Hc by lia.
  destruct Hc as [->|[->|[->|[->|[->|[->|[->|[->|[->| ->]]]]]]]]];
    (split_and!; [reflexivity| |intros acc; reflexivity]); done.
Qed.

(** The decimal digits of a positive number. *)
Lemma pretty_digits x s : (0 < x)%N →
  ∃ c d, pretty_N_go x s = String c d +:+ s ∧ all_chars is_digit (String c d) = true ∧
    is_char c (chr 48) = false ∧ digits 0 (String c d) = Some (Z.of_N x).
Proof.
  revert s. induction (N.lt_wf_0 x) as [x _ IH]; intros s Hx.
  rewrite pretty_N_go_step by done. assert (x mod 10 < 10)%N as Hm by by apply N.mod_lt.
  destruct (pretty_char_digit _ Hm) as (Hd & Hnz & Hv).
  pose proof (N.div_mod x 10 ltac:(done)) as Hdm.
  destruct (decide (x `div` 10 = 0)%N) as [Hz|Hz].
  - rewrite Hz, pretty_N_go_0. eexists _, "". split; [reflexivity|].
    cbn [all_chars]. rewrite Hd. split; [done|]. split; [apply Hnz; lia|].
    change (String ?c "") with (str1 c). rewrite Hv. f_equal. lia.
  - destruct (IH (x `div` 10)%N) with (s := String (pretty_N_char (x `mod` 10)) s)
      as (c & d & -> & Hall & Hc & Hdig); [by apply N.div_lt|lia|].
    exists c, (d +:+ str1 (pretty_N_char (x `mod` 10))).
    change (String c (d +:+ ?t)) with (String c d +:+ t).
    split; [by rewrite str_app_assoc|]. split; [|split; [done|]].
    + rewrite all_chars_app, Hall. cbn [str1 all_chars]. by rewrite Hd.
    + rewrite digits_app, Hdig by done. cbn [mbind option_bind]. rewrite Hv. f_equal. lia.
Qed.

Lemma valid_natural_digits c d :
  all_chars is_digit (String c d) = true → is_char c (chr 48) = false →
  valid_natural (String c d) = true.
Proof.
  simpl. intros [Hc Hd]%andb_prop Hz. rewrite Hz, Hc.
  pose proof (span_app is_digit d "" Hd eq_refl) as Hs. rewrite string_app_nil in Hs.
  by rewrite Hs.
Qed.

Lemma digit_not_sign c : is_digit c = true →
  is_char c (chr 45) = false ∧ Ascii.eqb c (chr 45) = false ∧ Ascii.eqb c (chr 43) = false.
Proof. destruct c as [[] [] [] [] [] [] [] []]; vm_compute; naive_solver. Qed.

Lemma Itoa_number z : valid_num (Itoa z) = true ∧ Atoi (Itoa z) = Some z.
Proof.
  destruct z as [|p|p]; [done| |]; unfold Itoa, pretty, pretty_Z, pretty, pretty_positive, pretty, pretty_N;
    rewrite decide_False by done;
    destruct (pretty_digits (N.pos p) "" ltac:(done)) as (c & d & -> & Hall & Hc & Hdig);
    rewrite string_app_nil; pose proof Hall as Hall'; simpl in Hall; apply andb_prop in Hall as [Hd _];
    destruct (digit_not_sign c Hd) as (H1 & H2 & H3).
  - unfold valid_num, Atoi. rewrite H1. change (Ascii.ascii_of_nat ?n) with (chr n). rewrite H2, H3.
    split; [by apply valid_natural_digits|done].
  - change ("-" +:+ ?s) with (String (chr 45) s). unfold valid_num, Atoi.
    change (is_char (chr 45) (chr 45)) with true. cbn iota.
    change (Ascii.eqb (chr 45) (Ascii.ascii_of_nat 45)) with true. cbn iota.
    rewrite decide_False by done. split; [by apply valid_natural_digits|]. by rewrite Hdig.
Qed.

Lemma parse_int64_Itoa z : in_int64 z → parse_int64 (Itoa z) = Some z.
Proof.
  intros Hz. unfold parse_int64. rewrite (proj2 (Itoa_number z)). cbn [mbind option_bind].
  by rewrite decide_True.
Qed.

(** Floats whose decimal texts are kept as they are, for the witnesses. *)
Definition text_floats : Floats.
Proof.
  refine {| float_text l := if valid_num l then Some l else None |}.
  - intros z _. unfold integer_text. by rewrite (proj1 (Itoa_number z)).
  - intros l l' H. destruct (valid_num l) eqn:E; by simplify_eq.
  - intros l l' H. destruct (valid_num l) eqn:E; simplify_eq. by rewrite E.
Defined.
