(* ===== verification/Template.v ===== *)
(** * Template: the workflow template package (src/workflow)

    The YAML data model, the validator, the parser and the renderer of
    workflow/template_validator.go and the template function of
    workflow/funcs.go. YAML decoding (gopkg.in/yaml.v2), image references
    (docker/distribution), JSON decoding of the devices and text/template are
    collaborators: the fields of the class [TemplateEnv]. *)
From S2P Require Import Prelude.
From stdpp Require Import options.

(** ** Data model (workflow/types.go) *)
Record YAction := {
  ya_Name : string;
  ya_Image : string;
  ya_Timeout : Z;
  ya_Command : list string;
  ya_OnTimeout : list string;
  ya_OnFailure : list string;
  ya_Volumes : list string;
  ya_Environment : gmap string string;
  ya_Pid : string
}.

Record YTask := {
  yt_Name : string;
  yt_WorkerAddr : string;
  yt_Actions : list YAction;
  yt_Volumes : list string;
  yt_Environment : gmap string string
}.

Record YWorkflow := {
  yw_Version : string;
  yw_Name : string;
  yw_ID : string;
  yw_GlobalTimeout : Z;
  yw_Tasks : list YTask
}.

(** A value of the [map[string]interface{}] a template is rendered with: a
    string or the [templateHardwareData] of the controller, or a decoded JSON
    value. *)
Inductive value (json : Type) :=
  | VString (s : string)
  | VHardware (disks : list string)
  | VJson (j : json).
Arguments VString {_} _.
Arguments VHardware {_} _.
Arguments VJson {_} _.

(** What the package calls and does not define. *)
Class TemplateEnv := {
  json : Type;
  (** [fmt.Sprintf] of the map with [%v]. *)
  hwmap_show : gmap string (value json) → string;
  (** [json.Unmarshal(devices, &hardware)]. *)
  json_devices : string → result (gmap string (value json));
  (** A parsed text/template, [t.Parse] and [t.Execute]. *)
  tmpl : Type;
  tmpl_parse : string → result tmpl;
  tmpl_execute : tmpl → gmap string (value json) → result string;
  (** [yaml.UnmarshalStrict]. *)
  yaml_unmarshal : string → result YWorkflow;
  (** [reference.ParseNormalizedNamed] succeeds. *)
  valid_reference : string → bool
}.

Definition errEmptyName := "name cannot be empty".
Definition errInvalidLength := "name cannot have more than 200 characters: ".
Definition errTemplateInvalidVersion := "invalid template version: ".
Definition errTaskDuplicateName := "two tasks in a template cannot have same name: ".
Definition errActionDuplicateName := "two actions in a task cannot have same name: ".
Definition errActionInvalidImage := "invalid action image: ".
Definition errTemplateParsing := "failed to parse template with ID ".
Definition errInvalidHardwareAddress := "failed to render template, invalid hardware address: ".
Definition errNoTask := "template must have at least one task defined".

Definition hasEmptyName (name : string) : bool := bool_decide (name = "").
Definition hasValidLength (name : string) : bool := bool_decide (strlen name < 200).

Section validator.
Context `{TE : TemplateEnv}.

Definition hasValidImageName (name : string) : bool := valid_reference name.

(** The inner loop of [validate] over the actions of a task, with the names
    seen so far. *)
Fixpoint validate_actions (actionNameMap : gset string) (l : list YAction) : option error :=
  match l with
  | [] => None
  | action :: l' =>
      if hasEmptyName (ya_Name action) then Some (NewErr errEmptyName)
      else if negb (hasValidLength (ya_Name action)) then
        Some (NewErr (errInvalidLength +:+ ya_Name action))
      else if negb (hasValidImageName (ya_Image action)) then
        Some (NewErr (errActionInvalidImage +:+ ya_Image action))
      else if decide (ya_Name action ∈ actionNameMap) then
        Some (NewErr (errActionDuplicateName +:+ ya_Name action))
      else validate_actions ({[ya_Name action]} ∪ actionNameMap) l'
  end.

(** The outer loop, over the tasks. *)
Fixpoint validate_tasks (taskNameMap : gset string) (l : list YTask) : option error :=
  match l with
  | [] => None
  | task :: l' =>
      if hasEmptyName (yt_Name task) then Some (NewErr errEmptyName)
      else if negb (hasValidLength (yt_Name task)) then
        Some (NewErr (errInvalidLength +:+ yt_Name task))
      else if decide (yt_Name task ∈ taskNameMap) then
        Some (NewErr (errTaskDuplicateName +:+ yt_Name task))
      else
        match validate_actions ∅ (yt_Actions task) with
        | Some e => Some e
        | None => validate_tasks ({[yt_Name task]} ∪ taskNameMap) l'
        end
  end.

Definition validate (wf : YWorkflow) : option error :=
  if hasEmptyName (yw_Name wf) then Some (NewErr errEmptyName)
  else if negb (hasValidLength (yw_Name wf)) then
    Some (NewErr (errInvalidLength +:+ yw_Name wf))
  else if negb (bool_decide (yw_Version wf = "0.1")) then
    Some (NewErr (errTemplateInvalidVersion +:+ yw_Version wf))
  else if decide (length (yw_Tasks wf) = 0%nat) then Some (NewErr errNoTask)
  else validate_tasks ∅ (yw_Tasks wf).

Definition Parse (yamlContent : string) : result YWorkflow :=
  match yaml_unmarshal yamlContent with
  | Err e => Err (WrapErr e "parsing yaml data")
  | Ok workflow =>
      match validate workflow with
      | Some e => Err (WrapErr e "validating workflow template")
      | None => Ok workflow
      end
  end.

(** [MustParse]: the error becomes a panic. *)
Definition MustParse {S} (yamlContent : string) : go S YWorkflow :=
  match Parse yamlContent with
  | Ok w => go_ret w
  | Err e => go_panic (err_string e)
  end.

(** The loop after [Parse] that rejects a task without a worker address. *)
Fixpoint all_have_worker (l : list YTask) : bool :=
  match l with
  | [] => true
  | task :: l' => if decide (yt_WorkerAddr task = "") then false else all_have_worker l'
  end.

Definition RenderTemplateHardware (templateID templateData : string)
    (hardware : gmap string (value json))
    : result (YWorkflow * string) :=
  match tmpl_parse templateData with
  | Err e => Err (WrapErr e (errTemplateParsing +:+ templateID))
  | Ok t =>
      match tmpl_execute t hardware with
      | Err e => Err (WrapErr e (errTemplateParsing +:+ templateID))
      | Ok buf =>
          match Parse buf with
          | Err e => Err e
          | Ok wf =>
              if all_have_worker (yw_Tasks wf) then Ok (wf, buf)
              else Err (NewErr (errInvalidHardwareAddress +:+ hwmap_show hardware))
          end
      end
  end.

Definition RenderTemplate (templateID templateData devices : string) : result string :=
  match json_devices devices with
  | Err e => Err (WrapErr e (errTemplateParsing +:+ templateID))
  | Ok hardware =>
      match RenderTemplateHardware templateID templateData hardware with
      | Err e => Err e
      | Ok (_, buf) => Ok buf
      end
  end.

(** ** What the validator promises *)
Definition name_ok (n : string) : Prop := n ≠ "" ∧ strlen n < 200.

Definition action_ok (a : YAction) : Prop :=
  name_ok (ya_Name a) ∧ valid_reference (ya_Image a) = true.

Definition task_ok (t : YTask) : Prop :=
  name_ok (yt_Name t) ∧ Forall action_ok (yt_Actions t) ∧ NoDup (ya_Name <$> yt_Actions t).

Definition workflow_ok (wf : YWorkflow) : Prop :=
  name_ok (yw_Name wf) ∧ yw_Version wf = "0.1" ∧ yw_Tasks wf ≠ [] ∧
  Forall task_ok (yw_Tasks wf) ∧ NoDup (yt_Name <$> yw_Tasks wf).

Lemma name_checks n :
  hasEmptyName n = false → negb (hasValidLength n) = false → name_ok n.
Proof.
  unfold hasEmptyName, hasValidLength, name_ok. intros H1 H2.
  apply bool_decide_eq_false in H1. apply negb_false_iff, bool_decide_eq_true in H2. done.
Qed.

Lemma name_ok_checks n :
  name_ok n → hasEmptyName n = false ∧ negb (hasValidLength n) = false.
Proof.
  unfold hasEmptyName, hasValidLength, name_ok. intros [H1 H2].
  by rewrite bool_decide_eq_false_2, bool_decide_eq_true_2.
Qed.

Lemma validate_actions_None seen l :
  validate_actions seen l = None ↔
  Forall action_ok l ∧ NoDup (ya_Name <$> l) ∧ Forall (.∉ seen) (ya_Name <$> l).
Proof.
  revert seen. induction l as [|a l IH]; intros seen; csimpl.
  { split; [by repeat constructor|done]. }
  split.
  - intros H. repeat case_match; simplify_eq; apply IH in H as (Hok & Hnd & Hns).
    split_and!.
    + constructor; [|done]. split; [by apply name_checks|]. by apply negb_false_iff.
    + constructor; [|done]. rewrite Forall_forall in Hns. intros Hin.
      specialize (Hns _ Hin). set_solver.
    + constructor; [done|]. eapply Forall_impl; [done|]. set_solver.
  - intros (Hok & Hnd & Hns). inversion_clear Hok as [|?? [Hn Hi] Hok'].
    inversion_clear Hnd as [|?? Hni Hnd']. inversion_clear Hns as [|?? Hna Hns'].
    destruct (name_ok_checks _ Hn) as [-> ->]. unfold hasValidImageName. rewrite Hi. simpl.
    rewrite decide_False by done. apply IH. split_and!; [done..|].
    rewrite Forall_forall in Hns' |- *. intros n Hin. specialize (Hns' n Hin).
    assert (n ≠ ya_Name a) by (intros ->; done). set_solver.
Qed.

Lemma validate_tasks_None seen l :
  validate_tasks seen l = None ↔
  Forall task_ok l ∧ NoDup (yt_Name <$> l) ∧ Forall (.∉ seen) (yt_Name <$> l).
Proof.
  revert seen. induction l as [|t l IH]; intros seen; csimpl.
  { split; [by repeat constructor|done]. }
  split.
  - intros H. repeat case_match; simplify_eq; apply IH in H as (Hok & Hnd & Hns).
    match goal with Ha : validate_actions _ _ = None |- _ =>
      apply validate_actions_None in Ha as (Ha1 & Ha2 & _) end.
    split_and!.
    + constructor; [|done]. split; [by apply name_checks|done].
    + constructor; [|done]. rewrite Forall_forall in Hns. intros Hin.
      specialize (Hns _ Hin). set_solver.
    + constructor; [done|]. eapply Forall_impl; [done|]. set_solver.
  - intros (Hok & Hnd & Hns). inversion_clear Hok as [|?? (Hn & Ha & Hd) Hok'].
    inversion_clear Hnd as [|?? Hni Hnd']. inversion_clear Hns as [|?? Hna Hns'].
    destruct (name_ok_checks _ Hn) as [-> ->]. rewrite decide_False by done.
    replace (validate_actions ∅ (yt_Actions t)) with (@None error).
    2:{ symmetry. apply validate_actions_None. split_and!; [done..|].
        apply Forall_forall. set_solver. }
    apply IH. split_and!; [done..|].
    rewrite Forall_forall in Hns' |- *. intros n Hin. specialize (Hns' n Hin).
    assert (n ≠ yt_Name t) by (intros ->; done). set_solver.
Qed.

Lemma all_have_worker_spec l :
  all_have_worker l = true ↔ Forall (λ t, yt_WorkerAddr t ≠ "") l.
Proof.
  induction l as [|t l IH]; simpl; [by split; [constructor|]|].
  case_decide; rewrite Forall_cons; naive_solver.
Qed.

Lemma validate_None_iff wf : validate wf = None ↔ workflow_ok wf.
Proof.
  unfold validate, workflow_ok. split.
  - intros H. repeat case_match; simplify_eq.
    apply validate_tasks_None in H as (Ht & Hd & _). split_and!; [..|done|done].
    + by apply name_checks.
    + match goal with H : negb _ = false |- _ =>
        by apply negb_false_iff, bool_decide_eq_true in H end.
    + by destruct (yw_Tasks wf).
  - intros (Hn & Hv & Ht & Hok & Hd). destruct (name_ok_checks _ Hn) as [-> ->].
    rewrite bool_decide_eq_true_2 by done. simpl.
    rewrite decide_False by (by destruct (yw_Tasks wf)).
    apply validate_tasks_None. split_and!; [done..|]. apply Forall_forall. set_solver.
Qed.

Lemma Parse_Ok y wf : Parse y = Ok wf ↔ yaml_unmarshal y = Ok wf ∧ workflow_ok wf.
Proof.
  unfold Parse. rewrite <- validate_None_iff. split.
  - intros H. repeat case_match; simplify_eq. done.
  - intros [-> ->]. done.
Qed.
End validator.

(** ** The template function [formatPartition] (workflow/funcs.go) *)
Definition formatPartition (dev : string) (partition : Z) : string :=
  if HasPrefix dev "/dev/nvme" then dev +:+ "p" +:+ Itoa partition
  else if HasPrefix dev "/dev/sd" then dev +:+ Itoa partition
  else dev.

(** The doc comment of [formatPartition] promises "/dev/nvme0n1p1" for
    partition 0; the function appends the partition number as it is given. *)
Example formatPartition_nvme_zero : formatPartition "/dev/nvme0n1" 0 = "/dev/nvme0n1p0".
Proof. reflexivity. Qed.

Example formatPartition_sd : formatPartition "/dev/sda" 1 = "/dev/sda1".
Proof. reflexivity. Qed.

Section properties.
Context `{TE : TemplateEnv}.

(** C25 [RenderTemplate] succeeds exactly when the devices decode, the template
    parses and executes, the rendered text is strict YAML of a workflow that
    meets every rule of the template format (non-empty names of fewer than 200
    bytes, version 0.1, at least one task, no two tasks with one name, no two
    actions of a task with one name, a valid image for every action) and every
    task names a worker; it then returns the rendered text itself. *)
Theorem render_accepts_iff id data devices buf :
  RenderTemplate id data devices = Ok buf ↔
  ∃ hw t wf,
    json_devices devices = Ok hw ∧ tmpl_parse data = Ok t ∧ tmpl_execute t hw = Ok buf ∧
    yaml_unmarshal buf = Ok wf ∧ workflow_ok wf ∧
    Forall (λ task, yt_WorkerAddr task ≠ "") (yw_Tasks wf).
Proof.
  unfold RenderTemplate, RenderTemplateHardware. split.
  - intros H. repeat case_match; simplify_eq.
    match goal with H : Parse _ = Ok _ |- _ => apply Parse_Ok in H as [Hy Hok] end.
    eexists _, _, _. split_and!; [done..|]. by apply all_have_worker_spec.
  - intros (hw & t & wf & -> & -> & -> & Hy & Hok & Hw).
    replace (Parse buf) with (Ok wf) by (symmetry; by apply Parse_Ok).
    apply all_have_worker_spec in Hw. by rewrite Hw.
Qed.

(** The length rule is one byte stricter than its message says: a
    workflow whose name has exactly 200 bytes is rejected with "name cannot
    have more than 200 characters". *)
Theorem validate_rejects_200 wf :
  strlen (yw_Name wf) = 200 →
  validate wf = Some (NewErr (errInvalidLength +:+ yw_Name wf)).
Proof.
  intros Hl. unfold validate, hasEmptyName, hasValidLength.
  rewrite bool_decide_eq_false_2 by (intros E; by rewrite E in Hl).
  rewrite bool_decide_eq_false_2 by lia. done.
Qed.
End properties.

(** An environment whose decoders return one value, for the witnesses. *)
Definition const_template_env (wf : YWorkflow) : TemplateEnv :=
  {| json := unit; hwmap_show _ := "map[]"; json_devices _ := Ok ∅;
     tmpl := unit; tmpl_parse _ := Ok tt; tmpl_execute _ _ := Ok "";
     yaml_unmarshal _ := Ok wf; valid_reference s := bool_decide (s ≠ "") |}.

Definition named_workflow (n : string) : YWorkflow :=
  {| yw_Version := "0.1"; yw_Name := n; yw_ID := ""; yw_GlobalTimeout := 0; yw_Tasks := [] |}.

Definition name200 : string := Join (replicate 200 "n") "".

Lemma validate_rejects_200_witness :
  @validate (const_template_env (named_workflow name200)) (named_workflow name200) =
  Some (NewErr (errInvalidLength +:+ name200)).
Proof. exact (validate_rejects_200 (named_workflow name200) eq_refl). Defined.
