(* ===== verification/Crd.v ===== *)
(** * Crd: the Kubernetes resources (src/pkg/apis/core/v1alpha1)

    The Workflow, Template and Hardware resources and the methods of
    workflow_methods.go, template_methods.go and hardware_methods.go. A [*T] is
    an [option], a nil map is [None], a [metav1.Time] counts nanoseconds. The
    parts of [metav1.ObjectMeta] no code reads are left out. *)
From S2P Require Import Prelude.
From stdpp Require Import options.

(** ** Object metadata *)
Record ObjectMeta := {
  om_Name : string;
  om_Namespace : string;
  om_Annotations : option (gmap string string);
  om_CreationTimestamp : Z;
  om_DeletionTimestamp : option Z
}.

Record TypeMeta := { tm_Kind : string; tm_APIVersion : string }.

#[global] Instance ObjectMeta_eq_dec : EqDecision ObjectMeta.
Proof. solve_decision. Defined.
#[global] Instance TypeMeta_eq_dec : EqDecision TypeMeta.
Proof. solve_decision. Defined.

(** Reading a key of a nil map gives the zero value. *)
Definition annotation (m : ObjectMeta) (k : string) : string :=
  default "" (om_Annotations m ≫= lookup k).

(** [SetTinkID]: a nil map is allocated first. *)
Definition set_annotation (k v : string) (m : ObjectMeta) : ObjectMeta :=
  {| om_Name := om_Name m; om_Namespace := om_Namespace m;
     om_Annotations := Some (<[k:=v]> (default ∅ (om_Annotations m)));
     om_CreationTimestamp := om_CreationTimestamp m;
     om_DeletionTimestamp := om_DeletionTimestamp m |}.

(** ** Workflow (workflow_types.go) *)
Abbreviation WorkflowState := string (only parsing).
Definition WorkflowStatePending : WorkflowState := "STATE_PENDING".
Definition WorkflowStateRunning : WorkflowState := "STATE_RUNNING".
Definition WorkflowStateFailed : WorkflowState := "STATE_FAILED".
Definition WorkflowStateTimeout : WorkflowState := "STATE_TIMEOUT".
Definition WorkflowStateSuccess : WorkflowState := "STATE_SUCCESS".

Record WorkflowSpec := {
  sp_TemplateRef : string;
  sp_HardwareRef : string;
  sp_HardwareMap : gmap string string
}.

Record Action := {
  ac_Name : string;
  ac_Image : string;
  ac_Timeout : Z;
  ac_Command : list string;
  ac_Volumes : list string;
  ac_Pid : string;
  ac_Environment : gmap string string;
  ac_Status : WorkflowState;
  ac_StartedAt : option Z;
  ac_Seconds : Z;
  ac_Message : string
}.

Record Task := {
  tk_Name : string;
  tk_WorkerAddr : string;
  tk_Actions : list Action;
  tk_Volumes : list string;
  tk_Environment : gmap string string
}.

Record WorkflowStatus := {
  st_State : WorkflowState;
  st_GlobalTimeout : Z;
  st_Tasks : list Task
}.

Record Workflow := {
  wf_TypeMeta : TypeMeta;
  wf_Meta : ObjectMeta;
  wf_Spec : WorkflowSpec;
  wf_Status : WorkflowStatus
}.

#[global] Instance WorkflowSpec_eq_dec : EqDecision WorkflowSpec.
Proof. solve_decision. Defined.
#[global] Instance Action_eq_dec : EqDecision Action.
Proof. solve_decision. Defined.
#[global] Instance Task_eq_dec : EqDecision Task.
Proof. solve_decision. Defined.
#[global] Instance WorkflowStatus_eq_dec : EqDecision WorkflowStatus.
Proof. solve_decision. Defined.
#[global] Instance Workflow_eq_dec : EqDecision Workflow.
Proof. solve_decision. Defined.

(** Assignments to the fields the code writes. *)
Definition set_status (s : WorkflowState) (a : Action) : Action :=
  {| ac_Name := ac_Name a; ac_Image := ac_Image a; ac_Timeout := ac_Timeout a;
     ac_Command := ac_Command a; ac_Volumes := ac_Volumes a; ac_Pid := ac_Pid a;
     ac_Environment := ac_Environment a; ac_Status := s; ac_StartedAt := ac_StartedAt a;
     ac_Seconds := ac_Seconds a; ac_Message := ac_Message a |}.
Definition set_started (t : option Z) (a : Action) : Action :=
  {| ac_Name := ac_Name a; ac_Image := ac_Image a; ac_Timeout := ac_Timeout a;
     ac_Command := ac_Command a; ac_Volumes := ac_Volumes a; ac_Pid := ac_Pid a;
     ac_Environment := ac_Environment a; ac_Status := ac_Status a; ac_StartedAt := t;
     ac_Seconds := ac_Seconds a; ac_Message := ac_Message a |}.
Definition set_seconds (s : Z) (a : Action) : Action :=
  {| ac_Name := ac_Name a; ac_Image := ac_Image a; ac_Timeout := ac_Timeout a;
     ac_Command := ac_Command a; ac_Volumes := ac_Volumes a; ac_Pid := ac_Pid a;
     ac_Environment := ac_Environment a; ac_Status := ac_Status a;
     ac_StartedAt := ac_StartedAt a; ac_Seconds := s; ac_Message := ac_Message a |}.
Definition set_message (m : string) (a : Action) : Action :=
  {| ac_Name := ac_Name a; ac_Image := ac_Image a; ac_Timeout := ac_Timeout a;
     ac_Command := ac_Command a; ac_Volumes := ac_Volumes a; ac_Pid := ac_Pid a;
     ac_Environment := ac_Environment a; ac_Status := ac_Status a;
     ac_StartedAt := ac_StartedAt a; ac_Seconds := ac_Seconds a; ac_Message := m |}.
Definition set_actions (l : list Action) (t : Task) : Task :=
  {| tk_Name := tk_Name t; tk_WorkerAddr := tk_WorkerAddr t; tk_Actions := l;
     tk_Volumes := tk_Volumes t; tk_Environment := tk_Environment t |}.
Definition set_state (s : WorkflowState) (st : WorkflowStatus) : WorkflowStatus :=
  {| st_State := s; st_GlobalTimeout := st_GlobalTimeout st; st_Tasks := st_Tasks st |}.
Definition set_tasks (l : list Task) (st : WorkflowStatus) : WorkflowStatus :=
  {| st_State := st_State st; st_GlobalTimeout := st_GlobalTimeout st; st_Tasks := l |}.
Definition set_wf_status (st : WorkflowStatus) (w : Workflow) : Workflow :=
  {| wf_TypeMeta := wf_TypeMeta w; wf_Meta := wf_Meta w; wf_Spec := wf_Spec w;
     wf_Status := st |}.

(** [Tasks[ti].Actions[ai]] rewritten by [f]. *)
Definition alter_action (f : Action → Action) (ti ai : nat) (l : list Task) : list Task :=
  alter (λ t, set_actions (alter f ai (tk_Actions t)) t) ti l.

(** ** Template and Hardware *)
Record Template := {
  tp_TypeMeta : TypeMeta;
  tp_Meta : ObjectMeta;
  tp_Data : option string
}.

Record IP := { ip_Address : string; ip_Netmask : string; ip_Gateway : string; ip_Family : Z }.

Record DHCP := {
  dh_MAC : string; dh_Hostname : string; dh_LeaseTime : Z;
  dh_NameServers : list string; dh_TimeServers : list string; dh_Arch : string;
  dh_UEFI : bool; dh_IfaceName : string; dh_IP : option IP; dh_VLANID : string
}.

Record IPXE := { ix_URL : string; ix_Contents : string }.
Record OSIE := { os_BaseURL : string; os_Kernel : string; os_Initrd : string }.
Record Netboot := {
  nb_AllowPXE : option bool; nb_AllowWorkflow : option bool;
  nb_IPXE : option IPXE; nb_OSIE : option OSIE
}.
Record Interface := { if_Netboot : option Netboot; if_DHCP : option DHCP }.
Record Disk := { dk_Device : string }.

Record MetadataManufacturer := { mm_ID : string; mm_Slug : string }.
Record MetadataInstanceOperatingSystem := {
  mo_Slug : string; mo_Distro : string; mo_Version : string; mo_ImageTag : string;
  mo_OsSlug : string }.
Record MetadataInstanceIP := {
  mi_Address : string; mi_Netmask : string; mi_Gateway : string; mi_Family : Z;
  mi_Public : bool; mi_Management : bool }.
Record MetadataInstanceStorageDiskPartition := {
  mp_Label : string; mp_Number : Z; mp_Size : Z; mp_Start : Z; mp_TypeGUID : string }.
Record MetadataInstanceStorageDisk := {
  md_Device : string; md_WipeTable : bool;
  md_Partitions : list MetadataInstanceStorageDiskPartition }.
Record MetadataInstanceStorageRAID := {
  mr_Name : string; mr_Level : string; mr_Devices : list string; mr_Spare : Z }.
Record MetadataInstanceStorageFile := {
  mf_Path : string; mf_Contents : string; mf_Mode : Z; mf_UID : Z; mf_GID : Z }.
Record MetadataInstanceStorageMountFilesystemOptions := {
  mc_Force : bool; mc_Options : list string }.
Record MetadataInstanceStorageMount := {
  mt_Device : string; mt_Format : string; mt_Files : list MetadataInstanceStorageFile;
  mt_Create : option MetadataInstanceStorageMountFilesystemOptions; mt_Point : string }.
Record MetadataInstanceStorageFilesystem := {
  my_Mount : option MetadataInstanceStorageMount }.
Record MetadataInstanceStorage := {
  mg_Disks : list MetadataInstanceStorageDisk;
  mg_Raid : list MetadataInstanceStorageRAID;
  mg_Filesystems : list MetadataInstanceStorageFilesystem }.
Record MetadataInstance := {
  mn_ID : string; mn_State : string; mn_Hostname : string; mn_AllowPxe : bool;
  mn_Rescue : bool; mn_OperatingSystem : option MetadataInstanceOperatingSystem;
  mn_AlwaysPxe : bool; mn_IpxeScriptURL : string; mn_Ips : list MetadataInstanceIP;
  mn_Userdata : string; mn_CryptedRootPassword : string; mn_Tags : list string;
  mn_Storage : option MetadataInstanceStorage; mn_SSHKeys : list string;
  mn_NetworkReady : bool }.
Record MetadataCustom := {
  mu_PreinstalledOperatingSystemVersion : option MetadataInstanceOperatingSystem;
  mu_PrivateSubnets : list string }.
Record MetadataFacility := {
  mq_PlanSlug : string; mq_PlanVersionSlug : string; mq_FacilityCode : string }.
Record HardwareMetadata := {
  hm_State : string; hm_BondingMode : Z; hm_Manufacturer : option MetadataManufacturer;
  hm_Instance : option MetadataInstance; hm_Custom : option MetadataCustom;
  hm_Facility : option MetadataFacility }.

(** [corev1.TypedLocalObjectReference]. *)
Record ObjectReference := { or_APIGroup : option string; or_Kind : string; or_Name : string }.

Record HardwareSpec := {
  hs_BMCRef : option ObjectReference;
  hs_Interfaces : list Interface;
  hs_Metadata : option HardwareMetadata;
  hs_TinkVersion : Z;
  hs_Disks : list Disk;
  (** A [resource.Quantity] is kept as its canonical text. *)
  hs_Resources : gmap string string;
  hs_UserData : option string;
  hs_VendorData : option string
}.

Record Hardware := {
  hw_TypeMeta : TypeMeta;
  hw_Meta : ObjectMeta;
  hw_Spec : HardwareSpec;
  hw_StatusState : string
}.

(** ** Methods *)
Definition WorkflowIDAnnotation := "workflow.tinkerbell.org/id".
Definition TemplateIDAnnotation := "template.tinkerbell.org/id".
Definition HardwareIDAnnotation := "hardware.tinkerbell.org/id".

Definition Workflow_TinkID (w : Workflow) : string := annotation (wf_Meta w) WorkflowIDAnnotation.
Definition Workflow_SetTinkID (id : string) (w : Workflow) : Workflow :=
  {| wf_TypeMeta := wf_TypeMeta w; wf_Meta := set_annotation WorkflowIDAnnotation id (wf_Meta w);
     wf_Spec := wf_Spec w; wf_Status := wf_Status w |}.
Definition Template_TinkID (t : Template) : string := annotation (tp_Meta t) TemplateIDAnnotation.
Definition Template_SetTinkID (id : string) (t : Template) : Template :=
  {| tp_TypeMeta := tp_TypeMeta t; tp_Meta := set_annotation TemplateIDAnnotation id (tp_Meta t);
     tp_Data := tp_Data t |}.
Definition Hardware_TinkID (h : Hardware) : string := annotation (hw_Meta h) HardwareIDAnnotation.
Definition Hardware_SetTinkID (id : string) (h : Hardware) : Hardware :=
  {| hw_TypeMeta := hw_TypeMeta h; hw_Meta := set_annotation HardwareIDAnnotation id (hw_Meta h);
     hw_Spec := hw_Spec h; hw_StatusState := hw_StatusState h |}.

(** [GetStartTime]: nil unless the first task has a first action that has
    started. *)
Definition GetStartTime (w : Workflow) : option Z :=
  match st_Tasks (wf_Status w) with
  | t :: _ => match tk_Actions t with a :: _ => ac_StartedAt a | [] => None end
  | [] => None
  end.

Record taskInfo := {
  ti_CurrentWorker : string;
  ti_CurrentTask : string;
  ti_CurrentTaskIndex : Z;
  ti_CurrentAction : string;
  ti_CurrentActionIndex : Z;
  ti_CurrentActionState : WorkflowState;
  ti_TotalNumberOfActions : Z
}.

(** The variables of the loop of [getTaskActionInfo]. *)
Record scan := {
  sc_found : bool;
  sc_taskIndex : Z;
  sc_actionIndex : Z;
  sc_actionTaskIndex : Z;
  sc_actionCount : Z
}.

Definition open_status (s : WorkflowState) : Prop :=
  s = WorkflowStatePending ∨ s = WorkflowStateRunning ∨
  s = WorkflowStateFailed ∨ s = WorkflowStateTimeout.

#[global] Instance open_status_dec s : Decision (open_status s).
Proof. unfold open_status. apply _. Defined.

(** The loop [INNER]. A status the switch does not name leaves the loop
    variables as they are. *)
Fixpoint scan_actions (ti ai : Z) (l : list Action) (s : scan) : scan :=
  match l with
  | [] => s
  | action :: l' =>
      if decide (ac_Status action = WorkflowStateSuccess) then
        scan_actions ti (ai + 1) l'
          {| sc_found := sc_found s; sc_taskIndex := sc_taskIndex s;
             sc_actionIndex := sc_actionIndex s + 1;
             sc_actionTaskIndex := sc_actionTaskIndex s; sc_actionCount := sc_actionCount s |}
      else if decide (open_status (ac_Status action)) then
        {| sc_found := true; sc_taskIndex := ti; sc_actionIndex := sc_actionIndex s;
           sc_actionTaskIndex := ai; sc_actionCount := sc_actionCount s |}
      else scan_actions ti (ai + 1) l' s
  end.

Fixpoint scan_tasks (ti : Z) (l : list Task) (s : scan) : scan :=
  match l with
  | [] => s
  | task :: l' =>
      let s1 := {| sc_found := sc_found s; sc_taskIndex := sc_taskIndex s;
                   sc_actionIndex := sc_actionIndex s;
                   sc_actionTaskIndex := sc_actionTaskIndex s;
                   sc_actionCount := sc_actionCount s + Z.of_nat (length (tk_Actions task)) |} in
      if sc_found s then scan_tasks (ti + 1) l' s1
      else scan_tasks (ti + 1) l' (scan_actions ti 0 (tk_Actions task) s1)
  end.

(** [var (found bool; taskIndex = -1; ...)]. *)
Definition scan_init : scan :=
  {| sc_found := false; sc_taskIndex := -1; sc_actionIndex := 0; sc_actionTaskIndex := 0;
     sc_actionCount := 0 |}.

(** The indices found by the loop are in range, so the indexing at the end
    cannot panic; [None] below is not reached (lemma [scan_tasks_find]). *)
Definition getTaskActionInfo (w : Workflow) : taskInfo :=
  let s := scan_tasks 0 (st_Tasks (wf_Status w)) scan_init in
  let task := if decide (0 ≤ sc_taskIndex s)
              then zlookup (st_Tasks (wf_Status w)) (sc_taskIndex s) else None in
  let action := if decide (0 ≤ sc_taskIndex s ∧ 0 ≤ sc_actionIndex s)
                then task ≫= λ t, zlookup (tk_Actions t) (sc_actionTaskIndex s) else None in
  {| ti_CurrentWorker := from_option tk_WorkerAddr "" task;
     ti_CurrentTask := from_option tk_Name "" task;
     ti_CurrentTaskIndex := from_option (λ _, sc_taskIndex s) 0 task;
     ti_CurrentAction := from_option ac_Name "" action;
     ti_CurrentActionIndex := sc_actionIndex s;
     ti_CurrentActionState := from_option ac_Status "" action;
     ti_TotalNumberOfActions := sc_actionCount s |}.

Definition GetCurrentWorker (w : Workflow) : string := ti_CurrentWorker (getTaskActionInfo w).
Definition GetCurrentTask (w : Workflow) : string := ti_CurrentTask (getTaskActionInfo w).
Definition GetCurrentTaskIndex (w : Workflow) : Z := ti_CurrentTaskIndex (getTaskActionInfo w).
Definition GetCurrentAction (w : Workflow) : string := ti_CurrentAction (getTaskActionInfo w).
Definition GetCurrentActionIndex (w : Workflow) : Z := ti_CurrentActionIndex (getTaskActionInfo w).
Definition GetCurrentActionState (w : Workflow) : WorkflowState :=
  ti_CurrentActionState (getTaskActionInfo w).
Definition GetTotalNumberOfActions (w : Workflow) : Z :=
  ti_TotalNumberOfActions (getTaskActionInfo w).

(** ** The current action

    The actions of a workflow in execution order, each with its position. *)
Record slot := { sl_ti : nat; sl_ai : nat; sl_task : Task; sl_action : Action }.

Definition task_slots (ti : nat) (t : Task) : list slot :=
  imap (λ ai a, {| sl_ti := ti; sl_ai := ai; sl_task := t; sl_action := a |}) (tk_Actions t).

Fixpoint slots_from (ti : nat) (l : list Task) : list slot :=
  match l with
  | [] => []
  | t :: l' => task_slots ti t ++ slots_from (S ti) l'
  end.

Definition slots (w : Workflow) : list slot := slots_from 0 (st_Tasks (wf_Status w)).

Definition slot_open (s : slot) : Prop := open_status (ac_Status (sl_action s)).
#[global] Instance slot_open_dec s : Decision (slot_open s).
Proof. unfold slot_open. apply _. Defined.

Definition successes (l : list slot) : Z :=
  Z.of_nat (length (filter (λ s, ac_Status (sl_action s) = WorkflowStateSuccess) l)).

(** The first action that is pending, running, failed or timed out. *)
Definition current_slot (w : Workflow) : option (nat * slot) := list_find slot_open (slots w).

(** The statuses the code writes. *)
Definition known_status (s : WorkflowState) : Prop := s = WorkflowStateSuccess ∨ open_status s.
Definition statuses_known (w : Workflow) : Prop :=
  Forall (λ s, known_status (ac_Status (sl_action s))) (slots w).

#[global] Instance known_status_dec s : Decision (known_status s).
Proof. unfold known_status. apply _. Defined.
#[global] Instance statuses_known_dec w : Decision (statuses_known w).
Proof. unfold statuses_known. apply _. Defined.

Lemma success_not_open s : s = WorkflowStateSuccess → ¬ open_status s.
Proof. intros ->. unfold open_status. vm_compute. naive_solver. Qed.

(** What [INNER] computes: it stops at the first open action of the task. *)
Lemma scan_actions_find ti l ai s :
  scan_actions ti ai l s =
  match list_find (open_status ∘ ac_Status) l with
  | Some (i, _) =>
      {| sc_found := true; sc_taskIndex := ti;
         sc_actionIndex := sc_actionIndex s +
           Z.of_nat (length (filter (λ a, ac_Status a = WorkflowStateSuccess) (take i l)));
         sc_actionTaskIndex := ai + Z.of_nat i; sc_actionCount := sc_actionCount s |}
  | None =>
      {| sc_found := sc_found s; sc_taskIndex := sc_taskIndex s;
         sc_actionIndex := sc_actionIndex s +
           Z.of_nat (length (filter (λ a, ac_Status a = WorkflowStateSuccess) l));
         sc_actionTaskIndex := sc_actionTaskIndex s; sc_actionCount := sc_actionCount s |}
  end.
Proof.
  revert ai s. induction l as [|a l IH]; intros ai s; simpl.
  { destruct s; simpl; f_equal; lia. }
  destruct (decide (ac_Status a = WorkflowStateSuccess)) as [Hs|Hs].
  - rewrite (decide_False (P:=(open_status ∘ ac_Status) a)) by by apply success_not_open.
    rewrite IH; simpl. rewrite filter_cons_True by done.
    destruct (list_find _ l) as [[i x]|]; simpl; [rewrite filter_cons_True by done|];
      simpl; f_equal; lia.
  - unfold compose at 1. case_decide as Ho; simpl.
    + f_equal; lia.
    + rewrite IH. rewrite filter_cons_False by done.
      destruct (list_find _ l) as [[i x]|]; simpl; [rewrite filter_cons_False by done|];
        simpl; f_equal; lia.
Qed.

Lemma task_slots_cons_find ti t l k :
  list_find slot_open
    (imap (λ ai a, {| sl_ti := ti; sl_ai := k + ai; sl_task := t; sl_action := a |}) l) =
  (λ '(i, a), (i, {| sl_ti := ti; sl_ai := k + i; sl_task := t; sl_action := a |})) <$>
    list_find (open_status ∘ ac_Status) l.
Proof.
  revert k. induction l as [|a l IH]; intros k; [done|].
  rewrite imap_cons. simpl.
  destruct (decide (open_status (ac_Status a))) as [Ho|Ho].
  { rewrite !decide_True by done. simpl. done. }
  rewrite !decide_False by done.
  erewrite imap_ext with (g := λ ai a, {| sl_ti := ti; sl_ai := S k + ai; sl_task := t;
    sl_action := a |}).
  2:{ intros. simpl. f_equal. lia. }
  rewrite IH. destruct (list_find _ l) as [[i x]|]; simpl; [|done]. do 3 f_equal. lia.
Qed.

Lemma task_slots_find ti t :
  list_find slot_open (task_slots ti t) =
  (λ '(i, a), (i, {| sl_ti := ti; sl_ai := i; sl_task := t; sl_action := a |})) <$>
    list_find (open_status ∘ ac_Status) (tk_Actions t).
Proof. apply (task_slots_cons_find ti t (tk_Actions t) 0). Qed.

Lemma length_task_slots ti t : length (task_slots ti t) = length (tk_Actions t).
Proof. apply length_imap. Qed.

Lemma sl_action_task_slots ti t : sl_action <$> task_slots ti t = tk_Actions t.
Proof.
  unfold task_slots. apply list_eq. intros i. rewrite list_lookup_fmap, list_lookup_imap.
  by destruct (tk_Actions t !! i).
Qed.

Lemma successes_actions (l : list slot) :
  successes l =
  Z.of_nat (length (filter (λ a, ac_Status a = WorkflowStateSuccess) (sl_action <$> l))).
Proof.
  unfold successes. f_equal. induction l as [|x l IH]; [done|]. csimpl.
  destruct (decide (ac_Status (sl_action x) = WorkflowStateSuccess)).
  - rewrite !filter_cons_True by done. simpl. by rewrite IH.
  - rewrite !filter_cons_False by done. done.
Qed.

Lemma successes_app l1 l2 : successes (l1 ++ l2) = successes l1 + successes l2.
Proof. unfold successes. rewrite filter_app, length_app. lia. Qed.

Lemma scan_tasks_found ti l s :
  sc_found s = true →
  scan_tasks ti l s =
  {| sc_found := true; sc_taskIndex := sc_taskIndex s; sc_actionIndex := sc_actionIndex s;
     sc_actionTaskIndex := sc_actionTaskIndex s;
     sc_actionCount := sc_actionCount s + Z.of_nat (length (slots_from 0 l)) |}.
Proof.
  intros Hf. revert ti s Hf. generalize 0%nat as k.
  induction l as [|t l IH]; intros k ti s Hf; simpl.
  { destruct s; simpl in *; subst. f_equal. lia. }
  rewrite Hf, (IH (S k)) by done. simpl. rewrite length_app, length_task_slots. f_equal. lia.
Qed.

Lemma length_slots_from k k' l : length (slots_from k l) = length (slots_from k' l).
Proof.
  revert k k'. induction l as [|t l IH]; intros k k'; [done|]. simpl.
  rewrite !length_app, !length_task_slots. by rewrite (IH (S k) (S k')).
Qed.

(** What the whole loop computes. *)
Lemma scan_tasks_find ti l s :
  sc_found s = false →
  scan_tasks (Z.of_nat ti) l s =
  match list_find slot_open (slots_from ti l) with
  | Some (i, x) =>
      {| sc_found := true; sc_taskIndex := Z.of_nat (sl_ti x);
         sc_actionIndex := sc_actionIndex s + successes (take i (slots_from ti l));
         sc_actionTaskIndex := Z.of_nat (sl_ai x);
         sc_actionCount := sc_actionCount s + Z.of_nat (length (slots_from ti l)) |}
  | None =>
      {| sc_found := false; sc_taskIndex := sc_taskIndex s;
         sc_actionIndex := sc_actionIndex s + successes (slots_from ti l);
         sc_actionTaskIndex := sc_actionTaskIndex s;
         sc_actionCount := sc_actionCount s + Z.of_nat (length (slots_from ti l)) |}
  end.
Proof.
  revert ti s. induction l as [|t l IH]; intros ti s Hf; simpl.
  { destruct s; simpl in *; subst. f_equal; unfold successes; simpl; lia. }
  rewrite Hf, scan_actions_find. simpl.
  pose proof (task_slots_find ti t) as Hfind.
  replace (Z.of_nat ti + 1) with (Z.of_nat (S ti)) by lia.
  destruct (list_find (open_status ∘ ac_Status) (tk_Actions t)) as [[i a]|] eqn:E; simpl in Hfind.
  - pose proof E as Hlk. apply list_find_Some in Hlk as (Hlk & _ & _).
    apply lookup_lt_Some in Hlk.
    rewrite (list_find_app_l _ _ _ _ _ Hfind).
    rewrite scan_tasks_found by done. simpl.
    rewrite take_app_le by (rewrite length_task_slots; lia).
    rewrite successes_actions, fmap_take, sl_action_task_slots.
    rewrite length_app, length_task_slots, (length_slots_from 0 (S ti)).
    f_equal; lia.
  - rewrite IH by done. rewrite list_find_app_r by done. simpl.
    destruct (list_find slot_open (slots_from (S ti) l)) as [[i x]|] eqn:E2.
    + simpl. rewrite (Nat.add_comm i), take_app_add.
      rewrite successes_app, (successes_actions (task_slots ti t)), sl_action_task_slots.
      rewrite length_app, length_task_slots. f_equal; lia.
    + simpl. rewrite successes_app, (successes_actions (task_slots ti t)), sl_action_task_slots.
      rewrite length_app, length_task_slots. f_equal; lia.
Qed.

Lemma elem_of_task_slots x ti t :
  x ∈ task_slots ti t ↔
  sl_ti x = ti ∧ sl_task x = t ∧ tk_Actions t !! sl_ai x = Some (sl_action x).
Proof.
  unfold task_slots. rewrite list_elem_of_lookup. setoid_rewrite list_lookup_imap_Some.
  split.
  - intros (i & a & Ha & ->). done.
  - intros (<- & <- & Ha). exists (sl_ai x), (sl_action x). split; [done|]. by destruct x.
Qed.

Lemma elem_of_slots_from x ti l :
  x ∈ slots_from ti l ↔
  (ti ≤ sl_ti x)%nat ∧ l !! (sl_ti x - ti)%nat = Some (sl_task x) ∧
  tk_Actions (sl_task x) !! sl_ai x = Some (sl_action x).
Proof.
  revert ti. induction l as [|t l IH]; intros ti; simpl.
  { split; [by intros ?%elem_of_nil|naive_solver]. }
  rewrite elem_of_app, elem_of_task_slots, IH. split.
  - intros [(-> & -> & Ha)|(Hle & Hl & Ha)].
    + rewrite Nat.sub_diag. done.
    + split_and!; [lia| |done]. by replace (sl_ti x - ti)%nat with (S (sl_ti x - S ti)) by lia.
  - intros (Hle & Hl & Ha). destruct (decide (sl_ti x = ti)) as [Heq|Hne].
    + left. rewrite Heq, Nat.sub_diag in Hl. simplify_eq/=. done.
    + right. split_and!; [lia| |done].
      by replace (sl_ti x - ti)%nat with (S (sl_ti x - S ti)) in Hl by lia.
Qed.

Lemma elem_of_slots x w :
  x ∈ slots w ↔
  st_Tasks (wf_Status w) !! sl_ti x = Some (sl_task x) ∧
  tk_Actions (sl_task x) !! sl_ai x = Some (sl_action x).
Proof.
  unfold slots. rewrite elem_of_slots_from, Nat.sub_0_r. split; [tauto|]. intros [? ?].
  split_and!; [lia|done|done].
Qed.

Lemma successes_nonneg l : 0 ≤ successes l.
Proof. unfold successes. lia. Qed.

(** The method against the execution order of the actions. *)
Lemma getTaskActionInfo_current w :
  getTaskActionInfo w =
  match current_slot w with
  | Some (i, x) =>
      {| ti_CurrentWorker := tk_WorkerAddr (sl_task x);
         ti_CurrentTask := tk_Name (sl_task x);
         ti_CurrentTaskIndex := Z.of_nat (sl_ti x);
         ti_CurrentAction := ac_Name (sl_action x);
         ti_CurrentActionIndex := successes (take i (slots w));
         ti_CurrentActionState := ac_Status (sl_action x);
         ti_TotalNumberOfActions := Z.of_nat (length (slots w)) |}
  | None =>
      {| ti_CurrentWorker := ""; ti_CurrentTask := ""; ti_CurrentTaskIndex := 0;
         ti_CurrentAction := ""; ti_CurrentActionIndex := successes (slots w);
         ti_CurrentActionState := "";
         ti_TotalNumberOfActions := Z.of_nat (length (slots w)) |}
  end.
Proof.
  unfold getTaskActionInfo, current_slot.
  rewrite (scan_tasks_find 0 _ scan_init) by done. fold (slots w).
  destruct (list_find slot_open (slots w)) as [[i x]|] eqn:E; simpl.
  - apply list_find_Some in E as (Hx & _ & _).
    apply list_elem_of_lookup_2, elem_of_slots in Hx as [Ht Ha].
    pose proof (successes_nonneg (take i (slots w))).
    rewrite !decide_True by lia. rewrite zlookup_of_nat, Ht. simpl.
    by rewrite zlookup_of_nat, Ha.
  - done.
Qed.

Lemma successes_all l :
  Forall (λ s, ac_Status (sl_action s) = WorkflowStateSuccess) l →
  successes l = Z.of_nat (length l).
Proof.
  unfold successes. induction 1 as [|x l Hx H IH]; [done|].
  rewrite filter_cons_True by done. simpl. lia.
Qed.

Lemma not_open_success s : known_status s → ¬ open_status s → s = WorkflowStateSuccess.
Proof. unfold known_status. tauto. Qed.

(** Before the current action of a workflow with known statuses every action
    has succeeded, so the index reported is its position. *)
Lemma current_slot_before w i x :
  statuses_known w → current_slot w = Some (i, x) →
  Forall (λ s, ac_Status (sl_action s) = WorkflowStateSuccess) (take i (slots w)).
Proof.
  intros Hk (Hx & Ho & Hbefore)%list_find_Some.
  apply Forall_forall. intros y (j & Hj)%list_elem_of_lookup.
  apply lookup_take_Some in Hj as [Hj Hlt].
  apply not_open_success; [|by apply (Hbefore j)].
  unfold statuses_known in Hk. rewrite Forall_forall in Hk.
  apply Hk. by eapply list_elem_of_lookup_2.
Qed.

Lemma current_index w i x :
  statuses_known w → current_slot w = Some (i, x) → GetCurrentActionIndex w = Z.of_nat i.
Proof.
  intros Hk Hc. unfold GetCurrentActionIndex. rewrite getTaskActionInfo_current, Hc. simpl.
  rewrite successes_all by by eapply current_slot_before.
  apply list_find_Some in Hc as (Hx%lookup_lt_Some & _). rewrite length_take. lia.
Qed.

(** ** Properties *)
Section properties.
(** C23 The "current action" the API reports, for any statuses. It is the first action,
    in execution order over all tasks, that is pending, running, failed or timed out
    (succeeded actions are skipped, and so are those with any other status, such as the
    empty one): name, state, task, worker and task index are those of that action, its
    index is the number of succeeded actions before it, and the total counts the actions
    of every task. When there is none, all texts are empty and the index is the number of
    succeeded actions. If every status of the workflow is one of the five defined ones,
    the current action is the first that has not succeeded, and its index is its
    position. *)
Theorem current_action_is_first_open w :
  let info x index :=
    {| ti_CurrentWorker := tk_WorkerAddr (sl_task x);
       ti_CurrentTask := tk_Name (sl_task x);
       ti_CurrentTaskIndex := Z.of_nat (sl_ti x);
       ti_CurrentAction := ac_Name (sl_action x);
       ti_CurrentActionIndex := index;
       ti_CurrentActionState := ac_Status (sl_action x);
       ti_TotalNumberOfActions := Z.of_nat (length (slots w)) |} in
  (∀ i x, slots w !! i = Some x → open_status (ac_Status (sl_action x)) →
   (∀ j y, (j < i)%nat → slots w !! j = Some y → ¬ open_status (ac_Status (sl_action y))) →
   getTaskActionInfo w = info x (successes (take i (slots w)))) ∧
  ((∀ j y, slots w !! j = Some y → ¬ open_status (ac_Status (sl_action y))) →
   getTaskActionInfo w =
     {| ti_CurrentWorker := ""; ti_CurrentTask := ""; ti_CurrentTaskIndex := 0;
        ti_CurrentAction := ""; ti_CurrentActionIndex := successes (slots w);
        ti_CurrentActionState := "";
        ti_TotalNumberOfActions := Z.of_nat (length (slots w)) |}) ∧
  (statuses_known w → ∀ i x, slots w !! i = Some x →
   ac_Status (sl_action x) ≠ WorkflowStateSuccess →
   (∀ j y, (j < i)%nat → slots w !! j = Some y →
     ac_Status (sl_action y) = WorkflowStateSuccess) →
   getTaskActionInfo w = info x (Z.of_nat i)).
Proof.
  intros info. split_and!.
  - intros i x Hx Ho Hb. assert (current_slot w = Some (i, x)) as Hc.
    { apply list_find_Some. split_and!; [done|done|]. intros j y Hj Hlt. by eapply Hb. }
    by rewrite getTaskActionInfo_current, Hc.
  - intros Hn. rewrite getTaskActionInfo_current.
    destruct (current_slot w) as [[j y]|] eqn:Hc; [|done].
    apply list_find_Some in Hc as (Hy & Ho & _). by apply Hn in Hy.
  - intros Hk i x Hx Hne Hb. assert (current_slot w = Some (i, x)) as Hc.
    { apply list_find_Some. split_and!; [done| |].
      - unfold statuses_known in Hk. rewrite Forall_forall in Hk.
        destruct (Hk x) as [?|?]; [by eapply list_elem_of_lookup_2|done|done].
      - intros j y Hj Hlt. by apply success_not_open, (Hb j). }
    pose proof (current_index w i x Hk Hc) as Hi. unfold GetCurrentActionIndex in Hi.
    rewrite getTaskActionInfo_current, Hc in *. simpl in *. by rewrite Hi.
Qed.

Definition demo_action (n st : string) : Action :=
  {| ac_Name := n; ac_Image := "img"; ac_Timeout := 60; ac_Command := []; ac_Volumes := [];
     ac_Pid := ""; ac_Environment := ∅; ac_Status := st; ac_StartedAt := None;
     ac_Seconds := 0; ac_Message := "" |}.
Definition demo_task (n w : string) (l : list Action) : Task :=
  {| tk_Name := n; tk_WorkerAddr := w; tk_Actions := l; tk_Volumes := [];
     tk_Environment := ∅ |}.
Definition demo_workflow (st : WorkflowState) (l : list Task) : Workflow :=
  {| wf_TypeMeta := {| tm_Kind := "Workflow"; tm_APIVersion := "tinkerbell.org/v1alpha1" |};
     wf_Meta := {| om_Name := "wf1"; om_Namespace := "default"; om_Annotations := None;
                   om_CreationTimestamp := 0; om_DeletionTimestamp := None |};
     wf_Spec := {| sp_TemplateRef := "tpl"; sp_HardwareRef := "hw"; sp_HardwareMap := ∅ |};
     wf_Status := {| st_State := st; st_GlobalTimeout := 600; st_Tasks := l |} |}.

Definition demo_two_tasks : Workflow :=
  demo_workflow WorkflowStateRunning
    [demo_task "t1" "w1" [demo_action "a" WorkflowStateSuccess];
     demo_task "t2" "w2" [demo_action "b" WorkflowStatePending]].

(** The status that a report of an undefined state stores is passed over. *)
Definition demo_skipped : Workflow :=
  demo_workflow WorkflowStateRunning
    [demo_task "t1" "w1" [demo_action "a" ""];
     demo_task "t2" "w2" [demo_action "b" WorkflowStatePending]].

Lemma current_action_is_first_open_witness :
  let x := {| sl_ti := 1; sl_ai := 0;
       sl_task := demo_task "t2" "w2" [demo_action "b" WorkflowStatePending];
       sl_action := demo_action "b" WorkflowStatePending |} in
  (ti_CurrentTask (getTaskActionInfo demo_two_tasks) = "t2" ∧
   ti_CurrentActionIndex (getTaskActionInfo demo_two_tasks) = 1) ∧
  ti_CurrentTask (getTaskActionInfo demo_skipped) = "t2" ∧
  ti_CurrentActionIndex (getTaskActionInfo demo_skipped) = 0.
Proof.
  intros x. destruct (current_action_is_first_open demo_two_tasks) as (_ & _ & H1).
  destruct (current_action_is_first_open demo_skipped) as (H2 & _).
  rewrite (H1 ltac:(apply (bool_decide_unpack _); vm_compute; exact I) 1%nat x eq_refl);
    [rewrite (H2 1%nat x eq_refl); [done|by left|]|done|].
  - intros [|j] y Hj Hy; [|lia]. vm_compute in Hy. injection Hy as <-.
    apply (bool_decide_unpack _). vm_compute. exact I.
  - intros [|j] y Hj Hy; [|lia]. vm_compute in Hy. by simplify_eq.
Defined.
End properties.
