(* ===== verification/Progress.v ===== *)
(** * Progress: the invariant of a workflow resource

    Writes to the status of a workflow, the statuses of its actions in execution
    order, and the invariant that the server and the controller maintain on them:
    every action before the current one has succeeded and every action after it
    is pending. *)
From S2P Require Import Prelude Crd.
From stdpp Require Import options.

(** ** Writes to [wf.Status] *)
Definition upd_action (f : Action → Action) (ti ai : nat) (w : Workflow) : Workflow :=
  set_wf_status (set_tasks (alter_action f ti ai (st_Tasks (wf_Status w))) (wf_Status w)) w.
Definition upd_state (s : WorkflowState) (w : Workflow) : Workflow :=
  set_wf_status (set_state s (wf_Status w)) w.
Definition action_at (ti ai : nat) (w : Workflow) : option Action :=
  st_Tasks (wf_Status w) !! ti ≫= λ t, tk_Actions t !! ai.

(** ** Statuses in execution order *)
Definition task_statuses (t : Task) : list WorkflowState := ac_Status <$> tk_Actions t.
Definition tasks_statuses (l : list Task) : list WorkflowState := l ≫= task_statuses.
Definition statuses (w : Workflow) : list WorkflowState := tasks_statuses (st_Tasks (wf_Status w)).

(** The names a validated template guarantees. *)
Definition tasks_names_ok (l : list Task) : Prop :=
  NoDup (tk_Name <$> l) ∧ Forall (λ t, NoDup (ac_Name <$> tk_Actions t)) l.
Definition names_ok (w : Workflow) : Prop := tasks_names_ok (st_Tasks (wf_Status w)).
#[global] Instance names_ok_dec w : Decision (names_ok w).
Proof. unfold names_ok, tasks_names_ok. apply _. Defined.

Definition progress_list (l : list WorkflowState) : Prop :=
  Forall known_status l ∧
  ∃ i, Forall (.= WorkflowStateSuccess) (take i l) ∧
       Forall (.= WorkflowStatePending) (drop (S i) l).

Definition progress (w : Workflow) : Prop := progress_list (statuses w) ∧ names_ok w.

(** ** Lemmas *)
Lemma statuses_slots w : statuses w = (λ x, ac_Status (sl_action x)) <$> slots w.
Proof.
  unfold statuses, tasks_statuses, slots. generalize 0%nat as k.
  induction (st_Tasks (wf_Status w)) as [|t l IH]; intros k; [done|].
  cbn [slots_from]. rewrite bind_cons, fmap_app, (IH (S k)). f_equal.
  unfold task_statuses. rewrite <- (sl_action_task_slots k t) at 1. by rewrite <- list_fmap_compose.
Qed.

Lemma statuses_known_statuses w : statuses_known w ↔ Forall known_status (statuses w).
Proof. rewrite statuses_slots, Forall_fmap. done. Qed.

Lemma fmap_alter_same {A B} (g : A → B) (f : A → A) i (l : list A) :
  (∀ a, g (f a) = g a) → g <$> alter f i l = g <$> l.
Proof.
  intros Hf. rewrite (list_fmap_alter _ f id); [by apply list_alter_id|].
  apply Forall_forall. intros a _. apply Hf.
Qed.

Lemma alter_fmap_status f i (l : list Action) a :
  l !! i = Some a → ac_Status <$> alter f i l = <[i:=ac_Status (f a)]> (ac_Status <$> l).
Proof.
  intros Ha. apply list_eq. intros j. rewrite list_lookup_fmap.
  destruct (decide (i = j)) as [->|Hne].
  - rewrite list_lookup_alter_eq, Ha, list_lookup_insert_eq; [done|].
    rewrite length_fmap. by eapply lookup_lt_Some.
  - by rewrite list_lookup_alter_ne, list_lookup_insert_ne, list_lookup_fmap by done.
Qed.

Lemma slots_from_lookup k l i x :
  slots_from k l !! i = Some x → (k ≤ sl_ti x)%nat.
Proof. intros Hx. apply list_elem_of_lookup_2, elem_of_slots_from in Hx. naive_solver. Qed.

(** Rewriting the action of slot [i] rewrites the [i]-th status. *)
Lemma tasks_statuses_alter f k l i x :
  slots_from k l !! i = Some x →
  tasks_statuses (alter_action f (sl_ti x - k) (sl_ai x) l) =
  <[i := ac_Status (f (sl_action x))]> (tasks_statuses l).
Proof.
  revert k i. induction l as [|t l IH]; intros k i Hx; [done|].
  unfold alter_action, tasks_statuses in *. cbn [slots_from] in Hx. rewrite bind_cons.
  apply lookup_app_Some in Hx as [Hx|[Hle Hx]].
  - unfold task_slots in Hx. apply list_lookup_imap_Some in Hx as (a & Ha & ->). simpl.
    rewrite Nat.sub_diag. cbn [alter list_alter]. rewrite bind_cons. unfold task_statuses at 1. simpl.
    rewrite (alter_fmap_status _ _ _ a) by done.
    rewrite insert_app_l; [done|]. unfold task_statuses. rewrite length_fmap.
    by eapply lookup_lt_Some.
  - pose proof (slots_from_lookup _ _ _ _ Hx). rewrite length_task_slots in *.
    replace (sl_ti x - k)%nat with (S (sl_ti x - S k)) by lia. cbn [alter list_alter].
    rewrite bind_cons. rewrite (IH (S k) (i - length (tk_Actions t))%nat Hx).
    assert (length (task_statuses t) = length (tk_Actions t)) as Hl by apply length_fmap.
    rewrite insert_app_r_alt, Hl; [done|lia].
Qed.

Lemma statuses_upd_action f w i x :
  slots w !! i = Some x →
  statuses (upd_action f (sl_ti x) (sl_ai x) w) = <[i := ac_Status (f (sl_action x))]> (statuses w).
Proof.
  intros Hx. pose proof (tasks_statuses_alter f 0 _ i x Hx) as H. by rewrite Nat.sub_0_r in H.
Qed.

Lemma upd_action_upd_action f g ti ai w :
  upd_action g ti ai (upd_action f ti ai w) = upd_action (g ∘ f) ti ai w.
Proof.
  unfold upd_action, set_wf_status, set_tasks. simpl. do 2 f_equal. unfold alter_action.
  rewrite list_alter_alter_eq. apply list_alter_ext; [|done]. intros t Ht.
  unfold compose at 1, set_actions. simpl. f_equal. apply list_alter_alter_eq.
Qed.

Lemma upd_action_upd_state f ti ai s w :
  upd_action f ti ai (upd_state s w) = upd_state s (upd_action f ti ai w).
Proof. done. Qed.

Lemma upd_state_upd_state s s' w : upd_state s (upd_state s' w) = upd_state s w.
Proof. done. Qed.

Lemma upd_state_same w : upd_state (st_State (wf_Status w)) w = w.
Proof. by destruct w as [? ? ? []]. Qed.

Lemma alter_action_names f ti ai l :
  (∀ a, ac_Name (f a) = ac_Name a) → tasks_names_ok l → tasks_names_ok (alter_action f ti ai l).
Proof.
  intros Hf [Ht Ha].
  unfold alter_action. split.
  - by rewrite fmap_alter_same.
  - apply Forall_alter; [done|]. intros t Htk Hnd. simpl. by rewrite fmap_alter_same.
Qed.

Lemma names_ok_upd_action f ti ai w :
  (∀ a, ac_Name (f a) = ac_Name a) → names_ok w → names_ok (upd_action f ti ai w).
Proof. apply alter_action_names. Qed.

(** Rewriting the status of the current action keeps the invariant. *)
Lemma progress_list_insert l i s :
  progress_list l → known_status s → Forall (.= WorkflowStateSuccess) (take i l) →
  (∃ s', l !! i = Some s' ∧ open_status s') →
  progress_list (<[i:=s]> l).
Proof.
  intros [Hk (j & Hj & Hp)] Hs Hi (s' & Hs' & Ho). split.
  - by apply Forall_insert.
  - exists i. rewrite take_insert_ge, drop_insert_lt by lia. split; [done|].
    assert (j ≤ i)%nat.
    { destruct (decide (j ≤ i)%nat); [done|]. exfalso.
      rewrite Forall_forall in Hj. apply (success_not_open s'); [|done].
      apply Hj, list_elem_of_lookup. exists i. rewrite lookup_take_lt; [done|lia]. }
    replace (S i) with (S j + (i - j))%nat by lia. rewrite <- drop_drop. by apply Forall_drop.
Qed.

Lemma current_slot_lookup w i x : current_slot w = Some (i, x) → slots w !! i = Some x.
Proof. intros H. by apply list_find_Some in H as [? _]. Qed.

Lemma progress_upd_current f s' w i x :
  progress w → current_slot w = Some (i, x) →
  (∀ a, ac_Name (f a) = ac_Name a) → known_status (ac_Status (f (sl_action x))) →
  progress (upd_state s' (upd_action f (sl_ti x) (sl_ai x) w)).
Proof.
  intros [Hp Hn] Hc Hf Hs. pose proof (current_slot_lookup _ _ _ Hc) as Hx. split.
  - change (progress_list (statuses (upd_action f (sl_ti x) (sl_ai x) w))).
    rewrite (statuses_upd_action _ _ i) by done. apply progress_list_insert; [done|done| |].
    + rewrite statuses_slots, <- fmap_take, Forall_fmap. eapply current_slot_before; [|done].
      rewrite statuses_known_statuses. by destruct Hp.
    + exists (ac_Status (sl_action x)). rewrite statuses_slots, list_lookup_fmap, Hx.
      apply list_find_Some in Hc as (_ & Ho & _). done.
  - by apply (names_ok_upd_action f).
Qed.

(** The names of the tasks and of their actions. *)
Definition task_shape (t : Task) : string * list string := (tk_Name t, ac_Name <$> tk_Actions t).
Definition shape (w : Workflow) : list (string * list string) :=
  task_shape <$> st_Tasks (wf_Status w).

Lemma shape_upd_action f ti ai w :
  (∀ a, ac_Name (f a) = ac_Name a) → shape (upd_action f ti ai w) = shape w.
Proof.
  intros Hf. unfold shape, upd_action, alter_action. simpl. apply fmap_alter_same.
  intros t. unfold task_shape. simpl. by rewrite fmap_alter_same.
Qed.
