(* ===== verification/Convert.v ===== *)
(** * Convert: between templates, resources and messages (src/pkg/convert)

    The functions of workflow.go and template.go. A nil argument is [None].
    [append] may write into the spare capacity of the task's volume slice, which
    every action of the task shares: [append_spare] and [append_view] keep that
    array, and [vcap] says how large it is. *)
From S2P Require Import Prelude Proto Template Crd.
From stdpp Require Import options.

(** ** Times *)

(** [timestamppb.New(t)] and [ts.AsTime()]; a nil timestamp is the epoch. *)
Definition timestamppb_New (t : Z) : option Z := Some t.
Definition AsTime (ts : option Z) : Z := default 0 ts.
Definition metav1ToTimestamppb (t : option Z) : option Z :=
  match t with None => None | Some t => timestamppb_New t end.

(** ** Workflow context *)
Definition WorkflowToWorkflowContext (wf : option Workflow) : option WorkflowContext :=
  match wf with
  | None => None
  | Some wf =>
      Some {| wc_WorkflowId := om_Name (wf_Meta wf);
              wc_CurrentWorker := GetCurrentWorker wf;
              wc_CurrentTask := GetCurrentTask wf;
              wc_CurrentAction := GetCurrentAction wf;
              wc_CurrentActionIndex := GetCurrentActionIndex wf;
              wc_CurrentActionState := state_value_of (GetCurrentActionState wf);
              wc_TotalNumberOfActions := GetTotalNumberOfActions wf |}
  end.

(** ** Template to status *)
Definition action_of_yaml (action : YAction) : Action :=
  {| ac_Name := ya_Name action; ac_Image := ya_Image action; ac_Timeout := ya_Timeout action;
     ac_Command := ya_Command action; ac_Volumes := ya_Volumes action; ac_Pid := ya_Pid action;
     ac_Environment := ya_Environment action;
     ac_Status := state_name_of State_STATE_PENDING;
     ac_StartedAt := None; ac_Seconds := 0; ac_Message := "" |}.

Definition task_of_yaml (task : YTask) : Task :=
  {| tk_Name := yt_Name task; tk_WorkerAddr := yt_WorkerAddr task;
     tk_Actions := action_of_yaml <$> yt_Actions task; tk_Volumes := yt_Volumes task;
     tk_Environment := yt_Environment task |}.

Definition WorkflowYAMLToStatus (wf : option YWorkflow) : option WorkflowStatus :=
  match wf with
  | None => None
  | Some wf =>
      Some {| st_State := ""; st_GlobalTimeout := yw_GlobalTimeout wf;
              st_Tasks := task_of_yaml <$> yw_Tasks wf |}
  end.

(** ** Resource to message *)
Definition WorkflowCRDToProto (w : option Workflow) : option PbWorkflow :=
  match w with
  | None => None
  | Some w =>
      let state := match State_value !! st_State (wf_Status w) with
                   | Some v => v
                   | None => State_STATE_PENDING
                   end in
      Some {| pw_Id := Workflow_TinkID w;
              pw_Template := sp_TemplateRef (wf_Spec w);
              pw_Hardware := "";
              pw_State := state;
              pw_CreatedAt := timestamppb_New (om_CreationTimestamp (wf_Meta w));
              pw_UpdatedAt := None;
              pw_DeletedAt := metav1ToTimestamppb (om_DeletionTimestamp (wf_Meta w));
              pw_Data := "" |}
  end.

Definition WorkflowProtoToCRD (w : option PbWorkflow) : option Workflow :=
  match w with
  | None => None
  | Some w =>
      Some {| wf_TypeMeta := {| tm_Kind := "Workflow"; tm_APIVersion := "tinkerbell.org/v1alpha1" |};
              wf_Meta := {| om_Name := ""; om_Namespace := "";
                            om_Annotations := Some {[ WorkflowIDAnnotation := pw_Id w ]};
                            om_CreationTimestamp := AsTime (pw_CreatedAt w);
                            om_DeletionTimestamp := None |};
              wf_Spec := {| sp_TemplateRef := ""; sp_HardwareRef := ""; sp_HardwareMap := ∅ |};
              wf_Status := {| st_State := match State_name !! pw_State w with
                                          | Some v => v
                                          | None => ""
                                          end;
                              st_GlobalTimeout := 0; st_Tasks := [] |} |}
  end.

(** ** Templates *)
Definition TemplateCRDToProto (t : option Template) : option WorkflowTemplate :=
  match t with
  | None => None
  | Some t =>
      Some {| wt_Id := Template_TinkID t; wt_Name := om_Name (tp_Meta t);
              wt_CreatedAt := timestamppb_New (om_CreationTimestamp (tp_Meta t));
              wt_UpdatedAt := None;
              wt_DeletedAt := metav1ToTimestamppb (om_DeletionTimestamp (tp_Meta t));
              wt_Data := match tp_Data t with Some d => d | None => "" end |}
  end.

Definition TemplateProtoToCRD (t : option WorkflowTemplate) : option Template :=
  match t with
  | None => None
  | Some t =>
      Some {| tp_TypeMeta := {| tm_Kind := "Template"; tm_APIVersion := "tinkerbell.org/v1alpha1" |};
              tp_Meta := {| om_Name := wt_Name t; om_Namespace := "";
                            om_Annotations := Some {[ "template.tinkerbell.org/id" := wt_Id t ]};
                            om_CreationTimestamp := AsTime (wt_CreatedAt t);
                            om_DeletionTimestamp :=
                              match wt_DeletedAt t with
                              | Some d => Some (AsTime (Some d))
                              | None => None
                              end |};
              tp_Data := Some (wt_Data t) |}
  end.

(** ** The action list *)

(** The task's slice has [n] elements in an array of [c] cells; [append]ing
    [av] writes the cells after the [n]-th when they are enough and allocates a
    new array otherwise. *)
Definition append_spare (n c : nat) (spare av : list string) : list string :=
  if decide (n + length av ≤ c)%nat then av ++ drop (length av) spare else spare.

(** What the result of that [append] reads once the shared cells hold [spare]. *)
Definition append_view (c : nat) (base spare av : list string) : list string :=
  if decide (length base + length av ≤ c)%nat then base ++ take (length av) spare
  else base ++ av.

Section action_list.
Context `{MR : MapRange}.

(** The closure that merges the environments of a task and an action. *)
Definition merge_environment (task_env action_env : gmap string string) : list string :=
  let merged := copy_map action_env (copy_map task_env ∅) in
  let resp := (λ kv, kv.1 +:+ "=" +:+ kv.2) <$> range_map merged in
  merge_sort String.le resp.

Definition action_to_proto (c : nat) (spare : list string) (task : Task) (action : Action)
    : WorkflowAction :=
  {| wa_TaskName := tk_Name task; wa_Name := ac_Name action; wa_Image := ac_Image action;
     wa_Timeout := ac_Timeout action; wa_Command := ac_Command action;
     wa_OnTimeout := []; wa_OnFailure := [];
     wa_WorkerId := tk_WorkerAddr task;
     wa_Volumes := append_view c (tk_Volumes task) spare (ac_Volumes action);
     wa_Environment := merge_environment (tk_Environment task) (ac_Environment action);
     wa_Pid := ac_Pid action |}.

(** The actions of one task; the appends of all of them have happened when
    the list is returned. *)
Definition task_to_proto (c : nat) (task : Task) : list WorkflowAction :=
  let n := length (tk_Volumes task) in
  let spare := foldl (append_spare n c) (replicate (c - n) "")
                 (ac_Volumes <$> tk_Actions task) in
  action_to_proto c spare task <$> tk_Actions task.

(** [vcap task] is the capacity of the slice [task.Volumes]. *)
Definition WorkflowActionListCRDToProto (vcap : Task → nat) (wf : option Workflow)
    : option WorkflowActionList :=
  match wf with
  | None => None
  | Some wf => Some (st_Tasks (wf_Status wf) ≫= λ task, task_to_proto (vcap task) task)
  end.
End action_list.

(** A deep-copied resource (zz_generated.deepcopy.go allocates
    [make([]string, len(in))]): no spare capacity. *)
Definition deepcopy_cap (task : Task) : nat := length (tk_Volumes task).

(** ** Lemmas *)
Section lemmas.
Context `{MR : MapRange}.

Lemma merge_environment_perm te ae :
  merge_environment te ae ≡ₚ (λ kv, kv.1 +:+ "=" +:+ kv.2) <$> map_to_list (ae ∪ te).
Proof.
  unfold merge_environment. rewrite merge_sort_Permutation, !copy_map_union.
  rewrite (right_id_L ∅ (∪)). by rewrite range_map_perm.
Qed.

Lemma merge_environment_sorted te ae : StronglySorted String.le (merge_environment te ae).
Proof. unfold merge_environment. apply (StronglySorted_merge_sort _). Qed.

(** Without spare capacity no append writes into the task's array. *)
Lemma append_view_full base spare av : append_view (length base) base spare av = base ++ av.
Proof.
  unfold append_view. case_decide; [|done].
  destruct av; [|simpl in *; lia]. by rewrite take_0.
Qed.

(** The message of one action of a workflow. *)
Definition proto_of_slot (x : slot) : WorkflowAction :=
  let t := sl_task x in
  let a := sl_action x in
  {| wa_TaskName := tk_Name t; wa_Name := ac_Name a; wa_Image := ac_Image a;
     wa_Timeout := ac_Timeout a; wa_Command := ac_Command a; wa_OnTimeout := [];
     wa_OnFailure := []; wa_WorkerId := tk_WorkerAddr t;
     wa_Volumes := tk_Volumes t ++ ac_Volumes a;
     wa_Environment := merge_environment (tk_Environment t) (ac_Environment a);
     wa_Pid := ac_Pid a |}.

Lemma task_to_proto_slots ti t :
  task_to_proto (deepcopy_cap t) t = proto_of_slot <$> task_slots ti t.
Proof.
  unfold task_to_proto. generalize
    (foldl (append_spare (length (tk_Volumes t)) (deepcopy_cap t))
      (replicate (deepcopy_cap t - length (tk_Volumes t)) "") (ac_Volumes <$> tk_Actions t)) as sp.
  intros sp. apply list_eq. intros i. unfold task_slots.
  rewrite !list_lookup_fmap, list_lookup_imap.
  destruct (tk_Actions t !! i) as [a|]; simpl; [|done].
  unfold action_to_proto, proto_of_slot, deepcopy_cap. simpl. by rewrite append_view_full.
Qed.

Lemma action_list_slots w :
  WorkflowActionListCRDToProto deepcopy_cap (Some w) = Some (proto_of_slot <$> slots w).
Proof.
  simpl. f_equal. unfold slots. generalize 0%nat as k.
  induction (st_Tasks (wf_Status w)) as [|t l IH]; intros k; [done|].
  cbn [slots_from]. by rewrite bind_cons, fmap_app, (IH (S k)), (task_to_proto_slots k).
Qed.
Lemma proto_of_slots w :
  proto_of_slot <$> slots w =
  (st_Tasks (wf_Status w) ≫= λ t,
     (λ a, {| wa_TaskName := tk_Name t; wa_Name := ac_Name a; wa_Image := ac_Image a;
        wa_Timeout := ac_Timeout a; wa_Command := ac_Command a; wa_OnTimeout := [];
        wa_OnFailure := []; wa_WorkerId := tk_WorkerAddr t;
        wa_Volumes := tk_Volumes t ++ ac_Volumes a;
        wa_Environment := merge_environment (tk_Environment t) (ac_Environment a);
        wa_Pid := ac_Pid a |}) <$> tk_Actions t).
Proof.
  unfold slots. generalize 0%nat as k.
  induction (st_Tasks (wf_Status w)) as [|t l IH]; intros k; [done|].
  cbn [slots_from]. rewrite bind_cons, fmap_app, (IH (S k)). f_equal.
  apply list_eq. intros i. unfold task_slots. rewrite !list_lookup_fmap, list_lookup_imap.
  by destruct (tk_Actions t !! i).
Qed.
End lemmas.

(** The keys in the order of [map_to_list], one admissible iteration order. *)
Definition mapRange_list : MapRange :=
  {| range_map := map_to_list; range_map_perm m := reflexivity _ |}.
(** The opposite order is admissible too. *)
#[program] Definition mapRange_rev : MapRange :=
  {| range_map m := reverse (map_to_list m) |}.
Next Obligation. intros m. by rewrite reverse_Permutation. Qed.

(** ** Properties *)
Section properties.
(** C24 The action list sent to a worker (GetWorkflowActions), made from any workflow that
    was deep-copied (as the client's cache does), is the list of the messages of every
    action of every task, in execution order, each with its task's name and worker, its
    own fields, the task's volumes followed by its own, and the merged environment; the
    total of the workflow context is its length. When every status of the workflow is one
    of the five defined ones and it has a current action, the entry at the index announced
    by the context is the message of that action, and its name, task and worker are those
    of the context. *)
Theorem action_list_at_current_index `{MapRange} w :
  let message t a :=
    {| wa_TaskName := tk_Name t; wa_Name := ac_Name a; wa_Image := ac_Image a;
       wa_Timeout := ac_Timeout a; wa_Command := ac_Command a; wa_OnTimeout := [];
       wa_OnFailure := []; wa_WorkerId := tk_WorkerAddr t;
       wa_Volumes := tk_Volumes t ++ ac_Volumes a;
       wa_Environment := merge_environment (tk_Environment t) (ac_Environment a);
       wa_Pid := ac_Pid a |} in
  let l := st_Tasks (wf_Status w) ≫= λ t, message t <$> tk_Actions t in
  WorkflowActionListCRDToProto deepcopy_cap (Some w) = Some l ∧
  ∃ ctx, WorkflowToWorkflowContext (Some w) = Some ctx ∧
    wc_TotalNumberOfActions ctx = Z.of_nat (length l) ∧
    ∀ i x, statuses_known w → current_slot w = Some (i, x) →
      ∃ a, zlookup l (wc_CurrentActionIndex ctx) = Some a ∧
        wa_Name a = wc_CurrentAction ctx ∧ wa_TaskName a = wc_CurrentTask ctx ∧
        wa_WorkerId a = wc_CurrentWorker ctx ∧ a = message (sl_task x) (sl_action x).
Proof.
  intros message l. rewrite action_list_slots. unfold l, message. rewrite <- proto_of_slots.
  split; [done|]. eexists. split; [done|]. simpl. rewrite length_fmap.
  unfold GetTotalNumberOfActions, GetCurrentAction, GetCurrentTask, GetCurrentWorker.
  rewrite getTaskActionInfo_current. split; [by destruct (current_slot w) as [[]|]|].
  intros i x Hk Hc. exists (proto_of_slot x). rewrite (current_index w i x Hk Hc), Hc. simpl.
  rewrite zlookup_of_nat. apply list_find_Some in Hc as (Hx & _). by rewrite list_lookup_fmap, Hx.
Qed.

Lemma action_list_at_current_index_witness :
  ∃ l ctx a,
    @WorkflowActionListCRDToProto mapRange_list deepcopy_cap (Some demo_two_tasks) = Some l ∧
    (wa_Name <$> l) = ["a"; "b"] ∧
    WorkflowToWorkflowContext (Some demo_two_tasks) = Some ctx ∧
    zlookup l (wc_CurrentActionIndex ctx) = Some a ∧ wa_Name a = "b".
Proof.
  destruct (@action_list_at_current_index mapRange_list demo_two_tasks)
    as (Hl & ctx & Hctx & _ & H).
  destruct (H 1%nat {| sl_ti := 1; sl_ai := 0;
       sl_task := demo_task "t2" "w2" [demo_action "b" WorkflowStatePending];
       sl_action := demo_action "b" WorkflowStatePending |}) as (a & Ha & _ & _ & _ & ->).
  - apply (bool_decide_unpack _). vm_compute. exact I.
  - reflexivity.
  - eexists _, ctx, _. split; [exact Hl|]. split; [reflexivity|]. split; [exact Hctx|].
    split; [exact Ha|reflexivity].
Defined.

(** The environment of an action is the sorted list of the KEY=VALUE pairs
    of the task's environment overridden by the action's, whatever the order in
    which Go ranges over the maps. *)
Theorem environment_order_independent (mr1 mr2 : MapRange) te ae :
  @merge_environment mr1 te ae = @merge_environment mr2 te ae ∧
  StronglySorted String.le (@merge_environment mr1 te ae) ∧
  (∀ kv, kv ∈ @merge_environment mr1 te ae ↔
    ∃ k v, kv = k +:+ "=" +:+ v ∧ (ae !! k = Some v ∨ (ae !! k = None ∧ te !! k = Some v))).
Proof.
  split_and!; [|apply merge_environment_sorted|].
  - apply (StronglySorted_unique String.le).
    + apply (@merge_environment_sorted mr1).
    + apply (@merge_environment_sorted mr2).
    + by rewrite (@merge_environment_perm mr1), (@merge_environment_perm mr2).
  - intros kv. rewrite merge_environment_perm, list_elem_of_fmap.
    setoid_rewrite <- lookup_union_Some_raw. split.
    + intros ([k v] & -> & Hin). apply elem_of_map_to_list in Hin. eauto.
    + intros (k & v & -> & Hl). exists (k, v). by rewrite elem_of_map_to_list.
Qed.

(** A message converted to a resource and back keeps its id, its creation
    time and its state (or the template's name and data, and the deletion time);
    the template reference, hardware, update time and, for a workflow, the
    deletion time are dropped. *)
Theorem proto_crd_roundtrip w t :
  known_state (pw_State w) →
  WorkflowCRDToProto (WorkflowProtoToCRD (Some w)) =
    Some {| pw_Id := pw_Id w; pw_Template := ""; pw_Hardware := ""; pw_State := pw_State w;
            pw_CreatedAt := Some (AsTime (pw_CreatedAt w)); pw_UpdatedAt := None;
            pw_DeletedAt := None; pw_Data := "" |} ∧
  TemplateCRDToProto (TemplateProtoToCRD (Some t)) =
    Some {| wt_Id := wt_Id t; wt_Name := wt_Name t;
            wt_CreatedAt := Some (AsTime (wt_CreatedAt t)); wt_UpdatedAt := None;
            wt_DeletedAt := wt_DeletedAt t; wt_Data := wt_Data t |}.
Proof.
  intros Hs. split.
  - apply state_name_lookup in Hs as [n Hn].
    unfold WorkflowProtoToCRD, WorkflowCRDToProto. cbn [wf_Status st_State].
    rewrite Hn, (state_name_value _ _ Hn). done.
  - destruct t as [? ? ? ? [d|] ?]; done.
Qed.

Lemma proto_crd_roundtrip_witness :
  pw_State <$> WorkflowCRDToProto (WorkflowProtoToCRD (Some
    {| pw_Id := "i"; pw_Template := "t"; pw_Hardware := "h"; pw_State := 3;
       pw_CreatedAt := Some 5; pw_UpdatedAt := None; pw_DeletedAt := None; pw_Data := "" |})) =
  Some 3.
Proof.
  destruct (proto_crd_roundtrip
    {| pw_Id := "i"; pw_Template := "t"; pw_Hardware := "h"; pw_State := 3;
       pw_CreatedAt := Some 5; pw_UpdatedAt := None; pw_DeletedAt := None; pw_Data := "" |}
    zeroWorkflowTemplate) as [E _].
  - unfold known_state; simpl; lia.
  - rewrite E. reflexivity.
Defined.

(** The status made from a template that passes validation: it has the
    template's tasks and actions in order, every action is pending, and the
    action a worker is told to run first is the first action of the first task
    that has one. The on-timeout and on-failure commands of the template have
    no place in the resource. *)
Theorem fresh_status_starts_at_first_action wf st w :
  WorkflowYAMLToStatus (Some wf) = Some st → wf_Status w = st →
  statuses_known w ∧
  ((λ x, (tk_Name (sl_task x), tk_WorkerAddr (sl_task x), ac_Name (sl_action x),
          ac_Image (sl_action x))) <$> slots w) =
    (yw_Tasks wf ≫= λ t, (λ a, (yt_Name t, yt_WorkerAddr t, ya_Name a, ya_Image a)) <$>
      yt_Actions t) ∧
  Forall (λ x, ac_Status (sl_action x) = WorkflowStatePending) (slots w) ∧
  current_slot w = (λ x, (0%nat, x)) <$> head (slots w).
Proof.
  intros [= <-] Hw. assert (Forall (λ x, ac_Status (sl_action x) = WorkflowStatePending)
    (slots w)) as Hp.
  { apply Forall_forall. intros x [Ht Ha]%elem_of_slots. rewrite Hw in Ht. simpl in Ht.
    apply list_lookup_fmap_Some in Ht as (yt & Hy & _). rewrite Hy in Ha. simpl in Ha.
    apply list_lookup_fmap_Some in Ha as (ya & -> & _). done. }
  split_and!; [| |done|].
  - eapply Forall_impl; [done|]. intros x Hx. right. left. done.
  - unfold slots. rewrite Hw. simpl. clear Hw Hp w. generalize 0%nat as k.
    induction (yw_Tasks wf) as [|t l IH]; intros k; [done|].
    rewrite bind_cons, fmap_cons. cbn [slots_from]. rewrite fmap_app, (IH (S k)).
    apply (f_equal (.++ _)), list_eq. intros i. unfold task_slots. rewrite !list_lookup_fmap, list_lookup_imap.
    simpl. rewrite list_lookup_fmap. by destruct (yt_Actions t !! i).
  - unfold current_slot. destruct (slots w) as [|x l]; [done|]. simpl.
    inversion_clear Hp. rewrite decide_True; [done|]. by left.
Qed.

Definition demo_yaml : YWorkflow :=
  {| yw_Version := "0.1"; yw_Name := "n"; yw_ID := ""; yw_GlobalTimeout := 9;
     yw_Tasks := [{| yt_Name := "t"; yt_WorkerAddr := "w"; yt_Actions := [
       {| ya_Name := "a"; ya_Image := "img"; ya_Timeout := 5; ya_Command := [];
          ya_OnTimeout := []; ya_OnFailure := []; ya_Volumes := [];
          ya_Environment := ∅; ya_Pid := "" |}];
       yt_Volumes := []; yt_Environment := ∅ |}] |}.
Definition demo_status : WorkflowStatus :=
  default (wf_Status demo_two_tasks) (WorkflowYAMLToStatus (Some demo_yaml)).

Lemma fresh_status_starts_at_first_action_witness :
  statuses_known (set_wf_status demo_status demo_two_tasks).
Proof.
  exact (proj1 (fresh_status_starts_at_first_action demo_yaml demo_status
    (set_wf_status demo_status demo_two_tasks) eq_refl eq_refl)).
Defined.

Definition alias_action (n v : string) : Action :=
  {| ac_Name := n; ac_Image := "img"; ac_Timeout := 60; ac_Command := []; ac_Volumes := [v];
     ac_Pid := ""; ac_Environment := ∅; ac_Status := WorkflowStatePending;
     ac_StartedAt := None; ac_Seconds := 0; ac_Message := "" |}.
Definition alias_task : Task :=
  {| tk_Name := "t"; tk_WorkerAddr := "w"; tk_Actions := [alias_action "a" "/a"; alias_action "b" "/b"];
     tk_Volumes := ["/t"]; tk_Environment := ∅ |}.

(** The appends share the task's array: with one spare cell the first action
    is sent the volume of the second. *)
Example append_aliases_spare_capacity :
  (wa_Volumes <$> @task_to_proto mapRange_list 2 alias_task) = [["/t"; "/b"]; ["/t"; "/b"]] ∧
  (wa_Volumes <$> @task_to_proto mapRange_list 1 alias_task) = [["/t"; "/a"]; ["/t"; "/b"]].
Proof. split; reflexivity. Qed.
End properties.
