(* ===== verification/Kube.v ===== *)
(** * Kube: the Kubernetes API and the controller manager's indexes

    The index functions of src/pkg/controllers/manager.go, the interface through
    which the server and the controller use the API ([KubeClient]: get, list by
    index, status update and status patch, and the clock [nowFunc]) with what its
    documentation promises ([KubeLaws]), and an in-memory implementation with a
    fault oracle ([memKube]) that satisfies the laws. Reads return what is stored;
    the staleness of the manager's cache is not modelled. *)
From S2P Require Import Prelude Crd Progress.
From stdpp Require Import options.

(** ** Indexes (manager.go) *)
Definition WorkflowWorkerAddrIndex := ".status.tasks.workerAddr".
Definition WorkflowWorkerNonTerminalStateIndex := ".status.state.nonTerminalWorker".
Definition WorkflowStateIndex := ".status.state".
Definition HardwareMACAddrIndex := ".spec.interfaces.dhcp.mac".
Definition HardwareIPAddrIndex := ".spec.interfaces.dhcp.ip".

(** A [client.Object] is one of the resources. *)
Inductive Object := OWorkflow (w : Workflow) | OTemplate (t : Template) | OHardware (h : Hardware).

(** The loop both workflow indexes share in shape. *)
Fixpoint worker_addrs (l : list Task) : list string :=
  match l with
  | [] => []
  | task :: l' =>
      if decide (tk_WorkerAddr task ≠ "") then tk_WorkerAddr task :: worker_addrs l'
      else worker_addrs l'
  end.

Definition WorkflowWorkerAddrIndexFunc (obj : Object) : list string :=
  match obj with
  | OWorkflow wf => worker_addrs (st_Tasks (wf_Status wf))
  | _ => []
  end.

Definition WorkflowWorkerNonTerminalStateIndexFunc (obj : Object) : list string :=
  match obj with
  | OWorkflow wf =>
      if negb (bool_decide (st_State (wf_Status wf) = WorkflowStateRunning) ||
               bool_decide (st_State (wf_Status wf) = WorkflowStatePending)) then []
      else worker_addrs (st_Tasks (wf_Status wf))
  | _ => []
  end.

Definition WorkflowStateIndexFunc (obj : Object) : list string :=
  match obj with
  | OWorkflow wf => [st_State (wf_Status wf)]
  | _ => []
  end.

Fixpoint mac_addrs (l : list Interface) : list string :=
  match l with
  | [] => []
  | iface :: l' =>
      match if_DHCP iface with
      | Some d => if decide (dh_MAC d ≠ "") then dh_MAC d :: mac_addrs l' else mac_addrs l'
      | None => mac_addrs l'
      end
  end.

Definition HardwareMacIndexFunc (obj : Object) : list string :=
  match obj with
  | OHardware hw => mac_addrs (hs_Interfaces (hw_Spec hw))
  | _ => []
  end.

Fixpoint ip_addrs (l : list Interface) : list string :=
  match l with
  | [] => []
  | iface :: l' =>
      match if_DHCP iface ≫= dh_IP with
      | Some ip =>
          if decide (ip_Address ip ≠ "") then ip_Address ip :: ip_addrs l' else ip_addrs l'
      | None => ip_addrs l'
      end
  end.

Definition HardwareIPIndexFunc (obj : Object) : list string :=
  match obj with
  | OHardware hw => ip_addrs (hs_Interfaces (hw_Spec hw))
  | _ => []
  end.

(** The indexers [NewManager] registers, in order. *)
Definition indexers : list (string * (Object → list string)) :=
  [(WorkflowWorkerAddrIndex, WorkflowWorkerAddrIndexFunc);
   (WorkflowWorkerNonTerminalStateIndex, WorkflowWorkerNonTerminalStateIndexFunc);
   (WorkflowStateIndex, WorkflowStateIndexFunc);
   (HardwareIPAddrIndex, HardwareIPIndexFunc);
   (HardwareMACAddrIndex, HardwareMacIndexFunc)].

Lemma elem_of_worker_addrs a l :
  a ∈ worker_addrs l ↔ a ≠ "" ∧ ∃ t, t ∈ l ∧ tk_WorkerAddr t = a.
Proof.
  induction l as [|t l IH]; simpl; [set_solver|]. case_decide; set_solver.
Qed.

Lemma elem_of_nonterminal a w :
  a ∈ WorkflowWorkerNonTerminalStateIndexFunc (OWorkflow w) ↔
  (st_State (wf_Status w) = WorkflowStateRunning ∨
   st_State (wf_Status w) = WorkflowStatePending) ∧
  a ≠ "" ∧ ∃ t, t ∈ st_Tasks (wf_Status w) ∧ tk_WorkerAddr t = a.
Proof.
  simpl. destruct (bool_decide_reflect (st_State (wf_Status w) = WorkflowStateRunning));
    destruct (bool_decide_reflect (st_State (wf_Status w) = WorkflowStatePending)); simpl;
    rewrite ?elem_of_worker_addrs; set_solver.
Qed.

(** ** Times in the cluster *)

(** [metav1.Time] is serialised with a resolution of one second. *)
Definition stored_time (t : Z) : Z := t / second * second.
Definition stored_action (a : Action) : Action := set_started (stored_time <$> ac_StartedAt a) a.
Definition stored_task (t : Task) : Task := set_actions (stored_action <$> tk_Actions t) t.
Definition stored_status (st : WorkflowStatus) : WorkflowStatus :=
  set_tasks (stored_task <$> st_Tasks st) st.

Lemma tasks_statuses_stored l : tasks_statuses (stored_task <$> l) = tasks_statuses l.
Proof.
  unfold tasks_statuses. induction l as [|t l IH]; [done|].
  rewrite fmap_cons, !bind_cons, IH. f_equal. unfold task_statuses. simpl.
  by rewrite <- list_fmap_compose.
Qed.

Lemma tasks_names_ok_stored l : tasks_names_ok l → tasks_names_ok (stored_task <$> l).
Proof.
  intros [Ht Ha]. split; [by rewrite <- list_fmap_compose|]. rewrite Forall_fmap.
  eapply Forall_impl; [done|]. intros t Hnd. simpl. by rewrite <- list_fmap_compose.
Qed.

Lemma shape_stored w base : shape (set_wf_status (stored_status (wf_Status w)) base) = shape w.
Proof.
  unfold shape. simpl. rewrite <- list_fmap_compose. apply list_fmap_ext. intros _ t _.
  unfold compose, task_shape. simpl. by rewrite <- list_fmap_compose.
Qed.

Lemma progress_stored w base :
  progress w → progress (set_wf_status (stored_status (wf_Status w)) base).
Proof.
  intros [Hp Hn]. split.
  - unfold statuses in *. simpl. by rewrite tasks_statuses_stored.
  - by apply tasks_names_ok_stored.
Qed.

(** ** The client *)
Abbreviation key := (string * string)%type (only parsing).
Definition workflow_key (w : Workflow) : key :=
  (om_Namespace (wf_Meta w), om_Name (wf_Meta w)).

Lemma alter_status_insert (m : gmap key Workflow) k wf st :
  m !! k = Some wf → alter (set_wf_status st) k m = <[k := set_wf_status st wf]> m.
Proof.
  intros Hk. apply map_eq. intros k'. destruct (decide (k = k')) as [<-|Hne].
  - by rewrite lookup_alter_eq, lookup_insert_eq, Hk.
  - by rewrite lookup_alter_ne, lookup_insert_ne.
Qed.

(** The operations, over a world [W] that holds the cluster and the clock. *)
Class KubeClient (W : Type) := {
  kworkflows : W → gmap key Workflow;
  ktemplates : W → gmap key Template;
  khardware : W → gmap key Hardware;
  kget_workflow : string → string → go W (result Workflow);
  kget_template : string → string → go W (result Template);
  kget_hardware : string → string → go W (result Hardware);
  (** The workflows of a namespace whose value of an index has the given key. *)
  klist_workflows : string → (Object → list string) → string → go W (result (list Workflow));
  (** [Status().Update] and [Status().Patch] with a merge patch. *)
  kupdate_status : Workflow → go W (option error);
  kpatch_status : Workflow → Workflow → go W (option error);
  nowFunc : go W Z
}.

(** Two worlds with the same objects stored (the clock may have moved). *)
Definition same_cluster `{KubeClient W} (w w' : W) : Prop :=
  kworkflows w' = kworkflows w ∧ ktemplates w' = ktemplates w ∧ khardware w' = khardware w.

#[global] Instance same_cluster_preorder `{KubeClient W} : PreOrder (same_cluster (W:=W)).
Proof. unfold same_cluster. split; [done|]. intros ??? (?&?&?) (?&?&?). split_and!; congruence. Qed.

(** An operation that returns and leaves the cluster as it was. *)
Definition reads `{KubeClient W} {A} (c : go W A) (P : W → A → Prop) : Prop :=
  ∀ w, ∃ a w', c w = (Ret a, w') ∧ same_cluster w w' ∧ P w a.

Definition read_of {W A} (view : W → gmap key A) (k : key) (w : W) (r : result A) : Prop :=
  match r with
  | Ok a => view w !! k = Some a
  | Err e => err_is e KubeNotFound = true → view w !! k = None
  end.

(** A write of the status of the object stored under the key of [wf]. One that
    returns an error may have been stored all the same, when its answer was lost. *)
Definition writes_status_at `{KubeClient W} (wf : Workflow) (w : W) (c : go W (option error)) : Prop :=
  ∃ r w', c w = (Ret r, w') ∧ ktemplates w' = ktemplates w ∧ khardware w' = khardware w ∧
    (kworkflows w' =
       alter (set_wf_status (stored_status (wf_Status wf))) (workflow_key wf) (kworkflows w) ∨
     r ≠ None ∧ kworkflows w' = kworkflows w).
Definition writes_status `{KubeClient W} (wf : Workflow) (c : go W (option error)) : Prop :=
  ∀ w, writes_status_at wf w c.

Class KubeLaws (W : Type) `{KubeClient W} := {
  kworkflows_key w k wf : kworkflows w !! k = Some wf → workflow_key wf = k;
  kget_workflow_reads ns n : reads (kget_workflow ns n) (read_of kworkflows (ns, n));
  kget_template_reads ns n : reads (kget_template ns n) (read_of ktemplates (ns, n));
  kget_hardware_reads ns n : reads (kget_hardware ns n) (read_of khardware (ns, n));
  klist_workflows_reads ns f k :
    reads (klist_workflows ns f k) (λ w r, ∀ l, r = Ok l →
      l ≡ₚ filter (λ wf, om_Namespace (wf_Meta wf) = ns ∧ k ∈ f (OWorkflow wf))
             (map_to_list (kworkflows w)).*2);
  kupdate_status_writes wf : writes_status wf (kupdate_status wf);
  (** The status of the patched object becomes that of [wf] when the object was
      stored as [base]. *)
  kpatch_status_writes wf base w :
    kworkflows w !! workflow_key wf = Some base →
    writes_status_at wf w (kpatch_status wf base);
  nowFunc_reads : reads nowFunc (λ _ _, True)
}.

(** An API that fails only for objects that are not there. *)
Definition kube_reliable (W : Type) `{KubeClient W} : Prop :=
  (∀ ns n w e w', kget_workflow ns n w = (Ret (Err e), w') → err_is e KubeNotFound = true) ∧
  (∀ ns n w e w', kget_template ns n w = (Ret (Err e), w') → err_is e KubeNotFound = true) ∧
  (∀ ns n w e w', kget_hardware ns n w = (Ret (Err e), w') → err_is e KubeNotFound = true) ∧
  (∀ wf base w e w', kpatch_status wf base w ≠ (Ret (Some e), w')) ∧
  (∀ wf w e w', kupdate_status wf w ≠ (Ret (Some e), w')).

(** A clock that stands still during the run considered. *)
Definition frozen_clock (W : Type) `{KubeClient W} (now : Z) : Prop :=
  ∀ w, ∃ w', nowFunc w = (Ret now, w').

(** A read of an object that is there. *)
Lemma reliable_read {W A} `{KubeClient W} (view : W → gmap key A) (c : go W (result A)) k w a :
  reads c (read_of view k) →
  (∀ w e w', c w = (Ret (Err e), w') → err_is e KubeNotFound = true) →
  view w !! k = Some a →
  ∃ w', c w = (Ret (Ok a), w') ∧ same_cluster w w'.
Proof.
  intros Hc Hrel Hk. destruct (Hc w) as (r & w' & Hrun & Hs & Hr). exists w'.
  destruct r as [a'|e]; simpl in Hr; [by simplify_eq|].
  rewrite Hr in Hk by by eapply Hrel. done.
Qed.

(** ** An implementation in memory

    Call number [n] fails with the error the oracle gives for [n], and is not
    stored; call number [n] of the clock reads [clock n]. *)
Record memKube := {
  mk_workflows : gmap key Workflow;
  mk_keys : map_Forall (λ k wf, workflow_key wf = k) mk_workflows;
  mk_templates : gmap key Template;
  mk_hardware : gmap key Hardware;
  mk_tick : nat
}.

Definition mk_next (s : memKube) : memKube :=
  {| mk_workflows := mk_workflows s; mk_keys := mk_keys s; mk_templates := mk_templates s;
     mk_hardware := mk_hardware s; mk_tick := S (mk_tick s) |}.

Lemma mk_keys_alter (st : WorkflowStatus) (k : key) (m : gmap key Workflow) :
  map_Forall (λ k wf, workflow_key wf = k) m →
  map_Forall (λ k wf, workflow_key wf = k) (alter (set_wf_status st) k m).
Proof.
  intros Hm k' wf Hl. apply lookup_alter_Some in Hl as [(-> & w & Hl & ->)|[_ Hl]]; [|by apply Hm].
  by apply Hm in Hl.
Qed.

Section mem.
Context (faults : nat → option error) (clock : nat → Z).

Definition mem_get {A} (view : memKube → gmap key A) (ns n : string) : go memKube (result A) :=
  λ s, (Ret (match faults (mk_tick s) with
             | Some e => Err (ExtErr (err_string e))
             | None => match view s !! (ns, n) with Some a => Ok a | None => Err KubeNotFound end
             end), mk_next s).

Definition mem_list (ns : string) (f : Object → list string) (k : string)
    : go memKube (result (list Workflow)) :=
  λ s, (Ret (match faults (mk_tick s) with
             | Some e => Err e
             | None => Ok (filter (λ wf, om_Namespace (wf_Meta wf) = ns ∧ k ∈ f (OWorkflow wf))
                            (map_to_list (mk_workflows s)).*2)
             end), mk_next s).

Definition mem_write (wf : Workflow) : go memKube (option error) :=
  λ s, match faults (mk_tick s) with
       | Some e => (Ret (Some e), mk_next s)
       | None =>
           (Ret None,
            {| mk_workflows := alter (set_wf_status (stored_status (wf_Status wf)))
                                 (workflow_key wf) (mk_workflows s);
               mk_keys := mk_keys_alter _ _ _ (mk_keys s);
               mk_templates := mk_templates s; mk_hardware := mk_hardware s;
               mk_tick := S (mk_tick s) |})
       end.

#[local] Instance memKube_client : KubeClient memKube := {
  kworkflows := mk_workflows;
  ktemplates := mk_templates;
  khardware := mk_hardware;
  kget_workflow := mem_get mk_workflows;
  kget_template := mem_get mk_templates;
  kget_hardware := mem_get mk_hardware;
  klist_workflows := mem_list;
  kupdate_status := mem_write;
  kpatch_status wf _ := mem_write wf;
  nowFunc s := (Ret (clock (mk_tick s)), mk_next s)
}.

Lemma mem_get_reads {A} (view : memKube → gmap key A) ns n :
  reads (mem_get view ns n) (read_of view (ns, n)).
Proof.
  intros s. eexists _, _. split; [done|]. split; [done|]. unfold read_of.
  destruct (faults (mk_tick s)); [done|]. by destruct (view s !! (ns, n)).
Qed.

Lemma mem_write_writes wf : writes_status wf (mem_write wf).
Proof.
  intros s. unfold mem_write, writes_status_at. destruct (faults (mk_tick s));
    eexists _, _; (split; [done|]); split_and!; [done|done|by right|done|done|by left].
Qed.

#[local] Instance memKube_laws : KubeLaws memKube (H:=memKube_client).
Proof.
  split.
  - intros s k wf Hk. by apply (mk_keys s) in Hk.
  - intros. apply mem_get_reads.
  - intros. apply mem_get_reads.
  - intros. apply mem_get_reads.
  - intros ns f k s. eexists _, _. split; [done|]. split; [done|].
    intros l. destruct (faults (mk_tick s)); [done|]. by intros [= <-].
  - apply mem_write_writes.
  - intros wf base s _. apply mem_write_writes.
  - intros s. eexists _, _. done.
Qed.
End mem.

(** A cluster with one workflow, for the witnesses. *)
Lemma demo_keys st l :
  map_Forall (λ k wf, workflow_key wf = k)
    ({[ ("default", "wf1") := demo_workflow st l ]} : gmap key Workflow).
Proof. by apply map_Forall_singleton. Qed.

Definition demo_cluster (st : WorkflowState) (l : list Task) : memKube :=
  {| mk_workflows := {[ ("default", "wf1") := demo_workflow st l ]}; mk_keys := demo_keys st l;
     mk_templates := ∅; mk_hardware := ∅; mk_tick := 0 |}.

Definition no_faults (n : nat) : option error := None.
Definition demo_clock (n : nat) : Z := 1000 * second.
#[global] Instance demo_client : KubeClient memKube := memKube_client no_faults demo_clock.
#[global] Instance demo_laws : KubeLaws memKube := memKube_laws no_faults demo_clock.

Lemma demo_reliable : kube_reliable memKube.
Proof.
  split_and!; intros *; simpl; unfold mem_get, mem_write; simpl; try case_match;
    intros; by simplify_eq.
Qed.

Lemma demo_frozen : frozen_clock memKube (1000 * second).
Proof. intros w. by eexists. Qed.
