(* ===== verification/Service.v ===== *)
(** * Service: what the two backends of the workflow API share

    The messages of src/server/dbserver.go, server streams, and the part of the
    gRPC workflow service that a worker uses, as a class that the
    Kubernetes-backed and the database-backed server both instantiate. *)
From S2P Require Import Prelude Proto.
From stdpp Require Import options.

(** ** Messages (dbserver.go) *)
Definition errInvalidWorkerID := "invalid worker id".
Definition errInvalidWorkflowID := "invalid workflow id".
Definition errInvalidTaskName := "invalid task name".
Definition errInvalidActionName := "invalid action name".
Definition errInvalidTaskReported :=
  "reported task name does not match the current action details".
Definition errInvalidActionReported :=
  "reported action name does not match the current action details".
Definition errInvalidActionIndex := "invalid action index for workflow".

(** ** Server streams

    The state of a streaming handler is that of the server and the messages
    sent so far; the oracle gives the error of the [n]-th [Send]. *)
Definition stream_send {S M} (fails : nat → option error) (m : M) : go (S * list M) (option error) :=
  λ '(s, sent), match fails (length sent) with
                | Some e => (Ret (Some e), (s, sent))
                | None => (Ret None, (s, sent ++ [m]))
                end.

(** A call of the server from a streaming handler. *)
Definition on_server {S M A} (c : go S A) : go (S * list M) A := go_zoom fst (λ s t, (s, t.2)) c.

(** [for _, m := range l { if err := stream.Send(m); err != nil { return err } }]. *)
Fixpoint send_all {S M} (fails : nat → option error) (l : list M)
    : go (S * list M) (option error) :=
  match l with
  | [] => go_ret None
  | m :: l' =>
      go_bind (stream_send fails m) (λ r,
        match r with Some e => go_ret (Some e) | None => send_all fails l' end)
  end.

Lemma send_all_ok {S M} (l : list M) (s : S) sent :
  send_all (λ _, None) l (s, sent) = (Ret None, (s, sent ++ l)).
Proof.
  revert sent. induction l as [|m l IH]; intros sent; simpl; [by rewrite app_nil_r|].
  unfold go_bind. simpl. rewrite IH. by rewrite <- (assoc_L (++)).
Qed.

Lemma send_all_prefix {S M} fails (l : list M) (s : S) sent :
  ∃ k r, send_all fails l (s, sent) = (Ret r, (s, sent ++ take k l)) ∧
    (r = None → k = length l).
Proof.
  revert sent. induction l as [|m l IH]; intros sent; simpl.
  { exists 0%nat, None. by rewrite app_nil_r. }
  unfold go_bind, stream_send. destruct (fails (length sent)) as [e|].
  - exists 0%nat, (Some e). by rewrite app_nil_r.
  - destruct (IH (sent ++ [m])) as (k & r & -> & Hr). exists (Datatypes.S k), r.
    split; [by rewrite <- (assoc_L (++))|]. intros Hn. by rewrite (Hr Hn).
Qed.

(** ** The service *)
Class WorkflowService (S : Type) := {
  svc_GetWorkflowContexts :
    (nat → option error) → string → go (S * list WorkflowContext) (option error);
  svc_GetWorkflowActions : string → go S (result (list WorkflowAction));
  svc_ReportActionStatus : WorkflowActionStatus → go S (option error);
  svc_GetWorkflowData : GetWorkflowDataRequest → go S (GetWorkflowDataResponse * option error);
  svc_GetWorkflowMetadata :
    GetWorkflowDataRequest → go S (GetWorkflowDataResponse * option error);
  svc_UpdateWorkflowData : UpdateWorkflowDataRequest → go S (option error)
}.

(** ** Clients *)

(** A worker's reports in order, until one is refused. *)
Fixpoint run_reports {S} (report : WorkflowActionStatus → go S (option error))
    (l : list WorkflowActionStatus) : go S (option error) :=
  match l with
  | [] => go_ret None
  | req :: l' =>
      go_bind (report req) (λ r,
        match r with Some e => go_ret (Some e) | None => run_reports report l' end)
  end.

Lemma run_reports_cons {S} (report : WorkflowActionStatus → go S (option error)) req l s s1 :
  report req s = (Ret None, s1) → run_reports report (req :: l) s = run_reports report l s1.
Proof. intros H1. simpl. by rewrite (go_bind_Ret _ _ _ _ _ H1). Qed.
