(* ===== verification/K8sServer.v ===== *)
(** * K8sServer: the Kubernetes-backed workflow server
    (src/server/kubernetes_api_workflow.go, kubernetes_unimplemented.go)

    The handlers over any [KubeClient]. [namespace] is the field of the server,
    [nowFunc] comes with the client. Logging is left out. *)
From S2P Require Import Prelude Proto Crd Progress Convert Kube Service.
From stdpp Require Import options.

Definition getWorkflowContext (wf : Workflow) : WorkflowContext :=
  {| wc_WorkflowId := om_Name (wf_Meta wf);
     wc_CurrentWorker := GetCurrentWorker wf;
     wc_CurrentTask := GetCurrentTask wf;
     wc_CurrentAction := GetCurrentAction wf;
     wc_CurrentActionIndex := GetCurrentActionIndex wf;
     wc_CurrentActionState := state_value_of (GetCurrentActionState wf);
     wc_TotalNumberOfActions := GetTotalNumberOfActions wf |}.

(** The nested loops of [modifyWorkflowState]: the inner one looks for the
    action by its name and its index in the task; leaving both with [goto]. *)
Fixpoint find_action (ctx : WorkflowContext) (ai : Z) (l : list Action) : option Z :=
  match l with
  | [] => None
  | action :: l' =>
      if decide (ac_Name action = wc_CurrentAction ctx ∧ wc_CurrentActionIndex ctx = ai)
      then Some ai else find_action ctx (ai + 1) l'
  end.

Fixpoint find_task (ctx : WorkflowContext) (ti : Z) (l : list Task) (taskIndex : Z) : Z * Z :=
  match l with
  | [] => (taskIndex, -1)
  | task :: l' =>
      if decide (wc_CurrentTask ctx = tk_Name task) then
        match find_action ctx 0 (tk_Actions task) with
        | Some ai => (ti, ai)
        | None => find_task ctx (ti + 1) l' ti
        end
      else find_task ctx (ti + 1) l' taskIndex
  end.

Section server.
Context {W : Type} `{KC : KubeClient W} `{MR : MapRange}.
Context (namespace : string).
#[local] Open Scope go_scope.

(** The [Seconds] of an action that has a start time. *)
Definition record_seconds (ti ai : nat) (wf : Workflow) : go W Workflow :=
  match action_at ti ai wf ≫= ac_StartedAt with
  | Some t0 =>
      let* now := nowFunc in
      go_ret (upd_action (set_seconds (dur_seconds (time_sub now t0))) ti ai wf)
  | None => go_ret wf
  end.

(** The workflow as [modifyWorkflowState] leaves it, or its error (the caller
    then drops the workflow). *)
Definition modifyWorkflowState (wf : option Workflow) (wfContext : option WorkflowContext)
    : go W (result Workflow) :=
  match wf, wfContext with
  | None, _ => go_ret (Err (NewErr "no workflow provided"))
  | _, None => go_ret (Err (NewErr "no workflow context provided"))
  | Some wf, Some ctx =>
      let '(taskIndex, actionIndex) := find_task ctx 0 (st_Tasks (wf_Status wf)) (-1) in
      if decide (taskIndex < 0) then go_ret (Err (NewErr "task not found"))
      else if decide (actionIndex < 0) then go_ret (Err (NewErr "action not found"))
      else
        let ti := Z.to_nat taskIndex in
        let ai := Z.to_nat actionIndex in
        let name := state_name_of (wc_CurrentActionState ctx) in
        let wf := upd_action (set_status name) ti ai wf in
        if decide (wc_CurrentActionState ctx = State_STATE_RUNNING) then
          let* now := nowFunc in
          go_ret (Ok (upd_action (set_started (Some now)) ti ai (upd_state name wf)))
        else if decide (wc_CurrentActionState ctx = State_STATE_FAILED ∨
                        wc_CurrentActionState ctx = State_STATE_TIMEOUT) then
          let* wf := record_seconds ti ai (upd_state name wf) in
          go_ret (Ok wf)
        else if decide (wc_CurrentActionState ctx = State_STATE_SUCCESS) then
          let* wf := record_seconds ti ai wf in
          if decide (wrap64 (wc_CurrentActionIndex ctx + 1) = wc_TotalNumberOfActions ctx)
          then go_ret (Ok (upd_state name wf))
          else go_ret (Ok wf)
        else if decide (wc_CurrentActionState ctx = State_STATE_PENDING) then
          go_ret (Err (NewErr "no update requested"))
        else go_ret (Ok wf)
  end.

(** The loop that keeps the workflows whose current task is the worker's;
    indexing a workflow without tasks panics. *)
Fixpoint current_for_worker (workerID : string) (l : list Workflow) : go W (list Workflow) :=
  match l with
  | [] => go_ret []
  | wf :: l' =>
      let* task := go_index (st_Tasks (wf_Status wf)) (GetCurrentTaskIndex wf) in
      let* wfs := current_for_worker workerID l' in
      go_ret (if decide (tk_WorkerAddr task = workerID) then wf :: wfs else wfs)
  end.

Definition getCurrentAssignedNonTerminalWorkflowsForWorker (workerID : string)
    : go W (result (list Workflow)) :=
  try stored := klist_workflows namespace WorkflowWorkerNonTerminalStateIndexFunc workerID
    onerr Err in
  let* wfs := current_for_worker workerID stored in
  go_ret (Ok wfs).

Definition getWorkflowByName (workflowID ns : string) : go W (result Workflow) :=
  kget_workflow ns workflowID.

Definition GetWorkflowContexts (fails : nat → option error) (workerId : string)
    : go (W * list WorkflowContext) (option error) :=
  if decide (workerId = "") then go_ret (Some (StatusErr InvalidArgument errInvalidWorkflowID))
  else
    try wflows := on_server (getCurrentAssignedNonTerminalWorkflowsForWorker workerId)
      onerr Some in
    send_all fails (getWorkflowContext <$> wflows).

Definition GetWorkflowActions (wfID : string) : go W (result (list WorkflowAction)) :=
  if decide (wfID = "") then go_ret (Err (StatusErr InvalidArgument errInvalidWorkflowID))
  else
    try wf := getWorkflowByName wfID namespace onerr Err in
    go_ret (Ok (default [] (WorkflowActionListCRDToProto deepcopy_cap (Some wf)))).

Definition validateActionStatusRequest (req : WorkflowActionStatus) : option error :=
  if decide (ws_WorkflowId req = "") then Some (StatusErr InvalidArgument errInvalidWorkflowID)
  else if decide (ws_TaskName req = "") then Some (StatusErr InvalidArgument errInvalidTaskName)
  else if decide (ws_ActionName req = "") then
    Some (StatusErr InvalidArgument errInvalidActionName)
  else None.

Definition getWorkflowContextForRequest (req : WorkflowActionStatus) (wf : Workflow)
    : WorkflowContext :=
  let c := getWorkflowContext wf in
  {| wc_WorkflowId := wc_WorkflowId c;
     wc_CurrentWorker := ws_WorkerId req;
     wc_CurrentTask := ws_TaskName req;
     wc_CurrentAction := wc_CurrentAction c;
     wc_CurrentActionIndex := GetCurrentActionIndex wf;
     wc_CurrentActionState := ws_ActionStatus req;
     wc_TotalNumberOfActions := wc_TotalNumberOfActions c |}.

(** What a report makes of the workflow that was read: the checks of
    [ReportActionStatus] and the change that is to be written. *)
Definition report_workflow (req : WorkflowActionStatus) (wf : Workflow) : go W (result Workflow) :=
  if decide (ws_TaskName req ≠ GetCurrentTask wf) then
    go_ret (Err (StatusErr InvalidArgument errInvalidTaskReported))
  else if decide (ws_ActionName req ≠ GetCurrentAction wf) then
    go_ret (Err (StatusErr InvalidArgument errInvalidActionReported))
  else
    let wfContext := getWorkflowContextForRequest req wf in
    try wf := modifyWorkflowState (Some wf) (Some wfContext)
      onerr (λ _, Err (StatusErr InvalidArgument errInvalidWorkflowID)) in
    go_ret (Ok wf).

Definition ReportActionStatus (req : WorkflowActionStatus) : go W (option error) :=
  match validateActionStatusRequest req with
  | Some e => go_ret (Some e)
  | None =>
      try wf := getWorkflowByName (ws_WorkflowId req) namespace
        onerr (λ _, Some (StatusErr InvalidArgument errInvalidWorkflowID)) in
      try wf := report_workflow req wf onerr Some in
      let* err := kupdate_status wf in
      match err with
      | Some _ => go_ret (Some (StatusErr InvalidArgument errInvalidWorkflowID))
      | None => go_ret None
      end
  end.

(** Deprecated calls, answered with empty values. *)
Definition GetWorkflowData (req : GetWorkflowDataRequest)
    : go W (GetWorkflowDataResponse * option error) :=
  go_ret ({| gr_Data := ""; gr_Version := 0 |}, None).
Definition UpdateWorkflowData (req : UpdateWorkflowDataRequest) : go W (option error) :=
  go_ret None.

(** kubernetes_unimplemented.go: each returns [errNotImplemented]. *)
Definition errNotImplemented : error := NewErr "not implemented".
Definition CreateWorkflow (template hardware : string) : go W (result string) :=
  go_ret (Err errNotImplemented).
Definition GetWorkflow (id : string) : go W (result PbWorkflow) := go_ret (Err errNotImplemented).
Definition DeleteWorkflow (id : string) : go W (option error) := go_ret (Some errNotImplemented).
Definition ListWorkflows : go (W * list PbWorkflow) (option error) :=
  go_ret (Some errNotImplemented).
Definition ShowWorkflowEvents (id : string) : go (W * list WorkflowActionStatus) (option error) :=
  go_ret (Some errNotImplemented).
Definition GetWorkflowContext (id : string) : go W (result WorkflowContext) :=
  go_ret (Err errNotImplemented).
Definition GetWorkflowContextList (id : string) : go W (result (list WorkflowContext)) :=
  go_ret (Err errNotImplemented).
Definition GetWorkflowMetadata (req : GetWorkflowDataRequest)
    : go W (GetWorkflowDataResponse * option error) :=
  go_ret ({| gr_Data := ""; gr_Version := 0 |}, Some errNotImplemented).
Definition GetWorkflowDataVersion (req : GetWorkflowDataRequest)
    : go W (GetWorkflowDataResponse * option error) :=
  go_ret ({| gr_Data := ""; gr_Version := 0 |}, Some errNotImplemented).

#[global] Instance k8s_service : WorkflowService W | 100 := {
  svc_GetWorkflowContexts := GetWorkflowContexts;
  svc_GetWorkflowActions := GetWorkflowActions;
  svc_ReportActionStatus := ReportActionStatus;
  svc_GetWorkflowData := GetWorkflowData;
  svc_GetWorkflowMetadata := GetWorkflowMetadata;
  svc_UpdateWorkflowData := UpdateWorkflowData
}.
End server.

(** ** The search for the reported action *)
Lemma find_action_Some ctx k l z :
  find_action ctx (Z.of_nat k) l = Some z →
  ∃ i a, l !! i = Some a ∧ ac_Name a = wc_CurrentAction ctx ∧
    z = Z.of_nat (k + i) ∧ wc_CurrentActionIndex ctx = z.
Proof.
  revert k. induction l as [|a l IH]; intros k H; simpl in H; [done|].
  case_decide as Hd.
  - simplify_eq. exists 0%nat, a. rewrite Nat.add_0_r. naive_solver.
  - replace (Z.of_nat k + 1) with (Z.of_nat (S k)) in H by lia.
    apply IH in H as (i & a' & Hi & Hn & -> & Hz). exists (S i), a'.
    split_and!; [done|done|lia|]. rewrite Hz. lia.
Qed.

Lemma find_action_hit ctx k l i a :
  l !! i = Some a → ac_Name a = wc_CurrentAction ctx → wc_CurrentActionIndex ctx = Z.of_nat (k + i) →
  find_action ctx (Z.of_nat k) l = Some (Z.of_nat (k + i)).
Proof.
  revert k i. induction l as [|a' l IH]; intros k i Hl Hn Hi; [done|]. simpl.
  destruct i as [|i]; simpl in Hl.
  - simplify_eq. rewrite decide_True; [f_equal; lia|]. split; [done|lia].
  - rewrite decide_False by lia. replace (Z.of_nat k + 1) with (Z.of_nat (S k)) by lia.
    rewrite (IH (S k) i); [f_equal; lia|done|done|lia].
Qed.

Lemma find_task_notin ctx k l d :
  wc_CurrentTask ctx ∉ tk_Name <$> l → find_task ctx k l d = (d, -1).
Proof.
  revert k d. induction l as [|t l IH]; intros k d Hn; [done|]. csimpl in *.
  rewrite decide_False by set_solver. apply IH. set_solver.
Qed.

Lemma find_task_at ctx k l d ti t :
  NoDup (tk_Name <$> l) → l !! ti = Some t → wc_CurrentTask ctx = tk_Name t →
  find_task ctx (Z.of_nat k) l d =
    (Z.of_nat (k + ti), default (-1) (find_action ctx 0 (tk_Actions t))).
Proof.
  revert k d ti. induction l as [|t' l IH]; intros k d ti Hnd Hl Hn; [done|].
  csimpl in *. inversion_clear Hnd as [|?? Hni Hnd']. destruct ti as [|ti]; simpl in Hl.
  - simplify_eq. rewrite decide_True by done. rewrite Nat.add_0_r.
    destruct (find_action ctx 0 (tk_Actions t)); [done|]. apply find_task_notin. congruence.
  - rewrite decide_False.
    2:{ rewrite Hn. intros Heq. apply Hni. rewrite <- Heq.
        apply list_elem_of_fmap_2. by eapply list_elem_of_lookup_2. }
    replace (Z.of_nat k + 1) with (Z.of_nat (S k)) by lia. rewrite (IH _ _ ti) by done.
    f_equal. lia.
Qed.

(** For the current action the search succeeds exactly when its position in its
    task equals its position in the workflow. *)
Lemma find_current ctx w i x :
  names_ok w → statuses_known w → current_slot w = Some (i, x) →
  wc_CurrentTask ctx = GetCurrentTask w → wc_CurrentAction ctx = GetCurrentAction w →
  wc_CurrentActionIndex ctx = GetCurrentActionIndex w →
  find_task ctx 0 (st_Tasks (wf_Status w)) (-1) =
    (Z.of_nat (sl_ti x), if decide (sl_ai x = i) then Z.of_nat i else -1).
Proof.
  intros [Hnt Hna] Hk Hc Ht Ha Hi. rewrite (current_index w i x) in Hi by done.
  pose proof (current_slot_lookup _ _ _ Hc) as Hx.
  apply list_elem_of_lookup_2, elem_of_slots in Hx as [Hlt Hla].
  unfold GetCurrentTask, GetCurrentAction in *. rewrite getTaskActionInfo_current, Hc in *.
  simpl in Ht, Ha. rewrite (find_task_at ctx 0 _ _ (sl_ti x) (sl_task x)) by done. f_equal.
  case_decide as Hd.
  - subst i. by rewrite (find_action_hit ctx 0 _ (sl_ai x) (sl_action x)).
  - destruct (find_action ctx 0 _) as [z|] eqn:E; [|done]. exfalso. apply Hd.
    apply (find_action_Some ctx 0) in E as (j & a & Hj & Hn & -> & Hz).
    assert (i = j) as -> by lia.
    rewrite Forall_forall in Hna. specialize (Hna (sl_task x)).
    eapply (NoDup_lookup _ _ _ (ac_Name (sl_action x)));
      [apply Hna; by eapply list_elem_of_lookup_2| |].
    + by rewrite list_lookup_fmap, Hla.
    + rewrite list_lookup_fmap, Hj. simpl. congruence.
Qed.

(** ** What an accepted report writes *)

(** A rewriting of one action that sets the status, the start time of an action
    that starts and the seconds of one that ends, and nothing else. *)
Definition reported (s : State) (f : Action → Action) : Prop :=
  ∀ a, ∃ t n, f a = set_status (state_name_of s) (set_started t (set_seconds n a)) ∧
    (if decide (s = State_STATE_RUNNING) then is_Some t ∧ n = ac_Seconds a
     else t = ac_StartedAt a).

(** The workflow state after a report. *)
Definition new_state (ctx : WorkflowContext) (wf : Workflow) : WorkflowState :=
  let s := wc_CurrentActionState ctx in
  if decide (s = State_STATE_RUNNING ∨ s = State_STATE_FAILED ∨ s = State_STATE_TIMEOUT ∨
             (s = State_STATE_SUCCESS ∧
              wrap64 (wc_CurrentActionIndex ctx + 1) = wc_TotalNumberOfActions ctx))
  then state_name_of s else st_State (wf_Status wf).

Lemma reported_status s f a : reported s f → ac_Status (f a) = state_name_of s.
Proof. intros H. by destruct (H a) as (t & n & -> & _). Qed.
Lemma reported_name s f a : reported s f → ac_Name (f a) = ac_Name a.
Proof. intros H. by destruct (H a) as (t & n & -> & _). Qed.

Lemma set_action_eta a :
  set_started (ac_StartedAt a) (set_seconds (ac_Seconds a) a) = a.
Proof. by destruct a. Qed.

Lemma reported_set_status s :
  s ≠ State_STATE_RUNNING → reported s (set_status (state_name_of s)).
Proof.
  intros Hs a. exists (ac_StartedAt a), (ac_Seconds a). rewrite set_action_eta.
  by rewrite decide_False.
Qed.

Lemma reported_set_seconds s n :
  s ≠ State_STATE_RUNNING → reported s (set_seconds n ∘ set_status (state_name_of s)).
Proof.
  intros Hs a. exists (ac_StartedAt a), n. rewrite decide_False by done. by destruct a.
Qed.

Section lemmas.
#[local] Set Default Proof Using "Type*".
Context {W : Type} `{KL : KubeLaws W} `{MR : MapRange}.
Context (namespace : string).

Lemma record_seconds_spec s ti ai wf w :
  s ≠ State_STATE_RUNNING →
  ∃ f w', record_seconds ti ai (upd_action (set_status (state_name_of s)) ti ai wf) w =
    (Ret (upd_action f ti ai wf), w') ∧ same_cluster w w' ∧ reported s f.
Proof.
  intros Hs. unfold record_seconds. destruct (_ ≫= ac_StartedAt) as [t0|].
  - destruct (nowFunc_reads w) as (now & w' & Hnow & Hsame & _).
    rewrite (go_bind_Ret _ _ _ _ _ Hnow), upd_action_upd_action. unfold go_ret.
    eexists _, _. split; [done|]. split; [done|]. by apply reported_set_seconds.
  - eexists _, _. split; [done|]. split; [done|]. by apply reported_set_status.
Qed.

(** [modifyWorkflowState] never panics; it fails when the action is not found
    or the status is pending and otherwise rewrites that action and the state. *)
Lemma modify_spec wf ctx w :
  ∃ r w', modifyWorkflowState (Some wf) (Some ctx) w = (Ret r, w') ∧ same_cluster w w' ∧
    let p := find_task ctx 0 (st_Tasks (wf_Status wf)) (-1) in
    let s := wc_CurrentActionState ctx in
    match r with
    | Ok wf' => 0 ≤ p.1 ∧ 0 ≤ p.2 ∧ s ≠ State_STATE_PENDING ∧ ∃ f, reported s f ∧
        wf' = upd_state (new_state ctx wf) (upd_action f (Z.to_nat p.1) (Z.to_nat p.2) wf)
    | Err _ => p.1 < 0 ∨ p.2 < 0 ∨ s = State_STATE_PENDING
    end.
Proof.
  unfold modifyWorkflowState, new_state.
  destruct (find_task ctx 0 (st_Tasks (wf_Status wf)) (-1)) as [tz az]. simpl.
  case_decide; [eexists _, _; split; [done|]; split; [done|]; by left|].
  case_decide; [eexists _, _; split; [done|]; split; [done|]; by right; left|].
  set (s := wc_CurrentActionState ctx). set (ti := Z.to_nat tz). set (ai := Z.to_nat az).
  case_decide as Hr.
  { destruct (nowFunc_reads w) as (now & w' & Hnow & Hsame & _).
    rewrite (go_bind_Ret _ _ _ _ _ Hnow), upd_action_upd_state, upd_action_upd_action.
    eexists _, _. split; [done|]. split; [done|]. rewrite (decide_True (P:=_ ∨ _)) by tauto.
    split_and!; [lia..|by rewrite Hr|]. eexists. split; [|done]. intros a.
    exists (Some now), (ac_Seconds a). rewrite decide_True by done. by destruct a. }
  case_decide as Hf.
  { rewrite <- upd_action_upd_state.
    destruct (record_seconds_spec s ti ai (upd_state (state_name_of s) wf) w Hr)
      as (f & w' & Hrec & Hsame & Hrep).
    rewrite (go_bind_Ret _ _ _ _ _ Hrec), upd_action_upd_state.
    eexists _, _. split; [done|]. split; [done|]. rewrite (decide_True (P:=_ ∨ _)) by tauto.
    split_and!; [lia..|by destruct Hf as [-> | ->]|]. by exists f. }
  case_decide as Hs.
  { destruct (record_seconds_spec s ti ai wf w Hr) as (f & w' & Hrec & Hsame & Hrep).
    rewrite (go_bind_Ret _ _ _ _ _ Hrec). case_decide as Hlast.
    - eexists _, _. split; [done|]. split; [done|]. rewrite (decide_True (P:=_ ∨ _)) by tauto.
      split_and!; [lia..|by rewrite Hs|]. by exists f.
    - eexists _, _. split; [done|]. split; [done|]. rewrite (decide_False (P:=_ ∨ _)) by tauto.
      split_and!; [lia..|by rewrite Hs|]. exists f. split; [done|]. symmetry.
      apply (upd_state_same (upd_action f ti ai wf)). }
  case_decide as Hp; [eexists _, _; split; [done|]; split; [done|]; by right; right|].
  eexists _, _. split; [done|]. split; [done|]. rewrite (decide_False (P:=_ ∨ _)) by tauto.
  split_and!; [lia..|done|]. eexists. split; [by apply reported_set_status|].
  symmetry. apply (upd_state_same (upd_action _ ti ai wf)).
Qed.

(** Why a report on the stored workflow [wf] is refused by the handler. *)
Definition refused (req : WorkflowActionStatus) (wf : Workflow) : Prop :=
  let p := find_task (getWorkflowContextForRequest req wf) 0 (st_Tasks (wf_Status wf)) (-1) in
  ws_TaskName req ≠ GetCurrentTask wf ∨ ws_ActionName req ≠ GetCurrentAction wf ∨
  p.1 < 0 ∨ p.2 < 0 ∨ ws_ActionStatus req = State_STATE_PENDING.

(** The change a report makes of a workflow. *)
Definition reports (req : WorkflowActionStatus) (wf wf1 : Workflow) : Prop :=
  let ctx := getWorkflowContextForRequest req wf in
  let p := find_task ctx 0 (st_Tasks (wf_Status wf)) (-1) in
  ¬ refused req wf ∧ ∃ f, reported (ws_ActionStatus req) f ∧
    wf1 = upd_state (new_state ctx wf) (upd_action f (Z.to_nat p.1) (Z.to_nat p.2) wf).

(** The stored workflow after an accepted report. *)
Definition accepted (req : WorkflowActionStatus) (wf wf' : Workflow) : Prop :=
  let ctx := getWorkflowContextForRequest req wf in
  let p := find_task ctx 0 (st_Tasks (wf_Status wf)) (-1) in
  ¬ refused req wf ∧ ∃ f, reported (ws_ActionStatus req) f ∧
    wf' = set_wf_status (stored_status (wf_Status (upd_state (new_state ctx wf)
            (upd_action f (Z.to_nat p.1) (Z.to_nat p.2) wf)))) wf.

(** Storing the change of a report. *)
Lemma reports_accepted req wf wf1 :
  reports req wf wf1 → accepted req wf (set_wf_status (stored_status (wf_Status wf1)) wf).
Proof. intros (Hn & f & Hf & ->). split; [done|]. by exists f. Qed.
Lemma reports_key req wf wf1 : reports req wf wf1 → workflow_key wf1 = workflow_key wf.
Proof. by intros (_ & f & _ & ->). Qed.

(** The read of the handler failed. *)
Definition read_failed (id : string) (w : W) : Prop :=
  ∃ e w', kget_workflow namespace id w = (Ret (Err e), w').

(** The checks and the change of a report. *)
Lemma report_workflow_spec req wf w :
  ∃ r w', report_workflow req wf w = (Ret r, w') ∧ same_cluster w w' ∧
    match r with
    | Ok wf1 => reports req wf wf1
    | Err _ => refused req wf
    end.
Proof.
  unfold report_workflow, refused.
  case_decide; [eexists _, _; split; [done|]; split; [done|]; by left|].
  case_decide; [eexists _, _; split; [done|]; split; [done|]; right; by left|].
  destruct (modify_spec wf (getWorkflowContextForRequest req wf) w) as (rm & w2 & Hm & Hs & Hrm).
  rewrite (go_try_Ret _ _ _ _ _ _ Hm). simpl in Hrm. destruct rm as [wf1|e].
  2:{ eexists _, _. split; [done|]. split; [done|]. tauto. }
  destruct Hrm as (Hp1 & Hp2 & Hnp & f & Hf & Hwf1).
  eexists _, _. split; [done|]. split; [done|]. split; [|by exists f].
  intros [?|[?|[?|[?|?]]]]; [done|done|lia|lia|done].
Qed.

Lemma report_spec req w :
  ∃ r w', ReportActionStatus namespace req w = (Ret r, w') ∧
    ktemplates w' = ktemplates w ∧ khardware w' = khardware w ∧
    match r with
    | None => ∃ wf wf', kworkflows w !! (namespace, ws_WorkflowId req) = Some wf ∧
        validateActionStatusRequest req = None ∧ accepted req wf wf' ∧
        kworkflows w' = <[(namespace, ws_WorkflowId req) := wf']> (kworkflows w)
    | Some e =>
        (kworkflows w' = kworkflows w ∧
         (validateActionStatusRequest req = Some e ∨ read_failed (ws_WorkflowId req) w ∨
          ∃ wf, kworkflows w !! (namespace, ws_WorkflowId req) = Some wf ∧ refused req wf)) ∨
        ∃ wf wf1 w1 e', kworkflows w !! (namespace, ws_WorkflowId req) = Some wf ∧
          validateActionStatusRequest req = None ∧ reports req wf wf1 ∧
          same_cluster w w1 ∧ kupdate_status wf1 w1 = (Ret (Some e'), w')
    end.
Proof.
  unfold ReportActionStatus, getWorkflowByName.
  destruct (validateActionStatusRequest req) as [e|] eqn:Hv; [eexists _, _; naive_solver|].
  destruct (kget_workflow_reads namespace (ws_WorkflowId req) w)
    as (r & w1 & Hget & (Hw1 & Ht1 & Hh1) & Hr).
  rewrite (go_try_Ret _ _ _ _ _ _ Hget). destruct r as [wf|e]; simpl in Hr.
  2:{ eexists _, _. split; [done|]. split_and!; [done|done|]. left. split; [done|].
      right; left. by eexists _, _. }
  destruct (report_workflow_spec req wf w1) as (rm & w2 & Hm & (Hw2 & Ht2 & Hh2) & Hrm).
  rewrite (go_try_Ret _ _ _ _ _ _ Hm). destruct rm as [wf1|e].
  2:{ eexists _, _. split; [done|]. split_and!; [congruence..|]. left. split; [congruence|].
      right; right. by exists wf. }
  destruct (kupdate_status_writes wf1 w2) as (ru & w3 & Hu & Ht3 & Hh3 & Hw3).
  rewrite (go_bind_Ret _ _ _ _ _ Hu). destruct ru as [e|].
  { eexists _, _. split; [done|]. split_and!; [congruence..|]. right.
    exists wf, wf1, w2, e. by split_and!; [| | |unfold same_cluster; split_and!; congruence|]. }
  destruct Hw3 as [Hw3|[? _]]; [|done].
  eexists _, _. split; [done|]. split_and!; [congruence..|]. eexists wf, _. split; [done|].
  split; [done|]. split; [by apply reports_accepted|].
  rewrite Hw3, (reports_key _ _ _ Hrm), (kworkflows_key _ _ _ Hr), Hw2, Hw1.
  by apply alter_status_insert.
Qed.
End lemmas.

(** ** The workflows of a worker *)
Definition assigned (ns workerID : string) (wf : Workflow) : bool :=
  bool_decide (om_Namespace (wf_Meta wf) = ns) &&
  (bool_decide (st_State (wf_Status wf) = WorkflowStateRunning) ||
   bool_decide (st_State (wf_Status wf) = WorkflowStatePending)) &&
  bool_decide (tk_WorkerAddr <$> zlookup (st_Tasks (wf_Status wf)) (GetCurrentTaskIndex wf) =
               Some workerID).

Lemma task_index_in_range wf :
  st_Tasks (wf_Status wf) ≠ [] →
  ∃ t, zlookup (st_Tasks (wf_Status wf)) (GetCurrentTaskIndex wf) = Some t.
Proof.
  intros Hne. unfold GetCurrentTaskIndex. rewrite getTaskActionInfo_current.
  destruct (current_slot wf) as [[i x]|] eqn:Hc; simpl.
  - apply current_slot_lookup, list_elem_of_lookup_2, elem_of_slots in Hc as [Hl _].
    rewrite zlookup_of_nat. eauto.
  - destruct (st_Tasks (wf_Status wf)) as [|t l]; [done|]. exists t. done.
Qed.

Section context_lemmas.
#[local] Set Default Proof Using "Type*".
Context {W : Type} `{KL : KubeLaws W}.

Lemma current_for_worker_spec workerID l (w : W) :
  Forall (λ wf, st_Tasks (wf_Status wf) ≠ []) l →
  current_for_worker workerID l w =
    (Ret (filter (λ wf, tk_WorkerAddr <$> zlookup (st_Tasks (wf_Status wf))
                          (GetCurrentTaskIndex wf) = Some workerID) l), w).
Proof.
  induction 1 as [|wf l Hne _ IH]; [done|]. simpl.
  destruct (task_index_in_range wf Hne) as [t Ht]. unfold go_index. rewrite Ht.
  unfold go_bind at 1, go_ret at 1. rewrite (go_bind_Ret _ _ _ _ _ IH). unfold go_ret.
  destruct (decide (tk_WorkerAddr t = workerID)) as [Heq|Hneq].
  - rewrite filter_cons_True; [done|]. rewrite Ht. simpl. by rewrite Heq.
  - rewrite filter_cons_False; [done|]. rewrite Ht. simpl. congruence.
Qed.

Lemma assigned_spec ns workerID wf :
  workerID ≠ "" →
  assigned ns workerID wf = true ↔
  tk_WorkerAddr <$> zlookup (st_Tasks (wf_Status wf)) (GetCurrentTaskIndex wf) = Some workerID ∧
  om_Namespace (wf_Meta wf) = ns ∧
  workerID ∈ WorkflowWorkerNonTerminalStateIndexFunc (OWorkflow wf).
Proof.
  intros Hne. rewrite elem_of_nonterminal. unfold assigned.
  rewrite !andb_true_iff, orb_true_iff, !bool_decide_eq_true. split.
  - intros [[Hns Hst] Hw]. split_and!; [done..|]. 
    apply fmap_Some in Hw as (t & Ht & ->). exists t. split; [|done].
    apply zlookup_Some in Ht as [_ Ht]. by eapply list_elem_of_lookup_2.
  - tauto.
Qed.
End context_lemmas.

(** ** Properties *)
Lemma known_state_status s : known_state s → known_status (state_name_of s).
Proof.
  unfold known_state. intros Hs.
  assert (s = 0 ∨ s = 1 ∨ s = 2 ∨ s = 3 ∨ s = 4) as Hc by lia.
  destruct Hc as [->|[->|[->|[->| ->]]]]; apply (bool_decide_unpack _); vm_compute; exact I.
Qed.

Lemma validated_task_name req : validateActionStatusRequest req = None → ws_TaskName req ≠ "".
Proof. unfold validateActionStatusRequest. intros H. by repeat case_decide. Qed.

Section report_lemmas.
#[local] Set Default Proof Using "Type*".
Context {W : Type} `{KL : KubeLaws W} `{MR : MapRange}.
Context (namespace : string).

(** What a report on the current action, the [i]-th, makes of a workflow. *)
Definition report_done (req : WorkflowActionStatus) (wf : Workflow) (i : nat) (wf' : Workflow) : Prop :=
  let st := ws_ActionStatus req in
  wf_Meta wf' = wf_Meta wf ∧ wf_Spec wf' = wf_Spec wf ∧ shape wf' = shape wf ∧
  statuses wf' = <[i := state_name_of st]> (statuses wf) ∧
  st_State (wf_Status wf') =
    (if decide (st = State_STATE_RUNNING ∨ st = State_STATE_FAILED ∨ st = State_STATE_TIMEOUT ∨
                (st = State_STATE_SUCCESS ∧ S i = length (slots wf)))
     then state_name_of st else st_State (wf_Status wf)).

Lemma report_done_stored req wf i wf1 :
  report_done req wf i wf1 →
  report_done req wf i (set_wf_status (stored_status (wf_Status wf1)) wf).
Proof.
  intros (Hm & Hs & Hsh & Hst & Hstate). split_and!; [done|done| | |done].
  - by rewrite shape_stored.
  - unfold statuses in *. simpl. by rewrite tasks_statuses_stored.
Qed.

(** A report on the current action, which no action of an earlier task precedes. *)
Section current_report.
Context (req : WorkflowActionStatus) (wf : Workflow) (i : nat) (x : slot).
Context (Hp : progress wf) (Hc : current_slot wf = Some (i, x)) (Hai : sl_ai x = i).
Context (Hlen : Z.of_nat (length (slots wf)) < 2 ^ 63).
Context (Ht : ws_TaskName req = tk_Name (sl_task x)) (Ha : ws_ActionName req = ac_Name (sl_action x)).

Lemma current_found :
  GetCurrentTask wf = ws_TaskName req ∧ GetCurrentAction wf = ws_ActionName req ∧
  find_task (getWorkflowContextForRequest req wf) 0 (st_Tasks (wf_Status wf)) (-1) =
    (Z.of_nat (sl_ti x), Z.of_nat i).
Proof.
  assert (statuses_known wf) as Hkn by apply statuses_known_statuses, Hp.
  assert (GetCurrentTask wf = tk_Name (sl_task x) ∧ GetCurrentAction wf = ac_Name (sl_action x))
    as [Hct Hca].
  { unfold GetCurrentTask, GetCurrentAction. by rewrite getTaskActionInfo_current, Hc. }
  split_and!; [congruence..|].
  rewrite (find_current (getWorkflowContextForRequest req wf) wf i x (proj2 Hp) Hkn Hc
    ltac:(simpl; congruence) eq_refl eq_refl).
  by rewrite decide_True by done.
Qed.

Lemma current_refused : refused req wf → ws_ActionStatus req = State_STATE_PENDING.
Proof.
  destruct current_found as (Hct & Hca & Hfind). unfold refused. rewrite Hfind. simpl.
  intros [?|[?|[?|[?|?]]]]; [congruence|congruence|lia|lia|done].
Qed.

Lemma reports_done wf1 : reports req wf wf1 → report_done req wf i wf1.
Proof.
  destruct current_found as (_ & _ & Hfind). intros (_ & f & Hf & ->). rewrite Hfind. simpl.
  rewrite !Nat2Z.id. pose proof (current_slot_lookup _ _ _ Hc) as Hx.
  pose proof (lookup_lt_Some _ _ _ Hx) as Hlt. split_and!; [done|done| | |].
  - apply (shape_upd_action f). intros a. by eapply reported_name.
  - rewrite <- (reported_status _ f (sl_action x) Hf).
    change (statuses (upd_state ?s ?w)) with (statuses w).
    rewrite <- (statuses_upd_action f wf i x Hx). by rewrite Hai.
  - simpl. unfold new_state. simpl.
    rewrite (current_index wf i x (proj2 (statuses_known_statuses wf) (proj1 (proj1 Hp))) Hc).
    assert (GetTotalNumberOfActions wf = Z.of_nat (length (slots wf))) as ->.
    { unfold GetTotalNumberOfActions. by rewrite getTaskActionInfo_current, Hc. }
    rewrite wrap64_id by (unfold in_int64; lia).
    assert (Z.of_nat i + 1 = Z.of_nat (length (slots wf)) ↔ S i = length (slots wf)) as E by lia.
    repeat case_decide; (done || naive_solver).
Qed.
End current_report.

Lemma report_effect req wf i x w :
  kworkflows w !! (namespace, ws_WorkflowId req) = Some wf →
  progress wf → current_slot wf = Some (i, x) → sl_ai x = i →
  Z.of_nat (length (slots wf)) < 2 ^ 63 →
  validateActionStatusRequest req = None →
  ws_TaskName req = tk_Name (sl_task x) → ws_ActionName req = ac_Name (sl_action x) →
  ∃ r w', ReportActionStatus namespace req w = (Ret r, w') ∧
    match r with
    | None => ws_ActionStatus req ≠ State_STATE_PENDING ∧ ∃ wf', report_done req wf i wf' ∧
        kworkflows w' = <[(namespace, ws_WorkflowId req) := wf']> (kworkflows w)
    | Some _ =>
        (kworkflows w' = kworkflows w ∧
         (ws_ActionStatus req = State_STATE_PENDING ∨ read_failed namespace (ws_WorkflowId req) w)) ∨
        (ws_ActionStatus req ≠ State_STATE_PENDING ∧
         ∃ wf1 w1 e, report_done req wf i wf1 ∧ same_cluster w w1 ∧
           kupdate_status wf1 w1 = (Ret (Some e), w'))
    end.
Proof.
  intros Hwf Hp Hc Hai Hlen Hv Ht Ha.
  assert (∀ wf1, reports req wf wf1 → ws_ActionStatus req ≠ State_STATE_PENDING) as Hnp.
  { intros wf1 [Hnr _] E. apply Hnr. unfold refused. tauto. }
  destruct (report_spec namespace req w) as (r & w' & Hrun & _ & _ & Hr).
  exists r, w'. split; [done|]. destruct r as [e|].
  - destruct Hr as [[Hsame Hr]|(wf0 & wf1 & w1 & e' & Hwf0 & _ & Hr & Hs & Hu)]; [left|right].
    + split; [done|]. destruct Hr as [?|[?|(wf0 & Hwf0 & Hrf)]]; [congruence|by right|left].
      simplify_eq. by eapply current_refused.
    + simplify_eq. split; [by eapply Hnp|]. exists wf1, w1, e'. split; [|done].
      by eapply reports_done.
  - destruct Hr as (wf0 & wf' & Hwf0 & _ & (Hnr & f & Hf & ->) & Hst). simplify_eq.
    assert (reports req wf (upd_state (new_state (getWorkflowContextForRequest req wf) wf)
      (upd_action f (Z.to_nat (find_task (getWorkflowContextForRequest req wf) 0
         (st_Tasks (wf_Status wf)) (-1)).1)
       (Z.to_nat (find_task (getWorkflowContextForRequest req wf) 0
         (st_Tasks (wf_Status wf)) (-1)).2) wf))) as Hrep by (split; [done|by exists f]).
    split; [by eapply Hnp|]. eexists. split; [|exact Hst].
    apply report_done_stored. by eapply reports_done.
Qed.

(** An accepted report is one on the current action, at its position in its task. *)
Lemma reports_current req wf wf1 :
  validateActionStatusRequest req = None → names_ok wf → statuses_known wf → reports req wf wf1 →
  ∃ i x f, current_slot wf = Some (i, x) ∧ reported (ws_ActionStatus req) f ∧
    wf1 = upd_state (new_state (getWorkflowContextForRequest req wf) wf)
            (upd_action f (sl_ti x) (sl_ai x) wf).
Proof.
  intros Hv Hn Hkn (Hnr & f & Hf & ->). unfold refused in Hnr.
  destruct (current_slot wf) as [[i x]|] eqn:Hc.
  - rewrite (find_current _ wf i x) in Hnr |- * by
      (done || (simpl; destruct (decide (ws_TaskName req = GetCurrentTask wf)); tauto)).
    case_decide as Hai; [|simpl in Hnr; exfalso; apply Hnr; right; right; right; left; lia].
    subst i. simpl. rewrite !Nat2Z.id. by exists (sl_ai x), x, f.
  - exfalso. apply Hnr. left. unfold GetCurrentTask. rewrite getTaskActionInfo_current, Hc.
    by apply validated_task_name.
Qed.

Lemma reports_progress req wf wf1 :
  validateActionStatusRequest req = None → known_state (ws_ActionStatus req) →
  reports req wf wf1 → progress wf → progress wf1.
Proof.
  intros Hv Hks Hr Hp. destruct (reports_current req wf wf1) as (i & x & f & Hc & Hf & ->);
    [done|apply Hp|apply statuses_known_statuses, Hp|done|].
  eapply progress_upd_current; [done|done| |].
  - intros a. by eapply reported_name.
  - rewrite (reported_status _ f) by done. by apply known_state_status.
Qed.

(** Reports keep the order of execution: if in every stored workflow all
    actions before some point have succeeded and all after it are pending, the
    same holds after any report of a defined state, accepted or not. *)
Lemma report_progress req w r w' :
  map_Forall (λ _, progress) (kworkflows w) →
  known_state (ws_ActionStatus req) →
  ReportActionStatus namespace req w = (r, w') →
  map_Forall (λ _, progress) (kworkflows w').
Proof.
  intros Hall Hks Hrun.
  destruct (report_spec namespace req w) as (r' & w'' & Hrun' & _ & _ & Hr).
  rewrite Hrun in Hrun'. simplify_eq. destruct r' as [e|].
  - destruct Hr as [[-> _]|(wf & wf1 & w1 & e' & Hwf & Hv & Hr & (Hw1 & _) & Hu)]; [done|].
    destruct (kupdate_status_writes wf1 w1) as (ru & w2 & Hu' & _ & _ & Hw2).
    rewrite Hu in Hu'. simplify_eq. destruct Hw2 as [->|[_ ->]]; rewrite Hw1; [|done].
    rewrite (reports_key _ _ _ Hr), (kworkflows_key _ _ _ Hwf), (alter_status_insert _ _ wf) by done.
    apply map_Forall_insert_2; [|done]. apply progress_stored.
    eapply reports_progress; [done..|]. by eapply Hall.
  - destruct Hr as (wf & wf' & Hwf & Hv & (Hnr & f & Hf & Hwf') & ->).
    apply map_Forall_insert_2; [|done]. rewrite Hwf'. apply progress_stored.
    eapply reports_progress; [done|done| |by eapply Hall]. split; [done|]. by exists f.
Qed.

Lemma current_for_worker_state workerID l (w : W) :
  ∃ o, current_for_worker workerID l w = (o, w).
Proof.
  induction l as [|wf l [o IH]]; [by eexists|]. simpl. unfold go_index.
  destruct (zlookup _ _) as [t|]; [|by eexists]. unfold go_bind at 1, go_ret at 1.
  unfold go_bind. rewrite IH. destruct o; by eexists.
Qed.

(** The two reading handlers leave the cluster as it is. *)
Lemma contexts_same fails workerID w r w' sent :
  GetWorkflowContexts namespace fails workerID (w, []) = (r, (w', sent)) → same_cluster w w'.
Proof.
  unfold GetWorkflowContexts. case_decide; [unfold go_ret; by intros [= _ <- _]|].
  destruct (klist_workflows_reads namespace WorkflowWorkerNonTerminalStateIndexFunc workerID w)
    as (rl & w1 & Hlist & Hsame & _).
  unfold go_try at 1, go_bind, on_server, go_zoom. simpl.
  unfold getCurrentAssignedNonTerminalWorkflowsForWorker.
  rewrite (go_try_Ret _ _ _ _ _ _ Hlist). destruct rl as [l|e].
  2:{ unfold go_ret. by intros [= _ <- _]. }
  destruct (current_for_worker_state workerID l w1) as [o Ho]. unfold go_bind. rewrite Ho.
  destruct o as [wfs|?|?]; [|by intros [= _ <- _]..]. unfold go_ret at 1.
  destruct (send_all_prefix fails (getWorkflowContext <$> wfs) w1 []) as (k & r' & -> & _).
  by intros [= _ <- _].
Qed.

Lemma actions_same id w r w' :
  GetWorkflowActions namespace id w = (r, w') → same_cluster w w'.
Proof.
  unfold GetWorkflowActions, getWorkflowByName. case_decide; [unfold go_ret; by intros [= _ <-]|].
  destruct (kget_workflow_reads namespace id w) as (rg & w1 & Hg & Hsame & _).
  rewrite (go_try_Ret _ _ _ _ _ _ Hg). destruct rg; unfold go_ret; by intros [= _ <-].
Qed.

(** What the stream of contexts holds. *)
Lemma contexts_exact workerID w :
  workerID ≠ "" →
  ∃ r w' sent,
    GetWorkflowContexts namespace (λ _, None) workerID (w, []) = (Ret r, (w', sent)) ∧
    same_cluster w w' ∧
    match r with
    | None => sent ≡ₚ getWorkflowContext <$>
        filter (λ wf, assigned namespace workerID wf = true) (map_to_list (kworkflows w)).*2
    | Some e => sent = [] ∧ ∃ w1, klist_workflows namespace
        WorkflowWorkerNonTerminalStateIndexFunc workerID w = (Ret (Err e), w1)
    end.
Proof.
  intros Hne. unfold GetWorkflowContexts. rewrite decide_False by done.
  destruct (klist_workflows_reads namespace WorkflowWorkerNonTerminalStateIndexFunc workerID w)
    as (r & w' & Hlist & Hsame & Hl).
  unfold go_try at 1, go_bind, on_server, go_zoom. simpl.
  unfold getCurrentAssignedNonTerminalWorkflowsForWorker.
  rewrite (go_try_Ret _ _ _ _ _ _ Hlist). destruct r as [l|e].
  2:{ eexists _, _, _. split; [done|]. split; [done|]. split; [done|]. eauto. }
  specialize (Hl l eq_refl).
  assert (Forall (λ wf, st_Tasks (wf_Status wf) ≠ []) l) as Htasks.
  { rewrite Hl. apply Forall_forall. intros wf [[_ Hin] _]%list_elem_of_filter.
    apply elem_of_nonterminal in Hin as (_ & _ & t & Ht & _). intros E. rewrite E in Ht.
    by apply elem_of_nil in Ht. }
  rewrite (go_bind_Ret _ _ _ _ _ (current_for_worker_spec workerID l w' Htasks)).
  unfold go_ret. rewrite send_all_ok. eexists _, _, _. split; [done|]. split; [done|]. simpl.
  apply fmap_Permutation. rewrite Hl, list_filter_filter.
  rewrite (list_filter_iff _ (λ wf, assigned namespace workerID wf = true)); [done|].
  intros wf. by rewrite assigned_spec.
Qed.
End report_lemmas.

Section properties.
#[local] Set Default Proof Using "Type*".
Context {W : Type} `{KL : KubeLaws W} `{MR : MapRange}.
Context (namespace : string).

(** C2 A report on the current action of a workflow in order, when no action of an
    earlier task precedes it and the workflow has fewer than 2^63 actions. A report
    of PENDING is refused and nothing is stored. Any other is accepted unless a call
    of the API returns an error: it sets the status of that action only (to the empty
    string when the number has no name), keeps the names of tasks and actions, the
    metadata, the spec and every other workflow, and the state of the workflow becomes
    the reported one, except for a number without a name and for a success that is not
    the last action's, which leave it. It fails either because the workflow could not
    be read, and then nothing is stored, or because the very update that carries this
    change returned an error. *)
Theorem k8s_report_effect req wf i x w :
  kworkflows w !! (namespace, ws_WorkflowId req) = Some wf →
  progress wf → current_slot wf = Some (i, x) → sl_ai x = i →
  Z.of_nat (length (slots wf)) < 2 ^ 63 →
  validateActionStatusRequest req = None →
  ws_TaskName req = tk_Name (sl_task x) → ws_ActionName req = ac_Name (sl_action x) →
  ∃ r w', ReportActionStatus namespace req w = (Ret r, w') ∧
    match r with
    | None => ws_ActionStatus req ≠ State_STATE_PENDING ∧ ∃ wf', report_done req wf i wf' ∧
        kworkflows w' = <[(namespace, ws_WorkflowId req) := wf']> (kworkflows w)
    | Some _ =>
        (kworkflows w' = kworkflows w ∧
         (ws_ActionStatus req = State_STATE_PENDING ∨ read_failed namespace (ws_WorkflowId req) w)) ∨
        (ws_ActionStatus req ≠ State_STATE_PENDING ∧
         ∃ wf1 w1 e, report_done req wf i wf1 ∧ same_cluster w w1 ∧
           kupdate_status wf1 w1 = (Ret (Some e), w'))
    end.
Proof. apply report_effect. Qed.

(** C32 The handlers compare the position of the current action in the whole
    workflow with its position in its task: as soon as an earlier task of a workflow in
    order (its actions succeeded up to the current one, and are pending after it) has
    an action, no report on the workflow is ever accepted and nothing is stored. *)
Theorem k8s_later_task_rejected req wf i x w :
  kworkflows w !! (namespace, ws_WorkflowId req) = Some wf →
  progress wf → current_slot wf = Some (i, x) → sl_ai x ≠ i →
  ∃ e w', ReportActionStatus namespace req w = (Ret (Some e), w') ∧
    kworkflows w' = kworkflows w.
Proof.
  intros Hwf [[Hk Hp] Hn] Hc Hai.
  assert (statuses_known wf) as Hkn by by apply statuses_known_statuses.
  destruct (report_spec namespace req w) as (r & w' & Hrun & _ & _ & Hr).
  assert (∀ wf0, kworkflows w !! (namespace, ws_WorkflowId req) = Some wf0 → ¬ refused req wf0 → False)
    as Hrf; [|destruct r as [e|]].
  2:{ exists e, w'. destruct Hr as [[? _]|(wf0 & wf1 & _ & _ & Hwf0 & _ & [Hnr _] & _)]; [done|].
      by destruct (Hrf wf0). }
  2:{ destruct Hr as (wf0 & wf' & Hwf0 & _ & (Hnr & _) & _). by destruct (Hrf wf0). }
  intros wf0 Hwf0 Hnr. simplify_eq. apply Hnr.
  unfold refused. destruct (decide (ws_TaskName req = GetCurrentTask wf)) as [Ht|]; [|by left].
  rewrite (find_current _ wf i x Hn Hkn Hc) by done. rewrite decide_False by done.
  right; right; right; left. simpl. lia.
Qed.

(** C22 The contexts streamed to a worker are exactly those of the stored
    workflows of the namespace that are pending or running and whose current
    task is assigned to that worker; the handler does not panic and an error
    can only come from the API. *)
Theorem k8s_contexts_exact workerID w :
  workerID ≠ "" →
  ∃ r w' sent,
    GetWorkflowContexts namespace (λ _, None) workerID (w, []) = (Ret r, (w', sent)) ∧
    same_cluster w w' ∧
    match r with
    | None => sent ≡ₚ getWorkflowContext <$>
        filter (λ wf, assigned namespace workerID wf = true) (map_to_list (kworkflows w)).*2
    | Some e => sent = [] ∧ ∃ w1, klist_workflows namespace
        WorkflowWorkerNonTerminalStateIndexFunc workerID w = (Ret (Err e), w1)
    end.
Proof. apply contexts_exact. Qed.
End properties.

(** ** Witnesses *)
Definition demo_report (task action : string) (s : State) : WorkflowActionStatus :=
  {| ws_WorkflowId := "wf1"; ws_TaskName := task; ws_ActionName := action; ws_ActionStatus := s;
     ws_Seconds := 0; ws_Message := ""; ws_CreatedAt := None; ws_WorkerId := "w1" |}.

Definition demo_one_task : list Task :=
  [demo_task "t1" "w1" [demo_action "a" WorkflowStatePending; demo_action "b" WorkflowStatePending]].

Lemma progress_list_compute l (i : nat) :
  bool_decide (Forall known_status l) = true →
  bool_decide (Forall (.= WorkflowStateSuccess) (take i l)) = true →
  bool_decide (Forall (.= WorkflowStatePending) (drop (S i) l)) = true →
  progress_list l.
Proof.
  intros H1%bool_decide_eq_true H2%bool_decide_eq_true H3%bool_decide_eq_true.
  split; [done|]. by exists i.
Qed.

Lemma names_ok_compute w : bool_decide (names_ok w) = true → names_ok w.
Proof. apply bool_decide_eq_true. Qed.

Lemma k8s_report_effect_witness :
  ∃ r w', ReportActionStatus "default" (demo_report "t1" "a" State_STATE_RUNNING)
    (demo_cluster WorkflowStatePending demo_one_task) = (Ret r, w') ∧
    statuses <$> kworkflows w' !! ("default", "wf1") =
      Some [WorkflowStateRunning; WorkflowStatePending].
Proof.
  destruct (k8s_report_effect "default" (demo_report "t1" "a" State_STATE_RUNNING)
    (demo_workflow WorkflowStatePending demo_one_task) 0
    {| sl_ti := 0; sl_ai := 0; sl_task := default (demo_task "" "" []) (head demo_one_task);
       sl_action := demo_action "a" WorkflowStatePending |}
    (demo_cluster WorkflowStatePending demo_one_task)) as (r & w' & Hrun & Hr);
    [reflexivity| |reflexivity|reflexivity|reflexivity|reflexivity|reflexivity|reflexivity|].
  - split; [by apply (progress_list_compute _ 0)|by apply names_ok_compute].
  - exists r, w'. split; [done|]. destruct r as [e|].
    + vm_compute in Hrun. discriminate Hrun.
    + destruct Hr as (_ & wf' & (_ & _ & _ & Hs & _) & ->). simpl. rewrite lookup_insert_eq. simpl.
      by rewrite Hs.
Defined.

Lemma k8s_later_task_rejected_witness :
  ∃ e w', ReportActionStatus "default" (demo_report "t2" "b" State_STATE_RUNNING)
    (demo_cluster WorkflowStateRunning (st_Tasks (wf_Status demo_two_tasks))) = (Ret (Some e), w') ∧
    kworkflows w' = {[ ("default", "wf1") := demo_two_tasks ]}.
Proof.
  refine (k8s_later_task_rejected "default" (demo_report "t2" "b" State_STATE_RUNNING)
    demo_two_tasks 1
    {| sl_ti := 1; sl_ai := 0; sl_task := demo_task "t2" "w2" [demo_action "b" WorkflowStatePending];
       sl_action := demo_action "b" WorkflowStatePending |}
    (demo_cluster WorkflowStateRunning (st_Tasks (wf_Status demo_two_tasks))) _ _ _ _);
    [reflexivity| |reflexivity|done].
  split; [by apply (progress_list_compute _ 1)|by apply names_ok_compute].
Defined.

Lemma k8s_contexts_exact_witness :
  ∃ r w' sent, GetWorkflowContexts "default" (λ _, None) "w1"
    (demo_cluster WorkflowStatePending demo_one_task, []) = (Ret r, (w', sent)) ∧ r = None ∧
    sent ≡ₚ [getWorkflowContext (demo_workflow WorkflowStatePending demo_one_task)].
Proof.
  destruct (k8s_contexts_exact "default" "w1" (demo_cluster WorkflowStatePending demo_one_task))
    as (r & w' & sent & Hrun & _ & Hr); [done|].
  exists r, w', sent. split; [done|]. destruct r as [e|]; [by vm_compute in Hrun|].
  split; [done|]. exact Hr.
Defined.

(** The states are called final in the messages' documentation, yet a running
    report on a timed-out action reopens the workflow. *)
Example k8s_timeout_reopened :
  let w := demo_cluster WorkflowStateTimeout
    [demo_task "t1" "w1" [demo_action "a" WorkflowStateTimeout]] in
  let r := ReportActionStatus "default" (demo_report "t1" "a" State_STATE_RUNNING) w in
  r.1 = Ret None ∧
  st_State ∘ wf_Status <$> kworkflows r.2 !! ("default", "wf1") = Some WorkflowStateRunning.
Proof. vm_compute. done. Qed.

(** A state number the enum does not define is stored as an empty status, which
    the scan for the current action skips. *)
Example k8s_undefined_state_skips_action :
  let w := demo_cluster WorkflowStatePending demo_one_task in
  let r := ReportActionStatus "default" (demo_report "t1" "a" 7) w in
  r.1 = Ret None ∧
  GetCurrentAction <$> kworkflows r.2 !! ("default", "wf1") = Some "b".
Proof. vm_compute. done. Qed.
