(* ===== verification/Controller.v ===== *)
(** * Controller: the workflow controller
    (src/pkg/controllers/workflow/controller.go, src/pkg/controllers/retry.go)

    [Reconcile] and what it calls, over any [KubeClient]. A [reconcile.Result] is
    its [Requeue] field; logging is left out. *)
From S2P Require Import Prelude Proto Template Crd Progress Convert Kube.
From stdpp Require Import options.

Record Result := { rr_Requeue : bool }.
Definition noResult : Result := {| rr_Requeue := false |}.

(** [RetryIfError]: the error is logged and dropped, the request is queued
    again. *)
Definition RetryIfError (err : option error) : Result * option error :=
  ({| rr_Requeue := bool_decide (err ≠ None) |}, None).

(** [toTemplateHardwareData]: the [Disks] of the contract. *)
Definition toTemplateHardwareData (hardware : Hardware) : list string :=
  dk_Device <$> hs_Disks (hw_Spec hardware).

Section controller.
Context {W : Type} `{KC : KubeClient W} `{TE : TemplateEnv}.
#[local] Open Scope go_scope.

(** The end of [processNewWorkflow]: rendering the template and filling the
    status. The workflow is returned as the function leaves it. *)
Definition render_new (stored : Workflow) (tpl : Template) (data : gmap string (value json))
    : Result * option error * Workflow :=
  match RenderTemplateHardware (om_Name (wf_Meta stored)) (default "" (tp_Data tpl)) data with
  | Err err => (noResult, Some err, stored)
  | Ok (tinkWf, _) =>
      match WorkflowYAMLToStatus (Some tinkWf) with
      | Some st => (noResult, None, upd_state WorkflowStatePending (set_wf_status st stored))
      | None => (noResult, None, stored)
      end
  end.

Definition processNewWorkflow (stored : Workflow) : go W (Result * option error * Workflow) :=
  let ns := om_Namespace (wf_Meta stored) in
  let templateRef := sp_TemplateRef (wf_Spec stored) in
  let hardwareRef := sp_HardwareRef (wf_Spec stored) in
  let* tpl := kget_template ns templateRef in
  match tpl with
  | Err err =>
      if err_is err KubeNotFound then
        go_ret (noResult, Some (NewErr ("no template found: name=" +:+ templateRef +:+
                  "; namespace=" +:+ ns)), stored)
      else go_ret (RetryIfError (Some err), stored)
  | Ok tpl =>
      let data : gmap string (value json) := VString <$> sp_HardwareMap (wf_Spec stored) in
      let* hardware := kget_hardware ns hardwareRef in
      match hardware with
      | Err err =>
          if negb (err_is err KubeNotFound) then go_ret (noResult, Some err, stored)
          else if decide (hardwareRef ≠ "") then
            go_ret (noResult, Some (NewErr ("hardware not found: name=" +:+ hardwareRef +:+
                      "; namespace=" +:+ ns)), stored)
          else go_ret (render_new stored tpl data)
      | Ok hardware =>
          go_ret (render_new stored tpl
            (<["Hardware" := VHardware (toTemplateHardwareData hardware)]> data))
      end
  end.

(** The body of the loops of [processRunningWorkflow] on one action: the action
    after it and whether it timed out. *)
Definition check_action (action : Action) : go W (Action * bool) :=
  match ac_StartedAt action with
  | Some startedAt =>
      if decide (ac_Status action = WorkflowStateRunning) then
        let* now := nowFunc in
        if decide (startedAt + seconds_dur (ac_Timeout action) < now) then
          let* now' := nowFunc in
          go_ret (set_seconds (dur_seconds (time_sub now' startedAt))
                    (set_message "Action timed out" (set_status WorkflowStateTimeout action)),
                  true)
        else go_ret (action, false)
      else go_ret (action, false)
  | None => go_ret (action, false)
  end.

Fixpoint check_actions (l : list Action) : go W (list Action * bool) :=
  match l with
  | [] => go_ret ([], false)
  | a :: l' =>
      let* (a', b) := check_action a in
      let* (l'', b') := check_actions l' in
      go_ret (a' :: l'', b || b')
  end.

Fixpoint check_tasks (l : list Task) : go W (list Task * bool) :=
  match l with
  | [] => go_ret ([], false)
  | t :: l' =>
      let* (acts, b) := check_actions (tk_Actions t) in
      let* (l'', b') := check_tasks l' in
      go_ret (set_actions acts t :: l'', b || b')
  end.

(** A nil [GetStartTime()] is dereferenced by [Add]. *)
Definition processRunningWorkflow (stored : Workflow) : go W (Result * Workflow) :=
  let* now := nowFunc in
  match GetStartTime stored with
  | None => go_panic "invalid memory address or nil pointer dereference"
  | Some start =>
      let expired :=
        bool_decide (start + seconds_dur (st_GlobalTimeout (wf_Status stored)) < now) in
      let stored := if expired then upd_state WorkflowStateTimeout stored else stored in
      let* (tasks, timedOut) := check_tasks (st_Tasks (wf_Status stored)) in
      let stored := set_wf_status (set_tasks tasks (wf_Status stored)) stored in
      go_ret (noResult, if (timedOut : bool) then upd_state WorkflowStateTimeout stored else stored)
  end.

(** The patch at the end of [Reconcile]. *)
Definition patch_changes (stored wflow : Workflow) (resp : Result) (err : option error)
    : go W (Result * option error) :=
  if decide (wflow = stored) then go_ret (resp, err)
  else
    let* perr := kpatch_status wflow stored in
    match perr with
    | Some e => go_ret (resp, Some (WrapErr e ("error patching workflow " +:+
                                               om_Name (wf_Meta wflow))))
    | None => go_ret (resp, err)
    end.

(** The switch on the state of the workflow that was read: nil where [Reconcile]
    returns without a patch. *)
Definition process_workflow (stored : Workflow) : go W (option (Result * option error * Workflow)) :=
  match om_DeletionTimestamp (wf_Meta stored) with
  | Some _ => go_ret None
  | None =>
      if decide (st_State (wf_Status stored) = "") then
        let* r := processNewWorkflow stored in
        go_ret (Some r)
      else if decide (st_State (wf_Status stored) = WorkflowStateRunning) then
        let* (resp, wflow) := processRunningWorkflow stored in
        go_ret (Some (resp, None, wflow))
      else go_ret None
  end.

Definition Reconcile (ns name : string) : go W (Result * option error) :=
  let* got := kget_workflow ns name in
  match got with
  | Err err =>
      if err_is err KubeNotFound then go_ret (noResult, None)
      else go_ret (RetryIfError (Some err))
  | Ok stored =>
      let* r := process_workflow stored in
      match r with
      | None => go_ret (noResult, None)
      | Some (resp, err, wflow) => patch_changes stored wflow resp err
      end
  end.
End controller.

(** ** Lemmas: new workflows *)
Lemma fresh_tasks_names_ok `{TemplateEnv} wf :
  workflow_ok wf → tasks_names_ok (task_of_yaml <$> yw_Tasks wf).
Proof.
  intros (_ & _ & _ & Ht & Hnd). split; [by rewrite <- list_fmap_compose|].
  rewrite Forall_fmap. eapply Forall_impl; [done|]. intros t (_ & _ & Hd). simpl.
  by rewrite <- list_fmap_compose.
Qed.

Lemma fresh_tasks_statuses l :
  Forall (.= WorkflowStatePending) (tasks_statuses (task_of_yaml <$> l)).
Proof.
  induction l as [|t l IH]; [constructor|]. unfold tasks_statuses in *.
  rewrite fmap_cons, bind_cons. apply Forall_app. split; [|done].
  unfold task_statuses. simpl. rewrite Forall_fmap, Forall_fmap. by apply Forall_true.
Qed.

Lemma all_pending_progress l : Forall (.= WorkflowStatePending) l → progress_list l.
Proof.
  intros Hl. split.
  - eapply Forall_impl; [done|]. intros ? ->. right. by left.
  - exists 0%nat. split; [constructor|]. by apply Forall_drop.
Qed.

Lemma RenderTemplateHardware_ok `{TemplateEnv} id data hw wf buf :
  RenderTemplateHardware id data hw = Ok (wf, buf) → workflow_ok wf.
Proof.
  unfold RenderTemplateHardware. intros Hr. repeat case_match; simplify_eq.
  by match goal with H : Parse _ = Ok _ |- _ => apply Parse_Ok in H as [_ ?] end.
Qed.

(** Either an error and the workflow as it was, or a pending workflow made of
    the rendered template. *)
Lemma render_new_spec `{TemplateEnv} stored tpl data :
  (∃ e, RenderTemplateHardware (om_Name (wf_Meta stored)) (default "" (tp_Data tpl)) data = Err e ∧
     render_new stored tpl data = (noResult, Some e, stored)) ∨
  (∃ wf buf, RenderTemplateHardware (om_Name (wf_Meta stored)) (default "" (tp_Data tpl)) data =
       Ok (wf, buf) ∧ workflow_ok wf ∧
     render_new stored tpl data = (noResult, None, set_wf_status
       {| st_State := WorkflowStatePending; st_GlobalTimeout := yw_GlobalTimeout wf;
          st_Tasks := task_of_yaml <$> yw_Tasks wf |} stored)).
Proof.
  unfold render_new.
  destruct (RenderTemplateHardware _ _ data) as [[wf buf]|e] eqn:E; [|left; eauto].
  right. exists wf, buf. split; [done|]. split; [by eapply RenderTemplateHardware_ok|done].
Qed.

(** ** Lemmas: running workflows *)

(** What the timeout check may do to a status. *)
Definition status_step (s s' : WorkflowState) : Prop :=
  s' = s ∨ (s = WorkflowStateRunning ∧ s' = WorkflowStateTimeout).

Lemma status_step_fixed c l l' :
  c ≠ WorkflowStateRunning → Forall2 status_step l l' → Forall (.= c) l → Forall (.= c) l'.
Proof.
  intros Hc. induction 1 as [|s s' l l' H Hs IH]; [done|]. intros Hi.
  inversion_clear Hi; subst. constructor; [|by apply IH]. by destruct H as [->|[H _]].
Qed.

Lemma progress_status_step l l' :
  Forall2 status_step l l' → progress_list l → progress_list l'.
Proof.
  intros Hs [Hk (i & Hi & Hp)]. split.
  - clear Hi Hp. induction Hs as [|s s' l l' H Hs IH]; [done|].
    inversion_clear Hk. constructor; [|by apply IH]. destruct H as [->|[_ ->]]; [done|].
    right. do 3 right. done.
  - exists i. split.
    + eapply status_step_fixed; [done|by apply Forall2_take|done].
    + eapply status_step_fixed; [done|by apply Forall2_drop|done].
Qed.

(** Two task lists that differ in the progress of their actions only. *)
Definition task_step (t t' : Task) : Prop :=
  tk_Name t' = tk_Name t ∧ ac_Name <$> tk_Actions t' = ac_Name <$> tk_Actions t ∧
  Forall2 status_step (task_statuses t) (task_statuses t').

Lemma task_step_names_ok l l' : Forall2 task_step l l' → tasks_names_ok l → tasks_names_ok l'.
Proof.
  intros Hs [Hn Ha]. split.
  - replace (tk_Name <$> l') with (tk_Name <$> l); [done|]. clear Hn Ha.
    induction Hs as [|t t' l l' (Ht & _) _ IH]; [done|]. csimpl. by rewrite Ht, IH.
  - clear Hn. induction Hs as [|t t' l l' (_ & Ht & _) _ IH]; [done|].
    inversion_clear Ha. constructor; [by rewrite Ht|by apply IH].
Qed.

Lemma task_step_statuses l l' :
  Forall2 task_step l l' → Forall2 status_step (tasks_statuses l) (tasks_statuses l').
Proof.
  induction 1 as [|t t' l l' (_ & _ & Ht) _ IH]; [constructor|]. unfold tasks_statuses in *.
  rewrite !bind_cons. by apply Forall2_app.
Qed.

Lemma task_step_progress w w' :
  Forall2 task_step (st_Tasks (wf_Status w)) (st_Tasks (wf_Status w')) → progress w → progress w'.
Proof.
  intros Hs [Hp Hn]. split.
  - eapply progress_status_step; [by apply task_step_statuses|done].
  - by eapply task_step_names_ok.
Qed.

Section lemmas.
#[local] Set Default Proof Using "Type*".
Context {W : Type} `{KL : KubeLaws W} `{TE : TemplateEnv}.

Lemma check_action_spec a w :
  ∃ a' b w', check_action a w = (Ret (a', b), w') ∧ same_cluster w w' ∧
    ac_Name a' = ac_Name a ∧ status_step (ac_Status a) (ac_Status a').
Proof.
  unfold check_action. destruct (ac_StartedAt a) as [t0|].
  2:{ eexists _, _, _. split; [done|]. split_and!; [done..|by left]. }
  case_decide as Hs; [|eexists _, _, _; split; [done|]; split_and!; [done..|by left]].
  destruct (nowFunc_reads w) as (now & w1 & Hnow & Hsame & _).
  rewrite (go_bind_Ret _ _ _ _ _ Hnow).
  case_decide; [|eexists _, _, _; split; [done|]; split_and!; [done..|by left]].
  destruct (nowFunc_reads w1) as (now' & w2 & Hnow' & Hsame' & _).
  rewrite (go_bind_Ret _ _ _ _ _ Hnow'). eexists _, _, _. split; [done|].
  split_and!; [by etrans|done|]. by right.
Qed.

Lemma check_actions_spec l w :
  ∃ l' b w', check_actions l w = (Ret (l', b), w') ∧ same_cluster w w' ∧
    ac_Name <$> l' = ac_Name <$> l ∧ Forall2 status_step (ac_Status <$> l) (ac_Status <$> l').
Proof.
  revert w. induction l as [|a l IH]; intros w; simpl.
  { eexists _, _, _. split; [done|]. split_and!; [done..|constructor]. }
  destruct (check_action_spec a w) as (a' & b & w1 & Ha & Hs1 & Hn & Hst).
  rewrite (go_bind_Ret _ _ _ _ _ Ha). destruct (IH w1) as (l' & b' & w2 & Hl & Hs2 & Hn2 & Hst2).
  rewrite (go_bind_Ret _ _ _ _ _ Hl). eexists _, _, _. split; [done|].
  split_and!; [by etrans|csimpl; by rewrite Hn, Hn2|by constructor].
Qed.

Lemma check_tasks_spec l w :
  ∃ l' b w', check_tasks l w = (Ret (l', b), w') ∧ same_cluster w w' ∧ Forall2 task_step l l'.
Proof.
  revert w. induction l as [|t l IH]; intros w; simpl.
  { eexists _, _, _. split; [done|]. split; [done|constructor]. }
  destruct (check_actions_spec (tk_Actions t) w) as (a' & b & w1 & Ha & Hs1 & Hn & Hst).
  rewrite (go_bind_Ret _ _ _ _ _ Ha). destruct (IH w1) as (l' & b' & w2 & Hl & Hs2 & Hf).
  rewrite (go_bind_Ret _ _ _ _ _ Hl). eexists _, _, _. split; [done|].
  split; [by etrans|]. constructor; [|done]. done.
Qed.

Lemma processRunning_spec stored w :
  ∃ r w', processRunningWorkflow stored w = (r, w') ∧ same_cluster w w' ∧
    match r with
    | Ret (resp, wf) => resp = noResult ∧ is_Some (GetStartTime stored) ∧
        wf_Meta wf = wf_Meta stored ∧
        (st_State (wf_Status wf) = st_State (wf_Status stored) ∨
         st_State (wf_Status wf) = WorkflowStateTimeout) ∧
        Forall2 task_step (st_Tasks (wf_Status stored)) (st_Tasks (wf_Status wf))
    | _ => GetStartTime stored = None
    end.
Proof.
  unfold processRunningWorkflow. destruct (nowFunc_reads w) as (now & w1 & Hnow & Hs1 & _).
  rewrite (go_bind_Ret _ _ _ _ _ Hnow).
  destruct (GetStartTime stored) as [start|]; [|eexists _, _; split; [done|]; done].
  set (st := if bool_decide _ then _ else _).
  destruct (check_tasks_spec (st_Tasks (wf_Status st)) w1) as (l' & b & w2 & Hc & Hs2 & Hf).
  rewrite (go_bind_Ret _ _ _ _ _ Hc).
  assert (st_Tasks (wf_Status st) = st_Tasks (wf_Status stored) ∧ wf_Meta st = wf_Meta stored)
    as [Ht Hm] by (unfold st; by case_bool_decide).
  assert (st_State (wf_Status st) = st_State (wf_Status stored) ∨
    st_State (wf_Status st) = WorkflowStateTimeout) as Hst.
  { unfold st. case_bool_decide; [by right|by left]. }
  rewrite Ht in Hf. eexists _, _. split; [done|]. split; [by etrans|]. simpl.
  destruct b; simpl; split_and!; eauto.
Qed.

Lemma processNew_spec stored w :
  ∃ resp err wf w', processNewWorkflow stored w = (Ret (resp, err, wf), w') ∧ same_cluster w w' ∧
    (wf = stored ∨ ∃ ywf, workflow_ok ywf ∧ err = None ∧
       wf = set_wf_status {| st_State := WorkflowStatePending;
                             st_GlobalTimeout := yw_GlobalTimeout ywf;
                             st_Tasks := task_of_yaml <$> yw_Tasks ywf |} stored).
Proof.
  unfold processNewWorkflow.
  destruct (kget_template_reads (om_Namespace (wf_Meta stored)) (sp_TemplateRef (wf_Spec stored)) w)
    as (rt & w1 & Ht & Hs1 & _).
  rewrite (go_bind_Ret _ _ _ _ _ Ht). destruct rt as [tpl|e].
  2:{ destruct (err_is e KubeNotFound); eexists _, _, _, _; (split; [done|]); auto. }
  destruct (kget_hardware_reads (om_Namespace (wf_Meta stored)) (sp_HardwareRef (wf_Spec stored)) w1)
    as (rh & w2 & Hh & Hs2 & _).
  rewrite (go_bind_Ret _ _ _ _ _ Hh). assert (same_cluster w w2) as Hs by by etrans.
  assert (∀ data, ∃ resp err wf, render_new stored tpl data = (resp, err, wf) ∧
    (wf = stored ∨ ∃ ywf, workflow_ok ywf ∧ err = None ∧
       wf = set_wf_status {| st_State := WorkflowStatePending;
                             st_GlobalTimeout := yw_GlobalTimeout ywf;
                             st_Tasks := task_of_yaml <$> yw_Tasks ywf |} stored)) as Hr.
  { intros data. destruct (render_new_spec stored tpl data)
      as [(e & _ & ->)|(wf & buf & _ & Hok & ->)]; eexists _, _, _; eauto 10. }
  destruct rh as [hw|e].
  - edestruct Hr as (resp & err & wf & -> & Hwf). eexists _, _, _, _. split; [done|]. auto.
  - destruct (err_is e KubeNotFound); simpl; [|eexists _, _, _, _; split; [done|]; auto].
    case_decide; [eexists _, _, _, _; split; [done|]; auto|].
    edestruct Hr as (resp & err & wf & -> & Hwf). eexists _, _, _, _. split; [done|]. auto.
Qed.

(** What a reconciliation makes of the workflow it has read. *)
Definition processed (stored wf : Workflow) : Prop :=
  wf_Meta wf = wf_Meta stored ∧
  (wf = stored ∨
   (st_State (wf_Status stored) = "" ∧ ∃ ywf, workflow_ok ywf ∧
      wf = set_wf_status {| st_State := WorkflowStatePending;
                            st_GlobalTimeout := yw_GlobalTimeout ywf;
                            st_Tasks := task_of_yaml <$> yw_Tasks ywf |} stored) ∨
   (st_State (wf_Status stored) = WorkflowStateRunning ∧
      (st_State (wf_Status wf) = WorkflowStateRunning ∨
       st_State (wf_Status wf) = WorkflowStateTimeout) ∧
      Forall2 task_step (st_Tasks (wf_Status stored)) (st_Tasks (wf_Status wf)))).

Lemma process_spec stored w :
  ∃ r w', process_workflow stored w = (r, w') ∧ same_cluster w w' ∧
    match r with
    | Ret (Some (_, _, wf)) => processed stored wf
    | Ret None => True
    | _ => GetStartTime stored = None
    end.
Proof.
  unfold process_workflow. destruct (om_DeletionTimestamp (wf_Meta stored)); [by eexists _, _|].
  case_decide.
  - destruct (processNew_spec stored w) as (resp & err & wf & w2 & Hn & Hs & Hwf).
    rewrite (go_bind_Ret _ _ _ _ _ Hn). eexists _, _. split; [done|]. split; [done|]. split.
    + by destruct Hwf as [->|(? & _ & _ & ->)].
    + destruct Hwf as [->|(ywf & Hok & _ & ->)]; [by left|]. right; left. eauto.
  - case_decide; [|by eexists _, _].
    destruct (processRunning_spec stored w) as (rr & w2 & Hn & Hs & Hwf).
    unfold go_bind. rewrite Hn. destruct rr as [[resp wf]|?|?]; [|by eexists _, _..].
    destruct Hwf as (_ & _ & Hm & Hst & Hf). eexists _, _. split; [done|]. split; [done|].
    split; [done|]. right; right. split; [done|]. split; [|done]. destruct Hst; [left|right]; congruence.
Qed.

Lemma process_new stored w r w' :
  om_DeletionTimestamp (wf_Meta stored) = None → st_State (wf_Status stored) = "" →
  processNewWorkflow stored w = (Ret r, w') → process_workflow stored w = (Ret (Some r), w').
Proof.
  intros Hd Hs Hp. unfold process_workflow. rewrite Hd, decide_True by done.
  by rewrite (go_bind_Ret _ _ _ _ _ Hp).
Qed.
Lemma process_running stored w resp wf w' :
  om_DeletionTimestamp (wf_Meta stored) = None →
  st_State (wf_Status stored) = WorkflowStateRunning →
  processRunningWorkflow stored w = (Ret (resp, wf), w') →
  process_workflow stored w = (Ret (Some (resp, None, wf)), w').
Proof.
  intros Hd Hs Hp. unfold process_workflow. rewrite Hd, Hs, decide_False, decide_True by done.
  by rewrite (go_bind_Ret _ _ _ _ _ Hp).
Qed.

Lemma processed_progress stored wf : processed stored wf → progress stored → progress wf.
Proof.
  intros [_ [->|[(_ & ywf & Hok & ->)|(_ & _ & Hf)]]] Hp; [done| |by eapply task_step_progress].
  split; [apply all_pending_progress, fresh_tasks_statuses|by apply fresh_tasks_names_ok].
Qed.

Lemma patch_spec stored wflow resp err w :
  kworkflows w !! workflow_key stored = Some stored → wf_Meta wflow = wf_Meta stored →
  ∃ r w', patch_changes stored wflow resp err w = (Ret r, w') ∧
    ((kworkflows w' = kworkflows w ∧ (wflow = stored ∨ r.2 ≠ None)) ∨
     kworkflows w' = <[workflow_key stored :=
       set_wf_status (stored_status (wf_Status wflow)) stored]> (kworkflows w) ∧
     (r = (resp, err) ∨ r.2 ≠ None)).
Proof.
  intros Hst Hm. unfold patch_changes. case_decide; [eexists _, _; split; [done|]; auto|].
  assert (workflow_key wflow = workflow_key stored) as Hk by (unfold workflow_key; by rewrite Hm).
  destruct (kpatch_status_writes wflow stored w) as (r & w' & Hp & _ & _ & Hw); [by rewrite Hk|].
  rewrite (go_bind_Ret _ _ _ _ _ Hp). rewrite Hk in Hw.
  assert (∀ rr : Result * option error, (r = None → rr = (resp, err)) → (r ≠ None → rr.2 ≠ None) →
    (kworkflows w' = kworkflows w ∧ (wflow = stored ∨ rr.2 ≠ None)) ∨
    kworkflows w' = <[workflow_key stored :=
      set_wf_status (stored_status (wf_Status wflow)) stored]> (kworkflows w) ∧
    (rr = (resp, err) ∨ rr.2 ≠ None)) as Hall.
  { intros rr Hn Hs. destruct Hw as [Hw|[Hne Hw]]; [right|left; auto].
    rewrite Hw. split; [by apply alter_status_insert|]. destruct r; [right; by apply Hs|left; auto]. }
  destruct r; (eexists _, _; split; [done|]; by apply Hall).
Qed.
End lemmas.

(** ** A frozen clock *)
Definition action_expired (now : Z) (a : Action) : bool :=
  match ac_StartedAt a with
  | Some t0 => bool_decide (ac_Status a = WorkflowStateRunning) &&
               bool_decide (t0 + seconds_dur (ac_Timeout a) < now)
  | None => false
  end.

Definition expire_action (now : Z) (a : Action) : Action :=
  if action_expired now a then
    set_seconds (dur_seconds (time_sub now (default 0 (ac_StartedAt a))))
      (set_message "Action timed out" (set_status WorkflowStateTimeout a))
  else a.

Definition expire_task (now : Z) (t : Task) : Task :=
  set_actions (expire_action now <$> tk_Actions t) t.

Definition any_expired (now : Z) (l : list Task) : bool :=
  existsb (λ t, existsb (action_expired now) (tk_Actions t)) l.

Section frozen.
#[local] Set Default Proof Using "Type*".
Context {W : Type} `{KL : KubeLaws W} `{TE : TemplateEnv}.
Context (now : Z) (Hclock : frozen_clock W now).

Lemma now_frozen w : ∃ w', nowFunc w = (Ret now, w') ∧ same_cluster w w'.
Proof.
  destruct (Hclock w) as [w' Hw]. destruct (nowFunc_reads w) as (n & w'' & Hn & Hs & _).
  exists w'. rewrite Hn in Hw. by simplify_eq.
Qed.

Lemma check_action_frozen a w :
  ∃ w', check_action a w = (Ret (expire_action now a, action_expired now a), w') ∧
    same_cluster w w'.
Proof.
  unfold check_action, expire_action, action_expired.
  destruct (ac_StartedAt a) as [t0|]; [|by eexists].
  case_decide as Hs; [rewrite bool_decide_eq_true_2 by done|
    rewrite bool_decide_eq_false_2 by done; by eexists].
  destruct (now_frozen w) as (w1 & Hn & Hs1). rewrite (go_bind_Ret _ _ _ _ _ Hn). simpl.
  case_decide; [rewrite bool_decide_eq_true_2 by done|
    rewrite bool_decide_eq_false_2 by done; by eexists].
  destruct (now_frozen w1) as (w2 & Hn2 & Hs2). rewrite (go_bind_Ret _ _ _ _ _ Hn2).
  eexists. split; [done|]. by etrans.
Qed.

Lemma check_actions_frozen l w :
  ∃ w', check_actions l w =
    (Ret (expire_action now <$> l, existsb (action_expired now) l), w') ∧ same_cluster w w'.
Proof.
  revert w. induction l as [|a l IH]; intros w; simpl; [by eexists|].
  destruct (check_action_frozen a w) as (w1 & Ha & Hs1). rewrite (go_bind_Ret _ _ _ _ _ Ha).
  destruct (IH w1) as (w2 & Hl & Hs2). rewrite (go_bind_Ret _ _ _ _ _ Hl).
  eexists. split; [done|]. by etrans.
Qed.

Lemma check_tasks_frozen l w :
  ∃ w', check_tasks l w = (Ret (expire_task now <$> l, any_expired now l), w') ∧
    same_cluster w w'.
Proof.
  revert w. induction l as [|t l IH]; intros w; simpl; [by eexists|].
  destruct (check_actions_frozen (tk_Actions t) w) as (w1 & Ha & Hs1).
  rewrite (go_bind_Ret _ _ _ _ _ Ha).
  destruct (IH w1) as (w2 & Hl & Hs2). rewrite (go_bind_Ret _ _ _ _ _ Hl).
  eexists. split; [done|]. by etrans.
Qed.

Definition timed_out (stored : Workflow) (start : Z) : bool :=
  bool_decide (start + seconds_dur (st_GlobalTimeout (wf_Status stored)) < now) ||
  any_expired now (st_Tasks (wf_Status stored)).

Definition expire_workflow (stored : Workflow) (start : Z) : Workflow :=
  set_wf_status
    {| st_State := if timed_out stored start then WorkflowStateTimeout
                   else st_State (wf_Status stored);
       st_GlobalTimeout := st_GlobalTimeout (wf_Status stored);
       st_Tasks := expire_task now <$> st_Tasks (wf_Status stored) |} stored.

Lemma processRunning_frozen stored start w :
  GetStartTime stored = Some start →
  ∃ w', processRunningWorkflow stored w = (Ret (noResult, expire_workflow stored start), w') ∧
    same_cluster w w'.
Proof.
  intros Hst. unfold processRunningWorkflow, expire_workflow, timed_out.
  destruct (now_frozen w) as (w1 & Hn & Hs1). rewrite (go_bind_Ret _ _ _ _ _ Hn), Hst.
  set (st := if bool_decide _ then _ else _).
  assert (st_Tasks (wf_Status st) = st_Tasks (wf_Status stored)) as Ht
    by (unfold st; by case_bool_decide).
  destruct (check_tasks_frozen (st_Tasks (wf_Status st)) w1) as (w2 & Hc & Hs2).
  rewrite (go_bind_Ret _ _ _ _ _ Hc), Ht. unfold go_ret. eexists. split; [|by etrans].
  unfold st. destruct stored as [? ? ? []]. case_bool_decide; simpl;
    destruct (any_expired _ _); done.
Qed.

(** Nothing expired: the check leaves the workflow as it is. *)
Lemma expire_workflow_none stored start :
  timed_out stored start = false → expire_workflow stored start = stored.
Proof.
  unfold expire_workflow. intros Ht. rewrite Ht. unfold timed_out in Ht.
  apply orb_false_iff in Ht as [_ Ha]. destruct stored as [? ? ? [s g l]]. simpl in *.
  unfold set_wf_status. simpl. do 2 f_equal. unfold any_expired in Ha.
  induction l as [|t l IH]; [done|]. csimpl in *. apply orb_false_iff in Ha as [Ha Hl].
  rewrite IH by done. f_equal. unfold expire_task. destruct t as [n wa acts v e]. simpl in *.
  unfold set_actions. simpl. f_equal. clear IH Hl.
  induction acts as [|a acts IHa]; [done|]. csimpl in *. apply orb_false_iff in Ha as [Ha Hl].
  rewrite IHa by done. unfold expire_action. by rewrite Ha.
Qed.
End frozen.

(** The statuses after the check. *)
Lemma expire_statuses now w :
  tasks_statuses (expire_task now <$> st_Tasks (wf_Status w)) =
  (λ x, if action_expired now (sl_action x) then WorkflowStateTimeout
        else ac_Status (sl_action x)) <$> slots w.
Proof.
  unfold slots. generalize 0%nat as k. unfold tasks_statuses.
  induction (st_Tasks (wf_Status w)) as [|t l IH]; intros k; [done|]. cbn [slots_from].
  rewrite fmap_cons, bind_cons, fmap_app, (IH (S k)). apply (f_equal (.++ _)).
  unfold task_statuses. simpl. rewrite <- (sl_action_task_slots k t), <- !list_fmap_compose.
  apply list_fmap_ext. intros _ x _. simpl. unfold expire_action.
  by destruct (action_expired now (sl_action x)).
Qed.

Section reliable.
#[local] Set Default Proof Using "Type*".
Context {W : Type} `{KL : KubeLaws W} `{TE : TemplateEnv}.

Lemma reconcile_get ns name w stored :
  kube_reliable W → kworkflows w !! (ns, name) = Some stored →
  ∃ w', kget_workflow ns name w = (Ret (Ok stored), w') ∧ same_cluster w w' ∧
    om_Namespace (wf_Meta stored) = ns ∧ om_Name (wf_Meta stored) = name.
Proof.
  intros (Hrw & _) Hst. pose proof (kworkflows_key _ _ _ Hst) as Hkey.
  unfold workflow_key in Hkey. simplify_eq.
  destruct (reliable_read kworkflows _ _ w stored (kget_workflow_reads _ _) (Hrw _ _) Hst)
    as (w1 & H1 & Hs1). eauto.
Qed.

Lemma processNew_ok stored tpl hw wf buf w :
  kube_reliable W →
  ktemplates w !! (om_Namespace (wf_Meta stored), sp_TemplateRef (wf_Spec stored)) = Some tpl →
  khardware w !! (om_Namespace (wf_Meta stored), sp_HardwareRef (wf_Spec stored)) = Some hw →
  RenderTemplateHardware (om_Name (wf_Meta stored)) (default "" (tp_Data tpl))
    (<["Hardware" := VHardware (dk_Device <$> hs_Disks (hw_Spec hw))]>
       (VString <$> sp_HardwareMap (wf_Spec stored))) = Ok (wf, buf) →
  ∃ w', processNewWorkflow stored w = (Ret (noResult, None, set_wf_status
      {| st_State := WorkflowStatePending; st_GlobalTimeout := yw_GlobalTimeout wf;
         st_Tasks := task_of_yaml <$> yw_Tasks wf |} stored), w') ∧ same_cluster w w'.
Proof.
  intros (_ & Hrt & Hrh & _) Htpl Hhw Hren. unfold processNewWorkflow.
  destruct (reliable_read ktemplates _ _ w tpl (kget_template_reads _ _) (Hrt _ _) Htpl)
    as (w1 & H1 & Hs1). rewrite (go_bind_Ret _ _ _ _ _ H1).
  rewrite <- (proj2 (proj2 Hs1)) in Hhw.
  destruct (reliable_read khardware _ _ w1 hw (kget_hardware_reads _ _) (Hrh _ _) Hhw)
    as (w2 & H2 & Hs2). rewrite (go_bind_Ret _ _ _ _ _ H2). unfold go_ret.
  exists w2. split; [|by etrans]. unfold render_new, toTemplateHardwareData. by rewrite Hren.
Qed.

Lemma patch_ok stored wflow resp err w :
  kube_reliable W →
  kworkflows w !! workflow_key stored = Some stored → wf_Meta wflow = wf_Meta stored →
  wflow ≠ stored →
  ∃ w', patch_changes stored wflow resp err w = (Ret (resp, err), w') ∧
    kworkflows w' = <[workflow_key stored :=
      set_wf_status (stored_status (wf_Status wflow)) stored]> (kworkflows w).
Proof.
  intros (_ & _ & _ & Hrp & _) Hst Hm Hne. unfold patch_changes. rewrite decide_False by done.
  assert (workflow_key wflow = workflow_key stored) as Hk by (unfold workflow_key; by rewrite Hm).
  destruct (kpatch_status_writes wflow stored w) as (r & w' & Hp & _ & _ & Hw); [by rewrite Hk|].
  rewrite (go_bind_Ret _ _ _ _ _ Hp). destruct r as [e|]; [by apply Hrp in Hp|].
  destruct Hw as [Hw|[? _]]; [|done].
  eexists. split; [done|]. rewrite Hw, Hk. by apply alter_status_insert.
Qed.

(** The first reconciliation of a workflow. *)
Lemma reconcile_new ns name w stored tpl hw wf buf :
  kube_reliable W →
  kworkflows w !! (ns, name) = Some stored →
  st_State (wf_Status stored) = "" → om_DeletionTimestamp (wf_Meta stored) = None →
  ktemplates w !! (ns, sp_TemplateRef (wf_Spec stored)) = Some tpl →
  khardware w !! (ns, sp_HardwareRef (wf_Spec stored)) = Some hw →
  RenderTemplateHardware name (default "" (tp_Data tpl))
    (<["Hardware" := VHardware (dk_Device <$> hs_Disks (hw_Spec hw))]>
       (VString <$> sp_HardwareMap (wf_Spec stored))) = Ok (wf, buf) →
  ∃ w', Reconcile ns name w = (Ret (noResult, None), w') ∧
    kworkflows w' = <[(ns, name) := set_wf_status (stored_status
      {| st_State := WorkflowStatePending; st_GlobalTimeout := yw_GlobalTimeout wf;
         st_Tasks := task_of_yaml <$> yw_Tasks wf |}) stored]> (kworkflows w).
Proof.
  intros Hrel Hst Hnew Hdel Htpl Hhw Hren.
  destruct (reconcile_get ns name w stored Hrel Hst) as (w1 & H1 & Hs1 & Hns & Hnm).
  unfold Reconcile. rewrite (go_bind_Ret _ _ _ _ _ H1).
  destruct Hs1 as (Hw1 & Ht1 & Hh1). rewrite <- Ht1 in Htpl. rewrite <- Hh1 in Hhw.
  rewrite <- Hns in Htpl, Hhw. rewrite <- Hnm in Hren.
  destruct (processNew_ok stored tpl hw wf buf w1 Hrel Htpl Hhw Hren) as (w2 & H2 & Hw2 & _).
  rewrite (go_bind_Ret _ _ _ _ _ (process_new _ _ _ _ Hdel Hnew H2)).
  destruct (patch_ok stored (set_wf_status
    {| st_State := WorkflowStatePending; st_GlobalTimeout := yw_GlobalTimeout wf;
       st_Tasks := task_of_yaml <$> yw_Tasks wf |} stored) noResult None w2 Hrel)
    as (w3 & H3 & Hw3).
  - unfold workflow_key. by rewrite Hns, Hnm, Hw2, Hw1.
  - done.
  - intros Heq. apply (f_equal (λ x, st_State (wf_Status x))) in Heq. by rewrite Hnew in Heq.
  - exists w3. split; [done|]. unfold workflow_key in Hw3. by rewrite Hw3, Hns, Hnm, Hw2, Hw1.
Qed.

(** Whatever state the workflows are in, reconciling one of them (with
    success, an error or a panic, at any time of the clock) keeps the order of
    execution in every stored workflow: succeeded actions, then at most one
    other, then pending actions, with distinct task and action names. *)
Lemma reconcile_progress ns name w r w' :
  map_Forall (λ _, progress) (kworkflows w) →
  Reconcile ns name w = (r, w') →
  map_Forall (λ _, progress) (kworkflows w').
Proof.
  intros Hall Hrun. unfold Reconcile in Hrun.
  destruct (kget_workflow_reads ns name w) as (g & w1 & Hg & (Hw1 & _) & Hr).
  rewrite (go_bind_Ret _ _ _ _ _ Hg) in Hrun. rewrite <- Hw1 in Hall.
  assert (∀ stored wflow resp err w2, kworkflows w2 = kworkflows w1 →
    kworkflows w1 !! workflow_key stored = Some stored → wf_Meta wflow = wf_Meta stored →
    progress wflow → patch_changes stored wflow resp err w2 = (r, w') →
    map_Forall (λ _, progress) (kworkflows w')) as Hpatch.
  { intros stored wflow resp err w2 Hw2 Hst Hm Hp Hrun2.
    destruct (patch_spec stored wflow resp err w2) as (rp & w3 & Hrun3 & Hc); [by rewrite Hw2|done|].
    rewrite Hrun2 in Hrun3. simplify_eq. destruct Hc as [[-> _]|[-> _]]; rewrite Hw2; [done|].
    apply map_Forall_insert_2; [|done]. by apply progress_stored. }
  destruct g as [stored|e]; simpl in Hr; [|destruct (err_is e KubeNotFound); unfold go_ret in Hrun; by simplify_eq].
  rewrite <- Hw1 in Hr.
  pose proof (Hall _ _ Hr) as Hp.
  assert (workflow_key stored = (ns, name)) as Hkey by by eapply kworkflows_key.
  rewrite <- Hkey in Hr.
  destruct (process_spec stored w1) as (o & w2 & Hn & (Hw2 & _) & Ho).
  unfold go_bind in Hrun. rewrite Hn in Hrun.
  destruct o as [[[[resp err] wf]|]|?|?]; [|unfold go_ret in Hrun; simplify_eq; by rewrite Hw2..].
  eapply Hpatch; [done|done|apply Ho| |done]. by eapply processed_progress.
Qed.
End reliable.

(** ** Properties *)
Section properties.
#[local] Set Default Proof Using "Type*".
Context {W : Type} `{KL : KubeLaws W} `{TE : TemplateEnv}.

(** C15 A new workflow whose template exists and renders with the hardware map
    (and, under the key Hardware, the disks of the referenced hardware, which
    overrides an entry of that name) becomes pending with the tasks of the
    rendered template, when the API answers; the reconciliation reports no error
    and asks for no requeue. *)
Theorem reconcile_new_workflow ns name w stored tpl hw wf buf :
  kube_reliable W →
  kworkflows w !! (ns, name) = Some stored →
  st_State (wf_Status stored) = "" → om_DeletionTimestamp (wf_Meta stored) = None →
  ktemplates w !! (ns, sp_TemplateRef (wf_Spec stored)) = Some tpl →
  khardware w !! (ns, sp_HardwareRef (wf_Spec stored)) = Some hw →
  RenderTemplateHardware name (default "" (tp_Data tpl))
    (<["Hardware" := VHardware (dk_Device <$> hs_Disks (hw_Spec hw))]>
       (VString <$> sp_HardwareMap (wf_Spec stored))) = Ok (wf, buf) →
  ∃ w', Reconcile ns name w = (Ret (noResult, None), w') ∧
    kworkflows w' = <[(ns, name) := set_wf_status (stored_status
      {| st_State := WorkflowStatePending; st_GlobalTimeout := yw_GlobalTimeout wf;
         st_Tasks := task_of_yaml <$> yw_Tasks wf |}) stored]> (kworkflows w).
Proof. apply reconcile_new. Qed.

(** C4 Reconciling a running workflow that has started and is not being deleted, at
    time [now], when the API answers: an action times out exactly when it is running and its start time plus its timeout (in
    seconds, as a 64-bit duration) is past; the workflow times out exactly when
    an action does or the global timeout is past; otherwise nothing changes. *)
Theorem reconcile_timeouts now ns name w stored start :
  kube_reliable W → frozen_clock W now →
  kworkflows w !! (ns, name) = Some stored →
  st_State (wf_Status stored) = WorkflowStateRunning →
  om_DeletionTimestamp (wf_Meta stored) = None → GetStartTime stored = Some start →
  ∃ w', Reconcile ns name w = (Ret (noResult, None), w') ∧
    if timed_out now stored start then
      ∃ wf', kworkflows w' = <[(ns, name) := wf']> (kworkflows w) ∧
        st_State (wf_Status wf') = WorkflowStateTimeout ∧
        statuses wf' = (λ x, if action_expired now (sl_action x) then WorkflowStateTimeout
                             else ac_Status (sl_action x)) <$> slots stored
    else kworkflows w' = kworkflows w.
Proof.
  intros Hrel Hclock Hst Hrun Hdel Hstart.
  destruct (reconcile_get ns name w stored Hrel Hst) as (w1 & H1 & (Hw1 & _) & Hns & Hnm).
  unfold Reconcile. rewrite (go_bind_Ret _ _ _ _ _ H1).
  destruct (processRunning_frozen now Hclock stored start w1 Hstart) as (w2 & H2 & Hw2 & _).
  rewrite (go_bind_Ret _ _ _ _ _ (process_running _ _ _ _ _ Hdel Hrun H2)).
  destruct (timed_out now stored start) eqn:Hto.
  - destruct (patch_ok stored (expire_workflow now stored start) noResult None w2 Hrel)
      as (w3 & H3 & Hw3).
    + unfold workflow_key. by rewrite Hns, Hnm, Hw2, Hw1.
    + done.
    + intros Heq. apply (f_equal (λ x, st_State (wf_Status x))) in Heq. simpl in Heq.
      by rewrite Hto, Hrun in Heq.
    + exists w3. split; [done|]. unfold workflow_key in Hw3. rewrite Hns, Hnm, Hw2, Hw1 in Hw3.
      eexists. split; [done|]. simpl. rewrite Hto. split; [done|].
      unfold statuses. simpl. rewrite tasks_statuses_stored. apply expire_statuses.
  - rewrite expire_workflow_none by done. unfold patch_changes. rewrite decide_True by done.
    exists w2. split; [done|]. by rewrite Hw2.
Qed.

(** The controller leaves a pending, failed, timed-out or succeeded workflow
    and one that is being deleted as it is, and does not ask for a requeue. *)
Theorem reconcile_settled_noop ns name w stored :
  kube_reliable W → kworkflows w !! (ns, name) = Some stored →
  om_DeletionTimestamp (wf_Meta stored) ≠ None ∨
  (st_State (wf_Status stored) ≠ "" ∧ st_State (wf_Status stored) ≠ WorkflowStateRunning) →
  ∃ w', Reconcile ns name w = (Ret (noResult, None), w') ∧ same_cluster w w'.
Proof.
  intros Hrel Hst Hset.
  destruct (reconcile_get ns name w stored Hrel Hst) as (w1 & H1 & Hs1 & _).
  unfold Reconcile. rewrite (go_bind_Ret _ _ _ _ _ H1). exists w1. unfold process_workflow.
  destruct (om_DeletionTimestamp (wf_Meta stored)); [done|].
  destruct Hset as [|[? ?]]; [done|]. by rewrite !decide_False.
Qed.

(** The controller panics on every running workflow whose first task has no
    action or whose first action has no start time: [GetStartTime] is nil and is
    dereferenced. *)
Theorem reconcile_panics_without_start ns name w stored :
  kube_reliable W → kworkflows w !! (ns, name) = Some stored →
  st_State (wf_Status stored) = WorkflowStateRunning →
  om_DeletionTimestamp (wf_Meta stored) = None → GetStartTime stored = None →
  ∃ m w', Reconcile ns name w = (Panic m, w').
Proof.
  intros Hrel Hst Hrun Hdel Hstart.
  destruct (reconcile_get ns name w stored Hrel Hst) as (w1 & H1 & _).
  unfold Reconcile. rewrite (go_bind_Ret _ _ _ _ _ H1). unfold process_workflow.
  rewrite Hdel, Hrun.
  rewrite decide_False, decide_True by done. unfold processRunningWorkflow.
  destruct (nowFunc_reads w1) as (now & w2 & Hn & _). unfold go_bind. rewrite Hn, Hstart.
  eauto.
Qed.
End properties.

(** ** Witnesses *)
Definition demo_template : Template :=
  {| tp_TypeMeta := {| tm_Kind := "Template"; tm_APIVersion := "tinkerbell.org/v1alpha1" |};
     tp_Meta := {| om_Name := "tpl"; om_Namespace := "default"; om_Annotations := None;
                   om_CreationTimestamp := 0; om_DeletionTimestamp := None |};
     tp_Data := Some "yaml" |}.

Definition demo_hardware : Hardware :=
  {| hw_TypeMeta := {| tm_Kind := "Hardware"; tm_APIVersion := "tinkerbell.org/v1alpha1" |};
     hw_Meta := {| om_Name := "hw"; om_Namespace := "default"; om_Annotations := None;
                   om_CreationTimestamp := 0; om_DeletionTimestamp := None |};
     hw_Spec := {| hs_BMCRef := None; hs_Interfaces := []; hs_Metadata := None;
                   hs_TinkVersion := 0; hs_Disks := [{| dk_Device := "/dev/sda" |}];
                   hs_Resources := ∅; hs_UserData := None; hs_VendorData := None |};
     hw_StatusState := "" |}.

Definition demo_full (st : WorkflowState) (l : list Task) : memKube :=
  {| mk_workflows := {[ ("default", "wf1") := demo_workflow st l ]}; mk_keys := demo_keys st l;
     mk_templates := {[ ("default", "tpl") := demo_template ]};
     mk_hardware := {[ ("default", "hw") := demo_hardware ]}; mk_tick := 0 |}.

#[local] Instance demo_env : TemplateEnv := const_template_env demo_yaml.

Definition started_action (n : string) (t : Z) : Action :=
  set_started (Some t) (demo_action n WorkflowStateRunning).

Lemma reconcile_new_workflow_witness :
  ∃ w', Reconcile "default" "wf1" (demo_full "" []) = (Ret (noResult, None), w') ∧
    st_State ∘ wf_Status <$> kworkflows w' !! ("default", "wf1") = Some WorkflowStatePending.
Proof.
  destruct (reconcile_new_workflow "default" "wf1" (demo_full "" []) (demo_workflow "" [])
    demo_template demo_hardware demo_yaml "" demo_reliable) as (w' & Hrun & Hw);
    [reflexivity..|].
  exists w'. split; [exact Hrun|]. rewrite Hw, lookup_insert_eq. reflexivity.
Defined.

Lemma reconcile_timeouts_witness :
  let stored := demo_workflow WorkflowStateRunning
    [demo_task "t" "w" [started_action "a" (990 * second); demo_action "b" WorkflowStatePending]] in
  ∃ w', Reconcile "default" "wf1" (demo_full WorkflowStateRunning (st_Tasks (wf_Status stored))) =
    (Ret (noResult, None), w') ∧
    kworkflows w' = {[ ("default", "wf1") := stored ]}.
Proof.
  intros stored.
  destruct (reconcile_timeouts (1000 * second) "default" "wf1"
    (demo_full WorkflowStateRunning (st_Tasks (wf_Status stored))) stored (990 * second)
    demo_reliable demo_frozen) as (w' & Hrun & Hw); [reflexivity..|].
  exists w'. split; [exact Hrun|]. exact Hw.
Defined.

Lemma reconcile_settled_noop_witness :
  ∃ w', Reconcile "default" "wf1" (demo_full WorkflowStateFailed []) =
    (Ret (noResult, None), w') ∧ same_cluster (demo_full WorkflowStateFailed []) w'.
Proof.
  refine (reconcile_settled_noop "default" "wf1" (demo_full WorkflowStateFailed [])
    (demo_workflow WorkflowStateFailed []) demo_reliable eq_refl _).
  right. split; by vm_compute.
Defined.

Lemma reconcile_panics_without_start_witness :
  ∃ m w', Reconcile "default" "wf1" (demo_full WorkflowStateRunning
    [demo_task "t0" "w" []; demo_task "t1" "w" [started_action "a" 0]]) = (Panic m, w').
Proof.
  refine (reconcile_panics_without_start "default" "wf1" (demo_full WorkflowStateRunning
    [demo_task "t0" "w" []; demo_task "t1" "w" [started_action "a" 0]])
    (demo_workflow WorkflowStateRunning
    [demo_task "t0" "w" []; demo_task "t1" "w" [started_action "a" 0]])
    demo_reliable eq_refl eq_refl eq_refl eq_refl).
Defined.

(** An action without a timeout has expired as soon as the clock has moved,
    while the worker gives it an hour. *)
Example zero_timeout_expires :
  action_expired (1000 * second + 1)
    (set_started (Some (1000 * second))
      {| ac_Name := "a"; ac_Image := "img"; ac_Timeout := 0; ac_Command := []; ac_Volumes := [];
         ac_Pid := ""; ac_Environment := ∅; ac_Status := WorkflowStateRunning;
         ac_StartedAt := None; ac_Seconds := 0; ac_Message := "" |}) = true.
Proof. reflexivity. Qed.
