(* ===== verification/K8sSystem.v ===== *)
(** * K8sSystem: the server and the controller on one cluster

    The steps of the Kubernetes backend as a relation (reports of workers, calls
    that read, reconciliations, creation of workflows by users), the invariant of
    every reachable cluster, and a run of a whole workflow. *)
From S2P Require Import Prelude Proto Template Crd Progress Convert Kube Service K8sServer Controller.
From stdpp Require Import options.

Section steps.
Context {W : Type} `{KC : KubeClient W} `{MR : MapRange} `{TE : TemplateEnv}.
Context (namespace : string).

Inductive kstep : W → W → Prop :=
  | kstep_report req w r w' :
      known_state (ws_ActionStatus req) →
      K8sServer.ReportActionStatus namespace req w = (r, w') → kstep w w'
  | kstep_contexts fails workerID w r w' sent :
      K8sServer.GetWorkflowContexts namespace fails workerID (w, []) = (r, (w', sent)) → kstep w w'
  | kstep_actions id w r w' :
      K8sServer.GetWorkflowActions namespace id w = (r, w') → kstep w w'
  | kstep_reconcile ns name w r w' :
      Reconcile ns name w = (r, w') → kstep w w'
  | kstep_create wf w w' :
      st_Tasks (wf_Status wf) = [] →
      kworkflows w' = <[workflow_key wf := wf]> (kworkflows w) → kstep w w'
  | kstep_delete k w w' :
      kworkflows w' = delete k (kworkflows w) → kstep w w'.
End steps.

Definition report_of (id tn n : string) (s : State) : WorkflowActionStatus :=
  {| ws_WorkflowId := id; ws_TaskName := tn; ws_ActionName := n; ws_ActionStatus := s;
     ws_Seconds := 0; ws_Message := ""; ws_CreatedAt := None; ws_WorkerId := "" |}.
Definition task_reports (id tn : string) (names : list string) : list WorkflowActionStatus :=
  names ≫= λ n, [report_of id tn n State_STATE_RUNNING; report_of id tn n State_STATE_SUCCESS].

(** ** One task *)
Lemma shape_single wf tn names :
  shape wf = [(tn, names)] →
  ∃ t, st_Tasks (wf_Status wf) = [t] ∧ tk_Name t = tn ∧ ac_Name <$> tk_Actions t = names.
Proof.
  unfold shape, task_shape. destruct (st_Tasks (wf_Status wf)) as [|t [|t' l]]; csimpl; [done| |done].
  intros [= <- <-]. eauto.
Qed.

Lemma shape_length tn names wf : shape wf = [(tn, names)] → length (slots wf) = length names.
Proof.
  intros Hsh. destruct (shape_single _ _ _ Hsh) as (t & Ht & _ & Hn).
  unfold slots. rewrite Ht. simpl. by rewrite app_nil_r, length_task_slots, <- Hn, length_fmap.
Qed.

Lemma single_task_current wf tn names i s rest :
  shape wf = [(tn, names)] →
  statuses wf = replicate i WorkflowStateSuccess ++ s :: rest → open_status s →
  ∃ x, current_slot wf = Some (i, x) ∧ sl_ai x = i ∧ tk_Name (sl_task x) = tn ∧
    names !! i = Some (ac_Name (sl_action x)).
Proof.
  intros Hsh Hst Ho. rewrite statuses_slots in Hst.
  destruct (shape_single _ _ _ Hsh) as (t & Ht & Htn & Hnames).
  assert (slots wf = task_slots 0 t) as Hsl.
  { unfold slots. rewrite Ht. simpl. by rewrite app_nil_r. }
  assert (∃ x, slots wf !! i = Some x ∧ ac_Status (sl_action x) = s) as (x & Hx & Hxs).
  { assert ((λ x, ac_Status (sl_action x)) <$> slots wf !! i = Some s) as Hl.
    { rewrite <- list_lookup_fmap, Hst, lookup_app_r by by rewrite length_replicate.
      by rewrite length_replicate, Nat.sub_diag. }
    apply fmap_Some in Hl as (x & Hx & ->). eauto. }
  exists x. pose proof Hx as Hx'. rewrite Hsl in Hx'. unfold task_slots in Hx'.
  apply list_lookup_imap_Some in Hx' as (a & Ha & ->). split_and!.
  - apply list_find_Some. split_and!; [done|by rewrite <- Hxs in Ho|].
    intros j y Hy Hlt. apply success_not_open.
    assert ((λ x, ac_Status (sl_action x)) <$> slots wf !! j = Some WorkflowStateSuccess) as Hl.
    { rewrite <- list_lookup_fmap, Hst, lookup_app_l by by rewrite length_replicate.
      by apply lookup_replicate_2. }
    rewrite Hy in Hl. by simplify_eq/=.
  - done.
  - done.
  - rewrite <- Hnames, list_lookup_fmap, Ha. done.
Qed.

Lemma single_task_progress wf tn names i s n :
  shape wf = [(tn, names)] → NoDup names →
  statuses wf = replicate i WorkflowStateSuccess ++ s :: replicate n WorkflowStatePending →
  known_status s → progress wf.
Proof.
  intros Hsh Hnd Hst Hs. split.
  - rewrite Hst. split.
    + apply Forall_app. split; [apply Forall_replicate; by left|]. constructor; [done|].
      apply Forall_replicate. right. by left.
    + exists i. rewrite take_app_le, take_ge by (rewrite length_replicate; lia).
      split; [by apply Forall_replicate|].
      rewrite drop_app_ge by (rewrite length_replicate; lia).
      rewrite length_replicate. replace (S i - i)%nat with 1%nat by lia.
      by apply Forall_replicate.
  - unfold names_ok, tasks_names_ok. destruct (shape_single _ _ _ Hsh) as (t & -> & _ & Hn).
    split; [apply NoDup_singleton|]. apply Forall_singleton. by rewrite Hn.
Qed.

(** A defined state other than PENDING is shown, except for a success before the end. *)
Lemma reported_state_known s (last : Prop) `{!Decision last} (cur : WorkflowState) :
  known_state s → s ≠ State_STATE_PENDING →
  (if decide (s = State_STATE_RUNNING ∨ s = State_STATE_FAILED ∨ s = State_STATE_TIMEOUT ∨
              (s = State_STATE_SUCCESS ∧ last)) then state_name_of s else cur) =
  (if decide (s = State_STATE_SUCCESS ∧ ¬ last) then cur else state_name_of s).
Proof.
  unfold known_state. intros Hk Hn.
  assert (s = State_STATE_RUNNING ∨ s = State_STATE_FAILED ∨ s = State_STATE_TIMEOUT ∨
    s = State_STATE_SUCCESS) as Hc by (unfold State_STATE_RUNNING, State_STATE_FAILED,
      State_STATE_TIMEOUT, State_STATE_SUCCESS, State_STATE_PENDING in *; lia).
  repeat case_decide; try done; exfalso; destruct Hc as [->|[->|[->| ->]]]; naive_solver.
Qed.

Section run.
#[local] Set Default Proof Using "Type*".
Context {W : Type} `{KL : KubeLaws W} `{MR : MapRange} `{TE : TemplateEnv}.
Context (namespace id tn : string) (names : list string).
Context (Hrel : kube_reliable W) (Hid : id ≠ "") (Htn : tn ≠ "").
Context (Hnames : Forall (.≠ "") names) (Hnd : NoDup names).
Context (Hlen : Z.of_nat (length names) < 2 ^ 63).

(** The workflow is stored, its first [i] actions have succeeded, the next one
    has status [s] and [n] pending ones follow. *)
Definition at_stage (w : W) (i : nat) (s : WorkflowState) (n : nat) (st : WorkflowState) : Prop :=
  ∃ wf, kworkflows w !! (namespace, id) = Some wf ∧ shape wf = [(tn, names)] ∧
    statuses wf = replicate i WorkflowStateSuccess ++ s :: replicate n WorkflowStatePending ∧
    st_State (wf_Status wf) = st.

Lemma stage_report req w i s n st :
  at_stage w i s n st → open_status s →
  ws_WorkflowId req = id → ws_TaskName req = tn → names !! i = Some (ws_ActionName req) →
  known_state (ws_ActionStatus req) → ws_ActionStatus req ≠ State_STATE_PENDING →
  ∃ w' wf', K8sServer.ReportActionStatus namespace req w = (Ret None, w') ∧
    kworkflows w' !! (namespace, id) = Some wf' ∧ shape wf' = [(tn, names)] ∧
    statuses wf' = replicate i WorkflowStateSuccess ++ state_name_of (ws_ActionStatus req) ::
                   replicate n WorkflowStatePending ∧
    st_State (wf_Status wf') =
      (if decide (ws_ActionStatus req = State_STATE_SUCCESS ∧ S i ≠ length names)
       then st else state_name_of (ws_ActionStatus req)).
Proof.
  intros (wf & Hwf & Hsh & Hst & Hstate) Ho Hreq Htask Hact Hk Hnp.
  destruct (single_task_current wf tn names i s _ Hsh Hst Ho) as (x & Hc & Hai & Hxt & Hxn).
  assert (ws_ActionName req = ac_Name (sl_action x)) as Han by congruence.
  assert (progress wf) as Hp by (eapply single_task_progress; [done..|by right]).
  pose proof (shape_length tn names wf Hsh) as Hsl.
  rewrite Forall_forall in Hnames. pose proof (Hnames _ (list_elem_of_lookup_2 _ _ _ Hxn)) as Hne.
  destruct (report_effect namespace req wf i x w)
    as (r & w' & Hrun & Hr); [by rewrite Hreq|done|done|done|by rewrite Hsl| | | |];
    [|congruence|congruence|].
  { unfold validateActionStatusRequest. by rewrite Hreq, Htask, Han, !decide_False. }
  destruct r as [e|].
  { exfalso. rewrite Hreq in Hr.
    destruct Hr as [[_ [?|(e' & w1 & Hg)]]|(_ & wf1 & w1 & e' & _ & _ & Hu)]; [done| |].
    - destruct Hrel as (Hg' & _). pose proof (Hg' _ _ _ _ _ Hg) as Hnf.
      destruct (kget_workflow_reads namespace id w) as (rr & w2 & Hg2 & _ & Hrd).
      rewrite Hg in Hg2. simplify_eq. simpl in Hrd. by rewrite Hrd in Hwf.
    - destruct Hrel as (_ & _ & _ & _ & Hu'). by apply Hu' in Hu. }
  destruct Hr as (_ & wf' & (_ & _ & Hsh' & Hst' & Hs') & Hw'). exists w', wf'.
  split_and!; [done| |by rewrite Hsh'| |].
  - by rewrite Hw', Hreq, lookup_insert_eq.
  - rewrite Hst', Hst. rewrite insert_app_r_alt by by rewrite length_replicate.
    by rewrite length_replicate, Nat.sub_diag.
  - rewrite Hs', Hsl, Hstate. by apply reported_state_known.
Qed.

Lemma run_suffix suf pre w wf :
  names = pre ++ suf →
  kworkflows w !! (namespace, id) = Some wf → shape wf = [(tn, names)] →
  statuses wf = replicate (length pre) WorkflowStateSuccess ++
                replicate (length suf) WorkflowStatePending →
  (suf = [] → st_State (wf_Status wf) = WorkflowStateSuccess) →
  ∃ w' wf', run_reports (K8sServer.ReportActionStatus namespace) (task_reports id tn suf) w = (Ret None, w') ∧
    kworkflows w' !! (namespace, id) = Some wf' ∧
    statuses wf' = replicate (length names) WorkflowStateSuccess ∧
    st_State (wf_Status wf') = WorkflowStateSuccess.
Proof.
  revert pre w wf. induction suf as [|n suf IH]; intros pre w wf Hn Hwf Hsh Hst Hs.
  { exists w, wf. split_and!; [done|done| |by apply Hs].
    by rewrite Hst, Hn, !app_nil_r. }
  assert (names !! length pre = Some n) as Hnm by by rewrite Hn, list_lookup_middle.
  destruct (stage_report (report_of id tn n State_STATE_RUNNING) w (length pre)
    WorkflowStatePending (length suf) (st_State (wf_Status wf)))
    as (w1 & wf1 & Hrun1 & Hwf1 & Hsh1 & Hst1 & Hs1);
    [by exists wf|by left|done..|by apply (bool_decide_unpack _)|done|].
  destruct (stage_report (report_of id tn n State_STATE_SUCCESS) w1 (length pre)
    WorkflowStateRunning (length suf) (st_State (wf_Status wf1)))
    as (w2 & wf2 & Hrun2 & Hwf2 & Hsh2 & Hst2 & Hs2);
    [by exists wf1|by right; left|done..|by apply (bool_decide_unpack _)|done|].
  change (task_reports id tn (n :: suf)) with
    (report_of id tn n State_STATE_RUNNING :: report_of id tn n State_STATE_SUCCESS ::
     task_reports id tn suf).
  rewrite (run_reports_cons _ _ _ _ _ Hrun1), (run_reports_cons _ _ _ _ _ Hrun2).
  apply (IH (pre ++ [n]) w2 wf2); [by rewrite <- (assoc_L (++))|done|done| |].
  - rewrite Hst2, length_app, replicate_add, <- (assoc_L (++)). done.
  - intros ->. rewrite Hs2. rewrite decide_False; [done|]. intros [_ Hne]. apply Hne.
    rewrite Hn, length_app. simpl. lia.
Qed.
End run.

(** ** Properties *)
Section properties.
#[local] Set Default Proof Using "Type*".
Context {W : Type} `{KL : KubeLaws W} `{MR : MapRange} `{TE : TemplateEnv}.
Context (namespace : string).

(** In every cluster reached from one that satisfies the invariant by reports
    of defined states, reads, reconciliations (which may fail or panic), and the
    creation and deletion of workflows, every stored workflow is in order: its
    succeeded actions come first, then at most one action in any other state,
    then pending actions only, and its task and action names are distinct. *)
Theorem k8s_reachable_progress w w' :
  map_Forall (λ _, progress) (kworkflows w) →
  rtc (kstep namespace) w w' →
  map_Forall (λ _, progress) (kworkflows w').
Proof.
  intros Hw Hstar. revert Hw. induction Hstar as [|w w1 w' Hstep _ IH]; [done|]. intros Hw.
  apply IH. clear IH. destruct Hstep as
    [req w r w1 Hk Hr|fails wid w r w1 sent Hr|id w r w1 Hr|ns name w r w1 Hr|wf w w1 Ht Hr|k w w1 Hr].
  - by eapply report_progress.
  - rewrite (proj1 (contexts_same _ _ _ _ _ _ _ Hr)). done.
  - rewrite (proj1 (actions_same _ _ _ _ _ Hr)). done.
  - by eapply reconcile_progress.
  - rewrite Hr. apply map_Forall_insert_2; [|done].
    split; [by apply all_pending_progress; unfold statuses; rewrite Ht|].
    unfold names_ok. rewrite Ht. by repeat constructor.
  - rewrite Hr. by apply map_Forall_delete.
Qed.

(** A workflow of one task runs to its end: when the API answers, a worker
    that reports each action running and then successful, in order, has every
    report accepted, and afterwards all actions and the workflow have succeeded. *)
Theorem k8s_single_task_completes id tn names w wf :
  kube_reliable W → id ≠ "" → tn ≠ "" → Forall (.≠ "") names → NoDup names → names ≠ [] →
  Z.of_nat (length names) < 2 ^ 63 →
  kworkflows w !! (namespace, id) = Some wf → shape wf = [(tn, names)] →
  Forall (.= WorkflowStatePending) (statuses wf) →
  ∃ w' wf', run_reports (K8sServer.ReportActionStatus namespace) (task_reports id tn names) w = (Ret None, w') ∧
    kworkflows w' !! (namespace, id) = Some wf' ∧
    statuses wf' = replicate (length names) WorkflowStateSuccess ∧
    st_State (wf_Status wf') = WorkflowStateSuccess.
Proof.
  intros Hrel Hid Htn Hnm Hnd Hne Hlen Hwf Hsh Hst.
  refine (run_suffix namespace id tn names Hrel Hid Htn Hnm Hnd Hlen names [] w wf _ _ _ _ _);
    [done|done|done| |done].
  simpl. symmetry. apply replicate_as_Forall_2.
  - by rewrite statuses_slots, length_fmap, (shape_length tn names).
  - eapply Forall_impl; [done|]. by intros ? ->.
Qed.
End properties.

(** ** Witnesses *)
#[local] Existing Instance mapRange_list.

Definition demo_pending : list Task :=
  [demo_task "t1" "w1" [demo_action "a" WorkflowStatePending; demo_action "b" WorkflowStatePending]].

(** The status of a template whose first task has no action, as the validator
    allows. *)
Definition demo_empty_first : YWorkflow :=
  {| yw_Version := "0.1"; yw_Name := "n"; yw_ID := ""; yw_GlobalTimeout := 600;
     yw_Tasks := [{| yt_Name := "t0"; yt_WorkerAddr := "w1"; yt_Actions := [];
                     yt_Volumes := []; yt_Environment := ∅ |};
                  {| yt_Name := "t1"; yt_WorkerAddr := "w1"; yt_Actions := [
                       {| ya_Name := "a"; ya_Image := "img"; ya_Timeout := 5; ya_Command := [];
                          ya_OnTimeout := []; ya_OnFailure := []; ya_Volumes := [];
                          ya_Environment := ∅; ya_Pid := "" |}];
                     yt_Volumes := []; yt_Environment := ∅ |}] |}.
#[local] Instance demo_empty_env : TemplateEnv := const_template_env demo_empty_first.

Lemma k8s_reachable_progress_witness :
  map_Forall (λ _, progress)
    (kworkflows (K8sServer.ReportActionStatus "default" (report_of "wf1" "t1" "a" 1)
      (demo_cluster WorkflowStatePending demo_pending)).2).
Proof.
  eapply (k8s_reachable_progress "default" (demo_cluster WorkflowStatePending demo_pending)).
  - apply map_Forall_singleton. split; [by apply (progress_list_compute _ 0)|by apply names_ok_compute].
  - apply rtc_once. eapply (kstep_report "default" (report_of "wf1" "t1" "a" 1));
      [by apply (bool_decide_unpack _)|apply surjective_pairing].
Defined.

Lemma k8s_single_task_completes_witness :
  ∃ w' wf', run_reports (K8sServer.ReportActionStatus "default") (task_reports "wf1" "t1" ["a"; "b"])
    (demo_cluster WorkflowStatePending demo_pending) = (Ret None, w') ∧
    kworkflows w' !! ("default", "wf1") = Some wf' ∧
    statuses wf' = [WorkflowStateSuccess; WorkflowStateSuccess] ∧
    st_State (wf_Status wf') = WorkflowStateSuccess.
Proof.
  refine (k8s_single_task_completes "default" "wf1" "t1" ["a"; "b"]
    (demo_cluster WorkflowStatePending demo_pending) (demo_workflow WorkflowStatePending demo_pending)
    demo_reliable _ _ _ _ _ _ _ _ _); [done|done| | |done|done|reflexivity|reflexivity|].
  - by repeat constructor.
  - apply (bool_decide_unpack _). by vm_compute.
  - by repeat constructor.
Defined.

(** The controller panics on a workflow it made itself: the first task of the
    template is empty, the worker starts the action of the second one, and the
    next reconciliation dereferences the nil start time. *)
Example controller_panics_on_empty_first_task :
  let w1 := (Reconcile "default" "wf1" (demo_full "" [])).2 in
  let '(r, w2) := K8sServer.ReportActionStatus "default" (report_of "wf1" "t1" "a" 1) w1 in
  r = Ret None ∧
  (Reconcile "default" "wf1" w2).1 = Panic "invalid memory address or nil pointer dereference".
Proof. vm_compute. done. Qed.
