(* ===== verification/K8sRace.v ===== *)
(** * K8sRace: the handlers and the controller, interleaved

    The server and the controller read through caches that lag behind, and write
    to the API server later. Here their calls are split where the API is called:
    a call reads some version of a workflow that was stored at some time, computes
    what it will write ([report_workflow], [process_workflow]), and the write
    arrives when the object may have changed. [Status().Update] carries the version
    that was read and is refused when it is not the current one; the controller's
    [Status().Patch] with [client.MergeFrom] carries no version, and replaces the
    fields of the status that it has changed, the list of tasks as a whole. *)
From S2P Require Import Prelude Proto Template Crd Progress Convert Kube Service K8sServer Controller K8sSystem.
From stdpp Require Import options.

(** ** The API server *)
Record Api := {
  a_objects : gmap key (nat * Workflow);
  (** Every version stored so far: what a cache may hold. *)
  a_versions : list (nat * Workflow);
  a_next : nat
}.

Definition api_store (k : key) (wf : Workflow) (s : Api) : Api :=
  {| a_objects := <[k := (a_next s, wf)]> (a_objects s);
     a_versions := (a_next s, wf) :: a_versions s;
     a_next := S (a_next s) |}.
Definition api_delete (k : key) (s : Api) : Api :=
  {| a_objects := delete k (a_objects s); a_versions := a_versions s; a_next := a_next s |}.

(** A JSON merge patch of the status: a field is sent when it has changed. *)
Record StatusPatch := {
  mp_State : option WorkflowState; mp_GlobalTimeout : option Z; mp_Tasks : option (list Task) }.
Definition changed {A} `{EqDecision A} (a b : A) : option A := if decide (a = b) then None else Some b.
Definition MergeFrom (base wf : WorkflowStatus) : StatusPatch :=
  let base := stored_status base in
  let wf := stored_status wf in
  {| mp_State := changed (st_State base) (st_State wf);
     mp_GlobalTimeout := changed (st_GlobalTimeout base) (st_GlobalTimeout wf);
     mp_Tasks := changed (st_Tasks base) (st_Tasks wf) |}.
Definition apply_patch (p : StatusPatch) (st : WorkflowStatus) : WorkflowStatus :=
  {| st_State := default (st_State st) (mp_State p);
     st_GlobalTimeout := default (st_GlobalTimeout st) (mp_GlobalTimeout p);
     st_Tasks := default (st_Tasks st) (mp_Tasks p) |}.

(** Writes that were computed and have not arrived. *)
Inductive call :=
  | Update (req : WorkflowActionStatus) (rv : nat) (wf : Workflow)
  | Patch (base wf : Workflow).

Record Sys := { s_api : Api; s_calls : list call }.

(** The status of a resource that is created: it is not taken from its author. *)
Definition no_status : WorkflowStatus := {| st_State := ""; st_GlobalTimeout := 0; st_Tasks := [] |}.

Section race.
Context {W : Type} `{KC : KubeClient W} `{MR : MapRange} `{TE : TemplateEnv}.
Context (namespace : string).
(** [locked = true] leaves the runs in which a patch that is applied finds the status it
    was computed from, [locked = false] all runs; [defined = true] leaves the runs whose
    reports carry one of the five states that have a name, [defined = false] all runs (the
    handler accepts any number, and stores an empty status for the others). *)
Context (locked defined : bool).

Inductive rstep : Sys → Sys → Prop :=
  | r_report a l req rv wf w wf' w' :
      validateActionStatusRequest req = None →
      (defined = true → known_state (ws_ActionStatus req)) →
      (rv, wf) ∈ a_versions a → workflow_key wf = (namespace, ws_WorkflowId req) →
      report_workflow req wf w = (Ret (Ok wf'), w') →
      rstep {| s_api := a; s_calls := l |} {| s_api := a; s_calls := Update req rv wf' :: l |}
  | r_update a l1 l2 req rv wf cur :
      a_objects a !! workflow_key wf = Some (rv, cur) →
      rstep {| s_api := a; s_calls := l1 ++ Update req rv wf :: l2 |}
            {| s_api := api_store (workflow_key wf)
                 (set_wf_status (stored_status (wf_Status wf)) cur) a; s_calls := l1 ++ l2 |}
  | r_reconcile a l rv stored w resp err wf w' :
      (rv, stored) ∈ a_versions a →
      process_workflow stored w = (Ret (Some (resp, err, wf)), w') → wf ≠ stored →
      rstep {| s_api := a; s_calls := l |} {| s_api := a; s_calls := Patch stored wf :: l |}
  | r_patch a l1 l2 rv base wf cur :
      a_objects a !! workflow_key wf = Some (rv, cur) →
      (locked = true → wf_Status cur = wf_Status base) →
      rstep {| s_api := a; s_calls := l1 ++ Patch base wf :: l2 |}
            {| s_api := api_store (workflow_key wf)
                 (set_wf_status (apply_patch (MergeFrom (wf_Status base) (wf_Status wf))
                    (wf_Status cur)) cur) a; s_calls := l1 ++ l2 |}
  (** A conflict, another error, or the end of the program that called. A write that is
      stored although its caller gets an error is an [r_update] or an [r_patch]. *)
  | r_fail a l1 l2 c :
      rstep {| s_api := a; s_calls := l1 ++ c :: l2 |} {| s_api := a; s_calls := l1 ++ l2 |}
  | r_create a l wf :
      a_objects a !! workflow_key wf = None → wf_Status wf = no_status →
      rstep {| s_api := a; s_calls := l |}
            {| s_api := api_store (workflow_key wf) wf a; s_calls := l |}
  | r_edit a l rv cur wf :
      a_objects a !! workflow_key wf = Some (rv, cur) → wf_Status wf = wf_Status cur →
      rstep {| s_api := a; s_calls := l |}
            {| s_api := api_store (workflow_key wf) wf a; s_calls := l |}
  | r_delete a l k :
      rstep {| s_api := a; s_calls := l |} {| s_api := api_delete k a; s_calls := l |}.

Definition empty_sys : Sys :=
  {| s_api := {| a_objects := ∅; a_versions := []; a_next := 0 |}; s_calls := [] |}.
Definition reachable (s : Sys) : Prop := rtc rstep empty_sys s.
End race.

(** ** The invariant *)
Section system.
Context `{TE : TemplateEnv}.

Definition call_ok (vs : list (nat * Workflow)) (namespace : string) (defined : bool) (c : call) : Prop :=
  match c with
  | Update req rv wf' => ∃ wf, (rv, wf) ∈ vs ∧ validateActionStatusRequest req = None ∧
      (defined = true → known_state (ws_ActionStatus req)) ∧
      workflow_key wf = (namespace, ws_WorkflowId req) ∧ reports req wf wf'
  | Patch base wf => ∃ rv : nat, (rv, base) ∈ vs ∧ processed base wf
  end.

Record sys_ok (namespace : string) (defined : bool) (s : Sys) : Prop := {
  so_next rv wf : (rv, wf) ∈ a_versions (s_api s) → (rv < a_next (s_api s))%nat;
  so_unique rv wf wf' :
    (rv, wf) ∈ a_versions (s_api s) → (rv, wf') ∈ a_versions (s_api s) → wf = wf';
  so_objects k rv wf : a_objects (s_api s) !! k = Some (rv, wf) →
    (rv, wf) ∈ a_versions (s_api s) ∧ workflow_key wf = k;
  so_progress rv wf : defined = true → (rv, wf) ∈ a_versions (s_api s) → progress wf;
  so_calls : Forall (call_ok (a_versions (s_api s)) namespace defined) (s_calls s)
}.

Lemma call_ok_weaken vs v ns d c : call_ok vs ns d c → call_ok (v :: vs) ns d c.
Proof. destruct c; simpl; intros (? & ? & ?); eexists; (split; [by right|done]). Qed.

(** Storing a version, with some of the calls left. *)
Lemma sys_ok_store ns d a l l' wf :
  sys_ok ns d {| s_api := a; s_calls := l |} → l' ⊆ l → (d = true → progress wf) →
  sys_ok ns d {| s_api := api_store (workflow_key wf) wf a; s_calls := l' |}.
Proof.
  intros [Hnext Huniq Hobj Hprog Hcalls] Hl Hp. simpl in *.
  assert (∀ wf0, (a_next a, wf0) ∉ a_versions a) as Hnew by (intros wf0 H%Hnext; simpl in *; lia).
  split; simpl.
  - intros rv wf0 [[= -> ->]|H]%elem_of_cons; [lia|]. apply Hnext in H. lia.
  - intros rv w1 w2 [[= -> ->]|H1]%elem_of_cons [[= ]|H2]%elem_of_cons; subst;
      [done|by destruct (Hnew w2)|by destruct (Hnew w1)|by eapply Huniq].
  - intros k rv wf0 [[<- [= <- <-]]|[_ H]]%lookup_insert_Some; [by split; [left|]|].
    apply Hobj in H as [? ?]. by split; [right|].
  - intros rv wf0 Hd [[= -> ->]|H]%elem_of_cons; [by apply Hp|by eapply Hprog].
  - rewrite Forall_forall in Hcalls |- *. intros c Hc. apply call_ok_weaken, Hcalls, Hl, Hc.
Qed.

Lemma sys_ok_calls ns d a l l' :
  sys_ok ns d {| s_api := a; s_calls := l |} → Forall (call_ok (a_versions a) ns d) l' →
  sys_ok ns d {| s_api := a; s_calls := l' |}.
Proof. by intros [] ?. Qed.

End system.

Lemma drop_call {A} (l1 l2 : list A) c : l1 ++ l2 ⊆ l1 ++ c :: l2.
Proof. intros x. rewrite !elem_of_app, elem_of_cons. tauto. Qed.

(** The status that a patch leaves is in order when those it comes from are. *)
Lemma progress_tasks wf wf' :
  st_Tasks (wf_Status wf) = st_Tasks (wf_Status wf') → progress wf → progress wf'.
Proof. unfold progress, statuses, names_ok. by intros ->. Qed.

Lemma patch_progress base wf cur :
  progress wf → progress cur →
  progress (set_wf_status (apply_patch (MergeFrom (wf_Status base) (wf_Status wf)) (wf_Status cur)) cur).
Proof.
  intros Hwf Hcur.
  destruct (mp_Tasks (MergeFrom (wf_Status base) (wf_Status wf))) as [l|] eqn:E.
  2:{ apply (progress_tasks cur); [|done]. cbn [wf_Status set_wf_status apply_patch st_Tasks]. by rewrite E. }
  assert (l = st_Tasks (stored_status (wf_Status wf))) as ->.
  { unfold MergeFrom, changed in E. cbn [mp_Tasks] in E. by case_decide; simplify_eq. }
  - apply (progress_tasks (set_wf_status (stored_status (wf_Status wf)) cur)).
    + cbn [wf_Status set_wf_status apply_patch st_Tasks]. by rewrite E.
    + by apply progress_stored.
Qed.

Section invariant.
#[local] Set Default Proof Using "Type*".
Context {W : Type} `{KL : KubeLaws W} `{MR : MapRange} `{TE : TemplateEnv}.
Context (namespace : string) (locked defined : bool).

Lemma rstep_ok s s' : rstep namespace locked defined s s' → sys_ok namespace defined s → sys_ok namespace defined s'.
Proof.
  destruct 1 as [a l req rv wf w wf' w' Hv Hk Hin Hkey Hrun|a l1 l2 req rv wf cur Hobj
    |a l rv stored w resp err wf w' Hin Hrun Hne|a l1 l2 rv base wf cur Hobj Hlock|a l1 l2 c
    |a l wf Hno Hst|a l rv cur wf Hobj Hst|a l k]; intros Hok.
  - eapply sys_ok_calls; [done|]. constructor; [|apply Hok].
    destruct (report_workflow_spec req wf w) as (r & w1 & Hrun1 & _ & Hr).
    rewrite Hrun in Hrun1. simplify_eq. by exists wf.
  - pose proof (so_calls _ _ _ Hok) as
      [_ [(wf0 & Hin & Hv & Hk & Hkey & Hr) _]%Forall_cons]%Forall_app.
    pose proof (proj2 (so_objects _ _ _ Hok _ _ _ Hobj)) as Hkc. simpl in Hkc.
    assert (workflow_key (set_wf_status (stored_status (wf_Status wf)) cur) = workflow_key wf) as <-
      by done.
    eapply sys_ok_store; [exact Hok|apply drop_call|]. intros Hd. apply progress_stored.
    eapply reports_progress; [done|by apply Hk|done|]. by eapply (so_progress _ _ _ Hok).
  - eapply sys_ok_calls; [done|]. constructor; [|apply Hok].
    destruct (process_spec stored w) as (r & w1 & Hrun1 & _ & Hr).
    rewrite Hrun in Hrun1. simplify_eq. by exists rv.
  - pose proof (so_calls _ _ _ Hok) as [_ [(rv0 & Hin & Hp) _]%Forall_cons]%Forall_app.
    pose proof (so_objects _ _ _ Hok _ _ _ Hobj) as [Hc Hkc].
    assert (workflow_key (set_wf_status (apply_patch (MergeFrom (wf_Status base) (wf_Status wf))
      (wf_Status cur)) cur) = workflow_key wf) as <- by done.
    eapply sys_ok_store; [exact Hok|apply drop_call|]. intros Hd. apply patch_progress.
    + eapply processed_progress; [done|]. by eapply (so_progress _ _ _ Hok).
    + by eapply (so_progress _ _ _ Hok).
  - eapply sys_ok_calls; [done|]. pose proof (so_calls _ _ _ Hok) as Hc. simpl in Hc.
    rewrite Forall_app, Forall_cons in Hc. apply Forall_app. tauto.
  - eapply sys_ok_store; [done..|]. intros _. split; [|unfold names_ok; rewrite Hst; by repeat constructor].
    apply all_pending_progress. unfold statuses. by rewrite Hst.
  - eapply sys_ok_store; [done..|]. intros Hd.
    apply (progress_tasks cur); [by rewrite Hst|]. eapply (so_progress _ _ _ Hok); [done|].
    by eapply (so_objects _ _ _ Hok).
  - destruct Hok as [? ? Hobj ? ?]. split; try done. simpl in *.
    intros k' rv wf [_ Hl]%lookup_delete_Some. by apply Hobj.
Qed.

Lemma reachable_ok s : reachable namespace locked defined s → sys_ok namespace defined s.
Proof.
  intros Hr. assert (sys_ok namespace defined empty_sys) as Hinit.
  { split; simpl; [set_solver..|by constructor]. }
  revert Hinit. induction Hr as [|s0 s1 s2 Hstep _ IH]; [done|]. intros Hok.
  eapply IH, rstep_ok; eauto.
Qed.
End invariant.

(** ** Successes *)
Definition blank_ok (wf : Workflow) : Prop :=
  st_State (wf_Status wf) = "" → st_Tasks (wf_Status wf) = [].

Definition keeps_success (wf wf' : Workflow) : Prop :=
  ∀ i, statuses wf !! i = Some WorkflowStateSuccess → statuses wf' !! i = Some WorkflowStateSuccess.

#[local] Instance keeps_success_refl : Reflexive keeps_success.
Proof. by intros wf i. Qed.

Lemma statuses_stored wf base : statuses (set_wf_status (stored_status (wf_Status wf)) base) = statuses wf.
Proof. unfold statuses. simpl. apply tasks_statuses_stored. Qed.

(** A report rewrites an action that has not succeeded. *)
Lemma reports_keep_success req wf wf1 :
  validateActionStatusRequest req = None → progress wf → reports req wf wf1 → keeps_success wf wf1.
Proof.
  intros Hv Hp Hr j Hj. destruct (reports_current req wf wf1) as (i & x & f & Hc & Hf & ->);
    [done|apply Hp|apply statuses_known_statuses, Hp|done|].
  change (statuses (upd_state ?s ?w)) with (statuses w).
  rewrite (statuses_upd_action f wf i x) by by apply current_slot_lookup.
  apply list_find_Some in Hc as (Hx & Ho & _). rewrite list_lookup_insert_ne; [done|].
  intros ->. apply (success_not_open (ac_Status (sl_action x))); [|done].
  rewrite statuses_slots, list_lookup_fmap, Hx in Hj. by injection Hj.
Qed.

Lemma known_name_not_blank s : known_state s → state_name_of s ≠ "".
Proof. intros Hs E. apply known_state_status in Hs. rewrite E in Hs.
  apply (bool_decide_pack _) in Hs. by vm_compute in Hs. Qed.

Lemma reports_blank_ok req wf wf1 :
  validateActionStatusRequest req = None → known_state (ws_ActionStatus req) → progress wf →
  reports req wf wf1 → blank_ok wf → blank_ok wf1.
Proof.
  intros Hv Hk Hp Hr Hb Hs. destruct (reports_current req wf wf1) as (i & x & f & Hc & Hf & ->);
    [done|apply Hp|apply statuses_known_statuses, Hp|done|]. exfalso.
  simpl in Hs. unfold new_state in Hs. case_decide; [by apply known_name_not_blank in Hs|].
  apply Hb in Hs. unfold current_slot, slots in Hc. by rewrite Hs in Hc.
Qed.

(** A patch that arrives at the version it was computed from. *)
Definition patched (base wf cur : Workflow) : Workflow :=
  set_wf_status (apply_patch (MergeFrom (wf_Status base) (wf_Status wf)) (wf_Status cur)) cur.

Lemma patched_statuses base wf cur :
  wf_Status cur = wf_Status base → statuses (patched base wf cur) = statuses wf.
Proof.
  intros Hst.
  change (tasks_statuses (default (st_Tasks (wf_Status cur))
    (changed (stored_task <$> st_Tasks (wf_Status base)) (stored_task <$> st_Tasks (wf_Status wf)))) =
    tasks_statuses (st_Tasks (wf_Status wf))).
  rewrite <- (tasks_statuses_stored (st_Tasks (wf_Status wf))), Hst. unfold changed.
  case_decide as E; [|done]. simpl. rewrite <- E. symmetry. apply tasks_statuses_stored.
Qed.

Lemma patched_state base wf cur :
  wf_Status cur = wf_Status base → st_State (wf_Status (patched base wf cur)) = st_State (wf_Status wf).
Proof.
  intros Hst. change (default (st_State (wf_Status cur)) (changed (st_State (wf_Status base))
    (st_State (wf_Status wf))) = st_State (wf_Status wf)).
  rewrite Hst. unfold changed. by case_decide.
Qed.

Lemma processed_keep_success `{TemplateEnv} base wf :
  processed base wf → blank_ok base → keeps_success base wf.
Proof.
  intros [_ [->|[(Hs & _)|(_ & _ & Hf)]]] Hb i Hi; [done| |].
  - unfold statuses in Hi. by rewrite (Hb Hs) in Hi.
  - destruct (Forall2_lookup_l _ _ _ _ _ (task_step_statuses _ _ Hf) Hi) as (s & Hl & [->|[? _]]); done.
Qed.

(** A reconciliation makes no action successful. *)
Lemma processed_new_success `{TemplateEnv} base wf i :
  processed base wf → statuses wf ≠ statuses base →
  statuses base !! i ≠ Some WorkflowStateSuccess → statuses wf !! i ≠ Some WorkflowStateSuccess.
Proof.
  intros [_ [->|[(_ & ywf & _ & ->)|(_ & _ & Hf)]]] Hne Hi Hs; [done| |].
  - pose proof (fresh_tasks_statuses (yw_Tasks ywf)) as Hall. rewrite Forall_lookup in Hall.
    apply Hall in Hs. done.
  - destruct (Forall2_lookup_r _ _ _ _ _ (task_step_statuses _ _ Hf) Hs) as (s & Hl & [E|[_ E]]);
      [|done]. by subst s.
Qed.

(** A patch that changes the status of an action replaces all tasks. *)
Lemma patched_tasks base wf cur :
  statuses wf ≠ statuses base →
  st_Tasks (wf_Status (patched base wf cur)) = stored_task <$> st_Tasks (wf_Status wf).
Proof.
  intros Hne. change (default (st_Tasks (wf_Status cur))
    (changed (stored_task <$> st_Tasks (wf_Status base)) (stored_task <$> st_Tasks (wf_Status wf))) =
    stored_task <$> st_Tasks (wf_Status wf)).
  unfold changed. case_decide as E; [|done]. destruct Hne. unfold statuses.
  by rewrite <- (tasks_statuses_stored (st_Tasks (wf_Status wf))), <- E, tasks_statuses_stored.
Qed.

Lemma patched_blank_ok `{TemplateEnv} base wf cur :
  wf_Status cur = wf_Status base → processed base wf → blank_ok base → blank_ok (patched base wf cur).
Proof.
  intros Hst Hp Hb Hs. rewrite patched_state in Hs by done.
  destruct Hp as [_ [->|[(_ & ywf & _ & ->)|(_ & [E|E] & _)]]]; [|done|by rewrite E in Hs..].
  change (default (st_Tasks (wf_Status cur)) (changed (st_Tasks (stored_status (wf_Status base)))
    (st_Tasks (stored_status (wf_Status base)))) = []).
  unfold changed. rewrite decide_True by done. simpl. rewrite Hst. by apply Hb.
Qed.

Section successes.
#[local] Set Default Proof Using "Type*".
Context {W : Type} `{KL : KubeLaws W} `{MR : MapRange} `{TE : TemplateEnv}.
Context (namespace : string).

Definition all_blank_ok (s : Sys) : Prop :=
  ∀ rv wf, (rv, wf) ∈ a_versions (s_api s) → blank_ok wf.

Lemma blank_ok_store a l l' k wf :
  all_blank_ok {| s_api := a; s_calls := l |} → blank_ok wf →
  all_blank_ok {| s_api := api_store k wf a; s_calls := l' |}.
Proof. intros Ha Hw rv wf0 [[= -> ->]|Hin]%elem_of_cons; [done|by eapply Ha]. Qed.

(** One step, when no stale patch is applied. *)
Lemma rstep_locked s s' :
  rstep namespace true true s s' → sys_ok namespace true s → all_blank_ok s →
  all_blank_ok s' ∧
  ∀ k rv wf rv' wf', a_objects (s_api s) !! k = Some (rv, wf) →
    a_objects (s_api s') !! k = Some (rv', wf') → keeps_success wf wf'.
Proof.
  destruct 1 as [a l req rv wf w wf' w' Hv Hk Hin Hkey Hrun|a l1 l2 req rv wf cur Hobj
    |a l rv stored w resp err wf w' Hin Hrun Hne|a l1 l2 rv base wf cur Hobj Hlock|a l1 l2 c
    |a l wf Hno Hst|a l rv cur wf Hobj Hst|a l k]; intros Hok Hb.
  - split; [done|]. intros k ???? H1 H2. by simplify_eq/=.
  - pose proof (so_calls _ _ _ Hok) as
      [_ [(wf0 & Hin & Hv & Hk & Hkey & Hr) _]%Forall_cons]%Forall_app.
    pose proof (so_objects _ _ _ Hok _ _ _ Hobj) as [Hc _].
    assert (wf0 = cur) as -> by by eapply (so_unique _ _ _ Hok).
    pose proof (so_progress _ _ _ Hok _ _ eq_refl Hc) as Hp. specialize (Hk eq_refl). split.
    + eapply blank_ok_store; [done|]. intros Hs. simpl in Hs.
      eapply reports_blank_ok in Hr; [|done..|by eapply Hb]. simpl. by rewrite (Hr Hs).
    + simpl. intros k ? w1 ? w2 H1 [[<- [= <- <-]]|[_ H2]]%lookup_insert_Some; simplify_eq; [|done].
      intros i Hi. rewrite statuses_stored. by eapply reports_keep_success.
  - split; [done|]. intros k ???? H1 H2. by simplify_eq/=.
  - pose proof (so_calls _ _ _ Hok) as [_ [(rv0 & Hin & Hp) _]%Forall_cons]%Forall_app.
    specialize (Hlock eq_refl). pose proof (Hb _ _ Hin) as Hbb. split.
    + eapply blank_ok_store; [done|]. by apply patched_blank_ok.
    + simpl. intros k ? w1 ? w2 H1 [[<- [= <- <-]]|[_ H2]]%lookup_insert_Some; simplify_eq; [|done].
      intros i Hi. change (statuses (patched base wf cur) !! i = Some WorkflowStateSuccess).
      rewrite patched_statuses by done. eapply processed_keep_success; [done..|].
      unfold statuses in *. by rewrite <- Hlock.
  - split; [done|]. intros k ???? H1 H2. by simplify_eq/=.
  - split.
    + eapply blank_ok_store; [done|]. intros _. by rewrite Hst.
    + simpl. intros k ? w1 ? w2 H1 [[<- [= <- <-]]|[_ H2]]%lookup_insert_Some; simplify_eq. done.
  - split.
    + eapply blank_ok_store; [done|]. unfold blank_ok. rewrite Hst.
      eapply Hb. by eapply (so_objects _ _ _ Hok).
    + simpl. intros k ? w1 ? w2 H1 [[<- [= <- <-]]|[_ H2]]%lookup_insert_Some; simplify_eq; [|done].
      intros i Hi. unfold statuses in *. by rewrite Hst.
  - split; [done|]. simpl. intros k' ? w1 ? w2 H1 [_ H2]%lookup_delete_Some. by simplify_eq.
Qed.

Lemma reachable_blank_ok s : reachable namespace true true s → all_blank_ok s.
Proof.
  intros Hr. assert (sys_ok namespace true empty_sys ∧ all_blank_ok empty_sys) as [Hok Hb].
  { split; [|by intros rv wf ?%elem_of_nil]. apply (reachable_ok (W:=W) namespace true true), rtc_refl. }
  revert Hok Hb. induction Hr as [|s0 s1 s2 Hstep _ IH]; [done|]. intros Hok Hb.
  apply IH; [by eapply rstep_ok|by eapply rstep_locked].
Qed.

(** A version that is not current does not come back. *)
Lemma version_gone locked defined s s' k rv :
  rtc (rstep namespace locked defined) s s' → (rv < a_next (s_api s))%nat →
  (∀ c, a_objects (s_api s) !! k ≠ Some (rv, c)) → ∀ c, a_objects (s_api s') !! k ≠ Some (rv, c).
Proof.
  intros Hr Hlt Hno. assert ((rv < a_next (s_api s'))%nat ∧
    ∀ c, a_objects (s_api s') !! k ≠ Some (rv, c)) as [_ Hgoal]; [|done].
  assert (∀ a k' wf, (rv < a_next a)%nat → (∀ c, a_objects a !! k ≠ Some (rv, c)) →
    (rv < a_next (api_store k' wf a))%nat ∧
    ∀ c, a_objects (api_store k' wf a) !! k ≠ Some (rv, c)) as Hstore.
  { intros a k' wf Hl Hn. simpl. split; [lia|].
    intros c [[_ [= Heq _]]|[_ Hc]]%lookup_insert_Some; [lia|by eapply Hn]. }
  induction Hr as [|s0 s1 s2 Hstep _ IH]; [done|]. apply IH; clear IH; destruct Hstep; simpl in *;
    try done; try (by eapply Hstore); try lia.
  intros c [_ Hc]%lookup_delete_Some. by eapply Hno.
Qed.
End successes.

(** ** Properties *)
Section properties.
#[local] Set Default Proof Using "Type*".
Context {W : Type} `{KL : KubeLaws W} `{MR : MapRange} `{TE : TemplateEnv}.
Context (namespace : string).

(** C5 In every run whose reports carry defined states (PENDING, RUNNING, FAILED, TIMEOUT
    or SUCCESS: a report of another number is accepted too and stores an empty status,
    which later scans skip), however the calls of servers, controllers and users
    interleave, whatever old versions their caches return, and whichever writes are
    refused or lost, every workflow that is stored is in order: its succeeded actions
    come first, then at most one action in any other state, then pending actions only,
    and its task and action names are distinct. *)
Theorem race_progress locked s k rv wf :
  reachable namespace locked true s → a_objects (s_api s) !! k = Some (rv, wf) → progress wf.
Proof.
  intros Hr Hobj. pose proof (reachable_ok _ _ _ _ Hr) as Hok.
  eapply (so_progress _ _ _ Hok); [done|]. by eapply (so_objects _ _ _ Hok).
Qed.

(** C6 Reports are atomic, also those of undefined states. When the update of a report is
    accepted, the workflow that is stored becomes what an uninterrupted report makes of it, although the
    report was decided on a version that was read before; and no other update that
    was computed from that version can be accepted afterwards. *)
Theorem report_atomic locked defined a l1 l2 req rv wf cur :
  reachable namespace locked defined {| s_api := a; s_calls := l1 ++ Update req rv wf :: l2 |} →
  a_objects a !! workflow_key wf = Some (rv, cur) →
  let cur' := set_wf_status (stored_status (wf_Status wf)) cur in
  accepted req cur cur' ∧ workflow_key cur = (namespace, ws_WorkflowId req) ∧
  ∀ s' c, rtc (rstep namespace locked defined)
      {| s_api := api_store (workflow_key wf) cur' a; s_calls := l1 ++ l2 |} s' →
    a_objects (s_api s') !! workflow_key wf ≠ Some (rv, c).
Proof.
  intros Hr Hobj cur'. pose proof (reachable_ok _ _ _ _ Hr) as Hok.
  pose proof (so_calls _ _ _ Hok) as
    [_ [(wf0 & Hin & Hv & Hk & Hkey & Hnr & f & Hf & Hwf) _]%Forall_cons]%Forall_app.
  pose proof (so_objects _ _ _ Hok _ _ _ Hobj) as [Hc _].
  assert (wf0 = cur) as -> by by eapply (so_unique _ _ _ Hok).
  split; [split; [done|]; exists f; split; [done|]; unfold cur'; by rewrite Hwf|]. split; [done|].
  pose proof (so_next _ _ _ Hok _ _ Hc) as Hlt. simpl in Hlt.
  intros s' c Hs'. eapply version_gone; [done|simpl; lia|]. simpl. intros c'.
  rewrite lookup_insert_eq. intros [= ? _]. lia.
Qed.

(** C7 In every run in which reports carry defined states and no patch of the controller
    is applied to a status other than the one it was computed from, however the calls
    interleave otherwise, an action that has succeeded stays so as long as its workflow is stored. *)
Theorem success_is_final s s' k rv wf rv' wf' i :
  reachable namespace true true s → rstep namespace true true s s' →
  a_objects (s_api s) !! k = Some (rv, wf) → a_objects (s_api s') !! k = Some (rv', wf') →
  statuses wf !! i = Some WorkflowStateSuccess → statuses wf' !! i = Some WorkflowStateSuccess.
Proof.
  intros Hr Hstep H1 H2. eapply (rstep_locked namespace s s'); [done| |by eapply reachable_blank_ok|done..].
  by eapply reachable_ok.
Qed.

(** C8 The controller's patch undoes reports. Whatever happened between the time a
    reconciliation read a workflow and the time its patch arrives, if the
    reconciliation changed the status of some action (it rendered the template, or
    found an action past its timeout), then the patch, which carries no version, can be
    applied to the workflow as it is now, and stores the tasks that were computed from
    the old version: an action that had not succeeded when it was read is not
    successful afterwards, although a success may have been stored meanwhile. *)
Theorem stale_patch_reverts defined a l1 l2 base wf rv cur :
  reachable namespace false defined {| s_api := a; s_calls := l1 ++ Patch base wf :: l2 |} →
  a_objects a !! workflow_key wf = Some (rv, cur) → statuses wf ≠ statuses base →
  ∃ s' rv' cur', rstep namespace false defined {| s_api := a; s_calls := l1 ++ Patch base wf :: l2 |} s' ∧
    a_objects (s_api s') !! workflow_key wf = Some (rv', cur') ∧
    st_Tasks (wf_Status cur') = stored_task <$> st_Tasks (wf_Status wf) ∧
    ∀ i, statuses base !! i ≠ Some WorkflowStateSuccess →
         statuses cur' !! i ≠ Some WorkflowStateSuccess.
Proof.
  intros Hr Hobj Hne. pose proof (reachable_ok _ _ _ _ Hr) as Hok.
  pose proof (so_calls _ _ _ Hok) as [_ [(rv0 & Hin & Hp) _]%Forall_cons]%Forall_app.
  eexists _, _, _. split; [by econstructor|]. split; [by apply lookup_insert_eq|].
  pose proof (patched_tasks base wf cur Hne) as Ht. split; [exact Ht|]. intros i Hi.
  change (statuses (patched base wf cur) !! i ≠ Some WorkflowStateSuccess).
  unfold statuses. rewrite Ht, tasks_statuses_stored. by eapply processed_new_success.
Qed.
End properties.

(** ** Runs that can be computed *)
Section exec.
Context {W : Type} `{KC : KubeClient W} `{MR : MapRange} `{TE : TemplateEnv}.
Context (namespace : string) (locked defined : bool).

(** A call that reads the [n]-th last version, at the time of the world [w], and
    the arrival of the [n]-th last call. *)
Inductive op :=
  | ORead (req : WorkflowActionStatus) (n : nat) (w : W)
  | OReconcile (n : nat) (w : W)
  | OWrite (n : nat)
  | OCreate (wf : Workflow).

Definition exec_write (a : Api) (l1 l2 : list call) (c : call) : option Sys :=
  match c with
  | Update req rv wf =>
      match a_objects a !! workflow_key wf with
      | Some (rv', cur) =>
          if decide (rv' = rv) then
            Some {| s_api := api_store (workflow_key wf)
                      (set_wf_status (stored_status (wf_Status wf)) cur) a; s_calls := l1 ++ l2 |}
          else None
      | None => None
      end
  | Patch base wf =>
      match a_objects a !! workflow_key wf with
      | Some (_, cur) =>
          if decide (locked = true → wf_Status cur = wf_Status base) then
            Some {| s_api := api_store (workflow_key wf) (patched base wf cur) a; s_calls := l1 ++ l2 |}
          else None
      | None => None
      end
  end.

Definition exec (s : Sys) (o : op) : option Sys :=
  let a := s_api s in
  match o with
  | ORead req n w =>
      match a_versions a !! n with
      | Some (rv, wf) =>
          if decide (validateActionStatusRequest req = None ∧ (defined = true → known_state (ws_ActionStatus req)) ∧
                     workflow_key wf = (namespace, ws_WorkflowId req)) then
            match report_workflow req wf w with
            | (Ret (Ok wf'), _) => Some {| s_api := a; s_calls := Update req rv wf' :: s_calls s |}
            | _ => None
            end
          else None
      | None => None
      end
  | OReconcile n w =>
      match a_versions a !! n with
      | Some (rv, stored) =>
          match process_workflow stored w with
          | (Ret (Some (_, _, wf)), _) =>
              if decide (wf = stored) then None
              else Some {| s_api := a; s_calls := Patch stored wf :: s_calls s |}
          | _ => None
          end
      | None => None
      end
  | OWrite n =>
      match s_calls s !! n with
      | Some c => exec_write a (take n (s_calls s)) (drop (S n) (s_calls s)) c
      | None => None
      end
  | OCreate wf =>
      if decide (a_objects a !! workflow_key wf = None ∧ wf_Status wf = no_status) then
        Some {| s_api := api_store (workflow_key wf) wf a; s_calls := s_calls s |}
      else None
  end.

Definition execs (l : list op) (s : Sys) : option Sys :=
  foldl (λ r o, r ≫= λ s, exec s o) (Some s) l.

Lemma exec_write_sound a l1 l2 c s' :
  exec_write a l1 l2 c = Some s' →
  rstep namespace locked defined {| s_api := a; s_calls := l1 ++ c :: l2 |} s'.
Proof.
  unfold exec_write. destruct c as [req rv wf|base wf];
    destruct (a_objects a !! workflow_key wf) as [[rv' cur]|] eqn:E; try done;
    case_decide; try done; intros [= <-]; subst; [by constructor|by econstructor].
Qed.

Lemma exec_sound s o s' : exec s o = Some s' → rstep namespace locked defined s s'.
Proof.
  destruct s as [a l]. destruct o as [req n w|n w|n|wf]; simpl.
  - destruct (a_versions a !! n) as [[rv wf]|] eqn:E; [|done]. case_decide as Hd; [|done].
    destruct (report_workflow req wf w) as [[[wf'|]| |] w'] eqn:Hr; try done. intros [= <-].
    destruct Hd as (? & ? & ?). eapply (r_report _ _ _ _ _ req rv wf w); try done.
    by eapply list_elem_of_lookup_2.
  - destruct (a_versions a !! n) as [[rv stored]|] eqn:E; [|done].
    destruct (process_workflow stored w) as [[[[[resp err] wf]|]| |] w'] eqn:Hr; try done.
    case_decide; [done|]. intros [= <-]. eapply (r_reconcile _ _ _ _ _ rv stored w); try done.
    by eapply list_elem_of_lookup_2.
  - destruct (l !! n) as [c|] eqn:E; [|done]. intros H%exec_write_sound.
    by rewrite take_drop_middle in H.
  - case_decide as Hd; [|done]. intros [= <-]. by constructor; destruct Hd.
Qed.

Lemma execs_sound l s s' : execs l s = Some s' → rtc (rstep namespace locked defined) s s'.
Proof.
  revert s. induction l as [|o l IH]; intros s H; unfold execs in H;
    [injection H as <-; apply rtc_refl|].
  simpl in H. destruct (exec s o) as [s1|] eqn:E.
  - eapply rtc_l; [by eapply exec_sound|]. by apply IH.
  - exfalso. clear IH. by induction l.
Qed.
End exec.

(** ** Witnesses *)
#[local] Existing Instance mapRange_list.
Definition race_clock (n : nat) : Z := Z.of_nat n * second.
#[local] Instance race_client : KubeClient memKube := memKube_client no_faults race_clock.
#[local] Instance race_laws : KubeLaws memKube := memKube_laws no_faults race_clock.

Definition two_action_yaml : YWorkflow :=
  let act n := {| ya_Name := n; ya_Image := "img"; ya_Timeout := 60; ya_Command := [];
                  ya_OnTimeout := []; ya_OnFailure := []; ya_Volumes := [];
                  ya_Environment := ∅; ya_Pid := "" |} in
  {| yw_Version := "0.1"; yw_Name := "n"; yw_ID := ""; yw_GlobalTimeout := 600;
     yw_Tasks := [{| yt_Name := "t"; yt_WorkerAddr := "w"; yt_Actions := [act "a"; act "b"];
                     yt_Volumes := []; yt_Environment := ∅ |}] |}.
#[local] Instance two_action_env : TemplateEnv := const_template_env two_action_yaml.

(** The world of a call at a time, in seconds. *)
Definition at_time (t : nat) : memKube :=
  {| mk_workflows := ∅; mk_keys := map_Forall_empty _;
     mk_templates := {[ ("default", "tpl") := demo_template ]};
     mk_hardware := {[ ("default", "hw") := demo_hardware ]}; mk_tick := t |}.
Definition new_resource : Workflow := set_wf_status no_status (demo_workflow "" []).

(** A workflow is created and rendered; its first action is started at 10 seconds;
    at 100 seconds the controller sees it running past its timeout of a minute. *)
Definition run_to_timeout : list op :=
  [OCreate new_resource; OReconcile 0 (at_time 0); OWrite 0;
   ORead (report_of "wf1" "t" "a" State_STATE_RUNNING) 0 (at_time 10); OWrite 0;
   OReconcile 0 (at_time 100)].
(** Meanwhile the worker finishes it and starts the second action. *)
Definition worker_goes_on : list op :=
  [ORead (report_of "wf1" "t" "a" State_STATE_SUCCESS) 0 (at_time 101); OWrite 0;
   ORead (report_of "wf1" "t" "b" State_STATE_RUNNING) 0 (at_time 101); OWrite 0].
Definition run_state (locked : bool) (l : list op) : Sys :=
  default empty_sys (execs "default" locked true l empty_sys).
Definition shown (s : Sys) : option (WorkflowState * list WorkflowState) :=
  (λ p, (st_State (wf_Status p.2), statuses p.2)) <$> a_objects (s_api s) !! ("default", "wf1").

Lemma run_reachable locked l :
  bool_decide (is_Some (execs "default" locked true l empty_sys)) = true →
  reachable "default" locked true (run_state locked l).
Proof.
  intros [s Hs]%bool_decide_eq_true. unfold run_state. rewrite Hs. by eapply execs_sound.
Qed.
Lemma run_step locked l o :
  bool_decide (is_Some (execs "default" locked true l empty_sys)) = true →
  bool_decide (is_Some (exec "default" locked true (run_state locked l) o)) = true →
  rstep "default" locked true (run_state locked l) (run_state locked (l ++ [o])).
Proof.
  intros [s Hs]%bool_decide_eq_true [s' Hs']%bool_decide_eq_true. eapply exec_sound.
  unfold run_state, execs in *. rewrite foldl_snoc, Hs in *. simpl in *. by rewrite Hs'.
Qed.

Lemma race_progress_witness :
  from_option (λ p, progress p.2) False
    (a_objects (s_api (run_state false (run_to_timeout ++ worker_goes_on))) !! ("default", "wf1")).
Proof.
  destruct (a_objects _ !! _) as [[rv wf]|] eqn:E; [|by vm_compute in E].
  eapply (race_progress "default" false _ _ rv wf); [|exact E]. by apply run_reachable; vm_compute.
Defined.

Definition waiting_report : Sys :=
  run_state false (run_to_timeout ++ [ORead (report_of "wf1" "t" "a" State_STATE_SUCCESS) 0 (at_time 101)]).
Lemma report_atomic_witness :
  match s_calls waiting_report, a_objects (s_api waiting_report) !! ("default", "wf1") with
  | Update req rv wf :: _, Some (_, cur) =>
      accepted req cur (set_wf_status (stored_status (wf_Status wf)) cur)
  | _, _ => False
  end.
Proof.
  assert (reachable "default" false true waiting_report) as Hr by by apply run_reachable; vm_compute.
  destruct waiting_report as [a l] eqn:E. simpl.
  vm_compute in E. injection E as Ha Hl. rewrite <- Hl in Hr |- *.
  rewrite <- Ha in Hr |- *. clear Ha Hl.
  apply (report_atomic "default" false true _ [] _ _ _ _ _ Hr). reflexivity.
Defined.

Definition before_update : list op :=
  run_to_timeout ++ [ORead (report_of "wf1" "t" "a" State_STATE_SUCCESS) 0 (at_time 101); OWrite 0;
                     ORead (report_of "wf1" "t" "b" State_STATE_RUNNING) 0 (at_time 101)].
Lemma success_is_final_witness :
  (λ p, statuses p.2 !! 0%nat) <$>
    a_objects (s_api (run_state true (before_update ++ [OWrite 0]))) !! ("default", "wf1") =
  Some (Some WorkflowStateSuccess).
Proof.
  destruct (a_objects (s_api (run_state true before_update)) !! ("default", "wf1"))
    as [[rv wf]|] eqn:E; [|by vm_compute in E].
  destruct (a_objects (s_api (run_state true (before_update ++ [OWrite 0]))) !! ("default", "wf1"))
    as [[rv' wf']|] eqn:E'; [|by vm_compute in E'].
  simpl. f_equal. refine (success_is_final "default" _ _ _ rv wf rv' wf' 0 _ _ E E' _).
  - by apply run_reachable; vm_compute.
  - by apply run_step; vm_compute.
  - vm_compute in E. injection E as <- <-. reflexivity.
Defined.

(** The worker has finished the first action and started the second; the patch sets the
    first back to timed out and the second to pending. *)
Definition stale_run : Sys := run_state false (run_to_timeout ++ worker_goes_on).
Lemma stale_patch_reverts_witness :
  shown stale_run = Some (WorkflowStateRunning, [WorkflowStateSuccess; WorkflowStateRunning]) ∧
  ∃ s' rv' cur', rstep "default" false true stale_run s' ∧
    a_objects (s_api s') !! ("default", "wf1") = Some (rv', cur') ∧
    statuses cur' = [WorkflowStateTimeout; WorkflowStatePending].
Proof.
  split; [by vm_compute|].
  assert (reachable "default" false true stale_run) as Hr by by apply run_reachable; vm_compute.
  destruct stale_run as [a l] eqn:E. vm_compute in E. injection E as Ha Hl.
  rewrite <- Ha, <- Hl in Hr |- *. clear Ha Hl.
  destruct (stale_patch_reverts "default" true _ [] _ _ _ _ _ Hr eq_refl) as
    (s' & rv' & cur' & Hstep & Hobj & Ht & _); [by vm_compute|].
  exists s', rv', cur'. split; [exact Hstep|]. split; [exact Hobj|].
  unfold statuses. rewrite Ht. vm_compute. reflexivity.
Defined.

(** The patch of [stale_patch_reverts_witness] is the step that such a run leaves out. *)
Example locked_patch_refused :
  exec "default" true true (run_state true (run_to_timeout ++ worker_goes_on)) (OWrite 0) = None.
Proof. vm_compute. reflexivity. Qed.

(** Two reconciliations read the workflow before it is rendered; the patch of the
    second arrives when the first action has succeeded, and starts it over. *)
Example rendered_again :
  let l := [OCreate new_resource; OReconcile 0 (at_time 0); OReconcile 0 (at_time 0); OWrite 0;
            ORead (report_of "wf1" "t" "a" State_STATE_RUNNING) 0 (at_time 10); OWrite 0;
            ORead (report_of "wf1" "t" "a" State_STATE_SUCCESS) 0 (at_time 20); OWrite 0] in
  shown (run_state false l) =
    Some (WorkflowStateRunning, [WorkflowStateSuccess; WorkflowStatePending]) ∧
  shown (run_state false (l ++ [OWrite 0])) =
    Some (WorkflowStatePending, [WorkflowStatePending; WorkflowStatePending]).
Proof. vm_compute. done. Qed.
