(* ===== verification/DbBase.v ===== *)
(** * DbBase: the PostgreSQL database under src/db

    The tables of src/db/migration as they stand after all migrations, the
    calls of database/sql the package makes (BeginTx, ExecContext, Commit,
    QueryRow, Query, Scan) with a fault oracle, and the helpers of db.go. The
    server behind them is a collaborator: what PostgreSQL accepts as a uuid or as
    jsonb and what containment of jsonb means are fields of [DbEnv]. A transaction
    that is not committed is dropped (its context ends with the request), and so is one
    whose commit returns an error: that such a commit may have taken effect, when the
    connection breaks at that moment, is not modelled. Rows
    without ORDER BY come in the order of the map, which stands for any order. *)
From S2P Require Import Prelude Proto Template.
From stdpp Require Import options.

(** ** Tables (db/migration) *)
Record HardwareRow := { hr_inserted_at : Z; hr_deleted_at : option Z; hr_data : string }.

Record TemplateRow := {
  tr_name : string; tr_created_at : Z; tr_updated_at : Z; tr_deleted_at : option Z;
  tr_data : string }.

Record WorkflowRow := {
  wr_template : string; wr_devices : string; wr_created_at : Z; wr_updated_at : Z;
  wr_deleted_at : option Z }.

(** [action_list] is the JSON of the list; the struct and its JSON determine
    each other. *)
Record StateRow := {
  sr_current_task_name : string; sr_current_action_name : string;
  sr_current_action_state : State; sr_current_worker : string;
  sr_action_list : WorkflowActionList; sr_current_action_index : Z;
  sr_total_number_of_actions : Z }.

Record EventRow := {
  er_workflow_id : string; er_worker_id : string; er_task_name : string;
  er_action_name : string; er_execution_time : Z; er_message : string; er_status : State;
  er_created_at : Z }.

Record DataRow := {
  dr_workflow_id : string; dr_version : Z; dr_metadata : string; dr_data : option string }.

(** Unique keys are the keys of the maps; the unique index of
    workflow_worker_map makes it a set. *)
Record Tables := {
  t_hardware : gmap string HardwareRow;
  t_template : gmap string TemplateRow;
  t_workflow : gmap string WorkflowRow;
  t_state : gmap string StateRow;
  t_event : list EventRow;
  t_worker_map : gset (string * string);
  t_data : list DataRow
}.

Definition emptyTables : Tables :=
  {| t_hardware := ∅; t_template := ∅; t_workflow := ∅; t_state := ∅; t_event := [];
     t_worker_map := ∅; t_data := [] |}.

Definition set_t_hardware m (t : Tables) : Tables :=
  {| t_hardware := m; t_template := t_template t; t_workflow := t_workflow t; t_state := t_state t;
     t_event := t_event t; t_worker_map := t_worker_map t; t_data := t_data t |}.
Definition set_t_template m (t : Tables) : Tables :=
  {| t_hardware := t_hardware t; t_template := m; t_workflow := t_workflow t; t_state := t_state t;
     t_event := t_event t; t_worker_map := t_worker_map t; t_data := t_data t |}.
Definition set_t_workflow m (t : Tables) : Tables :=
  {| t_hardware := t_hardware t; t_template := t_template t; t_workflow := m; t_state := t_state t;
     t_event := t_event t; t_worker_map := t_worker_map t; t_data := t_data t |}.
Definition set_t_state m (t : Tables) : Tables :=
  {| t_hardware := t_hardware t; t_template := t_template t; t_workflow := t_workflow t;
     t_state := m; t_event := t_event t; t_worker_map := t_worker_map t; t_data := t_data t |}.
Definition set_t_event l (t : Tables) : Tables :=
  {| t_hardware := t_hardware t; t_template := t_template t; t_workflow := t_workflow t;
     t_state := t_state t; t_event := l; t_worker_map := t_worker_map t; t_data := t_data t |}.
Definition set_t_worker_map m (t : Tables) : Tables :=
  {| t_hardware := t_hardware t; t_template := t_template t; t_workflow := t_workflow t;
     t_state := t_state t; t_event := t_event t; t_worker_map := m; t_data := t_data t |}.
Definition set_t_data l (t : Tables) : Tables :=
  {| t_hardware := t_hardware t; t_template := t_template t; t_workflow := t_workflow t;
     t_state := t_state t; t_event := t_event t; t_worker_map := t_worker_map t; t_data := l |}.

(** ** Collaborators *)
Class DbEnv := {
  (** The error of call number [n], and the clock at it. *)
  db_fault : nat → option error;
  db_clock : nat → Z;
  (** The canonical text of a value PostgreSQL accepts for a UUID column. *)
  pg_uuid : string → option string;
  (** [uuid.Parse] of google/uuid, as the canonical text. *)
  uuid_parse : string → option string;
  (** The canonical text of a jsonb value. *)
  jsonb : string → option string;
  (** [data @> arg]; [None] when [arg] is not JSON. *)
  jsonb_contains : string → string → option bool;
  (** [data ->> 'id']. *)
  jsonb_id : string → option string;
  (** [name ILIKE pattern]. *)
  ilike : string → string → bool;
  (** [net.ParseMAC(s)] as the text of the address; [net.ParseIP(s)] has a
      4-byte form. *)
  ParseMAC : string → option string;
  ParseIP_To4 : string → bool
}.

Definition pq_error : error := ExtErr "pq: invalid input syntax".
Definition pq_too_long : error := ExtErr "pq: value too long for type character varying(200)".
Definition pq_check : error := ExtErr "pq: new row violates check constraint ck_name".
Definition pq_unique : error := ExtErr "pq: duplicate key value violates unique constraint".

(** [VARCHAR(200)], for texts of one byte per character. *)
Definition varchar200 (s : string) : bool := bool_decide (strlen s ≤ 200).

(** The check [name ~ '^[a-zA-Z0-9_-]*$']. *)
Definition name_char (c : Ascii.ascii) : bool :=
  let n := Ascii.nat_of_ascii c in
  bool_decide (97 ≤ n ∧ n ≤ 122)%nat || bool_decide (65 ≤ n ∧ n ≤ 90)%nat ||
  bool_decide (48 ≤ n ∧ n ≤ 57)%nat || bool_decide (n = 95)%nat || bool_decide (n = 45)%nat.
Fixpoint ck_name (s : string) : bool :=
  match s with EmptyString => true | String c s' => name_char c && ck_name s' end.

(** ** The connection *)
Record DB := { db_tables : Tables; db_tick : nat }.

Definition db_next (s : DB) : DB := {| db_tables := db_tables s; db_tick := S (db_tick s) |}.

Section calls.
Context `{DE : DbEnv}.
#[local] Open Scope go_scope.

(** The error, if any, of the next call. *)
Definition db_call : go DB (option error) := λ s, (Ret (db_fault (db_tick s)), db_next s).

(** [time.Now()]. *)
Definition time_Now : go DB Z := λ s, (Ret (db_clock (db_tick s)), db_next s).

(** [d.instance.BeginTx]: the transaction works on its own copy. *)
Definition BeginTx : go DB (result Tables) := λ s,
  (Ret (match db_fault (db_tick s) with Some e => Err e | None => Ok (db_tables s) end),
   db_next s).

(** [tx.ExecContext] of a statement, which is given the time of the server and
    returns the tables and the number of rows it affected. *)
Definition ExecContext (tx : Tables) (stmt : Z → Tables → result (Tables * Z))
    : go DB (result (Tables * Z)) := λ s,
  (Ret (match db_fault (db_tick s) with
        | Some e => Err e
        | None => stmt (db_clock (db_tick s)) tx
        end), db_next s).

(** [tx.Commit]. *)
Definition Commit (tx : Tables) : go DB (option error) := λ s,
  match db_fault (db_tick s) with
  | Some e => (Ret (Some e), db_next s)
  | None => (Ret None, {| db_tables := tx; db_tick := S (db_tick s) |})
  end.

(** [d.instance.QueryRowContext(...).Scan(...)]: [ErrNoRows] without a row. *)
Definition QueryRow {A} (q : Tables → result A) : go DB (result A) := λ s,
  (Ret (match db_fault (db_tick s) with Some e => Err e | None => q (db_tables s) end),
   db_next s).

(** [d.instance.Query]. *)
Definition Query {A} (q : Tables → result (list A)) : go DB (result (list A)) := QueryRow q.

(** The end of every updating operation. *)
Definition commit_or (tx : Tables) : go DB (option error) :=
  let* err := Commit tx in
  go_ret (wrap err "COMMIT").

(** Begins a transaction, executes one statement and commits. *)
Definition exec_tx (msg : string) (stmt : Z → Tables → result (Tables * Z))
    : go DB (option error) :=
  try tx := BeginTx onerr (λ e, Some (WrapErr e "BEGIN transaction")) in
  try r := ExecContext tx stmt onerr (λ e, Some (WrapErr e msg)) in
  commit_or r.1.

(** The same, with an error when no row was affected. *)
Definition exec_tx_found (msg id : string) (stmt : Z → Tables → result (Tables * Z))
    : go DB (option error) :=
  try tx := BeginTx onerr (λ e, Some (WrapErr e "BEGIN transaction")) in
  try r := ExecContext tx stmt onerr (λ e, Some (WrapErr e msg)) in
  if decide (r.2 = 0) then go_ret (Some (StatusErr NotFound ("not found, id:" +:+ id)))
  else commit_or r.1.

(** [for rows.Next() { rows.Scan(...); fn(...) }; rows.Err()]. *)
Fixpoint for_rows {M A} (fn : A → go (DB * list M) (option error)) (l : list A)
    : go (DB * list M) (option error) :=
  let* err := go_zoom fst (λ s t, (s, t.2)) db_call in
  match l with
  | [] =>
      go_ret (match err with
              | Some e => if err_is e ErrNoRows then None else Some e
              | None => None
              end)
  | a :: l' =>
      match err with
      | Some e => go_ret (Some (WrapErr e "SELECT"))
      | None =>
          let* err := fn a in
          match err with Some e => go_ret (Some e) | None => for_rows fn l' end
      end
  end.

(** [get]. *)
Definition get (q : Tables → result string) : go DB (result string) :=
  let* r := QueryRow q in
  go_ret (match r with Ok s => Ok s | Err e => Err (WrapErr e "SELECT") end).
End calls.

(** ** [buildGetCondition]

    The first non-empty field in the order of the map; the quoting of pq makes
    the condition an equality with that value. *)
Definition buildGetCondition `{MapRange} (fields : gmap string string)
    : result (string * string) :=
  match list_find (λ kv, kv.2 ≠ "") (range_map fields) with
  | Some (_, kv) => Ok kv
  | None => Err (NewErr "one GetBy field must be set to build a get condition")
  end.

(** ** Lemmas *)
Create HintDb db.

Section lemmas.
Context `{DE : DbEnv}.

(** A computation that returns and leaves the tables as they are. *)
Definition db_pure {A} (c : go DB A) : Prop :=
  ∀ s, ∃ a s', c s = (Ret a, s') ∧ db_tables s' = db_tables s.

(** An updating operation: it returns, and an error leaves the tables as they
    were. *)
Definition db_atomic (c : go DB (option error)) : Prop :=
  ∀ s, ∃ r s', c s = (Ret r, s') ∧ (r ≠ None → db_tables s' = db_tables s).

Lemma db_pure_ret {A} (a : A) : db_pure (go_ret a).
Proof. intros s. by eexists _, _. Qed.

Lemma db_pure_bind {A B} (c : go DB A) (k : A → go DB B) :
  db_pure c → (∀ a, db_pure (k a)) → db_pure (go_bind c k).
Proof.
  intros Hc Hk s. destruct (Hc s) as (a & s1 & H1 & Ht1).
  rewrite (go_bind_Ret _ _ _ _ _ H1). destruct (Hk a s1) as (b & s2 & H2 & Ht2).
  exists b, s2. split; [done|congruence].
Qed.

Lemma db_pure_try {A B} (c : go DB (result A)) (h : error → B) (k : A → go DB B) :
  db_pure c → (∀ a, db_pure (k a)) → db_pure (go_try c h k).
Proof.
  intros Hc Hk. apply db_pure_bind; [done|]. intros [a|e]; [done|]. apply db_pure_ret.
Qed.

Lemma db_pure_call : db_pure db_call.
Proof. intros s. by eexists _, _. Qed.
Lemma db_pure_now : db_pure time_Now.
Proof. intros s. by eexists _, _. Qed.
Lemma db_pure_begin : db_pure BeginTx.
Proof. intros s. by eexists _, _. Qed.
Lemma db_pure_exec tx stmt : db_pure (ExecContext tx stmt).
Proof. intros s. by eexists _, _. Qed.
Lemma db_pure_query {A} (q : Tables → result A) : db_pure (QueryRow q).
Proof. intros s. by eexists _, _. Qed.
Lemma db_pure_get q : db_pure (get q).
Proof. apply db_pure_bind; [apply db_pure_query|]. intros r. apply db_pure_ret. Qed.

Lemma db_pure_atomic c : db_pure c → db_atomic c.
Proof. intros Hc s. destruct (Hc s) as (r & s' & ? & ?). by exists r, s'. Qed.

Lemma db_atomic_bind {A} (c : go DB A) (k : A → go DB (option error)) :
  db_pure c → (∀ a, db_atomic (k a)) → db_atomic (go_bind c k).
Proof.
  intros Hc Hk s. destruct (Hc s) as (a & s1 & H1 & Ht1).
  rewrite (go_bind_Ret _ _ _ _ _ H1). destruct (Hk a s1) as (b & s2 & H2 & Ht2).
  exists b, s2. split; [done|]. intros Hb. rewrite <- Ht1. by apply Ht2.
Qed.

Lemma db_atomic_try {A} (c : go DB (result A)) (h : error → option error) k :
  db_pure c → (∀ a, db_atomic (k a)) → db_atomic (go_try c h k).
Proof.
  intros Hc Hk. apply db_atomic_bind; [done|]. intros [a|e]; [done|].
  apply db_pure_atomic, db_pure_ret.
Qed.

Lemma db_atomic_commit tx : db_atomic (commit_or tx).
Proof.
  intros s. unfold commit_or, go_bind, Commit.
  destruct (db_fault (db_tick s)); by eexists _, _.
Qed.

(** What an accepted transaction of one statement stores. *)
Lemma exec_tx_spec msg stmt s :
  ∃ r s', exec_tx msg stmt s = (Ret r, s') ∧
    match r with
    | None => ∃ now t n, stmt now (db_tables s) = Ok (t, n) ∧ db_tables s' = t
    | Some _ => db_tables s' = db_tables s
    end.
Proof.
  unfold exec_tx, go_try, go_bind, BeginTx, ExecContext. simpl.
  destruct (db_fault (db_tick s)); [by eexists _, _|]. simpl.
  destruct (db_fault (S (db_tick s))); [by eexists _, _|].
  destruct (stmt _ (db_tables s)) as [[t n]|e] eqn:E; [|by eexists _, _].
  unfold commit_or, go_bind, Commit. simpl.
  destruct (db_fault (S (S (db_tick s)))); eexists _, _; (split; [done|]); simpl; eauto.
Qed.

Lemma exec_tx_atomic msg stmt : db_atomic (exec_tx msg stmt).
Proof.
  intros s. destruct (exec_tx_spec msg stmt s) as (r & s' & Hrun & Hr).
  exists r, s'. split; [done|]. by destruct r.
Qed.

Lemma exec_tx_found_spec msg id stmt s :
  ∃ r s', exec_tx_found msg id stmt s = (Ret r, s') ∧
    match r with
    | None => ∃ now t n, stmt now (db_tables s) = Ok (t, n) ∧ n ≠ 0 ∧ db_tables s' = t
    | Some _ => db_tables s' = db_tables s
    end.
Proof.
  unfold exec_tx_found, go_try, go_bind, BeginTx, ExecContext. simpl.
  destruct (db_fault (db_tick s)); [by eexists _, _|]. simpl.
  destruct (db_fault (S (db_tick s))); [by eexists _, _|].
  destruct (stmt _ (db_tables s)) as [[t n]|e] eqn:E; [|by eexists _, _]. simpl.
  case_decide; [by eexists _, _|].
  unfold commit_or, go_bind, Commit. simpl.
  destruct (db_fault (S (S (db_tick s)))); eexists _, _; (split; [done|]); simpl; eauto 10.
Qed.

Lemma exec_tx_found_atomic msg id stmt : db_atomic (exec_tx_found msg id stmt).
Proof.
  intros s. destruct (exec_tx_found_spec msg id stmt s) as (r & s' & Hrun & Hr).
  exists r, s'. split; [done|]. by destruct r.
Qed.

(** Inversion of the calls inside a transaction that succeeded. *)
Lemma BeginTx_Ok s tx s' :
  BeginTx s = (Ret (Ok tx), s') → tx = db_tables s ∧ db_tables s' = db_tables s.
Proof. unfold BeginTx. destruct (db_fault (db_tick s)); intros; by simplify_eq. Qed.

Lemma ExecContext_Ok tx stmt s tx' n s' :
  ExecContext tx stmt s = (Ret (Ok (tx', n)), s') →
  (∃ now, stmt now tx = Ok (tx', n)) ∧ db_tables s' = db_tables s.
Proof. unfold ExecContext. destruct (db_fault (db_tick s)); intros; simplify_eq; eauto. Qed.

Lemma commit_or_None tx s s' : commit_or tx s = (Ret None, s') → db_tables s' = tx.
Proof.
  unfold commit_or, go_bind, go_ret, Commit. destruct (db_fault (db_tick s)); intros; by simplify_eq.
Qed.
End lemmas.

#[export] Hint Resolve db_pure_ret db_pure_bind db_pure_try db_pure_call db_pure_now
  db_pure_begin db_pure_exec db_pure_query db_pure_get : db.
#[export] Hint Resolve db_atomic_bind db_atomic_try db_atomic_commit exec_tx_atomic
  exec_tx_found_atomic | 10 : db.

(** Walks an operation call by call. *)
Ltac db_walk :=
  repeat (intros; first
    [ solve [eauto 3 with db]
    | apply db_atomic_try | apply db_pure_try | apply db_atomic_bind | apply db_pure_bind
    | case_match | case_decide ]).

(** Inverts a run of [go_try] that returned a success. *)
Lemma go_try_inv {S A B} (c : go S (result A)) (h : error → B) k s b s' :
  go_try c h k s = (Ret b, s') →
  (∃ a s1, c s = (Ret (Ok a), s1) ∧ k a s1 = (Ret b, s')) ∨
  (∃ e, c s = (Ret (Err e), s') ∧ b = h e).
Proof.
  unfold go_try, go_bind, go_ret. destruct (c s) as [[[a|e]| |] s1]; intros H; simplify_eq; eauto.
Qed.

Lemma go_bind_inv {S A B} (c : go S A) (k : A → go S B) s b s' :
  go_bind c k s = (Ret b, s') → ∃ a s1, c s = (Ret a, s1) ∧ k a s1 = (Ret b, s').
Proof. unfold go_bind. destruct (c s) as [[a| |] s1]; intros H; simplify_eq; eauto. Qed.

(** A database that does not fail, whose clock counts the calls, and that takes
    any non-empty text for a uuid or JSON, for the witnesses. *)
Definition some_text (s : string) : option string := if decide (s = "") then None else Some s.
Definition demo_db_env : DbEnv :=
  {| db_fault _ := None; db_clock n := Z.of_nat n; pg_uuid := some_text; uuid_parse := some_text;
     jsonb := some_text; jsonb_contains data arg := Some (bool_decide (data = arg));
     jsonb_id := some_text; ilike s p := bool_decide (s = p); ParseMAC := some_text;
     ParseIP_To4 s := false |}.
Definition demo_db (t : Tables) : DB := {| db_tables := t; db_tick := 0 |}.
