(* ===== verification/DbWorkflow.v ===== *)
(** * DbWorkflow: the workflow tables (src/db/workflow.go)

    Every operation of workflow.go on the tables of [DbBase]: creation with the
    flattening of a template into its action list, the workflow state, the
    ephemeral data with its versions, and the events. *)
From S2P Require Import Prelude Proto Template Service DbBase.
From stdpp Require Import options.

(** [db.Workflow]. *)
Record DbWorkflow := {
  dw_State : Z; dw_ID : string; dw_Hardware : string; dw_Template : string;
  dw_CreatedAt : option Z; dw_UpdatedAt : option Z }.
Definition zeroDbWorkflow : DbWorkflow :=
  {| dw_State := 0; dw_ID := ""; dw_Hardware := ""; dw_Template := "";
     dw_CreatedAt := None; dw_UpdatedAt := None |}.

(** [uuid.UUID{}]. *)
Definition zeroUUID : string := "00000000-0000-0000-0000-000000000000".

Definition in_smallint (z : Z) : bool := bool_decide (-2 ^ 15 ≤ z ∧ z < 2 ^ 15).
Definition in_int4 (z : Z) : bool := bool_decide (-2 ^ 31 ≤ z ∧ z < 2 ^ 31).

(** ** The number of versions kept ([init]) *)
Definition defaultMaxVersions : Z := 3.

Definition init_maxVersions (val : string) : Z :=
  match Atoi val with Some v => v | None => defaultMaxVersions end.

(** ** The queries on hardware

    The JSON texts are spelled with single quotes and turned into JSON. *)
Definition json_text (s : string) : string :=
  replace_char (Ascii.ascii_of_nat 39) (String (Ascii.ascii_of_nat 34) "") s.
Definition mac_query (mac : string) : string :=
  json_text "{'network': {'interfaces': [{'dhcp': {'mac': '" +:+ mac +:+ json_text "'}}]}}".
Definition instance_query (ip : string) : string :=
  json_text "{'instance': {'ip_addresses': [{'address': '" +:+ ip +:+ json_text "'}]}}".
Definition ip_query (ip : string) : string :=
  json_text "{'network': {'interfaces': [{'dhcp': {'ip': {'address': '" +:+ ip +:+
  json_text "'}}}]}}".

Section ops.
Context `{DE : DbEnv} `{TE : TemplateEnv} `{MR : MapRange}.
#[local] Open Scope go_scope.

(** The rows of hardware that are not deleted and contain one of the texts;
    [None] when a text is not JSON. *)
Definition hardware_matches (args : list string) (row : HardwareRow) : option bool :=
  foldr (λ arg acc,
    match jsonb_contains (hr_data row) arg, acc with
    | Some b, Some b' => Some (b || b')
    | _, _ => None
    end) (Some false) args.

Fixpoint find_hardware (args : list string) (l : list (string * HardwareRow))
    : result (string * HardwareRow) :=
  match l with
  | [] => Err ErrNoRows
  | (id, row) :: l' =>
      if decide (hr_deleted_at row = None) then
        match hardware_matches args row with
        | None => Err pq_error
        | Some true => Ok (id, row)
        | Some false => find_hardware args l'
        end
      else find_hardware args l'
  end.

Definition select_hardware (f : string * HardwareRow → string) (args : list string) (t : Tables)
    : result string :=
  match find_hardware args (map_to_list (t_hardware t)) with
  | Ok r => Ok (f r)
  | Err e => Err e
  end.

Definition no_worker (kind addr : string) (r : result string) : result string :=
  match r with
  | Err e => if err_is e ErrNoRows then Err (WrapErr (NewErr addr) kind) else Err e
  | Ok id => Ok id
  end.

Definition getWorkerIDbyMac (mac : string) : go DB (result string) :=
  let* r := get (select_hardware fst [mac_query mac]) in
  go_ret (no_worker "mac" mac r).

Definition getWorkerIDbyIP (ip : string) : go DB (result string) :=
  let* r := get (select_hardware fst [instance_query ip; ip_query ip]) in
  go_ret (no_worker "ip" ip r).

Definition with_message (msg : string) (r : result string) : result string :=
  match r with Ok a => Ok a | Err e => Err (WrapErr e msg) end.

Definition getWorkerID (addr : string) : go DB (result string) :=
  match ParseMAC addr with
  | None =>
      if negb (ParseIP_To4 addr) then go_ret (Err (NewErr ("invalid worker address: " +:+ addr)))
      else
        let* r := getWorkerIDbyIP addr in
        go_ret (with_message "no worker found" r)
  | Some parsedMAC =>
      let* r := getWorkerIDbyMac parsedMAC in
      go_ret (with_message "no worker found" r)
  end.

(** ** Creating a workflow *)

(** [v := strings.Split(vol, ":")], as the pair of [v[0]] and the rest. *)
Definition volume_entry (vol : string) : string * string :=
  match split_on (Ascii.ascii_of_nat 58) vol with
  | v0 :: v => (v0, Join v ":")
  | [] => ("", "")
  end.
Definition add_volumes (l : list string) (m : gmap string string) : gmap string string :=
  foldl (λ m vol, <[(volume_entry vol).1 := (volume_entry vol).2]> m) m l.

(** The body of the loop over the actions of a task. *)
Definition action_row (task : YTask) (workerUID : string) (taskEnvs taskVolumes : gmap string string)
    (ac : YAction) : WorkflowAction :=
  let acenvs := copy_map (ya_Environment ac) (copy_map taskEnvs ∅) in
  let envs := (λ kv, kv.1 +:+ "=" +:+ kv.2) <$> range_map acenvs in
  let volumes := add_volumes (ya_Volumes ac) (copy_map taskVolumes ∅) in
  {| wa_TaskName := yt_Name task; wa_Name := ya_Name ac; wa_Image := ya_Image ac;
     wa_Timeout := ya_Timeout ac; wa_Command := ya_Command ac; wa_OnTimeout := ya_OnTimeout ac;
     wa_OnFailure := ya_OnFailure ac; wa_WorkerId := workerUID;
     wa_Volumes := (λ kv, kv.1 +:+ ":" +:+ kv.2) <$> range_map volumes;
     wa_Environment := envs; wa_Pid := ya_Pid ac |}.

Definition stmt_insert_worker_map (wfID workerID : string) (_ : Z) (t : Tables)
    : result (Tables * Z) :=
  Ok (set_t_worker_map ({[ (wfID, workerID) ]} ∪ t_worker_map t) t, 1).

Definition insertIntoWfWorkerTable (wfID workerID : string) (tx : Tables) : go DB (result Tables) :=
  let* r := ExecContext tx (stmt_insert_worker_map wfID workerID) in
  go_ret (match r with
          | Ok (tx', _) => Ok tx'
          | Err e => Err (WrapErr e "INSERT in to workflow_worker_map")
          end).

(** The loop of [insertActionList] over the tasks. *)
Fixpoint insert_tasks (id : string) (tasks : list YTask) (uniqueWorkerID : string) (tx : Tables)
    (actionList : WorkflowActionList) : go DB (result (Tables * WorkflowActionList)) :=
  match tasks with
  | [] => go_ret (Ok (tx, actionList))
  | task :: tasks' =>
      let taskVolumes := add_volumes (yt_Volumes task) ∅ in
      let taskEnvs := copy_map (yt_Environment task) ∅ in
      try workerID := getWorkerID (yt_WorkerAddr task)
        onerr (λ e, Err (WrapErr e "unable to insert into action list")) in
      match uuid_parse workerID with
      | None => go_ret (Err (NewErr "invalid UUID"))
      | Some workerUID =>
          let rows := action_row task workerUID taskEnvs taskVolumes <$> yt_Actions task in
          if decide (uniqueWorkerID ≠ workerUID) then
            try tx := insertIntoWfWorkerTable id workerUID tx onerr Err in
            insert_tasks id tasks' workerUID tx (actionList ++ rows)
          else insert_tasks id tasks' uniqueWorkerID tx (actionList ++ rows)
      end
  end.

Definition stmt_insert_state (id : string) (actionList : WorkflowActionList) (_ : Z) (t : Tables)
    : result (Tables * Z) :=
  if in_int4 (Z.of_nat (length actionList)) then
    Ok (set_t_state (<[id := {| sr_current_task_name := ""; sr_current_action_name := "";
                                sr_current_action_state := 0; sr_current_worker := "";
                                sr_action_list := actionList; sr_current_action_index := 0;
                                sr_total_number_of_actions := Z.of_nat (length actionList) |}]>
                       (t_state t)) t, 1)
  else Err pq_error.

Definition insertActionList (yamlData id : string) (tx : Tables) : go DB (result Tables) :=
  match Parse yamlData with
  | Err e => go_ret (Err e)
  | Ok wf =>
      try r := insert_tasks id (yw_Tasks wf) zeroUUID tx [] onerr Err in
      try r := ExecContext r.1 (stmt_insert_state id r.2)
        onerr (λ e, Err (WrapErr e "INSERT in to workflow_state")) in
      go_ret (Ok r.1)
  end.

Definition stmt_insert_workflow (now : Z) (wf : DbWorkflow) (_ : Z) (t : Tables)
    : result (Tables * Z) :=
  match pg_uuid (dw_ID wf), pg_uuid (dw_Template wf), jsonb (dw_Hardware wf) with
  | Some id, Some template, Some devices =>
      let created := match t_workflow t !! id with
                     | Some row => wr_created_at row
                     | None => now
                     end in
      Ok (set_t_workflow (<[id := {| wr_template := template; wr_devices := devices;
                                     wr_created_at := created; wr_updated_at := now;
                                     wr_deleted_at := None |}]> (t_workflow t)) t, 1)
  | _, _, _ => Err pq_error
  end.

Definition insertInWorkflow (wf : DbWorkflow) (tx : Tables) : go DB (result Tables) :=
  let* now := time_Now in
  let* r := ExecContext tx (stmt_insert_workflow now wf) in
  go_ret (match r with
          | Ok (tx', _) => Ok tx'
          | Err e => Err (WrapErr e "INSERT in to workflow")
          end).

Definition CreateWorkflow (wf : DbWorkflow) (data id : string) : go DB (option error) :=
  try tx := BeginTx onerr (λ e, Some (WrapErr e "BEGIN transaction")) in
  try tx := insertActionList data id tx
    onerr (λ e, Some (WrapErr e "failed to create workflow")) in
  try tx := insertInWorkflow wf tx
    onerr (λ e, Some (WrapErr e "failed to create workflow")) in
  commit_or tx.

(** ** Ephemeral data *)
Definition count_data (wfID : string) (t : Tables) : result Z :=
  match pg_uuid wfID with
  | None => Err pq_error
  | Some id =>
      let n := Z.of_nat (length (filter (λ r, dr_workflow_id r = id) (t_data t))) in
      if in_int4 n then Ok n else Err (ExtErr "converting driver.Value type int64 to a int32")
  end.

Definition getLatestVersionWfData (wfID : string) : go DB (Z * option error) :=
  let* r := QueryRow (count_data wfID) in
  go_ret (match r with Ok v => (v, None) | Err e => (-1, Some e) end).

Definition GetWorkflowDataVersion (workflowID : string) : go DB (Z * option error) :=
  getLatestVersionWfData workflowID.

Definition stmt_insert_data (wfID : string) (version : Z) (metadata data : string) (_ : Z)
    (t : Tables) : result (Tables * Z) :=
  match pg_uuid wfID, jsonb metadata, jsonb data with
  | Some id, Some m, Some d =>
      Ok (set_t_data (t_data t ++ [{| dr_workflow_id := id; dr_version := version;
                                      dr_metadata := m; dr_data := Some d |}]) t, 1)
  | _, _, _ => Err pq_error
  end.

Definition clean_row (id : string) (version : Z) (r : DataRow) : DataRow :=
  if decide (dr_workflow_id r = id ∧ dr_version r = version) then
    {| dr_workflow_id := dr_workflow_id r; dr_version := dr_version r;
       dr_metadata := dr_metadata r; dr_data := None |}
  else r.

Definition stmt_clean_data (wfID : string) (version : Z) (_ : Z) (t : Tables)
    : result (Tables * Z) :=
  match pg_uuid wfID with
  | Some id => Ok (set_t_data (clean_row id version <$> t_data t) t, 1)
  | None => Err pq_error
  end.

(** [InsertIntoWfDataTable] once the version has been read. *)
Definition insert_data_version (maxVersions : Z) (req : UpdateWorkflowDataRequest) (version : Z)
    : go DB (option error) :=
  let version := wrap32 (version + 1) in
  try tx := BeginTx onerr (λ e, Some (WrapErr e "BEGIN transaction")) in
  try r := ExecContext tx (stmt_insert_data (ud_WorkflowId req) version (ud_Metadata req)
                             (ud_Data req))
    onerr (λ e, Some (WrapErr e "INSERT Into workflow_data")) in
  if decide (wrap32 maxVersions < version) then
    let cleanVersion := wrap32 (version - wrap32 maxVersions) in
    try r := ExecContext r.1 (stmt_clean_data (ud_WorkflowId req) cleanVersion)
      onerr (λ e, Some (WrapErr e "UPDATE")) in
    commit_or r.1
  else commit_or r.1.

Definition InsertIntoWfDataTable (maxVersions : Z) (req : UpdateWorkflowDataRequest)
    : go DB (option error) :=
  let* r := getLatestVersionWfData (ud_WorkflowId req) in
  match r with
  | (_, Some e) => go_ret (Some e)
  | (version, None) => insert_data_version maxVersions req version
  end.

Definition select_data (f : DataRow → string) (wfID : string) (version : Z) (t : Tables)
    : result string :=
  match pg_uuid wfID with
  | None => Err pq_error
  | Some id =>
      match filter (λ r, dr_workflow_id r = id ∧ dr_version r = version) (t_data t) with
      | r :: _ => Ok (f r)
      | [] => Err ErrNoRows
      end
  end.

(** The shared shape of [GetfromWfDataTable] and [GetWorkflowMetadata]: any
    error of the SELECT is logged and answered with empty data. *)
Definition get_data (f : DataRow → string) (req : GetWorkflowDataRequest)
    : go DB (string * option error) :=
  let* v := (if decide (gd_Version req = 0) then getLatestVersionWfData (gd_WorkflowId req)
             else go_ret (gd_Version req, None)) in
  match v with
  | (_, Some e) => go_ret ("", Some e)
  | (version, None) =>
      let* r := QueryRow (select_data f (gd_WorkflowId req) version) in
      go_ret (match r with Ok d => (d, None) | Err _ => ("", None) end)
  end.

Definition GetfromWfDataTable (req : GetWorkflowDataRequest) : go DB (string * option error) :=
  get_data (λ r, default "" (dr_data r)) req.
Definition GetWorkflowMetadata (req : GetWorkflowDataRequest) : go DB (string * option error) :=
  get_data dr_metadata req.

(** ** Workflows *)
Definition select_worker_workflows (id : string) (t : Tables) : result (list string) :=
  match pg_uuid id with
  | None => Err pq_error
  | Some w => Ok (fst <$> filter (λ p, p.2 = w) (elements (t_worker_map t)))
  end.

(** The scanning loop of [GetWorkflowsForWorker]. *)
Fixpoint scan_ids (l acc : list string) : go DB (list string * option error) :=
  let* err := db_call in
  match l with
  | [] =>
      go_ret (match err with
              | Some e => if err_is e ErrNoRows then ([], None) else (acc, Some e)
              | None => (acc, None)
              end)
  | id :: l' =>
      match err with
      | Some e => go_ret ([], Some (WrapErr e "SELECT from worflow_worker_map"))
      | None => scan_ids l' (acc ++ [id])
      end
  end.

Definition GetWorkflowsForWorker (id : string) : go DB (list string * option error) :=
  let* r := Query (select_worker_workflows id) in
  match r with
  | Err e => go_ret ([], Some e)
  | Ok rows => scan_ids rows []
  end.

Definition db_workflow (id : string) (row : WorkflowRow) : DbWorkflow :=
  {| dw_State := 0; dw_ID := id; dw_Hardware := wr_devices row; dw_Template := wr_template row;
     dw_CreatedAt := Some (wr_created_at row); dw_UpdatedAt := Some (wr_updated_at row) |}.

Definition select_workflow (id : string) (t : Tables) : result WorkflowRow :=
  match pg_uuid id with
  | None => Err pq_error
  | Some i =>
      match t_workflow t !! i with
      | Some row => if decide (wr_deleted_at row = None) then Ok row else Err ErrNoRows
      | None => Err ErrNoRows
      end
  end.

Definition GetWorkflow (id : string) : go DB (DbWorkflow * option error) :=
  let* r := QueryRow (select_workflow id) in
  go_ret (match r with
          | Ok row => (db_workflow id row, None)
          | Err e =>
              if decide (e = ErrNoRows) then
                (zeroDbWorkflow, Some (NewErr ("Workflow with id " +:+ id +:+ " does not exist")))
              else (zeroDbWorkflow, Some (WrapErr e "SELECT"))
          end).

Definition stmt_delete_worker_map (id : string) (_ : Z) (t : Tables) : result (Tables * Z) :=
  match pg_uuid id with
  | Some i => Ok (set_t_worker_map (filter (λ p, p.1 ≠ i) (t_worker_map t)) t, 1)
  | None => Err pq_error
  end.
Definition stmt_delete_state (id : string) (_ : Z) (t : Tables) : result (Tables * Z) :=
  match pg_uuid id with
  | Some i => Ok (set_t_state (delete i (t_state t)) t, 1)
  | None => Err pq_error
  end.

(** [UPDATE workflow SET ... WHERE id = $1] with the number of rows. *)
Definition stmt_update_workflow (id : string) (f : Z → WorkflowRow → WorkflowRow) (now : Z)
    (t : Tables) : result (Tables * Z) :=
  match pg_uuid id with
  | None => Err pq_error
  | Some i =>
      match t_workflow t !! i with
      | Some row => Ok (set_t_workflow (<[i := f now row]> (t_workflow t)) t, 1)
      | None => Ok (t, 0)
      end
  end.

Definition mark_deleted (now : Z) (row : WorkflowRow) : WorkflowRow :=
  {| wr_template := wr_template row; wr_devices := wr_devices row;
     wr_created_at := wr_created_at row; wr_updated_at := wr_updated_at row;
     wr_deleted_at := Some now |}.

Definition DeleteWorkflow (id : string) : go DB (option error) :=
  try tx := BeginTx onerr (λ e, Some (WrapErr e "BEGIN transaction")) in
  try r := ExecContext tx (stmt_delete_worker_map id)
    onerr (λ e, Some (WrapErr e "Delete Workflow Error")) in
  try r := ExecContext r.1 (stmt_delete_state id)
    onerr (λ e, Some (WrapErr e "Delete Workflow Error")) in
  try r := ExecContext r.1 (stmt_update_workflow id mark_deleted)
    onerr (λ e, Some (WrapErr e "UPDATE")) in
  if decide (r.2 = 0) then go_ret (Some (StatusErr NotFound ("not found, id:" +:+ id)))
  else commit_or r.1.

Definition select_workflows (t : Tables) : result (list (string * WorkflowRow)) :=
  Ok (filter (λ p, wr_deleted_at p.2 = None) (map_to_list (t_workflow t))).

Definition ListWorkflows {M} (fn : DbWorkflow → go (DB * list M) (option error))
    : go (DB * list M) (option error) :=
  try rows := go_zoom fst (λ s t, (s, t.2)) (Query select_workflows) onerr Some in
  for_rows (λ p, fn (db_workflow p.1 p.2)) rows.

(** The three UPDATEs of [UpdateWorkflow]. *)
Definition set_template_devices (template devices : option string) (now : Z) (row : WorkflowRow)
    : WorkflowRow :=
  {| wr_template := default (wr_template row) template;
     wr_devices := default (wr_devices row) devices;
     wr_created_at := wr_created_at row; wr_updated_at := now;
     wr_deleted_at := wr_deleted_at row |}.

Definition stmt_set_workflow (wf : DbWorkflow) (now : Z) (t : Tables) : result (Tables * Z) :=
  if decide (dw_Hardware wf = "" ∧ dw_Template wf ≠ "") then
    match pg_uuid (dw_Template wf) with
    | Some tmp => stmt_update_workflow (dw_ID wf) (set_template_devices (Some tmp) None) now t
    | None => Err pq_error
    end
  else if decide (dw_Hardware wf ≠ "" ∧ dw_Template wf = "") then
    match jsonb (dw_Hardware wf) with
    | Some dev => stmt_update_workflow (dw_ID wf) (set_template_devices None (Some dev)) now t
    | None => Err pq_error
    end
  else
    match pg_uuid (dw_Template wf), jsonb (dw_Hardware wf) with
    | Some tmp, Some dev =>
        stmt_update_workflow (dw_ID wf) (set_template_devices (Some tmp) (Some dev)) now t
    | _, _ => Err pq_error
    end.

Definition UpdateWorkflow (wf : DbWorkflow) : go DB (option error) :=
  exec_tx "UPDATE" (stmt_set_workflow wf).

(** ** Workflow state *)
Definition stmt_update_state (ctx : WorkflowContext) (_ : Z) (t : Tables) : result (Tables * Z) :=
  match pg_uuid (wc_WorkflowId ctx) with
  | None => Err pq_error
  | Some id =>
      if negb (varchar200 (wc_CurrentTask ctx) && varchar200 (wc_CurrentAction ctx) &&
               varchar200 (wc_CurrentWorker ctx)) then Err pq_too_long
      else if negb (in_smallint (wc_CurrentActionState ctx) &&
                    in_int4 (wc_CurrentActionIndex ctx)) then Err pq_error
      else
        match t_state t !! id with
        | None => Ok (t, 0)
        | Some row =>
            Ok (set_t_state (<[id := {| sr_current_task_name := wc_CurrentTask ctx;
                  sr_current_action_name := wc_CurrentAction ctx;
                  sr_current_action_state := wc_CurrentActionState ctx;
                  sr_current_worker := wc_CurrentWorker ctx;
                  sr_action_list := sr_action_list row;
                  sr_current_action_index := wc_CurrentActionIndex ctx;
                  sr_total_number_of_actions := sr_total_number_of_actions row |}]>
                  (t_state t)) t, 1)
        end
  end.

Definition UpdateWorkflowState (wfContext : WorkflowContext) : go DB (option error) :=
  exec_tx "INSERT in to workflow_state" (stmt_update_state wfContext).

Definition select_state (wfID : string) (t : Tables) : result StateRow :=
  match pg_uuid wfID with
  | None => Err pq_error
  | Some id => match t_state t !! id with Some row => Ok row | None => Err ErrNoRows end
  end.

Definition context_of_row (wfID : string) (row : StateRow) : WorkflowContext :=
  {| wc_WorkflowId := wfID; wc_CurrentWorker := sr_current_worker row;
     wc_CurrentTask := sr_current_task_name row; wc_CurrentAction := sr_current_action_name row;
     wc_CurrentActionIndex := sr_current_action_index row;
     wc_CurrentActionState := sr_current_action_state row;
     wc_TotalNumberOfActions := sr_total_number_of_actions row |}.

Definition GetWorkflowContexts (wfID : string) : go DB (WorkflowContext * option error) :=
  let* r := QueryRow (select_state wfID) in
  go_ret (match r with
          | Ok row => (context_of_row wfID row, None)
          | Err e =>
              if decide (e = ErrNoRows) then
                (zeroWorkflowContext,
                 Some (NewErr ("Workflow with id " +:+ wfID +:+ " does not exist")))
              else (zeroWorkflowContext, Some (WrapErr e "SELECT from worflow_state"))
          end).

(** Any error of the SELECT is logged and answered with an empty list. *)
Definition GetWorkflowActions (wfID : string) : go DB (WorkflowActionList * option error) :=
  let* r := QueryRow (select_state wfID) in
  go_ret (match r with Ok row => (sr_action_list row, None) | Err _ => ([], None) end).

(** ** Events *)
Definition stmt_insert_event (ev : WorkflowActionStatus) (created : Z) (_ : Z) (t : Tables)
    : result (Tables * Z) :=
  match pg_uuid (ws_WorkflowId ev), pg_uuid (ws_WorkerId ev) with
  | Some id, Some worker =>
      if negb (varchar200 (ws_TaskName ev) && varchar200 (ws_ActionName ev) &&
               varchar200 (ws_Message ev)) then Err pq_too_long
      else if negb (in_smallint (ws_ActionStatus ev) && in_int4 (ws_Seconds ev)) then Err pq_error
      else
        Ok (set_t_event (t_event t ++ [{| er_workflow_id := id; er_worker_id := worker;
              er_task_name := ws_TaskName ev; er_action_name := ws_ActionName ev;
              er_execution_time := ws_Seconds ev; er_message := ws_Message ev;
              er_status := ws_ActionStatus ev; er_created_at := created |}]) t, 1)
  | _, _ => Err pq_error
  end.

Definition InsertIntoWorkflowEventTable (wfEvent : WorkflowActionStatus) (t : Z)
    : go DB (option error) :=
  exec_tx "INSERT in to workflow_event" (stmt_insert_event wfEvent t).

Definition event_before (e1 e2 : EventRow) : Prop := er_created_at e1 ≤ er_created_at e2.
#[global] Instance event_before_dec : RelDecision event_before.
Proof. intros e1 e2. unfold event_before. apply _. Defined.

Definition select_events (wfID : string) (t : Tables) : result (list EventRow) :=
  match pg_uuid wfID with
  | None => Err pq_error
  | Some id => Ok (merge_sort event_before (filter (λ e, er_workflow_id e = id) (t_event t)))
  end.

Definition status_of_event (e : EventRow) : WorkflowActionStatus :=
  {| ws_WorkflowId := ""; ws_TaskName := er_task_name e; ws_ActionName := er_action_name e;
     ws_ActionStatus := er_status e; ws_Seconds := er_execution_time e;
     ws_Message := er_message e; ws_CreatedAt := Some (er_created_at e);
     ws_WorkerId := er_worker_id e |}.

Definition ShowWorkflowEvents {M} (wfID : string)
    (fn : WorkflowActionStatus → go (DB * list M) (option error))
    : go (DB * list M) (option error) :=
  try rows := go_zoom fst (λ s t, (s, t.2)) (Query (select_events wfID)) onerr Some in
  for_rows (λ e, fn (status_of_event e)) rows.
End ops.

(** ** Lemmas: no operation panics, errors store nothing *)
Section atomic.
Context `{DE : DbEnv} `{TE : TemplateEnv} `{MR : MapRange}.

Lemma getWorkerID_pure addr : db_pure (getWorkerID addr).
Proof. unfold getWorkerID, getWorkerIDbyIP, getWorkerIDbyMac. db_walk. Qed.

Lemma insert_tasks_pure id tasks u tx acc : db_pure (insert_tasks id tasks u tx acc).
Proof.
  revert u tx acc. induction tasks as [|t l IH]; intros; simpl; [db_walk|].
  apply db_pure_try; [apply getWorkerID_pure|]. intros wid. case_match; [|db_walk].
  case_decide; [|apply IH]. apply db_pure_try; [|intros; apply IH].
  unfold insertIntoWfWorkerTable. db_walk.
Qed.

Lemma insertActionList_pure y id tx : db_pure (insertActionList y id tx).
Proof.
  unfold insertActionList. case_match; [|db_walk].
  apply db_pure_try; [apply insert_tasks_pure|]. intros. db_walk.
Qed.

Lemma CreateWorkflow_atomic wf data id : db_atomic (CreateWorkflow wf data id).
Proof.
  unfold CreateWorkflow. apply db_atomic_try; [db_walk|]. intros tx.
  apply db_atomic_try; [apply insertActionList_pure|]. intros tx1.
  apply db_atomic_try; [unfold insertInWorkflow; db_walk|]. intros. db_walk.
Qed.

Lemma getLatestVersion_pure id : db_pure (getLatestVersionWfData id).
Proof. unfold getLatestVersionWfData. db_walk. Qed.

Lemma insert_data_atomic mv req v : db_atomic (insert_data_version mv req v).
Proof. unfold insert_data_version. db_walk. Qed.

Lemma InsertIntoWfDataTable_atomic mv req : db_atomic (InsertIntoWfDataTable mv req).
Proof.
  unfold InsertIntoWfDataTable. apply db_atomic_bind; [apply getLatestVersion_pure|].
  intros [v [e|]]; [apply db_pure_atomic; db_walk|apply insert_data_atomic].
Qed.

Lemma DeleteWorkflow_atomic id : db_atomic (DeleteWorkflow id).
Proof.
  unfold DeleteWorkflow. do 4 (apply db_atomic_try; [db_walk|]; intros).
  case_decide; [apply db_pure_atomic|]; db_walk.
Qed.
End atomic.

(** ** Lemmas: versions of the ephemeral data *)
Definition data_rows (id : string) (t : Tables) : list DataRow :=
  filter (λ r, dr_workflow_id r = id) (t_data t).

(** The rows of a workflow carry the versions 1, 2, ... in order, and the last
    [mv] of them, and no other, still have their data. *)
Definition data_inv (mv : Z) (t : Tables) : Prop :=
  ∀ id k r, data_rows id t !! k = Some r →
    dr_version r = Z.of_nat (S k) ∧
    (is_Some (dr_data r) ↔ Z.of_nat (length (data_rows id t)) - mv < dr_version r).

Lemma clean_row_id id v r : dr_workflow_id (clean_row id v r) = dr_workflow_id r.
Proof. unfold clean_row. by case_decide. Qed.
Lemma clean_row_version id v r : dr_version (clean_row id v r) = dr_version r.
Proof. unfold clean_row. by case_decide. Qed.

Lemma filter_clean_rows id id' v (l : list DataRow) :
  filter (λ r, dr_workflow_id r = id) (clean_row id' v <$> l) =
  clean_row id' v <$> filter (λ r, dr_workflow_id r = id) l.
Proof.
  induction l as [|r l IH]; [done|]. csimpl. rewrite !filter_cons, clean_row_id, IH.
  by case_decide.
Qed.

Lemma clean_row_other id' v r : dr_workflow_id r ≠ id' → clean_row id' v r = r.
Proof. unfold clean_row. intros. rewrite decide_False; [done|]. naive_solver. Qed.

Lemma clean_rows_other id id' v t :
  id ≠ id' → clean_row id' v <$> data_rows id t = data_rows id t.
Proof.
  intros Hne. rewrite <- (list_fmap_id (data_rows id t)) at 2. apply list_fmap_ext.
  intros k r Hr. apply list_elem_of_lookup_2, list_elem_of_filter in Hr as [Hr _].
  rewrite clean_row_other; [done|]. congruence.
Qed.

Section data.
Context `{DE : DbEnv} `{TE : TemplateEnv} `{MR : MapRange}.

(** What an accepted insertion stores, whatever version was read. *)
Lemma insert_data_tables mv req n s s' :
  0 ≤ n → n + 1 < 2 ^ 31 → 1 ≤ mv < 2 ^ 31 →
  insert_data_version mv req n s = (Ret None, s') →
  ∃ id m d, pg_uuid (ud_WorkflowId req) = Some id ∧ jsonb (ud_Metadata req) = Some m ∧
    jsonb (ud_Data req) = Some d ∧
    let new := {| dr_workflow_id := id; dr_version := n + 1; dr_metadata := m;
                  dr_data := Some d |} in
    db_tables s' = set_t_data
      (if decide (mv < n + 1) then clean_row id (n + 1 - mv) <$> (t_data (db_tables s) ++ [new])
       else t_data (db_tables s) ++ [new]) (db_tables s).
Proof.
  intros Hn Hn1 Hmv Hrun. unfold insert_data_version in Hrun.
  rewrite !(wrap32_id (n + 1)) in Hrun by (unfold in_int32; lia).
  rewrite !(wrap32_id mv), (wrap32_id (n + 1 - mv)) in Hrun by (unfold in_int32; lia).
  apply go_try_inv in Hrun as [(tx & s1 & Hb & Hrun)|(e & _ & ?)]; [|done].
  apply BeginTx_Ok in Hb as [-> Ht1].
  apply go_try_inv in Hrun as [([tx1 c] & s2 & Hx & Hrun)|(e & _ & ?)]; [|done].
  apply ExecContext_Ok in Hx as [[now Hx] Ht2]. unfold stmt_insert_data in Hx.
  destruct (pg_uuid (ud_WorkflowId req)) as [id|] eqn:Hid; [|done].
  destruct (jsonb (ud_Metadata req)) as [m|]; [|done].
  destruct (jsonb (ud_Data req)) as [d|]; [|done]. simplify_eq.
  exists id, m, d. split_and!; [done..|]. simpl in *. case_decide.
  - apply go_try_inv in Hrun as [([tx2 c2] & s3 & Hy & Hrun)|(e & _ & ?)]; [|done].
    apply ExecContext_Ok in Hy as [[now' Hy] Ht3]. unfold stmt_clean_data in Hy.
    rewrite Hid in Hy. simplify_eq. by apply commit_or_None in Hrun.
  - by apply commit_or_None in Hrun.
Qed.

(** Under the invariant the clean-up can be written without its guard. *)
Lemma insert_data_rows mv req n s s' :
  1 ≤ mv < 2 ^ 31 → n + 1 < 2 ^ 31 → data_inv mv (db_tables s) →
  count_data (ud_WorkflowId req) (db_tables s) = Ok n →
  insert_data_version mv req n s = (Ret None, s') →
  ∃ id m d, pg_uuid (ud_WorkflowId req) = Some id ∧ jsonb (ud_Data req) = Some d ∧
    n = Z.of_nat (length (data_rows id (db_tables s))) ∧
    data_rows id (db_tables s') =
      (clean_row id (n + 1 - mv) <$> data_rows id (db_tables s)) ++
      [{| dr_workflow_id := id; dr_version := n + 1; dr_metadata := m; dr_data := Some d |}] ∧
    ∀ id', id' ≠ id → data_rows id' (db_tables s') = data_rows id' (db_tables s).
Proof.
  intros Hmv Hn1 Hinv Hcount Hrun. unfold count_data in Hcount.
  destruct (pg_uuid (ud_WorkflowId req)) as [id|] eqn:Hid; [|done].
  assert (n = Z.of_nat (length (data_rows id (db_tables s)))) as Hn.
  { unfold data_rows. by destruct (in_int4 _); simplify_eq. }
  apply insert_data_tables in Hrun as (id' & m & d & Hid' & Hm & Hd & Ht); [|lia..].
  rewrite Hid in Hid'. injection Hid' as <-. exists id, m, d. split_and!; [done..| |].
  - rewrite Ht. unfold data_rows. cbn [t_data set_t_data]. destruct (decide (mv < n + 1)).
    + rewrite filter_clean_rows, filter_app, fmap_app, filter_cons_True by done. simpl.
      f_equal. unfold clean_row at 1. rewrite decide_False; [done|]. simpl. lia.
    + rewrite filter_app, filter_cons_True by done. f_equal.
      rewrite <- (list_fmap_id (filter _ _)) at 1. apply list_fmap_ext. intros k r Hr.
      unfold clean_row. rewrite decide_False; [done|]. intros [_ Hv].
      destruct (Hinv id k r Hr) as [Hver _]. lia.
  - intros id' Hne. rewrite Ht. unfold data_rows. cbn [t_data set_t_data]. destruct (decide (mv < n + 1)).
    + rewrite filter_clean_rows, filter_app, filter_cons_False by (simpl; congruence).
      rewrite app_nil_r. by apply clean_rows_other.
    + rewrite filter_app, filter_cons_False by (simpl; congruence). apply app_nil_r.
Qed.

Lemma insert_data_inv mv req n s s' :
  1 ≤ mv < 2 ^ 31 → n + 1 < 2 ^ 31 → data_inv mv (db_tables s) →
  count_data (ud_WorkflowId req) (db_tables s) = Ok n →
  insert_data_version mv req n s = (Ret None, s') →
  data_inv mv (db_tables s').
Proof.
  intros Hmv Hn1 Hinv Hcount Hrun id0 k r Hr.
  destruct (insert_data_rows mv req n s s' Hmv Hn1 Hinv Hcount Hrun)
    as (id & m & d & Hid & Hd & Hn & Hrows & Hother).
  destruct (decide (id0 = id)) as [->|Hne]; [|rewrite Hother in Hr |- * by done; by apply Hinv].
  rewrite Hrows in Hr |- *. rewrite length_app, length_fmap. simpl.
  apply lookup_app_Some in Hr as [Hr|[Hle Hr]].
  - rewrite list_lookup_fmap in Hr. apply fmap_Some in Hr as (r0 & Hr0 & ->).
    pose proof (list_elem_of_lookup_2 _ _ _ Hr0) as [Hw _]%list_elem_of_filter.
    destruct (Hinv id k r0 Hr0) as [Hv Hdata]. rewrite clean_row_version. split; [done|].
    unfold clean_row. case_decide as Hc; simpl.
    + split; [by intros []|lia].
    + rewrite Hdata. split; [|lia]. intros Hlt.
      destruct (decide (dr_version r0 = n + 1 - mv)); [naive_solver|lia].
  - rewrite length_fmap in *. apply list_lookup_singleton_Some in Hr as [Hk <-]. simpl.
    split; [lia|]. split; [lia|eauto].
Qed.
End data.

(** ** Lemmas: the flattening of a template *)
Section create.
Context `{DE : DbEnv} `{TE : TemplateEnv} `{MR : MapRange}.

(** The rows of one task whose worker is [w]. *)
Definition task_rows (t : YTask) (w : string) : WorkflowActionList :=
  action_row t w (copy_map (yt_Environment t) ∅) (add_volumes (yt_Volumes t) ∅) <$> yt_Actions t.

Definition flatten (tasks : list YTask) (workers : list string) : WorkflowActionList :=
  mjoin (zip_with task_rows tasks workers).

(** The actions of a template with their tasks and workers, in order. *)
Definition planned (tasks : list YTask) (workers : list string) : list (YTask * string * YAction) :=
  mjoin (zip_with (λ t w, (λ ac, (t, w, ac)) <$> yt_Actions t) tasks workers).

(** The volumes of a list by their sources, of which the last one counts. *)
Definition volume_map (l : list string) : gmap string string :=
  list_to_map (reverse (volume_entry <$> l)).

(** What is stored of an action. *)
Definition stored_action (p : YTask * string * YAction) (row : WorkflowAction) : Prop :=
  let '(task, w, ac) := p in
  wa_TaskName row = yt_Name task ∧ wa_WorkerId row = w ∧ wa_Name row = ya_Name ac ∧
  wa_Image row = ya_Image ac ∧ wa_Timeout row = ya_Timeout ac ∧ wa_Command row = ya_Command ac ∧
  wa_OnTimeout row = ya_OnTimeout ac ∧ wa_OnFailure row = ya_OnFailure ac ∧
  wa_Pid row = ya_Pid ac ∧
  wa_Environment row ≡ₚ
    (λ kv, kv.1 +:+ "=" +:+ kv.2) <$> map_to_list (ya_Environment ac ∪ yt_Environment task) ∧
  wa_Volumes row ≡ₚ
    (λ kv, kv.1 +:+ ":" +:+ kv.2) <$> map_to_list (volume_map (ya_Volumes ac) ∪ volume_map (yt_Volumes task)).

Lemma add_volumes_union l m : add_volumes l m = volume_map l ∪ m.
Proof.
  unfold add_volumes, volume_map. revert m. induction l as [|v l IH] using rev_ind; intros m; simpl.
  { by rewrite (left_id_L ∅ (∪)). }
  rewrite foldl_snoc, IH, fmap_app, reverse_app. simpl. destruct (volume_entry v) as [k x].
  simpl. by rewrite insert_union_l.
Qed.

Lemma action_row_stored task w ac :
  stored_action (task, w, ac)
    (action_row task w (copy_map (yt_Environment task) ∅) (add_volumes (yt_Volumes task) ∅) ac).
Proof.
  unfold stored_action, action_row. simpl.
  rewrite !add_volumes_union, !copy_map_union, !(right_id_L ∅ (∪)).
  split_and!; [done..| |]; by rewrite range_map_perm.
Qed.

Lemma flatten_planned tasks workers :
  Forall2 stored_action (planned tasks workers) (flatten tasks workers).
Proof.
  revert workers. induction tasks as [|t tasks IH]; intros [|w ws]; try constructor.
  unfold planned, flatten. simpl. apply Forall2_app; [|apply IH].
  unfold task_rows. apply Forall2_fmap_2, Forall_Forall2_diag, Forall_true.
  intros ac. apply action_row_stored.
Qed.

Lemma insertWfWorker_Ok wfID w tx s tx' s' :
  insertIntoWfWorkerTable wfID w tx s = (Ret (Ok tx'), s') →
  tx' = set_t_worker_map ({[ (wfID, w) ]} ∪ t_worker_map tx) tx ∧ db_tables s' = db_tables s.
Proof.
  unfold insertIntoWfWorkerTable. intros (r & s1 & Hx & Hk)%go_bind_inv.
  unfold go_ret in Hk. destruct r as [[tx1 n]|e]; simplify_eq.
  apply ExecContext_Ok in Hx as [[now Hx] Ht]. unfold stmt_insert_worker_map in Hx.
  by simplify_eq.
Qed.

(** [w] is the UUID of a machine that has the address: of hardware that is not deleted
    and contains an interface with the MAC address, or the IP address as that of an
    interface or of the instance. *)
Definition machine_at (t : Tables) (addr w : string) : Prop :=
  ∃ hid row, t_hardware t !! hid = Some row ∧ hr_deleted_at row = None ∧
    uuid_parse hid = Some w ∧
    hardware_matches (match ParseMAC addr with
                      | Some mac => [mac_query mac]
                      | None => [instance_query addr; ip_query addr]
                      end) row = Some true.

Lemma find_hardware_Ok args l hid row :
  find_hardware args l = Ok (hid, row) →
  (hid, row) ∈ l ∧ hr_deleted_at row = None ∧ hardware_matches args row = Some true.
Proof.
  induction l as [|[i r] l IH]; simpl; [done|]. rewrite elem_of_cons. case_decide; [|naive_solver].
  destruct (hardware_matches args r) as [[]|] eqn:E; naive_solver.
Qed.

Lemma get_select_hardware args s id s' :
  get (select_hardware fst args) s = (Ret (Ok id), s') →
  ∃ row, t_hardware (db_tables s) !! id = Some row ∧ hr_deleted_at row = None ∧
    hardware_matches args row = Some true.
Proof.
  unfold get, go_bind, QueryRow, go_ret, select_hardware. intros H.
  destruct (db_fault _); [by simplify_eq|].
  destruct (find_hardware _ _) as [[i row]|] eqn:E; simplify_eq/=.
  apply find_hardware_Ok in E as [Hin%elem_of_map_to_list ?]. by exists row.
Qed.

Lemma with_message_Ok msg kind addr r id :
  with_message msg (no_worker kind addr r) = Ok id → r = Ok id.
Proof. destruct r as [i|e]; [naive_solver|]. simpl. by destruct (err_is e ErrNoRows). Qed.

Lemma getWorkerID_Ok addr s hid s' w :
  getWorkerID addr s = (Ret (Ok hid), s') → uuid_parse hid = Some w →
  machine_at (db_tables s) addr w ∧ db_tables s' = db_tables s.
Proof.
  intros Hrun Hw. destruct (getWorkerID_pure addr s) as (a & s1 & E & Ht).
  rewrite Hrun in E. simplify_eq. split; [|done].
  unfold machine_at. unfold getWorkerID in Hrun. destruct (ParseMAC addr) as [mac|].
  - apply go_bind_inv in Hrun as (r & s2 & Hg & Hk). unfold go_ret in Hk.
    assert (with_message "no worker found" r = Ok hid) as Hr by by simplify_eq.
    unfold getWorkerIDbyMac in Hg. apply go_bind_inv in Hg as (r' & s3 & Hg & Hk').
    unfold go_ret in Hk'. simplify_eq. apply with_message_Ok in Hr as ->.
    apply get_select_hardware in Hg as (row & ? & ? & ?). by exists hid, row.
  - destruct (negb _); [done|].
    apply go_bind_inv in Hrun as (r & s2 & Hg & Hk). unfold go_ret in Hk.
    assert (with_message "no worker found" r = Ok hid) as Hr by by simplify_eq.
    unfold getWorkerIDbyIP in Hg. apply go_bind_inv in Hg as (r' & s3 & Hg & Hk').
    unfold go_ret in Hk'. simplify_eq. apply with_message_Ok in Hr as ->.
    apply get_select_hardware in Hg as (row & ? & ? & ?). by exists hid, row.
Qed.

(** The loop over the tasks adds rows to the worker map only, one for the worker
    of every task (the zero UUID apart). *)
Lemma insert_tasks_Ok id tasks u tx acc s tx' l s' :
  (u = zeroUUID ∨ (id, u) ∈ t_worker_map tx) →
  insert_tasks id tasks u tx acc s = (Ret (Ok (tx', l)), s') →
  ∃ workers m, Forall2 (λ t, machine_at (db_tables s) (yt_WorkerAddr t)) tasks workers ∧
    l = acc ++ flatten tasks workers ∧
    tx' = set_t_worker_map m tx ∧ t_worker_map tx ⊆ m ∧
    (∀ w, w ∈ workers → w ≠ zeroUUID → (id, w) ∈ m) ∧
    (∀ p, p ∈ m → p ∈ t_worker_map tx ∨ p.1 = id ∧ p.2 ∈ workers).
Proof.
  revert u tx acc s. induction tasks as [|t tasks IH]; intros u tx acc s Hu Hrun; simpl in Hrun.
  { unfold go_ret in Hrun. simplify_eq. exists [], (t_worker_map tx'). rewrite app_nil_r.
    split_and!; [constructor|done|by destruct tx'|done|set_solver|set_solver]. }
  apply go_try_inv in Hrun as [(wid & s1 & Hw & Hrun)|(e & _ & ?)]; [|done].
  destruct (uuid_parse wid) as [w|] eqn:Hu'; [|unfold go_ret in Hrun; by simplify_eq].
  destruct (getWorkerID_Ok _ _ _ _ _ Hw Hu') as [Hm Ht1]. case_decide as Hne.
  - apply go_try_inv in Hrun as [(tx1 & s2 & Hi & Hrun)|(e & _ & ?)]; [|done].
    apply insertWfWorker_Ok in Hi as [-> Ht2]. rewrite Ht1 in Ht2.
    apply IH in Hrun as (ws & m & Hlen & -> & -> & Hsub & Hin & Hfrom); [|right; simpl; set_solver].
    exists (w :: ws), m. simpl in *. rewrite Ht2 in Hlen.
    split_and!; [by constructor| |done|set_solver| |].
    + by rewrite <- (assoc_L (++)).
    + intros w' [->|Hw']%elem_of_cons Hz; [set_solver|by apply Hin].
    + intros p Hp. apply Hfrom in Hp. destruct p. set_solver.
  - subst w.
    apply IH in Hrun as (ws & m & Hlen & -> & -> & Hsub & Hin & Hfrom); [|done].
    exists (u :: ws), m. simpl in *. rewrite Ht1 in Hlen.
    split_and!; [by constructor| |done|done| |].
    + by rewrite <- (assoc_L (++)).
    + intros w' [->|Hw']%elem_of_cons Hz; [|by apply Hin]. destruct Hu; [done|set_solver].
    + intros p Hp. apply Hfrom in Hp. set_solver.
Qed.

Definition initial_state (l : WorkflowActionList) : StateRow :=
  {| sr_current_task_name := ""; sr_current_action_name := ""; sr_current_action_state := 0;
     sr_current_worker := ""; sr_action_list := l; sr_current_action_index := 0;
     sr_total_number_of_actions := Z.of_nat (length l) |}.

Lemma insertActionList_Ok y id tx s tx' s' :
  insertActionList y id tx s = (Ret (Ok tx'), s') →
  ∃ wf workers m, Parse y = Ok wf ∧
    Forall2 (λ t, machine_at (db_tables s) (yt_WorkerAddr t)) (yw_Tasks wf) workers ∧
    tx' = set_t_state (<[id := initial_state (flatten (yw_Tasks wf) workers)]> (t_state tx))
            (set_t_worker_map m tx) ∧
    t_worker_map tx ⊆ m ∧ (∀ w, w ∈ workers → w ≠ zeroUUID → (id, w) ∈ m) ∧
    (∀ p, p ∈ m → p ∈ t_worker_map tx ∨ p.1 = id ∧ p.2 ∈ workers).
Proof.
  unfold insertActionList. intros Hrun. destruct (Parse y) as [wf|e] eqn:Hp;
    [|unfold go_ret in Hrun; by simplify_eq].
  apply go_try_inv in Hrun as [([tx1 l] & s1 & Hi & Hrun)|(e & _ & ?)]; [|done].
  apply insert_tasks_Ok in Hi as (ws & m & Hlen & -> & -> & Hsub & Hin & Hfrom); [|by left].
  apply go_try_inv in Hrun as [([tx2 c] & s2 & Hx & Hrun)|(e & _ & ?)]; [|done].
  apply ExecContext_Ok in Hx as [[now Hx] _]. unfold stmt_insert_state in Hx.
  unfold go_ret in Hrun. simpl in *. destruct (in_int4 _); simplify_eq.
  exists wf, ws, m. split_and!; done.
Qed.
End create.

(** A loop over rows that returns no error has sent every row. *)
Lemma for_rows_send `{DbEnv} {A M} (f : A → M) (l : list A) s sent s' sent' :
  for_rows (λ a, stream_send (λ _, None) (f a)) l (s, sent) = (Ret None, (s', sent')) →
  sent' = sent ++ (f <$> l).
Proof.
  revert s sent. induction l as [|a l IH]; intros s sent Hrun; simpl in Hrun.
  - apply go_bind_inv in Hrun as (e & [s1 sent1] & Hc & Hk). unfold go_zoom in Hc.
    simpl in Hc. unfold go_ret in Hk. simplify_eq. by rewrite app_nil_r.
  - apply go_bind_inv in Hrun as (e & [s1 sent1] & Hc & Hk). unfold go_zoom in Hc.
    simpl in Hc. simplify_eq. destruct (db_fault (db_tick s)).
    + unfold go_ret in Hk. by simplify_eq.
    + unfold go_bind in Hk. simpl in Hk. apply IH in Hk. by rewrite Hk, <- (assoc_L (++)).
Qed.

#[global] Instance event_before_trans : Transitive event_before.
Proof. intros ???. unfold event_before. lia. Qed.
#[global] Instance event_before_total : Total event_before.
Proof. intros e1 e2. unfold event_before. lia. Qed.

Section store_lemmas.
Context `{DE : DbEnv} `{TE : TemplateEnv} `{MR : MapRange}.

Lemma create_stores wf data id s s' :
  CreateWorkflow wf data id s = (Ret None, s') →
  ∃ ywf workers wid template devices now,
    Parse data = Ok ywf ∧
    Forall2 (λ t, machine_at (db_tables s) (yt_WorkerAddr t)) (yw_Tasks ywf) workers ∧
    pg_uuid (dw_ID wf) = Some wid ∧ pg_uuid (dw_Template wf) = Some template ∧
    jsonb (dw_Hardware wf) = Some devices ∧
    t_state (db_tables s') =
      <[id := initial_state (flatten (yw_Tasks ywf) workers)]> (t_state (db_tables s)) ∧
    t_worker_map (db_tables s) ⊆ t_worker_map (db_tables s') ∧
    (∀ p, p ∈ t_worker_map (db_tables s') →
       p ∈ t_worker_map (db_tables s) ∨ p.1 = id ∧ p.2 ∈ workers) ∧
    (∀ w, w ∈ workers → w ≠ zeroUUID → (id, w) ∈ t_worker_map (db_tables s')) ∧
    t_workflow (db_tables s') =
      <[wid := {| wr_template := template; wr_devices := devices;
                  wr_created_at := from_option wr_created_at now (t_workflow (db_tables s) !! wid);
                  wr_updated_at := now; wr_deleted_at := None |}]> (t_workflow (db_tables s)) ∧
    t_hardware (db_tables s') = t_hardware (db_tables s) ∧
    t_template (db_tables s') = t_template (db_tables s) ∧
    t_event (db_tables s') = t_event (db_tables s) ∧ t_data (db_tables s') = t_data (db_tables s).
Proof.
  unfold CreateWorkflow. intros Hrun.
  apply go_try_inv in Hrun as [(tx & s1 & Hb & Hrun)|(e & _ & ?)]; [|done].
  apply BeginTx_Ok in Hb as [-> Ht1].
  apply go_try_inv in Hrun as [(tx1 & s2 & Hi & Hrun)|(e & _ & ?)]; [|done].
  apply insertActionList_Ok in Hi as (ywf & ws & m & Hp & Hlen & -> & Hsub & Hin & Hfrom).
  rewrite Ht1 in Hlen.
  apply go_try_inv in Hrun as [(tx2 & s3 & Hx & Hrun)|(e & _ & ?)]; [|done].
  apply commit_or_None in Hrun. unfold insertInWorkflow in Hx.
  apply go_bind_inv in Hx as (now & s4 & _ & (r & s5 & Hx & Hk)%go_bind_inv).
  unfold go_ret in Hk. destruct r as [[tx3 n]|e]; simplify_eq.
  apply ExecContext_Ok in Hx as [[now' Hx] _]. unfold stmt_insert_workflow in Hx.
  destruct (pg_uuid (dw_ID wf)) as [wid|]; [|done].
  destruct (pg_uuid (dw_Template wf)) as [tm|]; [|done].
  destruct (jsonb (dw_Hardware wf)) as [dev|]; [|done]. injection Hx as Hx _.
  exists ywf, ws, wid, tm, dev, now. rewrite <- Hx. simpl.
  by split_and!.
Qed.

Lemma delete_effect id i s r s' :
  pg_uuid id = Some i → DeleteWorkflow id s = (Ret r, s') →
  match r with
  | None =>
      ∃ row now, t_workflow (db_tables s) !! i = Some row ∧
      t_workflow (db_tables s') = <[i := mark_deleted now row]> (t_workflow (db_tables s)) ∧
      t_state (db_tables s') = delete i (t_state (db_tables s)) ∧
      (∀ p, p ∈ t_worker_map (db_tables s') ↔ p.1 ≠ i ∧ p ∈ t_worker_map (db_tables s)) ∧
      select_workflow id (db_tables s') = Err ErrNoRows
  | Some _ => db_tables s' = db_tables s
  end.
Proof.
  intros Hid Hrun. destruct r as [e|].
  { destruct (DeleteWorkflow_atomic id s) as (r & s1 & Hrun' & Hr). rewrite Hrun in Hrun'.
    simplify_eq. by apply Hr. }
  unfold DeleteWorkflow in Hrun.
  apply go_try_inv in Hrun as [(tx & s1 & Hb & Hrun)|(e & _ & ?)]; [|done].
  apply BeginTx_Ok in Hb as [-> _].
  do 3 (apply go_try_inv in Hrun as [([? ?] & ? & [[? Hx] _]%ExecContext_Ok & Hrun)|(e & _ & ?)];
    [|done]; unfold stmt_delete_worker_map, stmt_delete_state, stmt_update_workflow in Hx;
    rewrite Hid in Hx; simplify_eq).
  simpl in *. destruct (t_workflow (db_tables s) !! i) as [row|] eqn:Hrow; simplify_eq/=.
  apply commit_or_None in Hrun. eexists row, _. split; [done|]. rewrite Hrun. simpl.
  split; [done|]. split; [done|]. split.
  - intros p. by rewrite elem_of_filter.
  - unfold select_workflow. rewrite Hid. simpl. by rewrite lookup_insert_eq.
Qed.
End store_lemmas.

(** ** Properties *)
Section properties.
Context `{DE : DbEnv} `{TE : TemplateEnv} `{MR : MapRange}.

(** C17 A workflow that is created is stored whole. Its state starts before the first
    action, with the actions of all tasks of the parsed template in order; each action
    keeps the fields of the template, belongs to a machine in the hardware table that is
    not deleted and has the address of its task, and has the environment and the volumes
    of its task, those of the action overriding them, in any order. The machine of every
    task is mapped to the workflow (unless its id is the zero UUID), no other mapping is
    added and none is lost; the row of the workflow is live and keeps its time of
    creation when it existed; and every other row of every table is as it was. *)
Theorem create_workflow_stores wf data id s s' :
  CreateWorkflow wf data id s = (Ret None, s') →
  ∃ ywf workers actions wid template devices now,
    Parse data = Ok ywf ∧
    Forall2 (λ t, machine_at (db_tables s) (yt_WorkerAddr t)) (yw_Tasks ywf) workers ∧
    Forall2 stored_action (planned (yw_Tasks ywf) workers) actions ∧
    pg_uuid (dw_ID wf) = Some wid ∧ pg_uuid (dw_Template wf) = Some template ∧
    jsonb (dw_Hardware wf) = Some devices ∧
    t_state (db_tables s') = <[id := initial_state actions]> (t_state (db_tables s)) ∧
    t_worker_map (db_tables s) ⊆ t_worker_map (db_tables s') ∧
    (∀ p, p ∈ t_worker_map (db_tables s') →
       p ∈ t_worker_map (db_tables s) ∨ p.1 = id ∧ p.2 ∈ workers) ∧
    (∀ w, w ∈ workers → w ≠ zeroUUID → (id, w) ∈ t_worker_map (db_tables s')) ∧
    t_workflow (db_tables s') =
      <[wid := {| wr_template := template; wr_devices := devices;
                  wr_created_at := from_option wr_created_at now (t_workflow (db_tables s) !! wid);
                  wr_updated_at := now; wr_deleted_at := None |}]> (t_workflow (db_tables s)) ∧
    t_hardware (db_tables s') = t_hardware (db_tables s) ∧
    t_template (db_tables s') = t_template (db_tables s) ∧
    t_event (db_tables s') = t_event (db_tables s) ∧ t_data (db_tables s') = t_data (db_tables s).
Proof.
  intros (ywf & ws & wid & tm & dev & now & H)%create_stores. destruct H as (Hp & Hws & H).
  exists ywf, ws, (flatten (yw_Tasks ywf) ws), wid, tm, dev, now.
  split; [done|]. split; [done|]. split; [apply flatten_planned|done].
Qed.

(** A state update is read back as it was written, it keeps the action list
    and the number of actions, and the state of every other workflow is as it
    was; an update of a workflow that has no state succeeds and stores nothing. *)
Theorem update_state_read_back ctx s s' id :
  pg_uuid (wc_WorkflowId ctx) = Some id →
  UpdateWorkflowState ctx s = (Ret None, s') →
  match t_state (db_tables s) !! id with
  | None => db_tables s' = db_tables s
  | Some row =>
      t_state (db_tables s') !! id ≫= (λ row', Some (context_of_row (wc_WorkflowId ctx) row')) =
        Some {| wc_WorkflowId := wc_WorkflowId ctx; wc_CurrentWorker := wc_CurrentWorker ctx;
                wc_CurrentTask := wc_CurrentTask ctx; wc_CurrentAction := wc_CurrentAction ctx;
                wc_CurrentActionIndex := wc_CurrentActionIndex ctx;
                wc_CurrentActionState := wc_CurrentActionState ctx;
                wc_TotalNumberOfActions := sr_total_number_of_actions row |} ∧
      sr_action_list <$> t_state (db_tables s') !! id = Some (sr_action_list row) ∧
      (∀ id', id' ≠ id → t_state (db_tables s') !! id' = t_state (db_tables s) !! id')
  end.
Proof.
  intros Hid Hrun. unfold UpdateWorkflowState in Hrun.
  destruct (exec_tx_spec "INSERT in to workflow_state" (stmt_update_state ctx) s)
    as (r & s1 & Hrun' & Hr). rewrite Hrun in Hrun'. simplify_eq.
  destruct Hr as (now & t & n & Hst & ->). unfold stmt_update_state in Hst. rewrite Hid in Hst.
  destruct (negb _); [done|]. destruct (negb _); [done|].
  destruct (t_state (db_tables s) !! id) as [row|]; simplify_eq; [|done]. simpl.
  rewrite lookup_insert_eq. split_and!; [done..|].
  intros id' Hne. by rewrite lookup_insert_ne.
Qed.

(** C21 Storing a version of the ephemeral data keeps the versions of every
    workflow 1, 2, ... without gap and keeps the data of the last maxVersions of
    them and of no other; the new data is the one read back (as the server
    normalises it). *)
Theorem wf_data_insert mv req n s s' :
  1 ≤ mv < 2 ^ 31 → n + 1 < 2 ^ 31 → data_inv mv (db_tables s) →
  count_data (ud_WorkflowId req) (db_tables s) = Ok n →
  InsertIntoWfDataTable mv req s = (Ret None, s') →
  data_inv mv (db_tables s') ∧
  count_data (ud_WorkflowId req) (db_tables s') = Ok (n + 1) ∧
  ∃ d, jsonb (ud_Data req) = Some d ∧
    select_data (λ r, default "" (dr_data r)) (ud_WorkflowId req) (n + 1) (db_tables s') = Ok d.
Proof.
  intros Hmv Hn1 Hinv Hcount Hrun. unfold InsertIntoWfDataTable in Hrun.
  apply go_bind_inv in Hrun as ([v e] & s1 & Hv & Hrun).
  assert (db_tables s1 = db_tables s ∧ (e = None → v = n)) as [Ht Hvn].
  { unfold getLatestVersionWfData, go_bind, QueryRow, go_ret in Hv.
    destruct (db_fault (db_tick s)); [|rewrite Hcount in Hv]; by simplify_eq. }
  destruct e as [e|]; [unfold go_ret in Hrun; by simplify_eq|].
  specialize (Hvn eq_refl) as ->. rewrite <- Ht in Hinv, Hcount.
  destruct (insert_data_rows mv req n s1 s' Hmv Hn1 Hinv Hcount Hrun)
    as (id & m & d & Hid & Hd & Hn & Hrows & _).
  pose proof (insert_data_inv mv req n s1 s' Hmv Hn1 Hinv Hcount Hrun) as Hinv'.
  split; [done|]. unfold count_data, select_data. rewrite Hid. fold (data_rows id (db_tables s')).
  rewrite Hrows, length_app, length_fmap. simpl. split.
  - unfold in_int4. rewrite bool_decide_eq_true_2 by lia. f_equal. lia.
  - exists d. split; [done|].
    assert (filter (λ r, dr_workflow_id r = id ∧ dr_version r = n + 1) (t_data (db_tables s')) =
      [{| dr_workflow_id := id; dr_version := n + 1; dr_metadata := m; dr_data := Some d |}])
      as ->; [|done].
    rewrite (list_filter_iff _ (λ r, dr_version r = n + 1 ∧ dr_workflow_id r = id)) by tauto.
    rewrite <- list_filter_filter. fold (data_rows id (db_tables s')). rewrite Hrows.
    rewrite filter_app, filter_cons_True by done.
    assert (filter (λ r, dr_version r = n + 1)
      (clean_row id (n + 1 - mv) <$> data_rows id (db_tables s1)) = []) as ->; [|done].
    apply elem_of_nil_inv. intros r [Hver Hr]%list_elem_of_filter. revert Hver.
    apply list_elem_of_fmap in Hr as (r0 & -> & (k & Hk)%list_elem_of_lookup).
    rewrite clean_row_version. destruct (Hinv id k r0 Hk) as [-> _].
    apply lookup_lt_Some in Hk. lia.
Qed.

(** A deletion that succeeds removes the state and the worker mappings of
    that workflow only and marks its row deleted, so that reading the workflow
    finds no row; a workflow that does not exist is reported as not found and
    nothing is stored, its state and mappings included. *)
Theorem delete_workflow_effect id i s r s' :
  pg_uuid id = Some i → DeleteWorkflow id s = (Ret r, s') →
  match r with
  | None =>
      ∃ row now, t_workflow (db_tables s) !! i = Some row ∧
      t_workflow (db_tables s') = <[i := mark_deleted now row]> (t_workflow (db_tables s)) ∧
      t_state (db_tables s') = delete i (t_state (db_tables s)) ∧
      (∀ p, p ∈ t_worker_map (db_tables s') ↔ p.1 ≠ i ∧ p ∈ t_worker_map (db_tables s)) ∧
      select_workflow id (db_tables s') = Err ErrNoRows
  | Some _ => db_tables s' = db_tables s
  end.
Proof. apply delete_effect. Qed.

(** The events of a workflow are streamed oldest first, each exactly once and
    none of another workflow. *)
Theorem events_in_order id i s s' sent :
  pg_uuid id = Some i →
  ShowWorkflowEvents id (stream_send (λ _, None)) (s, []) = (Ret None, (s', sent)) →
  ∃ l, sent = status_of_event <$> l ∧
    l ≡ₚ filter (λ e, er_workflow_id e = i) (t_event (db_tables s)) ∧
    StronglySorted event_before l.
Proof.
  intros Hid Hrun. unfold ShowWorkflowEvents in Hrun.
  apply go_try_inv in Hrun as [(rows & [s1 sent1] & Hq & Hrun)|(e & _ & ?)]; [|done].
  unfold go_zoom, Query, QueryRow in Hq. simpl in Hq.
  destruct (db_fault (db_tick s)) eqn:E; [done|]. unfold select_events in Hq.
  rewrite Hid in Hq. simplify_eq/=. apply for_rows_send in Hrun. simpl in Hrun.
  eexists. split; [exact Hrun|]. split.
  - apply merge_sort_Permutation.
  - apply (StronglySorted_merge_sort _).
Qed.
End properties.

(** ** Witnesses *)
#[local] Existing Instance demo_db_env.
#[local] Instance demo_range : MapRange :=
  {| range_map := map_to_list; range_map_perm m := reflexivity _ |}.

Definition demo_ywf : YWorkflow :=
  {| yw_Version := "0.1"; yw_Name := "n"; yw_ID := ""; yw_GlobalTimeout := 9;
     yw_Tasks := [{| yt_Name := "t"; yt_WorkerAddr := "mac"; yt_Actions := [
       {| ya_Name := "a"; ya_Image := "img"; ya_Timeout := 5; ya_Command := [];
          ya_OnTimeout := []; ya_OnFailure := []; ya_Volumes := ["/a:/b"];
          ya_Environment := ∅; ya_Pid := "" |}];
       yt_Volumes := []; yt_Environment := ∅ |}] |}.
#[local] Instance demo_tenv : TemplateEnv := const_template_env demo_ywf.

Definition demo_tables : Tables :=
  set_t_hardware {[ "hw" := {| hr_inserted_at := 0; hr_deleted_at := None;
                               hr_data := mac_query "mac" |} ]} emptyTables.
Definition demo_wf : DbWorkflow :=
  {| dw_State := 0; dw_ID := "wf"; dw_Hardware := "{}"; dw_Template := "tpl";
     dw_CreatedAt := None; dw_UpdatedAt := None |}.

Lemma create_workflow_stores_witness :
  (CreateWorkflow demo_wf "yaml" "wf" (demo_db demo_tables)).1 = Ret None ∧
  ∃ w a, t_state (db_tables (CreateWorkflow demo_wf "yaml" "wf" (demo_db demo_tables)).2) =
      <["wf" := initial_state [a]]> ∅ ∧
    wa_Name a = "a" ∧ wa_WorkerId a = w ∧ machine_at demo_tables "mac" w.
Proof.
  split; [reflexivity|].
  destruct (create_workflow_stores demo_wf "yaml" "wf" (demo_db demo_tables)
    (CreateWorkflow demo_wf "yaml" "wf" (demo_db demo_tables)).2)
    as (ywf & ws & l & _ & _ & _ & _ & Hp & Hws & Hl & _ & _ & _ & Hst & _); [reflexivity|].
  vm_compute in Hp. injection Hp as <-. simpl in Hws.
  apply Forall2_cons_inv_l in Hws as (w & ws' & Hw & ->%Forall2_nil_inv_l & ->).
  apply Forall2_cons_inv_l in Hl as (a & l' & Ha & ->%Forall2_nil_inv_l & ->).
  exists w, a. split; [exact Hst|]. destruct Ha as (_ & Hid & Hname & _).
  split; [exact Hname|]. split; [exact Hid|exact Hw].
Defined.

Definition demo_state : Tables :=
  set_t_state {[ "wf" := initial_state [] ]} emptyTables.
Definition demo_context : WorkflowContext :=
  {| wc_WorkflowId := "wf"; wc_CurrentWorker := "w"; wc_CurrentTask := "t";
     wc_CurrentAction := "a"; wc_CurrentActionIndex := 0; wc_CurrentActionState := 1;
     wc_TotalNumberOfActions := 5 |}.

Lemma update_state_read_back_witness :
  sr_action_list <$>
    t_state (db_tables (UpdateWorkflowState demo_context (demo_db demo_state)).2) !! "wf" = Some [].
Proof.
  destruct (update_state_read_back demo_context (demo_db demo_state)
    (UpdateWorkflowState demo_context (demo_db demo_state)).2 "wf") as (_ & H & _);
    [reflexivity|reflexivity|exact H].
Defined.

Definition demo_update (d : string) : UpdateWorkflowDataRequest :=
  {| ud_WorkflowId := "wf"; ud_Metadata := "{}"; ud_Data := d |}.

Lemma wf_data_insert_witness :
  data_inv 3 (db_tables (InsertIntoWfDataTable 3 (demo_update "d") (demo_db emptyTables)).2).
Proof.
  apply (wf_data_insert 3 (demo_update "d") 0 (demo_db emptyTables)
    (InsertIntoWfDataTable 3 (demo_update "d") (demo_db emptyTables)).2);
    [lia|lia| |reflexivity|reflexivity].
  intros id k r Hr. vm_compute in Hr. discriminate Hr.
Defined.

Lemma delete_workflow_effect_witness :
  let s := demo_db (set_t_workflow {[ "wf" := {| wr_template := "t"; wr_devices := "{}";
    wr_created_at := 0; wr_updated_at := 0; wr_deleted_at := None |} ]} demo_state) in
  t_state (db_tables (DeleteWorkflow "wf" s).2) = delete "wf" {[ "wf" := initial_state [] ]}.
Proof.
  intros s. destruct (delete_workflow_effect "wf" "wf" s None (DeleteWorkflow "wf" s).2)
    as (row & now & _ & _ & H & _); [reflexivity|reflexivity|exact H].
Defined.

Definition demo_event (id : string) (t : Z) : EventRow :=
  {| er_workflow_id := id; er_worker_id := "w"; er_task_name := "t"; er_action_name := "a";
     er_execution_time := 0; er_message := ""; er_status := 1; er_created_at := t |}.

Lemma events_in_order_witness :
  let s := demo_db (set_t_event [demo_event "wf" 2; demo_event "x" 0; demo_event "wf" 1] emptyTables) in
  ∃ l, (ShowWorkflowEvents "wf" (stream_send (λ _, None)) (s, [])).2.2 = status_of_event <$> l ∧
    StronglySorted event_before l.
Proof.
  intros s. destruct (events_in_order "wf" "wf" s
    (ShowWorkflowEvents "wf" (stream_send (λ _, None)) (s, [])).2.1
    (ShowWorkflowEvents "wf" (stream_send (λ _, None)) (s, [])).2.2) as (l & H & _ & Hs);
    [reflexivity|reflexivity|]. by exists l.
Defined.

(** The version is read outside the transaction that stores it: two insertions
    that both read it before either commits store the same version twice, and
    reading the latest version by its number then finds neither. *)
Example data_version_race :
  let s0 := demo_db emptyTables in
  let '(v1, s1) := getLatestVersionWfData "wf" s0 in
  let '(v2, s2) := getLatestVersionWfData "wf" s1 in
  v1 = Ret (0, None) ∧ v2 = Ret (0, None) ∧
  let s3 := (insert_data_version 3 (demo_update "d1") 0 s2).2 in
  let s4 := (insert_data_version 3 (demo_update "d2") 0 s3).2 in
  dr_version <$> t_data (db_tables s4) = [1; 1] ∧
  (GetfromWfDataTable {| gd_WorkflowId := "wf"; gd_Version := 0 |} s4).1 = Ret ("", None).
Proof. vm_compute. done. Qed.
