(* ===== verification/DbTemplate.v ===== *)
(** * DbTemplate: the template and hardware tables
    (src/db/template.go, src/db/hardware.go) *)
From S2P Require Import Prelude Proto Template Service DbBase DbWorkflow.
From stdpp Require Import options.

Section templates.
Context `{DE : DbEnv} `{TE : TemplateEnv} `{MR : MapRange}.
#[local] Open Scope go_scope.

(** The constraints of the table: the length and the check of the name, and the
    unique index on the names of the templates that are not deleted. *)
Definition name_taken (id name : string) (t : Tables) : bool :=
  bool_decide (Exists (λ p, p.1 ≠ id ∧ tr_deleted_at p.2 = None ∧ tr_name p.2 = name)
    (map_to_list (t_template t))).

Definition store_template (id : string) (row : TemplateRow) (t : Tables) : result (Tables * Z) :=
  if negb (varchar200 (tr_name row)) then Err pq_too_long
  else if negb (ck_name (tr_name row)) then Err pq_check
  else if bool_decide (tr_deleted_at row = None) && name_taken id (tr_name row) t then
    Err pq_unique
  else Ok (set_t_template (<[id := row]> (t_template t)) t, 1).

Definition stmt_insert_template (now : Z) (name data id : string) (_ : Z) (t : Tables)
    : result (Tables * Z) :=
  store_template id
    {| tr_name := name;
       tr_created_at := match t_template t !! id with
                        | Some row => tr_created_at row
                        | None => now
                        end;
       tr_updated_at := now; tr_deleted_at := None; tr_data := data |} t.

Definition CreateTemplate (name data id : string) : go DB (option error) :=
  match Parse data with
  | Err e => go_ret (Some e)
  | Ok _ =>
      try tx := BeginTx onerr (λ e, Some (WrapErr e "BEGIN transaction")) in
      let* now := time_Now in
      try r := ExecContext tx (stmt_insert_template now name data id)
        onerr (λ e, Some (WrapErr e "INSERT")) in
      commit_or r.1
  end.

(** The rows a condition [column = value] of [GetTemplate] selects. *)
Definition matches_condition (cond : string * string) (p : string * TemplateRow) : option bool :=
  if decide (cond.1 = "id") then (λ i, bool_decide (p.1 = i)) <$> pg_uuid cond.2
  else if decide (cond.1 = "name") then Some (bool_decide (tr_name p.2 = cond.2))
  else None.

Fixpoint find_template (cond : string * string) (deleted : bool)
    (l : list (string * TemplateRow)) : result (string * TemplateRow) :=
  match l with
  | [] => Err ErrNoRows
  | p :: l' =>
      match matches_condition cond p with
      | None => Err pq_error
      | Some b =>
          if b && (deleted || bool_decide (tr_deleted_at p.2 = None)) then Ok p
          else find_template cond deleted l'
      end
  end.

Definition select_template (cond : string * string) (deleted : bool) (t : Tables)
    : result (string * TemplateRow) :=
  find_template cond deleted (map_to_list (t_template t)).

Definition GetTemplate (fields : gmap string string) (deleted : bool)
    : go DB (WorkflowTemplate * option error) :=
  match buildGetCondition fields with
  | Err e => go_ret (zeroWorkflowTemplate, Some (WrapErr e "failed to get template"))
  | Ok cond =>
      let* r := QueryRow (select_template cond deleted) in
      go_ret (match r with
              | Ok (id, row) =>
                  ({| wt_Id := id; wt_Name := tr_name row;
                      wt_CreatedAt := Some (tr_created_at row);
                      wt_UpdatedAt := Some (tr_updated_at row); wt_DeletedAt := None;
                      wt_Data := tr_data row |}, None)
              | Err e =>
                  (zeroWorkflowTemplate,
                   Some (if err_is e ErrNoRows then e else WrapErr e "SELECT"))
              end)
  end.

Definition stmt_delete_template (id : string) (now : Z) (t : Tables) : result (Tables * Z) :=
  match pg_uuid id with
  | None => Err pq_error
  | Some i =>
      match t_template t !! i with
      | None => Ok (t, 0)
      | Some row =>
          Ok (set_t_template (<[i := {| tr_name := tr_name row;
                tr_created_at := tr_created_at row; tr_updated_at := tr_updated_at row;
                tr_deleted_at := Some now; tr_data := tr_data row |}]> (t_template t)) t, 1)
      end
  end.

Definition DeleteTemplate (id : string) : go DB (option error) :=
  exec_tx_found "UPDATE" id (stmt_delete_template id).

Definition select_templates (pattern : string) (t : Tables)
    : result (list (string * TemplateRow)) :=
  Ok (filter (λ p, ilike (tr_name p.2) pattern = true ∧ tr_deleted_at p.2 = None)
        (map_to_list (t_template t))).

(** The callback gets the id, the name and the two times. *)
Definition ListTemplates {M} (pattern : string)
    (fn : string * TemplateRow → go (DB * list M) (option error))
    : go (DB * list M) (option error) :=
  try rows := go_zoom fst (λ s t, (s, t.2)) (Query (select_templates pattern)) onerr Some in
  for_rows fn rows.

(** The three UPDATEs of [UpdateTemplate]. *)
Definition stmt_update_template (id : string) (name data : option string) (now : Z) (t : Tables)
    : result (Tables * Z) :=
  match t_template t !! id with
  | None => Ok (t, 0)
  | Some row =>
      store_template id
        {| tr_name := default (tr_name row) name; tr_created_at := tr_created_at row;
           tr_updated_at := now; tr_deleted_at := tr_deleted_at row;
           tr_data := default (tr_data row) data |} t
  end.

Definition UpdateTemplate (name data id : string) : go DB (option error) :=
  exec_tx "UPDATE"
    (if decide (data = "" ∧ name ≠ "") then stmt_update_template id (Some name) None
     else if decide (data ≠ "" ∧ name = "") then stmt_update_template id None (Some data)
     else stmt_update_template id (Some name) (Some data)).
End templates.

Section hardware.
Context `{DE : DbEnv}.
#[local] Open Scope go_scope.

Definition stmt_delete_hardware (id : string) (now : Z) (t : Tables) : result (Tables * Z) :=
  match pg_uuid id with
  | None => Err pq_error
  | Some i =>
      match t_hardware t !! i with
      | None => Ok (t, 0)
      | Some row =>
          Ok (set_t_hardware (<[i := {| hr_inserted_at := hr_inserted_at row;
                hr_deleted_at := Some now; hr_data := hr_data row |}]> (t_hardware t)) t, 1)
      end
  end.

Definition DeleteFromDB (id : string) : go DB (option error) :=
  exec_tx_found "DELETE" id (stmt_delete_hardware id).

(** A document without an id, which [Push] refuses, is an error here. *)
Definition stmt_insert_hardware (now : Z) (data : string) (_ : Z) (t : Tables)
    : result (Tables * Z) :=
  match jsonb data, jsonb_id data ≫= pg_uuid with
  | Some d, Some id =>
      Ok (set_t_hardware (<[id := {| hr_inserted_at := now; hr_deleted_at := None;
                                     hr_data := d |}]> (t_hardware t)) t, 1)
  | _, _ => Err pq_error
  end.

Definition InsertIntoDB (data : string) : go DB (option error) :=
  try tx := BeginTx onerr (λ e, Some (WrapErr e "BEGIN transaction")) in
  let* now := time_Now in
  try r := ExecContext tx (stmt_insert_hardware now data)
    onerr (λ e, Some (WrapErr e "INSERT")) in
  commit_or r.1.

Definition GetByMAC (mac : string) : go DB (result string) :=
  get (select_hardware (hr_data ∘ snd) [mac_query mac]).
Definition GetByIP (ip : string) : go DB (result string) :=
  get (select_hardware (hr_data ∘ snd) [instance_query ip; ip_query ip]).

Definition select_hardware_id (id : string) (t : Tables) : result string :=
  match pg_uuid id with
  | None => Err pq_error
  | Some i =>
      match t_hardware t !! i with
      | Some row => if decide (hr_deleted_at row = None) then Ok (hr_data row) else Err ErrNoRows
      | None => Err ErrNoRows
      end
  end.
Definition GetByID (id : string) : go DB (result string) := get (select_hardware_id id).

Definition select_all_hardware (t : Tables) : result (list string) :=
  Ok ((hr_data ∘ snd) <$> filter (λ p, hr_deleted_at p.2 = None) (map_to_list (t_hardware t))).
Definition GetAll {M} (fn : string → go (DB * list M) (option error))
    : go (DB * list M) (option error) :=
  try rows := go_zoom fst (λ s t, (s, t.2)) (Query select_all_hardware) onerr Some in
  for_rows fn rows.
End hardware.

(** ** Lemmas *)

(** The unique index: no two live templates share a name. *)
Definition live_names_unique (t : Tables) : Prop :=
  ∀ i j ri rj, t_template t !! i = Some ri → t_template t !! j = Some rj →
    tr_deleted_at ri = None → tr_deleted_at rj = None → tr_name ri = tr_name rj → i = j.

Section lemmas.
Context `{DE : DbEnv} `{TE : TemplateEnv} `{MR : MapRange}.

Lemma store_template_unique id row t t' n :
  live_names_unique t → store_template id row t = Ok (t', n) →
  live_names_unique t' ∧ t' = set_t_template (<[id := row]> (t_template t)) t.
Proof.
  intros Hu. unfold store_template. destruct (negb _); [done|]. destruct (negb _); [done|].
  destruct (_ && _) eqn:Hb; [done|]. intros [= <- <-]. split; [|done].
  assert (∀ j rj, j ≠ id → t_template t !! j = Some rj → tr_deleted_at row = None →
    tr_deleted_at rj = None → tr_name rj ≠ tr_name row) as Hfree.
  { intros j rj Hne Hj Hd Hdj Hname. apply andb_false_iff in Hb as [Hb|Hb].
    - by rewrite bool_decide_eq_false in Hb.
    - unfold name_taken in Hb. rewrite bool_decide_eq_false in Hb. apply Hb.
      apply Exists_exists. exists (j, rj). rewrite elem_of_map_to_list. done. }
  intros i j ri rj. simpl.
  destruct (decide (i = id)) as [->|Hi]; destruct (decide (j = id)) as [->|Hj];
    rewrite ?lookup_insert_eq, ?lookup_insert_ne by done; intros; simplify_eq; [done| | |].
  - exfalso. eapply Hfree; [exact Hj|done..].
  - exfalso. eapply (Hfree i); [exact Hi|done..].
  - by eapply Hu.
Qed.

Lemma store_template_Ok id row t t' n :
  store_template id row t = Ok (t', n) →
  t' = set_t_template (<[id := row]> (t_template t)) t.
Proof.
  unfold store_template. do 3 (case_match; [done|]). by intros [= <- <-].
Qed.

Lemma find_template_name name l :
  match find_template ("name", name) false l with
  | Ok p => p ∈ l ∧ tr_name p.2 = name ∧ tr_deleted_at p.2 = None
  | Err e => e = ErrNoRows ∧ ∀ p, p ∈ l → tr_name p.2 = name → tr_deleted_at p.2 ≠ None
  end.
Proof.
  induction l as [|p l IH]; simpl; [set_solver|].
  destruct (bool_decide_reflect (tr_name p.2 = name)) as [Hn|Hn];
    destruct (bool_decide_reflect (tr_deleted_at p.2 = None)) as [Hd|Hd]; simpl;
    [set_solver|destruct (find_template _ _ _); set_solver..].
Qed.

Lemma select_by_name t id row :
  live_names_unique t → t_template t !! id = Some row → tr_deleted_at row = None →
  select_template ("name", tr_name row) false t = Ok (id, row).
Proof.
  intros Hu Hid Hd. unfold select_template.
  pose proof (find_template_name (tr_name row) (map_to_list (t_template t))) as Hf.
  destruct (find_template _ _ _) as [[j rj]|e].
  - destruct Hf as (Hin & Hn & Hdj). apply elem_of_map_to_list in Hin. simpl in *.
    assert (j = id) as -> by by eapply Hu. by simplify_eq.
  - exfalso. destruct Hf as [_ Hf]. apply (Hf (id, row)); [|done|done].
    by apply elem_of_map_to_list.
Qed.

Lemma insert_hardware_read data s s' id i :
  InsertIntoDB data s = (Ret None, s') → (∀ d, jsonb data = Some d → jsonb_id data = Some id) →
  pg_uuid id = Some i →
  ∃ d, jsonb data = Some d ∧ select_hardware_id id (db_tables s') = Ok d.
Proof.
  intros Hrun Hid Hi. unfold InsertIntoDB in Hrun.
  apply go_try_inv in Hrun as [(tx & s1 & Hb & Hrun)|(e & _ & ?)]; [|done].
  apply BeginTx_Ok in Hb as [-> _]. apply go_bind_inv in Hrun as (now & s2 & _ & Hrun).
  apply go_try_inv in Hrun as [([tx1 n] & s3 & [[now' Hx] _]%ExecContext_Ok & Hrun)|(e & _ & ?)];
    [|done].
  apply commit_or_None in Hrun. unfold stmt_insert_hardware in Hx.
  destruct (jsonb data) as [d|] eqn:Hd; [|done]. rewrite (Hid d eq_refl) in Hx. simpl in Hx.
  rewrite Hi in Hx. injection Hx as <- <-.
  exists d. split; [done|]. unfold select_hardware_id. rewrite Hi, Hrun. simpl.
  by rewrite lookup_insert_eq.
Qed.
End lemmas.

(** ** Properties *)
Section properties.
Context `{DE : DbEnv} `{TE : TemplateEnv} `{MR : MapRange}.

(** C16 Every updating operation of the database package is atomic, whichever of
    its calls to the database fails: it does not panic, and when it returns an
    error the tables are as they were (a commit that fails is taken to have stored
    nothing). *)
Theorem db_updates_atomic :
  (∀ wf data id, db_atomic (CreateWorkflow wf data id)) ∧
  (∀ mv req, db_atomic (InsertIntoWfDataTable mv req)) ∧
  (∀ id, db_atomic (DeleteWorkflow id)) ∧
  (∀ wf, db_atomic (UpdateWorkflow wf)) ∧
  (∀ ctx, db_atomic (UpdateWorkflowState ctx)) ∧
  (∀ ev t, db_atomic (InsertIntoWorkflowEventTable ev t)) ∧
  (∀ name data id, db_atomic (CreateTemplate name data id)) ∧
  (∀ id, db_atomic (DeleteTemplate id)) ∧
  (∀ name data id, db_atomic (UpdateTemplate name data id)) ∧
  (∀ data, db_atomic (InsertIntoDB data)) ∧
  (∀ id, db_atomic (DeleteFromDB id)).
Proof.
  split_and!.
  - apply CreateWorkflow_atomic.
  - apply InsertIntoWfDataTable_atomic.
  - apply DeleteWorkflow_atomic.
  - intros. apply exec_tx_atomic.
  - intros. apply exec_tx_atomic.
  - intros. apply exec_tx_atomic.
  - intros. unfold CreateTemplate. case_match; [|apply db_pure_atomic]; db_walk.
  - intros. apply exec_tx_found_atomic.
  - intros. apply exec_tx_atomic.
  - intros. unfold InsertIntoDB. db_walk.
  - intros. apply exec_tx_found_atomic.
Qed.

(** A template that is created has passed validation, keeps the names of live
    templates unique, and is the one found by its name, with the data given. *)
Lemma create_template_read_back name data id s s' :
  live_names_unique (db_tables s) →
  CreateTemplate name data id s = (Ret None, s') →
  live_names_unique (db_tables s') ∧ (∃ wf, Parse data = Ok wf) ∧
  ∃ row, select_template ("name", name) false (db_tables s') = Ok (id, row) ∧
    tr_data row = data.
Proof.
  intros Hu Hrun. unfold CreateTemplate in Hrun.
  destruct (Parse data) as [wf|e]; [|unfold go_ret in Hrun; by simplify_eq].
  apply go_try_inv in Hrun as [(tx & s1 & Hb & Hrun)|(e & _ & ?)]; [|done].
  apply BeginTx_Ok in Hb as [-> _]. apply go_bind_inv in Hrun as (now & s2 & _ & Hrun).
  apply go_try_inv in Hrun as [([tx1 n] & s3 & [[now' Hx] _]%ExecContext_Ok & Hrun)|(e & _ & ?)];
    [|done].
  apply commit_or_None in Hrun. unfold stmt_insert_template in Hx.
  apply store_template_unique in Hx as [Hu' Ht]; [|done]. simpl in Hrun. rewrite Hrun.
  split; [done|]. split; [eauto|]. eexists. split.
  - match type of Ht with context [<[id := ?r]>] =>
      apply (select_by_name tx1 id r Hu'); [|done] end.
    rewrite Ht. simpl. apply lookup_insert_eq.
  - done.
Qed.

(** Updating a template changes only what is given: with a name alone the
    data stays, with data alone the name stays. With neither, the update is not
    refused: it blanks both the name and the data of the template. An update of
    a template that does not exist succeeds and stores nothing. *)
Lemma update_template_effect name data id s s' :
  UpdateTemplate name data id s = (Ret None, s') →
  match t_template (db_tables s) !! id with
  | None => db_tables s' = db_tables s
  | Some row => ∃ row',
      t_template (db_tables s') = <[id := row']> (t_template (db_tables s)) ∧
      tr_created_at row' = tr_created_at row ∧ tr_deleted_at row' = tr_deleted_at row ∧
      tr_name row' = (if decide (name = "" ∧ data ≠ "") then tr_name row else name) ∧
      tr_data row' = (if decide (data = "" ∧ name ≠ "") then tr_data row else data)
  end.
Proof.
  intros Hrun. unfold UpdateTemplate in Hrun. set (stmt := if decide _ then _ else _) in Hrun.
  destruct (exec_tx_spec "UPDATE" stmt s) as (r & s1 & Hrun' & Hr).
  rewrite Hrun in Hrun'. simplify_eq. destruct Hr as (now & t & n & Hst & ->).
  assert (∃ nm dt, stmt = stmt_update_template id nm dt ∧
    nm = (if decide (name = "" ∧ data ≠ "") then None else Some name) ∧
    dt = (if decide (data = "" ∧ name ≠ "") then None else Some data))
    as (nm & dt & Hs & Hnm & Hdt).
  { unfold stmt. repeat case_decide; eexists _, _; (split; [done|]); try naive_solver. }
  rewrite Hs in Hst. unfold stmt_update_template in Hst.
  destruct (t_template (db_tables s) !! id) as [row|]; [|by simplify_eq].
  apply store_template_Ok in Hst as ->. eexists. split; [done|]. simpl.
  rewrite Hnm, Hdt. split; [done|]. split; [done|].
  destruct (decide (name = "" ∧ data ≠ "")), (decide (data = "" ∧ name ≠ "")); done.
Qed.

(** Hardware that is stored is read back by its id as the server normalises
    it, over whatever was stored under that id before, deleted or not; once
    deleted it is not found. *)
Theorem hardware_read_back data id :
  (∀ s s' i, InsertIntoDB data s = (Ret None, s') → jsonb_id data ≫= pg_uuid = Some i →
     pg_uuid id = Some i →
     ∃ d, jsonb data = Some d ∧ select_hardware_id id (db_tables s') = Ok d) ∧
  (∀ s s', DeleteFromDB id s = (Ret None, s') →
     select_hardware_id id (db_tables s') = Err ErrNoRows).
Proof.
  split.
  - intros s s' i Hrun Hi Hid. destruct (jsonb_id data) as [id'|] eqn:Hj; [|done].
    destruct (insert_hardware_read data s s' id' i Hrun (λ _ _, Hj) Hi) as (d & Hd & Hsel).
    exists d. split; [done|]. unfold select_hardware_id in *. simpl in Hi. rewrite Hid. by rewrite Hi in Hsel.
  - intros s s' Hrun. unfold DeleteFromDB in Hrun.
    destruct (exec_tx_found_spec "DELETE" id (stmt_delete_hardware id) s)
      as (r & s1 & Hrun' & Hr). rewrite Hrun in Hrun'. simplify_eq.
    destruct Hr as (now & t & n & Hst & Hn & ->).
    unfold stmt_delete_hardware in Hst. unfold select_hardware_id.
    destruct (pg_uuid id) as [i|]; [|done].
    destruct (t_hardware (db_tables s) !! i); simplify_eq/=. by rewrite lookup_insert_eq.
Qed.
End properties.

(** ** Witnesses *)
#[local] Existing Instance demo_db_env.
#[local] Instance demo_range : MapRange :=
  {| range_map := map_to_list; range_map_perm m := reflexivity _ |}.
#[local] Instance demo_tenv : TemplateEnv := const_template_env demo_ywf.

Lemma create_template_read_back_witness :
  ∃ row, select_template ("name", "n") false
    (db_tables (CreateTemplate "n" "yaml" "id1" (demo_db emptyTables)).2) = Ok ("id1", row) ∧
    tr_data row = "yaml".
Proof.
  apply (create_template_read_back "n" "yaml" "id1" (demo_db emptyTables)
    (CreateTemplate "n" "yaml" "id1" (demo_db emptyTables)).2); [|reflexivity].
  intros i j ri rj Hi. vm_compute in Hi. discriminate Hi.
Defined.

Definition demo_templates : Tables :=
  set_t_template {[ "id1" := {| tr_name := "n"; tr_created_at := 0; tr_updated_at := 0;
    tr_deleted_at := None; tr_data := "yaml" |} ]} emptyTables.

Lemma update_template_effect_witness :
  ∃ row, t_template (db_tables (UpdateTemplate "" "" "id1" (demo_db demo_templates)).2) !! "id1" =
    Some row ∧ tr_name row = "" ∧ tr_data row = "".
Proof.
  destruct (update_template_effect "" "" "id1" (demo_db demo_templates)
    (UpdateTemplate "" "" "id1" (demo_db demo_templates)).2)
    as (row & H & _ & _ & Hn & Hd); [by vm_compute|].
  exists row. rewrite H, lookup_insert_eq. split; [reflexivity|]. split; [exact Hn|exact Hd].
Defined.

Lemma hardware_read_back_witness :
  ∃ d, jsonb "hw1" = Some d ∧ select_hardware_id "hw1"
    (db_tables (InsertIntoDB "hw1" (demo_db emptyTables)).2) = Ok d.
Proof.
  exact (proj1 (hardware_read_back "hw1" "hw1") (demo_db emptyTables)
    (InsertIntoDB "hw1" (demo_db emptyTables)).2 "hw1" eq_refl eq_refl eq_refl).
Defined.
