(* ===== verification/DbMock.v ===== *)
(** * DbMock: the database interface, its mock, and frozen time
    (the interfaces of src/db/db.go, src/db/mock, src/internal/tests)

    What a server asks of a database, as a class with two instances: [TinkDB] over
    PostgreSQL, and the mock that the tests of the servers use. The templates of the
    mock, which it keeps in a map, against the table. *)
From S2P Require Import Prelude Proto Template Service DbBase DbWorkflow DbTemplate.
From stdpp Require Import options.

(** ** The interface *)
Class Database (S : Type) := {
  (** hardware *)
  Database_DeleteFromDB : string → go S (option error);
  Database_InsertIntoDB : string → go S (option error);
  Database_GetByMAC : string → go S (result string);
  Database_GetByIP : string → go S (result string);
  Database_GetByID : string → go S (result string);
  Database_GetAll : ∀ M, (string → go (S * list M) (option error)) → go (S * list M) (option error);
  (** template *)
  Database_CreateTemplate : string → string → string → go S (option error);
  Database_GetTemplate : gmap string string → bool → go S (WorkflowTemplate * option error);
  Database_DeleteTemplate : string → go S (option error);
  Database_ListTemplates : ∀ M, string →
    (string * TemplateRow → go (S * list M) (option error)) → go (S * list M) (option error);
  Database_UpdateTemplate : string → string → string → go S (option error);
  (** workflow; no implementation looks at the states of its deletion and update *)
  Database_CreateWorkflow : DbWorkflow → string → string → go S (option error);
  Database_GetWorkflowMetadata : GetWorkflowDataRequest → go S (string * option error);
  Database_GetWorkflowDataVersion : string → go S (Z * option error);
  Database_GetWorkflow : string → go S (DbWorkflow * option error);
  Database_DeleteWorkflow : string → go S (option error);
  Database_ListWorkflows : ∀ M,
    (DbWorkflow → go (S * list M) (option error)) → go (S * list M) (option error);
  Database_UpdateWorkflow : DbWorkflow → go S (option error);
  Database_InsertIntoWorkflowEventTable : WorkflowActionStatus → Z → go S (option error);
  Database_ShowWorkflowEvents : ∀ M, string →
    (WorkflowActionStatus → go (S * list M) (option error)) → go (S * list M) (option error);
  (** WorkerWorkflow *)
  Database_InsertIntoWfDataTable : UpdateWorkflowDataRequest → go S (option error);
  Database_GetfromWfDataTable : GetWorkflowDataRequest → go S (string * option error);
  Database_GetWorkflowsForWorker : string → go S (list string * option error);
  Database_UpdateWorkflowState : WorkflowContext → go S (option error);
  Database_GetWorkflowContexts : string → go S (WorkflowContext * option error);
  Database_GetWorkflowActions : string → go S (WorkflowActionList * option error)
}.

#[global] Instance TinkDB `{DE : DbEnv} `{TE : TemplateEnv} `{MR : MapRange} (maxVersions : Z)
    : Database DB := {
  Database_DeleteFromDB := DbTemplate.DeleteFromDB;
  Database_InsertIntoDB := DbTemplate.InsertIntoDB;
  Database_GetByMAC := DbTemplate.GetByMAC;
  Database_GetByIP := DbTemplate.GetByIP;
  Database_GetByID := DbTemplate.GetByID;
  Database_GetAll M := DbTemplate.GetAll (M := M);
  Database_CreateTemplate := DbTemplate.CreateTemplate;
  Database_GetTemplate := DbTemplate.GetTemplate;
  Database_DeleteTemplate := DbTemplate.DeleteTemplate;
  Database_ListTemplates M := DbTemplate.ListTemplates (M := M);
  Database_UpdateTemplate := DbTemplate.UpdateTemplate;
  Database_CreateWorkflow := DbWorkflow.CreateWorkflow;
  Database_GetWorkflowMetadata := DbWorkflow.GetWorkflowMetadata;
  Database_GetWorkflowDataVersion := DbWorkflow.GetWorkflowDataVersion;
  Database_GetWorkflow := DbWorkflow.GetWorkflow;
  Database_DeleteWorkflow := DbWorkflow.DeleteWorkflow;
  Database_ListWorkflows M := DbWorkflow.ListWorkflows (M := M);
  Database_UpdateWorkflow := DbWorkflow.UpdateWorkflow;
  Database_InsertIntoWorkflowEventTable := DbWorkflow.InsertIntoWorkflowEventTable;
  Database_ShowWorkflowEvents M := DbWorkflow.ShowWorkflowEvents (M := M);
  Database_InsertIntoWfDataTable := DbWorkflow.InsertIntoWfDataTable maxVersions;
  Database_GetfromWfDataTable := DbWorkflow.GetfromWfDataTable;
  Database_GetWorkflowsForWorker := DbWorkflow.GetWorkflowsForWorker;
  Database_UpdateWorkflowState := DbWorkflow.UpdateWorkflowState;
  Database_GetWorkflowContexts := DbWorkflow.GetWorkflowContexts;
  Database_GetWorkflowActions := DbWorkflow.GetWorkflowActions
}.

(** ** The mock *)

(** The templates are values of any type; nil is the zero map. *)
Record MockTemplate := { mt_ID : string; mt_Data : string; mt_Deleted : bool }.
Inductive any := AnyTemplate (t : MockTemplate) | AnyOther.

Section mock.
Context {W : Type}.
#[local] Open Scope go_scope.

(** The struct; a nil function is [None]. What the functions of a test share is
    in [W]. *)
Record MockDB := {
  CreateWorkflowFunc : option (DbWorkflow → string → string → go W (option error));
  GetWorkflowFunc : option (string → go W (DbWorkflow * option error));
  GetfromWfDataTableFunc : option (GetWorkflowDataRequest → go W (string * option error));
  InsertIntoWfDataTableFunc : option (UpdateWorkflowDataRequest → go W (option error));
  GetWorkflowMetadataFunc : option (GetWorkflowDataRequest → go W (string * option error));
  GetWorkflowDataVersionFunc : option (string → go W (Z * option error));
  GetWorkflowsForWorkerFunc : option (string → go W (list string * option error));
  GetWorkflowContextsFunc : option (string → go W (WorkflowContext * option error));
  GetWorkflowActionsFunc : option (string → go W (WorkflowActionList * option error));
  UpdateWorkflowStateFunc : option (WorkflowContext → go W (option error));
  InsertIntoWorkflowEventTableFunc : option (WorkflowActionStatus → Z → go W (option error));
  TemplateDB : option (gmap string any);
  GetTemplateFunc : option (gmap string string → bool → go W (WorkflowTemplate * option error))
}.
Definition set_TemplateDB (m : option (gmap string any)) (d : MockDB) : MockDB :=
  {| CreateWorkflowFunc := CreateWorkflowFunc d; GetWorkflowFunc := GetWorkflowFunc d;
     GetfromWfDataTableFunc := GetfromWfDataTableFunc d;
     InsertIntoWfDataTableFunc := InsertIntoWfDataTableFunc d;
     GetWorkflowMetadataFunc := GetWorkflowMetadataFunc d;
     GetWorkflowDataVersionFunc := GetWorkflowDataVersionFunc d;
     GetWorkflowsForWorkerFunc := GetWorkflowsForWorkerFunc d;
     GetWorkflowContextsFunc := GetWorkflowContextsFunc d;
     GetWorkflowActionsFunc := GetWorkflowActionsFunc d;
     UpdateWorkflowStateFunc := UpdateWorkflowStateFunc d;
     InsertIntoWorkflowEventTableFunc := InsertIntoWorkflowEventTableFunc d;
     TemplateDB := m; GetTemplateFunc := GetTemplateFunc d |}.

(** A call of a field of the mock. *)
Definition nil_call := "runtime error: invalid memory address or nil pointer dereference".
Definition call_func {F A} (field : MockDB → option F) (call : F → go W A) : go (MockDB * W) A :=
  λ '(d, w),
  match field d with
  | None => (Panic nil_call, (d, w))
  | Some f => let '(o, w') := call f w in (o, (d, w'))
  end.

(** [%q] of a name of printable characters. *)
Definition quoted (s : string) : string :=
  String (Ascii.ascii_of_nat 34) s +:+ String (Ascii.ascii_of_nat 34) "".

(** *** Templates *)
Definition mock_CreateTemplate (name data id : string) : go (MockDB * W) (option error) :=
  λ '(d, w),
  let m := default ∅ (TemplateDB d) in
  let d := set_TemplateDB (Some m) d in
  let store := (Ret None, (set_TemplateDB (Some (<[name := AnyTemplate
    {| mt_ID := id; mt_Data := data; mt_Deleted := false |}]> m)) d, w)) in
  match m !! name with
  | None => store
  | Some (AnyTemplate t) =>
      if mt_Deleted t then store
      else (Ret (Some (NewErr ("template name " +:+ quoted name +:+ " already exists in the database"))), (d, w))
  | Some AnyOther =>
      (Ret (Some (NewErr ("template " +:+ quoted name +:+ " not a Template type in the database"))), (d, w))
  end.
Definition mock_DeleteTemplate (name : string) : go (MockDB * W) (option error) := λ '(d, w),
  (Ret None, (set_TemplateDB (delete name <$> TemplateDB d) d, w)).
Definition ClearTemplateDB : go (MockDB * W) unit := λ '(d, w),
  (Ret tt, (set_TemplateDB (Some ∅) d, w)).

Definition mock_GetTemplate (fields : gmap string string) (deleted : bool)
    : go (MockDB * W) (WorkflowTemplate * option error) :=
  call_func GetTemplateFunc (λ f, f fields deleted).
Definition mock_ListTemplates M (_ : string) (_ : string * TemplateRow → go (MockDB * W * list M) (option error))
    : go (MockDB * W * list M) (option error) :=
  go_ret None.
Definition mock_UpdateTemplate (_ _ _ : string) : go (MockDB * W) (option error) := go_ret None.

(** *** Hardware and workflows: constants, and functions of the test *)
Definition mock_DeleteFromDB (_ : string) : go (MockDB * W) (option error) := go_ret None.
Definition mock_InsertIntoDB (_ : string) : go (MockDB * W) (option error) := go_ret None.
Definition mock_GetByMAC (_ : string) : go (MockDB * W) (result string) := go_ret (Ok "").
Definition mock_GetByIP (_ : string) : go (MockDB * W) (result string) := go_ret (Ok "").
Definition mock_GetByID (_ : string) : go (MockDB * W) (result string) := go_ret (Ok "").
Definition mock_GetAll M (_ : string → go (MockDB * W * list M) (option error))
    : go (MockDB * W * list M) (option error) :=
  go_ret None.
Definition mock_CreateWorkflow (wf : DbWorkflow) (data id : string)
    : go (MockDB * W) (option error) :=
  call_func CreateWorkflowFunc (λ f, f wf data id).
Definition mock_InsertIntoWfDataTable (req : UpdateWorkflowDataRequest)
    : go (MockDB * W) (option error) :=
  call_func InsertIntoWfDataTableFunc (λ f, f req).
Definition mock_GetfromWfDataTable (req : GetWorkflowDataRequest)
    : go (MockDB * W) (string * option error) :=
  call_func GetfromWfDataTableFunc (λ f, f req).
Definition mock_GetWorkflowMetadata (req : GetWorkflowDataRequest)
    : go (MockDB * W) (string * option error) :=
  call_func GetWorkflowMetadataFunc (λ f, f req).
Definition mock_GetWorkflowDataVersion (workflowID : string) : go (MockDB * W) (Z * option error) :=
  call_func GetWorkflowDataVersionFunc (λ f, f workflowID).
Definition mock_GetWorkflowsForWorker (id : string)
    : go (MockDB * W) (list string * option error) :=
  call_func GetWorkflowsForWorkerFunc (λ f, f id).
Definition mock_GetWorkflow (id : string) : go (MockDB * W) (DbWorkflow * option error) :=
  call_func GetWorkflowFunc (λ f, f id).
Definition mock_DeleteWorkflow (_ : string) : go (MockDB * W) (option error) := go_ret None.
Definition mock_ListWorkflows M (_ : DbWorkflow → go (MockDB * W * list M) (option error))
    : go (MockDB * W * list M) (option error) :=
  go_ret None.
Definition mock_UpdateWorkflow (_ : DbWorkflow) : go (MockDB * W) (option error) := go_ret None.
Definition mock_UpdateWorkflowState (wfContext : WorkflowContext)
    : go (MockDB * W) (option error) :=
  call_func UpdateWorkflowStateFunc (λ f, f wfContext).
Definition mock_GetWorkflowContexts (wfID : string)
    : go (MockDB * W) (WorkflowContext * option error) :=
  call_func GetWorkflowContextsFunc (λ f, f wfID).
Definition mock_GetWorkflowActions (wfID : string)
    : go (MockDB * W) (WorkflowActionList * option error) :=
  call_func GetWorkflowActionsFunc (λ f, f wfID).
Definition mock_InsertIntoWorkflowEventTable (wfEvent : WorkflowActionStatus) (time : Z)
    : go (MockDB * W) (option error) :=
  call_func InsertIntoWorkflowEventTableFunc (λ f, f wfEvent time).
Definition mock_ShowWorkflowEvents M (_ : string) (_ : WorkflowActionStatus → go (MockDB * W * list M) (option error))
    : go (MockDB * W * list M) (option error) :=
  go_ret None.

#[global] Instance mock_DB : Database (MockDB * W) := {
  Database_DeleteFromDB := mock_DeleteFromDB;
  Database_InsertIntoDB := mock_InsertIntoDB;
  Database_GetByMAC := mock_GetByMAC;
  Database_GetByIP := mock_GetByIP;
  Database_GetByID := mock_GetByID;
  Database_GetAll := mock_GetAll;
  Database_CreateTemplate := mock_CreateTemplate;
  Database_GetTemplate := mock_GetTemplate;
  Database_DeleteTemplate := mock_DeleteTemplate;
  Database_ListTemplates := mock_ListTemplates;
  Database_UpdateTemplate := mock_UpdateTemplate;
  Database_CreateWorkflow := mock_CreateWorkflow;
  Database_GetWorkflowMetadata := mock_GetWorkflowMetadata;
  Database_GetWorkflowDataVersion := mock_GetWorkflowDataVersion;
  Database_GetWorkflow := mock_GetWorkflow;
  Database_DeleteWorkflow := mock_DeleteWorkflow;
  Database_ListWorkflows := mock_ListWorkflows;
  Database_UpdateWorkflow := mock_UpdateWorkflow;
  Database_InsertIntoWorkflowEventTable := mock_InsertIntoWorkflowEventTable;
  Database_ShowWorkflowEvents := mock_ShowWorkflowEvents;
  Database_InsertIntoWfDataTable := mock_InsertIntoWfDataTable;
  Database_GetfromWfDataTable := mock_GetfromWfDataTable;
  Database_GetWorkflowsForWorker := mock_GetWorkflowsForWorker;
  Database_UpdateWorkflowState := mock_UpdateWorkflowState;
  Database_GetWorkflowContexts := mock_GetWorkflowContexts;
  Database_GetWorkflowActions := mock_GetWorkflowActions
}.
End mock.
Arguments MockDB _ : clear implicits.

(** ** The mock against the table *)

(** Creations of templates in order, and which were accepted. *)
Fixpoint create_all {S} `{Database S} (l : list (string * string * string)) : go S (list bool) :=
  match l with
  | [] => go_ret []
  | (name, data, id) :: l' =>
      go_bind (Database_CreateTemplate name data id) (λ err,
        go_bind (create_all l') (λ oks, go_ret (bool_decide (err = None) :: oks)))
  end.

Section agreement.
Context `{DE : DbEnv} `{TE : TemplateEnv} `{MR : MapRange} {W : Type}.
Context (mv : Z) (Hrel : ∀ n, db_fault n = None).

Definition live (t : Tables) (name id : string) (row : TemplateRow) : Prop :=
  t_template t !! id = Some row ∧ tr_deleted_at row = None ∧ tr_name row = name.

(** The map holds the live templates of the table, under their names. *)
Definition mock_shows (d : MockDB W) (t : Tables) : Prop :=
  ∀ name, match default ∅ (TemplateDB d) !! name with
          | None => ∀ id row, ¬ live t name id row
          | Some (AnyTemplate mt) =>
              mt_Deleted mt = false ∧ ∃ row, live t name (mt_ID mt) row ∧ tr_data row = mt_Data mt
          | Some AnyOther => False
          end.

(** A template the table can hold: it parses, and its name fits. *)
Definition storable (name data : string) : Prop :=
  (∃ wf, Parse data = Ok wf) ∧ varchar200 name = true ∧ ck_name name = true.

Lemma name_taken_live id name t :
  t_template t !! id = None → name_taken id name t = true ↔ ∃ i row, live t name i row.
Proof.
  intros Hid. unfold name_taken. rewrite bool_decide_eq_true, Exists_exists. split.
  - intros ([i row] & Hin & _ & ? & ?). rewrite elem_of_map_to_list in Hin. by exists i, row.
  - intros (i & row & ? & ? & ?). exists (i, row). rewrite elem_of_map_to_list.
    split_and!; try done. simpl. congruence.
Qed.

Lemma CreateTemplate_run name data id s :
  storable name data → t_template (db_tables s) !! id = None →
  ∃ r s', CreateTemplate name data id s = (Ret r, s') ∧
    if name_taken id name (db_tables s) then r ≠ None ∧ db_tables s' = db_tables s
    else r = None ∧ ∃ row, tr_name row = name ∧ tr_deleted_at row = None ∧ tr_data row = data ∧
      db_tables s' = set_t_template (<[id := row]> (t_template (db_tables s))) (db_tables s).
Proof using Hrel.
  intros ([wf Hp] & Hv & Hc) Hid. unfold CreateTemplate. rewrite Hp.
  unfold go_try, go_bind, BeginTx, time_Now, ExecContext. rewrite !Hrel. simpl.
  unfold stmt_insert_template, store_template. simpl. rewrite Hv, Hc, Hid. simpl.
  destruct (name_taken id name (db_tables s)); [by eexists _, _|].
  unfold commit_or, go_bind, Commit. simpl. rewrite Hrel. simpl.
  eexists _, _. split; [done|]. split; [done|]. simpl. eexists. by split_and!; [..|done].
Qed.

Lemma mock_shows_insert d t name data id row :
  t_template t !! id = None → tr_name row = name → tr_deleted_at row = None → tr_data row = data →
  mock_shows d t →
  mock_shows (set_TemplateDB (Some (<[name := AnyTemplate {| mt_ID := id; mt_Data := data;
    mt_Deleted := false |}]> (default ∅ (TemplateDB d)))) d)
    (set_t_template (<[id := row]> (t_template t)) t).
Proof.
  intros Hid Hn Hd Hdata Hs n. simpl. destruct (decide (n = name)) as [->|Hne].
  - rewrite lookup_insert_eq. split; [done|]. exists row. split; [|done]. split; [|done]. simpl.
    by rewrite lookup_insert_eq.
  - rewrite lookup_insert_ne by done. specialize (Hs n).
    destruct (default ∅ (TemplateDB d) !! n) as [[mt|]|]; [|done|].
    + destruct Hs as (? & row' & (Hl & ? & ?) & ?). split; [done|]. exists row'. split; [|done].
      split; [|done]. simpl. rewrite lookup_insert_ne; congruence.
    + intros i r (Hl & ? & ?). simpl in Hl. destruct (decide (i = id)) as [->|].
      * rewrite lookup_insert_eq in Hl. congruence.
      * rewrite lookup_insert_ne in Hl by done. by apply (Hs i r).
Qed.

(** The mock accepts a creation when the table does. *)
Lemma create_step name data id s d w :
  storable name data → t_template (db_tables s) !! id = None → mock_shows d (db_tables s) →
  ∃ r s' r' d', CreateTemplate name data id s = (Ret r, s') ∧
    mock_CreateTemplate name data id (d, w) = (Ret r', (d', w)) ∧
    (r = None ↔ r' = None) ∧ mock_shows d' (db_tables s') ∧
    (∀ i, i ≠ id → t_template (db_tables s') !! i = t_template (db_tables s) !! i).
Proof using Hrel.
  intros Hok Hid Hs. destruct (CreateTemplate_run name data id s Hok Hid) as (r & s' & Hrun & Hr).
  exists r, s'. pose proof (Hs name) as Hname. unfold mock_CreateTemplate. simpl.
  destruct (name_taken id name (db_tables s)) eqn:Ht.
  - destruct Hr as [Hr ->]. apply (name_taken_live _ _ _ Hid) in Ht as (i & row & Hl).
    destruct (default ∅ (TemplateDB d) !! name) as [[mt|]|]; [|done|by destruct (Hname i row)].
    destruct Hname as [-> _]. eexists _, _. by split_and!.
  - destruct Hr as (-> & row & Hn & Hd & Hdata & ->).
    assert (default ∅ (TemplateDB d) !! name = None) as ->.
    { apply eq_None_not_Some. intros [v Hv]. rewrite Hv in Hname. destruct v as [mt|]; [|done].
      destruct Hname as (_ & row' & Hl & _). rewrite <- not_true_iff_false in Ht.
      apply Ht, (name_taken_live _ _ _ Hid). by eauto. }
    eexists _, _. split_and!; [done..| |].
    + by apply (mock_shows_insert d).
    + intros i Hi. simpl. by rewrite lookup_insert_ne.
Qed.

(** The mock is a faithful stand-in for creating templates. On a database without
    faults, with templates that the table can hold and ids that are new, it accepts
    and refuses the same creations of any sequence, and its map then holds the live
    templates of the table with their data. *)
Theorem mock_creates_as_table l s d w :
  Forall (λ '(name, data, _), storable name data) l → NoDup l.*2 →
  (∀ id, id ∈ l.*2 → t_template (db_tables s) !! id = None) → mock_shows d (db_tables s) →
  ∃ oks s' d', create_all (H := TinkDB mv) l s = (Ret oks, s') ∧
    create_all (H := mock_DB) l (d, w) = (Ret oks, (d', w)) ∧ mock_shows d' (db_tables s').
Proof using Hrel.
  intros Hl. revert s d. induction Hl as [|[[name data] id] l Hok Hl IH]; intros s d Hnd Hfree Hs.
  { by eexists _, _, _. }
  csimpl in *. apply NoDup_cons in Hnd as [Hid Hnd].
  destruct (create_step name data id s d w Hok) as (r & s1 & r' & d1 & E & E' & Hr & Hs1 & Hk);
    [by apply Hfree; left|done|].
  destruct (IH s1 d1 Hnd) as (oks & s2 & d2 & E2 & E2' & Hs2); [|done|].
  { intros i Hi. rewrite Hk by (by intros ->). by apply Hfree; right. }
  exists (bool_decide (r = None) :: oks), s2, d2. rewrite (go_bind_Ret _ _ _ _ _ E).
  rewrite (go_bind_Ret _ _ _ _ _ E2). rewrite (go_bind_Ret _ _ _ _ _ E').
  rewrite (go_bind_Ret _ _ _ _ _ E2'). split_and!; [done| |done].
  by rewrite (bool_decide_ext _ _ Hr).
Qed.
End agreement.

(** ** Frozen time (internal/tests/frozen_time.go)

    A time is in nanoseconds, a [time.Duration] an [int64] of them; in UTC or not
    is the same instant. *)
Record FrozenTime := { ft_t : Z }.
Definition NewFrozenTimeUnix (unix : Z) : FrozenTime := {| ft_t := unix * second |}.
Definition NewFrozenTime (x : Z) : FrozenTime := {| ft_t := x |}.

Definition FrozenTime_Now (f : FrozenTime) : Z := ft_t f.
Definition FrozenTime_Before (f : FrozenTime) (d : Z) : Z := FrozenTime_Now f + wrap64 (- d).
Definition FrozenTime_After (f : FrozenTime) (d : Z) : Z := FrozenTime_Now f + d.
Definition FrozenTime_BeforeSec (f : FrozenTime) (s : Z) : Z := FrozenTime_Now f + seconds_dur (wrap64 (- s)).
Definition FrozenTime_AfterSec (f : FrozenTime) (s : Z) : Z := FrozenTime_Now f + seconds_dur s.

(** The functions that return one of these as a function. *)
Definition FrozenTime_BeforeFunc (f : FrozenTime) (d : Z) : unit → Z := λ _, FrozenTime_Before f d.
Definition FrozenTime_AfterFunc (f : FrozenTime) (d : Z) : unit → Z := λ _, FrozenTime_After f d.

(** [metav1.NewTime] keeps the time; [timestamppb.New] splits it into seconds and
    nanoseconds. *)
Definition FrozenTime_MetaV1Now (f : FrozenTime) : Z := FrozenTime_Now f.
Definition FrozenTime_MetaV1Before (f : FrozenTime) (d : Z) : Z := FrozenTime_Before f d.
Definition FrozenTime_MetaV1After (f : FrozenTime) (d : Z) : Z := FrozenTime_After f d.
Definition FrozenTime_MetaV1BeforeSec (f : FrozenTime) (s : Z) : Z := FrozenTime_BeforeSec f s.
Definition FrozenTime_MetaV1AfterSec (f : FrozenTime) (s : Z) : Z := FrozenTime_AfterSec f s.
Definition timestamppb_New (x : Z) : Z * Z := (x / second, x mod second).
Definition FrozenTime_PbNow (f : FrozenTime) : Z * Z := timestamppb_New (FrozenTime_Now f).
Definition FrozenTime_PbBefore (f : FrozenTime) (d : Z) : Z * Z := timestamppb_New (FrozenTime_Before f d).
Definition FrozenTime_PbAfter (f : FrozenTime) (d : Z) : Z * Z := timestamppb_New (FrozenTime_After f d).
Definition FrozenTime_PbBeforeSec (f : FrozenTime) (s : Z) : Z * Z := timestamppb_New (FrozenTime_BeforeSec f s).
Definition FrozenTime_PbAfterSec (f : FrozenTime) (s : Z) : Z * Z := timestamppb_New (FrozenTime_AfterSec f s).
Definition FrozenTime_MetaV1BeforeFunc (f : FrozenTime) (d : Z) : unit → Z :=
  λ _, FrozenTime_MetaV1Before f d.
Definition FrozenTime_MetaV1AfterFunc (f : FrozenTime) (d : Z) : unit → Z :=
  λ _, FrozenTime_MetaV1After f d.
Definition FrozenTime_PbBeforeFunc (f : FrozenTime) (d : Z) : unit → Z * Z := λ _, FrozenTime_PbBefore f d.
Definition FrozenTime_PbAfterFunc (f : FrozenTime) (d : Z) : unit → Z * Z := λ _, FrozenTime_PbAfter f d.

(** The range of seconds, 292 years, in which no product overflows. *)
Definition fits (s : Z) : Prop := Z.abs s * second < 2 ^ 63.

Lemma fits_dur s : fits s → seconds_dur s = s * second.
Proof. unfold fits, seconds_dur, second. intros H. apply wrap64_id. unfold in_int64. lia. Qed.

(** Within the range the functions are inverse to each other, and going by
    seconds is going by that many nanoseconds. *)
Theorem frozen_inverse f s :
  fits s →
  FrozenTime_BeforeSec f s = FrozenTime_Now f - s * second ∧ FrozenTime_AfterSec f s = FrozenTime_Now f + s * second ∧
  FrozenTime_AfterSec (NewFrozenTime (FrozenTime_BeforeSec f s)) s = FrozenTime_Now f ∧
  FrozenTime_Before f (s * second) = FrozenTime_BeforeSec f s ∧
  FrozenTime_PbAfterSec f s = (FrozenTime_Now f / second + s, FrozenTime_Now f mod second).
Proof.
  intros Hs. assert (fits (- s)) as Hs' by (unfold fits in *; by rewrite Z.abs_opp).
  assert (wrap64 (- s) = - s) as Hn.
  { apply wrap64_id. unfold fits, second in Hs. unfold in_int64. lia. }
  unfold FrozenTime_PbAfterSec, FrozenTime_BeforeSec, FrozenTime_AfterSec, FrozenTime_Before. rewrite Hn, !fits_dur by done.
  rewrite (wrap64_id (- (s * second))) by (unfold fits, second in Hs; unfold in_int64, second; lia).
  unfold timestamppb_New, NewFrozenTime, FrozenTime_Now. simpl.
  rewrite Z.div_add, Z.mod_add by done. split_and!; try lia. done.
Qed.

(** Beyond it they are not: the sign of the least [int64] cannot be changed. *)
Example frozen_overflow f : FrozenTime_Before f (- 2 ^ 63) = FrozenTime_After f (- 2 ^ 63).
Proof. reflexivity. Qed.

(** ** Comparing errors (internal/tests/errors.go)

    The message a test fails with. *)
Definition CompareErrors (got want : option error) : option string :=
  match got with
  | Some g =>
      match want with
      | None => Some ("Got unexpected error: " +:+ err_string g +:+ String (Ascii.ascii_of_nat 34) "")
      | Some x =>
          if decide (err_string g ≠ err_string x) then
            Some ("Got unexpected error: got " +:+ quoted (err_string g) +:+ " wanted " +:+
                  quoted (err_string x))
          else None
      end
  | None => match want with Some x => Some ("Missing expected error: " +:+ err_string x) | None => None end
  end.

(** A test passes when both are nil or both have the same text. *)
Lemma CompareErrors_passes got want :
  CompareErrors got want = None ↔ err_string <$> got = err_string <$> want.
Proof.
  destruct got as [g|], want as [x|]; simpl; try done. case_decide as H; split; intros; try done.
  - exfalso. apply H. congruence.
  - by rewrite H.
Qed.

(** ** Witnesses *)
#[local] Existing Instance demo_db_env.
#[local] Instance mock_range : MapRange :=
  {| range_map := map_to_list; range_map_perm m := reflexivity _ |}.
#[local] Instance mock_tenv : TemplateEnv := const_template_env demo_ywf.

Definition zeroMock {W} : MockDB W :=
  {| CreateWorkflowFunc := None; GetWorkflowFunc := None; GetfromWfDataTableFunc := None;
     InsertIntoWfDataTableFunc := None; GetWorkflowMetadataFunc := None;
     GetWorkflowDataVersionFunc := None; GetWorkflowsForWorkerFunc := None;
     GetWorkflowContextsFunc := None; GetWorkflowActionsFunc := None; UpdateWorkflowStateFunc := None;
     InsertIntoWorkflowEventTableFunc := None; TemplateDB := None; GetTemplateFunc := None |}.

(** The name of the first template is not accepted again. *)
Definition three_templates : list (string * string * string) :=
  [("a", "yaml", "id1"); ("b", "yaml", "id2"); ("a", "other", "id3")].
Lemma mock_creates_as_table_witness :
  ∃ s' d', create_all (H := TinkDB 3) three_templates (demo_db emptyTables) =
      (Ret [true; true; false], s') ∧
    create_all (H := mock_DB) three_templates (zeroMock, tt) = (Ret [true; true; false], (d', tt)) ∧
    mock_shows d' (db_tables s').
Proof.
  destruct (mock_creates_as_table (DE := demo_db_env) 3 (λ _, eq_refl) three_templates (demo_db emptyTables) zeroMock tt)
    as (oks & s' & d' & E & E' & Hs).
  - repeat constructor; by eexists.
  - apply (bool_decide_unpack _). vm_compute. exact I.
  - done.
  - intros name. simpl. rewrite lookup_empty. intros i row (Hl & _). discriminate Hl.
  - assert (oks = [true; true; false]) as ->.
    { assert (Ret oks = Ret [true; true; false]) as H; [|congruence].
      change (Ret oks) with (Ret oks, s').1. rewrite <- E. vm_compute. reflexivity. }
    exists s', d'. split; [exact E|]. split; [exact E'|exact Hs].
Defined.

(** Deleting is not the same: the server deletes a template by its id, which the
    table and the mock, whose map has names, take for different things. *)
Example mock_deletes_by_name :
  let create S (D : Database S) := Database_CreateTemplate (Database := D) "a" "yaml" in
  let run S (D : Database S) :=
    go_bind (create S D "id1") (λ _, go_bind (Database_DeleteTemplate "id1") (λ _, create S D "id2")) in
  (run DB (TinkDB 3) (demo_db emptyTables)).1 = Ret None ∧
  (run _ mock_DB (zeroMock (W := unit), tt)).1 ≠ Ret None.
Proof. vm_compute. done. Qed.

(** A method whose function the test has not set panics. *)
Example mock_nil_call (id : string) :
  Database_GetWorkflow id (zeroMock (W := unit), tt) = (Panic nil_call, (zeroMock, tt)).
Proof. reflexivity. Qed.
