(* ===== verification/DbTyped.v ===== *)
(** * DbTyped: the types and constraints of the tables (src/db, src/db/migration)

    What the columns of every table hold, as their types and the constraints of the
    migrations say, and that every updating operation keeps it. *)
From S2P Require Import Prelude Proto Template Service DbBase DbWorkflow DbTemplate.
From stdpp Require Import options.

Section typed.
Context `{DE : DbEnv} `{TE : TemplateEnv} `{MR : MapRange}.

(** Values as PostgreSQL stores them. *)
Definition uuid_text (s : string) : Prop := pg_uuid s = Some s.
Definition jsonb_text (s : string) : Prop := jsonb s = Some s.
Definition name_text (s : string) : Prop := varchar200 s = true ∧ ck_name s = true.

Definition hardware_typed (id : string) (r : HardwareRow) : Prop :=
  uuid_text id ∧ jsonb_text (hr_data r).
Definition template_typed (id : string) (r : TemplateRow) : Prop :=
  uuid_text id ∧ name_text (tr_name r).
Definition workflow_typed (id : string) (r : WorkflowRow) : Prop :=
  uuid_text id ∧ uuid_text (wr_template r) ∧ jsonb_text (wr_devices r).
Definition state_typed (id : string) (r : StateRow) : Prop :=
  uuid_text id ∧ varchar200 (sr_current_task_name r) = true ∧
  varchar200 (sr_current_action_name r) = true ∧ varchar200 (sr_current_worker r) = true ∧
  in_smallint (sr_current_action_state r) = true ∧ in_int4 (sr_current_action_index r) = true ∧
  in_int4 (sr_total_number_of_actions r) = true.
Definition event_typed (r : EventRow) : Prop :=
  uuid_text (er_workflow_id r) ∧ uuid_text (er_worker_id r) ∧
  varchar200 (er_task_name r) = true ∧ varchar200 (er_action_name r) = true ∧
  varchar200 (er_message r) = true ∧ in_smallint (er_status r) = true ∧
  in_int4 (er_execution_time r) = true.
Definition data_typed (r : DataRow) : Prop :=
  uuid_text (dr_workflow_id r) ∧ in_int4 (dr_version r) = true ∧ jsonb_text (dr_metadata r) ∧
  from_option jsonb_text True (dr_data r).
(** The partial unique index: the templates that are not deleted have different
    names. *)
Definition names_unique (m : gmap string TemplateRow) : Prop :=
  ∀ id1 id2 r1 r2, m !! id1 = Some r1 → m !! id2 = Some r2 →
    tr_deleted_at r1 = None → tr_deleted_at r2 = None → tr_name r1 = tr_name r2 → id1 = id2.

Record typed (t : Tables) : Prop := {
  ty_hardware : map_Forall hardware_typed (t_hardware t);
  ty_template : map_Forall template_typed (t_template t);
  ty_names : names_unique (t_template t);
  ty_workflow : map_Forall workflow_typed (t_workflow t);
  ty_state : map_Forall state_typed (t_state t);
  ty_event : Forall event_typed (t_event t);
  ty_worker_map : set_Forall (λ p, uuid_text p.1 ∧ uuid_text p.2) (t_worker_map t);
  ty_data : Forall data_typed (t_data t)
}.

(** The updating operations of the database; identifiers that are of type
    [uuid.UUID] in the code are canonical. *)
Inductive update : go DB (option error) → Prop :=
  | up_InsertIntoDB data : update (InsertIntoDB data)
  | up_DeleteFromDB id : update (DeleteFromDB id)
  | up_CreateTemplate name data id : uuid_text id → update (CreateTemplate name data id)
  | up_UpdateTemplate name data id : uuid_text id → update (UpdateTemplate name data id)
  | up_DeleteTemplate id : update (DeleteTemplate id)
  | up_CreateWorkflow wf data id : uuid_text id → update (CreateWorkflow wf data id)
  | up_UpdateWorkflow wf : update (UpdateWorkflow wf)
  | up_DeleteWorkflow id : update (DeleteWorkflow id)
  | up_UpdateWorkflowState c : update (UpdateWorkflowState c)
  | up_InsertEvent ev time : update (InsertIntoWorkflowEventTable ev time)
  | up_InsertData maxVersions req : update (InsertIntoWfDataTable maxVersions req).

(** A run of such operations, whatever their outcomes. *)
Inductive updates : DB → DB → Prop :=
  | updates_nil s : updates s s
  | updates_cons op s o s1 s2 : update op → op s = (o, s1) → updates s1 s2 → updates s s2.

(** ** A logic for operations that keep the tables typed *)
Definition keeps {A} (c : go DB A) (Q : A → Prop) : Prop :=
  ∀ s o s', typed (db_tables s) → c s = (o, s') →
    typed (db_tables s') ∧ ∀ a, o = Ret a → Q a.
Definition on_ok {A} (Q : A → Prop) (r : result A) : Prop :=
  match r with Ok a => Q a | Err _ => True end.
(** A statement that keeps them. *)
Definition stmt_keeps (stmt : Z → Tables → result (Tables * Z)) : Prop :=
  ∀ now t, typed t → on_ok (λ r, typed r.1) (stmt now t).

Lemma keep_ret {A} (a : A) (Q : A → Prop) : Q a → keeps (go_ret a) Q.
Proof. intros Ha s o s' Ht [= <- <-]. split; [done|]. by intros ? [= <-]. Qed.

Lemma keep_bind {A B} (c : go DB A) (k : A → go DB B) Q R :
  keeps c Q → (∀ a, Q a → keeps (k a) R) → keeps (go_bind c k) R.
Proof.
  intros Hc Hk s o s' Ht H. unfold go_bind in H. destruct (c s) as [oc s1] eqn:E.
  destruct (Hc _ _ _ Ht E) as [Ht1 Hq]. destruct oc as [a| |]; simplify_eq.
  - by eapply Hk; [apply Hq| |].
  - split; [done|]. discriminate.
  - split; [done|]. discriminate.
Qed.

Lemma keep_try {A B} (c : go DB (result A)) (h : error → B) (k : A → go DB B) Q R :
  keeps c (on_ok Q) → (∀ e, R (h e)) → (∀ a, Q a → keeps (k a) R) → keeps (go_try c h k) R.
Proof.
  intros Hc Hh Hk. eapply keep_bind; [exact Hc|]. intros [a|e] Hq; [by apply Hk|by apply keep_ret].
Qed.

Lemma keep_weaken {A} (c : go DB A) (Q R : A → Prop) : (∀ a, Q a → R a) → keeps c Q → keeps c R.
Proof. intros HQR Hc s o s' Ht H. destruct (Hc _ _ _ Ht H). split; eauto. Qed.

Lemma keep_pure {A} (c : go DB A) : db_pure c → keeps c (λ _, True).
Proof.
  intros Hc s o s' Ht H. destruct (Hc s) as (a & s1 & H1 & Heq). rewrite H in H1. simplify_eq.
  split; [by rewrite Heq|done].
Qed.

Lemma keep_begin : keeps BeginTx (on_ok typed).
Proof.
  intros s o s' Ht H. unfold BeginTx in H. simplify_eq/=. split; [done|].
  intros r [= <-]. by destruct (db_fault _).
Qed.

Lemma keep_exec tx stmt : typed tx → stmt_keeps stmt → keeps (ExecContext tx stmt) (on_ok (λ r, typed r.1)).
Proof.
  intros Htx Hstmt s o s' Ht H. unfold ExecContext in H. simplify_eq/=. split; [done|].
  intros r [= <-]. destruct (db_fault _); [done|]. by apply Hstmt.
Qed.

Lemma keep_commit tx Q : typed tx → (∀ r, Q r) → keeps (commit_or tx) Q.
Proof.
  intros Htx HQ s o s' Ht H. unfold commit_or, go_bind, Commit, go_ret in H.
  destruct (db_fault _); simplify_eq/=; (split; [done|intros; apply HQ]).
Qed.

Lemma keep_exec_tx msg stmt : stmt_keeps stmt → keeps (exec_tx msg stmt) (λ _, True).
Proof.
  intros Hs. eapply keep_try; [apply keep_begin|done|]. intros tx Htx.
  eapply keep_try; [by apply keep_exec|done|]. intros r Hr. by apply keep_commit.
Qed.
Lemma keep_exec_tx_found msg id stmt : stmt_keeps stmt → keeps (exec_tx_found msg id stmt) (λ _, True).
Proof.
  intros Hs. eapply keep_try; [apply keep_begin|done|]. intros tx Htx.
  eapply keep_try; [by apply keep_exec|done|]. intros r Hr.
  case_decide; [by apply keep_ret|by apply keep_commit].
Qed.

(** ** The statements *)
Lemma typed_hardware t id r : typed t → hardware_typed id r →
  typed (set_t_hardware (<[id := r]> (t_hardware t)) t).
Proof. intros [] ?. constructor; simpl; try done. by apply map_Forall_insert_2. Qed.
Lemma typed_template t id r : typed t → template_typed id r →
  names_unique (<[id := r]> (t_template t)) → typed (set_t_template (<[id := r]> (t_template t)) t).
Proof. intros [] ??. constructor; simpl; try done. by apply map_Forall_insert_2. Qed.
Lemma typed_workflow t id r : typed t → workflow_typed id r →
  typed (set_t_workflow (<[id := r]> (t_workflow t)) t).
Proof. intros [] ?. constructor; simpl; try done. by apply map_Forall_insert_2. Qed.
Lemma typed_state t id r : typed t → state_typed id r →
  typed (set_t_state (<[id := r]> (t_state t)) t).
Proof. intros [] ?. constructor; simpl; try done. by apply map_Forall_insert_2. Qed.

(** An insertion that the unique index lets through. *)
Lemma names_unique_insert m id r :
  names_unique m →
  (tr_deleted_at r = None → ∀ id' r', m !! id' = Some r' → id' ≠ id → tr_deleted_at r' = None →
    tr_name r' ≠ tr_name r) →
  names_unique (<[id := r]> m).
Proof.
  intros Hm Hr id1 id2 r1 r2 H1 H2 Hd1 Hd2 Hn.
  apply lookup_insert_Some in H1 as [[<- <-]|[Hne1 H1]];
    apply lookup_insert_Some in H2 as [[<- <-]|[Hne2 H2]].
  - done.
  - exfalso. by apply (Hr Hd1 id2 r2 H2).
  - exfalso. by apply (Hr Hd2 id1 r1 H1).
  - by eapply Hm.
Qed.

Lemma store_template_keeps id r t :
  typed t → uuid_text id → on_ok (λ x, typed x.1) (store_template id r t).
Proof.
  intros Ht Hid. unfold store_template.
  destruct (varchar200 (tr_name r)) eqn:Hv; [|done]. destruct (ck_name (tr_name r)) eqn:Hc; [|done].
  simpl. destruct (bool_decide (tr_deleted_at r = None) && name_taken id (tr_name r) t) eqn:Hu; [done|].
  simpl. apply typed_template; [done|by split|]. apply names_unique_insert; [by apply ty_names|].
  intros Hd id' r' Hl Hne Hd' Hn. rewrite bool_decide_eq_true_2 in Hu by done. simpl in Hu.
  unfold name_taken in Hu. apply bool_decide_eq_false in Hu. apply Hu, Exists_exists.
  exists (id', r'). split; [by apply elem_of_map_to_list|done].
Qed.

Context (Huuid : ∀ s i, pg_uuid s = Some i → uuid_text i).
Context (Hparse : ∀ s i, uuid_parse s = Some i → uuid_text i).
Context (Hjsonb : ∀ s d, jsonb s = Some d → jsonb_text d).
#[local] Set Default Proof Using "Type*".

Lemma insert_hardware_keeps now data : stmt_keeps (stmt_insert_hardware now data).
Proof.
  intros n t Ht. unfold stmt_insert_hardware. destruct (jsonb data) as [d|] eqn:Hd; [|done].
  destruct (jsonb_id data ≫= pg_uuid) as [id|] eqn:Hid; [|done]. simpl.
  apply typed_hardware; [done|]. split; [|by eapply Hjsonb].
  destruct (jsonb_id data); [by eapply Huuid|done].
Qed.
Lemma delete_hardware_keeps id : stmt_keeps (stmt_delete_hardware id).
Proof.
  intros n t Ht. unfold stmt_delete_hardware. destruct (pg_uuid id) as [i|]; [|done].
  destruct (t_hardware t !! i) as [r|] eqn:E; simpl; [|done].
  apply typed_hardware; [done|]. by apply (ty_hardware _ Ht) in E.
Qed.
Lemma insert_template_keeps now name data id : uuid_text id → stmt_keeps (stmt_insert_template now name data id).
Proof. intros Hid n t Ht. by apply store_template_keeps. Qed.
Lemma update_template_keeps id name data : uuid_text id → stmt_keeps (stmt_update_template id name data).
Proof.
  intros Hid n t Ht. unfold stmt_update_template. destruct (t_template t !! id); [|done].
  by apply store_template_keeps.
Qed.
Lemma delete_template_keeps id : stmt_keeps (stmt_delete_template id).
Proof.
  intros n t Ht. unfold stmt_delete_template. destruct (pg_uuid id) as [i|]; [|done].
  destruct (t_template t !! i) as [r|] eqn:E; simpl; [|done].
  apply typed_template; [done|by apply (ty_template _ Ht) in E|].
  by apply names_unique_insert; [apply ty_names|].
Qed.

Lemma insert_workflow_keeps now wf : stmt_keeps (stmt_insert_workflow now wf).
Proof.
  intros n t Ht. unfold stmt_insert_workflow. destruct (pg_uuid (dw_ID wf)) eqn:E1; [|done].
  destruct (pg_uuid (dw_Template wf)) eqn:E2; [|done]. destruct (jsonb (dw_Hardware wf)) eqn:E3; [|done].
  apply typed_workflow; [done|]. split_and!; simpl; eauto.
Qed.
Lemma update_workflow_keeps id f now t :
  typed t → (∀ i r, workflow_typed i r → workflow_typed i (f now r)) →
  on_ok (λ x, typed x.1) (stmt_update_workflow id f now t).
Proof.
  intros Ht Hf. unfold stmt_update_workflow. destruct (pg_uuid id) as [i|]; [|done].
  destruct (t_workflow t !! i) as [r|] eqn:E; [|done]. apply typed_workflow; [done|].
  apply Hf. by apply (ty_workflow _ Ht) in E.
Qed.
Lemma set_workflow_keeps wf : stmt_keeps (stmt_set_workflow wf).
Proof.
  intros n t Ht. unfold stmt_set_workflow.
  destruct (pg_uuid (dw_Template wf)) as [tmp|] eqn:E1, (jsonb (dw_Hardware wf)) as [dev|] eqn:E2;
    repeat case_decide; try done;
    (apply update_workflow_keeps; [done|]; intros i r (H1 & H2 & H3); split_and!; simpl; eauto).
Qed.
Lemma delete_worker_map_keeps id : stmt_keeps (stmt_delete_worker_map id).
Proof.
  intros n t Ht. unfold stmt_delete_worker_map. destruct (pg_uuid id) as [i|]; [|done].
  destruct Ht. constructor; simpl; try done. intros p Hp. apply ty_worker_map0. set_solver.
Qed.
Lemma delete_state_keeps id : stmt_keeps (stmt_delete_state id).
Proof.
  intros n t Ht. unfold stmt_delete_state. destruct (pg_uuid id) as [i|]; [|done].
  destruct Ht. constructor; simpl; try done. by apply map_Forall_delete.
Qed.
Lemma insert_worker_map_keeps id w : uuid_text id → uuid_text w → stmt_keeps (stmt_insert_worker_map id w).
Proof.
  intros Hid Hw n t Ht. destruct Ht. constructor; simpl; try done.
  intros p [Hp|Hp]%elem_of_union; [|by apply ty_worker_map0]. apply elem_of_singleton in Hp. by subst.
Qed.
Lemma insert_state_keeps id l : uuid_text id → stmt_keeps (stmt_insert_state id l).
Proof.
  intros Hid n t Ht. unfold stmt_insert_state. destruct (in_int4 _) eqn:E; [|done].
  apply typed_state; [done|]. by split_and!.
Qed.
Lemma update_state_keeps c : stmt_keeps (stmt_update_state c).
Proof.
  intros n t Ht. unfold stmt_update_state. destruct (pg_uuid _) as [i|] eqn:Hi; [|done].
  case_match eqn:Hv; [done|]. case_match eqn:Hn; [done|].
  destruct (t_state t !! i) as [r|] eqn:E; [|done]. apply typed_state; [done|].
  apply negb_false_iff in Hv, Hn. apply andb_prop in Hv as [[??]%andb_prop ?], Hn as [??].
  apply (ty_state _ Ht) in E. split_and!; simpl; eauto. by apply E.
Qed.
Lemma insert_event_keeps ev time : stmt_keeps (stmt_insert_event ev time).
Proof.
  intros n t Ht. unfold stmt_insert_event. destruct (pg_uuid (ws_WorkflowId ev)) eqn:E1; [|done].
  destruct (pg_uuid (ws_WorkerId ev)) eqn:E2; [|done].
  case_match eqn:Hv; [done|]. case_match eqn:Hn; [done|].
  apply negb_false_iff in Hv, Hn. apply andb_prop in Hv as [[??]%andb_prop ?], Hn as [??].
  destruct Ht. constructor; simpl; try done. apply Forall_app. split; [done|].
  constructor; [|done]. split_and!; simpl; eauto.
Qed.
Lemma insert_data_keeps id v m d : in_int4 v = true → stmt_keeps (stmt_insert_data id v m d).
Proof.
  intros Hv n t Ht. unfold stmt_insert_data. destruct (pg_uuid id) eqn:E1; [|done].
  destruct (jsonb m) eqn:E2; [|done]. destruct (jsonb d) eqn:E3; [|done].
  destruct Ht. constructor; simpl; try done. apply Forall_app. split; [done|].
  constructor; [|done]. split_and!; simpl; eauto.
Qed.
Lemma clean_data_keeps id v : stmt_keeps (stmt_clean_data id v).
Proof.
  intros n t Ht. unfold stmt_clean_data. destruct (pg_uuid id); [|done].
  destruct Ht. constructor; simpl; try done. apply Forall_fmap. eapply Forall_impl; [done|].
  intros r (H1 & H2 & H3 & H4). unfold compose, clean_row. case_decide; by split_and!.
Qed.
(** ** The operations *)
Lemma wrap32_in_int4 z : in_int4 (wrap32 z) = true.
Proof using.
  unfold in_int4, wrap32, wrap_bits. apply bool_decide_eq_true_2.
  pose proof (Z.mod_pos_bound (z + 2 ^ (32 - 1)) (2 ^ 32) ltac:(done)). lia.
Qed.

Lemma insert_tasks_keeps id tasks u tx l :
  uuid_text id → typed tx → keeps (insert_tasks id tasks u tx l) (on_ok (λ r, typed r.1)).
Proof.
  intros Hid. revert u tx l. induction tasks as [|task tasks IH]; intros u tx l Htx; simpl.
  { by apply keep_ret. }
  eapply (keep_try _ _ _ (λ _, True)); [|done|].
  { eapply keep_weaken; [by intros []|]. apply keep_pure. unfold getWorkerID, getWorkerIDbyMac,
      getWorkerIDbyIP. db_walk. }
  intros w _. destruct (uuid_parse w) as [i|] eqn:Hw; [|by apply keep_ret].
  case_decide; [|by apply IH].
  eapply (keep_try _ _ _ typed); [|done|intros; by apply IH].
  eapply keep_bind; [apply keep_exec; [done|]; apply insert_worker_map_keeps; eauto|].
  intros [[tx' n]|e] Hr; by apply keep_ret.
Qed.

Lemma create_workflow_keeps wf data id :
  uuid_text id → keeps (CreateWorkflow wf data id) (λ _, True).
Proof.
  intros Hid. unfold CreateWorkflow. eapply keep_try; [apply keep_begin|done|]. intros tx Htx.
  eapply (keep_try _ _ _ typed); [|done|].
  { unfold insertActionList. destruct (Parse data) as [y|]; [|by apply keep_ret].
    eapply keep_try; [by apply insert_tasks_keeps|done|]. intros r Hr.
    eapply keep_try; [by apply keep_exec; [|apply insert_state_keeps]|done|].
    intros r' Hr'. by apply keep_ret. }
  intros tx1 Htx1. eapply (keep_try _ _ _ typed); [|done|intros; by apply keep_commit].
  unfold insertInWorkflow. eapply keep_bind; [apply keep_pure, db_pure_now|]. intros now _.
  eapply keep_bind; [by apply keep_exec; [|apply insert_workflow_keeps]|].
  intros [[tx' n]|e] Hr; by apply keep_ret.
Qed.

Lemma delete_workflow_keeps id : keeps (DeleteWorkflow id) (λ _, True).
Proof.
  unfold DeleteWorkflow. eapply keep_try; [apply keep_begin|done|]. intros tx Htx.
  eapply keep_try; [by apply keep_exec; [|apply delete_worker_map_keeps]|done|]. intros r1 Hr1.
  eapply keep_try; [by apply keep_exec; [|apply delete_state_keeps]|done|]. intros r2 Hr2.
  eapply keep_try; [apply keep_exec; [done|]|done|].
  { intros now t Ht. apply update_workflow_keeps; [done|]. by intros i r (?&?&?). }
  intros r3 Hr3. case_decide; [by apply keep_ret|by apply keep_commit].
Qed.

Lemma insert_data_version_keeps mv req : keeps (InsertIntoWfDataTable mv req) (λ _, True).
Proof.
  unfold InsertIntoWfDataTable. eapply keep_bind.
  { apply keep_pure. unfold getLatestVersionWfData. db_walk. }
  intros [v [e|]] _; [by apply keep_ret|]. unfold insert_data_version.
  eapply keep_try; [apply keep_begin|done|]. intros tx Htx.
  eapply keep_try; [by apply keep_exec; [|apply insert_data_keeps, wrap32_in_int4]|done|].
  intros r Hr. case_decide; [|by apply keep_commit].
  eapply keep_try; [by apply keep_exec; [|apply clean_data_keeps]|done|].
  intros r' Hr'. by apply keep_commit.
Qed.

Lemma update_keeps op : update op → keeps op (λ _, True).
Proof.
  intros [data|id|name data id Hid|name data id Hid|id|wf data id Hid|wf|id|c|ev time|mv req].
  - unfold InsertIntoDB. eapply keep_try; [apply keep_begin|done|]. intros tx Htx.
    eapply keep_bind; [apply keep_pure, db_pure_now|]. intros now _.
    eapply keep_try; [by apply keep_exec; [|apply insert_hardware_keeps]|done|].
    intros r Hr. by apply keep_commit.
  - apply keep_exec_tx_found, delete_hardware_keeps.
  - unfold CreateTemplate. destruct (Parse data); [|by apply keep_ret].
    eapply keep_try; [apply keep_begin|done|]. intros tx Htx.
    eapply keep_bind; [apply keep_pure, db_pure_now|]. intros now _.
    eapply keep_try; [by apply keep_exec; [|apply insert_template_keeps]|done|].
    intros r Hr. by apply keep_commit.
  - apply keep_exec_tx. repeat case_decide; by apply update_template_keeps.
  - apply keep_exec_tx_found, delete_template_keeps.
  - by apply create_workflow_keeps.
  - apply keep_exec_tx, set_workflow_keeps.
  - apply delete_workflow_keeps.
  - apply keep_exec_tx, update_state_keeps.
  - apply keep_exec_tx, insert_event_keeps.
  - apply insert_data_version_keeps.
Qed.

(** By the types and constraints of their columns, which the statements of the model
    check, the tables are well typed in every database reached from an empty one by any
    sequence of updating operations with any outcomes, on any input: identifiers are
    canonical UUIDs and documents canonical JSON, texts and numbers fit their
    columns, template names satisfy their check, and two templates that are not
    deleted never have the same name. *)
Theorem db_typed s s' :
  db_tables s = emptyTables → updates s s' → typed (db_tables s').
Proof.
  intros Hs Hrun. assert (typed (db_tables s)) as Ht.
  { rewrite Hs. constructor; simpl; try apply map_Forall_empty; try apply Forall_nil; try done. }
  clear Hs. induction Hrun as [|op s o s1 s2 Hop Hrun _ IH]; [done|].
  apply IH. by eapply (update_keeps op Hop).
Qed.
End typed.

(** ** Witness: of two templates created under one name the second is refused. *)
#[local] Existing Instance demo_db_env.
#[local] Instance typed_range : MapRange :=
  {| range_map := map_to_list; range_map_perm m := reflexivity _ |}.
#[local] Instance typed_tenv : TemplateEnv := const_template_env demo_ywf.

Lemma some_text_idem s t : some_text s = Some t → some_text t = Some t.
Proof. unfold some_text. case_decide; intros; simplify_eq. by rewrite decide_False. Qed.

Lemma updates_two (op1 op2 : go DB (option error)) s :
  update op1 → update op2 → updates s (op2 (op1 s).2).2.
Proof.
  intros H1 H2. eapply updates_cons; [exact H1|apply surjective_pairing|].
  eapply updates_cons; [exact H2|apply surjective_pairing|apply updates_nil].
Qed.

Definition after_first : DB := (CreateTemplate "n" "yaml" "id1" (demo_db emptyTables)).2.
Definition after_second : DB := (CreateTemplate "n" "yaml" "id2" after_first).2.

Lemma db_typed_witness :
  (CreateTemplate "n" "yaml" "id2" after_first).1 ≠ Ret None ∧ typed (db_tables after_second).
Proof.
  split; [vm_compute; discriminate|].
  apply (db_typed (DE := demo_db_env) some_text_idem some_text_idem some_text_idem
    (demo_db emptyTables)); [reflexivity|].
  exact (updates_two (CreateTemplate "n" "yaml" "id1") (CreateTemplate "n" "yaml" "id2")
    (demo_db emptyTables) (up_CreateTemplate "n" "yaml" "id1" eq_refl)
    (up_CreateTemplate "n" "yaml" "id2" eq_refl)).
Defined.
