(* ===== verification/Migrations.v ===== *)
(** * Migrations: the schema of the database (src/db/migration)

    Every migration as the list of its SQL statements, a PostgreSQL that executes
    them on a schema with rows, and what they leave: the tables with the types and
    constraints that [DbTyped] demands of the model of the database. *)
From S2P Require Import Prelude Proto Template DbBase DbWorkflow DbTemplate DbTyped.
From stdpp Require Import options.

(** ** Schemas *)
Inductive col_type :=
  | UUID | TIMESTAMPTZ | JSONB | VARCHAR (n : Z) | BYTEA | SMALLINT | INT | ENUM (type : string).
Inductive col_attr := NotNull | Unique | PrimaryKey | DefaultUuid | DefaultNow.
(** A column as it is declared. *)
Record coldef := Col { cd_name : string; cd_type : col_type; cd_attrs : list col_attr }.
Record column := { c_name : string; c_type : col_type; c_notnull : bool; c_default : option col_attr }.
Inductive constr :=
  | CUnique (cols : list string)
  | CPrimary (cols : list string)
  (** [CHECK (col ~ '^[a-zA-Z0-9_-]*$')]. *)
  | CCheckName (col : string).
Record table := { tb_cols : list column; tb_constrs : list (string * constr) }.
Record index := {
  ix_table : string; ix_cols : list string; ix_unique : bool;
  (** [WHERE deleted_at IS NULL]. *)
  ix_live : bool }.
Inductive fn :=
  (** [pg_notify(channel, row_to_json(NEW)::text)]. *)
  | FNotify (channel : string)
  (** Insertion of a row into events: CREATED for an INSERT, otherwise UPDATED, or
      DELETED when [deleted_at] is set. *)
  | FEvent (resource : string).
Record trigger := { tg_on_update : bool; tg_fn : string }.

Record Schema := {
  s_tables : list (string * table);
  s_indexes : list (string * index);
  s_types : list (string * list string);
  s_fns : list (string * fn);
  s_triggers : list (string * string * trigger);
  s_exts : list string
}.
Definition empty_schema : Schema :=
  {| s_tables := []; s_indexes := []; s_types := []; s_fns := []; s_triggers := []; s_exts := [] |}.

(** *** Rows *)
Inductive sqlval := VNull | VText (s : string) | VNum (z : Z) | VActions (l : WorkflowActionList).
#[global] Instance sqlval_eq_dec : EqDecision sqlval.
Proof. solve_decision. Defined.
Abbreviation row := (list (string * sqlval)) (only parsing).
Definition Rows := string → list row.

Fixpoint assoc {A} (k : string) (l : list (string * A)) : option A :=
  match l with [] => None | (k', a) :: l' => if String.eqb k' k then Some a else assoc k l' end.

(** A key of a row; none when a column of it is null. *)
Fixpoint key_of (cols : list string) (r : row) : option (list sqlval) :=
  match cols with
  | [] => Some []
  | c :: cols' =>
      match assoc c r with
      | None | Some VNull => None
      | Some v => (v ::.) <$> key_of cols' r
      end
  end.
Definition live (r : row) : Prop := assoc "deleted_at" r = Some VNull.
#[global] Instance live_dec r : Decision (live r).
Proof. unfold live. apply _. Defined.

Definition keys_unique (cols : list string) (l : list row) : Prop := NoDup (omap (key_of cols) l).
Definition index_rows (ix : index) (l : list row) : list row := if ix_live ix then filter live l else l.

Record Pg := { pg_schema : Schema; pg_rows : Rows }.

(** ** Statements *)
Inductive stmt :=
  | CreateTable (name : string) (cols : list coldef) (cs : list (string * constr))
  | CreateIndex (if_not_exists : bool) (name : string) (ix : index)
  | CreateExtension (name : string)
  (** In a block that ignores [duplicate_object]. *)
  | CreateEnum (name : string) (labels : list string)
  | CreateFunction (name : string) (f : fn)
  | DropTrigger (name table : string)
  | CreateTrigger (name table : string) (t : trigger)
  | DropConstraint (table name : string)
  | AddPrimaryKey (table : string) (cols : list string)
  | DropTableCascade (name : string)
  | DropType (name : string).

Definition set_tables f (s : Schema) : Schema :=
  {| s_tables := f (s_tables s); s_indexes := s_indexes s; s_types := s_types s; s_fns := s_fns s;
     s_triggers := s_triggers s; s_exts := s_exts s |}.
Definition set_indexes f (s : Schema) : Schema :=
  {| s_tables := s_tables s; s_indexes := f (s_indexes s); s_types := s_types s; s_fns := s_fns s;
     s_triggers := s_triggers s; s_exts := s_exts s |}.
Definition set_types f (s : Schema) : Schema :=
  {| s_tables := s_tables s; s_indexes := s_indexes s; s_types := f (s_types s); s_fns := s_fns s;
     s_triggers := s_triggers s; s_exts := s_exts s |}.
Definition set_fns f (s : Schema) : Schema :=
  {| s_tables := s_tables s; s_indexes := s_indexes s; s_types := s_types s; s_fns := f (s_fns s);
     s_triggers := s_triggers s; s_exts := s_exts s |}.
Definition set_triggers f (s : Schema) : Schema :=
  {| s_tables := s_tables s; s_indexes := s_indexes s; s_types := s_types s; s_fns := s_fns s;
     s_triggers := f (s_triggers s); s_exts := s_exts s |}.
Definition set_exts f (s : Schema) : Schema :=
  {| s_tables := s_tables s; s_indexes := s_indexes s; s_types := s_types s; s_fns := s_fns s;
     s_triggers := s_triggers s; s_exts := f (s_exts s) |}.

Definition without {A} (k : string) (l : list (string * A)) : list (string * A) :=
  filter (λ p, p.1 ≠ k) l.
Definition replace_at {A} (k : string) (a : A) (l : list (string * A)) : list (string * A) :=
  (λ p, if String.eqb p.1 k then (k, a) else p) <$> l.

(** A declared column, and the constraints it brings, with the names that
    PostgreSQL gives them. *)
Definition has_attr (a : col_attr) (c : coldef) : bool :=
  existsb (λ b, match a, b with
                | NotNull, NotNull | Unique, Unique | PrimaryKey, PrimaryKey
                | DefaultUuid, DefaultUuid | DefaultNow, DefaultNow => true
                | _, _ => false end) (cd_attrs c).
Definition column_of (c : coldef) : column :=
  {| c_name := cd_name c; c_type := cd_type c;
     c_notnull := has_attr NotNull c || has_attr PrimaryKey c;
     c_default := if has_attr DefaultUuid c then Some DefaultUuid
                  else if has_attr DefaultNow c then Some DefaultNow else None |}.
Definition constrs_of (table : string) (c : coldef) : list (string * constr) :=
  (if has_attr Unique c then [(table +:+ "_" +:+ cd_name c +:+ "_key", CUnique [cd_name c])] else []) ++
  (if has_attr PrimaryKey c then [(table +:+ "_pkey", CPrimary [cd_name c])] else []).

Definition no_relation (name : string) : error := ExtErr ("pq: relation does not exist: " +:+ name).
Definition no_constraint (name : string) : error :=
  ExtErr ("pq: constraint does not exist: " +:+ name).
Definition exists_already (name : string) : error := ExtErr ("pq: relation already exists: " +:+ name).
Definition not_unique (name : string) : error := ExtErr ("pq: could not create unique index: " +:+ name).
Definition null_values : error := ExtErr "pq: column contains null values".
Definition still_used (name : string) : error :=
  ExtErr ("pq: cannot drop type because other objects depend on it: " +:+ name).

Definition no_null (cols : list string) (r : row) : Prop :=
  Forall (λ p, p.1 ∈ cols → p.2 ≠ VNull) r.
#[global] Instance no_null_dec cols r : Decision (no_null cols r).
Proof. unfold no_null. apply _. Defined.
Definition require_not_null (cols : list string) (t : table) : table :=
  {| tb_cols := (λ c, if bool_decide (c_name c ∈ cols) then
                        {| c_name := c_name c; c_type := c_type c; c_notnull := true;
                           c_default := c_default c |}
                      else c) <$> tb_cols t;
     tb_constrs := tb_constrs t |}.

Definition exec_stmt (q : stmt) (db : Pg) : result Pg :=
  let s := pg_schema db in
  let ok s' := Ok {| pg_schema := s'; pg_rows := pg_rows db |} in
  match q with
  | CreateTable name cols cs =>
      match assoc name (s_tables s) with
      | Some _ => Ok db
      | None =>
          let t := {| tb_cols := column_of <$> cols;
                      tb_constrs := (cols ≫= constrs_of name) ++ cs |} in
          Ok {| pg_schema := set_tables (.++ [(name, t)]) s;
                pg_rows := λ n, if String.eqb n name then [] else pg_rows db n |}
      end
  | CreateIndex if_not_exists name ix =>
      match assoc name (s_indexes s), assoc (ix_table ix) (s_tables s) with
      | Some _, _ => if if_not_exists : bool then Ok db else Err (exists_already name)
      | None, None => Err (no_relation (ix_table ix))
      | None, Some _ =>
          if decide (ix_unique ix = true →
                     keys_unique (ix_cols ix) (index_rows ix (pg_rows db (ix_table ix))))
          then ok (set_indexes (.++ [(name, ix)]) s) else Err (not_unique name)
      end
  | CreateExtension name => ok (set_exts (λ l, if bool_decide (name ∈ l) then l else l ++ [name]) s)
  | CreateEnum name labels =>
      match assoc name (s_types s) with
      | Some _ => Ok db
      | None => ok (set_types (.++ [(name, labels)]) s)
      end
  | CreateFunction name f => ok (set_fns (λ l, without name l ++ [(name, f)]) s)
  | DropTrigger name table => ok (set_triggers (filter (λ p, p.1 ≠ (name, table))) s)
  | CreateTrigger name table t =>
      match assoc table (s_tables s), assoc (tg_fn t) (s_fns s) with
      | Some _, Some _ => ok (set_triggers (.++ [((name, table), t)]) s)
      | None, _ => Err (no_relation table)
      | _, None => Err (no_relation (tg_fn t))
      end
  | DropConstraint table name =>
      match assoc table (s_tables s) with
      | None => Err (no_relation table)
      | Some t =>
          match assoc name (tb_constrs t) with
          | None => Err (no_constraint name)
          | Some _ =>
              ok (set_tables (replace_at table
                {| tb_cols := tb_cols t; tb_constrs := without name (tb_constrs t) |}) s)
          end
      end
  | AddPrimaryKey table cols =>
      match assoc table (s_tables s) with
      | None => Err (no_relation table)
      | Some t =>
          if decide (Forall (no_null cols) (pg_rows db table)) then
            if decide (keys_unique cols (pg_rows db table)) then
              let t := require_not_null cols t in
              ok (set_tables (replace_at table
                {| tb_cols := tb_cols t;
                   tb_constrs := tb_constrs t ++ [(table +:+ "_pkey", CPrimary cols)] |}) s)
            else Err (not_unique (table +:+ "_pkey"))
          else Err null_values
      end
  | DropTableCascade name =>
      Ok {| pg_schema := set_tables (without name) (set_indexes (filter (λ p, ix_table p.2 ≠ name))
              (set_triggers (filter (λ p, p.1.2 ≠ name)) s));
            pg_rows := λ n, if String.eqb n name then [] else pg_rows db n |}
  | DropType name =>
      if existsb (λ t, existsb (λ c, match c_type c with ENUM e => String.eqb e name | _ => false end)
                         (tb_cols t.2)) (s_tables s)
      then Err (still_used name) else ok (set_types (without name) s)
  end.

Fixpoint exec_stmts (l : list stmt) (db : Pg) : result Pg :=
  match l with
  | [] => Ok db
  | q :: l' => match exec_stmt q db with Err e => Err e | Ok db' => exec_stmts l' db' end
  end.

(** A migration runs in a transaction: all of its statements or none. *)
Record Migration := { m_Id : string; m_Up : list stmt }.
Definition exec_migration (m : Migration) (db : Pg) : result Pg := exec_stmts (m_Up m) db.
Fixpoint exec_migrations (l : list Migration) (db : Pg) : result Pg :=
  match l with
  | [] => Ok db
  | m :: l' => match exec_migration m db with Err e => Err e | Ok db' => exec_migrations l' db' end
  end.

(** ** The migrations *)
Definition plain_index (name table col : string) : stmt :=
  CreateIndex true name {| ix_table := table; ix_cols := [col]; ix_unique := false; ix_live := false |}.

Definition Get202009171251 : Migration :=
  {| m_Id := "202009171251-init-database";
     m_Up :=
       [CreateTable "hardware"
          [Col "id" UUID [Unique]; Col "inserted_at" TIMESTAMPTZ []; Col "deleted_at" TIMESTAMPTZ [];
           Col "data" JSONB []] [];
        plain_index "idx_id" "hardware" "id";
        plain_index "idx_deleted_at" "hardware" "deleted_at";
        plain_index "idxgin_type" "hardware" "data";
        CreateTable "template"
          [Col "id" UUID [Unique; NotNull]; Col "name" (VARCHAR 200) [Unique; NotNull];
           Col "created_at" TIMESTAMPTZ []; Col "updated_at" TIMESTAMPTZ [];
           Col "deleted_at" TIMESTAMPTZ []; Col "data" BYTEA []]
          [("ck_name", CCheckName "name")];
        plain_index "idx_tid" "template" "id";
        plain_index "idx_tdeleted_at" "template" "deleted_at";
        CreateTable "workflow"
          [Col "id" UUID [Unique; NotNull]; Col "template" UUID [NotNull];
           Col "devices" JSONB [NotNull]; Col "created_at" TIMESTAMPTZ [];
           Col "updated_at" TIMESTAMPTZ []; Col "deleted_at" TIMESTAMPTZ []] [];
        plain_index "idx_wid" "workflow" "id";
        plain_index "idx_wdeleted_at" "workflow" "deleted_at";
        CreateTable "workflow_state"
          [Col "workflow_id" UUID [Unique; NotNull]; Col "current_task_name" (VARCHAR 200) [];
           Col "current_action_name" (VARCHAR 200) []; Col "current_action_state" SMALLINT [];
           Col "current_worker" (VARCHAR 200) []; Col "action_list" JSONB [];
           Col "current_action_index" INT []; Col "total_number_of_actions" INT []] [];
        plain_index "idx_wfid" "workflow_state" "workflow_id";
        CreateTable "workflow_event"
          [Col "workflow_id" UUID [NotNull]; Col "worker_id" UUID [NotNull];
           Col "task_name" (VARCHAR 200) []; Col "action_name" (VARCHAR 200) [];
           Col "execution_time" INT []; Col "message" (VARCHAR 200) []; Col "status" SMALLINT [];
           Col "created_at" TIMESTAMPTZ []] [];
        plain_index "idx_event" "workflow_event" "created_at";
        CreateTable "workflow_worker_map"
          [Col "workflow_id" UUID [NotNull]; Col "worker_id" UUID [NotNull]] [];
        CreateTable "workflow_data"
          [Col "workflow_id" UUID [NotNull]; Col "version" INT []; Col "metadata" JSONB [];
           Col "data" JSONB []] []] |}.

(** The function, and its trigger, for the events of one table. *)
Definition event_trigger (table resource : string) : list stmt :=
  [CreateFunction ("insert_" +:+ table +:+ "_event") (FEvent resource);
   DropTrigger (table +:+ "_event_trigger") table;
   CreateTrigger (table +:+ "_event_trigger") table
     {| tg_on_update := true; tg_fn := "insert_" +:+ table +:+ "_event" |}].

Definition Get202010071530 : Migration :=
  {| m_Id := "202010071530-init-events-table-and-triggers";
     m_Up :=
       [CreateExtension "uuid-ossp";
        CreateEnum "resource_type" ["HARDWARE"; "TEMPLATE"; "WORKFLOW"];
        CreateEnum "event_type" ["CREATED"; "UPDATED"; "DELETED"];
        CreateTable "events"
          [Col "id" UUID [Unique; DefaultUuid]; Col "resource_id" UUID [NotNull];
           Col "resource_type" (ENUM "resource_type") [NotNull];
           Col "event_type" (ENUM "event_type") [NotNull];
           Col "created_at" TIMESTAMPTZ [PrimaryKey; DefaultNow]; Col "data" JSONB []] [];
        plain_index "idx_events_event_type" "events" "event_type";
        plain_index "idx_events_resource_id" "events" "resource_id";
        plain_index "idx_events_resource_type" "events" "resource_type";
        CreateFunction "events_notify_changes" (FNotify "events_channel");
        DropTrigger "events_channel" "events";
        CreateTrigger "events_channel" "events"
          {| tg_on_update := false; tg_fn := "events_notify_changes" |}] ++
       event_trigger "hardware" "HARDWARE" ++ event_trigger "template" "TEMPLATE" ++
       event_trigger "workflow" "WORKFLOW" |}.

Definition Get202010221010 : Migration :=
  {| m_Id := "202010221010-add-unique-index";
     m_Up := [CreateIndex true "uidx_workflow_worker_map"
                {| ix_table := "workflow_worker_map"; ix_cols := ["workflow_id"; "worker_id"];
                   ix_unique := true; ix_live := false |}] |}.

Definition Get202012041103 : Migration :=
  {| m_Id := "202012041103-template-with-same-name-are-acceptable";
     m_Up := [DropConstraint "template" "template_name_key"] |}.

Definition Get202012091055 : Migration :=
  {| m_Id := "202012091055-add-partial-unique-constraint-on-template";
     m_Up := [CreateIndex false "uidx_template_name"
                {| ix_table := "template"; ix_cols := ["name"]; ix_unique := true; ix_live := true |}] |}.

Definition Get2020121691335 : Migration :=
  {| m_Id := "2020121691335-update-events-primary-key";
     m_Up := [DropConstraint "events" "events_pkey"; AddPrimaryKey "events" ["id"];
              plain_index "idx_events_created_at" "events" "created_at"] |}.

Definition Get2021032610300 : Migration :=
  {| m_Id := "2021032610300-drop-events-system";
     m_Up := [DropTableCascade "events"; DropTrigger "events_channel" "events";
              DropTrigger "hardware_event_trigger" "hardware";
              DropTrigger "template_event_trigger" "template";
              DropTrigger "workflow_event_trigger" "workflow";
              DropType "resource_type"; DropType "event_type"] |}.

Definition migrations : list Migration :=
  [Get202009171251; Get202010071530; Get202010221010; Get202012041103; Get202012091055;
   Get2020121691335; Get2021032610300].
Definition GetMigrations : list Migration := migrations.

(** The schema after the first [k] migrations of an empty database. *)
Definition empty_pg : Pg := {| pg_schema := empty_schema; pg_rows := λ _, [] |}.
Definition schema_at (k : nat) : Schema :=
  match exec_migrations (take k GetMigrations) empty_pg with
  | Ok db => pg_schema db
  | Err _ => empty_schema
  end.

Example all_migrations_run :
  match exec_migrations GetMigrations empty_pg with
  | Ok db => fst <$> s_tables (pg_schema db)
  | Err e => []
  end = ["hardware"; "template"; "workflow"; "workflow_state"; "workflow_event";
         "workflow_worker_map"; "workflow_data"].
Proof. vm_compute. reflexivity. Qed.

(** ** Triggers *)
Inductive effect := EEvent (resource type : string) | ENotified (channel : string).

(** What the triggers of a table do after a row was inserted or updated; a row that
    is inserted into events fires the triggers of events. *)
Definition run_fn (s : Schema) (is_insert : bool) (r : row) (f : fn) : list effect :=
  match f with
  | FNotify c => [ENotified c]
  | FEvent resource =>
      EEvent resource (if is_insert then "CREATED"
                       else if bool_decide (live r) then "UPDATED" else "DELETED") ::
      (filter (λ p, p.1.2 = "events") (s_triggers s) ≫= λ p,
         match assoc (tg_fn p.2) (s_fns s) with Some (FNotify c) => [ENotified c] | _ => [] end)
  end.
Definition fire (s : Schema) (table : string) (is_insert : bool) (r : row) : list effect :=
  filter (λ p, p.1.2 = table ∧ (is_insert = true ∨ tg_on_update p.2 = true)) (s_triggers s) ≫= λ p,
    match assoc (tg_fn p.2) (s_fns s) with Some f => run_fn s is_insert r f | None => [] end.

Example event_of_deleted_template :
  fire (schema_at 6) "template" false [("deleted_at", VNum 1)] =
    [EEvent "TEMPLATE" "DELETED"; ENotified "events_channel"].
Proof. vm_compute. reflexivity. Qed.

(** ** What a schema demands of the rows *)
Section rows.
Context `{DE : DbEnv}.

Definition value_ok (s : Schema) (ct : col_type) (v : sqlval) : Prop :=
  match ct, v with
  | _, VNull => True
  | UUID, VText x => uuid_text x
  | JSONB, VText x => jsonb_text x
  | JSONB, VActions _ => True
  | VARCHAR n, VText x => strlen x ≤ n
  | BYTEA, VText _ => True
  | TIMESTAMPTZ, VNum _ => True
  | SMALLINT, VNum z => in_smallint z = true
  | INT, VNum z => in_int4 z = true
  | ENUM e, VText x => x ∈ default [] (assoc e (s_types s))
  | _, _ => False
  end.

Fixpoint columns_ok (s : Schema) (cols : list column) (r : row) : Prop :=
  match cols, r with
  | [], [] => True
  | c :: cols', (n, v) :: r' =>
      n = c_name c ∧ value_ok s (c_type c) v ∧ (c_notnull c = true → v ≠ VNull) ∧ columns_ok s cols' r'
  | _, _ => False
  end.

Definition constr_ok (l : list row) (c : constr) : Prop :=
  match c with
  | CUnique cols => keys_unique cols l
  | CPrimary cols => keys_unique cols l
  | CCheckName col => Forall (λ r, match assoc col r with
                                   | Some (VText x) => ck_name x = true
                                   | Some VNull => True
                                   | _ => False end) l
  end.

Definition table_ok (s : Schema) (rows : Rows) (p : string * table) : Prop :=
  Forall (columns_ok s (tb_cols p.2)) (rows p.1) ∧
  Forall (λ c, constr_ok (rows p.1) c.2) (tb_constrs p.2).
Definition index_ok (rows : Rows) (ix : index) : Prop :=
  ix_unique ix = true → keys_unique (ix_cols ix) (index_rows ix (rows (ix_table ix))).
Definition schema_ok (s : Schema) (rows : Rows) : Prop :=
  Forall (table_ok s rows) (s_tables s) ∧ Forall (λ p, index_ok rows p.2) (s_indexes s).

#[global] Instance value_ok_dec s ct v : Decision (value_ok s ct v).
Proof. destruct ct, v; simpl; unfold uuid_text, jsonb_text; apply _. Defined.
#[global] Instance columns_ok_dec s cols r : Decision (columns_ok s cols r).
Proof. revert r. induction cols as [|c cols IH]; intros [|[n v] r]; simpl; apply _. Defined.
#[global] Instance constr_ok_dec l c : Decision (constr_ok l c).
Proof.
  destruct c; simpl; unfold keys_unique; try apply _. apply Forall_dec. intros r.
  destruct (assoc col r) as [[]|]; apply _.
Defined.
#[global] Instance schema_ok_dec s rows : Decision (schema_ok s rows).
Proof. unfold schema_ok, table_ok, index_ok, keys_unique. apply _. Defined.

(** *** The rows of the model *)
Definition opt_num (z : option Z) : sqlval := match z with Some z => VNum z | None => VNull end.
Definition opt_text (s : option string) : sqlval := match s with Some s => VText s | None => VNull end.

Definition hardware_row (p : string * HardwareRow) : row :=
  [("id", VText p.1); ("inserted_at", VNum (hr_inserted_at p.2));
   ("deleted_at", opt_num (hr_deleted_at p.2)); ("data", VText (hr_data p.2))].
Definition template_row (p : string * TemplateRow) : row :=
  [("id", VText p.1); ("name", VText (tr_name p.2)); ("created_at", VNum (tr_created_at p.2));
   ("updated_at", VNum (tr_updated_at p.2)); ("deleted_at", opt_num (tr_deleted_at p.2));
   ("data", VText (tr_data p.2))].
Definition workflow_row (p : string * WorkflowRow) : row :=
  [("id", VText p.1); ("template", VText (wr_template p.2)); ("devices", VText (wr_devices p.2));
   ("created_at", VNum (wr_created_at p.2)); ("updated_at", VNum (wr_updated_at p.2));
   ("deleted_at", opt_num (wr_deleted_at p.2))].
Definition state_row (p : string * StateRow) : row :=
  [("workflow_id", VText p.1); ("current_task_name", VText (sr_current_task_name p.2));
   ("current_action_name", VText (sr_current_action_name p.2));
   ("current_action_state", VNum (sr_current_action_state p.2));
   ("current_worker", VText (sr_current_worker p.2)); ("action_list", VActions (sr_action_list p.2));
   ("current_action_index", VNum (sr_current_action_index p.2));
   ("total_number_of_actions", VNum (sr_total_number_of_actions p.2))].
Definition event_row (r : EventRow) : row :=
  [("workflow_id", VText (er_workflow_id r)); ("worker_id", VText (er_worker_id r));
   ("task_name", VText (er_task_name r)); ("action_name", VText (er_action_name r));
   ("execution_time", VNum (er_execution_time r)); ("message", VText (er_message r));
   ("status", VNum (er_status r)); ("created_at", VNum (er_created_at r))].
Definition map_row (p : string * string) : row :=
  [("workflow_id", VText p.1); ("worker_id", VText p.2)].
Definition data_row (r : DataRow) : row :=
  [("workflow_id", VText (dr_workflow_id r)); ("version", VNum (dr_version r));
   ("metadata", VText (dr_metadata r)); ("data", opt_text (dr_data r))].

Definition rows_of (t : Tables) : Rows := λ name,
  default [] (assoc name
    [("hardware", hardware_row <$> map_to_list (t_hardware t));
     ("template", template_row <$> map_to_list (t_template t));
     ("workflow", workflow_row <$> map_to_list (t_workflow t));
     ("workflow_state", state_row <$> map_to_list (t_state t));
     ("workflow_event", event_row <$> t_event t);
     ("workflow_worker_map", map_row <$> elements (t_worker_map t));
     ("workflow_data", data_row <$> t_data t)]).

(** *** Lemmas *)
Lemma keys_unique_fmap {A} (enc : A → row) cols (f : A → list sqlval) (l : list A) :
  (∀ a, key_of cols (enc a) = Some (f a)) → keys_unique cols (enc <$> l) ↔ NoDup (f <$> l).
Proof.
  intros Hk. unfold keys_unique. assert (omap (key_of cols) (enc <$> l) = f <$> l) as ->; [|done].
  induction l as [|a l IH]; [done|]. csimpl. by rewrite Hk, IH.
Qed.

Lemma map_keys_unique {A} (enc : string * A → row) col (m : gmap string A) :
  (∀ p, key_of [col] (enc p) = Some [VText p.1]) → keys_unique [col] (enc <$> map_to_list m).
Proof.
  intros Hk. apply (keys_unique_fmap enc [col] (λ p, [VText p.1])); [done|].
  apply (NoDup_fmap_1 (λ k, match k with [VText s] => s | _ => "" end)).
  rewrite <- list_fmap_compose. apply NoDup_fst_map_to_list.
Qed.

Lemma map_rows_ok {A} (P : row → Prop) (enc : string * A → row) (Q : string → A → Prop) (m : gmap string A) :
  (∀ id a, P (enc (id, a)) ↔ Q id a) → Forall P (enc <$> map_to_list m) ↔ map_Forall Q m.
Proof.
  intros H. rewrite Forall_fmap, map_Forall_to_list. apply Forall_iff. intros [id a]. apply H.
Qed.
Lemma list_rows_ok {A} (P : row → Prop) (enc : A → row) (Q : A → Prop) (l : list A) :
  (∀ a, P (enc a) ↔ Q a) → Forall P (enc <$> l) ↔ Forall Q l.
Proof. intros H. rewrite Forall_fmap. apply Forall_iff. intros a. apply H. Qed.

Lemma names_unique_rows (m : gmap string TemplateRow) :
  keys_unique ["name"] (filter live (template_row <$> map_to_list m)) ↔ names_unique m.
Proof.
  assert (filter live (template_row <$> map_to_list m) =
    template_row <$> filter (λ p, tr_deleted_at p.2 = None) (map_to_list m)) as ->.
  { induction (map_to_list m) as [|[id r] l IH]; [done|]. csimpl. rewrite !filter_cons, IH.
    assert (live (template_row (id, r)) ↔ tr_deleted_at r = None) as Hl.
    { unfold live. simpl. by destruct (tr_deleted_at r). }
    destruct (decide (live (template_row (id, r)))) as [E|E]; rewrite Hl in E;
      [by rewrite decide_True by done|by rewrite decide_False by done]. }
  rewrite (keys_unique_fmap template_row ["name"] (λ p, [VText (tr_name p.2)])) by done.
  set (l := filter _ _). assert (NoDup l) as Hnd by apply NoDup_filter, NoDup_map_to_list.
  assert (∀ id r, (id, r) ∈ l ↔ tr_deleted_at r = None ∧ m !! id = Some r) as Hl.
  { intros id r. unfold l. by rewrite list_elem_of_filter, elem_of_map_to_list. }
  split.
  - intros Hk id1 id2 r1 r2 H1 H2 Hd1 Hd2 Hn.
    assert ((id1, r1) ∈ l) as [i Hi]%list_elem_of_lookup by by apply Hl.
    assert ((id2, r2) ∈ l) as [j Hj]%list_elem_of_lookup by by apply Hl.
    assert (i = j) as ->.
    { eapply (NoDup_lookup _ _ _ [VText (tr_name r1)] Hk).
      - by rewrite list_lookup_fmap, Hi.
      - rewrite list_lookup_fmap, Hj. simpl. by rewrite Hn. }
    by simplify_eq.
  - intros Hu. apply NoDup_fmap_2_strong; [|done].
    intros [id1 r1] [id2 r2] [Hd1 H1]%Hl [Hd2 H2]%Hl [= Hn]. simpl in Hn.
    assert (id1 = id2) as -> by by eapply Hu. by simplify_eq.
Qed.
End rows.

(** ** The schema of the program *)
Definition final_schema : Schema := Eval vm_compute in schema_at 7.
Lemma final_schema_at : schema_at 7 = final_schema.
Proof. vm_compute. reflexivity. Qed.

Section final.
Context `{DE : DbEnv}.

(** The rows of the tables have the columns of the schema exactly when they are
    typed. *)
Definition cols_at (name : string) : list column :=
  from_option tb_cols [] (assoc name (s_tables final_schema)).

Ltac columns := intros; simpl; unfold uuid_text, jsonb_text, varchar200; rewrite ?bool_decide_eq_true;
  repeat match goal with |- context [opt_num ?o] => destruct o; simpl end;
  split; intros; destruct_and?; split_and?; done.

Lemma hardware_columns m :
  Forall (columns_ok final_schema (cols_at "hardware")) (hardware_row <$> map_to_list m) ↔
  map_Forall hardware_typed m.
Proof. apply map_rows_ok. unfold hardware_typed. columns. Qed.
Lemma template_columns m :
  Forall (columns_ok final_schema (cols_at "template")) (template_row <$> map_to_list m) ↔
  map_Forall (λ id r, uuid_text id ∧ varchar200 (tr_name r) = true) m.
Proof. apply map_rows_ok. columns. Qed.
Lemma workflow_columns m :
  Forall (columns_ok final_schema (cols_at "workflow")) (workflow_row <$> map_to_list m) ↔
  map_Forall workflow_typed m.
Proof. apply map_rows_ok. unfold workflow_typed. columns. Qed.
Lemma state_columns m :
  Forall (columns_ok final_schema (cols_at "workflow_state")) (state_row <$> map_to_list m) ↔
  map_Forall state_typed m.
Proof. apply map_rows_ok. unfold state_typed. columns. Qed.
Lemma event_columns l :
  Forall (columns_ok final_schema (cols_at "workflow_event")) (event_row <$> l) ↔ Forall event_typed l.
Proof. apply list_rows_ok. unfold event_typed. columns. Qed.
Lemma data_columns l :
  Forall (columns_ok final_schema (cols_at "workflow_data")) (data_row <$> l) ↔ Forall data_typed l.
Proof. apply list_rows_ok. unfold data_typed. intros [w v md [d|]]; columns. Qed.
Lemma worker_map_columns (X : gset (string * string)) :
  Forall (columns_ok final_schema (cols_at "workflow_worker_map")) (map_row <$> elements X) ↔
  set_Forall (λ p, uuid_text p.1 ∧ uuid_text p.2) X.
Proof.
  rewrite set_Forall_elements. apply list_rows_ok. columns.
Qed.
Lemma template_checks m :
  Forall (λ r, match assoc "name" r with
               | Some (VText x) => ck_name x = true
               | Some VNull => True
               | _ => False end) (template_row <$> map_to_list m) ↔
  map_Forall (λ _ r, ck_name (tr_name r) = true) m.
Proof. by apply map_rows_ok. Qed.

(** The schema, by table. *)
Definition table_at (name : string) (cs : list (string * constr)) : string * table :=
  (name, {| tb_cols := cols_at name; tb_constrs := cs |}).
Definition final_tables : list (string * table) :=
  [table_at "hardware" [("hardware_id_key", CUnique ["id"])];
   table_at "template" [("template_id_key", CUnique ["id"]); ("ck_name", CCheckName "name")];
   table_at "workflow" [("workflow_id_key", CUnique ["id"])];
   table_at "workflow_state" [("workflow_state_workflow_id_key", CUnique ["workflow_id"])];
   table_at "workflow_event" []; table_at "workflow_worker_map" []; table_at "workflow_data" []].
Definition unique_indexes : list index :=
  [{| ix_table := "workflow_worker_map"; ix_cols := ["workflow_id"; "worker_id"];
      ix_unique := true; ix_live := false |};
   {| ix_table := "template"; ix_cols := ["name"]; ix_unique := true; ix_live := true |}].

Lemma final_indexes rows :
  Forall (λ p, index_ok rows p.2) (s_indexes final_schema) ↔ Forall (index_ok rows) unique_indexes.
Proof.
  unfold final_schema, unique_indexes. cbn [s_indexes]. rewrite !Forall_cons, !Forall_nil.
  cbn [snd]. unfold index_ok. cbn [ix_unique]. intuition congruence.
Qed.

Lemma worker_map_unique (X : gset (string * string)) :
  keys_unique ["workflow_id"; "worker_id"] (map_row <$> elements X).
Proof.
  apply (keys_unique_fmap map_row _ (λ p, [VText p.1; VText p.2])); [done|].
  apply NoDup_fmap_2; [|apply NoDup_elements]. intros [a b] [c d] [= -> ->]. done.
Qed.

Lemma schema_ok_typed t : schema_ok final_schema (rows_of t) ↔ typed t.
Proof.
  unfold schema_ok. rewrite final_indexes. change (s_tables final_schema) with final_tables.
  unfold final_tables, unique_indexes. rewrite !Forall_cons, !Forall_nil.
  unfold table_ok, table_at, index_ok. cbn [fst snd tb_cols tb_constrs ix_unique ix_cols ix_table].
  rewrite !Forall_cons, !Forall_nil. cbn [snd constr_ok]. unfold index_rows. cbn [ix_live].
  change (rows_of t "hardware") with (hardware_row <$> map_to_list (t_hardware t)).
  change (rows_of t "template") with (template_row <$> map_to_list (t_template t)).
  change (rows_of t "workflow") with (workflow_row <$> map_to_list (t_workflow t)).
  change (rows_of t "workflow_state") with (state_row <$> map_to_list (t_state t)).
  change (rows_of t "workflow_event") with (event_row <$> t_event t).
  change (rows_of t "workflow_worker_map") with (map_row <$> elements (t_worker_map t)).
  change (rows_of t "workflow_data") with (data_row <$> t_data t).
  rewrite hardware_columns, template_columns, workflow_columns, state_columns, event_columns,
    data_columns, worker_map_columns, template_checks, names_unique_rows.
  split.
  - intros ((Hhw & (Htc & _ & Hck & _) & (Hwf & _) & (Hst & _) & (Hev & _) & (Hwm & _) & (Hd & _) & _) &
      _ & Hn & _).
    split; try done; [by destruct Hhw| |by apply Hn].
    intros id r Hr. destruct (Htc _ _ Hr) as [Hu Hv]. by split; [|split; [|by eapply Hck]].
  - intros [Hhw Ht Hn Hwf Hst Hev Hwm Hd].
    split_and!; try done; try (by apply map_keys_unique); try (intros _; apply worker_map_unique).
    + intros id r Hr. destruct (Ht _ _ Hr) as [Hu [Hv _]]. done.
    + intros id r Hr. by destruct (Ht _ _ Hr) as [_ [_ Hc]].
Qed.
End final.

(** ** Statements preserve what the schema demands *)
Lemma assoc_elem {A} k (l : list (string * A)) a : assoc k l = Some a → (k, a) ∈ l.
Proof.
  induction l as [|[k' a'] l IH]; simpl; [done|]. destruct (String.eqb_spec k' k) as [->|];
    intros; simplify_eq; [left|right]; auto.
Qed.
Lemma assoc_none {A} k (l : list (string * A)) : assoc k l = None → Forall (λ p, p.1 ≠ k) l.
Proof.
  induction l as [|[k' a'] l IH]; simpl; [by constructor|].
  destruct (String.eqb_spec k' k); intros; simplify_eq; constructor; auto.
Qed.
Lemma assoc_app {A} k (l l' : list (string * A)) :
  assoc k (l ++ l') = match assoc k l with Some a => Some a | None => assoc k l' end.
Proof. induction l as [|[k' a'] l IH]; simpl; [done|]. by destruct (String.eqb k' k). Qed.

Lemma assoc_without {A} k k' (l : list (string * A)) : k ≠ k' → assoc k (without k' l) = assoc k l.
Proof.
  intros Hk. induction l as [|[k1 a] l IH]; [done|]. unfold without in *. rewrite filter_cons. simpl.
  case_decide as H; simpl in *; rewrite IH; [done|]. subst k1.
  by rewrite (proj2 (String.eqb_neq k' k)) by done.
Qed.

Section preserved.
Context `{DE : DbEnv}.

(** The labels of every type that a column of the table has are kept. *)
Definition labels (s : Schema) (e : string) : list string := default [] (assoc e (s_types s)).
Definition labels_kept (s s' : Schema) (t : table) : Prop :=
  Forall (λ c, ∀ e, c_type c = ENUM e → labels s e ⊆ labels s' e) (tb_cols t).

Lemma columns_ok_mono s s' cols r :
  Forall (λ c, ∀ e, c_type c = ENUM e → labels s e ⊆ labels s' e) cols →
  columns_ok s cols r → columns_ok s' cols r.
Proof.
  intros Hc. revert r. induction Hc as [|c cols Hc _ IH]; intros [|[n v] r]; simpl; try done.
  intros (-> & Hv & Hn & Hr). split_and!; auto.
  destruct (c_type c), v; simpl in *; try done. by eapply Hc.
Qed.

Lemma table_ok_kept s s' rows rows' p :
  labels_kept s s' p.2 → rows' p.1 = rows p.1 → table_ok s rows p → table_ok s' rows' p.
Proof.
  intros Hl Hr [Hc Hk]. split; rewrite Hr; [|done].
  eapply Forall_impl; [done|]. intros r. by apply columns_ok_mono.
Qed.
Lemma index_ok_kept rows rows' ix :
  rows' (ix_table ix) = rows (ix_table ix) ∨ rows' (ix_table ix) = [] →
  index_ok rows ix → index_ok rows' ix.
Proof.
  intros [Hr|Hr] Hi Hu; unfold index_rows; rewrite Hr; [by apply Hi|].
  destruct (ix_live ix); constructor.
Qed.
Lemma labels_same s s' t : s_types s = s_types s' → labels_kept s s' t.
Proof. intros Ht. apply Forall_forall. intros c _ e _. unfold labels. by rewrite Ht. Qed.

(** The tables and indexes after a statement: each is one of before, or is fine. *)
Lemma schema_ok_from s s' rows rows' :
  schema_ok s rows →
  (∀ p, p ∈ s_tables s' →
     (p ∈ s_tables s ∧ labels_kept s s' p.2 ∧ rows' p.1 = rows p.1) ∨ table_ok s' rows' p) →
  (∀ p, p ∈ s_indexes s' →
     (p ∈ s_indexes s ∧ (rows' (ix_table p.2) = rows (ix_table p.2) ∨ rows' (ix_table p.2) = [])) ∨
     index_ok rows' p.2) →
  schema_ok s' rows'.
Proof.
  intros [Ht Hi] Ht' Hi'. rewrite Forall_forall in Ht. rewrite Forall_forall in Hi.
  split; apply Forall_forall; intros p Hp.
  - destruct (Ht' _ Hp) as [(? & ? & ?)|?]; [|done]. eapply table_ok_kept; eauto.
  - destruct (Hi' _ Hp) as [(? & ?)|?]; [|done]. eapply index_ok_kept; eauto.
Qed.

Lemma required_columns s cols l r :
  no_null cols r → columns_ok s l r →
  columns_ok s ((λ c, if bool_decide (c_name c ∈ cols) then
                        {| c_name := c_name c; c_type := c_type c; c_notnull := true;
                           c_default := c_default c |} else c) <$> l) r.
Proof.
  intros Hn. revert l. induction Hn as [|[n v] r Hv _ IH]; intros [|c l]; simpl; try done.
  intros (-> & Hty & Hnn & Hr). case_bool_decide; simpl; split_and!; auto.
Qed.

(** A table with a new definition. *)
Lemma replaced_table s k t' p :
  p ∈ replace_at k t' (s_tables s) → (p ∈ s_tables s) ∨ p = (k, t').
Proof.
  intros ([k' t] & -> & Hp)%list_elem_of_fmap. simpl. destruct (String.eqb k' k); auto.
Qed.

Lemma schema_ok_table s rows k t : schema_ok s rows → assoc k (s_tables s) = Some t → table_ok s rows (k, t).
Proof. intros [Ht _] Hk. rewrite Forall_forall in Ht. by apply Ht, assoc_elem. Qed.
Lemma schema_ok_replace s rows k t' :
  schema_ok s rows → table_ok s rows (k, t') → schema_ok (set_tables (replace_at k t') s) rows.
Proof.
  intros Hok Ht. apply (schema_ok_from s _ rows); [done| |]; intros p; simpl; [|by auto].
  intros [Hp| ->]%replaced_table; [left|right; by apply (table_ok_kept s _ rows); [apply labels_same|..]].
  split_and!; [done|by apply labels_same|done].
Qed.

Lemma exec_stmt_preserves q db db' :
  exec_stmt q db = Ok db' → schema_ok (pg_schema db) (pg_rows db) →
  schema_ok (pg_schema db') (pg_rows db').
Proof.
  destruct db as [s rows]. intros Hq Hok.
  assert (∀ s', s_tables s' = s_tables s → s_indexes s' = s_indexes s → s_types s' = s_types s →
    schema_ok s' rows) as Hsame.
  { intros s' Ht Hi Hy. apply (schema_ok_from s s' rows rows); [done| |]; intros p.
    - rewrite Ht. left. split_and!; [done|by apply labels_same|done].
    - rewrite Hi. auto. }
  destruct q; simpl in Hq; repeat case_match; simplify_eq; simpl; auto.
  - apply (schema_ok_from s _ rows); [done| |]; intros p; simpl.
    + intros [Hp|Hp]%elem_of_app.
      * left. split_and!; [done|by apply labels_same|].
        apply assoc_none in H. rewrite Forall_forall in H. apply H in Hp.
        by apply String.eqb_neq in Hp as ->.
      * right. apply list_elem_of_singleton in Hp as ->. split; simpl; rewrite String.eqb_refl; [done|].
        apply Forall_forall. intros [n []] _; simpl; constructor.
    + intros Hp. left. destruct (String.eqb _ name); auto.
  - apply (schema_ok_from s _ rows); [done| |]; intros p; simpl.
    + left. split_and!; [done|by apply labels_same|done].
    + intros [Hp|Hp]%elem_of_app; [by auto|]. apply list_elem_of_singleton in Hp as ->. by right.
  - apply (schema_ok_from s _ rows); [done| |]; intros p; simpl; [|by auto].
    left. split_and!; [done| |done]. apply Forall_forall. intros c _ e _ x.
    unfold labels, set_types. simpl. rewrite assoc_app. destruct (assoc e (s_types s)); set_solver.
  - apply schema_ok_replace; [done|]. pose proof (schema_ok_table _ _ _ _ Hok H) as [Hc Hk].
    split; [done|]. simpl in *. apply Forall_forall. intros x [_ Hx]%list_elem_of_filter.
    rewrite Forall_forall in Hk. by apply Hk.
  - apply schema_ok_replace; [done|]. pose proof (schema_ok_table _ _ _ _ Hok H) as [Hc Hk]. simpl in *.
    split; simpl; [|by apply Forall_app_2; [|by repeat constructor]].
    match goal with Hn : Forall (no_null _) _ |- _ => pose proof Hn as Hnull end. revert Hnull Hc. rewrite !Forall_forall.
    intros Hn Hc r Hr. by apply required_columns; [apply Hn|apply Hc].
  - apply (schema_ok_from s _ rows); [done| |]; intros p; simpl.
    + intros [Hp ?]%list_elem_of_filter. left. split_and!; [done|by apply labels_same|].
      by apply String.eqb_neq in Hp as ->.
    + intros [Hp ?]%list_elem_of_filter. left. split; [done|]. destruct (String.eqb _ name); auto.
  - apply (schema_ok_from s _ rows); [done| |]; intros p; simpl; [|by auto].
    intros Hp. left. split_and!; [done| |done]. apply Forall_forall. intros c Hc e He.
    unfold labels. simpl. rewrite assoc_without; [done|]. intros ->.
    match goal with Hx : existsb _ _ = false |- _ => revert Hx end. apply not_false_iff_true.
    apply existsb_exists. exists p. split; [by apply list_elem_of_In|].
    apply existsb_exists. exists c. split; [by apply list_elem_of_In|]. by rewrite He, String.eqb_refl.
Qed.
End preserved.

(** ** Migrating a database with rows *)

(** What makes an upgrade from the version [k] fail. *)
Definition blocked (k : nat) (rows : Rows) : Prop :=
  ((1 ≤ k ≤ 2)%nat ∧ ¬ keys_unique ["workflow_id"; "worker_id"] (rows "workflow_worker_map")) ∨
  (k = 4%nat ∧ ¬ keys_unique ["name"] (filter live (rows "template"))) ∨
  ((2 ≤ k ≤ 5)%nat ∧ ¬ Forall (no_null ["id"]) (rows "events")).

(** The rows of the tables, but for the events, are kept. *)
Definition rows_kept (s : Schema) (rows rows' : Rows) : Prop :=
  ∀ n, n ≠ "events" → is_Some (assoc n (s_tables s)) → rows' n = rows n.

Definition no_events (rows : Rows) : Rows := λ n, if String.eqb n "events" then [] else rows n.

Lemma create_unique_index ine name ix s rows :
  assoc name (s_indexes s) = None → is_Some (assoc (ix_table ix) (s_tables s)) → ix_unique ix = true →
  exec_stmt (CreateIndex ine name ix) {| pg_schema := s; pg_rows := rows |} =
    if decide (keys_unique (ix_cols ix) (index_rows ix (rows (ix_table ix))))
    then Ok {| pg_schema := set_indexes (.++ [(name, ix)]) s; pg_rows := rows |}
    else Err (not_unique name).
Proof.
  intros Hn [t Ht] Hu. simpl. rewrite Hn, Ht.
  destruct (decide (keys_unique _ _)); [rewrite decide_True by done|rewrite decide_False by tauto]; done.
Qed.

Lemma pg_eq s s' rows :
  s = s' → @Ok Pg {| pg_schema := s; pg_rows := rows |} = Ok {| pg_schema := s'; pg_rows := rows |}.
Proof. by intros ->. Qed.

Ltac by_compute := vm_compute; first [reflexivity | eexists; reflexivity].

Lemma step_0 rows :
  ∃ rows', exec_migration Get202009171251 {| pg_schema := schema_at 0; pg_rows := rows |} =
    Ok {| pg_schema := schema_at 1; pg_rows := rows' |} ∧
    rows' "workflow_worker_map" = [] ∧ rows' "template" = [].
Proof. eexists. split; [lazy; reflexivity|done]. Qed.

Lemma step_1 rows :
  exec_migration Get202010071530 {| pg_schema := schema_at 1; pg_rows := rows |} =
    Ok {| pg_schema := schema_at 2; pg_rows := no_events rows |}.
Proof. lazy. reflexivity. Qed.

Lemma step_2 rows :
  exec_migration Get202010221010 {| pg_schema := schema_at 2; pg_rows := rows |} =
    if decide (keys_unique ["workflow_id"; "worker_id"] (rows "workflow_worker_map"))
    then Ok {| pg_schema := schema_at 3; pg_rows := rows |}
    else Err (not_unique "uidx_workflow_worker_map").
Proof.
  unfold exec_migration, Get202010221010, m_Up, exec_stmts.
  rewrite (create_unique_index true "uidx_workflow_worker_map" _ (schema_at 2) rows); [|by_compute..].
  unfold index_rows. cbn [ix_live ix_cols ix_table]. case_decide; [apply pg_eq; by_compute|done].
Qed.

Lemma step_3 rows :
  exec_migration Get202012041103 {| pg_schema := schema_at 3; pg_rows := rows |} =
    Ok {| pg_schema := schema_at 4; pg_rows := rows |}.
Proof. lazy. reflexivity. Qed.

Lemma step_4 rows :
  exec_migration Get202012091055 {| pg_schema := schema_at 4; pg_rows := rows |} =
    if decide (keys_unique ["name"] (filter live (rows "template")))
    then Ok {| pg_schema := schema_at 5; pg_rows := rows |}
    else Err (not_unique "uidx_template_name").
Proof.
  unfold exec_migration, Get202012091055, m_Up, exec_stmts.
  rewrite (create_unique_index false "uidx_template_name" _ (schema_at 4) rows); [|by_compute..].
  unfold index_rows. cbn [ix_live ix_cols ix_table]. case_decide; [apply pg_eq; by_compute|done].
Qed.

Lemma add_primary_key table cols s rows t :
  assoc table (s_tables s) = Some t → keys_unique cols (rows table) →
  exec_stmt (AddPrimaryKey table cols) {| pg_schema := s; pg_rows := rows |} =
    if decide (Forall (no_null cols) (rows table)) then
      Ok {| pg_schema := set_tables (replace_at table
              {| tb_cols := tb_cols (require_not_null cols t);
                 tb_constrs := tb_constrs t ++ [(table +:+ "_pkey", CPrimary cols)] |}) s;
            pg_rows := rows |}
    else Err null_values.
Proof. intros Ht Hu. simpl. rewrite Ht. case_decide; [|done]. by rewrite decide_True. Qed.

Lemma step_5 rows :
  keys_unique ["id"] (rows "events") →
  exec_migration Get2020121691335 {| pg_schema := schema_at 5; pg_rows := rows |} =
    if decide (Forall (no_null ["id"]) (rows "events"))
    then Ok {| pg_schema := schema_at 6; pg_rows := rows |} else Err null_values.
Proof.
  intros Hu. unfold exec_migration, Get2020121691335, m_Up.
  assert (∃ s t, exec_stmt (DropConstraint "events" "events_pkey") {| pg_schema := schema_at 5; pg_rows := rows |}
      = Ok {| pg_schema := s; pg_rows := rows |} ∧ assoc "events" (s_tables s) = Some t ∧
    exec_stmt (plain_index "idx_events_created_at" "events" "created_at") {|
      pg_schema := set_tables (replace_at "events"
              {| tb_cols := tb_cols (require_not_null ["id"] t);
                 tb_constrs := tb_constrs t ++ [("events" +:+ "_pkey", CPrimary ["id"])] |}) s;
            pg_rows := rows |} = Ok {| pg_schema := schema_at 6; pg_rows := rows |})
    as (s & t & Hd & Ht & Hi).
  { do 2 eexists. split; [lazy; reflexivity|]. split; lazy; reflexivity. }
  unfold exec_stmts. rewrite Hd, (add_primary_key _ _ _ _ _ Ht Hu).
  case_decide; [|done]. by rewrite Hi.
Qed.

Lemma step_6 rows :
  exec_migration Get2021032610300 {| pg_schema := schema_at 6; pg_rows := rows |} =
    Ok {| pg_schema := schema_at 7; pg_rows := no_events rows |}.
Proof. lazy. reflexivity. Qed.

(** *** All the migrations from a version on *)
Abbreviation upgrade k rows :=
  (exec_migrations (drop k GetMigrations) {| pg_schema := schema_at k; pg_rows := rows |}) (only parsing).
Abbreviation upgraded rows := (@Ok Pg {| pg_schema := schema_at 7; pg_rows := rows |}) (only parsing).

Lemma exec_migrations_cons m l db :
  exec_migrations (m :: l) db =
    match exec_migration m db with Err e => Err e | Ok db' => exec_migrations l db' end.
Proof. reflexivity. Qed.

Lemma upgrade_6 rows : upgrade 6%nat rows = upgraded (no_events rows).
Proof. change (drop 6 GetMigrations) with [Get2021032610300]. by rewrite exec_migrations_cons, step_6. Qed.
Lemma upgrade_5 rows :
  keys_unique ["id"] (rows "events") →
  upgrade 5%nat rows = if decide (Forall (no_null ["id"]) (rows "events")) then upgraded (no_events rows)
                       else Err null_values.
Proof.
  intros Hu. change (drop 5 GetMigrations) with (Get2020121691335 :: drop 6 GetMigrations).
  rewrite exec_migrations_cons, step_5 by done. case_decide; [apply upgrade_6|done].
Qed.
Lemma upgrade_4 rows :
  keys_unique ["id"] (rows "events") →
  upgrade 4%nat rows =
    if decide (keys_unique ["name"] (filter live (rows "template"))) then
      if decide (Forall (no_null ["id"]) (rows "events")) then upgraded (no_events rows)
      else Err null_values
    else Err (not_unique "uidx_template_name").
Proof.
  intros Hu. change (drop 4 GetMigrations) with (Get202012091055 :: drop 5 GetMigrations).
  rewrite exec_migrations_cons, step_4. case_decide; [by apply upgrade_5|done].
Qed.

Lemma keys_unique_filter cols (P : row → Prop) `{!∀ r, Decision (P r)} l :
  keys_unique cols l → keys_unique cols (filter P l).
Proof.
  unfold keys_unique. intros Hu. eapply sublist_NoDup; [exact Hu|]. clear Hu. induction l as [|r l IH]; [done|]. rewrite filter_cons. csimpl.
  case_decide; csimpl; destruct (key_of cols r); auto; by constructor.
Qed.

Lemma upgrade_3 rows :
  keys_unique ["id"] (rows "events") → keys_unique ["name"] (rows "template") →
  upgrade 3%nat rows = if decide (Forall (no_null ["id"]) (rows "events")) then upgraded (no_events rows)
                       else Err null_values.
Proof.
  intros Hu Hn. change (drop 3 GetMigrations) with (Get202012041103 :: drop 4 GetMigrations).
  rewrite exec_migrations_cons, step_3, upgrade_4 by done. by rewrite decide_True by by apply keys_unique_filter.
Qed.
Lemma upgrade_2 rows :
  keys_unique ["id"] (rows "events") → keys_unique ["name"] (rows "template") →
  upgrade 2%nat rows =
    if decide (keys_unique ["workflow_id"; "worker_id"] (rows "workflow_worker_map")) then
      if decide (Forall (no_null ["id"]) (rows "events")) then upgraded (no_events rows)
      else Err null_values
    else Err (not_unique "uidx_workflow_worker_map").
Proof.
  intros Hu Hn. change (drop 2 GetMigrations) with (Get202010221010 :: drop 3 GetMigrations).
  rewrite exec_migrations_cons, step_2. case_decide; [by apply upgrade_3|done].
Qed.
Lemma upgrade_1 rows :
  keys_unique ["name"] (rows "template") →
  upgrade 1%nat rows =
    if decide (keys_unique ["workflow_id"; "worker_id"] (rows "workflow_worker_map")) then
      upgraded (no_events (no_events rows))
    else Err (not_unique "uidx_workflow_worker_map").
Proof.
  intros Hn. change (drop 1 GetMigrations) with (Get202010071530 :: drop 2 GetMigrations).
  rewrite exec_migrations_cons, step_1, upgrade_2 by (done || constructor).
  change (no_events rows "workflow_worker_map") with (rows "workflow_worker_map").
  case_decide; [|done]. by rewrite decide_True by constructor.
Qed.
Lemma upgrade_0 rows : ∃ rows', upgrade 0%nat rows = upgraded rows'.
Proof.
  change (drop 0 GetMigrations) with (Get202009171251 :: drop 1 GetMigrations).
  destruct (step_0 rows) as (rows' & H & Hm & Ht). rewrite exec_migrations_cons, H, upgrade_1.
  - rewrite Hm, decide_True by constructor. by eexists.
  - rewrite Ht. constructor.
Qed.

(** ** Theorems *)
Section theorems.
Context `{DE : DbEnv}.

Lemma exec_stmts_preserves l db db' :
  exec_stmts l db = Ok db' → schema_ok (pg_schema db) (pg_rows db) →
  schema_ok (pg_schema db') (pg_rows db').
Proof.
  revert db. induction l as [|q l IH]; simpl; intros db Hq Hok; [by simplify_eq|].
  destruct (exec_stmt q db) eqn:H1; [|done]. by eapply IH, exec_stmt_preserves.
Qed.
Lemma exec_migrations_preserves l db db' :
  exec_migrations l db = Ok db' → schema_ok (pg_schema db) (pg_rows db) →
  schema_ok (pg_schema db') (pg_rows db').
Proof.
  revert db. induction l as [|m l IH]; simpl; intros db Hq Hok; [by simplify_eq|].
  destruct (exec_migration m db) eqn:H1; [|done]. by eapply IH, exec_stmts_preserves.
Qed.

Lemma schema_ok_constr s rows k name t c :
  schema_ok s rows → assoc k (s_tables s) = Some t → assoc name (tb_constrs t) = Some c →
  constr_ok (rows k) c.
Proof.
  intros Hok Ht Hc. destruct (schema_ok_table _ _ _ _ Hok Ht) as [_ Hk].
  rewrite Forall_forall in Hk. by eapply (Hk (name, c)), assoc_elem.
Qed.
Ltac constraint H n := eapply (schema_ok_constr _ _ _ n _ (CUnique _)); [exact H|by_compute|by_compute].

Lemma events_unique k rows :
  (2 ≤ k ≤ 5)%nat → schema_ok (schema_at k) rows → keys_unique ["id"] (rows "events").
Proof.
  intros Hk H. destruct k as [|[|[|[|[|[|k]]]]]]; try lia; constraint H "events_id_key".
Qed.
Lemma template_names_unique k rows :
  (1 ≤ k ≤ 3)%nat → schema_ok (schema_at k) rows → keys_unique ["name"] (rows "template").
Proof.
  intros Hk H. destruct k as [|[|[|[|k]]]]; try lia; constraint H "template_name_key".
Qed.

Lemma no_events_kept s rows : rows_kept s rows (no_events rows).
Proof. intros n Hn _. unfold no_events. by apply String.eqb_neq in Hn as ->. Qed.
Lemma rows_kept_trans s rows1 rows2 rows3 :
  rows_kept s rows1 rows2 → rows_kept s rows2 rows3 → rows_kept s rows1 rows3.
Proof. intros H1 H2 n Hn Hs. by rewrite H2, H1. Qed.

(** What becomes of a database of the version [k]. *)
Definition upgrade_spec (k : nat) (rows : Rows) (r : result Pg) : Prop :=
  match r with
  | Ok db => ¬ blocked k rows ∧ pg_schema db = schema_at 7 ∧ rows_kept (schema_at k) rows (pg_rows db)
  | Err _ => blocked k rows
  end.
Ltac outcome := repeat case_decide; unfold upgrade_spec, blocked; cbn [pg_schema pg_rows];
  split_and?; eauto using no_events_kept, rows_kept_trans; intuition lia.
Lemma upgrade_outcome k rows :
  (k ≤ 7)%nat → schema_ok (schema_at k) rows → upgrade_spec k rows (upgrade k rows).
Proof.
  intros Hk Hok. pose proof (events_unique k rows) as He. pose proof (template_names_unique k rows) as Hn.
  destruct k as [|[|[|[|[|[|[|[|k]]]]]]]]; [..|lia].
  - destruct (upgrade_0 rows) as [rows' ->]. split_and!; [|done|].
    + unfold blocked. intuition lia.
    + intros n _ [? [=]].
  - rewrite upgrade_1 by (apply Hn; [lia|done]). outcome.
  - rewrite upgrade_2 by ((apply He || apply Hn); [lia|done]). outcome.
  - rewrite upgrade_3 by ((apply He || apply Hn); [lia|done]). outcome.
  - rewrite upgrade_4 by (apply He; [lia|done]). outcome.
  - rewrite upgrade_5 by (apply He; [lia|done]). outcome.
  - rewrite upgrade_6. outcome.
  - split_and!; [|done|by intros n _ _]. unfold blocked. intuition lia.
Qed.

(** C18 The migrations run on an empty database, and the schema that they leave is
    the one the model of the database assumes: rows satisfy the types, the NOT NULL,
    unique and check constraints and the partial unique index exactly when the
    tables are [typed]. No trigger is left: a write has no effect beside its row. *)
Theorem migrations_make_schema :
  ∃ db, exec_migrations GetMigrations empty_pg = Ok db ∧
    (∀ t, schema_ok (pg_schema db) (rows_of t) ↔ typed t) ∧
    ∀ table is_insert r, fire (pg_schema db) table is_insert r = [].
Proof.
  destruct (upgrade_0 (λ _, [])) as [rows' H]. eexists. split; [exact H|].
  cbn [pg_schema]. rewrite final_schema_at. split; [apply schema_ok_typed|done].
Qed.

(** C19 Migrating a database of any earlier version, whose rows satisfy the schema
    of that version, either reaches the last schema with rows that satisfy it and
    keeps the rows of every table but events, or fails; and it fails exactly when a
    worker is mapped twice to a workflow before the map has its unique index, when
    two live templates share a name in the version without a constraint on names, or
    when an event has no id while events are kept. *)
Theorem migrations_upgrade k rows :
  (k ≤ 7)%nat → schema_ok (schema_at k) rows →
  match exec_migrations (drop k GetMigrations) {| pg_schema := schema_at k; pg_rows := rows |} with
  | Ok db => ¬ blocked k rows ∧ pg_schema db = final_schema ∧
             schema_ok final_schema (pg_rows db) ∧ rows_kept (schema_at k) rows (pg_rows db)
  | Err _ => blocked k rows
  end.
Proof.
  intros Hk Hok. pose proof (upgrade_outcome k rows Hk Hok) as H. unfold upgrade_spec in H.
  destruct (exec_migrations _ _) as [db|e] eqn:E; [|done]. destruct H as (Hb & Hs & Hr).
  apply exec_migrations_preserves in E; [|done]. rewrite Hs, final_schema_at in *. done.
Qed.
End theorems.

(** Two templates of one name, the first deleted, and an event. *)
Definition rows_4 : Rows := λ n,
  default [] (assoc n
    [("template",
      [[("id", VText "t1"); ("name", VText "hello"); ("created_at", VNum 1); ("updated_at", VNum 2);
        ("deleted_at", VNum 2); ("data", VText "x")];
       [("id", VText "t2"); ("name", VText "hello"); ("created_at", VNum 3); ("updated_at", VNum 3);
        ("deleted_at", VNull); ("data", VText "y")]]);
     ("events",
      [[("id", VText "e1"); ("resource_id", VText "t1"); ("resource_type", VText "TEMPLATE");
        ("event_type", VText "DELETED"); ("created_at", VNum 2); ("data", VNull)]])]).

Lemma migrations_upgrade_witness :
  match exec_migrations (drop 4 GetMigrations) {| pg_schema := schema_at 4; pg_rows := rows_4 |} with
  | Ok db => length (pg_rows db "template") = 2%nat ∧ pg_rows db "events" = []
  | Err _ => False
  end ∧ schema_ok (DE := demo_db_env) (schema_at 4) rows_4 ∧
  match exec_migrations (drop 4 GetMigrations) {| pg_schema := schema_at 4; pg_rows := rows_4 |} with
  | Ok db => schema_ok (DE := demo_db_env) final_schema (pg_rows db)
  | Err _ => blocked 4 rows_4
  end.
Proof.
  split; [vm_compute; by split|].
  assert (schema_ok (DE := demo_db_env) (schema_at 4) rows_4) as Hok.
  { refine (bool_decide_unpack _ _). vm_compute. exact I. }
  split; [exact Hok|].
  pose proof (migrations_upgrade (DE := demo_db_env) 4 rows_4 ltac:(lia) Hok) as H.
  destruct (exec_migrations _ _); [apply H|exact H].
Defined.
