(* ===== verification/DbServer.v ===== *)
(** * DbServer: the database-backed server
    (src/server/dbserver.go, dbserver_workflow.go, dbserver_worker_workflow.go,
    dbserver_template.go)

    The handlers over the operations of [DbWorkflow] and [DbTemplate]. The state
    of the server is its database, the flag dbReady, the watchers of hardware and
    the metrics; a [defer] of the in-flight gauge runs on every path, panics
    included. Logging and the duration histogram are left out, and
    [status.Errorf(c, err.Error())] is taken to keep the text of the error (it has
    no formatting verbs). *)
From S2P Require Import Prelude Proto Template Service DbBase DbWorkflow DbTemplate.
From stdpp Require Import options.

(** ** State *)

(** The counters and the gauge of metrics.go: name, method and op. *)
Abbreviation metric := (string * string * string)%type (only parsing).

(** A watcher's channel: a buffer of one text, and whether it is closed. *)
Record chan := { ch_buf : option string; ch_closed : bool }.

(** The watch map, nil or from ids to channels, and the channels made so far. *)
Record DBServer := {
  sv_db : DB;
  sv_ready : bool;
  sv_watch : option (gmap string nat);
  sv_chans : list chan;
  sv_metrics : gmap metric Z;
  sv_uuids : nat
}.

(** [NewDBServer]: the watch map is never made. *)
Definition NewDBServer (d : DB) : DBServer :=
  {| sv_db := d; sv_ready := true; sv_watch := None; sv_chans := []; sv_metrics := ∅; sv_uuids := 0 |}.

Definition set_db (d : DB) (s : DBServer) : DBServer :=
  {| sv_db := d; sv_ready := sv_ready s; sv_watch := sv_watch s; sv_chans := sv_chans s;
     sv_metrics := sv_metrics s; sv_uuids := sv_uuids s |}.
Definition set_watch w (s : DBServer) : DBServer :=
  {| sv_db := sv_db s; sv_ready := sv_ready s; sv_watch := w; sv_chans := sv_chans s;
     sv_metrics := sv_metrics s; sv_uuids := sv_uuids s |}.
Definition set_chans c (s : DBServer) : DBServer :=
  {| sv_db := sv_db s; sv_ready := sv_ready s; sv_watch := sv_watch s; sv_chans := c;
     sv_metrics := sv_metrics s; sv_uuids := sv_uuids s |}.
Definition add_metric (k : metric) (d : Z) (s : DBServer) : DBServer :=
  {| sv_db := sv_db s; sv_ready := sv_ready s; sv_watch := sv_watch s; sv_chans := sv_chans s;
     sv_metrics := <[k := default 0 (sv_metrics s !! k) + d]> (sv_metrics s);
     sv_uuids := sv_uuids s |}.

(** What the handlers call besides the database. *)
Class ServerEnv := {
  (** The [n]-th [uuid.NewUUID()]. *)
  new_uuid : nat → result string
}.

(** ** Helpers *)
Definition on_db {A} (c : go DB A) : go DBServer A := go_zoom sv_db set_db c.

Definition inc (name method op : string) : go DBServer unit :=
  go_modify (add_metric (name, method, op) 1).
Definition dec (name method op : string) : go DBServer unit :=
  go_modify (add_metric (name, method, op) (-1)).

Definition CacheInFlight := "cache_ops_current_total".
Definition CacheTotals := "cache_ops_total".
Definition CacheErrors := "cache_ops_errors_total".
Definition CacheHits := "cache_hit_total".
Definition CacheStalls := "cache_stall_total".

(** A computation over the database and the messages sent. *)
Definition on_db_stream {A M} (c : go (DB * list M) A) : go (DBServer * list M) A := λ '(s, sent),
  let '(o, (d, sent')) := c (sv_db s, sent) in (o, (set_db d s, sent')).

Definition NewUUID `{ServerEnv} : go DBServer (result string) := λ s,
  (Ret (new_uuid (sv_uuids s)),
   {| sv_db := sv_db s; sv_ready := sv_ready s; sv_watch := sv_watch s;
      sv_chans := sv_chans s; sv_metrics := sv_metrics s; sv_uuids := S (sv_uuids s) |}).

Definition errFailedToGetTemplate (id : string) : string := "failed to get template with ID " +:+ id.
Definition notReady : error := NewErr "DB is not ready".

(** The error of an operation becomes a gRPC status with its text. *)
Definition aborted (e : error) : error := StatusErr Aborted (err_string e).

(** ** Workflows (dbserver_workflow.go) *)
Section workflows.
Context `{DE : DbEnv} `{TE : TemplateEnv} `{MR : MapRange} `{SE : ServerEnv}.
#[local] Open Scope go_scope.

(** An error of the database is counted; the pair is returned. *)
Definition count_error {A} (method op : string) (r : A * option error)
    : go DBServer (A * option error) :=
  match r.2 with
  | Some _ => inc CacheErrors method op ;;; go_ret r
  | None => go_ret r
  end.

Definition CreateWorkflow (template hardware : string) : go DBServer (string * option error) :=
  inc CacheInFlight "CreateWorkflow" "" ;;;
  go_defer (dec CacheInFlight "CreateWorkflow" "") (
    let* id := NewUUID in
    match id with
    | Err e => go_ret ("", Some e)
    | Ok id =>
        inc CacheTotals "CreateWorkflow" "createworkflow" ;;;
        let* t := on_db (DbTemplate.GetTemplate {[ "id" := template ]} false) in
        match t with
        | (_, Some e) => go_ret ("", Some (WrapErr e (errFailedToGetTemplate template)))
        | (wtmpl, None) =>
            match RenderTemplate template (wt_Data wtmpl) hardware with
            | Err e => inc CacheErrors "CreateWorkflow" "createworkflow" ;;; go_ret ("", Some e)
            | Ok data =>
                let wf := {| dw_State := State_STATE_PENDING; dw_ID := id;
                             dw_Hardware := hardware; dw_Template := template;
                             dw_CreatedAt := None; dw_UpdatedAt := None |} in
                let* err := on_db (DbWorkflow.CreateWorkflow wf data id) in
                match err with
                | Some e =>
                    inc CacheErrors "CreateWorkflow" "createworkflow" ;;; go_ret ("", Some e)
                | None => go_ret (id, None)
                end
            end
        end
    end).

Definition getWorkflowState (id : string) : go DB State :=
  let* r := DbWorkflow.GetWorkflowContexts id in
  let wfCtx := r.1 in
  go_ret (if decide (wc_CurrentActionState wfCtx ≠ State_STATE_SUCCESS) then
            wc_CurrentActionState wfCtx
          else if decide (wc_CurrentActionIndex wfCtx =
                          wrap64 (wc_TotalNumberOfActions wfCtx - 1)) then State_STATE_SUCCESS
          else State_STATE_RUNNING).

Definition pb_workflow (w : DbWorkflow) (st : State) (data : string) : PbWorkflow :=
  {| pw_Id := dw_ID w; pw_Template := dw_Template w; pw_Hardware := dw_Hardware w;
     pw_State := st; pw_CreatedAt := dw_CreatedAt w; pw_UpdatedAt := dw_UpdatedAt w;
     pw_DeletedAt := None; pw_Data := data |}.

(** [&workflow.Workflow{}] with an error is [Err]. *)
Definition GetWorkflow (id : string) : go DBServer (result PbWorkflow) :=
  inc CacheInFlight "GetWorkflow" "" ;;;
  go_defer (dec CacheInFlight "GetWorkflow" "") (
    inc CacheTotals "GetWorkflow" "get" ;;;
    let* r := on_db (DbWorkflow.GetWorkflow id) in
    match r with
    | (_, Some e) => inc CacheErrors "GetWorkflow" "get" ;;; go_ret (Err e)
    | (w, None) =>
        let* t := on_db (DbTemplate.GetTemplate {[ "id" := dw_Template w ]} true) in
        match t with
        | (_, Some e) => go_ret (Err (WrapErr e (errFailedToGetTemplate (dw_Template w))))
        | (wtmpl, None) =>
            match RenderTemplate (dw_Template w) (wt_Data wtmpl) (dw_Hardware w) with
            | Err e => go_ret (Err e)
            | Ok data =>
                let* st := on_db (getWorkflowState id) in
                go_ret (Ok (pb_workflow w st data))
            end
        end
    end).

Definition DeleteWorkflow (id : string) : go DBServer (option error) :=
  inc CacheInFlight "DeleteWorkflow" "" ;;;
  go_defer (dec CacheInFlight "DeleteWorkflow" "") (
    inc CacheTotals "DeleteWorkflow" "delete" ;;;
    let* err := on_db (DbWorkflow.DeleteWorkflow id) in
    let* r := count_error "DeleteWorkflow" "delete" (tt, err) in
    go_ret r.2).

(** The common frame of the listing handlers: not ready, the rows, the counters. *)
Definition listing {M} (method op : string) (rows : go (DB * list M) (option error))
    : go (DBServer * list M) (option error) :=
  let inc' name := on_server (inc name method op) in
  inc' CacheTotals ;;;
  inc' CacheInFlight ;;;
  go_defer (on_server (dec CacheInFlight method op)) (
    let* s := go_get in
    if negb (sv_ready s.1) then inc' CacheStalls ;;; go_ret (Some notReady)
    else
      let* err := on_db_stream rows in
      match err with
      | Some e => inc' CacheErrors ;;; go_ret (Some e)
      | None => inc' CacheHits ;;; go_ret None
      end).

Definition ListWorkflows (fails : nat → option error)
    : go (DBServer * list PbWorkflow) (option error) :=
  listing "ListWorkflows" "list" (DbWorkflow.ListWorkflows (λ w,
    let* st := on_server (getWorkflowState (dw_ID w)) in
    stream_send fails (pb_workflow w st ""))).

Definition GetWorkflowContext (id : string) : go DBServer (WorkflowContext * option error) :=
  inc CacheInFlight "GetWorkflowContext" "" ;;;
  go_defer (dec CacheInFlight "GetWorkflowContext" "") (
    inc CacheTotals "GetWorkflowContext" "get" ;;;
    let* r := on_db (DbWorkflow.GetWorkflowContexts id) in
    match r with
    | (_, Some e) =>
        inc CacheErrors "GetWorkflowContext" "get" ;;; go_ret (zeroWorkflowContext, Some e)
    | (w, None) => go_ret (w, None)
    end).

(** The callback rebuilds the status without its workflow id. *)
Definition ShowWorkflowEvents (fails : nat → option error) (id : string)
    : go (DBServer * list WorkflowActionStatus) (option error) :=
  listing "ShowWorkflowEvents" "list" (DbWorkflow.ShowWorkflowEvents id (λ w,
    stream_send fails
      {| ws_WorkflowId := ""; ws_TaskName := ws_TaskName w; ws_ActionName := ws_ActionName w;
         ws_ActionStatus := ws_ActionStatus w; ws_Seconds := ws_Seconds w;
         ws_Message := ws_Message w; ws_CreatedAt := ws_CreatedAt w;
         ws_WorkerId := ws_WorkerId w |})).
End workflows.

(** ** The worker's calls (dbserver_worker_workflow.go) *)
Section worker.
Context `{DE : DbEnv}.
#[local] Open Scope go_scope.

Definition getWorkflowsForWorker (id : string) : go DB (result (list string)) :=
  if decide (id = "") then go_ret (Err (StatusErr InvalidArgument errInvalidWorkerID))
  else
    let* r := DbWorkflow.GetWorkflowsForWorker id in
    go_ret (match r with (_, Some e) => Err (aborted e) | (wfs, None) => Ok wfs end).

Definition getWorkflowActions (wfID : string) : go DB (result WorkflowActionList) :=
  let* r := DbWorkflow.GetWorkflowActions wfID in
  go_ret (match r with
          | (_, Some _) => Err (StatusErr Aborted errInvalidWorkflowID)
          | (l, None) => Ok l
          end).

Definition isLastAction (wfContext : WorkflowContext) (actions : WorkflowActionList) : bool :=
  bool_decide (wc_CurrentActionIndex wfContext = Z.of_nat (length actions) - 1).

(** Indexing outside of the list panics. *)
Definition isApplicableToSend (wfContext : WorkflowContext) (workerID : string) : go DB bool :=
  if decide (wc_CurrentActionState wfContext = State_STATE_FAILED ∨
             wc_CurrentActionState wfContext = State_STATE_TIMEOUT) then go_ret false
  else
    let* actions := getWorkflowActions (wc_WorkflowId wfContext) in
    match actions with
    | Err _ => go_ret false
    | Ok actions =>
        if decide (wc_CurrentActionState wfContext = State_STATE_SUCCESS) then
          if isLastAction wfContext actions then go_ret false
          else if decide (wc_CurrentActionIndex wfContext = 0) then
            let* a := go_index actions (wc_CurrentActionIndex wfContext + 1) in
            go_ret (bool_decide (wa_WorkerId a = workerID))
          else go_ret false
        else
          let* a := go_index actions (wc_CurrentActionIndex wfContext) in
          go_ret (bool_decide (wa_WorkerId a = workerID))
    end.

Fixpoint send_contexts (fails : nat → option error) (workerID : string) (wfs : list string)
    : go (DB * list WorkflowContext) (option error) :=
  match wfs with
  | [] => go_ret None
  | wf :: wfs' =>
      let* r := on_server (DbWorkflow.GetWorkflowContexts wf) in
      match r with
      | (_, Some e) => go_ret (Some (aborted e))
      | (wfContext, None) =>
          let* b := on_server (isApplicableToSend wfContext workerID) in
          if (b : bool) then
            let* err := stream_send fails wfContext in
            match err with
            | Some e => go_ret (Some e)
            | None => send_contexts fails workerID wfs'
            end
          else send_contexts fails workerID wfs'
      end
  end.

Definition GetWorkflowContexts (fails : nat → option error) (workerID : string)
    : go (DB * list WorkflowContext) (option error) :=
  try wfs := on_server (getWorkflowsForWorker workerID) onerr Some in
  send_contexts fails workerID wfs.

Fixpoint all_contexts (wfs : list string) : go DB (result (list WorkflowContext)) :=
  match wfs with
  | [] => go_ret (Ok [])
  | wf :: wfs' =>
      let* r := DbWorkflow.GetWorkflowContexts wf in
      match r with
      | (_, Some e) => go_ret (Err (aborted e))
      | (c, None) => try l := all_contexts wfs' onerr Err in go_ret (Ok (c :: l))
      end
  end.

(** [None] is the nil response for a worker without workflows. *)
Definition GetWorkflowContextList (workerID : string)
    : go DB (result (option (list WorkflowContext))) :=
  try wfs := getWorkflowsForWorker workerID onerr Err in
  if decide (wfs = []) then go_ret (Ok None)
  else try l := all_contexts wfs onerr Err in go_ret (Ok (Some l)).

Definition GetWorkflowActions (wfID : string) : go DB (result WorkflowActionList) :=
  if decide (wfID = "") then go_ret (Err (StatusErr InvalidArgument errInvalidWorkflowID))
  else getWorkflowActions wfID.

(** [ReportActionStatus] from the guard on the index on. *)
Definition report_at (req : WorkflowActionStatus) (wfContext : WorkflowContext)
    (wfActions : WorkflowActionList) (actionIndex : Z) : go DB (option error) :=
  if decide (1 < wc_TotalNumberOfActions wfContext ∧
             wc_TotalNumberOfActions wfContext ≤ actionIndex) then
    go_ret (Some (StatusErr FailedPrecondition errInvalidActionIndex))
  else
    let* action := go_index wfActions actionIndex in
    if decide (wa_TaskName action ≠ ws_TaskName req) then
      go_ret (Some (StatusErr InvalidArgument errInvalidTaskReported))
    else if decide (wa_Name action ≠ ws_ActionName req) then
      go_ret (Some (StatusErr InvalidArgument errInvalidActionReported))
    else
      let wfContext :=
        {| wc_WorkflowId := wc_WorkflowId wfContext;
           wc_CurrentWorker := wa_WorkerId action;
           wc_CurrentTask := ws_TaskName req;
           wc_CurrentAction := ws_ActionName req;
           wc_CurrentActionIndex := actionIndex;
           wc_CurrentActionState := ws_ActionStatus req;
           wc_TotalNumberOfActions := wc_TotalNumberOfActions wfContext |} in
      let* err := DbWorkflow.UpdateWorkflowState wfContext in
      match err with
      | Some e => go_ret (Some (aborted e))
      | None =>
          let* t := time_Now in
          let* err := DbWorkflow.InsertIntoWorkflowEventTable req t in
          match err with
          | Some e => go_ret (Some (aborted e))
          | None => go_ret None
          end
      end.

Definition ReportActionStatus (req : WorkflowActionStatus) : go DB (option error) :=
  let wfID := ws_WorkflowId req in
  if decide (wfID = "") then go_ret (Some (StatusErr InvalidArgument errInvalidWorkflowID))
  else if decide (ws_TaskName req = "") then
    go_ret (Some (StatusErr InvalidArgument errInvalidTaskName))
  else if decide (ws_ActionName req = "") then
    go_ret (Some (StatusErr InvalidArgument errInvalidActionName))
  else
    let* r := DbWorkflow.GetWorkflowContexts wfID in
    match r with
    | (_, Some e) => go_ret (Some (aborted e))
    | (wfContext, None) =>
        let* r := DbWorkflow.GetWorkflowActions wfID in
        match r with
        | (_, Some e) => go_ret (Some (aborted e))
        | (wfActions, None) =>
            let actionIndex :=
              if decide (ws_ActionStatus req = State_STATE_RUNNING ∧
                         wc_CurrentAction wfContext ≠ "")
              then wrap64 (wc_CurrentActionIndex wfContext + 1)
              else wc_CurrentActionIndex wfContext in
            report_at req wfContext wfActions actionIndex
        end
    end.

Definition UpdateWorkflowData (maxVersions : Z) (req : UpdateWorkflowDataRequest)
    : go DB (option error) :=
  if decide (ud_WorkflowId req = "") then
    go_ret (Some (StatusErr InvalidArgument errInvalidWorkflowID))
  else
    let* err := DbWorkflow.InsertIntoWfDataTable maxVersions req in
    go_ret (aborted <$> err).

Definition data_response (d : string) : GetWorkflowDataResponse :=
  {| gr_Data := d; gr_Version := 0 |}.

Definition GetWorkflowData (req : GetWorkflowDataRequest)
    : go DB (GetWorkflowDataResponse * option error) :=
  if decide (gd_WorkflowId req = "") then
    go_ret (data_response "", Some (StatusErr InvalidArgument errInvalidWorkflowID))
  else
    let* r := DbWorkflow.GetfromWfDataTable req in
    go_ret (match r with
            | (_, Some e) => (data_response "", Some (aborted e))
            | (d, None) => (data_response d, None)
            end).

Definition GetWorkflowMetadata (req : GetWorkflowDataRequest)
    : go DB (GetWorkflowDataResponse * option error) :=
  let* r := DbWorkflow.GetWorkflowMetadata req in
  go_ret (match r with
          | (_, Some e) => (data_response "", Some (aborted e))
          | (d, None) => (data_response d, None)
          end).

Definition GetWorkflowDataVersion (req : GetWorkflowDataRequest)
    : go DB (GetWorkflowDataResponse * option error) :=
  let* r := DbWorkflow.GetWorkflowDataVersion (gd_WorkflowId req) in
  go_ret ({| gr_Data := ""; gr_Version := r.1 |}, aborted <$> r.2).

(** The service over the database, with the versions it keeps. *)
#[global] Instance db_service (maxVersions : Z) : WorkflowService DB | 100 := {
  svc_GetWorkflowContexts := GetWorkflowContexts;
  svc_GetWorkflowActions := GetWorkflowActions;
  svc_ReportActionStatus := ReportActionStatus;
  svc_GetWorkflowData := GetWorkflowData;
  svc_GetWorkflowMetadata := GetWorkflowMetadata;
  svc_UpdateWorkflowData := UpdateWorkflowData maxVersions
}.
End worker.

(** ** Templates (dbserver_template.go) *)
Section templates.
Context `{DE : DbEnv} `{TE : TemplateEnv} `{MR : MapRange} `{SE : ServerEnv}.
#[local] Open Scope go_scope.

(** The error of [uuid.NewUUID] is dropped: the id is then the zero UUID. *)
Definition CreateTemplate (name data : string) : go DBServer (string * option error) :=
  inc CacheInFlight "CreateTemplate" "" ;;;
  go_defer (dec CacheInFlight "CreateTemplate" "") (
    let* r := NewUUID in
    let id := match r with Ok i => i | Err _ => zeroUUID end in
    inc CacheTotals "CreateTemplate" "createtemplate" ;;;
    let* err := on_db (DbTemplate.CreateTemplate name data id) in
    match err with
    | Some e => inc CacheErrors "CreateTemplate" "createtemplate" ;;; go_ret ("", Some e)
    | None => go_ret (id, None)
    end).

Definition GetTemplate (req : option GetBy) : go DBServer (WorkflowTemplate * option error) :=
  inc CacheInFlight "GetTemplate" "" ;;;
  go_defer (dec CacheInFlight "GetTemplate" "") (
    inc CacheTotals "GetTemplate" "get" ;;;
    let fields : gmap string string :=
      {[ "id" := GetRequest_GetId req; "name" := GetRequest_GetName req ]} in
    let* r := on_db (DbTemplate.GetTemplate fields false) in
    count_error "GetTemplate" "get" r).

Definition DeleteTemplate (req : option GetBy) : go DBServer (option error) :=
  inc CacheInFlight "DeleteTemplate" "" ;;;
  go_defer (dec CacheInFlight "DeleteTemplate" "") (
    inc CacheTotals "DeleteTemplate" "delete" ;;;
    let* err := on_db (DbTemplate.DeleteTemplate (GetRequest_GetId req)) in
    let* r := count_error "DeleteTemplate" "delete" (tt, err) in
    go_ret r.2).

(** '*' becomes the wildcard of SQL; no name matches everything. *)
Definition template_filter (name : string) : string :=
  if decide (name ≠ "") then replace_char (Ascii.ascii_of_nat 42) "%" name else "%".

Definition ListTemplates (fails : nat → option error) (name : string)
    : go (DBServer * list WorkflowTemplate) (option error) :=
  listing "ListTemplates" "list" (DbTemplate.ListTemplates (template_filter name) (λ p,
    stream_send fails
      {| wt_Id := p.1; wt_Name := tr_name p.2; wt_CreatedAt := Some (tr_created_at p.2);
         wt_UpdatedAt := Some (tr_updated_at p.2); wt_DeletedAt := None; wt_Data := "" |})).

(** [uuid.MustParse] panics on an id that is not a UUID. *)
Definition UpdateTemplate (t : WorkflowTemplate) : go DBServer (option error) :=
  inc CacheInFlight "UpdateTemplate" "" ;;;
  go_defer (dec CacheInFlight "UpdateTemplate" "") (
    inc CacheTotals "UpdateTemplate" "updatetemplate" ;;;
    match uuid_parse (wt_Id t) with
    | None => go_panic "uuid: Parse"
    | Some id =>
        let* err := on_db (DbTemplate.UpdateTemplate (wt_Name t) (wt_Data t) id) in
        let* r := count_error "UpdateTemplate" "updatetemplate" (tt, err) in
        go_ret r.2
    end).
End templates.
