(* ===== verification/DbHardware.v ===== *)
(** * DbHardware: hardware behind the database-backed server
    (src/server/dbserver_hardware.go)

    The handlers of the hardware service over the table of [DbTemplate]: pushing
    with the normalisation and the check of MAC addresses, the lookups, the
    listing, the deletion, and the watchers of pushed data. *)
From S2P Require Import Prelude Proto Service DbBase DbWorkflow DbTemplate DbServer.
From stdpp Require Import options.

(** ** Messages (hardware.proto) *)
Record PbIP := { pi_Address : string; pi_Netmask : string; pi_Gateway : string; pi_Family : Z }.
Record PbDHCP := {
  pd_Mac : string; pd_Hostname : string; pd_LeaseTime : Z; pd_NameServers : list string;
  pd_TimeServers : list string; pd_Arch : string; pd_Uefi : bool; pd_IfaceName : string;
  pd_Ip : option PbIP
}.
Record PbIPXE := { px_Url : string; px_Contents : string }.
Record PbOsie := { po_BaseUrl : string; po_Kernel : string; po_Initrd : string }.
Record PbNetboot := {
  pn_AllowPxe : bool; pn_AllowWorkflow : bool; pn_Ipxe : option PbIPXE; pn_Osie : option PbOsie
}.
Record PbInterface := { pf_Dhcp : option PbDHCP; pf_Netboot : option PbNetboot }.
Record PbHardware := {
  ph_Network : option (list PbInterface);
  ph_Id : string;
  ph_Version : Z;
  ph_Metadata : string
}.

(** [GetNetwork().GetInterfaces()] and [GetDhcp().GetMac()]: nil gives the zero
    value. *)
Definition GetInterfaces (hw : PbHardware) : list PbInterface := default [] (ph_Network hw).
Definition GetMac (iface : PbInterface) : string := from_option pd_Mac "" (pf_Dhcp iface).

(** The JSON of a hardware message: encoding/json over the generated struct. *)
Class HardwareJson := {
  hw_marshal : PbHardware → result string;
  hw_unmarshal : string → result PbHardware
}.

(** ** normalizeHardwareData *)
Definition set_mac (m : string) (d : PbDHCP) : PbDHCP :=
  {| pd_Mac := m; pd_Hostname := pd_Hostname d; pd_LeaseTime := pd_LeaseTime d;
     pd_NameServers := pd_NameServers d; pd_TimeServers := pd_TimeServers d; pd_Arch := pd_Arch d;
     pd_Uefi := pd_Uefi d; pd_IfaceName := pd_IfaceName d; pd_Ip := pd_Ip d |}.

Definition normalize_interface (iface : PbInterface) : PbInterface :=
  if decide (GetMac iface ≠ "") then
    {| pf_Dhcp := set_mac (ToLower (GetMac iface)) <$> pf_Dhcp iface;
       pf_Netboot := pf_Netboot iface |}
  else iface.

Definition normalizeHardwareData (hw : PbHardware) : PbHardware :=
  {| ph_Network := map normalize_interface <$> ph_Network hw; ph_Id := ph_Id hw;
     ph_Version := ph_Version hw; ph_Metadata := ph_Metadata hw |}.

Definition conflictMACAddr (mac : string) : string :=
  "conflicting hardware MAC address " +:+ mac +:+ " provided with hardware data/info".
Definition WatchMissTotal := "watch_miss_count_total".

Section hardware.
Context `{DE : DbEnv} `{HJ : HardwareJson}.
#[local] Open Scope go_scope.

(** ** validateHardwareData

    An error of the lookup is dropped: its data is then empty. *)
Fixpoint validate_interfaces (id : string) (l : list PbInterface) : go DB (option error) :=
  match l with
  | [] => go_ret None
  | iface :: l' =>
      let mac := GetMac iface in
      let* r := GetByMAC mac in
      let data := match r with Ok d => d | Err _ => "" end in
      if decide (data ≠ "") then
        match hw_unmarshal data with
        | Err e => go_ret (Some e)
        | Ok newhw =>
            if decide (ph_Id newhw = id) then go_ret None
            else go_ret (Some (NewErr (conflictMACAddr mac)))
        end
      else validate_interfaces id l'
  end.
Definition validateHardwareData (hw : PbHardware) : go DB (option error) :=
  validate_interfaces (ph_Id hw) (GetInterfaces hw).

(** ** Channels *)

(** [select { case ch <- text: default: WatchMissTotal.Inc() }] on the channel
    of [id], when there is one; a nil map has none. *)
Definition notify (id text : string) : go DBServer unit :=
  let* s := go_get in
  match sv_watch s ≫= (.!! id) with
  | None => go_ret tt
  | Some ch =>
      match sv_chans s !! ch with
      | None => go_ret tt
      | Some c =>
          if ch_closed c then go_panic "send on closed channel"
          else match ch_buf c with
               | Some _ => inc WatchMissTotal "" ""
               | None => go_modify (set_chans
                   (<[ch := {| ch_buf := Some text; ch_closed := false |}]> (sv_chans s)))
               end
      end
  end.

Definition close_chan (ch : nat) : go DBServer unit :=
  let* s := go_get in
  match sv_chans s !! ch with
  | None => go_panic "close of nil channel"
  | Some c =>
      if ch_closed c then go_panic "close of closed channel"
      else go_modify (set_chans
             (<[ch := {| ch_buf := ch_buf c; ch_closed := true |}]> (sv_chans s)))
  end.

(** ** Push, lookups, listing, deletion *)
Definition Push (data : option PbHardware) : go DBServer (option error) :=
  inc CacheInFlight "Push" "" ;;;
  go_defer (dec CacheInFlight "Push" "") (
    match data with
    | None => go_ret (Some (NewErr "expected data not to be nil"))
    | Some hw =>
        if decide (ph_Id hw = "") then
          inc CacheTotals "Push" "" ;;; inc CacheErrors "Push" "" ;;;
          go_ret (Some (NewErr ("id must be set to a UUID, got id: " +:+ ph_Id hw)))
        else
          let hw := normalizeHardwareData hw in
          let* err := on_db (validateHardwareData hw) in
          match err with
          | Some e => go_ret (Some e)
          | None =>
              let data := match hw_marshal hw with Ok d => d | Err _ => "" end in
              inc CacheTotals "Push" "insert" ;;;
              let* err := on_db (InsertIntoDB data) in
              (match err with Some _ => inc CacheErrors "Push" "insert" | None => go_ret tt end) ;;;
              notify (ph_Id hw) data ;;;
              go_ret err
          end
    end).

Definition by_ (method : string) (fn : go DB (result string)) : go DBServer (result PbHardware) :=
  inc CacheTotals method "get" ;;;
  inc CacheInFlight method "get" ;;;
  go_defer (dec CacheInFlight method "get") (
    let* j := on_db fn in
    match j with
    | Err e => inc CacheErrors method "get" ;;; go_ret (Err e)
    | Ok j =>
        let* s := go_get in
        if decide (j = "" ∧ sv_ready s = false) then
          inc CacheStalls method "get" ;;; go_ret (Err notReady)
        else inc CacheHits method "get" ;;; go_ret (hw_unmarshal j)
    end).

Definition ByMAC (mac : string) : go DBServer (result PbHardware) := by_ "ByMAC" (GetByMAC mac).
Definition ByIP (ip : string) : go DBServer (result PbHardware) := by_ "ByIP" (GetByIP ip).
Definition ByID (id : string) : go DBServer (result PbHardware) := by_ "ByID" (GetByID id).

(** [All]: a document that does not parse ends the listing with its error. *)
Definition All (fails : nat → option error) : go (DBServer * list PbHardware) (option error) :=
  listing "All" "get" (GetAll (λ j,
    match hw_unmarshal j with
    | Err e => go_ret (Some e)
    | Ok hw => stream_send fails hw
    end)).

(** [Delete]: the watcher is told the id. *)
Definition Delete (id : string) : go DBServer (option error) :=
  inc CacheInFlight "Delete" "" ;;;
  go_defer (dec CacheInFlight "Delete" "") (
    if decide (id = "") then
      inc CacheTotals "Delete" "" ;;; inc CacheErrors "Delete" "" ;;;
      go_ret (Some (NewErr "id must be set to a UUID"))
    else
      inc CacheTotals "Delete" "delete" ;;;
      let* err := on_db (DeleteFromDB id) in
      (match err with Some _ => inc CacheErrors "Delete" "delete" | None => go_ret tt end) ;;;
      notify id id ;;;
      go_ret err).

(** ** DeprecatedWatch

    Other handlers run between the registration and each turn of the loop, so
    these are separate operations. The registration, up to the in-flight gauge:
    assigning to a nil map panics. *)
Definition watch_open (id : string) : go DBServer nat :=
  let* s := go_get in
  let ch := length (sv_chans s) in
  go_modify (set_chans (sv_chans s ++ [{| ch_buf := None; ch_closed := false |}])) ;;;
  (match sv_watch s ≫= (.!! id) with Some old => close_chan old | None => go_ret tt end) ;;;
  match sv_watch s with
  | None => go_panic "assignment to entry in nil map"
  | Some m =>
      go_modify (set_watch (Some (<[id := ch]> m))) ;;;
      inc CacheInFlight "Watch" "push" ;;;
      go_ret ch
  end.

(** The deferred calls: unless evicted, the entry is removed and the channel
    closed; the gauge goes back in any case. *)
Definition watch_leave (id : string) (ch : nat) (disconnect : bool) : go DBServer unit :=
  go_defer (dec CacheInFlight "Watch" "push") (
    if disconnect then
      go_modify (λ s, set_watch (delete id <$> sv_watch s) s) ;;; close_chan ch
    else go_ret tt).

(** What [select] finds ready. *)
Inductive watch_event := WatchQuit | WatchDone | WatchRecv.

Definition return_after (leave : go DBServer unit) (err : error)
    : go (DBServer * list PbHardware) (option (option error)) :=
  on_server leave ;;;
  go_ret (Some (match err with StatusErr OK _ => None | e => Some e end)).

(** One turn: [None] goes on, [Some err] is the return of the handler. A status
    with code OK is no error. Receiving from an open and empty channel is not
    ready. *)
Definition watch_turn (fails : nat → option error) (id : string) (ch : nat) (ev : watch_event)
    : go (DBServer * list PbHardware) (option (option error)) :=
  let leave := watch_leave id ch in
  match ev with
  | WatchQuit => return_after (leave true) (StatusErr OK "server is shutting down")
  | WatchDone => return_after (leave true) (StatusErr OK "client disconnected")
  | WatchRecv =>
      let* s := go_get in
      match sv_chans s.1 !! ch with
      | None => go_ret None
      | Some c =>
          match ch_buf c with
          | Some j =>
              on_server (go_modify (set_chans
                (<[ch := {| ch_buf := None; ch_closed := ch_closed c |}]> (sv_chans s.1)))) ;;;
              match hw_unmarshal j with
              | Err e => return_after (leave true) e
              | Ok hw =>
                  let* err := stream_send fails hw in
                  match err with
                  | None => go_ret None
                  | Some e =>
                      on_server (inc CacheErrors "Watch" "push") ;;;
                      return_after (leave true) (WrapErr e "stream send")
                  end
              end
          | None =>
              if ch_closed c then return_after (leave false) (StatusErr Unknown "evicted")
              else go_ret None
          end
      end
  end.
End hardware.

(** ** Lemmas *)

(** The data stored under a MAC address; none when the lookup fails or finds
    nothing. *)
Definition mac_data `{DbEnv} (t : Tables) (mac : string) : string :=
  match select_hardware (hr_data ∘ snd) [mac_query mac] t with Ok d => d | Err _ => "" end.

Section lemmas.
#[local] Set Default Proof Using "Type*".
Context `{DE : DbEnv} `{HJ : HardwareJson}.

Lemma GetByMAC_pure mac : db_pure (GetByMAC mac).
Proof. unfold GetByMAC, get. db_walk. Qed.

Lemma validate_pure id l : db_pure (validate_interfaces id l).
Proof.
  induction l as [|iface l IH]; simpl; [db_walk|]. intros s.
  destruct (GetByMAC_pure (GetMac iface) s) as (r & s1 & Hr & Ht).
  rewrite (go_bind_Ret _ _ _ _ _ Hr). case_decide.
  - destruct (hw_unmarshal _); [case_decide|]; by eexists _, _.
  - destruct (IH s1) as (a & s2 & Ha & Ht2). exists a, s2. by rewrite Ha, Ht2.
Qed.

Lemma GetByMAC_reliable (Hrel : ∀ n, db_fault n = None) mac s :
  ∃ r, GetByMAC mac s = (Ret r, db_next s) ∧
    match r with Ok d => d | Err _ => "" end = mac_data (db_tables s) mac.
Proof.
  unfold GetByMAC, get, go_bind, QueryRow, mac_data. rewrite Hrel.
  destruct (select_hardware _ _ _) as [d|e]; eexists; (split; [reflexivity|]); reflexivity.
Qed.

(** The check stops at the first interface whose address is stored. *)
Lemma validate_first (Hrel : ∀ n, db_fault n = None) id pre iface post newhw s :
  Forall (λ i, mac_data (db_tables s) (GetMac i) = "") pre →
  mac_data (db_tables s) (GetMac iface) ≠ "" →
  hw_unmarshal (mac_data (db_tables s) (GetMac iface)) = Ok newhw →
  ∃ s', validate_interfaces id (pre ++ iface :: post) s =
    (Ret (if decide (ph_Id newhw = id) then None
          else Some (NewErr (conflictMACAddr (GetMac iface)))), s').
Proof.
  intros Hpre Hne Hj. revert s Hpre Hne Hj. induction pre as [|i pre IH]; intros s Hpre Hne Hj.
  - destruct (GetByMAC_reliable Hrel (GetMac iface) s) as (r & Hr & Hd).
    change ([] ++ iface :: post) with (iface :: post). cbn [validate_interfaces]. cbn zeta.
    rewrite (go_bind_Ret _ _ _ _ _ Hr), Hd, decide_True, Hj by done.
    case_decide; by eexists.
  - inversion_clear Hpre as [|? ? Hi Hpre'].
    destruct (GetByMAC_reliable Hrel (GetMac i) s) as (r & Hr & Hd).
    change ((i :: pre) ++ iface :: post) with (i :: (pre ++ iface :: post)).
    cbn [validate_interfaces]. cbn zeta.
    rewrite (go_bind_Ret _ _ _ _ _ Hr), Hd, Hi, decide_False by tauto. by apply (IH (db_next s)).
Qed.

(** What a handler that returns has done between the two updates of the gauge. *)
Lemma in_flight_Ret {A} m o (c : go DBServer A) s a s' :
  go_bind (inc CacheInFlight m o) (λ _, go_defer (dec CacheInFlight m o) c) s = (Ret a, s') →
  ∃ s1, c (add_metric (CacheInFlight, m, o) 1 s) = (Ret a, s1) ∧
    s' = add_metric (CacheInFlight, m, o) (-1) s1.
Proof.
  unfold go_bind, go_defer, inc, dec, go_modify. destruct (c _) as [[] s1]; intros [= -> <-]. eauto.
Qed.

Lemma on_db_inv {A} (c : go DB A) s a s' :
  on_db c s = (Ret a, s') → ∃ d, c (sv_db s) = (Ret a, d) ∧ s' = set_db d s.
Proof. unfold on_db, go_zoom. destruct (c (sv_db s)) as [r d]. intros [= -> <-]. eauto. Qed.

Lemma notify_frame id text s u s' :
  notify id text s = (Ret u, s') → sv_db s' = sv_db s ∧ sv_ready s' = sv_ready s.
Proof.
  unfold notify, go_bind, go_get. destruct (sv_watch s ≫= _) as [ch|];
    [|by intros [= _ <-]].
  destruct (sv_chans s !! ch) as [c|]; [|by intros [= _ <-]].
  destruct (ch_closed c); [done|]. destruct (ch_buf c); by intros [= _ <-].
Qed.

(** What a push that succeeds has done. *)
Lemma push_Ok hw s s' :
  Push (Some hw) s = (Ret None, s') →
  sv_ready s' = sv_ready s ∧ ph_Id hw ≠ "" ∧
  ∃ d d', InsertIntoDB (match hw_marshal (normalizeHardwareData hw) with
                         | Ok d => d | Err _ => "" end) d = (Ret None, d') ∧ sv_db s' = d'.
Proof.
  intros Hrun. unfold Push in Hrun. apply in_flight_Ret in Hrun as (s1 & Hrun & ->). simpl.
  case_decide as Hid; [by repeat apply go_bind_inv in Hrun as (? & ? & _ & Hrun)|].
  apply go_bind_inv in Hrun as ([e|] & s2 & Hv & Hrun); [done|].
  apply on_db_inv in Hv as (d1 & _ & ->).
  apply go_bind_inv in Hrun as (? & s3 & [= _ <-] & Hrun).
  apply go_bind_inv in Hrun as (err & s4 & Hi & Hrun). apply on_db_inv in Hi as (d2 & Hi & ->).
  apply go_bind_inv in Hrun as (? & s5 & He & Hrun).
  apply go_bind_inv in Hrun as (? & s6 & Hn & Hrun). apply notify_frame in Hn as [Hd Hr].
  injection Hrun as -> <-. injection He as _ <-.
  rewrite Hr. split; [done|]. split; [done|]. eexists _, _. split; [exact Hi|]. by rewrite Hd.
Qed.
End lemmas.

(** ** Properties *)
Section properties.
#[local] Set Default Proof Using "Type*".
Context `{DE : DbEnv} `{HJ : HardwareJson}.

(** Hardware that is pushed is found by its id afterwards, with its MAC
    addresses in lower case and everything else as it was given. *)
Lemma push_read_back hw d s s' i :
  (∀ c, jsonb d = Some c → hw_unmarshal c = Ok (normalizeHardwareData hw)) →
  (∀ c, jsonb d = Some c → jsonb_id d = Some (ph_Id hw)) →
  hw_marshal (normalizeHardwareData hw) = Ok d →
  pg_uuid (ph_Id hw) = Some i → sv_ready s = true →
  Push (Some hw) s = (Ret None, s') → db_fault (db_tick (sv_db s')) = None →
  ∃ s'', ByID (ph_Id hw) s' = (Ret (Ok (normalizeHardwareData hw)), s'').
Proof.
  intros Hj Hjid Hm Hi Hready Hrun Hf.
  apply push_Ok in Hrun as (Hr & _ & d1 & d2 & Hins & Hdb). rewrite Hm in Hins.
  destruct (insert_hardware_read _ _ _ _ _ Hins Hjid Hi) as (c & Hc & Hsel).
  unfold ByID, by_, inc, dec, go_bind, go_modify, go_defer, on_db, go_zoom, GetByID, get, QueryRow.
  simpl. rewrite Hf, Hdb, Hsel. simpl. unfold go_bind, go_get. simpl.
  rewrite Hr, Hready, decide_False by naive_solver. rewrite (Hj c Hc). by eexists.
Qed.

(** C39 The check for duplicate MAC addresses on a push, when the database
    answers: it is decided by the first interface whose address is stored
    already. If that is another machine's the push is refused and nothing is
    stored; if it is the machine's own, the check ends there and the interfaces
    after it, [post], are not looked at, so that they may carry addresses of
    other machines. *)
Theorem push_mac_check hw pre iface post newhw s :
  (∀ n, db_fault n = None) → ph_Id hw ≠ "" →
  GetInterfaces (normalizeHardwareData hw) = pre ++ iface :: post →
  Forall (λ i, mac_data (db_tables (sv_db s)) (GetMac i) = "") pre →
  mac_data (db_tables (sv_db s)) (GetMac iface) ≠ "" →
  hw_unmarshal (mac_data (db_tables (sv_db s)) (GetMac iface)) = Ok newhw →
  (ph_Id newhw ≠ ph_Id hw → ∃ s',
     Push (Some hw) s = (Ret (Some (NewErr (conflictMACAddr (GetMac iface)))), s') ∧
     db_tables (sv_db s') = db_tables (sv_db s)) ∧
  (ph_Id newhw = ph_Id hw → ∃ d,
     validateHardwareData (normalizeHardwareData hw) (sv_db s) = (Ret None, d)).
Proof.
  intros Hrel Hid Hl Hpre Hne Hj.
  destruct (validate_first Hrel (ph_Id hw) pre iface post newhw (sv_db s) Hpre Hne Hj)
    as (d & Hv). unfold validateHardwareData. rewrite Hl. simpl. split.
  - intros Hother. rewrite decide_False in Hv by done.
    destruct (validate_pure (ph_Id hw) (pre ++ iface :: post) (sv_db s)) as (r & d' & Hv' & Ht).
    rewrite Hv in Hv'. injection Hv' as <- <-.
    unfold Push, go_defer, dec, inc, go_modify. rewrite decide_False by done. cbn zeta.
    unfold go_bind, on_db, go_zoom, validateHardwareData. rewrite Hl. simpl. rewrite Hv.
    simpl. by eexists.
  - intros Hown. rewrite decide_True in Hv by done. by exists d.
Qed.
End properties.

(** ** Witnesses *)
#[local] Existing Instance demo_db_env.

Definition demo_iface (mac : string) : PbInterface :=
  {| pf_Dhcp := Some {| pd_Mac := mac; pd_Hostname := ""; pd_LeaseTime := 0; pd_NameServers := [];
                        pd_TimeServers := []; pd_Arch := ""; pd_Uefi := false; pd_IfaceName := "";
                        pd_Ip := None |};
     pf_Netboot := None |}.
Definition demo_pb_hw (id : string) (macs : list string) : PbHardware :=
  {| ph_Network := Some (demo_iface <$> macs); ph_Id := id; ph_Version := 0; ph_Metadata := "" |}.

(** Machine h1 has the address m1 and h2 has m2; a document is the query that
    finds it, and one that is pushed is its id. *)
#[local] Instance demo_hw_json : HardwareJson :=
  {| hw_marshal h := Ok (ph_Id h);
     hw_unmarshal d :=
       if decide (d = mac_query "m2") then Ok (demo_pb_hw "h2" ["m2"])
       else if decide (d = mac_query "m1") then Ok (demo_pb_hw "h1" ["m1"])
       else if decide (d = "h3") then Ok (demo_pb_hw "h3" ["aa:bb"])
       else Err (NewErr "unexpected end of JSON input") |}.
Definition demo_hw_row (mac : string) : HardwareRow :=
  {| hr_inserted_at := 0; hr_deleted_at := None; hr_data := mac_query mac |}.
Definition demo_machines : DBServer :=
  NewDBServer (demo_db (set_t_hardware {[ "h1" := demo_hw_row "m1"; "h2" := demo_hw_row "m2" ]}
    emptyTables)).

Definition no_machines : DBServer := NewDBServer (demo_db emptyTables).

Lemma push_read_back_witness :
  ∃ s'', ByID "h3" (Push (Some (demo_pb_hw "h3" ["AA:bb"])) no_machines).2 =
    (Ret (Ok (demo_pb_hw "h3" ["aa:bb"])), s'').
Proof.
  apply (push_read_back (demo_pb_hw "h3" ["AA:bb"]) "h3" no_machines
    (Push (Some (demo_pb_hw "h3" ["AA:bb"])) no_machines).2 "h3");
    [|vm_compute; reflexivity..].
  intros c [= <-]. vm_compute. reflexivity.
Defined.

(** A push of h1 with its own address first and the address of h2 second passes
    the check. *)
Lemma push_mac_check_witness :
  ∃ d, validateHardwareData (demo_pb_hw "h1" ["m1"; "m2"]) (sv_db demo_machines) = (Ret None, d).
Proof.
  apply (push_mac_check (demo_pb_hw "h1" ["m1"; "m2"]) [] (demo_iface "m1") [demo_iface "m2"]
    (demo_pb_hw "h1" ["m1"]) demo_machines);
    [done|done|by vm_compute|constructor|by vm_compute|by vm_compute|reflexivity].
Defined.

(** The whole push is accepted; in the other order it is refused. *)
Example own_mac_hides_conflict :
  (Push (Some (demo_pb_hw "h1" ["m1"; "m2"])) demo_machines).1 = Ret None ∧
  (Push (Some (demo_pb_hw "h1" ["m2"; "m1"])) demo_machines).1 =
    Ret (Some (NewErr (conflictMACAddr "m2"))).
Proof. split; vm_compute; reflexivity. Qed.

(** On a server as it is constructed, the first watcher panics. *)
Example new_server_watch_panics d id :
  (watch_open id (NewDBServer d)).1 = Panic "assignment to entry in nil map".
Proof. reflexivity. Qed.

(** With a map, a watcher that is evicted while its client disconnects closes its
    channel a second time and drops its successor's entry. *)
Definition two_watchers : DBServer :=
  (watch_open "h1" (watch_open "h1" (set_watch (Some ∅) (NewDBServer (demo_db emptyTables)))).2).2.
Example evicted_disconnect_panics :
  (watch_turn (λ _, None) "h1" 0 WatchDone (two_watchers, [])).1 = Panic "close of closed channel" ∧
  sv_watch (watch_turn (λ _, None) "h1" 0 WatchDone (two_watchers, [])).2.1 = Some ∅ ∧
  (watch_turn (λ _, None) "h1" 0 WatchRecv (two_watchers, [])).1 =
    Ret (Some (Some (StatusErr Unknown "evicted"))).
Proof. split_and!; vm_compute; reflexivity. Qed.

(** A deletion sends the bare id, which is not the JSON of a hardware: the
    watcher ends with an error. *)
Example delete_ends_watch :
  let s := set_watch (Some ∅) demo_machines in
  (watch_turn (λ _, None) "h1" 0 WatchRecv
     ((Delete "h1" (watch_open "h1" s).2).2, [])).1 =
  Ret (Some (Some (NewErr "unexpected end of JSON input"))).
Proof. vm_compute. reflexivity. Qed.
