(* ===== verification/HwWrapper.v ===== *)
(** * HwWrapper: the JSON of hardware
    (src/pkg/hardware_wrapper.go, and the struct tags of
    src/protos/hardware/hardware.pb.go)

    How encoding/json writes and reads the generated [Hardware] struct, and the
    wrapper that shows its metadata, a JSON text, as an object. A member is
    matched with a field by its exact name first and without regard to case
    otherwise; reading into a field that is set already merges, as in Go. The
    fields of a struct are independent of each other, so that each is read from
    the members that match it. A null in a list of interfaces is an empty
    interface, which is what it is on the wire. *)
From S2P Require Import Prelude Json DbBase DbWorkflow DbHardware.
From stdpp Require Import options.

(** ** Writing: every field has [omitempty] *)
Abbreviation members := (list (string * jvalue)) (only parsing).

(** The members of an object, without the fields that are left out. *)
Definition present (l : list (string * option jvalue)) : members :=
  omap (λ p, pair p.1 <$> p.2) l.

Definition put_str (s : string) : option jvalue := if decide (s = "") then None else Some (JStr s).
Definition put_int (z : Z) : option jvalue := if decide (z = 0) then None else Some (JNum (Itoa z)).
Definition put_bool (b : bool) : option jvalue := if b then Some (JBool true) else None.
Definition put_list {A} (enc : A → jvalue) (l : list A) : option jvalue :=
  if decide (l = []) then None else Some (JArr (map enc l)).

Definition ip_fields (x : PbIP) : list (string * option jvalue) :=
  [("address", put_str (pi_Address x)); ("netmask", put_str (pi_Netmask x));
   ("gateway", put_str (pi_Gateway x)); ("family", put_int (pi_Family x))].
Definition enc_ip (x : PbIP) : jvalue := JObj (present (ip_fields x)).

Definition dhcp_fields (x : PbDHCP) : list (string * option jvalue) :=
  [("mac", put_str (pd_Mac x)); ("hostname", put_str (pd_Hostname x));
   ("lease_time", put_int (pd_LeaseTime x)); ("name_servers", put_list JStr (pd_NameServers x));
   ("time_servers", put_list JStr (pd_TimeServers x)); ("arch", put_str (pd_Arch x));
   ("uefi", put_bool (pd_Uefi x)); ("iface_name", put_str (pd_IfaceName x));
   ("ip", enc_ip <$> pd_Ip x)].
Definition enc_dhcp (x : PbDHCP) : jvalue := JObj (present (dhcp_fields x)).

Definition ipxe_fields (x : PbIPXE) : list (string * option jvalue) :=
  [("url", put_str (px_Url x)); ("contents", put_str (px_Contents x))].
Definition enc_ipxe (x : PbIPXE) : jvalue := JObj (present (ipxe_fields x)).

Definition osie_fields (x : PbOsie) : list (string * option jvalue) :=
  [("base_url", put_str (po_BaseUrl x)); ("kernel", put_str (po_Kernel x));
   ("initrd", put_str (po_Initrd x))].
Definition enc_osie (x : PbOsie) : jvalue := JObj (present (osie_fields x)).

Definition netboot_fields (x : PbNetboot) : list (string * option jvalue) :=
  [("allow_pxe", put_bool (pn_AllowPxe x)); ("allow_workflow", put_bool (pn_AllowWorkflow x));
   ("ipxe", enc_ipxe <$> pn_Ipxe x); ("osie", enc_osie <$> pn_Osie x)].
Definition enc_netboot (x : PbNetboot) : jvalue := JObj (present (netboot_fields x)).

Definition interface_fields (x : PbInterface) : list (string * option jvalue) :=
  [("dhcp", enc_dhcp <$> pf_Dhcp x); ("netboot", enc_netboot <$> pf_Netboot x)].
Definition enc_interface (x : PbInterface) : jvalue := JObj (present (interface_fields x)).

Definition network_fields (l : list PbInterface) : list (string * option jvalue) :=
  [("interfaces", put_list enc_interface l)].
Definition enc_network (l : list PbInterface) : jvalue := JObj (present (network_fields l)).

Definition hw_fields (hw : PbHardware) : list (string * option jvalue) :=
  [("network", enc_network <$> ph_Network hw); ("id", put_str (ph_Id hw));
   ("version", put_int (ph_Version hw)); ("metadata", put_str (ph_Metadata hw))].
Definition enc_hw (hw : PbHardware) : jvalue := JObj (present (hw_fields hw)).

(** ** Reading *)
Definition match_field (names : list string) (k : string) : option string :=
  if decide (k ∈ names) then Some k else snd <$> list_find (λ n, EqualFold k n = true) names.

(** A field, from the members of an object that match it. *)
Definition field {A} (names : list string) (f : string) (dec : A → jvalue → option A)
    (l : members) (old : A) : option A :=
  foldl (λ acc p, x ← acc;
    if decide (match_field names p.1 = Some f) then dec x p.2 else Some x) (Some old) l.

Definition dec_str (old : string) (v : jvalue) : option string :=
  match v with JStr s => Some s | JNull => Some old | _ => None end.
Definition dec_int (old : Z) (v : jvalue) : option Z :=
  match v with JNum lit => parse_int64 lit | JNull => Some old | _ => None end.
Definition dec_bool (old : bool) (v : jvalue) : option bool :=
  match v with JBool b => Some b | JNull => Some old | _ => None end.
Definition dec_ptr {A} (dec : A → jvalue → option A) (zero : A) (old : option A) (v : jvalue)
    : option (option A) :=
  match v with JNull => Some None | _ => Some <$> dec (default zero old) v end.
Fixpoint dec_elems {A} (dec : A → jvalue → option A) (zero : A) (old : list A) (l : list jvalue)
    : option (list A) :=
  match l with
  | [] => Some []
  | v :: l' =>
      x ← dec (default zero (head old)) v; xs ← dec_elems dec zero (tail old) l'; Some (x :: xs)
  end.
Definition dec_list {A} (dec : A → jvalue → option A) (zero : A) (old : list A) (v : jvalue)
    : option (list A) :=
  match v with JNull => Some [] | JArr l => dec_elems dec zero old l | _ => None end.
Definition dec_struct {A} (dec : members → A → option A) (old : A) (v : jvalue) : option A :=
  match v with JNull => Some old | JObj l => dec l old | _ => None end.

Definition zero_ip : PbIP := {| pi_Address := ""; pi_Netmask := ""; pi_Gateway := ""; pi_Family := 0 |}.
Definition ip_names := ["address"; "netmask"; "gateway"; "family"].
Definition dec_ip : PbIP → jvalue → option PbIP := dec_struct (λ l x,
  a ← field ip_names "address" dec_str l (pi_Address x);
  n ← field ip_names "netmask" dec_str l (pi_Netmask x);
  g ← field ip_names "gateway" dec_str l (pi_Gateway x);
  f ← field ip_names "family" dec_int l (pi_Family x);
  Some {| pi_Address := a; pi_Netmask := n; pi_Gateway := g; pi_Family := f |}).

Definition zero_dhcp : PbDHCP :=
  {| pd_Mac := ""; pd_Hostname := ""; pd_LeaseTime := 0; pd_NameServers := []; pd_TimeServers := [];
     pd_Arch := ""; pd_Uefi := false; pd_IfaceName := ""; pd_Ip := None |}.
Definition dhcp_names :=
  ["mac"; "hostname"; "lease_time"; "name_servers"; "time_servers"; "arch"; "uefi"; "iface_name"; "ip"].
Definition dec_dhcp : PbDHCP → jvalue → option PbDHCP := dec_struct (λ l x,
  m ← field dhcp_names "mac" dec_str l (pd_Mac x);
  h ← field dhcp_names "hostname" dec_str l (pd_Hostname x);
  t ← field dhcp_names "lease_time" dec_int l (pd_LeaseTime x);
  ns ← field dhcp_names "name_servers" (dec_list dec_str "") l (pd_NameServers x);
  ts ← field dhcp_names "time_servers" (dec_list dec_str "") l (pd_TimeServers x);
  a ← field dhcp_names "arch" dec_str l (pd_Arch x);
  u ← field dhcp_names "uefi" dec_bool l (pd_Uefi x);
  i ← field dhcp_names "iface_name" dec_str l (pd_IfaceName x);
  ip ← field dhcp_names "ip" (dec_ptr dec_ip zero_ip) l (pd_Ip x);
  Some {| pd_Mac := m; pd_Hostname := h; pd_LeaseTime := t; pd_NameServers := ns;
          pd_TimeServers := ts; pd_Arch := a; pd_Uefi := u; pd_IfaceName := i; pd_Ip := ip |}).

Definition zero_ipxe : PbIPXE := {| px_Url := ""; px_Contents := "" |}.
Definition ipxe_names := ["url"; "contents"].
Definition dec_ipxe : PbIPXE → jvalue → option PbIPXE := dec_struct (λ l x,
  u ← field ipxe_names "url" dec_str l (px_Url x);
  c ← field ipxe_names "contents" dec_str l (px_Contents x);
  Some {| px_Url := u; px_Contents := c |}).

Definition zero_osie : PbOsie := {| po_BaseUrl := ""; po_Kernel := ""; po_Initrd := "" |}.
Definition osie_names := ["base_url"; "kernel"; "initrd"].
Definition dec_osie : PbOsie → jvalue → option PbOsie := dec_struct (λ l x,
  b ← field osie_names "base_url" dec_str l (po_BaseUrl x);
  k ← field osie_names "kernel" dec_str l (po_Kernel x);
  i ← field osie_names "initrd" dec_str l (po_Initrd x);
  Some {| po_BaseUrl := b; po_Kernel := k; po_Initrd := i |}).

Definition zero_netboot : PbNetboot :=
  {| pn_AllowPxe := false; pn_AllowWorkflow := false; pn_Ipxe := None; pn_Osie := None |}.
Definition netboot_names := ["allow_pxe"; "allow_workflow"; "ipxe"; "osie"].
Definition dec_netboot : PbNetboot → jvalue → option PbNetboot := dec_struct (λ l x,
  p ← field netboot_names "allow_pxe" dec_bool l (pn_AllowPxe x);
  w ← field netboot_names "allow_workflow" dec_bool l (pn_AllowWorkflow x);
  i ← field netboot_names "ipxe" (dec_ptr dec_ipxe zero_ipxe) l (pn_Ipxe x);
  o ← field netboot_names "osie" (dec_ptr dec_osie zero_osie) l (pn_Osie x);
  Some {| pn_AllowPxe := p; pn_AllowWorkflow := w; pn_Ipxe := i; pn_Osie := o |}).

Definition zero_interface : PbInterface := {| pf_Dhcp := None; pf_Netboot := None |}.
Definition interface_names := ["dhcp"; "netboot"].
Definition dec_interface_fields (l : members) (x : PbInterface) : option PbInterface :=
  d ← field interface_names "dhcp" (dec_ptr dec_dhcp zero_dhcp) l (pf_Dhcp x);
  n ← field interface_names "netboot" (dec_ptr dec_netboot zero_netboot) l (pf_Netboot x);
  Some {| pf_Dhcp := d; pf_Netboot := n |}.
Definition dec_interface (old : PbInterface) (v : jvalue) : option PbInterface :=
  match v with JNull => Some zero_interface | _ => dec_struct dec_interface_fields old v end.

Definition network_names := ["interfaces"].
Definition dec_network : list PbInterface → jvalue → option (list PbInterface) :=
  dec_struct (λ l x, field network_names "interfaces" (dec_list dec_interface zero_interface) l x).

Definition zero_hw : PbHardware :=
  {| ph_Network := None; ph_Id := ""; ph_Version := 0; ph_Metadata := "" |}.
Definition hw_names := ["network"; "id"; "version"; "metadata"].
Definition dec_hw_members (l : members) (x : PbHardware) : option PbHardware :=
  n ← field hw_names "network" (dec_ptr dec_network []) l (ph_Network x);
  i ← field hw_names "id" dec_str l (ph_Id x);
  v ← field hw_names "version" dec_int l (ph_Version x);
  m ← field hw_names "metadata" dec_str l (ph_Metadata x);
  Some {| ph_Network := n; ph_Id := i; ph_Version := v; ph_Metadata := m |}.
Definition dec_hw : PbHardware → jvalue → option PbHardware := dec_struct dec_hw_members.

(** ** [json.Marshal] and [json.Unmarshal] of a hardware *)
Definition json_error : error := ExtErr "json: cannot unmarshal".
Definition of_option {A} (o : option A) : result A :=
  match o with Some a => Ok a | None => Err json_error end.

#[global] Instance go_hardware_json : HardwareJson | 50 := {
  hw_marshal hw := Ok (json_print (enc_hw hw));
  hw_unmarshal s := of_option (v ← json_parse s; dec_hw zero_hw v)
}.

(** ** The wrapper

    A [HardwareWrapper] is the pointer it embeds. A JSON object read into a map is
    sorted; [None] is the nil map that null gives. *)
Section wrapper.
Context `{FL : Floats}.
#[local] Open Scope go_scope.

Definition unmarshal_map (s : string) : result (option members) :=
  match json_parse s ≫= to_any with
  | Some (JObj l) => Ok (Some l)
  | Some JNull => Ok None
  | _ => Err json_error
  end.
Definition map_value (m : option members) : jvalue :=
  match m with Some l => JObj l | None => JNull end.

(** The metadata is read through the embedded pointer, which panics when it is
    nil. *)
Definition MarshalJSON {S} (h : option PbHardware) : go S (result string) :=
  let hwByte := json_print (match h with Some hw => enc_hw hw | None => JNull end) in
  match unmarshal_map hwByte with
  | Err e => go_ret (Err e)
  | Ok tmp =>
      match h with
      | None => go_panic "invalid memory address or nil pointer dereference"
      | Some hw =>
          if decide (ph_Metadata hw ≠ "") then
            match unmarshal_map (ph_Metadata hw) with
            | Err e => go_ret (Err e)
            | Ok metadata =>
                match tmp with
                | None => go_panic "assignment to entry in nil map"
                | Some l =>
                    go_ret (Ok (json_print (JObj (obj_insert "metadata" (map_value metadata) l))))
                end
            end
          else go_ret (Ok (json_print (map_value tmp)))
      end
  end.

(** Reading allocates the embedded struct when a member matches a field. *)
Definition dec_wrapper (v : jvalue) : option (option PbHardware) :=
  match v with
  | JNull => Some None
  | JObj l =>
      if decide (Exists (λ p, is_Some (match_field hw_names p.1)) l)
      then Some <$> dec_hw_members l zero_hw else Some None
  | _ => None
  end.

Definition UnmarshalJSON (b : string) : result (option PbHardware) :=
  match unmarshal_map b with
  | Err e => Err e
  | Ok tmp =>
      let tmp := match tmp with
                 | Some l =>
                     match obj_lookup "metadata" l with
                     | Some v => Some (obj_insert "metadata" (JStr (json_print v)) l)
                     | None => Some l
                     end
                 | None => None
                 end in
      of_option (v ← json_parse (json_print (map_value tmp)); dec_wrapper v)
  end.
End wrapper.

(** ** The numbers of a message *)
Definition dhcp_numbers (good : Z → Prop) (x : PbDHCP) : Prop :=
  good (pd_LeaseTime x) ∧ ∀ ip, pd_Ip x = Some ip → good (pi_Family ip).
Definition interface_numbers (good : Z → Prop) (x : PbInterface) : Prop :=
  ∀ d, pf_Dhcp x = Some d → dhcp_numbers good d.
Definition hw_numbers (good : Z → Prop) (hw : PbHardware) : Prop :=
  good (ph_Version hw) ∧
  ∀ l, ph_Network hw = Some l → ∀ x, x ∈ l → interface_numbers good x.

(** ** What is written is read back

    Directly, and through a map: both are a conversion of values that keeps
    strings, booleans and the numbers that are [good], and of an object the
    members under their names. *)
Lemma obj_lookup_None k (l : members) : obj_lookup k l = None ↔ k ∉ l.*1.
Proof.
  induction l as [|[k' v] l IH]; csimpl; [split; [set_solver|done]|].
  case_decide as E; [subst; set_solver|]. rewrite IH. set_solver.
Qed.

Lemma match_field_exact names k : k ∈ names → match_field names k = Some k.
Proof. intros H. unfold match_field. by rewrite decide_True. Qed.

Lemma field_lookup {A} names f (dec : A → jvalue → option A) l old :
  NoDup l.*1 → (∀ k, k ∈ l.*1 → k ∈ names) →
  field names f dec l old = match obj_lookup f l with Some v => dec old v | None => Some old end.
Proof.
  unfold field. revert old. induction l as [|[k v] l IH]; intros old Hnd Hn; csimpl; [done|].
  apply NoDup_cons in Hnd as [Hk Hnd].
  rewrite match_field_exact by (apply Hn; csimpl; set_solver).
  assert (∀ k, k ∈ l.*1 → k ∈ names) as Hn' by (intros k' Hk'; apply Hn; csimpl; set_solver).
  destruct (decide (f = k)) as [<-|Hne].
  - rewrite decide_True by done. destruct (dec old v) as [x|].
    + rewrite IH by done. by rewrite (proj2 (obj_lookup_None f l)).
    + clear. induction l as [|? l IHl]; csimpl; [done|apply IHl].
  - rewrite decide_False by congruence. by apply IH.
Qed.

Lemma present_keys l : (present l).*1 `sublist_of` l.*1.
Proof.
  induction l as [|[k [v|]] l IH]; csimpl; [constructor|by constructor|by constructor].
Qed.

Lemma present_lookup f o l : NoDup l.*1 → (f, o) ∈ l → obj_lookup f (present l) = o.
Proof.
  induction l as [|[k o'] l IH]; csimpl; intros Hnd Hin; [by apply not_elem_of_nil in Hin|].
  apply NoDup_cons in Hnd as [Hk Hnd]. apply elem_of_cons in Hin as [[= -> ->]|Hin].
  - destruct o' as [v|]; csimpl; [by rewrite decide_True|].
    apply obj_lookup_None. intros H. apply Hk. eapply sublist_subseteq; [apply present_keys|done].
  - assert (f ≠ k) as Hne. { intros ->. apply Hk. by eapply (list_elem_of_fmap_2 fst _ _ Hin). }
    destruct o' as [v|]; csimpl; [rewrite decide_False by done|]; by apply IH.
Qed.

Create HintDb hw_reads.

Section reading.
Context (conv : jvalue → option jvalue) (good : Z → Prop).
Hypothesis conv_str : ∀ s, conv (JStr s) = Some (JStr s).
Hypothesis conv_bool : ∀ b, conv (JBool b) = Some (JBool b).
Hypothesis conv_num : ∀ z, good z → conv (JNum (Itoa z)) = Some (JNum (Itoa z)).
Hypothesis conv_arr : ∀ l l', mapM conv l = Some l' → conv (JArr l) = Some (JArr l').
Hypothesis conv_obj : ∀ l, NoDup l.*1 → Forall (λ p, is_Some (conv p.2)) l →
  ∃ m, conv (JObj l) = Some (JObj m) ∧ NoDup m.*1 ∧ (∀ k, k ∈ m.*1 → k ∈ l.*1) ∧
    ∀ f, obj_lookup f m = obj_lookup f l ≫= conv.
Hypothesis conv_null : ∀ v, conv v = Some JNull → v = JNull.
Hypothesis good_int64 : ∀ z, good z → in_int64 z.
#[local] Set Default Proof Using "Type*".

(** A written field, when there is one, is read as [a] into [old]. *)
Definition reads {A} (dec : A → jvalue → option A) (old : A) (o : option jvalue) (a : A) : Prop :=
  match o with
  | Some v => ∃ v', conv v = Some v' ∧ dec old v' = Some a
  | None => a = old
  end.

(** An object with the fields [fs] is read by [dec] as [a]. *)
Lemma struct_reads {A} names fs (dec : members → A → option A) old a :
  fs.*1 = names → NoDup names →
  Forall (λ p, ∃ (B : Type) (d : B → jvalue → option B) b b', reads d b p.2 b') fs →
  (∀ m, (∀ (B : Type) (d : B → jvalue → option B) f o (b b' : B),
           (f, o) ∈ fs → reads d b o b' → field names f d m b = Some b') →
        dec m old = Some a) →
  reads (dec_struct dec) old (Some (JObj (present fs))) a.
Proof.
  intros <- Hnd Hall Hdec.
  assert (NoDup (present fs).*1) as Hnd' by (eapply sublist_NoDup; [done|apply present_keys]).
  destruct (conv_obj (present fs) Hnd') as (m & Hm & Hndm & Hkeys & Hl).
  { apply Forall_forall. intros [k v] Hin. apply list_elem_of_omap in Hin as ([k' o] & Hin & Ho).
    simpl in Ho. destruct o as [v'|]; simplify_eq/=. rewrite Forall_forall in Hall.
    destruct (Hall _ Hin) as (B & d & b & b' & v' & Hv' & _). by exists v'. }
  exists (JObj m). split; [done|]. simpl. apply Hdec. intros B d f o b b' Hin Hr.
  rewrite field_lookup; [|done|].
  - rewrite Hl, (present_lookup f o) by done. destruct o as [v|]; simpl in *; [|by rewrite Hr].
    destruct Hr as (v' & -> & ->). done.
  - intros k Hk. eapply sublist_subseteq; [apply present_keys|]. by apply Hkeys.
Qed.

Lemma str_reads s : reads dec_str "" (put_str s) s.
Proof. unfold put_str. case_decide; simpl; [done|]. eauto. Qed.

Lemma int_reads z : good z → reads dec_int 0 (put_int z) z.
Proof.
  intros Hz. unfold put_int. case_decide; simpl; [done|]. exists (JNum (Itoa z)).
  split; [by apply conv_num|]. simpl. by apply parse_int64_Itoa, good_int64.
Qed.

Lemma bool_reads b : reads dec_bool false (put_bool b) b.
Proof. destruct b; simpl; [|done]. eauto. Qed.

Lemma ptr_reads {A} (dec : A → jvalue → option A) zero enc (o : option A) :
  (∀ a, o = Some a → reads dec zero (Some (enc a)) a) → (∀ a, enc a ≠ JNull) →
  reads (dec_ptr dec zero) None (enc <$> o) o.
Proof.
  intros Hd He. destruct o as [a|]; simpl; [|done].
  destruct (Hd a eq_refl) as (v & Hv & Ha). exists v. split; [done|].
  destruct v; simpl in *; try by rewrite Ha.
  by apply conv_null, He in Hv.
Qed.

Lemma list_reads {A} (dec : A → jvalue → option A) zero enc (l : list A) :
  (∀ a, a ∈ l → reads dec zero (Some (enc a)) a) → reads (dec_list dec zero) [] (put_list enc l) l.
Proof.
  intros Hd. unfold put_list. case_decide; simpl; [done|].
  assert (∃ l', mapM conv (map enc l) = Some l' ∧ dec_elems dec zero [] l' = Some l)
    as (l' & Hl & Hdec).
  { clear H. induction l as [|a l IH]; [by exists []|]. destruct IH as (l' & Hl & Hdec).
    { intros b Hb. apply Hd. set_solver. }
    destruct (Hd a ltac:(set_solver)) as (v & Hv & Ha).
    exists (v :: l'). cbn [map mapM]. rewrite Hv. cbn [mbind option_bind]. rewrite Hl.
    split; [done|]. simpl. by rewrite Ha, Hdec. }
  exists (JArr l'). split; [by apply conv_arr|]. done.
Qed.

#[local] Hint Resolve str_reads int_reads bool_reads : hw_reads.

(** A struct field by field. *)
Ltac read_struct :=
  let m := fresh "m" in let Hf := fresh "Hf" in
  match goal with |- reads ?dec ?zero (Some (JObj (present ?fs))) ?x =>
    eapply (struct_reads _ fs); [reflexivity|by apply (bool_decide_unpack _)| |]
  end;
  [unfold ip_fields, dhcp_fields, ipxe_fields, osie_fields, netboot_fields, interface_fields,
     network_fields, hw_fields;
   repeat first [apply Forall_nil_2 | apply Forall_cons; split; [by eauto 10 with hw_reads|]]
  |intros m Hf; cbn;
   repeat (erewrite Hf; [|by repeat first [left | right]|by eauto with hw_reads]; cbn)].

Lemma ip_reads x : good (pi_Family x) → reads dec_ip zero_ip (Some (enc_ip x)) x.
Proof. intros Hx. unfold enc_ip, dec_ip. read_struct. by destruct x. Qed.

Lemma ipxe_reads x : reads dec_ipxe zero_ipxe (Some (enc_ipxe x)) x.
Proof. unfold enc_ipxe, dec_ipxe. read_struct. by destruct x. Qed.

Lemma osie_reads x : reads dec_osie zero_osie (Some (enc_osie x)) x.
Proof. unfold enc_osie, dec_osie. read_struct. by destruct x. Qed.

Lemma dhcp_reads x : dhcp_numbers good x → reads dec_dhcp zero_dhcp (Some (enc_dhcp x)) x.
Proof.
  intros [Hl Hip].
  assert (reads (dec_ptr dec_ip zero_ip) None (enc_ip <$> pd_Ip x) (pd_Ip x)) as H
    by (apply ptr_reads; [intros ip Hx; by apply ip_reads, Hip|done]).
  assert (∀ l, reads (dec_list dec_str "") [] (put_list JStr l) l) as Hs
    by (intros l; apply list_reads; intros a _; simpl; eauto).
  unfold enc_dhcp, dec_dhcp. read_struct. by destruct x.
Qed.

Lemma netboot_reads x : reads dec_netboot zero_netboot (Some (enc_netboot x)) x.
Proof.
  assert (reads (dec_ptr dec_ipxe zero_ipxe) None (enc_ipxe <$> pn_Ipxe x) (pn_Ipxe x)) as H1
    by (apply ptr_reads; [intros ? _; apply ipxe_reads|done]).
  assert (reads (dec_ptr dec_osie zero_osie) None (enc_osie <$> pn_Osie x) (pn_Osie x)) as H2
    by (apply ptr_reads; [intros ? _; apply osie_reads|done]).
  unfold enc_netboot, dec_netboot. read_struct. by destruct x.
Qed.

Lemma interface_reads x :
  interface_numbers good x → reads dec_interface zero_interface (Some (enc_interface x)) x.
Proof.
  intros Hx.
  assert (reads (dec_ptr dec_dhcp zero_dhcp) None (enc_dhcp <$> pf_Dhcp x) (pf_Dhcp x)) as H1
    by (apply ptr_reads; [intros d Hd; by apply dhcp_reads, Hx|done]).
  assert (reads (dec_ptr dec_netboot zero_netboot) None (enc_netboot <$> pf_Netboot x)
    (pf_Netboot x)) as H2 by (apply ptr_reads; [intros ? _; apply netboot_reads|done]).
  enough (reads (dec_struct dec_interface_fields) zero_interface (Some (enc_interface x)) x)
    as (v & Hv & Hd).
  { exists v. split; [done|]. by destruct v. }
  unfold enc_interface, dec_interface_fields. read_struct. by destruct x.
Qed.

Lemma network_reads l :
  (∀ x, x ∈ l → interface_numbers good x) → reads dec_network [] (Some (enc_network l)) l.
Proof.
  intros Hl.
  assert (reads (dec_list dec_interface zero_interface) [] (put_list enc_interface l) l) as H
    by (apply list_reads; intros x Hx; by apply interface_reads, Hl).
  unfold enc_network, dec_network. read_struct. done.
Qed.

Lemma hw_fields_reads hw :
  hw_numbers good hw → reads dec_hw zero_hw (Some (enc_hw hw)) hw.
Proof.
  intros [Hv Hn].
  assert (reads (dec_ptr dec_network []) None (enc_network <$> ph_Network hw) (ph_Network hw)) as H
    by (apply ptr_reads; [intros l Hl; by apply network_reads, Hn|done]).
  unfold enc_hw, dec_hw, dec_hw_members. read_struct. by destruct hw.
Qed.
End reading.

(** The two conversions: none, for values that have a JSON text, and the one
    through a map. *)
Definition checked (v : jvalue) : option jvalue := if json_ok v then Some v else None.

Lemma checked_Some v v' : checked v = Some v' ↔ json_ok v = true ∧ v' = v.
Proof. unfold checked. destruct (json_ok v); naive_solver. Qed.

Lemma checked_hw hw : hw_numbers in_int64 hw → reads checked dec_hw zero_hw (Some (enc_hw hw)) hw.
Proof.
  apply hw_fields_reads; try done.
  - intros z _. unfold checked. simpl. by rewrite (proj1 (Itoa_number z)).
  - intros l l' Hl. apply mapM_Some_1 in Hl. apply checked_Some. simpl.
    assert (l' = l ∧ forallb json_ok l = true) as [-> ->]; [|done].
    induction Hl as [|v v' l l' [Hv ->]%checked_Some _ [-> Hl]]; [done|]. simpl. by rewrite Hv, Hl.
  - intros l Hnd Hall. exists l. split_and!; try done.
    + apply checked_Some. split; [|done]. simpl. apply forallb_forall.
      intros p Hp%list_elem_of_In. rewrite Forall_forall in Hall.
      by destruct (Hall p Hp) as [? [? _]%checked_Some].
    + intros f. destruct (obj_lookup f l) as [v|] eqn:E; [|done]. simpl. symmetry.
      assert ((f, v) ∈ l) as Hin.
      { clear -E. induction l as [|[k w] l IH]; simpl in E; [done|].
        case_decide; simplify_eq; [left|right; auto]. }
      rewrite Forall_forall in Hall. destruct (Hall _ Hin) as [? [Hv _]%checked_Some].
      by apply checked_Some.
  - intros v [_ H]%checked_Some. done.
Qed.

Lemma obj_lookup_foldl f l m :
  NoDup l.*1 →
  obj_lookup f (foldl (λ m p, obj_insert p.1 p.2 m) m l) =
  match obj_lookup f l with Some v => Some v | None => obj_lookup f m end.
Proof.
  revert m. induction l as [|[k v] l IH]; intros m Hnd; csimpl; [done|].
  apply NoDup_cons in Hnd as [Hk Hnd]. rewrite IH by done. case_decide as E.
  - subst. rewrite (proj2 (obj_lookup_None k l)) by done. apply obj_lookup_insert.
  - by rewrite obj_lookup_insert_ne.
Qed.

Lemma sorted_keys_NoDup l : StronglySorted key_lt l → NoDup l.*1.
Proof.
  induction 1 as [|[k v] l Hl IH Hh]; csimpl; constructor; [|done].
  intros ([k' v'] & -> & Hin)%list_elem_of_fmap. rewrite Forall_forall in Hh.
  specialize (Hh _ Hin). unfold key_lt in Hh. simpl in Hh. by rewrite compare_refl in Hh.
Qed.

Definition int53 (z : Z) : Prop := Z.abs z ≤ 2 ^ 53.

Section any.
Context `{FL : Floats}.

Lemma to_any_obj l :
  NoDup l.*1 → Forall (λ p, is_Some (to_any p.2)) l →
  ∃ m, to_any (JObj l) = Some (JObj m) ∧ NoDup m.*1 ∧ (∀ k, k ∈ m.*1 → k ∈ l.*1) ∧
    ∀ f, obj_lookup f m = obj_lookup f l ≫= to_any.
Proof.
  intros Hnd Hall.
  assert (∃ m, mapM (λ p, pair p.1 <$> to_any p.2) l = Some m ∧ m.*1 = l.*1 ∧
    ∀ f, obj_lookup f m = obj_lookup f l ≫= to_any) as (m & Hm & Hk & Hl).
  { clear Hnd. induction Hall as [|[k v] l [v' Hv] _ (m & Hm & Hk & Hl)]; [by exists []|].
    simpl in Hv. exists ((k, v') :: m). simpl. rewrite Hv. simpl. rewrite Hm. split; [done|].
    csimpl. split; [by f_equal|]. intros f. case_decide; [by rewrite <- Hv|apply Hl]. }
  exists (obj_of m). simpl. rewrite Hm. split; [done|].
  split; [apply sorted_keys_NoDup, obj_of_sorted|]. rewrite <- Hk in Hnd |- *. split.
  - intros k ([k' v] & -> & Hin)%list_elem_of_fmap.
    assert (Forall (λ p, p.1 ∈ m.*1) (obj_of m)) as Hf.
    { apply obj_of_Forall, Forall_forall. intros p Hp. by apply list_elem_of_fmap_2. }
    rewrite Forall_forall in Hf. by apply (Hf _ Hin).
  - intros f. unfold obj_of. rewrite obj_lookup_foldl by done. rewrite <- Hl. by case_match.
Qed.

Lemma any_hw hw : hw_numbers int53 hw → reads to_any dec_hw zero_hw (Some (enc_hw hw)) hw.
Proof.
  apply hw_fields_reads; try done.
  - intros z Hz. simpl. change (Itoa z) with (integer_text z). by rewrite float_text_int.
  - intros l l' Hl. simpl. by rewrite Hl.
  - apply to_any_obj.
  - intros [] Hv; simpl in Hv; try done; by apply fmap_Some in Hv as (? & ? & ?).
  - intros z Hz. unfold int53, in_int64 in *. lia.
Qed.
End any.

(** ** Properties *)
Definition set_metadata (md : string) (hw : PbHardware) : PbHardware :=
  {| ph_Network := ph_Network hw; ph_Id := ph_Id hw; ph_Version := ph_Version hw;
     ph_Metadata := md |}.

(** A metadata text after being shown and read again: the same object with its
    keys sorted and without white space. *)
Definition shown_metadata `{Floats} (md : string) : result string :=
  if decide (md = "") then Ok ""
  else match unmarshal_map md with
       | Ok m => Ok (json_print (map_value m))
       | Err e => Err e
       end.

Section lemmas.
Context `{FL : Floats}.
#[local] Set Default Proof Using "Type*".

Lemma any_obj_ok l : any_ok (JObj l) ↔ StronglySorted key_lt l ∧ Forall (λ p, any_ok p.2) l.
Proof. simpl. by rewrite foldr_and_Forall. Qed.

Lemma unmarshal_print m :
  any_ok (map_value m) → unmarshal_map (json_print (map_value m)) = Ok m.
Proof.
  intros Hm. unfold unmarshal_map. rewrite json_parse_print by by apply any_json_ok.
  cbn [mbind option_bind]. rewrite to_any_id by done. by destruct m.
Qed.

Lemma unmarshal_map_ok s m : unmarshal_map s = Ok m → any_ok (map_value m).
Proof.
  unfold unmarshal_map. destruct (json_parse s ≫= to_any) as [v|] eqn:E; [|done].
  destruct (json_parse s) as [v0|]; [|done]. simpl in E. apply to_any_ok in E.
  destruct v; intros; simplify_eq; done.
Qed.

Lemma any_insert k v l : any_ok v → any_ok (JObj l) → any_ok (JObj (obj_insert k v l)).
Proof.
  rewrite !any_obj_ok. intros Hv [Hs Hl].
  split; [by apply obj_insert_sorted|by apply obj_insert_Forall].
Qed.

(** The map that [MarshalJSON] fills. *)
Lemma hw_map hw :
  hw_numbers int53 hw →
  ∃ m, unmarshal_map (json_print (enc_hw hw)) = Ok (Some m) ∧ any_ok (JObj m) ∧
    (∀ k, k ∈ m.*1 → k ∈ hw_names) ∧ dec_hw_members m zero_hw = Some hw ∧
    obj_lookup "metadata" m = put_str (ph_Metadata hw) ∧
    obj_lookup "id" m = put_str (ph_Id hw).
Proof.
  intros Hn. assert (hw_numbers in_int64 hw) as Hn'.
  { destruct Hn as [Hv Hl]. unfold int53, in_int64 in *. split; [lia|].
    intros l Hl' x Hx d Hd. destruct (Hl l Hl' x Hx d Hd) as [H1 H2].
    split; [lia|]. intros ip Hip. specialize (H2 ip Hip). simpl in H2. lia. }
  destruct (checked_hw hw Hn') as (v & [Hok _]%checked_Some & _).
  destruct (any_hw hw Hn) as (v' & Hv' & Hdec).
  assert (NoDup (hw_fields hw).*1) as Hnd by by apply (bool_decide_unpack _).
  assert (NoDup (present (hw_fields hw)).*1) as Hndp
    by (eapply sublist_NoDup; [done|apply present_keys]).
  destruct (to_any_obj (present (hw_fields hw))) as (m & Hm & Hndm & Hk & Hl); [done| |].
  { simpl in Hv'. apply fmap_Some in Hv' as (l & Hl & _). apply mapM_Some_1 in Hl.
    apply Forall_forall. intros p Hp. apply list_elem_of_lookup in Hp as [i Hi].
    destruct (Forall2_lookup_l _ _ _ _ _ Hl Hi) as (q & _ & Hq). destruct (to_any p.2); [by eexists|done]. }
  assert (v' = JObj m) as -> by (unfold enc_hw in Hv'; congruence).
  exists m. split_and!.
  - unfold unmarshal_map. rewrite json_parse_print by done. cbn [mbind option_bind].
    unfold enc_hw. by rewrite Hm.
  - by eapply to_any_ok.
  - intros k Hk'. apply Hk in Hk'. by eapply (sublist_subseteq _ _ (present_keys (hw_fields hw))).
  - done.
  - rewrite Hl, (present_lookup "metadata" (put_str (ph_Metadata hw))) by (done || by repeat first [left|right]).
    unfold put_str. by case_decide.
  - rewrite Hl, (present_lookup "id" (put_str (ph_Id hw))) by (done || by repeat first [left|right]).
    unfold put_str. by case_decide.
Qed.

Lemma insert_keys k v (l : members) (P : string → Prop) :
  P k → (∀ k, k ∈ l.*1 → P k) → ∀ k', k' ∈ (obj_insert k v l).*1 → P k'.
Proof.
  intros Hk Hl k' ([k2 v2] & -> & Hin)%list_elem_of_fmap.
  assert (Forall (λ p, P p.1) (obj_insert k v l)) as Hf.
  { apply obj_insert_Forall; [done|]. apply Forall_forall. intros p Hp.
    by apply Hl, list_elem_of_fmap_2. }
  rewrite Forall_forall in Hf. by apply (Hf _ Hin).
Qed.

(** A text stored under metadata is read into the field of that name, and changes
    no other. *)
Lemma dec_set_metadata md m m' hw :
  NoDup m.*1 → NoDup m'.*1 → (∀ k, k ∈ m.*1 → k ∈ hw_names) → (∀ k, k ∈ m'.*1 → k ∈ hw_names) →
  (∀ f, f ≠ "metadata" → obj_lookup f m' = obj_lookup f m) →
  obj_lookup "metadata" m' = Some (JStr md) →
  dec_hw_members m zero_hw = Some hw → dec_hw_members m' zero_hw = Some (set_metadata md hw).
Proof.
  intros Hnd Hnd' Hk Hk' Hl Hmd. unfold dec_hw_members.
  rewrite !field_lookup, Hmd, !(Hl "network"), !(Hl "id"), !(Hl "version") by done.
  set (a := match obj_lookup "network" m with Some _ => _ | None => _ end).
  set (b := match obj_lookup "id" m with Some _ => _ | None => _ end).
  set (c := match obj_lookup "version" m with Some _ => _ | None => _ end).
  set (d := match obj_lookup "metadata" m with Some _ => _ | None => _ end).
  destruct a, b, c, d; simpl; intros; by simplify_eq.
Qed.

(** Reading the text of a map with a member of the hardware. *)
Lemma unmarshal_wrapper m id md :
  any_ok (JObj m) → obj_lookup "id" m = Some id →
  (∀ v, obj_lookup "metadata" m = Some v → md = json_print v) →
  UnmarshalJSON (json_print (JObj m)) =
  of_option (Some <$> dec_hw_members
    (if obj_lookup "metadata" m is Some _ then obj_insert "metadata" (JStr md) m else m) zero_hw).
Proof.
  intros Hm Hid Hmd. unfold UnmarshalJSON. change (JObj m) with (map_value (Some m)).
  rewrite unmarshal_print by done. 
  set (m' := if obj_lookup "metadata" m is Some _ then obj_insert "metadata" (JStr md) m else m).
  assert (any_ok (JObj m') ∧ obj_lookup "id" m' = Some id ∧
    match obj_lookup "metadata" m with
    | Some v => Some (obj_insert "metadata" (JStr (json_print v)) m) | None => Some m end = Some m')
    as (Hm' & Hid' & ->).
  { unfold m'. destruct (obj_lookup "metadata" m) as [v|] eqn:E; [|done].
    rewrite (Hmd v) by done. split_and!; [by apply any_insert| |done].
    by rewrite obj_lookup_insert_ne. }
  simpl map_value. rewrite json_parse_print by by apply any_json_ok. cbn [mbind option_bind].
  simpl. rewrite decide_True; [done|]. apply Exists_exists.
  destruct (decide (Exists (λ p, p.1 = "id") m')) as [Hex|Hno].
  - apply Exists_exists in Hex as ([k v] & Hin & Hk). simpl in Hk. subst.
    eexists _. split; [exact Hin|]. cbn [fst]. rewrite match_field_exact; [by eexists|].
    by apply (bool_decide_unpack _).
  - exfalso. assert (obj_lookup "id" m' = None) as Hn; [|congruence]. apply obj_lookup_None.
    intros ([k v] & Hk & Hin)%list_elem_of_fmap. apply Hno, Exists_exists. eauto.
Qed.
End lemmas.

Section properties.
Context `{FL : Floats}.
#[local] Set Default Proof Using "Type*".

(** Hardware survives the JSON in which the database keeps it: reading what
    [json.Marshal] writes for a hardware message gives the message back, for
    texts as [Json] escapes them. *)
Lemma hardware_json_roundtrip hw :
  hw_numbers in_int64 hw →
  ∃ t, hw_marshal (HardwareJson := go_hardware_json) hw = Ok t ∧
    hw_unmarshal (HardwareJson := go_hardware_json) t = Ok hw.
Proof.
  intros Hn. destruct (checked_hw hw Hn) as (v & [Hok ->]%checked_Some & Hd).
  eexists. split; [reflexivity|]. unfold hw_unmarshal, go_hardware_json.
  rewrite json_parse_print by done. cbn [mbind option_bind]. by rewrite Hd.
Qed.

Lemma wrapper_shown hw {S} (s : S) :
  hw_numbers int53 hw → ph_Id hw ≠ "" →
  match shown_metadata (ph_Metadata hw) with
  | Ok md => shown_metadata md = Ok md ∧
      ∃ t, MarshalJSON (Some hw) s = (Ret (Ok t), s) ∧
        UnmarshalJSON t = Ok (Some (set_metadata md hw))
  | Err e => MarshalJSON (Some hw) s = (Ret (Err e), s)
  end.
Proof.
  intros Hn Hid. destruct (hw_map hw Hn) as (m & Hu & Hany & Hk & Hdec & Hmd & Hi).
  assert (put_str (ph_Id hw) = Some (JStr (ph_Id hw))) as Hi'
    by (unfold put_str; by rewrite decide_False).
  rewrite Hi' in Hi. pose proof (proj1 (any_obj_ok m) Hany) as [Hs _].
  unfold shown_metadata, MarshalJSON. rewrite Hu. destruct (decide (ph_Metadata hw = "")) as [He|He].
  - rewrite (decide_False (P := ph_Metadata hw ≠ "")) by naive_solver. split; [done|]. eexists. split; [reflexivity|].
    unfold put_str in Hmd. rewrite decide_True in Hmd by done. simpl map_value.
    rewrite (unmarshal_wrapper m (JStr (ph_Id hw)) "") by (done || (intros v Hv; congruence)).
    rewrite Hmd, Hdec. destruct hw; simpl in *. by subst.
  - rewrite (decide_True (P := ph_Metadata hw ≠ "")) by done.
    destruct (unmarshal_map (ph_Metadata hw)) as [x|e] eqn:E; [|done].
    apply unmarshal_map_ok in E. set (md := json_print (map_value x)).
    assert (md ≠ "") as Hne.
    { destruct (print_head (map_value x) (any_json_ok _ E)) as (c & r & Hr & _). unfold md. by rewrite Hr. }
    rewrite (decide_False (P := md = "")) by done. unfold md at 1. rewrite unmarshal_print by done. split; [done|].
    eexists. split; [reflexivity|]. set (m2 := obj_insert "metadata" (map_value x) m).
    rewrite (unmarshal_wrapper m2 (JStr (ph_Id hw)) md).
    + unfold m2. rewrite obj_lookup_insert. fold m2.
      rewrite (dec_set_metadata md m _ hw); [done|..]; try done.
      * by apply sorted_keys_NoDup.
      * apply sorted_keys_NoDup. by do 2 apply obj_insert_sorted.
      * apply insert_keys; [by apply (bool_decide_unpack _)|].
        apply insert_keys; [by apply (bool_decide_unpack _)|done].
      * intros f Hf. unfold m2. by rewrite !obj_lookup_insert_ne.
      * by rewrite obj_lookup_insert.
    + by apply any_insert.
    + unfold m2. by rewrite obj_lookup_insert_ne.
    + intros v. unfold m2. rewrite obj_lookup_insert. by intros [= <-].
Qed.

(** C29 Showing a hardware and pushing what was shown. When its metadata is empty
    or a JSON object (or null), the text that the wrapper prints for a hardware with an
    id is read back as the same hardware, with the metadata in its canonical form, and showing that
    form again changes nothing; other metadata is an error. The integers may have
    53 bits: they go through a [float64]. *)
Theorem wrapper_roundtrip hw {S} (s : S) :
  hw_numbers int53 hw → ph_Id hw ≠ "" →
  match shown_metadata (ph_Metadata hw) with
  | Ok md => shown_metadata md = Ok md ∧
      ∃ t, MarshalJSON (Some hw) s = (Ret (Ok t), s) ∧
        UnmarshalJSON t = Ok (Some (set_metadata md hw))
  | Err e => MarshalJSON (Some hw) s = (Ret (Err e), s)
  end.
Proof. apply wrapper_shown. Qed.
End properties.

(** ** Witnesses *)
#[local] Existing Instance text_floats.

Definition demo_full_hw (md : string) : PbHardware :=
  {| ph_Network := Some [{| pf_Dhcp := Some {| pd_Mac := "08:00:27:00:00:01"; pd_Hostname := "a<b>";
       pd_LeaseTime := 86400; pd_NameServers := ["1.1.1.1"; ""]; pd_TimeServers := [];
       pd_Arch := "x86_64"; pd_Uefi := true; pd_IfaceName := "";
       pd_Ip := Some {| pi_Address := "192.168.1.5"; pi_Netmask := ""; pi_Gateway := "";
                        pi_Family := 4 |} |};
       pf_Netboot := Some zero_netboot |}];
     ph_Id := "id-1"; ph_Version := -7; ph_Metadata := md |}.

Lemma demo_full_numbers md good : good (-7) → good 4 → good 86400 → hw_numbers good (demo_full_hw md).
Proof.
  intros H1 H2 H3. split; [done|]. intros l [= <-] x [->|[]%elem_of_nil]%elem_of_cons d [= <-].
  split; [done|]. by intros ip [= <-].
Qed.

Lemma hardware_json_roundtrip_witness :
  ∃ t, hw_marshal (HardwareJson := go_hardware_json) (demo_full_hw "{}") = Ok t ∧
    hw_unmarshal (HardwareJson := go_hardware_json) t = Ok (demo_full_hw "{}").
Proof.
  apply (hardware_json_roundtrip (demo_full_hw "{}")).
  apply demo_full_numbers; unfold in_int64; lia.
Defined.

(** Metadata with white space and unsorted keys is shown sorted. *)
Definition demo_metadata : string := json_text "{ 'b': [1, null],  'a': {'x': '<'} }".
Lemma wrapper_roundtrip_witness :
  ∃ t, MarshalJSON (Some (demo_full_hw demo_metadata)) tt = (Ret (Ok t), tt) ∧
    UnmarshalJSON t =
      Ok (Some (demo_full_hw (json_text "{'a':{'x':'\u003c'},'b':[1,null]}"))).
Proof.
  assert (hw_numbers int53 (demo_full_hw demo_metadata)) as Hn
    by (apply demo_full_numbers; unfold int53; lia).
  assert (ph_Id (demo_full_hw demo_metadata) ≠ "") as Hid by done.
  pose proof (wrapper_roundtrip (demo_full_hw demo_metadata) tt Hn Hid) as H.
  assert (shown_metadata (ph_Metadata (demo_full_hw demo_metadata)) =
    Ok (json_text "{'a':{'x':'\u003c'},'b':[1,null]}")) as E by (vm_compute; reflexivity).
  rewrite E in H. exact (proj2 H).
Defined.

(** Metadata that is not an object cannot be shown, and neither can a wrapper
    without hardware. *)
Example metadata_array_rejected :
  MarshalJSON (Some (demo_full_hw "[1]")) tt = (Ret (Err json_error), tt) ∧
  (MarshalJSON None tt).1 = Panic "invalid memory address or nil pointer dereference" ∧
  UnmarshalJSON "{}" = Ok None.
Proof. split_and!; vm_compute; reflexivity. Qed.
