(* ===== verification/Client.v ===== *)
(** * Client: the gRPC clients of tink-server (src/client/main.go)

    The calls of the three services that the command line makes, as a class; how
    a handler's result reaches a client over gRPC; and the database-backed
    server as an instance; [Servers] has the Kubernetes-backed one.
    Opening a connection does not wait for the server. *)
From S2P Require Import Prelude Proto Template Service Kube K8sServer DbBase DbWorkflow DbTemplate DbServer DbHardware.
From stdpp Require Import options.

(** ** The environment of a program: packethost/pkg/env and gRPC *)
Class ProcessEnv := {
  (** [env.Get(name)]. *)
  env_Get : string → string;
  (** [env.Bool(name, def)]. *)
  env_Bool : string → bool → bool;
  (** [grpc.Dial], for an address and with or without TLS: its error. *)
  grpc_dial : string → bool → option error
}.

Section connection.
Context `{PE : ProcessEnv}.

(** A connection: where to, and whether with TLS. *)
Record ClientConn := { cc_authority : string; cc_tls : bool }.

Definition NewClientConn (authority : string) (tls : bool) : result ClientConn :=
  match grpc_dial authority tls with
  | Some e => Err (WrapErr e "connect to tinkerbell server")
  | None => Ok {| cc_authority := authority; cc_tls := tls |}
  end.

Definition GetConnection : result ClientConn :=
  let authority := env_Get "TINKERBELL_GRPC_AUTHORITY" in
  if decide (authority = "") then Err (NewErr "undefined TINKERBELL_GRPC_AUTHORITY")
  else NewClientConn authority (env_Bool "TINKERBELL_TLS" true).

(** The clients of the three services; [None] is the nil interface. *)
Record FullClient := {
  TemplateClient : option ClientConn;
  WorkflowClient : option ClientConn;
  HardwareClient : option ClientConn
}.
Definition noClient : FullClient :=
  {| TemplateClient := None; WorkflowClient := None; HardwareClient := None |}.

Definition NewFullClient (conn : ClientConn) : FullClient :=
  {| TemplateClient := Some conn; WorkflowClient := Some conn; HardwareClient := Some conn |}.

(** [Setup] assigns the package's clients. *)
Definition Setup : go FullClient (option error) := λ s,
  match GetConnection with
  | Err e => (Ret (Some e), s)
  | Ok conn => (Ret None, NewFullClient conn)
  end.

Definition on_connection {A} (f : ClientConn → A) : result A :=
  match GetConnection with Err e => Err e | Ok conn => Ok (f conn) end.
Definition TinkHardwareClient : result ClientConn := on_connection id.
Definition TinkTemplateClient : result ClientConn := on_connection id.
Definition TinkWorkflowClient : result ClientConn := on_connection id.
Definition TinkFullClient : result FullClient := on_connection NewFullClient.
End connection.

(** ** The calls *)

(** A server stream as its client sees it: the messages, and the error that
    ends it ([EOF] when the handler returned nil). *)
Record stream (M : Type) := { st_msgs : list M; st_err : error }.
Arguments st_msgs {_} _.
Arguments st_err {_} _.

Class TinkClient (S : Type) := {
  hc_Push : option PbHardware → go S (result unit);
  hc_ByMAC : string → go S (result PbHardware);
  hc_ByIP : string → go S (result PbHardware);
  hc_ByID : string → go S (result PbHardware);
  hc_All : go S (result (stream PbHardware));
  hc_Delete : string → go S (result unit);
  tc_CreateTemplate : string → string → go S (result string);
  tc_GetTemplate : option GetBy → go S (result WorkflowTemplate);
  tc_DeleteTemplate : option GetBy → go S (result unit);
  tc_ListTemplates : string → go S (result (stream WorkflowTemplate));
  tc_UpdateTemplate : WorkflowTemplate → go S (result unit);
  wc_CreateWorkflow : string → string → go S (result string);
  wc_GetWorkflow : string → go S (result PbWorkflow);
  wc_DeleteWorkflow : string → go S (result unit);
  wc_ListWorkflows : go S (result (stream PbWorkflow));
  wc_GetWorkflowContext : string → go S (result WorkflowContext);
  wc_ShowWorkflowEvents : string → go S (result (stream WorkflowActionStatus));
  wc_GetWorkflowData : GetWorkflowDataRequest → go S (result GetWorkflowDataResponse);
  wc_GetWorkflowMetadata : GetWorkflowDataRequest → go S (result GetWorkflowDataResponse);
  wc_GetWorkflowDataVersion : GetWorkflowDataRequest → go S (result GetWorkflowDataResponse)
}.

(** ** A server behind gRPC

    The process may have died: a handler that panics takes it down, and a call to
    it is answered with [Unavailable]. What it has stored stays. *)
Record Remote (S : Type) := { rm_up : bool; rm_state : S }.
Arguments rm_up {_} _.
Arguments rm_state {_} _.
Arguments Build_Remote {_} _ _.

Definition unavailable : error := StatusErr Unavailable "transport is closing".

(** An error that is not a status travels as [Unknown] with its text. *)
Definition to_status (e : error) : error :=
  match e with StatusErr c m => StatusErr c m | _ => StatusErr Unknown (err_string e) end.

Definition unary {S A} (c : go S (result A)) : go (Remote S) (result A) := λ r,
  if rm_up r then
    match c (rm_state r) with
    | (Ret (Ok a), s) => (Ret (Ok a), Build_Remote true s)
    | (Ret (Err e), s) => (Ret (Err (to_status e)), Build_Remote true s)
    | (_, s) => (Ret (Err unavailable), Build_Remote false s)
    end
  else (Ret (Err unavailable), r).

Definition unary_err {S} (c : go S (option error)) : go (Remote S) (result unit) :=
  unary (go_bind c (λ r, go_ret (match r with Some e => Err e | None => Ok tt end))).
Definition unary_pair {S A} (c : go S (A * option error)) : go (Remote S) (result A) :=
  unary (go_bind c (λ r, go_ret (match r.2 with Some e => Err e | None => Ok r.1 end))).

(** A stream: the handler has run when its client reads. *)
Definition streaming {S M} (c : go (S * list M) (option error)) : go (Remote S) (result (stream M)) :=
  λ r,
  if rm_up r then
    match c (rm_state r, []) with
    | (Ret None, (s, l)) => (Ret (Ok {| st_msgs := l; st_err := EOF |}), Build_Remote true s)
    | (Ret (Some e), (s, l)) =>
        (Ret (Ok {| st_msgs := l; st_err := to_status e |}), Build_Remote true s)
    | (_, (s, l)) => (Ret (Ok {| st_msgs := l; st_err := unavailable |}), Build_Remote false s)
    end
  else (Ret (Err unavailable), r).

(** ** The database-backed server *)
Section db.
Context `{DE : DbEnv} `{TE : TemplateEnv} `{MR : MapRange} `{SE : ServerEnv} `{HJ : HardwareJson}.
Let sends : nat → option error := λ _, None.

#[global] Instance db_client : TinkClient (Remote DBServer) := {
  hc_Push d := unary_err (DbHardware.Push d);
  hc_ByMAC m := unary (DbHardware.ByMAC m);
  hc_ByIP i := unary (DbHardware.ByIP i);
  hc_ByID i := unary (DbHardware.ByID i);
  hc_All := streaming (DbHardware.All sends);
  hc_Delete i := unary_err (DbHardware.Delete i);
  tc_CreateTemplate n d := unary_pair (DbServer.CreateTemplate n d);
  tc_GetTemplate g := unary_pair (DbServer.GetTemplate g);
  tc_DeleteTemplate g := unary_err (DbServer.DeleteTemplate g);
  tc_ListTemplates n := streaming (DbServer.ListTemplates sends n);
  tc_UpdateTemplate t := unary_err (DbServer.UpdateTemplate t);
  wc_CreateWorkflow t h := unary_pair (DbServer.CreateWorkflow t h);
  wc_GetWorkflow i := unary (DbServer.GetWorkflow i);
  wc_DeleteWorkflow i := unary_err (DbServer.DeleteWorkflow i);
  wc_ListWorkflows := streaming (DbServer.ListWorkflows sends);
  wc_GetWorkflowContext i := unary_pair (DbServer.GetWorkflowContext i);
  wc_ShowWorkflowEvents i := streaming (DbServer.ShowWorkflowEvents sends i);
  wc_GetWorkflowData r := unary_pair (on_db (DbServer.GetWorkflowData r));
  wc_GetWorkflowMetadata r := unary_pair (on_db (DbServer.GetWorkflowMetadata r));
  wc_GetWorkflowDataVersion r := unary_pair (on_db (DbServer.GetWorkflowDataVersion r))
}.
End db.

(** ** Lemmas *)

(** What a call over gRPC returns and leaves, when the server is up. *)
Lemma unary_up {S A} (c : go S (result A)) s r s' :
  c s = (Ret r, s') →
  unary c (Build_Remote true s) =
    (Ret (match r with Ok a => Ok a | Err e => Err (to_status e) end), Build_Remote true s').
Proof. intros H. unfold unary. simpl. rewrite H. by destruct r. Qed.

Lemma unary_pair_up {S A} (c : go S (A * option error)) s a e s' :
  c s = (Ret (a, e), s') →
  unary_pair c (Build_Remote true s) =
    (Ret (match e with Some e => Err (to_status e) | None => Ok a end), Build_Remote true s').
Proof.
  intros H. unfold unary_pair.
  erewrite unary_up by (rewrite (go_bind_Ret _ _ _ _ _ H); reflexivity). by destruct e.
Qed.

Lemma unary_err_up {S} (c : go S (option error)) s e s' :
  c s = (Ret e, s') →
  unary_err c (Build_Remote true s) =
    (Ret (match e with Some e => Err (to_status e) | None => Ok tt end), Build_Remote true s').
Proof.
  intros H. unfold unary_err.
  erewrite unary_up by (rewrite (go_bind_Ret _ _ _ _ _ H); reflexivity). by destruct e.
Qed.

(** A call returns whatever the handler does, and a server that is gone stays
    gone. *)
Lemma unary_returns {S A} (c : go S (result A)) r : ∃ a r', unary c r = (Ret a, r').
Proof. unfold unary. destruct (rm_up r); [|eauto]. destruct (c _) as [[[]| |] s]; eauto. Qed.
