(* ===== verification/Cli.v ===== *)
(** * Cli: the command line (src/cmd/tink-cli)

    The commands over any client of the services ([TinkClient]). What a command
    prints is a list of lines and tables, with cells for texts, numbers and times;
    laying a table out is the business of go-pretty. [log.Fatal] prints to
    standard error and exits with 1. A command is run as cobra does: the check of
    the arguments, the hook of the root command that connects, the hook of the
    command, and its body. *)
From S2P Require Import Prelude Proto Json Template Service DbBase DbHardware HwWrapper Client.
From stdpp Require Import options.

(** ** State *)

(** A cell of a table; a time is in nanoseconds since the epoch. *)
Inductive cell := Text (s : string) | Num (z : Z) | Time (ns : Z).
Abbreviation row := (list cell) (only parsing).

(** The values that travel as [interface{}] through the get command. *)
Inductive item := IHardware (h : PbHardware) | ITemplate (t : WorkflowTemplate) | IWorkflow (w : PbWorkflow).

(** What is printed on standard output. A slice that is nil is [None]: its JSON
    is null. *)
Inductive output :=
  | Line (s : string)
  | Table (header : option (list string)) (rows : list row)
  | Csv (header : option (list string)) (rows : list row)
  | JsonData (data : option (list item)).

(** The clients in use, of the package or in the context, are nil until the hook
    of the root command sets them all to one connection. *)
Record Cli (S : Type) := {
  c_srv : S;
  c_stdin : result string;
  c_out : list output;
  c_err : list string;
  c_conn : option ClientConn
}.
Arguments c_srv {_} _.
Arguments c_stdin {_} _.
Arguments c_out {_} _.
Arguments c_err {_} _.
Arguments c_conn {_} _.

Class CliEnv := {
  (** Opening and reading a file. *)
  read_file : string → result string;
  (** Standard input is not a terminal. *)
  stdin_pipe : bool;
  (** [net.ParseIP(s) != nil]. *)
  parse_ip : string → bool
}.

Section cli.
Context {S : Type} `{TC : TinkClient S} `{DE : DbEnv} `{TE : TemplateEnv} `{CE : CliEnv} `{FL : Floats}.
#[local] Open Scope go_scope.

Definition set_srv (s : S) (w : Cli S) : Cli S :=
  {| c_srv := s; c_stdin := c_stdin w; c_out := c_out w; c_err := c_err w; c_conn := c_conn w |}.
Definition add_out (l : list output) (w : Cli S) : Cli S :=
  {| c_srv := c_srv w; c_stdin := c_stdin w; c_out := c_out w ++ l; c_err := c_err w;
     c_conn := c_conn w |}.
Definition add_err (l : list string) (w : Cli S) : Cli S :=
  {| c_srv := c_srv w; c_stdin := c_stdin w; c_out := c_out w; c_err := c_err w ++ l;
     c_conn := c_conn w |}.

Definition nil_deref {A} : go (Cli S) A :=
  go_panic "invalid memory address or nil pointer dereference".

(** A call through a client. *)
Definition on_srv {A} (c : go S A) : go (Cli S) A := λ w,
  match c_conn w with
  | None => nil_deref w
  | Some _ => go_zoom c_srv set_srv c w
  end.
Definition print (o : output) : go (Cli S) unit := go_modify (add_out [o]).
Definition eprint (s : string) : go (Cli S) unit := go_modify (add_err [s]).
Definition log_Fatal {A} (msg : string) : go (Cli S) A := eprint msg ;;; go_exit 1.

(** [io.ReadAll(os.Stdin)] leaves nothing to read. *)
Definition read_stdin : go (Cli S) (result string) := λ w,
  (Ret (c_stdin w),
   {| c_srv := c_srv w; c_stdin := match c_stdin w with Ok _ => Ok "" | Err e => Err e end;
      c_out := c_out w; c_err := c_err w; c_conn := c_conn w |}).

Definition isInputFromPipe : bool := stdin_pipe.

(** [fmt.Errorf("invalid uuid: %s", arg)]. *)
Definition invalid_uuid (arg : string) : error := NewErr ("invalid uuid: " +:+ arg).
Definition is_uuid (arg : string) : bool := bool_decide (is_Some (uuid_parse arg)).

(** The first argument that is not a UUID. *)
Fixpoint check_uuids (args : list string) : option error :=
  match args with
  | [] => None
  | arg :: args' => if is_uuid arg then check_uuids args' else Some (invalid_uuid arg)
  end.

(** ** Receiving a stream

    [for m, err = list.Recv(); err == nil && keep(m); m, err = list.Recv()]: the
    messages before the first that is not kept, and the error when there is
    none. *)
Fixpoint recv_while {M} (keep : M → bool) (l : list M) (err : error) : list M * option error :=
  match l with
  | [] => ([], Some err)
  | m :: l' =>
      if keep m then let '(ms, e) := recv_while keep l' err in (m :: ms, e) else ([], None)
  end.
Definition recv {M} (keep : M → bool) (st : stream M) : list M * option error :=
  recv_while keep (st_msgs st) (st_err st).

(** [err != nil && !errors.Is(err, io.EOF)]. *)
Definition stream_failed (e : option error) : option error :=
  match e with Some e => if err_is e EOF then None else Some e | None => None end.

Fixpoint go_each {A} (f : A → go (Cli S) unit) (l : list A) : go (Cli S) unit :=
  match l with [] => go_ret tt | a :: l' => f a ;;; go_each f l' end.

(** ** cmd/get *)
Record GetOptions := {
  get_Headers : list string;
  get_RetrieveData : option (go S (result (list item)));
  get_RetrieveByID : option (string → go S (result item));
  get_RetrieveByName : option (string → go S (result item));
  get_PopulateTable : list item → go (Cli S) (list row);
  get_Format : string;
  get_NoHeaders : bool
}.

Definition not_implemented (what : string) : error :=
  NewErr (what +:+ " is not implemented for this resource yet, please have a look at the issue in GitHub or open a new one").

Definition retriever (opt : GetOptions) (arg : string) : result (string → go S (result item)) :=
  if is_uuid arg then
    match get_RetrieveByID opt with Some f => Ok f | None => Err (not_implemented "get by ID") end
  else
    match get_RetrieveByName opt with Some f => Ok f | None => Err (not_implemented "get by Name") end.

(** What cannot be retrieved is skipped. *)
Fixpoint retrieveMulti (opt : GetOptions) (args : list string) : go S (result (list item)) :=
  match args with
  | [] => go_ret (Ok [])
  | arg :: args' =>
      match retriever opt arg with
      | Err e => go_ret (Err e)
      | Ok f =>
          let* r := f arg in
          try data := retrieveMulti opt args' onerr Err in
          go_ret (Ok (match r with Ok s => s :: data | Err _ => data end))
      end
  end.

(** The format is a flag; table is its default. *)
Definition show_data (opt : GetOptions) (nil_if_empty : bool) (data : list item) (rows : list row)
    : output :=
  let header := if get_NoHeaders opt then None else Some (get_Headers opt) in
  if decide (get_Format opt = "json") then
    JsonData (if decide (nil_if_empty = true ∧ data = []) then None else Some data)
  else if decide (get_Format opt = "csv") then Csv header rows
  else Table header rows.

Definition get_RunE (opt : GetOptions) (args : list string) : go (Cli S) (option error) :=
  let many := bool_decide (args ≠ []) in
  let* data :=
    if many then on_srv (retrieveMulti opt args)
    else match get_RetrieveData opt with
         | None => go_ret (Err (not_implemented "get-all-data"))
         | Some f => on_srv f
         end in
  match data with
  | Err e => go_ret (Some e)
  | Ok data =>
      let* rows := get_PopulateTable opt data in
      print (show_data opt many data rows) ;;;
      go_ret None
  end.

(** ** cmd/delete *)
Definition delete_missing : error :=
  NewErr "option DeleteByID is not implemented for this resource yet. Please have a look at the issue in GitHub or open a new one".
Definition tab : string := str1 (chr 9).

Definition is_not_found (e : error) : bool :=
  match e with StatusErr NotFound _ => true | _ => false end.

Fixpoint delete_each (del : string → go S (result unit)) (args : list string)
    : go (Cli S) (option error) :=
  match args with
  | [] => go_ret None
  | id :: args' =>
      let* r := on_srv (del id) in
      match r with
      | Err e =>
          if is_not_found e then
            eprint ("Error" +:+ tab +:+ id +:+ tab +:+ "not found") ;;;
            delete_each del args'
          else go_ret (Some e)
      | Ok _ => print (Line ("Deleted" +:+ tab +:+ id)) ;;; delete_each del args'
      end
  end.

Definition delete_RunE (DeleteByID : option (string → go S (result unit))) (args : list string)
    : go (Cli S) (option error) :=
  match DeleteByID with
  | None => go_ret (Some delete_missing)
  | Some del => delete_each del args
  end.
End cli.

(** ** Lemmas *)
Section lemmas.
Context {S : Type}.

Lemma on_srv_Ret {A} (c : go S A) (w : Cli S) a s' :
  is_Some (c_conn w) → c (c_srv w) = (Ret a, s') → on_srv c w = (Ret a, set_srv s' w).
Proof. intros [conn Hc] Hrun. unfold on_srv, go_zoom. by rewrite Hc, Hrun. Qed.

(** The messages of a stream are received up to the first that is not kept, and
    its error is seen when there is none. *)
Lemma recv_while_take {M} (keep : M → bool) (l : list M) err :
  (Forall (λ m, keep m = true) l → recv_while keep l err = (l, Some err)) ∧
  (∀ l1 m l2, l = l1 ++ m :: l2 → Forall (λ m, keep m = true) l1 → keep m = false →
     recv_while keep l err = (l1, None)).
Proof.
  split.
  - induction 1 as [|m l Hm Hl IH]; simpl; [done|]. by rewrite Hm, IH.
  - intros l1 m l2 -> Hl Hm. induction Hl as [|x l1 Hx Hl IH]; simpl; [by rewrite Hm|].
    by rewrite Hx, IH.
Qed.

(** Deleting when it is known which ids exist: [I] follows the server over the
    ids deleted so far. *)
Lemma delete_each_known (I : list string → S → Prop) (found : string → bool) del ids done_ (w : Cli S) :
  is_Some (c_conn w) → I done_ (c_srv w) →
  (∀ id l s, id ∈ ids → I l s → ∃ r s', del id s = (Ret r, s') ∧ I (l ++ [id]) s' ∧
     match r with
     | Ok _ => found id = true
     | Err e => found id = false ∧ is_not_found e = true
     end) →
  ∃ s', delete_each del ids w =
      (Ret None, add_err (map (λ id, "Error" +:+ tab +:+ id +:+ tab +:+ "not found")
                            (filter (λ id, found id = false) ids))
                   (add_out (map (λ id, Line ("Deleted" +:+ tab +:+ id))
                               (filter (λ id, found id = true) ids)) (set_srv s' w))) ∧
    I (done_ ++ ids) s'.
Proof.
  revert done_ w. induction ids as [|id ids IH]; intros done_ w Hconn HI Hdel; simpl.
  { exists (c_srv w). rewrite app_nil_r. split; [|done].
    destruct w; unfold add_err, add_out, set_srv; simpl. by rewrite !app_nil_r. }
  destruct (Hdel id done_ (c_srv w) ltac:(set_solver) HI) as (r & s1 & Hrun & HI1 & Hr).
  rewrite (go_bind_Ret _ _ _ _ _ (on_srv_Ret _ w _ _ Hconn Hrun)).
  assert (∀ w', is_Some (c_conn w') → I (done_ ++ [id]) (c_srv w') → ∃ s',
    delete_each del ids w' = (Ret None, add_err (map (λ id, "Error" +:+ tab +:+ id +:+ tab +:+ "not found")
                            (filter (λ id, found id = false) ids))
                   (add_out (map (λ id, Line ("Deleted" +:+ tab +:+ id))
                               (filter (λ id, found id = true) ids)) (set_srv s' w'))) ∧
    I ((done_ ++ [id]) ++ ids) s') as IH'.
  { intros w' Hc' HI'. apply IH; [done|done|]. intros id' l s Hin. apply Hdel. set_solver. }
  rewrite <- (assoc_L (++)) in IH'.
  destruct r as [u|e]; [|destruct Hr as [Hr Hnf]; rewrite Hnf]; rewrite !filter_cons, !Hr;
    [rewrite (decide_True (P := true = true)), (decide_False (P := true = false)) by done
    |rewrite (decide_False (P := false = true)), (decide_True (P := false = false)) by done];
    unfold print, eprint, go_bind, go_modify; simpl.
  - destruct (IH' (add_out [Line ("Deleted" +:+ tab +:+ id)] (set_srv s1 w)) Hconn HI1)
      as (s' & -> & HI'). exists s'. split; [|done].
    unfold add_err, add_out, set_srv. simpl. by rewrite <- (assoc_L (++)).
  - destruct (IH' (add_err ["Error" +:+ tab +:+ id +:+ tab +:+ "not found"] (set_srv s1 w)) Hconn HI1)
      as (s' & -> & HI'). exists s'. split; [|done].
    unfold add_err, add_out, set_srv. simpl. by rewrite <- (assoc_L (++)).
Qed.

(** Retrieving when it is known what the server holds. *)
Lemma retrieveMulti_known `{DbEnv} (I : S → Prop) (found : string → option item) opt args s :
  I s →
  (∀ arg, arg ∈ args → ∃ g, retriever opt arg = Ok g ∧
     ∀ s, I s → ∃ r s', g arg s = (Ret r, s') ∧ I s' ∧
       match r with Ok i => found arg = Some i | Err _ => found arg = None end) →
  ∃ s', retrieveMulti opt args s = (Ret (Ok (omap found args)), s') ∧ I s'.
Proof.
  intros HI Hf. revert s HI. induction args as [|arg args IH]; intros s HI; simpl; [by exists s|].
  destruct (Hf arg ltac:(set_solver)) as (g & -> & Hg).
  destruct (Hg s HI) as (r & s1 & Hrun & HI1 & Hr). rewrite (go_bind_Ret _ _ _ _ _ Hrun).
  destruct (IH ltac:(intros; apply Hf; set_solver) s1 HI1) as (s' & Hrun' & HI').
  exists s'. split; [|done]. rewrite (go_try_Ret _ _ _ _ _ _ Hrun').
  destruct r; rewrite Hr; done.
Qed.
End lemmas.
