(* ===== verification/CliCmd.v ===== *)
(** * CliCmd: the commands for templates, hardware and workflows
    (src/cmd/tink-cli/cmd/template, hardware and workflow, and template.go,
    hardware.go, workflow.go, root.go beside them)

    Each command is a [command]: the check of its arguments, its hook and its
    body, over the values of its flags. *)
From S2P Require Import Prelude Proto Json Template Service DbBase DbHardware HwWrapper Client Cli.
From stdpp Require Import options.

(** [calWorkflowProgress]: the product wraps at 64 bits, the quotient is
    truncated. *)
Definition calWorkflowProgress (cur total : Z) (state : State) : string :=
  if decide (total = 0 ∨ (cur = 0 ∧ state ≠ State_STATE_SUCCESS)) then "0%"
  else
    let taskCompleted := if decide (state = State_STATE_SUCCESS) then wrap64 (cur + 1) else cur in
    let progress := wrap64 (Z.quot (wrap64 (taskCompleted * 100)) total) in
    Itoa progress +:+ "%".

Section commands.
Context {S : Type} `{TC : TinkClient S} `{DE : DbEnv} `{TE : TemplateEnv} `{CE : CliEnv} `{FL : Floats}.
#[local] Open Scope go_scope.

(** A command, as far as cobra runs it. *)
Record command := {
  cmd_Args : list string → option error;
  cmd_PreRunE : go (Cli S) (option error);
  cmd_RunE : list string → go (Cli S) (option error)
}.
Definition no_args (_ : list string) : option error := None.
Definition no_hook : go (Cli S) (option error) := go_ret None.
Definition Run (f : list string → go (Cli S) unit) : list string → go (Cli S) (option error) :=
  λ args, f args ;;; go_ret None.
Definition needs_args (msg : string) (k : list string → option error) (args : list string)
    : option error :=
  if decide (args = []) then Some (NewErr msg) else k args.

(** ** Templates *)

(** Both commands bind a flag to the one variable [filePath], and binding assigns
    the default: [create] is constructed before [update]. *)
Definition create_flags (filePath : string) : string := "./template.yaml".
Definition update_flags (filePath : string) : string := "".
Definition registered_filePath : string := update_flags (create_flags "").
Definition flag_value (registered : string) (given : option string) : string :=
  default registered given.

Definition require_file (flag filePath : string) : go (Cli S) (option error) :=
  go_ret (if negb isInputFromPipe then
            if decide (filePath = "") then Some (NewErr ("requires the '--" +:+ flag +:+ "' flag"))
            else None
          else None).

(** Standard input when it is a pipe, the file otherwise. *)
Definition read_input (filePath : string) : go (Cli S) (result string) :=
  if isInputFromPipe then read_stdin else go_ret (read_file (Clean filePath)).

Definition createTemplate (name data : string) : go (Cli S) unit :=
  let* r := on_srv (tc_CreateTemplate name data) in
  match r with
  | Err e => log_Fatal (err_string e)
  | Ok id => print (Line ("Created Template:  " +:+ id))
  end.

(** [io.ReadAll] never returns nil data without an error. *)
Definition template_create (file : option string) : command :=
  let filePath := flag_value registered_filePath file in
  {| cmd_Args := no_args;
     cmd_PreRunE := require_file "file" filePath;
     cmd_RunE := Run (λ _,
       let* r := read_input filePath in
       match r with
       | Err e => log_Fatal (err_string e)
       | Ok data =>
           match Parse data with
           | Err e => log_Fatal (err_string e)
           | Ok wf => createTemplate (yw_Name wf) data
           end
       end) |}.

Definition zero_template (id : string) : WorkflowTemplate :=
  {| wt_Id := id; wt_Name := ""; wt_CreatedAt := None; wt_UpdatedAt := None; wt_DeletedAt := None;
     wt_Data := "" |}.
Definition send_update (req : WorkflowTemplate) : go (Cli S) unit :=
  let* r := on_srv (tc_UpdateTemplate req) in
  match r with
  | Err e => log_Fatal (err_string e)
  | Ok _ => print (Line ("Updated Template:  " +:+ wt_Id req))
  end.
Definition updateTemplate (filePath id : string) : go (Cli S) unit :=
  let* r := read_input filePath in
  match r with
  | Err e => log_Fatal ("readTemplateData: " +:+ err_string e)
  | Ok data =>
      if decide (data ≠ "") then
        match Parse data with
        | Err e => log_Fatal (err_string e)
        | Ok wf => send_update {| wt_Id := id; wt_Name := yw_Name wf; wt_CreatedAt := None;
                                  wt_UpdatedAt := None; wt_DeletedAt := None; wt_Data := data |}
        end
      else send_update (zero_template id)
  end.
Definition template_update (path : option string) : command :=
  let filePath := flag_value registered_filePath path in
  {| cmd_Args := needs_args "requires argument" check_uuids;
     cmd_PreRunE := require_file "path" filePath;
     cmd_RunE := Run (go_each (updateTemplate filePath)) |}.

Definition by_id_or_name (arg : string) : option GetBy :=
  Some (if is_uuid arg then GetRequest_Id arg else GetRequest_Name arg).

(** The get command of TINK_CLI_VERSION 0.0.0. *)
Definition template_GetCmd : command :=
  {| cmd_Args := needs_args "requires an argument" no_args;
     cmd_PreRunE := no_hook;
     cmd_RunE := Run (go_each (λ arg,
       let* r := on_srv (tc_GetTemplate (by_id_or_name arg)) in
       match r with
       | Err e => log_Fatal (err_string e)
       | Ok t => print (Line (wt_Data t))
       end)) |}.

Definition to_item {A} (f : A → item) (c : go S (result A)) : go S (result item) :=
  let* r := c in go_ret (match r with Ok a => Ok (f a) | Err e => Err e end).

(** All of a stream up to the first message that is not kept. *)
Definition retrieve_all {M} (keep : M → bool) (f : M → item) (c : go S (result (stream M)))
    : go S (result (list item)) :=
  let* r := c in
  go_ret (match r with
          | Err e => Err e
          | Ok st =>
              let '(l, e) := recv keep st in
              match stream_failed e with Some e => Err e | None => Ok (map f l) end
          end).

(** A nil timestamp is the epoch. *)
Definition AsTime (t : option Z) : cell := Time (default 0 t).

Definition has_name (t : WorkflowTemplate) : bool := bool_decide (wt_Name t ≠ "").

Definition template_rows (data : list item) : go (Cli S) (list row) :=
  go_ret (omap (λ i, match i with
                     | ITemplate t => Some [Text (wt_Id t); Text (wt_Name t);
                                            AsTime (wt_CreatedAt t); AsTime (wt_UpdatedAt t)]
                     | _ => None
                     end) data).
Definition template_get_options (format : string) (noheaders : bool) : GetOptions :=
  {| get_Headers := ["ID"; "Name"; "Created At"; "Updated At"];
     get_RetrieveData := Some (retrieve_all has_name ITemplate (tc_ListTemplates "*"));
     get_RetrieveByID := Some (λ id, to_item ITemplate (tc_GetTemplate (Some (GetRequest_Id id))));
     get_RetrieveByName := Some (λ n, to_item ITemplate (tc_GetTemplate (Some (GetRequest_Name n))));
     get_PopulateTable := template_rows; get_Format := format; get_NoHeaders := noheaders |}.
Definition template_DeleteByID (id : string) : go S (result unit) :=
  tc_DeleteTemplate (Some (GetRequest_Id id)).

(** [time.Unix(t.Seconds, 0)] of a pointer to a timestamp. *)
Definition unix_seconds (t : option Z) : go (Cli S) cell :=
  match t with Some ns => go_ret (Time (ns / second * second)) | None => nil_deref end.

(** The loops of the list commands: what is printed or put into the table
    before the error that ends the process. *)
Definition list_stream {M} (keep : M → bool) (c : go S (result (stream M)))
    (body : M → go (Cli S) (list row)) : go (Cli S) (list row) :=
  let* r := on_srv c in
  match r with
  | Err e => log_Fatal (err_string e)
  | Ok st =>
      let '(l, e) := recv keep st in
      let* rows := (fix each l := match l with
                                  | [] => go_ret []
                                  | m :: l' => let* a := body m in let* b := each l' in
                                               go_ret (a ++ b)
                                  end) l in
      match stream_failed e with
      | Some e => log_Fatal (err_string e)
      | None => go_ret rows
      end
  end.
Definition list_run (quiet : bool) (header : list string) (loop : go (Cli S) (list row))
    : go (Cli S) unit :=
  let* rows := loop in
  if quiet then go_ret tt else print (Table (Some header) rows).
Definition no_arguments (args : list string) : option error :=
  if decide (args = []) then None else Some (NewErr "takes no arguments").

Definition template_printOutput (quiet : bool) (t : WorkflowTemplate) : go (Cli S) (list row) :=
  if quiet then print (Line (wt_Id t)) ;;; go_ret []
  else
    let* cr := unix_seconds (wt_CreatedAt t) in
    let* up := unix_seconds (wt_UpdatedAt t) in
    go_ret [[Text (wt_Id t); Text (wt_Name t); cr; up]].
Definition listTemplates (quiet : bool) : go (Cli S) (list row) :=
  list_stream has_name (tc_ListTemplates "*") (template_printOutput quiet).
Definition template_list (quiet : bool) : command :=
  {| cmd_Args := no_arguments; cmd_PreRunE := no_hook;
     cmd_RunE := Run (λ _, list_run quiet
       ["Template ID"; "Template Name"; "Created At"; "Updated At"] (listTemplates quiet)) |}.

(** ** Hardware *)
Definition verifyUUIDs (args : list string) : option error :=
  if decide (args = []) then Some (NewErr "requires at least one id") else check_uuids args.

(** The address, the MAC and the hostname of an interface, through its pointers. *)
Definition iface_details (iface : PbInterface) : go (Cli S) (string * string * string) :=
  match pf_Dhcp iface with
  | None => nil_deref
  | Some d =>
      match pd_Ip d with
      | None => nil_deref
      | Some ip => go_ret (pi_Address ip, pd_Mac d, pd_Hostname d)
      end
  end.

Fixpoint matching_rows (hw : PbHardware) (input : string) (l : list PbInterface)
    : go (Cli S) (list row) :=
  match l with
  | [] => go_ret []
  | iface :: l' =>
      let* d := iface_details iface in
      let '(addr, mac, host) := d in
      let* rest := matching_rows hw input l' in
      go_ret ((if decide (addr = input ∨ mac = input) then
                 [[Text "ID"; Text (ph_Id hw)]; [Text "MAC Address"; Text mac];
                  [Text "IP Address"; Text addr]; [Text "Hostname"; Text host]]
               else []) ++ rest)
  end.

(** With the flag for details the JSON goes to the log. *)
Definition hardware_printOutput (data : bool) (hw : PbHardware) (input : string) : go (Cli S) unit :=
  if negb data then
    let* rows := matching_rows hw input (GetInterfaces hw) in
    print (Table (Some ["Field Name"; "Value"]) rows)
  else
    let* r := MarshalJSON (Some hw) in
    match r with
    | Err e => log_Fatal ("Failed to marshal hardware data: " +:+ err_string e)
    | Ok t => eprint t
    end.

Fixpoint interface_rows (hw : PbHardware) (l : list PbInterface) : go (Cli S) (list row) :=
  match l with
  | [] => go_ret []
  | iface :: l' =>
      let* d := iface_details iface in
      let '(addr, mac, host) := d in
      let* rest := interface_rows hw l' in
      go_ret ([Text (ph_Id hw); Text mac; Text addr; Text host] :: rest)
  end.
Fixpoint hardware_rows (data : list item) : go (Cli S) (list row) :=
  match data with
  | [] => go_ret []
  | IHardware hw :: data' =>
      let* rows := interface_rows hw (GetInterfaces hw) in
      let* rest := hardware_rows data' in
      go_ret (rows ++ rest)
  | _ :: data' => hardware_rows data'
  end.

(** A message that is received is not nil. *)
Definition hardware_get_options (format : string) (noheaders : bool) : GetOptions :=
  {| get_Headers := ["ID"; "MAC Address"; "IP address"; "Hostname"];
     get_RetrieveData := Some (retrieve_all (λ _, true) IHardware hc_All);
     get_RetrieveByID := Some (λ id, to_item IHardware (hc_ByID id));
     get_RetrieveByName := None;
     get_PopulateTable := hardware_rows; get_Format := format; get_NoHeaders := noheaders |}.
Definition hardware_DeleteByID (id : string) : go S (result unit) := hc_Delete id.

Definition hardware_id : command :=
  {| cmd_Args := verifyUUIDs; cmd_PreRunE := no_hook;
     cmd_RunE := Run (go_each (λ id,
       let* r := on_srv (hc_ByID id) in
       match r with
       | Err e => log_Fatal (err_string e)
       | Ok hw =>
           let* b := MarshalJSON (Some hw) in
           match b with
           | Err e => log_Fatal (err_string e)
           | Ok t => print (Line t)
           end
       end)) |}.

(** The two lookups by address. *)
Definition show_found (kind : string) (data : bool) (get : string → go S (result PbHardware))
    (addr : string) : go (Cli S) unit :=
  let* r := on_srv (get addr) in
  match r with
  | Err e => log_Fatal (err_string e)
  | Ok hw =>
      if decide (ph_Id hw = "") then
        log_Fatal (kind +:+ " address not found in the database " +:+ addr)
      else hardware_printOutput data hw addr
  end.
Fixpoint check_each (ok : string → bool) (msg : string) (args : list string) : option error :=
  match args with
  | [] => None
  | arg :: args' => if ok arg then check_each ok msg args' else Some (NewErr (msg +:+ arg))
  end.
Definition hardware_ip (details : bool) : command :=
  {| cmd_Args := check_each parse_ip "invalid ip: "; cmd_PreRunE := no_hook;
     cmd_RunE := Run (go_each (show_found "IP" details hc_ByIP)) |}.
Definition hardware_mac (details : bool) : command :=
  {| cmd_Args := check_each (λ m, bool_decide (is_Some (ParseMAC m))) "invalid mac: ";
     cmd_PreRunE := no_hook;
     cmd_RunE := Run (go_each (show_found "MAC" details hc_ByMAC)) |}.

Fixpoint print_ids (id : string) (l : list PbInterface) : go (Cli S) (list row) :=
  match l with [] => go_ret [] | _ :: l' => print (Line id) ;;; print_ids id l' end.
Definition listHardware (quiet : bool) : go (Cli S) (list row) :=
  list_stream (λ _, true) hc_All (λ hw,
    if quiet then print_ids (ph_Id hw) (GetInterfaces hw) else interface_rows hw (GetInterfaces hw)).
Definition hardware_list (quiet : bool) : command :=
  {| cmd_Args := no_args; cmd_PreRunE := no_hook;
     cmd_RunE := Run (λ _, list_run quiet
       ["ID"; "MAC Address"; "IP address"; "Hostname"] (listHardware quiet)) |}.

(** The ID of the first JSON value of a text, which a struct with that field
    alone is decoded from. *)
Definition decode_id (data : string) : option string :=
  '(v, _) ← json_first data; dec_struct (λ l x, field ["ID"] "ID" dec_str l x) "" v.

Definition readDataFromStdin : go (Cli S) string :=
  let* r := read_stdin in go_ret (match r with Ok d => d | Err _ => "" end).

Definition push_data (data : string) : go (Cli S) unit :=
  match decode_id data with
  | None => log_Fatal ("invalid json: " +:+ data)
  | Some "" => log_Fatal ("invalid json, ID is required: " +:+ data)
  | Some _ =>
      match UnmarshalJSON data with
      | Err e => log_Fatal (err_string e)
      | Ok hw =>
          let* r := on_srv (hc_Push hw) in
          match r with
          | Err e => log_Fatal (err_string e)
          | Ok _ => eprint "Hardware data pushed successfully"
          end
      end
  end.
Definition hardware_push (file : string) : command :=
  {| cmd_Args := no_args;
     cmd_PreRunE :=
       go_ret (if negb isInputFromPipe && bool_decide (file = "")
               then Some (NewErr "either pipe the data or provide the required '--file' flag")
               else None);
     cmd_RunE := Run (λ _,
       if isInputFromPipe then let* data := readDataFromStdin in push_data data
       else match read_file (Clean file) with
            | Err e => log_Fatal ("read data from file failed: " +:+ err_string e)
            | Ok data => push_data data
            end) |}.

(** ** Workflows *)
Definition validateID (id : string) : option error :=
  if is_uuid id then None else Some (invalid_uuid id).

(** [MarkPersistentFlagRequired]: a flag that is not given is an error, after
    the hook. *)
Definition workflow_create (template hardware : option string) : command :=
  {| cmd_Args := no_args;
     cmd_PreRunE := go_ret (validateID (default "" template));
     cmd_RunE := λ _,
       match template, hardware with
       | Some t, Some h =>
           let* r := on_srv (wc_CreateWorkflow t h) in
           match r with
           | Err e => log_Fatal (err_string e)
           | Ok id => print (Line ("Created Workflow:  " +:+ id)) ;;; go_ret None
           end
       | _, _ => go_ret (Some (NewErr "required flag(s) not set"))
       end |}.

(** The flags of the data command decide which call is made. *)
Definition fetch_data (needsMetadata versionOnly : bool) (req : GetWorkflowDataRequest)
    : go S (result GetWorkflowDataResponse) :=
  if needsMetadata then wc_GetWorkflowMetadata req
  else if versionOnly then wc_GetWorkflowDataVersion req
  else wc_GetWorkflowData req.
Definition workflow_data (version : Z) (needsMetadata versionOnly : bool) : command :=
  {| cmd_Args := needs_args "requires an argument" check_uuids; cmd_PreRunE := no_hook;
     cmd_RunE := Run (go_each (λ arg,
       let* r := on_srv (fetch_data needsMetadata versionOnly
                           {| gd_WorkflowId := arg; gd_Version := version |}) in
       match r with
       | Err e => log_Fatal (err_string e)
       | Ok res =>
           if versionOnly then
             print (Line ("Latest workflow data version: " +:+ Itoa (gr_Version res)))
           else print (Line (gr_Data res))
       end)) |}.

Definition event_row (e : WorkflowActionStatus) : row :=
  [Text (ws_WorkerId e); Text (ws_TaskName e); Text (ws_ActionName e); Num (ws_Seconds e);
   Text (ws_Message e); Text (state_string (ws_ActionStatus e))].

(** The loop declares its own [err], so that an error of the stream is lost. *)
Fixpoint listEvents (args : list string) : go (Cli S) (list row) :=
  match args with
  | [] => go_ret []
  | arg :: args' =>
      let* r := on_srv (wc_ShowWorkflowEvents arg) in
      match r with
      | Err e => log_Fatal (err_string e)
      | Ok events =>
          let '(l, _) := recv (λ _, true) events in
          let* rest := listEvents args' in
          go_ret (map event_row l ++ rest)
      end
  end.
Definition workflow_events : command :=
  {| cmd_Args := needs_args "takes an arguments" no_args; cmd_PreRunE := no_hook;
     cmd_RunE := Run (λ args,
       let* rows := listEvents args in
       print (Table (Some ["Worker ID"; "Task Name"; "Action Name"; "Execution Time"; "Message";
                           "Action Status"]) rows)) |}.

(** Only the first argument is checked. *)
Definition first_id (args : list string) : option error :=
  match args with
  | [] => Some (NewErr "requires an argument")
  | arg :: _ => validateID arg
  end.
Definition state_rows (wf : WorkflowContext) : list row :=
  [[Text "Workflow ID"; Text (wc_WorkflowId wf)];
   [Text "Workflow Progress"; Text (calWorkflowProgress (wc_CurrentActionIndex wf)
      (wc_TotalNumberOfActions wf) (wc_CurrentActionState wf))];
   [Text "Current Task"; Text (wc_CurrentTask wf)];
   [Text "Current Action"; Text (wc_CurrentAction wf)];
   [Text "Current Worker"; Text (wc_CurrentWorker wf)];
   [Text "Current Action State"; Text (state_string (wc_CurrentActionState wf))]].
Definition workflow_state : command :=
  {| cmd_Args := first_id; cmd_PreRunE := no_hook;
     cmd_RunE := Run (go_each (λ arg,
       let* r := on_srv (wc_GetWorkflowContext arg) in
       match r with
       | Err e => log_Fatal (err_string e)
       | Ok wf => print (Table (Some ["Field Name"; "Values"]) (state_rows wf))
       end)) |}.

Definition workflow_GetCmd : command :=
  {| cmd_Args := first_id; cmd_PreRunE := no_hook;
     cmd_RunE := Run (go_each (λ arg,
       let* r := on_srv (wc_GetWorkflow arg) in
       match r with
       | Err e => log_Fatal (err_string e)
       | Ok w => print (Line (pw_Data w))
       end)) |}.

Definition has_id (w : PbWorkflow) : bool := bool_decide (pw_Id w ≠ "").
Definition workflow_rows (data : list item) : go (Cli S) (list row) :=
  go_ret (omap (λ i, match i with
                     | IWorkflow w => Some [Text (pw_Id w); Text (pw_Template w);
                                            Text (state_string (pw_State w));
                                            AsTime (pw_CreatedAt w); AsTime (pw_UpdatedAt w)]
                     | _ => None
                     end) data).
Definition workflow_get_options (format : string) (noheaders : bool) : GetOptions :=
  {| get_Headers := ["ID"; "Template ID"; "State"; "Created At"; "Updated At"];
     get_RetrieveData := Some (retrieve_all has_id IWorkflow wc_ListWorkflows);
     get_RetrieveByID := Some (λ id, to_item IWorkflow (wc_GetWorkflow id));
     get_RetrieveByName := None;
     get_PopulateTable := workflow_rows; get_Format := format; get_NoHeaders := noheaders |}.
Definition workflow_DeleteByID (id : string) : go S (result unit) := wc_DeleteWorkflow id.

Definition workflow_printOutput (quiet : bool) (w : PbWorkflow) : go (Cli S) (list row) :=
  if quiet then print (Line (pw_Id w)) ;;; go_ret []
  else
    let* cr := unix_seconds (pw_CreatedAt w) in
    let* up := unix_seconds (pw_UpdatedAt w) in
    go_ret [[Text (pw_Id w); Text (pw_Template w); Text (pw_Hardware w); cr; up]].
Definition listWorkflows (quiet : bool) : go (Cli S) (list row) :=
  list_stream has_id wc_ListWorkflows (workflow_printOutput quiet).
Definition workflow_list (quiet : bool) : command :=
  {| cmd_Args := no_arguments; cmd_PreRunE := no_hook;
     cmd_RunE := Run (λ _, list_run quiet
       ["Workflow ID"; "Template ID"; "Hardware device"; "Created At"; "Updated At"]
       (listWorkflows quiet)) |}.

(** ** The commands by name *)
Definition get_command (opt : GetOptions) : command :=
  {| cmd_Args := no_args; cmd_PreRunE := no_hook; cmd_RunE := get_RunE opt |}.
Definition delete_command (del : string → go S (result unit)) : command :=
  {| cmd_Args := no_args; cmd_PreRunE := no_hook; cmd_RunE := delete_RunE (Some del) |}.

(** The get command of a resource by the variable TINK_CLI_VERSION. *)
Definition NewTemplateCommand_get (version format : string) (noheaders : bool) : command :=
  if decide (version ≠ "0.0.0") then get_command (template_get_options format noheaders)
  else template_GetCmd.
Definition NewWorkflowCommand_get (version format : string) (noheaders : bool) : command :=
  if decide (version ≠ "0.0.0") then get_command (workflow_get_options format noheaders)
  else workflow_GetCmd.

(** ** The root command *)
Section root.
Context `{PE : ProcessEnv}.

(** [PersistentPreRunE]: the clients of the package and those in the context are
    set together. *)
Definition root_PersistentPreRunE (authority : string) (tls : bool) : go (Cli S) (option error) :=
  match NewClientConn authority tls with
  | Err e => go_ret (Some e)
  | Ok conn =>
      go_modify (λ w, {| c_srv := c_srv w; c_stdin := c_stdin w; c_out := c_out w;
                         c_err := c_err w; c_conn := Some conn |}) ;;;
      go_ret None
  end.

Definition run_command (authority : string) (tls : bool) (cmd : command) (args : list string)
    : go (Cli S) (option error) :=
  match cmd_Args cmd args with
  | Some e => go_ret (Some e)
  | None =>
      let* err := root_PersistentPreRunE authority tls in
      match err with
      | Some e => go_ret (Some e)
      | None =>
          let* err := cmd_PreRunE cmd in
          match err with
          | Some e => go_ret (Some e)
          | None => cmd_RunE cmd args
          end
      end
  end.

(** [main]: an error is printed and ends the process with 1. *)
Definition main (authority : string) (tls : bool) (cmd : command) (args : list string)
    : go (Cli S) unit :=
  let* err := run_command authority tls cmd args in
  match err with
  | Some e => eprint (err_string e) ;;; go_exit 1
  | None => go_ret tt
  end.
End root.
End commands.

(** ** Properties over any client *)

(** What the progress of a workflow means: the share of its actions that are
    done. *)
Definition completed (cur : Z) (state : State) : Z :=
  if decide (state = State_STATE_SUCCESS) then cur + 1 else cur.

(** C40 The progress that [tink workflow state] shows. For a position within the
    actions of a workflow it is the number of successful actions in percent,
    rounded down: between 0 and 100, without overflow up to 2^63/100 actions, and
    100 exactly when the last action has succeeded. *)
Theorem progress_shown cur total st :
  0 ≤ cur < total → total * 100 < 2 ^ 63 →
  ∃ p, calWorkflowProgress cur total st = Itoa p +:+ "%" ∧
    p = completed cur st * 100 / total ∧ 0 ≤ p ≤ 100 ∧
    (p = 100 ↔ cur = total - 1 ∧ st = State_STATE_SUCCESS).
Proof.
  intros Hc Ht. set (n := completed cur st).
  assert (0 ≤ n ≤ total ∧ (n = total ↔ cur = total - 1 ∧ st = State_STATE_SUCCESS)) as [Hn Hfull].
  { unfold n, completed. case_decide; split; try lia; naive_solver lia. }
  exists (n * 100 / total). split_and!; [|done| | |].
  - unfold calWorkflowProgress. case_decide as H0.
    { assert (n = 0) as ->; [|done]. destruct H0 as [?|[? Hst]]; [lia|].
      unfold n, completed. by rewrite decide_False. }
    f_equal. f_equal.
    assert ((if decide (st = State_STATE_SUCCESS) then wrap64 (cur + 1) else cur) = n) as ->.
    { unfold n, completed. case_decide; [|done]. apply wrap64_id. unfold in_int64. lia. }
    rewrite (wrap64_id (n * 100)) by (unfold in_int64; lia).
    rewrite Z.quot_div_nonneg by lia. apply wrap64_id. unfold in_int64.
    pose proof (Z.div_pos (n * 100) total). pose proof (Z.div_le_upper_bound (n * 100) total (2^63-1)). nia.
  - apply Z.div_pos; lia.
  - apply Z.div_le_upper_bound; lia.
  - rewrite <- Hfull. split.
    + intros Hp. pose proof (Z.mul_div_le (n * 100) total ltac:(lia)). nia.
    + intros ->. rewrite Z.mul_comm. apply Z.div_mul. lia.
Qed.

Section client.
Context {S : Type} `{TC : TinkClient S}.
#[local] Set Default Proof Using "Type*".

(** An interface that can be shown: its pointers to DHCP and to the address are
    set. *)
Definition iface_row (hw : PbHardware) (iface : PbInterface) : option row :=
  d ← pf_Dhcp iface; ip ← pd_Ip d;
  Some [Text (ph_Id hw); Text (pd_Mac d); Text (pi_Address ip); Text (pd_Hostname d)].
Definition item_rows (i : item) : option (list row) :=
  match i with IHardware hw => mapM (iface_row hw) (GetInterfaces hw) | _ => Some [] end.

Lemma iface_details_row hw iface (w : Cli S) :
  (∃ addr mac host, iface_details iface w = (Ret (addr, mac, host), w) ∧
     iface_row hw iface = Some [Text (ph_Id hw); Text mac; Text addr; Text host]) ∨
  (iface_details iface w = nil_deref w ∧ iface_row hw iface = None).
Proof.
  unfold iface_details, iface_row. destruct (pf_Dhcp iface) as [d|]; simpl; [|by right].
  destruct (pd_Ip d) as [ip|]; simpl; [|by right]. left. by eexists _, _, _.
Qed.

Lemma interface_rows_spec hw l (w : Cli S) :
  interface_rows hw l w =
  match mapM (iface_row hw) l with Some rows => (Ret rows, w) | None => nil_deref w end.
Proof.
  induction l as [|iface l IH]; simpl; [done|].
  destruct (iface_details_row hw iface w) as [(addr & mac & host & Hd & Hr)|[Hd Hr]]; rewrite Hr.
  - rewrite (go_bind_Ret _ _ _ _ _ Hd). unfold go_bind. rewrite IH. simpl. by destruct (mapM _ l).
  - unfold go_bind. by rewrite Hd.
Qed.

(** The hardware table has a row for every interface of every hardware, in
    order. One interface without an address, which the server accepts, makes the
    client panic instead, whatever the format and whatever the other hardware. *)
Theorem hardware_table data (w : Cli S) :
  hardware_rows data w =
  match mapM item_rows data with
  | Some rows => (Ret (concat rows), w)
  | None => (Panic "invalid memory address or nil pointer dereference", w)
  end.
Proof.
  induction data as [|i data IH]; simpl; [done|]. destruct i as [hw|t|wf]; simpl.
  - unfold go_bind. rewrite interface_rows_spec. destruct (mapM (iface_row hw) _) as [rows|]; [|done].
    simpl. rewrite IH. by destruct (mapM item_rows data).
  - rewrite IH. by destruct (mapM item_rows data).
  - rewrite IH. by destruct (mapM item_rows data).
Qed.

(** The events command never reports a stream that broke off: whichever error
    ends a stream, the events received until then are shown and the command
    succeeds. *)
Theorem events_errors_lost (up : S → Prop) (streams : string → stream WorkflowActionStatus) args
    (w : Cli S) :
  is_Some (c_conn w) → up (c_srv w) →
  (∀ arg s, up s → ∃ s', wc_ShowWorkflowEvents arg s = (Ret (Ok (streams arg)), s') ∧ up s') →
  ∃ s', cmd_RunE workflow_events args w =
    (Ret None, add_out [Table (Some ["Worker ID"; "Task Name"; "Action Name"; "Execution Time";
        "Message"; "Action Status"]) (args ≫= λ arg, event_row <$> st_msgs (streams arg))]
      (set_srv s' w)).
Proof.
  intros Hconn Hup Hcall.
  assert (∀ w : Cli S, is_Some (c_conn w) → up (c_srv w) → ∃ s', listEvents args w =
    (Ret (args ≫= λ arg, event_row <$> st_msgs (streams arg)), set_srv s' w)) as Hl.
  { clear w Hconn Hup. induction args as [|arg args IH]; intros w Hconn Hup.
    { exists (c_srv w). by destruct w. }
    simpl. destruct (Hcall arg (c_srv w) Hup) as (s1 & H1 & Hup1).
    rewrite (go_bind_Ret _ _ _ _ _ (on_srv_Ret _ w _ _ Hconn H1)). unfold recv.
    rewrite (proj1 (recv_while_take (λ _, true) (st_msgs (streams arg)) _)) by (by apply Forall_true).
    destruct (IH (set_srv s1 w) Hconn Hup1) as (s2 & H2). rewrite (go_bind_Ret _ _ _ _ _ H2).
    by exists s2. }
  destruct (Hl w Hconn Hup) as (s' & Hrun). exists s'.
  simpl. unfold Run. erewrite go_bind_Ret by (by rewrite (go_bind_Ret _ _ _ _ _ Hrun)). done.
Qed.
End client.

(** ** Witnesses *)
Lemma progress_shown_witness :
  ∃ p, calWorkflowProgress 2 3 State_STATE_SUCCESS = Itoa p +:+ "%" ∧
    p = completed 2 State_STATE_SUCCESS * 100 / 3 ∧ 0 ≤ p ≤ 100 ∧
    (p = 100 ↔ 2 = 3 - 1 ∧ State_STATE_SUCCESS = State_STATE_SUCCESS).
Proof. apply (progress_shown 2 3 State_STATE_SUCCESS); lia. Defined.

(** A workflow that has not started, one in its middle, and one whose counters
    make the product overflow. *)
Example progress_values :
  calWorkflowProgress 0 3 State_STATE_RUNNING = "0%" ∧
  calWorkflowProgress 1 3 State_STATE_FAILED = "33%" ∧
  calWorkflowProgress (2 ^ 62) (2 ^ 63 - 1) State_STATE_RUNNING = "0%".
Proof. split_and!; vm_compute; reflexivity. Qed.

(** A server on which every call fails. *)
Definition failing_client : TinkClient (Remote unit) :=
  let fails {A} : go (Remote unit) (result A) := unary (go_ret (Err (NewErr "not implemented"))) in
  let fails_stream {M} : go (Remote unit) (result (stream M)) :=
    streaming (go_ret (Some (NewErr "not implemented"))) in
  {| hc_Push _ := fails; hc_ByMAC _ := fails; hc_ByIP _ := fails; hc_ByID _ := fails;
     hc_All := fails_stream; hc_Delete _ := fails;
     tc_CreateTemplate _ _ := fails; tc_GetTemplate _ := fails; tc_DeleteTemplate _ := fails;
     tc_ListTemplates _ := fails_stream; tc_UpdateTemplate _ := fails;
     wc_CreateWorkflow _ _ := fails; wc_GetWorkflow _ := fails; wc_DeleteWorkflow _ := fails;
     wc_ListWorkflows := fails_stream; wc_GetWorkflowContext _ := fails;
     wc_ShowWorkflowEvents _ := fails_stream; wc_GetWorkflowData _ := fails;
     wc_GetWorkflowMetadata _ := fails; wc_GetWorkflowDataVersion _ := fails |}.
#[local] Existing Instance failing_client.
Definition demo_cli {S} (s : S) : Cli (Remote S) :=
  {| c_srv := Build_Remote true s; c_stdin := Ok ""; c_out := []; c_err := [];
     c_conn := Some {| cc_authority := "localhost:42113"; cc_tls := false |} |}.
Lemma events_errors_lost_witness :
  ∃ s', cmd_RunE (S := Remote unit) workflow_events ["id"] (demo_cli tt) =
    (Ret None, add_out [Table (Some ["Worker ID"; "Task Name"; "Action Name"; "Execution Time";
        "Message"; "Action Status"]) []] (set_srv s' (demo_cli tt))).
Proof.
  apply (events_errors_lost (S := Remote unit) (λ s, rm_up s = true)
    (λ _, {| st_msgs := []; st_err := StatusErr Unknown "not implemented" |}) ["id"] (demo_cli tt));
    [by eexists|done|].
  intros arg [up s] Hs. simpl in Hs. subst. by eexists.
Defined.
