(* ===== verification/CliSystem.v ===== *)
(** * CliSystem: the command line with the database-backed server

    The commands of [CliCmd] run against the handlers of [DbServer] and
    [DbHardware] over gRPC ([Client.db_client]), with a database that answers:
    what an operator sees of what is stored, and what the commands store. *)
From S2P Require Import Prelude Proto Json Template Service DbBase DbWorkflow DbTemplate DbServer DbHardware HwWrapper Client Cli CliCmd.
From stdpp Require Import options.

(** ** The server as a client sees it *)

(** The tables behind a server, and a server that is up and ready. *)
Definition tables (r : Remote DBServer) : Tables := db_tables (sv_db (rm_state r)).
Definition serving (r : Remote DBServer) : Prop := rm_up r = true ∧ sv_ready (rm_state r) = true.

(** ** What the handlers do when the database answers *)
Section reliable.
#[local] Set Default Proof Using "Type*".
Context `{DE : DbEnv} `{TE : TemplateEnv} `{MR : MapRange} `{SE : ServerEnv}.
Hypothesis Hrel : ∀ n, db_fault n = None.

Lemma exec_tx_found_reliable msg id stmt s :
  ∃ s', exec_tx_found msg id stmt s =
    (Ret match stmt (db_clock (S (db_tick s))) (db_tables s) with
         | Ok (t, n) => if decide (n = 0) then Some (StatusErr NotFound ("not found, id:" +:+ id)) else None
         | Err e => Some (WrapErr e msg)
         end, s') ∧
    db_tables s' = match stmt (db_clock (S (db_tick s))) (db_tables s) with
                   | Ok (t, n) => if decide (n = 0) then db_tables s else t
                   | Err e => db_tables s
                   end.
Proof.
  unfold exec_tx_found, go_try, go_bind, BeginTx, ExecContext. simpl. rewrite !Hrel. simpl.
  destruct (stmt _ _) as [[t n]|e]; [|by eexists]. simpl. case_decide; [by eexists|].
  unfold commit_or, go_bind, Commit. simpl. rewrite Hrel. by eexists.
Qed.

(** A server call made of counters around one operation of the database. *)
Lemma DeleteWorkflow_handler id s e d :
  DbWorkflow.DeleteWorkflow id (sv_db s) = (Ret e, d) →
  ∃ s', DbServer.DeleteWorkflow id s = (Ret e, s') ∧ sv_db s' = d ∧ sv_ready s' = sv_ready s.
Proof.
  intros Hd. unfold DbServer.DeleteWorkflow, go_defer, go_bind, inc, dec, go_modify, on_db, go_zoom.
  simpl. rewrite Hd. destruct e; simpl; by eexists.
Qed.

Lemma DeleteTemplate_handler g s e d :
  DbTemplate.DeleteTemplate (GetRequest_GetId g) (sv_db s) = (Ret e, d) →
  ∃ s', DbServer.DeleteTemplate g s = (Ret e, s') ∧ sv_db s' = d ∧ sv_ready s' = sv_ready s.
Proof.
  intros Hd. unfold DbServer.DeleteTemplate, go_defer, go_bind, inc, dec, go_modify, on_db, go_zoom.
  simpl. rewrite Hd. destruct e; simpl; by eexists.
Qed.

Lemma GetTemplate_handler g s t e d :
  DbTemplate.GetTemplate {[ "id" := GetRequest_GetId g; "name" := GetRequest_GetName g ]} false (sv_db s)
    = (Ret (t, e), d) →
  ∃ s', DbServer.GetTemplate g s = (Ret (t, e), s') ∧ sv_db s' = d ∧ sv_ready s' = sv_ready s.
Proof.
  intros Hd. unfold DbServer.GetTemplate, go_defer, go_bind, inc, dec, go_modify, on_db, go_zoom.
  simpl. rewrite Hd. destruct e; simpl; by eexists.
Qed.

Lemma UpdateTemplate_handler t id s e d :
  uuid_parse (wt_Id t) = Some id →
  DbTemplate.UpdateTemplate (wt_Name t) (wt_Data t) id (sv_db s) = (Ret e, d) →
  ∃ s', DbServer.UpdateTemplate t s = (Ret e, s') ∧ sv_db s' = d ∧ sv_ready s' = sv_ready s.
Proof.
  intros Hu Hd. unfold DbServer.UpdateTemplate, go_defer, go_bind, inc, dec, go_modify, on_db, go_zoom.
  simpl. rewrite Hu. simpl. rewrite Hd. destruct e; simpl; by eexists.
Qed.

(** Deleting a workflow whose id PostgreSQL accepts. *)
Lemma delete_reliable id i s :
  pg_uuid id = Some i →
  ∃ r s', DbWorkflow.DeleteWorkflow id s = (Ret r, s') ∧
    match t_workflow (db_tables s) !! i with
    | Some _ => r = None
    | None => ∃ m, r = Some (StatusErr NotFound m)
    end.
Proof.
  intros Hi. unfold DbWorkflow.DeleteWorkflow, go_try, go_bind, BeginTx, ExecContext.
  unfold stmt_delete_worker_map, stmt_delete_state, stmt_update_workflow. rewrite Hi. simpl.
  rewrite !Hrel. simpl. destruct (t_workflow (db_tables s) !! i) as [row|].
  - simpl. unfold commit_or, go_bind, Commit. simpl. rewrite Hrel. by eexists _, _.
  - simpl. eexists _, _. split; [done|]. by eexists.
Qed.
End reliable.

(** ** Deleting workflows *)
Section delete.
#[local] Set Default Proof Using "Type*".
Context `{DE : DbEnv} `{TE : TemplateEnv} `{MR : MapRange} `{SE : ServerEnv} `{HJ : HardwareJson}.
Hypothesis Hrel : ∀ n, db_fault n = None.

Definition workflow_exists (t : Tables) (id : string) : bool :=
  match pg_uuid id with Some i => bool_decide (is_Some (t_workflow t !! i)) | None => false end.

(** The workflows with a UUID among [ids] have been deleted from [t], giving [t']. *)
Definition deleted_among (ids : list string) (t t' : Tables) : Prop := ∀ i,
  match t_workflow t !! i with
  | None => t_workflow t' !! i = None
  | Some row =>
      ∃ row', t_workflow t' !! i = Some row' ∧ wr_template row' = wr_template row ∧
        if decide (i ∈ omap pg_uuid ids) then is_Some (wr_deleted_at row') ∧ t_state t' !! i = None
        else row' = row ∧ t_state t' !! i = t_state t !! i
  end.

Lemma deleted_among_nil t : deleted_among [] t t.
Proof. intros i. destruct (t_workflow t !! i) as [row|]; [|done]. by exists row. Qed.

Lemma deleted_among_exists ids t t' id :
  deleted_among ids t t' → workflow_exists t' id = workflow_exists t id.
Proof.
  intros Hd. unfold workflow_exists. destruct (pg_uuid id) as [i|]; [|done]. specialize (Hd i).
  destruct (t_workflow t !! i) as [row|]; [|by rewrite Hd].
  destruct Hd as (row' & -> & _). rewrite !bool_decide_true by by eexists. done.
Qed.

(** One deletion. *)
Lemma delete_one ids t id i s r s' :
  pg_uuid id = Some i → deleted_among ids t (db_tables s) →
  DbWorkflow.DeleteWorkflow id s = (Ret r, s') → deleted_among (ids ++ [id]) t (db_tables s').
Proof.
  intros Hi Hd Hrun. pose proof (delete_effect id i s r s' Hi Hrun) as He.
  destruct r as [e|].
  - rewrite He. intros j. specialize (Hd j). destruct (t_workflow t !! j) as [row|] eqn:Hj; [|done].
    destruct Hd as (row' & Hr' & Ht & Hd). exists row'. split; [done|]. split; [done|].
    rewrite omap_app. simpl. rewrite Hi.
    destruct (decide (j = i)) as [->|Hne].
    + (* the row exists, so the deletion did not fail with not found *)
      exfalso. destruct (delete_reliable Hrel id i s Hi) as (r & s2 & Hrun2 & Hr).
      rewrite Hrun in Hrun2. simplify_eq. by rewrite Hr' in Hr.
    + destruct (decide (j ∈ omap pg_uuid ids)) as [Hin|Hin].
      * rewrite decide_True by set_solver. done.
      * rewrite decide_False by set_solver. done.
  - destruct He as (row0 & now & Hrow0 & Hw & Hst & _ & _). intros j. specialize (Hd j).
    rewrite omap_app. simpl. rewrite Hi. rewrite Hw, Hst.
    destruct (t_workflow t !! j) as [row|] eqn:Hj.
    + destruct Hd as (row' & Hr' & Ht & Hd). destruct (decide (j = i)) as [->|Hne].
      * rewrite lookup_insert_eq, lookup_delete_eq. eexists. split; [done|].
        assert (row0 = row') as -> by congruence. split; [done|].
        rewrite decide_True by set_solver. split; [by eexists|done].
      * rewrite lookup_insert_ne, lookup_delete_ne by done. exists row'. split; [done|].
        split; [done|]. destruct (decide (j ∈ omap pg_uuid ids)) as [Hin|Hin].
        -- rewrite decide_True by set_solver. done.
        -- rewrite decide_False by set_solver. done.
    + destruct (decide (j = i)) as [->|Hne]; [congruence|]. by rewrite lookup_insert_ne.
Qed.

(** [tink workflow delete] with any ids that are UUIDs: the command succeeds,
    prints the ids of the workflows that exist and, on standard error, those of
    the others, each in the order given; exactly the workflows that were named are
    deleted, with their states, and all others are as they were. *)
Theorem cli_delete_workflows ids w :
  serving (c_srv w) → is_Some (c_conn w) → Forall (λ id, is_Some (pg_uuid id)) ids →
  let found := workflow_exists (tables (c_srv w)) in
  ∃ w', delete_RunE (Some workflow_DeleteByID) ids w = (Ret None, w') ∧
    c_out w' = c_out w ++
      map (λ id, Line ("Deleted" +:+ tab +:+ id)) (filter (λ id, found id = true) ids) ∧
    c_err w' = c_err w ++
      map (λ id, "Error" +:+ tab +:+ id +:+ tab +:+ "not found") (filter (λ id, found id = false) ids) ∧
    serving (c_srv w') ∧ deleted_among ids (tables (c_srv w)) (tables (c_srv w')).
Proof.
  intros Hs Hconn Hall found. simpl.
  destruct (delete_each_known
    (λ l r, serving r ∧ deleted_among l (tables (c_srv w)) (tables r)) found workflow_DeleteByID
    ids [] w) as (s' & Hrun & Hs' & Hd); [done|split; [done|apply deleted_among_nil]| |].
  - intros id l [up s] Hin [[Hup Hready] Hd]. simpl in Hup, Hready. subst.
    rewrite Forall_forall in Hall. destruct (Hall id Hin) as [i Hi].
    destruct (delete_reliable Hrel id i (sv_db s) Hi) as (e & d & Hrun & He).
    destruct (DeleteWorkflow_handler Hrel id s e d Hrun) as (s' & Hh & Hdb & Hr).
    eexists _, _. split; [exact (unary_err_up _ _ _ _ Hh)|]. split.
    + split; [by split; simpl; congruence|]. unfold tables. simpl. rewrite Hdb.
      by eapply (delete_one _ _ _ _ _ _ _ Hi Hd).
    + pose proof (deleted_among_exists _ _ _ id Hd) as Hex. unfold found. rewrite <- Hex.
      unfold workflow_exists, tables. simpl. rewrite Hi.
      destruct (t_workflow _ !! i) as [row|]; [by subst|]. destruct He as [m ->].
      simpl. done.
  - eexists. split; [exact Hrun|]. done.
Qed.
End delete.

(** ** Getting templates *)
Section get.
#[local] Set Default Proof Using "Type*".
Context `{DE : DbEnv} `{TE : TemplateEnv} `{MR : MapRange} `{SE : ServerEnv} `{HJ : HardwareJson}.
Hypothesis Hrel : ∀ n, db_fault n = None.

Definition pb_template (p : string * TemplateRow) : WorkflowTemplate :=
  {| wt_Id := p.1; wt_Name := tr_name p.2; wt_CreatedAt := Some (tr_created_at p.2);
     wt_UpdatedAt := Some (tr_updated_at p.2); wt_DeletedAt := None; wt_Data := tr_data p.2 |}.

Definition get_condition (g : GetBy) : string * string :=
  match g with GetRequest_Id i => ("id", i) | GetRequest_Name n => ("name", n) end.

(** The live template that a request names. *)
Definition template_of (t : Tables) (g : GetBy) : option (string * TemplateRow) :=
  if decide ((get_condition g).2 = "") then None
  else match select_template (get_condition g) false t with Ok p => Some p | Err _ => None end.

Lemma build_condition g :
  (get_condition g).2 ≠ "" →
  buildGetCondition {[ "id" := GetRequest_GetId (Some g); "name" := GetRequest_GetName (Some g) ]} =
    Ok (get_condition g).
Proof.
  intros Hne. unfold buildGetCondition. set (m := {[ _ := _; _ := _ ]} : gmap string string).
  assert (∀ kv, kv ∈ range_map m ↔ m !! kv.1 = Some kv.2) as Hm.
  { intros [k v]. rewrite range_map_perm. apply elem_of_map_to_list. }
  assert (m !! (get_condition g).1 = Some (get_condition g).2) as Hin.
  { unfold m. destruct g; simpl in *; [by rewrite lookup_insert_eq|].
    rewrite lookup_insert_ne by done. by rewrite lookup_singleton_eq. }
  assert (∀ kv, m !! kv.1 = Some kv.2 → kv.2 ≠ "" → kv = get_condition g) as Huniq.
  { intros [k v] Hk Hv. unfold m in Hk. simpl in *.
    apply lookup_insert_Some in Hk as [[<- <-]|[_ [<- <-]%lookup_singleton_Some]];
      destruct g; simpl in *; done. }
  destruct (list_find (λ kv, kv.2 ≠ "") (range_map m)) as [[n kv]|] eqn:E.
  - apply list_find_Some in E as (Hl & Hv & _). f_equal. apply Huniq; [|done].
    apply Hm. by eapply list_elem_of_lookup_2.
  - apply list_find_None in E. rewrite Forall_forall in E. exfalso.
    apply (E (get_condition g)); [by apply Hm|done].
Qed.

Lemma get_template_reliable g r :
  serving r →
  ∃ a r', tc_GetTemplate (Some g) r = (Ret a, r') ∧ serving r' ∧ tables r' = tables r ∧
    match template_of (tables r) g with
    | Some p => a = Ok (pb_template p)
    | None => ∃ e, a = Err e
    end.
Proof.
  destruct r as [up s]. intros [Hup Hready]. simpl in Hup, Hready. subst.
  assert (∃ t e d, DbTemplate.GetTemplate {[ "id" := GetRequest_GetId (Some g);
      "name" := GetRequest_GetName (Some g) ]} false (sv_db s) = (Ret (t, e), d) ∧
      db_tables d = db_tables (sv_db s) ∧
      match template_of (db_tables (sv_db s)) g with
      | Some p => t = pb_template p ∧ e = None | None => is_Some e end)
    as (t & e & d & Hget & Hd & Hte).
  { unfold DbTemplate.GetTemplate, template_of. case_decide as H0.
    - assert (buildGetCondition {[ "id" := GetRequest_GetId (Some g);
        "name" := GetRequest_GetName (Some g) ]} =
        Err (NewErr "one GetBy field must be set to build a get condition")) as ->.
      { unfold buildGetCondition. destruct (list_find _ _) as [[n kv]|] eqn:E; [|done].
        apply list_find_Some in E as (Hl & Hv & _). exfalso.
        apply list_elem_of_lookup_2 in Hl. rewrite range_map_perm in Hl.
        destruct kv as [k v]. apply elem_of_map_to_list in Hl. simpl in *.
        apply lookup_insert_Some in Hl as [[<- <-]|[_ [<- <-]%lookup_singleton_Some]];
          destruct g; simpl in *; done. }
      by eexists _, _, _.
    - rewrite build_condition by done. unfold go_bind, QueryRow. rewrite Hrel.
      destruct (select_template _ _ _) as [[i row]|e]; eexists _, _, _; (split; [done|]); done. }
  destruct (GetTemplate_handler Hrel (Some g) s t e d Hget) as (s' & Hh & Hdb & Hr).
  eexists _, _. split; [exact (unary_pair_up _ _ _ _ _ Hh)|]. unfold tables. simpl. rewrite Hdb.
  split; [by split; simpl; congruence|]. split; [done|].
  destruct (template_of _ g) as [p|]; [by destruct Hte as [-> ->]|]. destruct Hte as [e' ->].
  by eexists.
Qed.

Definition requested (arg : string) : GetBy :=
  if is_uuid arg then GetRequest_Id arg else GetRequest_Name arg.
Definition template_item (p : string * TemplateRow) : item := ITemplate (pb_template p).
Definition template_row (p : string * TemplateRow) : row :=
  [Text p.1; Text (tr_name p.2); Time (tr_created_at p.2); Time (tr_updated_at p.2)].

Lemma template_rows_of (l : list (string * TemplateRow)) (w : Cli (Remote DBServer)) :
  template_rows (template_item <$> l) w = (Ret (template_row <$> l), w).
Proof.
  unfold template_rows, go_ret. f_equal. f_equal.
  induction l as [|p l IH]; csimpl; [done|]. by f_equal.
Qed.

(** [tink template get] with ids and names: it prints the live templates that
    the arguments name, an id when it parses as a UUID and a name otherwise, in
    the order of the arguments; an argument that names nothing is left out without
    a word. Nothing is changed. *)
Theorem cli_get_templates (noheaders : bool) format args w :
  serving (c_srv w) → is_Some (c_conn w) → args ≠ [] →
  let data := omap (template_of (tables (c_srv w)) ∘ requested) args in
  let header := if noheaders then None else Some ["ID"; "Name"; "Created At"; "Updated At"] in
  ∃ r', tables r' = tables (c_srv w) ∧ serving r' ∧
    get_RunE (template_get_options format noheaders) args w =
      (Ret None, add_out
        [if decide (format = "json") then
           JsonData (if decide (data = []) then None else Some (template_item <$> data))
         else if decide (format = "csv") then Csv header (template_row <$> data)
         else Table header (template_row <$> data)] (set_srv r' w)).
Proof.
  intros Hs Hconn Hne data header.
  assert (∃ r', retrieveMulti (template_get_options format noheaders) args (c_srv w) =
    (Ret (Ok (template_item <$> data)), r') ∧ serving r' ∧ tables r' = tables (c_srv w))
    as (r' & Hr & Hs' & Ht').
  { destruct (retrieveMulti_known (λ r, serving r ∧ tables r = tables (c_srv w))
      (λ arg, template_item <$> template_of (tables (c_srv w)) (requested arg))
      (template_get_options format noheaders) args (c_srv w)) as (r' & Hrun & Hs' & Ht'); [done| |].
    - intros arg _.
      assert (∃ g, retriever (template_get_options format noheaders) arg = Ok g ∧
        g arg = to_item ITemplate (tc_GetTemplate (Some (requested arg)))) as (g & Hg & Hga)
        by (unfold retriever, requested; destruct (is_uuid arg); by eexists).
      exists g. split; [done|]. intros r [Hr Ht]. rewrite Hga. unfold to_item.
      destruct (get_template_reliable (requested arg) r Hr) as (a & r' & Ha & Hr' & Ht' & H).
      rewrite (go_bind_Ret _ _ _ _ _ Ha). eexists _, _. split; [done|].
      split; [split; [done|congruence]|]. rewrite <- Ht.
      destruct (template_of _ _); [by subst|by destruct H as [e ->]].
    - exists r'. split; [|done]. rewrite Hrun. unfold data. repeat f_equal.
      clear. induction args as [|arg args IH]; csimpl; [done|].
      destruct (template_of _ _); csimpl; [by f_equal|done]. }
  exists r'. split; [done|]. split; [done|].
  unfold get_RunE. rewrite bool_decide_true by done. cbn zeta iota.
  rewrite (go_bind_Ret _ _ _ _ _ (on_srv_Ret _ w _ _ Hconn Hr)).
  cbn [get_PopulateTable template_get_options].
  rewrite (go_bind_Ret _ _ _ _ _ (template_rows_of data (set_srv r' w))).
  unfold show_data, print, go_bind, go_modify. cbn [get_Format get_NoHeaders get_Headers template_get_options].
  destruct (decide (format = "json")); [|by destruct noheaders].
  destruct (decide (data = [])) as [E|E].
  - rewrite E. rewrite decide_True by done. done.
  - rewrite decide_False by (intros [_ H]; by apply fmap_nil_inv in H). done.
Qed.
End get.

(** ** Listing templates *)
Definition live_templates (t : Tables) : list (string * TemplateRow) :=
  filter (λ p, tr_deleted_at p.2 = None) (map_to_list (t_template t)).

(** The templates before the first without a name. *)
Fixpoint until_unnamed (l : list (string * TemplateRow)) : list (string * TemplateRow) :=
  match l with
  | [] => []
  | p :: l' => if decide (tr_name p.2 = "") then [] else p :: until_unnamed l'
  end.

Lemma until_unnamed_all l : until_unnamed l = l ↔ ∀ p, p ∈ l → tr_name p.2 ≠ "".
Proof.
  induction l as [|p l IH]; simpl; [set_solver|]. case_decide as E; split.
  - done.
  - intros H. exfalso. apply (H p); [set_solver|done].
  - intros [= Hl]. rewrite IH in Hl. set_solver.
  - intros H. f_equal. apply IH. set_solver.
Qed.

Section listing.
#[local] Set Default Proof Using "Type*".
Context `{DE : DbEnv} `{TE : TemplateEnv} `{MR : MapRange} `{SE : ServerEnv} `{HJ : HardwareJson}.
Hypothesis Hrel : ∀ n, db_fault n = None.

(** A loop over rows when the database answers. *)
Lemma for_rows_reliable {A M} (f : A → M) (l : list A) s sent :
  ∃ s', for_rows (λ a, stream_send (λ _, None) (f a)) l (s, sent) = (Ret None, (s', sent ++ (f <$> l))) ∧
    db_tables s' = db_tables s.
Proof.
  revert s sent. induction l as [|a l IH]; intros s sent; simpl.
  - unfold go_bind, go_zoom. simpl. rewrite Hrel, app_nil_r. by eexists.
  - unfold go_bind, go_zoom. simpl. rewrite Hrel. simpl.
    destruct (IH (db_next s) (sent ++ [f a])) as (s' & Hrun & Ht). rewrite Hrun. exists s'.
    split; [|done]. by rewrite <- (assoc_L (++)).
Qed.

Definition listed_template (p : string * TemplateRow) : WorkflowTemplate :=
  {| wt_Id := p.1; wt_Name := tr_name p.2; wt_CreatedAt := Some (tr_created_at p.2);
     wt_UpdatedAt := Some (tr_updated_at p.2); wt_DeletedAt := None; wt_Data := "" |}.

(** All live templates are sent for the pattern of everything. *)
Lemma list_templates_reliable r :
  serving r → (∀ s, ilike s "%" = true) →
  ∃ r', tc_ListTemplates "*" r =
      (Ret (Ok {| st_msgs := listed_template <$> live_templates (tables r); st_err := EOF |}), r') ∧
    serving r' ∧ tables r' = tables r.
Proof.
  destruct r as [up s]. intros [Hup Hready] Hlike. simpl in Hup, Hready. subst.
  cbn [tc_ListTemplates db_client]. unfold streaming, DbServer.ListTemplates, listing.
  change (template_filter "*") with "%".
  assert (select_templates "%" (db_tables (sv_db s)) = Ok (live_templates (tables (Build_Remote true s))))
    as Hsel.
  { unfold select_templates, live_templates, tables. simpl. f_equal. apply list_filter_iff.
    intros p. rewrite Hlike. naive_solver. }
  cbn [rm_up rm_state]. unfold go_bind, go_zoom, on_server, inc, dec, go_modify, go_defer, on_db_stream, go_get.
  simpl. rewrite Hready. simpl. unfold DbTemplate.ListTemplates, go_try, go_bind, go_zoom, Query, QueryRow.
  simpl. rewrite Hrel, Hsel. simpl.
  destruct (for_rows_reliable listed_template (live_templates (tables (Build_Remote true s)))
    (db_next (sv_db s)) []) as (d & Hrun & Ht). unfold listed_template in Hrun. rewrite Hrun. simpl.
  eexists. split; [done|]. unfold serving, tables. simpl. by rewrite Ht.
Qed.

Lemma recv_templates l err :
  ∃ e, recv_while has_name (listed_template <$> l) err = (listed_template <$> until_unnamed l, e) ∧
    (e = None ∨ e = Some err).
Proof.
  induction l as [|p l (e & IH & He)]; csimpl; [by eauto|].
  change (has_name (listed_template p)) with (bool_decide (tr_name p.2 ≠ "")).
  case_decide as E; simpl.
  - rewrite bool_decide_false by naive_solver. eauto.
  - rewrite bool_decide_true by done. rewrite IH. eauto.
Qed.

Lemma listed_rows_of (l : list (string * TemplateRow)) (w : Cli (Remote DBServer)) :
  template_rows (map ITemplate (listed_template <$> l)) w = (Ret (template_row <$> l), w).
Proof.
  unfold template_rows, go_ret. f_equal. f_equal.
  induction l as [|p l IH]; csimpl; [done|]. by f_equal.
Qed.

(** [tink template get] without arguments shows the live templates of the
    database up to the first that has no name, and so all of them exactly when
    none has an empty name; that the listing was cut off is not reported. *)
Theorem cli_list_templates (noheaders : bool) w :
  serving (c_srv w) → is_Some (c_conn w) → (∀ s, ilike s "%" = true) →
  let live := live_templates (tables (c_srv w)) in
  let header := if noheaders then None else Some ["ID"; "Name"; "Created At"; "Updated At"] in
  (∃ r', tables r' = tables (c_srv w) ∧
     get_RunE (template_get_options "table" noheaders) [] w =
       (Ret None, add_out [Table header (template_row <$> until_unnamed live)] (set_srv r' w))) ∧
  (until_unnamed live = live ↔ ∀ p, p ∈ live → tr_name p.2 ≠ "").
Proof.
  intros Hs Hconn Hlike live header. split; [|apply until_unnamed_all].
  destruct (list_templates_reliable (c_srv w) Hs Hlike) as (r' & Hl & _ & Ht).
  exists r'. split; [done|]. fold live in Hl.
  assert (retrieve_all has_name ITemplate (tc_ListTemplates "*") (c_srv w) =
    (Ret (Ok (map ITemplate (listed_template <$> until_unnamed live))), r')) as Hr.
  { unfold retrieve_all. rewrite (go_bind_Ret _ _ _ _ _ Hl). unfold recv. simpl.
    destruct (recv_templates live EOF) as (e & -> & [->| ->]); done. }
  unfold get_RunE. rewrite bool_decide_false by (by intros []). cbn zeta iota.
  cbn [get_RetrieveData template_get_options].
  rewrite (go_bind_Ret _ _ _ _ _ (on_srv_Ret _ w _ _ Hconn Hr)).
  cbn [get_PopulateTable template_get_options].
  rewrite (go_bind_Ret _ _ _ _ _ (listed_rows_of _ (set_srv r' w))).
  unfold show_data, print, go_bind, go_modify. simpl. by destruct noheaders.
Qed.
End listing.

(** ** Creating and updating templates *)
Section store.
#[local] Set Default Proof Using "Type*".
Context `{DE : DbEnv} `{TE : TemplateEnv} `{MR : MapRange} `{SE : ServerEnv} `{HJ : HardwareJson}.
Context `{CE : CliEnv}.

Lemma unary_Ok {S A} (c : go S (result A)) r a r' :
  unary c r = (Ret (Ok a), r') →
  rm_up r = true ∧ ∃ s, c (rm_state r) = (Ret (Ok a), s) ∧ r' = Build_Remote true s.
Proof using.
  unfold unary. destruct (rm_up r); [|done]. destruct (c _) as [[[]| |] s]; intros [= <- <-]. eauto.
Qed.

Lemma unary_err_Ok {S} (c : go S (option error)) r u r' :
  unary_err c r = (Ret (Ok u), r') →
  rm_up r = true ∧ ∃ s, c (rm_state r) = (Ret None, s) ∧ r' = Build_Remote true s.
Proof using.
  intros (Hup & s & Hc & ->)%unary_Ok. split; [done|]. exists s. split; [|done].
  apply go_bind_inv in Hc as ([e|] & s1 & Hc & Hr); unfold go_ret in Hr; by simplify_eq.
Qed.

Lemma unary_pair_Ok {S A} (c : go S (A * option error)) r a r' :
  unary_pair c r = (Ret (Ok a), r') →
  rm_up r = true ∧ ∃ s, c (rm_state r) = (Ret (a, None), s) ∧ r' = Build_Remote true s.
Proof using.
  intros (Hup & s & Hc & ->)%unary_Ok. split; [done|]. exists s. split; [|done].
  apply go_bind_inv in Hc as ([a' [e|]] & s1 & Hc & Hr); unfold go_ret in Hr; by simplify_eq.
Qed.

Lemma on_srv_inv {S A} (c : go S A) (w : Cli S) a w' :
  on_srv c w = (Ret a, w') → ∃ s, c (c_srv w) = (Ret a, s) ∧ w' = set_srv s w.
Proof using.
  unfold on_srv, go_zoom. destruct (c_conn w); [|done]. destruct (c (c_srv w)) as [o s].
  intros [= -> <-]. eauto.
Qed.

(** Updating a template over gRPC. *)
Lemma client_update t r u r' :
  tc_UpdateTemplate t r = (Ret (Ok u), r') →
  ∃ id, uuid_parse (wt_Id t) = Some id ∧ rm_up r' = true ∧
    match t_template (tables r) !! id with
    | None => tables r' = tables r
    | Some row => ∃ row',
        t_template (tables r') = <[id := row']> (t_template (tables r)) ∧
        tr_name row' = (if decide (wt_Name t = "" ∧ wt_Data t ≠ "") then tr_name row else wt_Name t) ∧
        tr_data row' = (if decide (wt_Data t = "" ∧ wt_Name t ≠ "") then tr_data row else wt_Data t)
    end.
Proof.
  intros (Hup & s' & Hrun & ->)%unary_err_Ok.
  unfold DbServer.UpdateTemplate in Hrun. apply in_flight_Ret in Hrun as (s1 & Hrun & ->).
  apply go_bind_inv in Hrun as (? & s2 & [= _ <-] & Hrun).
  destruct (uuid_parse (wt_Id t)) as [id|]; [|done].
  apply go_bind_inv in Hrun as (e & s3 & Hd & Hrun). apply on_db_inv in Hd as (d & Hd & ->).
  apply go_bind_inv in Hrun as ([? e'] & s4 & Hc & Hr). injection Hr as He <-. simpl in He. subst e'.
  unfold count_error in Hc. destruct e as [e|]; [discriminate Hc|]. injection Hc as _ <-.
  exists id. split; [done|]. split; [done|].
  pose proof (update_template_effect _ _ _ _ _ Hd) as He. unfold tables. simpl in *.
  destruct (t_template _ !! id) as [row|]; [|done].
  destruct He as (row' & H1 & _ & _ & H2 & H3). eauto.
Qed.

(** The rows of [t] that [ids] does not name are in [t'] as they were. *)
Definition template_frame (ids : list string) (t t' : Tables) : Prop :=
  ∀ i, i ∉ ids → t_template t' !! i = t_template t !! i.

Lemma send_update_inv req (w w' : Cli (Remote DBServer)) u :
  uuid_parse (wt_Id req) = Some (wt_Id req) → send_update req w = (Ret u, w') →
  c_stdin w' = c_stdin w ∧
  c_out w' = c_out w ++ [Line ("Updated Template:  " +:+ wt_Id req)] ∧
  template_frame [wt_Id req] (tables (c_srv w)) (tables (c_srv w')) ∧
  ∀ row, t_template (tables (c_srv w)) !! wt_Id req = Some row → ∃ row',
    t_template (tables (c_srv w')) !! wt_Id req = Some row' ∧
    tr_name row' = (if decide (wt_Name req = "" ∧ wt_Data req ≠ "") then tr_name row else wt_Name req) ∧
    tr_data row' = (if decide (wt_Data req = "" ∧ wt_Name req ≠ "") then tr_data row else wt_Data req).
Proof.
  intros Hid Hrun. unfold send_update in Hrun.
  apply go_bind_inv in Hrun as (r & w1 & Hc & Hrun). apply on_srv_inv in Hc as (s & Hc & ->).
  destruct r as [v|e]; [|discriminate Hrun]. injection Hrun as _ <-. simpl.
  destruct (client_update _ _ _ _ Hc) as (id & Hid' & _ & Ht).
  assert (id = wt_Id req) as -> by congruence. split; [done|]. split; [done|].
  destruct (t_template (tables (c_srv w)) !! wt_Id req) as [row|] eqn:Hrow.
  - destruct Ht as (row' & Ht & Hn & Hd). split.
    + intros i Hi. rewrite Ht. apply lookup_insert_ne. set_solver.
    + intros row0 [= <-]. exists row'. rewrite Ht, lookup_insert_eq. done.
  - split; [|done]. intros i _. by rewrite Ht.
Qed.

(** Once standard input has been read, every further update is empty. *)
Lemma update_rest_blank path ids (w w' : Cli (Remote DBServer)) :
  stdin_pipe = true → c_stdin w = Ok "" → Forall (λ id, uuid_parse id = Some id) ids → NoDup ids →
  go_each (updateTemplate path) ids w = (Ret tt, w') →
  c_out w' = c_out w ++ map (λ id, Line ("Updated Template:  " +:+ id)) ids ∧
  template_frame ids (tables (c_srv w)) (tables (c_srv w')) ∧
  ∀ i row, i ∈ ids → t_template (tables (c_srv w)) !! i = Some row → ∃ row',
    t_template (tables (c_srv w')) !! i = Some row' ∧ tr_name row' = "" ∧ tr_data row' = "".
Proof.
  intros Hpipe. revert w. induction ids as [|id ids IH]; intros w Hin Hids Hnd Hrun.
  { injection Hrun as <-. rewrite app_nil_r. split; [done|]. split; [done|set_solver]. }
  apply NoDup_cons in Hnd as [Hni Hnd]. inversion_clear Hids as [|? ? Hid Hids'].
  simpl in Hrun. apply go_bind_inv in Hrun as ([] & w1 & Hu & Hrun).
  unfold updateTemplate, read_input, isInputFromPipe in Hu. rewrite Hpipe in Hu.
  unfold go_bind, read_stdin in Hu. rewrite Hin in Hu. cbn [fst snd] in Hu.
  rewrite decide_False in Hu by (intros H; by apply H).
  destruct (send_update_inv (zero_template id) _ _ _ Hid Hu) as (Hin1 & Hout1 & Hf1 & Hr1).
  simpl in Hin1, Hout1, Hf1, Hr1.
  destruct (IH w1 Hin1 Hids' Hnd Hrun) as (Hout & Hf & Hr). split_and!.
  - rewrite Hout, Hout1, <- (assoc_L (++)). done.
  - intros i Hi. rewrite Hf, Hf1 by set_solver. done.
  - intros i row [->|Hi]%elem_of_cons Hrow.
    + destruct (Hr1 row Hrow) as (row' & Hrow' & Hn & Hd). exists row'.
      by rewrite Hf by done.
    + apply (Hr i row Hi). rewrite Hf1 by set_solver. done.
Qed.

(** C35 [tink template update] with several ids and the template on standard
    input: when the command succeeds, the first id has the template, but standard
    input is then used up, and every other template that was named has lost its
    name and its data. All of them are reported as updated. *)
Theorem cli_update_pipe_blanks path id ids data (w w' : Cli (Remote DBServer)) :
  stdin_pipe = true → c_stdin w = Ok data → data ≠ "" →
  Forall (λ id, uuid_parse id = Some id) (id :: ids) → NoDup (id :: ids) →
  cmd_RunE (template_update path) (id :: ids) w = (Ret None, w') →
  c_out w' = c_out w ++ map (λ id, Line ("Updated Template:  " +:+ id)) (id :: ids) ∧
  ∃ wf, Parse data = Ok wf ∧
  ∀ i row, t_template (tables (c_srv w)) !! i = Some row → ∃ row',
    t_template (tables (c_srv w')) !! i = Some row' ∧
    (i = id → tr_name row' = yw_Name wf ∧ tr_data row' = data) ∧
    (i ∈ ids → tr_name row' = "" ∧ tr_data row' = "") ∧
    (i ∉ id :: ids → row' = row).
Proof.
  intros Hpipe Hin Hne Hids Hnd Hrun. inversion_clear Hids as [|? ? Hid Hids'].
  apply NoDup_cons in Hnd as [Hni Hnd]. simpl in Hrun.
  apply go_bind_inv in Hrun as ([] & w2 & Hrun & [= <-]).
  apply go_bind_inv in Hrun as ([] & w1 & Hu & Hrun).
  unfold updateTemplate, read_input, isInputFromPipe in Hu. rewrite Hpipe in Hu.
  unfold go_bind, read_stdin in Hu. rewrite Hin in Hu. cbn [fst snd] in Hu.
  rewrite decide_True in Hu by done. destruct (Parse data) as [wf|e] eqn:Hp; [|discriminate Hu].
  apply send_update_inv in Hu as (Hin1 & Hout1 & Hf1 & Hr1); [|exact Hid].
  simpl in Hin1, Hout1, Hf1, Hr1.
  destruct (update_rest_blank _ _ _ _ Hpipe Hin1 Hids' Hnd Hrun) as (Hout & Hf & Hr).
  split; [by rewrite Hout, Hout1, <- (assoc_L (++))|]. exists wf. split; [done|].
  apply Parse_Ok in Hp as [_ Hok]. assert (yw_Name wf ≠ "") as Hname by apply Hok.
  intros i row Hrow. destruct (decide (i = id)) as [->|Hi].
  - destruct (Hr1 row Hrow) as (row' & Hrow' & Hn & Hd). exists row'.
    rewrite Hf by done. rewrite decide_False in Hn by naive_solver.
    rewrite decide_False in Hd by naive_solver.
    split; [done|]. split; [done|]. split; [done|set_solver].
  - rewrite <- (Hf1 i) in Hrow by set_solver.
    destruct (decide (i ∈ ids)) as [Hii|Hii].
    + destruct (Hr i row Hii Hrow) as (row' & Hrow' & Hb). exists row'. set_solver.
    + exists row. rewrite Hf by done. set_solver.
Qed.

Lemma client_create name data r id r' :
  live_names_unique (tables r) → tc_CreateTemplate name data r = (Ret (Ok id), r') →
  rm_up r' = true ∧ sv_ready (rm_state r') = sv_ready (rm_state r) ∧ live_names_unique (tables r') ∧
  ∃ row, select_template ("name", name) false (tables r') = Ok (id, row) ∧ tr_data row = data.
Proof.
  intros Hu (Hup & s' & Hrun & ->)%unary_pair_Ok.
  unfold DbServer.CreateTemplate in Hrun. apply in_flight_Ret in Hrun as (s1 & Hrun & ->).
  apply go_bind_inv in Hrun as (uid & s2 & [= <- <-] & Hrun).
  apply go_bind_inv in Hrun as (? & s3 & [= _ <-] & Hrun).
  apply go_bind_inv in Hrun as (e & s4 & Hd & Hrun). apply on_db_inv in Hd as (d & Hd & ->).
  destruct e as [e|].
  { apply go_bind_inv in Hrun as (? & ? & _ & Hrun). discriminate Hrun. }
  injection Hrun as Hid <-. simpl in *.
  apply create_template_read_back in Hd as (Hu' & _ & row & Hsel & Hdata); [|exact Hu].
  rewrite Hid in Hsel. split; [done|]. split; [done|]. split; [exact Hu'|]. by exists row.
Qed.

(** A template that is created from the command line is what the command line
    gets back: when [tink template create] succeeds it has printed the id of a
    template whose name is the one in the file, and getting that name prints the
    bytes of the file. *)
Theorem cli_template_roundtrip (Hrel : ∀ n, db_fault n = None) file (w w' : Cli (Remote DBServer)) :
  serving (c_srv w) → is_Some (c_conn w) → live_names_unique (tables (c_srv w)) →
  cmd_RunE (template_create file) [] w = (Ret None, w') →
  ∃ data wf id, Parse data = Ok wf ∧
    (if stdin_pipe then c_stdin w = Ok data
     else read_file (Clean (flag_value registered_filePath file)) = Ok data) ∧
    c_out w' = c_out w ++ [Line ("Created Template:  " +:+ id)] ∧
    live_names_unique (tables (c_srv w')) ∧
    (is_uuid (yw_Name wf) = false → ∃ r,
       cmd_RunE template_GetCmd [yw_Name wf] w' = (Ret None, add_out [Line data] (set_srv r w'))).
Proof.
  intros Hs Hconn Hu Hrun. simpl in Hrun. apply go_bind_inv in Hrun as ([] & w2 & Hrun & [= <-]).
  apply go_bind_inv in Hrun as ([data|e] & w1 & Hin & Hrun); [|discriminate Hrun].
  destruct (Parse data) as [wf|e] eqn:Hp; [|discriminate Hrun].
  assert (c_srv w1 = c_srv w ∧ c_out w1 = c_out w ∧ c_conn w1 = c_conn w ∧
    (if stdin_pipe then c_stdin w = Ok data
     else read_file (Clean (flag_value registered_filePath file)) = Ok data))
    as (Hsrv & Hout & Hcn & Hdata).
  { unfold read_input, isInputFromPipe in Hin. destruct stdin_pipe.
    - injection Hin as Hst <-. by split_and!.
    - injection Hin as Hst <-. by split_and!. }
  unfold createTemplate in Hrun. apply go_bind_inv in Hrun as ([id|e] & w3 & Hc & Hrun);
    [|discriminate Hrun].
  apply on_srv_inv in Hc as (r & Hc & ->). injection Hrun as <-. rewrite Hsrv in Hc.
  destruct (client_create _ _ _ _ _ Hu Hc) as (Hup & Hready & Hu' & row & Hsel & Hrow).
  exists data, wf, id. split; [done|]. split; [done|]. simpl. rewrite Hout. split; [done|].
  split; [done|]. intros Huuid.
  assert (serving r) as Hs' by (split; [done|]; rewrite Hready; apply Hs).
  destruct (get_template_reliable Hrel (GetRequest_Name (yw_Name wf)) r Hs')
    as (a & r' & Hg & _ & _ & Ha).
  assert (yw_Name wf ≠ "") as Hne by (apply Parse_Ok in Hp as [_ Hok]; apply Hok).
  unfold template_of in Ha. simpl in Ha. rewrite decide_False, Hsel in Ha by done. subst a.
  exists r'. set (w2 := add_out _ (set_srv r w1)).
  assert (is_Some (c_conn w2)) as Hc2 by (simpl; by rewrite Hcn).
  assert (by_id_or_name (yw_Name wf) = Some (GetRequest_Name (yw_Name wf))) as Hby
    by (unfold by_id_or_name; by rewrite Huuid).
  unfold template_GetCmd. cbn [cmd_RunE]. unfold Run. erewrite go_bind_Ret; [reflexivity|].
  cbn [go_each]. erewrite go_bind_Ret; [reflexivity|]. rewrite Hby.
  rewrite (go_bind_Ret _ _ _ _ _ (on_srv_Ret _ w2 _ _ Hc2 Hg)). simpl.
  unfold print, go_modify. by rewrite Hrow.
Qed.
End store.

(** ** Pushing and showing hardware *)

(** What PostgreSQL documents of jsonb. [jsonb_value v] is the value of the document that is
    stored for the text of [v]: white space and the order of members are not kept, the last
    of several members of one name counts, and numbers are of type numeric. Said only of
    what these documents hold: strings, booleans, 64-bit integers in plain decimals,
    arrays, and objects without repeated names, whose members are kept under their names.
    A text that is not accepted (such as one with the character U+0000) is not stored. *)
Class PgJsonb `{DbEnv} := {
  jsonb_value : jvalue → option jvalue;
  jsonb_stores v c :
    json_ok v = true → jsonb (json_print v) = Some c → json_parse c = jsonb_value v;
  jsonb_str s : jsonb_value (JStr s) = Some (JStr s);
  jsonb_bool b : jsonb_value (JBool b) = Some (JBool b);
  jsonb_int z : in_int64 z → jsonb_value (JNum (Itoa z)) = Some (JNum (Itoa z));
  jsonb_arr l l' : mapM jsonb_value l = Some l' → jsonb_value (JArr l) = Some (JArr l');
  jsonb_obj l : NoDup l.*1 → Forall (λ p, is_Some (jsonb_value p.2)) l →
    ∃ m, jsonb_value (JObj l) = Some (JObj m) ∧ NoDup m.*1 ∧ (∀ k, k ∈ m.*1 → k ∈ l.*1) ∧
      ∀ f, obj_lookup f m = obj_lookup f l ≫= jsonb_value;
  jsonb_null v : jsonb_value v = Some JNull → v = JNull;
  (** [data->>'id']. *)
  jsonb_id_member l s c :
    json_ok (JObj l) = true → NoDup l.*1 → jsonb (json_print (JObj l)) = Some c →
    obj_lookup "id" l = Some (JStr s) → jsonb_id (json_print (JObj l)) = Some s
}.

Section hardware.
#[local] Set Default Proof Using "Type*".
Context `{DE : DbEnv} `{PJ : !PgJsonb} `{TE : TemplateEnv} `{MR : MapRange} `{SE : ServerEnv} `{CE : CliEnv} `{FL : Floats}.
Hypothesis Hrel : ∀ n, db_fault n = None.

Lemma normalize_numbers good hw :
  hw_numbers good hw → hw_numbers good (normalizeHardwareData hw).
Proof using.
  intros [Hv Hn]. split; [done|]. simpl. intros l Hl x Hx.
  destruct (ph_Network hw) as [l0|]; [|done]. injection Hl as <-.
  apply list_elem_of_In, in_map_iff in Hx as (x0 & <- & Hx0%list_elem_of_In).
  specialize (Hn l0 eq_refl x0 Hx0). unfold normalize_interface. case_decide; [|done].
  intros d. simpl. destruct (pf_Dhcp x0) as [d0|] eqn:Hd0; [|done]. intros [= <-].
  exact (Hn d0 Hd0).
Qed.

Lemma int53_int64 hw : hw_numbers int53 hw → hw_numbers in_int64 hw.
Proof using.
  intros [Hv Hl]. unfold int53, in_int64 in *. split; [lia|].
  intros l Hl' x Hx d Hd. destruct (Hl l Hl' x Hx d Hd) as [H1 H2].
  split; [lia|]. intros ip Hip. specialize (H2 ip Hip). simpl in H2. lia.
Qed.

(** The document that is stored for a hardware is read as that hardware, and has its id. *)
Lemma stored_hardware hw c :
  hw_numbers in_int64 hw → jsonb (json_print (enc_hw hw)) = Some c →
  hw_unmarshal (HardwareJson := go_hardware_json) c = Ok hw ∧
  (ph_Id hw ≠ "" → jsonb_id (json_print (enc_hw hw)) = Some (ph_Id hw)).
Proof.
  intros Hn Hc. destruct (checked_hw hw Hn) as (v & [Hok _]%checked_Some & _). split.
  - destruct (hw_fields_reads jsonb_value in_int64 jsonb_str jsonb_bool jsonb_int jsonb_arr
      jsonb_obj jsonb_null (λ z Hz, Hz) hw Hn) as (v' & Hv' & Hdec).
    simpl. rewrite (jsonb_stores _ _ Hok Hc), Hv'. simpl. by rewrite Hdec.
  - intros Hid. eapply jsonb_id_member; [exact Hok| |exact Hc|].
    + eapply sublist_NoDup; [|apply present_keys]. by apply (bool_decide_unpack _).
    + rewrite (present_lookup "id" (put_str (ph_Id hw))).
      * unfold put_str. by rewrite decide_False.
      * by apply (bool_decide_unpack _).
      * right. left.
Qed.

(** C26 Hardware that is pushed from the command line can be shown and pushed
    again. When [tink hardware push] succeeds for a hardware whose numbers have at most
    53 bits and whose metadata is missing, null or a JSON object (with other metadata the
    push succeeds, but the hardware cannot be shown), and the database and the server
    answer, [tink hardware id] prints a JSON text that is read as the hardware that was
    pushed, with its MAC addresses in lower case and its metadata in canonical form. *)
Theorem cli_push_roundtrip data hw md i (w w' : Cli (Remote DBServer)) :
  serving (c_srv w) → is_Some (c_conn w) →
  UnmarshalJSON data = Ok (Some hw) → hw_numbers int53 hw →
  shown_metadata (ph_Metadata hw) = Ok md → pg_uuid (ph_Id hw) = Some i →
  push_data data w = (Ret tt, w') →
  ∃ t r, cmd_RunE hardware_id [ph_Id hw] w' = (Ret None, add_out [Line t] (set_srv r w')) ∧
    UnmarshalJSON t = Ok (Some (set_metadata md (normalizeHardwareData hw))).
Proof.
  intros Hs Hconn Hun Hnum Hmd Hi Hrun. unfold push_data in Hrun.
  destruct (decode_id data) as [[|c id]|]; [discriminate Hrun| |discriminate Hrun].
  rewrite Hun in Hrun. apply go_bind_inv in Hrun as ([[]|e] & w1 & Hc & Hrun); [|discriminate Hrun].
  apply on_srv_inv in Hc as (r & Hc & ->). injection Hrun as <-.
  destruct (unary_err_Ok _ _ _ _ Hc) as (Hup & s & Hpush & ->).
  assert (ph_Id hw ≠ "" ∧ sv_ready s = sv_ready (rm_state (c_srv w))) as [Hid Hready]
    by (apply push_Ok in Hpush as (Hr & Hid & _); done).
  set (hw' := normalizeHardwareData hw) in *.
  assert (hw_numbers in_int64 hw') as Hn64 by (apply int53_int64; by apply normalize_numbers).
  destruct (push_read_back hw (json_print (enc_hw hw')) (rm_state (c_srv w)) s i) as (s'' & Hby).
  - intros c' Hc'. apply (stored_hardware hw' c' Hn64 Hc').
  - intros c' Hc'. apply (stored_hardware hw' c' Hn64 Hc'). exact Hid.
  - reflexivity.
  - exact Hi.
  - apply Hs.
  - exact Hpush.
  - apply Hrel.
  - pose proof (wrapper_shown hw' (set_srv (Build_Remote true s'') (add_err
      ["Hardware data pushed successfully"] (set_srv (Build_Remote true s) w)))
      (normalize_numbers _ _ Hnum) Hid) as Hw.
    change (ph_Metadata hw') with (ph_Metadata hw) in Hw. rewrite Hmd in Hw.
    destruct Hw as (_ & t & Ht & Hback). exists t, (Build_Remote true s''). split; [|exact Hback].
    unfold hardware_id. cbn [cmd_RunE]. unfold Run. erewrite go_bind_Ret; [reflexivity|].
    cbn [go_each]. erewrite go_bind_Ret; [reflexivity|].
    erewrite go_bind_Ret; [|eapply on_srv_Ret; [exact Hconn|]; exact (unary_up _ _ _ _ Hby)].
    cbn iota. rewrite (go_bind_Ret _ _ _ _ _ Ht). done.
Qed.
End hardware.

(** ** Witnesses

    A database that does not fail, whose UUIDs start with "id" and whose jsonb is
    JSON text. *)
Definition text_jsonb_id (d : string) : option string :=
  match json_parse d with
  | Some (JObj l) => match obj_lookup "id" l with Some (JStr s) => Some s | _ => None end
  | _ => None
  end.
(** Members are sorted and repeated ones dropped; numbers keep their texts. *)
Definition text_jsonb (d : string) : option string :=
  json_print <$> (json_parse d ≫= to_any (H := text_floats)).
Definition text_uuid (s : string) : option string := if String.prefix "id" s then Some s else None.
#[local] Instance cli_db_env : DbEnv :=
  {| db_fault _ := None; db_clock n := Z.of_nat n; pg_uuid := text_uuid; uuid_parse := text_uuid;
     jsonb := text_jsonb;
     jsonb_contains data arg := Some (bool_decide (data = arg));
     jsonb_id := text_jsonb_id; ilike s p := bool_decide (p = "%" ∨ s = p); ParseMAC := some_text;
     ParseIP_To4 s := false |}.
#[local] Instance cli_range : MapRange :=
  {| range_map := map_to_list; range_map_perm m := reflexivity _ |}.
#[local] Instance cli_tenv : TemplateEnv := const_template_env demo_ywf.
#[local] Instance cli_senv : ServerEnv := {| new_uuid n := Ok ("id-new-" +:+ Itoa (Z.of_nat n)) |}.
#[local] Instance cli_env : CliEnv :=
  {| read_file _ := Err (ExtErr "no such file"); stdin_pipe := true; parse_ip _ := true |}.
#[local] Existing Instance text_floats.

Definition cli_on (stdin : string) (t : Tables) : Cli (Remote DBServer) :=
  {| c_srv := Build_Remote true (NewDBServer (demo_db t)); c_stdin := Ok stdin; c_out := [];
     c_err := []; c_conn := Some {| cc_authority := "localhost:42113"; cc_tls := false |} |}.

Definition demo_workflow_row : WorkflowRow :=
  {| wr_template := "id-t"; wr_devices := "{}"; wr_created_at := 1; wr_updated_at := 1;
     wr_deleted_at := None |}.
Definition two_workflows : Tables :=
  set_t_workflow {[ "id-1" := demo_workflow_row; "id-2" := demo_workflow_row ]} emptyTables.

Lemma cli_delete_workflows_witness :
  ∃ w', delete_RunE (Some workflow_DeleteByID) ["id-1"; "id-9"] (cli_on "" two_workflows) = (Ret None, w') ∧
    c_out w' = [Line ("Deleted" +:+ tab +:+ "id-1")] ∧
    c_err w' = ["Error" +:+ tab +:+ "id-9" +:+ tab +:+ "not found"] ∧
    serving (c_srv w') ∧ deleted_among ["id-1"; "id-9"] two_workflows (tables (c_srv w')).
Proof.
  apply (cli_delete_workflows (DE := cli_db_env) (λ _, eq_refl) ["id-1"; "id-9"] (cli_on "" two_workflows));
    [done|by eexists|].
  repeat constructor; by eexists.
Defined.

Definition demo_template_row (name data : string) : TemplateRow :=
  {| tr_name := name; tr_created_at := 0; tr_updated_at := 0; tr_deleted_at := None; tr_data := data |}.
Definition two_templates : Tables :=
  set_t_template {[ "id-1" := demo_template_row "a" "yaml 1"; "id-2" := demo_template_row "b" "yaml 2" ]}
    emptyTables.

Lemma cli_get_templates_witness :
  ∃ r', tables r' = two_templates ∧ serving r' ∧
    get_RunE (template_get_options "table" false) ["b"; "nothing"; "id-1"] (cli_on "" two_templates) =
      (Ret None, add_out [Table (Some ["ID"; "Name"; "Created At"; "Updated At"])
        [[Text "id-2"; Text "b"; Time 0; Time 0]; [Text "id-1"; Text "a"; Time 0; Time 0]]]
        (set_srv r' (cli_on "" two_templates))).
Proof.
  destruct (cli_get_templates (DE := cli_db_env) (λ _, eq_refl) false "table" ["b"; "nothing"; "id-1"]
    (cli_on "" two_templates)) as (r' & Ht & Hs & Hrun); [done|by eexists|done|].
  exists r'. split; [exact Ht|]. split; [exact Hs|]. rewrite Hrun. reflexivity.
Defined.

(** A template without a name hides the others. *)
Definition unnamed_template : Tables :=
  set_t_template {[ "id-1" := demo_template_row "" ""; "id-2" := demo_template_row "b" "yaml 2" ]} emptyTables.
Lemma cli_list_templates_witness :
  ∃ r', tables r' = unnamed_template ∧
    get_RunE (template_get_options "table" false) [] (cli_on "" unnamed_template) =
      (Ret None, add_out [Table (Some ["ID"; "Name"; "Created At"; "Updated At"])
        (template_row <$> until_unnamed (live_templates unnamed_template))]
        (set_srv r' (cli_on "" unnamed_template))).
Proof.
  apply (cli_list_templates (DE := cli_db_env) (λ _, eq_refl) false (cli_on "" unnamed_template));
    [done|by eexists|]. intros s. apply bool_decide_eq_true. by left.
Defined.
Example unnamed_hides : length (live_templates unnamed_template) = 2%nat ∧
  (length (until_unnamed (live_templates unnamed_template)) < 2)%nat.
Proof. split; vm_compute; [reflexivity|lia]. Qed.

Lemma cli_update_pipe_blanks_witness :
  ∃ row, t_template (tables (c_srv (cmd_RunE (template_update None) ["id-1"; "id-2"]
      (cli_on "yaml 3" two_templates)).2)) !! "id-2" = Some row ∧ tr_name row = "" ∧ tr_data row = "".
Proof.
  destruct (cli_update_pipe_blanks None "id-1" ["id-2"] "yaml 3" (cli_on "yaml 3" two_templates)
    (cmd_RunE (template_update None) ["id-1"; "id-2"] (cli_on "yaml 3" two_templates)).2)
    as (_ & wf & _ & H).
  - reflexivity.
  - reflexivity.
  - done.
  - repeat constructor.
  - by apply (bool_decide_unpack _).
  - vm_compute. reflexivity.
  - destruct (H "id-2" (demo_template_row "b" "yaml 2") eq_refl) as (row & Hrow & _ & Hb & _).
    exists row. split; [exact Hrow|]. apply Hb. by apply list_elem_of_here.
Defined.

Lemma cli_template_roundtrip_witness :
  ∃ data wf id, Parse data = Ok wf ∧ Ok "yaml" = Ok data ∧
    c_out (cmd_RunE (template_create None) [] (cli_on "yaml" emptyTables)).2 =
      [Line ("Created Template:  " +:+ id)] ∧
    (is_uuid (yw_Name wf) = false → ∃ r,
       cmd_RunE template_GetCmd [yw_Name wf]
         (cmd_RunE (template_create None) [] (cli_on "yaml" emptyTables)).2 =
       (Ret None, add_out [Line data] (set_srv r
         (cmd_RunE (template_create None) [] (cli_on "yaml" emptyTables)).2))).
Proof.
  destruct (cli_template_roundtrip (DE := cli_db_env) (λ _, eq_refl) None (cli_on "yaml" emptyTables)
    (cmd_RunE (template_create None) [] (cli_on "yaml" emptyTables)).2)
    as (data & wf & id & H1 & H2 & H3 & _ & H5).
  - done.
  - by eexists.
  - intros i j ri rj Hi. vm_compute in Hi. discriminate Hi.
  - vm_compute. reflexivity.
  - exists data, wf, id. exact (conj H1 (conj H2 (conj H3 H5))).
Defined.

#[local] Instance text_pg_jsonb : PgJsonb (H := cli_db_env).
Proof.
  refine {| jsonb_value := to_any (H := text_floats) |}; simpl; try done.
  - intros v c Hok Hc. unfold text_jsonb in Hc. rewrite json_parse_print in Hc by done.
    simpl in Hc. apply fmap_Some in Hc as (v' & Hv' & ->). rewrite Hv'.
    apply json_parse_print, any_json_ok. by eapply (to_any_ok (FL := text_floats)).
  - intros z _. by rewrite (proj1 (Itoa_number z)).
  - intros l l' Hl. by rewrite Hl.
  - apply (to_any_obj (FL := text_floats)).
  - intros [] Hv; simpl in Hv; try done; [by case_match|by apply fmap_Some in Hv as (? & ? & ?)..].
  - intros l s c Hok _ _ Hl. pose proof (json_parse_print (JObj l) Hok) as E.
    simpl in E. unfold text_jsonb_id. by rewrite E, Hl.
Qed.

Definition demo_push (mac md : string) : PbHardware :=
  {| ph_Network := Some [{| pf_Dhcp := Some (set_mac mac zero_dhcp); pf_Netboot := None |}];
     ph_Id := "id-7"; ph_Version := 0; ph_Metadata := md |}.
Definition demo_push_text : string :=
  json_text "{'id': 'id-7', 'network': {'interfaces': [{'dhcp': {'mac': 'AA:bb'}}]}, 'metadata': {'b': 1}}".

Lemma cli_push_roundtrip_witness :
  let md := json_text "{'b':1}" in
  ∃ t r, cmd_RunE hardware_id ["id-7"] (push_data demo_push_text (cli_on "" emptyTables)).2 =
      (Ret None, add_out [Line t] (set_srv r (push_data demo_push_text (cli_on "" emptyTables)).2)) ∧
    UnmarshalJSON t = Ok (Some (set_metadata md (demo_push "aa:bb" md))).
Proof.
  intros md.
  assert (hw_numbers int53 (demo_push "AA:bb" md)) as Hn.
  { split; [unfold int53; simpl; lia|].
    intros l [= <-] x [->|[]%elem_of_nil]%elem_of_cons d [= <-].
    split; [unfold int53; simpl; lia|done]. }
  apply (cli_push_roundtrip (DE := cli_db_env) (λ _, eq_refl) demo_push_text (demo_push "AA:bb" md) md "id-7" (cli_on "" emptyTables)
    (push_data demo_push_text (cli_on "" emptyTables)).2); try exact Hn.
  - done.
  - by eexists.
  - vm_compute. reflexivity.
  - vm_compute. reflexivity.
  - reflexivity.
  - vm_compute. reflexivity.
Defined.

(** ** Further behaviour *)

(** Without a pipe and without --file, creating a template is refused although
    the help shows a default: the flag of update has overwritten it. *)
Example create_default_lost :
  registered_filePath = "" ∧
  (let terminal := {| read_file _ := Ok "yaml"; stdin_pipe := false; parse_ip _ := true |} in
   (cmd_PreRunE (template_create (CE := terminal) None) (cli_on "" emptyTables)).1 =
   Ret (Some (NewErr "requires the '--file' flag"))).
Proof. split; vm_compute; reflexivity. Qed.

(** Hardware that was pushed without an address: the server accepts it, and the
    table of all hardware makes the client panic. *)
Example push_then_list_panics :
  (push_data demo_push_text (cli_on "" emptyTables)).1 = Ret tt ∧
  (get_RunE (hardware_get_options "json" false) []
     (push_data demo_push_text (cli_on "" emptyTables)).2).1 =
  Panic "invalid memory address or nil pointer dereference".
Proof. split; vm_compute; reflexivity. Qed.

(** The data of an unknown workflow is an error, which ends the command. *)
Example workflow_state_unknown :
  (cmd_RunE workflow_state ["id-9"] (cli_on "" two_workflows)).1 = Exit 1.
Proof. vm_compute. reflexivity. Qed.
