(* ===== verification/DbReport.v ===== *)
(** * DbReport: correctness of the database-backed worker API

    Lemmas and properties of the handlers of [DbServer] a worker calls: the state
    machine of a workflow row under reports, whom a context is sent to, and the
    state shown to users. *)
From S2P Require Import Prelude Proto Template Service DbBase DbWorkflow DbTemplate DbServer DbHardware.
From stdpp Require Import options.

(** ** The state machine of a row *)

(** The index a report is about: a running report on a workflow that has a
    current action starts the next one. *)
Definition report_index (req : WorkflowActionStatus) (row : StateRow) : Z :=
  if decide (ws_ActionStatus req = State_STATE_RUNNING ∧ sr_current_action_name row ≠ "")
  then wrap64 (sr_current_action_index row + 1) else sr_current_action_index row.

(** The row after an accepted report on action [a] at [idx]. *)
Definition advance (req : WorkflowActionStatus) (row : StateRow) (a : WorkflowAction) (idx : Z)
    : StateRow :=
  {| sr_current_task_name := ws_TaskName req; sr_current_action_name := ws_ActionName req;
     sr_current_action_state := ws_ActionStatus req; sr_current_worker := wa_WorkerId a;
     sr_action_list := sr_action_list row; sr_current_action_index := idx;
     sr_total_number_of_actions := sr_total_number_of_actions row |}.

(** A row is fresh or points to one of its actions, whose task, name and worker
    it shows. *)
Definition row_ok (row : StateRow) : Prop :=
  sr_total_number_of_actions row = Z.of_nat (length (sr_action_list row)) ∧
  ((sr_current_action_name row = "" ∧ sr_current_action_index row = 0 ∧
    sr_current_action_state row = State_STATE_PENDING) ∨
   ∃ a, zlookup (sr_action_list row) (sr_current_action_index row) = Some a ∧
     wa_TaskName a = sr_current_task_name row ∧ wa_Name a = sr_current_action_name row ∧
     wa_WorkerId a = sr_current_worker row).

Section lemmas.
Context `{DE : DbEnv}.

Lemma db_contexts_inv id s c s' :
  DbWorkflow.GetWorkflowContexts id s = (Ret (c, None), s') →
  db_tables s' = db_tables s ∧
  ∃ i row, pg_uuid id = Some i ∧ t_state (db_tables s) !! i = Some row ∧
    c = context_of_row id row.
Proof.
  intros Hrun. unfold DbWorkflow.GetWorkflowContexts, go_bind, QueryRow, go_ret in Hrun.
  destruct (db_fault (db_tick s)) as [e|].
  { case_decide; simplify_eq. }
  unfold select_state in Hrun. destruct (pg_uuid id) as [i|]; [|case_decide; simplify_eq].
  destruct (t_state (db_tables s) !! i) as [row|] eqn:E; [|case_decide; simplify_eq].
  simplify_eq. split; [done|]. eauto.
Qed.

Lemma db_contexts_pure id : db_pure (DbWorkflow.GetWorkflowContexts id).
Proof. unfold DbWorkflow.GetWorkflowContexts. db_walk. Qed.

Lemma db_actions_inv id s r s' :
  DbWorkflow.GetWorkflowActions id s = (r, s') →
  db_tables s' = db_tables s ∧ ∃ l, r = Ret (l, None) ∧
    (l = [] ∨ ∃ i row, pg_uuid id = Some i ∧ t_state (db_tables s) !! i = Some row ∧
       l = sr_action_list row).
Proof.
  intros Hrun. unfold DbWorkflow.GetWorkflowActions, go_bind, QueryRow, go_ret in Hrun.
  destruct (db_fault (db_tick s)) as [e|]; [simplify_eq; eauto|].
  unfold select_state in Hrun. destruct (pg_uuid id) as [i|]; [|simplify_eq; eauto].
  destruct (t_state (db_tables s) !! i) as [row|] eqn:E; simplify_eq; [|by eauto].
  split; [done|]. eexists. split; [done|]. right. eauto.
Qed.

Lemma update_state_inv ctx s r s' :
  DbWorkflow.UpdateWorkflowState ctx s = (r, s') →
  db_tables s' = db_tables s ∨
  ∃ i row, r = Ret None ∧ pg_uuid (wc_WorkflowId ctx) = Some i ∧
    t_state (db_tables s) !! i = Some row ∧
    db_tables s' = set_t_state (<[i := {| sr_current_task_name := wc_CurrentTask ctx;
        sr_current_action_name := wc_CurrentAction ctx;
        sr_current_action_state := wc_CurrentActionState ctx;
        sr_current_worker := wc_CurrentWorker ctx; sr_action_list := sr_action_list row;
        sr_current_action_index := wc_CurrentActionIndex ctx;
        sr_total_number_of_actions := sr_total_number_of_actions row |}]>
      (t_state (db_tables s))) (db_tables s).
Proof.
  intros Hrun. unfold DbWorkflow.UpdateWorkflowState in Hrun.
  destruct (exec_tx_spec "INSERT in to workflow_state" (stmt_update_state ctx) s)
    as (r' & s1 & Hrun' & Hr). rewrite Hrun in Hrun'. simplify_eq.
  destruct r' as [e|]; [by left|]. destruct Hr as (now & t & n & Hst & ->).
  unfold stmt_update_state in Hst.
  destruct (pg_uuid (wc_WorkflowId ctx)) as [i|]; [|done].
  do 2 (case_match; [done|]).
  destruct (t_state (db_tables s) !! i) as [row|] eqn:E; simplify_eq; [|by left].
  right. by exists i, row.
Qed.

Lemma insert_event_state ev t s r s' :
  DbWorkflow.InsertIntoWorkflowEventTable ev t s = (r, s') →
  t_state (db_tables s') = t_state (db_tables s).
Proof.
  intros Hrun. unfold DbWorkflow.InsertIntoWorkflowEventTable in Hrun.
  destruct (exec_tx_spec "INSERT in to workflow_event" (stmt_insert_event ev t) s)
    as (r' & s1 & Hrun' & Hr). rewrite Hrun in Hrun'. simplify_eq.
  destruct r' as [e|]; [by rewrite Hr|]. destruct Hr as (now & t' & n & Hst & ->).
  unfold stmt_insert_event in Hst. do 4 (case_match; try done). by simplify_eq.
Qed.

(** The second half of the handler: the rows are left alone, or the update of
    the workflow state of an action in the list that matches is stored. *)
Lemma report_at_state req c l idx s o s' :
  report_at req c l idx s = (o, s') →
  t_state (db_tables s') = t_state (db_tables s) ∨
  ∃ a i row, zlookup l idx = Some a ∧ wa_TaskName a = ws_TaskName req ∧
    wa_Name a = ws_ActionName req ∧ pg_uuid (wc_WorkflowId c) = Some i ∧
    t_state (db_tables s) !! i = Some row ∧
    t_state (db_tables s') = <[i := advance req row a idx]> (t_state (db_tables s)).
Proof.
  unfold report_at. intros Hrun.
  case_decide; [unfold go_ret in Hrun; simplify_eq; by left|].
  unfold go_bind at 1, go_index in Hrun.
  destruct (zlookup l idx) as [a|]; [|unfold go_panic in Hrun; simplify_eq; by left].
  unfold go_ret at 1 in Hrun.
  case_decide as Htask; [unfold go_ret in Hrun; simplify_eq; by left|].
  case_decide as Hact; [unfold go_ret in Hrun; simplify_eq; by left|].
  unfold go_bind at 1 in Hrun.
  match type of Hrun with context [DbWorkflow.UpdateWorkflowState ?c s] =>
    set (ctx := c) in Hrun end.
  destruct (DbWorkflow.UpdateWorkflowState ctx s) as [o3 s3] eqn:Hu.
  assert (t_state (db_tables s') = t_state (db_tables s3)) as Hs3.
  { destruct o3 as [[e|]|?|?]; [unfold go_ret in Hrun; by simplify_eq| |by simplify_eq..].
    unfold go_bind at 1, time_Now in Hrun. unfold go_bind in Hrun.
    destruct (DbWorkflow.InsertIntoWorkflowEventTable req _ (db_next s3)) as [o4 s4] eqn:He.
    apply insert_event_state in He. simpl in He.
    destruct o4 as [[e|]|?|?]; unfold go_ret in Hrun; by simplify_eq. }
  rewrite Hs3. apply update_state_inv in Hu as [->|(i & row & _ & Hi & Hrow & ->)]; [by left|].
  right. by exists a, i, row.
Qed.

(** Whatever happens, a report leaves the state rows alone or advances the row
    of its workflow to the action it names. *)
Lemma report_state req s o s' :
  ReportActionStatus req s = (o, s') →
  t_state (db_tables s') = t_state (db_tables s) ∨
  ∃ i row a, t_state (db_tables s) !! i = Some row ∧
    zlookup (sr_action_list row) (report_index req row) = Some a ∧
    wa_TaskName a = ws_TaskName req ∧ wa_Name a = ws_ActionName req ∧
    t_state (db_tables s') =
      <[i := advance req row a (report_index req row)]> (t_state (db_tables s)).
Proof.
  unfold ReportActionStatus. intros Hrun.
  do 3 (case_decide; [unfold go_ret in Hrun; simplify_eq; by left|]).
  destruct (db_contexts_pure (ws_WorkflowId req) s) as ([c e] & s1 & Hc & Ht1).
  rewrite (go_bind_Ret _ _ _ _ _ Hc) in Hrun.
  destruct e as [e|]; [unfold go_ret in Hrun; simplify_eq; left; by rewrite Ht1|].
  apply db_contexts_inv in Hc as (_ & i & row & Hi & Hrow & ->).
  unfold go_bind at 1 in Hrun.
  destruct (DbWorkflow.GetWorkflowActions _ s1) as [o2 s2] eqn:Ha.
  apply db_actions_inv in Ha as (Ht2 & l & -> & Hl). rewrite Ht1 in Ht2, Hl.
  apply (report_at_state req _ l (report_index req row)) in Hrun.
  rewrite Ht2 in Hrun.
  destruct Hrun as [->|(a & i' & row' & Hz & Htask & Hn & Hi' & Hrow' & ->)]; [by left|].
  simpl in Hi'. simplify_eq. right. eexists _, _, a. split; [done|].
  destruct Hl as [->|(i2 & row2 & Hi2 & Hrow2 & ->)]; [by apply zlookup_Some in Hz as [_ Hz]|].
  by simplify_eq.
Qed.
End lemmas.

(** ** Steps of the database *)
Section steps.
Context `{DE : DbEnv} `{TE : TemplateEnv} `{MR : MapRange}.

(** The operations that touch the state rows, from any state of the other
    tables: reports, the creation and the deletion of workflows, each with
    whatever outcome, and anything that leaves the rows alone. *)
Inductive dbstep : DB → DB → Prop :=
  | dbstep_report req s o s' : ReportActionStatus req s = (o, s') → dbstep s s'
  | dbstep_create wf data id s o s' :
      DbWorkflow.CreateWorkflow wf data id s = (o, s') → dbstep s s'
  | dbstep_delete id s o s' : DbWorkflow.DeleteWorkflow id s = (o, s') → dbstep s s'
  | dbstep_other s s' : t_state (db_tables s') = t_state (db_tables s) → dbstep s s'.

Lemma row_ok_initial l : row_ok (initial_state l).
Proof. split; [done|]. by left. Qed.

Lemma row_ok_advance req row a :
  row_ok row → zlookup (sr_action_list row) (report_index req row) = Some a →
  wa_TaskName a = ws_TaskName req → wa_Name a = ws_ActionName req →
  row_ok (advance req row a (report_index req row)).
Proof. intros [Ht _] Hz Htask Hname. split; [done|]. right. by exists a. Qed.

Lemma delete_without_uuid id s s' :
  pg_uuid id = None → DbWorkflow.DeleteWorkflow id s = (Ret None, s') → False.
Proof.
  intros Hid Hr. unfold DbWorkflow.DeleteWorkflow in Hr.
  apply go_try_inv in Hr as [(tx & s2 & _ & Hr)|(e & _ & ?)]; [|done].
  apply go_try_inv in Hr as [([tx1 n] & s3 & [[now Hx] _]%ExecContext_Ok & _)|(e & _ & ?)];
    [|done].
  unfold stmt_delete_worker_map in Hx. by rewrite Hid in Hx.
Qed.

Lemma dbstep_rows s s' :
  dbstep s s' → map_Forall (λ _, row_ok) (t_state (db_tables s)) →
  map_Forall (λ _, row_ok) (t_state (db_tables s')).
Proof.
  intros Hstep Hall. destruct Hstep as
    [req s o s' Hr|wf data id s o s' Hr|id s o s' Hr|s s' ->]; [| | |done].
  - apply report_state in Hr as [->|(i & row & a & Hrow & Hz & Ht & Hn & ->)]; [done|].
    apply map_Forall_insert_2; [|done]. by apply row_ok_advance; [eapply Hall|..].
  - destruct (CreateWorkflow_atomic wf data id s) as (r & s1 & Hr' & Hat).
    rewrite Hr in Hr'. simplify_eq. destruct r as [e|]; [by rewrite Hat|].
    apply create_stores in Hr as (ywf & ws & _ & _ & _ & _ & _ & _ & _ & _ & _ & -> & _).
    apply map_Forall_insert_2; [apply row_ok_initial|done].
  - destruct (DeleteWorkflow_atomic id s) as (r & s1 & Hr' & Hat).
    rewrite Hr in Hr'. simplify_eq. destruct r as [e|]; [by rewrite Hat|].
    destruct (pg_uuid id) as [i|] eqn:Hid.
    + apply (delete_effect id i) in Hr as (row & now & _ & _ & -> & _); [|done].
      by apply map_Forall_delete.
    + by destruct (delete_without_uuid _ _ _ Hid Hr).
Qed.
End steps.

(** ** A database that answers *)
Section reliable.
#[local] Set Default Proof Using "Type*".
Context `{DE : DbEnv} (Hrel : ∀ n, db_fault n = None).

Lemma contexts_reliable id i row s :
  pg_uuid id = Some i → t_state (db_tables s) !! i = Some row →
  DbWorkflow.GetWorkflowContexts id s = (Ret (context_of_row id row, None), db_next s).
Proof.
  intros Hi Hrow. unfold DbWorkflow.GetWorkflowContexts, go_bind, QueryRow, select_state.
  by rewrite Hrel, Hi, Hrow.
Qed.

Lemma actions_reliable id i row s :
  pg_uuid id = Some i → t_state (db_tables s) !! i = Some row →
  DbWorkflow.GetWorkflowActions id s = (Ret (sr_action_list row, None), db_next s).
Proof.
  intros Hi Hrow. unfold DbWorkflow.GetWorkflowActions, go_bind, QueryRow, select_state.
  by rewrite Hrel, Hi, Hrow.
Qed.

Lemma exec_tx_reliable msg stmt s t n :
  (∀ now, stmt now (db_tables s) = Ok (t, n)) →
  ∃ s', exec_tx msg stmt s = (Ret None, s') ∧ db_tables s' = t.
Proof.
  intros Hst. unfold exec_tx, go_try, go_bind, BeginTx, ExecContext. simpl.
  rewrite !Hrel. simpl. rewrite Hst. unfold commit_or, go_bind, Commit. simpl. rewrite Hrel.
  by eexists.
Qed.

(** A statement that PostgreSQL refuses leaves the tables alone. *)
Lemma exec_tx_refused msg stmt s :
  (∀ now, ∃ e, stmt now (db_tables s) = Err e) →
  ∃ e s', exec_tx msg stmt s = (Ret (Some e), s') ∧ db_tables s' = db_tables s.
Proof.
  intros Hst. unfold exec_tx, go_try, go_bind, BeginTx, ExecContext. simpl.
  rewrite !Hrel. simpl. match goal with |- context [stmt ?n _] => destruct (Hst n) as [e ->] end.
  by eexists _, _.
Qed.

(** The checks of the columns a report is written to: those of the state row, and
    those of the event. *)
Definition row_fits (req : WorkflowActionStatus) (a : WorkflowAction) (idx : Z) : bool :=
  varchar200 (ws_TaskName req) && varchar200 (ws_ActionName req) &&
  varchar200 (wa_WorkerId a) && in_smallint (ws_ActionStatus req) && in_int4 idx.
Definition event_fits (req : WorkflowActionStatus) : bool :=
  varchar200 (ws_Message req) && in_int4 (ws_Seconds req) &&
  bool_decide (pg_uuid (ws_WorkerId req) ≠ None).

(** The event of a report whose state row fits its columns. *)
Lemma insert_event_answers req a idx i t s :
  pg_uuid (ws_WorkflowId req) = Some i → row_fits req a idx = true →
  ∃ r s', DbWorkflow.InsertIntoWorkflowEventTable req t s = (Ret r, s') ∧
    if event_fits req then
      r = None ∧ ∃ w, pg_uuid (ws_WorkerId req) = Some w ∧ db_tables s' =
        set_t_event (t_event (db_tables s) ++ [{| er_workflow_id := i; er_worker_id := w;
          er_task_name := ws_TaskName req; er_action_name := ws_ActionName req;
          er_execution_time := ws_Seconds req; er_message := ws_Message req;
          er_status := ws_ActionStatus req; er_created_at := t |}]) (db_tables s)
    else r ≠ None ∧ db_tables s' = db_tables s.
Proof.
  unfold row_fits, event_fits. rewrite !andb_true_iff. intros Hi ((((H1 & H2) & _) & H3) & _).
  unfold DbWorkflow.InsertIntoWorkflowEventTable.
  destruct (varchar200 (ws_Message req) && in_int4 (ws_Seconds req) && _) eqn:E.
  - rewrite !andb_true_iff, bool_decide_eq_true in E. destruct E as ((Hm & Hs) & Hw).
    destruct (pg_uuid (ws_WorkerId req)) as [w|] eqn:Ew; [|done].
    edestruct (exec_tx_reliable "INSERT in to workflow_event" (stmt_insert_event req t) s)
      as (s' & Hrun & Ht').
    { intros now. unfold stmt_insert_event. by rewrite Hi, Ew, H1, H2, Hm, H3, Hs. }
    exists None, s'. split; [done|]. split; [done|]. by exists w.
  - destruct (exec_tx_refused "INSERT in to workflow_event" (stmt_insert_event req t) s)
      as (e & s' & Hrun & Ht').
    { intros now. unfold stmt_insert_event. rewrite Hi, H1, H2, H3.
      destruct (pg_uuid (ws_WorkerId req)); [|by eexists].
      rewrite bool_decide_eq_true_2, andb_true_r in E by done. simpl.
      destruct (varchar200 (ws_Message req)); simpl in *; [|by eexists]. rewrite E. by eexists. }
    exists (Some e), s'. done.
Qed.

(** A report that names the action at [idx] of a stored workflow. *)
Lemma report_at_answers req c l idx a i row s :
  zlookup l idx = Some a → idx < wc_TotalNumberOfActions c →
  wa_TaskName a = ws_TaskName req → wa_Name a = ws_ActionName req →
  pg_uuid (wc_WorkflowId c) = Some i → pg_uuid (ws_WorkflowId req) = Some i →
  t_state (db_tables s) !! i = Some row →
  ∃ r s', report_at req c l idx s = (Ret r, s') ∧
    if row_fits req a idx then
      t_state (db_tables s') = <[i := advance req row a idx]> (t_state (db_tables s)) ∧
      t_data (db_tables s') = t_data (db_tables s) ∧
      if event_fits req then
        r = None ∧ ∃ ev, t_event (db_tables s') = t_event (db_tables s) ++ [ev] ∧
          er_workflow_id ev = i ∧ er_task_name ev = ws_TaskName req ∧
          er_action_name ev = ws_ActionName req ∧ er_status ev = ws_ActionStatus req
      else (∃ e, r = Some (aborted e)) ∧ t_event (db_tables s') = t_event (db_tables s)
    else (∃ e, r = Some (aborted e)) ∧ db_tables s' = db_tables s.
Proof.
  intros Hz Hlt Ht Ha Hi Hi' Hrow.
  unfold report_at. rewrite decide_False by lia. unfold go_bind at 1, go_index. rewrite Hz.
  unfold go_ret at 1. rewrite !decide_False by (rewrite ?Ht, ?Ha; tauto).
  match goal with |- context [DbWorkflow.UpdateWorkflowState ?c] => set (ctx := c) end.
  unfold DbWorkflow.UpdateWorkflowState.
  destruct (row_fits req a idx) eqn:Hfit.
  - destruct (exec_tx_reliable "INSERT in to workflow_state" (stmt_update_state ctx) s
      (set_t_state (<[i := advance req row a idx]> (t_state (db_tables s))) (db_tables s)) 1)
      as (s1 & Hu & Ht1).
    { intros now. unfold stmt_update_state. simpl. unfold row_fits in Hfit.
      rewrite !andb_true_iff in Hfit. destruct Hfit as ((((H1 & H2) & H3) & H4) & H5).
      rewrite Hi, H1, H2, H3, H4, H5. simpl. by rewrite Hrow. }
    rewrite (go_bind_Ret _ _ _ _ _ Hu). unfold go_bind at 1, time_Now.
    destruct (insert_event_answers req a idx i (db_clock (db_tick s1)) (db_next s1) Hi' Hfit)
      as (r & s2 & He & Hr). rewrite (go_bind_Ret _ _ _ _ _ He).
    destruct (event_fits req).
    + destruct Hr as (-> & w & _ & Ht2). eexists _, _. split; [done|]. rewrite Ht2. simpl.
      rewrite Ht1. simpl. split; [done|]. split; [done|]. eauto 10.
    + destruct Hr as (Hr & Ht2). destruct r as [e|]; [|done]. eexists _, _. split; [done|].
      rewrite Ht2. simpl. rewrite Ht1. simpl. split_and!; [done|done|by eexists|done].
  - destruct (exec_tx_refused "INSERT in to workflow_state" (stmt_update_state ctx) s)
      as (e & s1 & Hu & Ht1).
    { intros now. unfold stmt_update_state. simpl. unfold row_fits in Hfit. rewrite Hi.
      destruct (varchar200 (ws_TaskName req) && varchar200 (ws_ActionName req) &&
        varchar200 (wa_WorkerId a)); simpl in *; [|by eexists]. rewrite Hfit. by eexists. }
    rewrite (go_bind_Ret _ _ _ _ _ Hu). eexists _, _. split; [done|]. split; [by eexists|done].
Qed.

(** How a report on a stored workflow is answered. *)
Lemma report_reliable req s i row :
  ws_WorkflowId req ≠ "" → ws_TaskName req ≠ "" → ws_ActionName req ≠ "" →
  pg_uuid (ws_WorkflowId req) = Some i → t_state (db_tables s) !! i = Some row → row_ok row →
  let idx := report_index req row in
  match zlookup (sr_action_list row) idx with
  | None =>
      if decide (1 < Z.of_nat (length (sr_action_list row)) ∧ 0 ≤ idx) then
        ∃ s', ReportActionStatus req s =
          (Ret (Some (StatusErr FailedPrecondition errInvalidActionIndex)), s') ∧
          db_tables s' = db_tables s
      else ∃ s', ReportActionStatus req s = (Panic "index out of range", s')
  | Some a =>
      if decide (wa_TaskName a ≠ ws_TaskName req) then
        ∃ s', ReportActionStatus req s =
          (Ret (Some (StatusErr InvalidArgument errInvalidTaskReported)), s') ∧
          db_tables s' = db_tables s
      else if decide (wa_Name a ≠ ws_ActionName req) then
        ∃ s', ReportActionStatus req s =
          (Ret (Some (StatusErr InvalidArgument errInvalidActionReported)), s') ∧
          db_tables s' = db_tables s
      else ∃ r s', ReportActionStatus req s = (Ret r, s') ∧
        if row_fits req a idx then
          t_state (db_tables s') = <[i := advance req row a idx]> (t_state (db_tables s)) ∧
          t_data (db_tables s') = t_data (db_tables s) ∧
          if event_fits req then
            r = None ∧ ∃ ev, t_event (db_tables s') = t_event (db_tables s) ++ [ev] ∧
              er_workflow_id ev = i ∧ er_task_name ev = ws_TaskName req ∧
              er_action_name ev = ws_ActionName req ∧ er_status ev = ws_ActionStatus req
          else (∃ e, r = Some (aborted e)) ∧ t_event (db_tables s') = t_event (db_tables s)
        else (∃ e, r = Some (aborted e)) ∧ db_tables s' = db_tables s
  end.
Proof.
  intros Hid Htask Hname Hi Hrow [Htot _] idx.
  assert (ReportActionStatus req s = report_at req (context_of_row (ws_WorkflowId req) row)
    (sr_action_list row) idx (db_next (db_next s))) as ->.
  { unfold ReportActionStatus. rewrite !decide_False by done.
    rewrite (go_bind_Ret _ _ _ _ _ (contexts_reliable _ _ _ _ Hi Hrow)).
    by rewrite (go_bind_Ret _ _ _ _ _ (actions_reliable _ _ _ (db_next s) Hi Hrow)). }
  destruct (zlookup (sr_action_list row) idx) as [a|] eqn:Hz.
  - assert (0 ≤ idx < Z.of_nat (length (sr_action_list row))) as Hb
      by (apply zlookup_is_Some; eauto).
    case_decide as Ht; [|case_decide as Ha].
    + unfold report_at. simpl. rewrite Htot, decide_False by lia.
      unfold go_bind, go_index. rewrite Hz. simpl. rewrite decide_True by done. by eexists.
    + unfold report_at. simpl. rewrite Htot, decide_False by lia.
      unfold go_bind, go_index. rewrite Hz. simpl.
      rewrite (decide_False (P:=wa_TaskName a ≠ _)) by tauto. rewrite decide_True by done.
      by eexists.
    + apply (report_at_answers req (context_of_row (ws_WorkflowId req) row)
        (sr_action_list row) idx a i row (db_next (db_next s)));
        [done|simpl; lia|done..].
  - apply zlookup_None in Hz. unfold report_at. simpl. rewrite Htot.
    unfold go_bind, go_index. rewrite (proj2 (zlookup_None _ _) Hz). case_decide as Hc.
    + rewrite decide_True by lia. by eexists.
    + rewrite decide_False by lia. by eexists.
Qed.
End reliable.

(** ** A whole run *)
Definition action_report (id worker : string) (st : State) (a : WorkflowAction) : WorkflowActionStatus :=
  {| ws_WorkflowId := id; ws_TaskName := wa_TaskName a; ws_ActionName := wa_Name a;
     ws_ActionStatus := st; ws_Seconds := 0; ws_Message := ""; ws_CreatedAt := None;
     ws_WorkerId := worker |}.
Definition action_reports (id worker : string) (l : WorkflowActionList) : list WorkflowActionStatus :=
  l ≫= λ a, [action_report id worker State_STATE_RUNNING a;
             action_report id worker State_STATE_SUCCESS a].

(** The texts of an action fit the columns. *)
Definition action_fits (a : WorkflowAction) : Prop :=
  wa_TaskName a ≠ "" ∧ wa_Name a ≠ "" ∧ varchar200 (wa_TaskName a) = true ∧
  varchar200 (wa_Name a) = true ∧ varchar200 (wa_WorkerId a) = true.

Section run.
#[local] Set Default Proof Using "Type*".
Context `{DE : DbEnv} (Hrel : ∀ n, db_fault n = None).
Context (id i worker : string) (l : WorkflowActionList).
Context (Hne : id ≠ "") (Hid : pg_uuid id = Some i) (Hw : pg_uuid worker ≠ None).
Context (Hfit : Forall action_fits l) (Hlen : Z.of_nat (length l) < 2 ^ 31).

(** The row of the workflow when the actions before [n] have succeeded and
    action [n], if [started], is running. *)
Definition at_action (row : StateRow) (n : nat) (started : bool) : Prop :=
  sr_action_list row = l ∧ row_ok row ∧
  if started then
    sr_current_action_index row = Z.of_nat n ∧ sr_current_action_name row ≠ ""
  else
    match n with
    | O => sr_current_action_name row = "" ∧ sr_current_action_index row = 0
    | S n' => sr_current_action_name row ≠ "" ∧ sr_current_action_index row = Z.of_nat n' ∧
              sr_current_action_state row = State_STATE_SUCCESS
    end.

(** A report on action [a] with texts and a time that fit the columns. *)
Definition report_fits (req : WorkflowActionStatus) (a : WorkflowAction) : Prop :=
  ws_WorkflowId req = id ∧ ws_TaskName req = wa_TaskName a ∧ ws_ActionName req = wa_Name a ∧
  known_state (ws_ActionStatus req) ∧ varchar200 (ws_Message req) = true ∧
  in_int4 (ws_Seconds req) = true ∧ pg_uuid (ws_WorkerId req) ≠ None.

(** One report on action [n]. *)
Lemma step_action req s row n a :
  report_fits req a →
  t_state (db_tables s) !! i = Some row → sr_action_list row = l → row_ok row →
  l !! n = Some a → report_index req row = Z.of_nat n →
  ∃ s', ReportActionStatus req s = (Ret None, s') ∧
    t_state (db_tables s') !! i = Some (advance req row a (Z.of_nat n)) ∧
    t_data (db_tables s') = t_data (db_tables s).
Proof.
  intros (Rid & Rt & Ra & Rk & Rm & Rs & Rw) Hrow Hl Hok Ha Hidx.
  pose proof (lookup_lt_Some _ _ _ Ha) as Hlt. rewrite Forall_forall in Hfit.
  destruct (Hfit a (list_elem_of_lookup_2 _ _ _ Ha)) as (H1 & H2 & H3 & H4 & H5).
  assert (ws_WorkflowId req ≠ "") as Hne' by congruence.
  assert (pg_uuid (ws_WorkflowId req) = Some i) as Hid' by congruence.
  rewrite <- Rt in H1, H3. rewrite <- Ra in H2, H4.
  pose proof (report_reliable Hrel req s i row Hne' H1 H2 Hid' Hrow Hok) as Hrep.
  cbn zeta in Hrep. rewrite Hidx, Hl, zlookup_of_nat, Ha in Hrep.
  rewrite !decide_False in Hrep by (rewrite ?Rt, ?Ra; tauto).
  destruct Hrep as (r & s' & Hrun & Hrep).
  assert (row_fits req a (Z.of_nat n) = true) as Efit.
  { unfold row_fits. rewrite H3, H4, H5. simpl. unfold in_smallint, in_int4, known_state in *.
    rewrite !bool_decide_eq_true_2 by (done || lia). done. }
  assert (event_fits req = true) as Eev.
  { unfold event_fits. rewrite Rm, Rs. by rewrite bool_decide_eq_true_2. }
  rewrite Efit, Eev in Hrep. destruct Hrep as (Hst & Hdata & -> & _).
  exists s'. split; [done|]. rewrite Hst. split; [apply lookup_insert_eq|done].
Qed.

Lemma action_report_fits st a : known_state st → report_fits (action_report id worker st a) a.
Proof. intros Hk. unfold report_fits. simpl. done. Qed.

(** An action is started, and then finished. *)
Lemma start_action req s row n a :
  report_fits req a → ws_ActionStatus req = State_STATE_RUNNING → l !! n = Some a →
  t_state (db_tables s) !! i = Some row → at_action row n false →
  ∃ s' row', ReportActionStatus req s = (Ret None, s') ∧
    t_state (db_tables s') !! i = Some row' ∧ at_action row' n true ∧
    t_data (db_tables s') = t_data (db_tables s).
Proof.
  intros Hreq Hst Ha Hrow (Hl & Hok & Hat). pose proof (lookup_lt_Some _ _ _ Ha) as Hlt.
  destruct (step_action req s row n a) as (s' & Hrun & Hrow' & Hdata); [done|done|done|done|done| |].
  { unfold report_index. destruct n as [|n].
    - destruct Hat as [-> ->]. by rewrite decide_False by tauto.
    - destruct Hat as (Hn & -> & _). rewrite decide_True by done.
      rewrite wrap64_id by (unfold in_int64; lia). lia. }
  destruct Hreq as (_ & Rt & Ra & _). rewrite Forall_forall in Hfit.
  destruct (Hfit a (list_elem_of_lookup_2 _ _ _ Ha)) as (_ & Hname & _).
  eexists _, _. split; [done|]. split; [done|]. split; [|done]. split; [done|]. split.
  - destruct Hok as [Ht _]. split; [done|]. right. exists a. simpl.
    by rewrite Hl, zlookup_of_nat.
  - simpl. by rewrite Ra.
Qed.

Lemma finish_action req s row n a :
  report_fits req a → ws_ActionStatus req = State_STATE_SUCCESS → l !! n = Some a →
  t_state (db_tables s) !! i = Some row → at_action row n true →
  ∃ s' row', ReportActionStatus req s = (Ret None, s') ∧
    t_state (db_tables s') !! i = Some row' ∧ at_action row' (S n) false ∧
    t_data (db_tables s') = t_data (db_tables s).
Proof.
  intros Hreq Hst Ha Hrow (Hl & Hok & Hidx & Hcur).
  destruct (step_action req s row n a) as (s' & Hrun & Hrow' & Hdata); [done|done|done|done|done| |].
  { unfold report_index. rewrite Hst. by rewrite decide_False by (intros [? _]; done). }
  destruct Hreq as (_ & Rt & Ra & _). rewrite Forall_forall in Hfit.
  destruct (Hfit a (list_elem_of_lookup_2 _ _ _ Ha)) as (_ & Hname & _).
  eexists _, _. split; [done|]. split; [done|]. split; [|done]. split; [done|]. split.
  - destruct Hok as [Ht _]. split; [done|]. right. exists a. simpl.
    by rewrite Hl, zlookup_of_nat.
  - simpl. by rewrite Ra.
Qed.

Lemma run_reports_ok suf pre s row :
  l = pre ++ suf → t_state (db_tables s) !! i = Some row → at_action row (length pre) false →
  ∃ s' row', run_reports ReportActionStatus (action_reports id worker suf) s = (Ret None, s') ∧
    t_state (db_tables s') !! i = Some row' ∧ at_action row' (length l) false.
Proof.
  revert pre s row. induction suf as [|a suf IH]; intros pre s row Hl Hrow Hat.
  { exists s, row. split_and!; [done|done|]. by rewrite Hl, app_nil_r. }
  assert (l !! length pre = Some a) as Ha by by rewrite Hl, lookup_app_r, Nat.sub_diag.
  destruct (start_action (action_report id worker State_STATE_RUNNING a) s row (length pre) a)
    as (s1 & row1 & Hrun1 & Hrow1 & Hat1 & _);
    [by apply action_report_fits, (bool_decide_unpack _)|done|done|done|done|].
  destruct (finish_action (action_report id worker State_STATE_SUCCESS a) s1 row1 (length pre) a)
    as (s2 & row2 & Hrun2 & Hrow2 & Hat2 & _);
    [by apply action_report_fits, (bool_decide_unpack _)|done|done|done|done|].
  change (action_reports id worker (a :: suf)) with
    (action_report id worker State_STATE_RUNNING a ::
     action_report id worker State_STATE_SUCCESS a :: action_reports id worker suf).
  rewrite (run_reports_cons _ _ _ _ _ Hrun1), (run_reports_cons _ _ _ _ _ Hrun2).
  eapply (IH (pre ++ [a])); [by rewrite <- (assoc_L (++))|done|].
  by rewrite length_app, Nat.add_comm.
Qed.

(** At the end the workflow is shown as successful. *)
Lemma end_shown s row :
  l ≠ [] → t_state (db_tables s) !! i = Some row → at_action row (length l) false →
  (getWorkflowState id s).1 = Ret State_STATE_SUCCESS.
Proof.
  intros Hnil Hrow (Hl & [Htot _] & Hat). unfold getWorkflowState.
  rewrite (go_bind_Ret _ _ _ _ _ (contexts_reliable Hrel id i row s Hid Hrow)). simpl.
  rewrite Htot, Hl. destruct (length l) as [|n] eqn:En; [by apply nil_length_inv in En|].
  destruct Hat as (_ & -> & ->). rewrite wrap64_id by (unfold in_int64; lia).
  rewrite decide_False by tauto. by rewrite decide_True by lia.
Qed.
End run.

(** ** Metrics *)

(** The in-flight gauge of a method and operation. *)
Definition gauge (k : string * string) (s : DBServer) : Z :=
  default 0 (sv_metrics s !! (CacheInFlight, k.1, k.2)).

(** Computations that change every gauge by [d], which may depend on how they end;
    [server] is the part of the state that holds the gauges. When the process exits
    there is nothing to say. *)
Definition changes_gauge {S A} (server : S → DBServer) (c : go S A)
    (d : outcome A → string * string → Z) : Prop :=
  ∀ s k, match c s with
         | (Exit _, _) => True
         | (o, s') => gauge k (server s') = gauge k (server s) + d o k
         end.
Definition keeps_gauge {S A} (server : S → DBServer) (c : go S A) : Prop :=
  changes_gauge server c (λ _ _, 0).

(** The gauge of watches. *)
Definition watch_gauge (d : Z) (k : string * string) : Z :=
  if decide (k = ("Watch", "push")) then d else 0.

Lemma gauge_add k name m o d s :
  gauge k (add_metric (name, m, o) d s) =
  gauge k s + (if decide (name = CacheInFlight ∧ k = (m, o)) then d else 0).
Proof.
  unfold gauge, add_metric. simpl. destruct k as [km ko]. case_decide as Hd; simpl.
  - destruct Hd as [-> [= -> ->]]. by rewrite lookup_insert_eq.
  - rewrite lookup_insert_ne; [lia|]. naive_solver.
Qed.

Section gauges.
Context {S : Type} (server : S → DBServer).

Lemma keeps_ret {A} (a : A) : keeps_gauge server (go_ret a).
Proof. intros s k. simpl. lia. Qed.
Lemma keeps_panic {A} m : keeps_gauge server (@go_panic _ A m).
Proof. intros s k. simpl. lia. Qed.
Lemma keeps_get : keeps_gauge server go_get.
Proof. intros s k. simpl. lia. Qed.
Lemma keeps_bind {A B} (c : go S A) (f : A → go S B) :
  keeps_gauge server c → (∀ a, keeps_gauge server (f a)) → keeps_gauge server (go_bind c f).
Proof.
  intros Hc Hk s k. unfold go_bind. specialize (Hc s k). destruct (c s) as [[a|?|?] s']; simpl in *;
    [|done|done]. specialize (Hk a s' k). destruct (f a s') as [[]]; simpl in *; lia.
Qed.

(** A gauge that goes up and, deferred, down again around a computation. *)
Lemma keeps_up_down {A} (up down : go S unit) (c : go S A) d :
  changes_gauge server up (λ _, d) → changes_gauge server down (λ _ k, - d k) →
  (∀ s, ∃ s', up s = (Ret tt, s')) → (∀ s, ∃ s', down s = (Ret tt, s')) →
  keeps_gauge server c →
  keeps_gauge server (go_bind up (λ _, go_defer down c)).
Proof.
  intros Hu Hd Hur Hdr Hc s k. unfold go_bind, go_defer. specialize (Hu s k).
  destruct (Hur s) as [s1 Eu]. rewrite Eu in *. specialize (Hc s1 k).
  destruct (c s1) as [o s2]; simpl in *. specialize (Hd s2 k).
  destruct (Hdr s2) as [s3 E]. rewrite E in *. destruct o; simpl in *; [lia|lia|done].
Qed.
End gauges.

Lemma inc_changes m o : changes_gauge id (inc CacheInFlight m o) (λ _ k, if decide (k = (m, o)) then 1 else 0).
Proof.
  intros s k. unfold inc, go_modify. simpl. rewrite gauge_add.
  repeat case_decide; naive_solver.
Qed.
Lemma dec_changes m o : changes_gauge id (dec CacheInFlight m o) (λ _ k, - if decide (k = (m, o)) then 1 else 0).
Proof.
  intros s k. unfold dec, go_modify. simpl. rewrite gauge_add.
  repeat case_decide; naive_solver.
Qed.
Lemma changes_on_server {M A} (c : go DBServer A) d :
  changes_gauge id c d → changes_gauge fst (@on_server _ M _ c) d.
Proof.
  intros Hc [s l] k. unfold on_server, go_zoom. simpl. specialize (Hc s k).
  by destruct (c s) as [[] s'].
Qed.
Lemma keeps_in_flight {A} m o (c : go DBServer A) :
  keeps_gauge id c →
  keeps_gauge id (go_bind (inc CacheInFlight m o) (λ _, go_defer (dec CacheInFlight m o) c)).
Proof. apply (keeps_up_down id _ _ _ _ (inc_changes m o) (dec_changes m o)); intros s; by eexists. Qed.
Lemma keeps_in_flight_stream {M A} m o (c : go (DBServer * list M) A) :
  keeps_gauge fst c →
  keeps_gauge fst (go_bind (on_server (inc CacheInFlight m o))
    (λ _, go_defer (on_server (dec CacheInFlight m o)) c)).
Proof.
  apply (keeps_up_down fst _ _ _ _ (changes_on_server _ _ (inc_changes m o))
    (changes_on_server _ _ (dec_changes m o))); intros [s l]; by eexists.
Qed.

Lemma keeps_inc name m o : name ≠ CacheInFlight → keeps_gauge id (inc name m o).
Proof.
  intros Hne s k. unfold inc, go_modify. simpl. rewrite gauge_add, decide_False by naive_solver. lia.
Qed.
Lemma keeps_on_db {A} (c : go DB A) : keeps_gauge id (on_db c).
Proof.
  intros s k. unfold on_db, go_zoom. destruct (c (sv_db s)) as [[] ?]; unfold gauge; simpl; lia.
Qed.
Lemma keeps_on_db_stream {M A} (c : go (DB * list M) A) : keeps_gauge fst (on_db_stream c).
Proof.
  intros [s l] k. unfold on_db_stream. destruct (c (sv_db s, l)) as [[] [d l']];
    unfold gauge; simpl; lia.
Qed.
Lemma keeps_new_uuid `{ServerEnv} : keeps_gauge id NewUUID.
Proof. intros s k. unfold gauge. simpl. lia. Qed.
Lemma keeps_count_error {A} m o (r : A * option error) : keeps_gauge id (count_error m o r).
Proof.
  unfold count_error. destruct r as [a [e|]]; simpl; [|apply keeps_ret].
  apply keeps_bind; [by apply keeps_inc|]. intros. apply keeps_ret.
Qed.
Lemma keeps_modify f : (∀ s, sv_metrics (f s) = sv_metrics s) → keeps_gauge id (go_modify f).
Proof. intros Hf s k. unfold gauge. simpl. rewrite Hf. lia. Qed.
Lemma keeps_send {M} fails (m : M) : keeps_gauge fst (stream_send fails m).
Proof. intros [s l] k. unfold stream_send. destruct (fails (length l)); simpl; lia. Qed.

(** Walks a handler call by call. *)
Ltac gauge_step :=
  lazymatch goal with
  | |- keeps_gauge _ (go_ret _) => apply keeps_ret
  | |- keeps_gauge _ (go_panic _) => apply keeps_panic
  | |- keeps_gauge _ (on_db _) => apply keeps_on_db
  | |- keeps_gauge _ (on_db_stream _) => apply keeps_on_db_stream
  | |- keeps_gauge _ (stream_send _ _) => apply keeps_send
  | |- keeps_gauge _ go_get => apply keeps_get
  | |- keeps_gauge _ NewUUID => apply keeps_new_uuid
  | |- keeps_gauge _ (count_error _ _ _) => apply keeps_count_error
  | |- keeps_gauge _ (go_modify _) => apply keeps_modify; intros; reflexivity
  | |- keeps_gauge _ (inc _ _ _) => apply keeps_inc; discriminate
  | |- keeps_gauge _ (on_server _) => apply changes_on_server; fold_keeps
  | |- keeps_gauge _ (go_bind (inc CacheInFlight _ _) _) => apply keeps_in_flight
  | |- keeps_gauge _ (go_bind (on_server (inc CacheInFlight _ _)) _) => apply keeps_in_flight_stream
  | |- keeps_gauge _ (go_bind _ _) => apply keeps_bind; [|intros ?]
  | |- keeps_gauge _ (match ?x with _ => _ end) => destruct x
  end
with fold_keeps := match goal with |- changes_gauge ?f ?c _ => change (keeps_gauge f c) end.
Ltac gauge_walk := repeat (cbn zeta; gauge_step).

Lemma keeps_notify id text : keeps_gauge Datatypes.id (notify id text).
Proof. unfold notify. gauge_walk. Qed.
Lemma keeps_close_chan ch : keeps_gauge id (close_chan ch).
Proof. unfold close_chan. gauge_walk. Qed.
Ltac handler_walk :=
  repeat (cbn zeta; first
    [ apply keeps_notify | apply keeps_close_chan | gauge_step ]).
Lemma keeps_listing {M} m o (rows : go (DB * list M) (option error)) :
  keeps_gauge fst (listing m o rows).
Proof. unfold listing. gauge_walk. Qed.

(** The watch: [f] follows [c] when [c] keeps the gauges. *)
Lemma changes_bind {S A B} (server : S → DBServer) (c : go S A) (f : A → go S B) d :
  keeps_gauge server c → (∀ a, changes_gauge server (f a) d) → (∀ m k, d (Panic m) k = 0) →
  changes_gauge server (go_bind c f) d.
Proof.
  intros Hc Hf Hp s k. unfold go_bind. specialize (Hc s k).
  destruct (c s) as [[a|m|n] s']; simpl in *; [|by rewrite Hp|done].
  specialize (Hf a s' k). destruct (f a s') as [[]]; simpl in *; lia.
Qed.

Lemma watch_open_gauge id :
  changes_gauge Datatypes.id (watch_open id)
    (λ o, watch_gauge (match o with Ret _ => 1 | _ => 0 end)).
Proof.
  assert (∀ m k, watch_gauge 0 k = 0) as H0 by (intros m k; unfold watch_gauge; by case_decide).
  unfold watch_open. cbn zeta.
  apply changes_bind; [apply keeps_get|intros s|intros; by apply H0].
  apply changes_bind; [gauge_walk|intros _|intros; by apply H0].
  apply changes_bind; [handler_walk|intros _|intros; by apply H0].
  destruct (sv_watch s) as [m|]; [|intros s' k; simpl; rewrite H0; [lia|done]].
  apply changes_bind; [gauge_walk|intros _|intros; by apply H0].
  intros s' k. unfold go_bind, inc, go_modify. simpl. rewrite gauge_add. unfold watch_gauge.
  repeat case_decide; naive_solver.
Qed.

Lemma watch_down_gauge {A} (c : go DBServer A) :
  keeps_gauge id c →
  changes_gauge id (go_defer (dec CacheInFlight "Watch" "push") c) (λ _, watch_gauge (-1)).
Proof.
  intros Hc s k. unfold go_defer. specialize (Hc s k).
  destruct (c s) as [[a|m|n] s1]; unfold dec, go_modify; simpl in *; [| |done];
    rewrite gauge_add, Hc; unfold watch_gauge; repeat case_decide; (lia || naive_solver).
Qed.

Lemma watch_leave_gauge id ch b :
  changes_gauge Datatypes.id (watch_leave id ch b) (λ _, watch_gauge (-1)).
Proof. apply watch_down_gauge. handler_walk. Qed.

Lemma return_after_gauge id ch b e :
  changes_gauge fst (return_after (watch_leave id ch b) e)
    (λ o, watch_gauge (match o with Ret None => 0 | _ => -1 end)).
Proof.
  intros [s l] k. unfold return_after, go_bind, on_server, go_zoom. simpl.
  pose proof (watch_leave_gauge id ch b s k) as Hl.
  by destruct (watch_leave id ch b s) as [[] s1].
Qed.

Lemma watch_turn_gauge `{HardwareJson} f id ch ev :
  changes_gauge fst (watch_turn f id ch ev)
    (λ o, watch_gauge (match o with Ret None => 0 | _ => -1 end)).
Proof.
  assert (∀ s : DBServer * list PbHardware, ∀ k,
    gauge k s.1 = gauge k s.1 + watch_gauge 0 k) as H0 by (intros s k; unfold watch_gauge; case_decide; lia).
  destruct ev; [apply return_after_gauge..|]. intros [s l] k. unfold watch_turn, go_bind, go_get. simpl.
  destruct (sv_chans s !! ch) as [c|]; [|apply (H0 (s, l))].
  destruct (ch_buf c) as [j|].
  - cbn [fst snd]. set (s1 := set_chans _ s). assert (gauge k s = gauge k s1) as -> by done.
    destruct (hw_unmarshal j) as [hw|e]; [|apply (return_after_gauge id ch true e (s1, l) k)].
    unfold stream_send. destruct (f (length l)) as [e|]; [|apply (H0 (s1, l ++ [hw]))].
    cbn [fst snd]. set (s2 := add_metric _ 1 s1). assert (gauge k s1 = gauge k s2) as ->.
    { unfold s2. rewrite gauge_add, decide_False by naive_solver. lia. }
    apply (return_after_gauge id ch true _ (s2, l) k).
  - destruct (ch_closed c); [apply (return_after_gauge id ch false _ (s, l) k)|apply (H0 (s, l))].
Qed.

(** ** Properties *)
Section properties.
#[local] Set Default Proof Using "Type*".
Context `{DE : DbEnv} `{TE : TemplateEnv} `{MR : MapRange}.

(** In every database reached from one without workflow states, by any
    sequence of reports and of creations and deletions of workflows with any
    outcome, every state row is fresh or points to one of its own actions and
    shows the task, the name and the worker of that action, and its total is the
    number of its actions. *)
Theorem db_reachable_rows s s' :
  t_state (db_tables s) = ∅ → rtc dbstep s s' →
  map_Forall (λ _, row_ok) (t_state (db_tables s')).
Proof.
  intros Hs Hstar.
  assert (map_Forall (λ _, row_ok) (t_state (db_tables s))) as Hall
    by (rewrite Hs; apply map_Forall_empty).
  clear Hs. revert Hall. induction Hstar as [|s s1 s' Hstep _ IH]; [done|]. intros Hall.
  apply IH. by eapply dbstep_rows.
Qed.

(** C3 What a report with a workflow id, task and action name does on a stored workflow
    when the database answers. It is about the next action if it says running and an
    action is current, else about the current one. If there is such an action, the
    report must name it and its task; the error says which name differs. A report that
    names them is stored in two steps: the state row is advanced, unless a name, the
    worker, the state or the index does not fit its column (200 characters, counted
    as bytes; 16 and 32 bits), in which case it is aborted with nothing stored; then an event is added and
    the report accepted, unless the message, the seconds or the worker id does not fit
    (200 characters, 32 bits, a UUID): then it is aborted although the row has advanced.
    If there is no such action, the report is refused when the workflow has more than
    one action, and the handler panics otherwise. *)
Theorem db_report_answers req s i row :
  (∀ n, db_fault n = None) →
  ws_WorkflowId req ≠ "" → ws_TaskName req ≠ "" → ws_ActionName req ≠ "" →
  pg_uuid (ws_WorkflowId req) = Some i → t_state (db_tables s) !! i = Some row → row_ok row →
  let idx := report_index req row in
  match zlookup (sr_action_list row) idx with
  | None =>
      if decide (1 < Z.of_nat (length (sr_action_list row)) ∧ 0 ≤ idx) then
        ∃ s', ReportActionStatus req s =
          (Ret (Some (StatusErr FailedPrecondition errInvalidActionIndex)), s') ∧
          db_tables s' = db_tables s
      else ∃ s', ReportActionStatus req s = (Panic "index out of range", s')
  | Some a =>
      if decide (wa_TaskName a ≠ ws_TaskName req) then
        ∃ s', ReportActionStatus req s =
          (Ret (Some (StatusErr InvalidArgument errInvalidTaskReported)), s') ∧
          db_tables s' = db_tables s
      else if decide (wa_Name a ≠ ws_ActionName req) then
        ∃ s', ReportActionStatus req s =
          (Ret (Some (StatusErr InvalidArgument errInvalidActionReported)), s') ∧
          db_tables s' = db_tables s
      else ∃ r s', ReportActionStatus req s = (Ret r, s') ∧
        if row_fits req a idx then
          t_state (db_tables s') = <[i := advance req row a idx]> (t_state (db_tables s)) ∧
          t_data (db_tables s') = t_data (db_tables s) ∧
          if event_fits req then
            r = None ∧ ∃ ev, t_event (db_tables s') = t_event (db_tables s) ++ [ev] ∧
              er_workflow_id ev = i ∧ er_task_name ev = ws_TaskName req ∧
              er_action_name ev = ws_ActionName req ∧ er_status ev = ws_ActionStatus req
          else (∃ e, r = Some (aborted e)) ∧ t_event (db_tables s') = t_event (db_tables s)
        else (∃ e, r = Some (aborted e)) ∧ db_tables s' = db_tables s
  end.
Proof. intros Hrel. by apply report_reliable. Qed.

(** A running report that is repeated on a workflow of one action crashes the
    handler: the guard on the index applies only to workflows of more than one
    action, and the list is indexed past its end. *)
Theorem db_single_action_rerun_panics req s i row :
  (∀ n, db_fault n = None) →
  ws_WorkflowId req ≠ "" → ws_TaskName req ≠ "" → ws_ActionName req ≠ "" →
  pg_uuid (ws_WorkflowId req) = Some i → t_state (db_tables s) !! i = Some row → row_ok row →
  length (sr_action_list row) = 1%nat → sr_current_action_name row ≠ "" →
  ws_ActionStatus req = State_STATE_RUNNING →
  ∃ s', ReportActionStatus req s = (Panic "index out of range", s').
Proof.
  intros Hrel Hid Ht Ha Hi Hrow Hok Hlen Hcur Hrun.
  pose proof (report_reliable Hrel req s i row Hid Ht Ha Hi Hrow Hok) as Hrep. cbn zeta in Hrep.
  assert (report_index req row = 1) as Hidx.
  { unfold report_index. rewrite decide_True by done. destruct Hok as [_ [[? _]|(a & Hz & _)]];
      [done|].
    pose proof (proj1 (zlookup_is_Some _ _) (mk_is_Some _ _ Hz)) as Hb.
    rewrite wrap64_id by (unfold in_int64; lia). lia. }
  rewrite Hidx in Hrep.
  rewrite (proj2 (zlookup_None (sr_action_list row) 1)) in Hrep by (right; lia).
  rewrite decide_False in Hrep by lia. done.
Qed.

(** A failing SELECT of the action list is not reported as an error but
    answered with an empty list, on which the handler panics. *)
Theorem db_actions_error_panics req s i row e :
  ws_WorkflowId req ≠ "" → ws_TaskName req ≠ "" → ws_ActionName req ≠ "" →
  pg_uuid (ws_WorkflowId req) = Some i → t_state (db_tables s) !! i = Some row →
  report_index req row < sr_total_number_of_actions row →
  db_fault (db_tick s) = None → db_fault (S (db_tick s)) = Some e →
  ∃ s', ReportActionStatus req s = (Panic "index out of range", s').
Proof.
  intros Hid Ht Ha Hi Hrow Hlt Hf1 Hf2. unfold ReportActionStatus. rewrite !decide_False by done.
  unfold DbWorkflow.GetWorkflowContexts, DbWorkflow.GetWorkflowActions, go_bind, QueryRow.
  rewrite Hf1. unfold select_state. rewrite Hi, Hrow. simpl. rewrite Hf2. simpl.
  fold (report_index req row). unfold report_at. simpl. rewrite decide_False by lia.
  unfold go_bind, go_index. rewrite (proj2 (zlookup_None [] _)) by (simpl; lia). by eexists.
Qed.

(** C33 To whom the context of a workflow is offered when the database answers:
    while an action is pending or running, to the worker of that action; after a
    success, to the worker of the next action, but only after the first action of
    the workflow: after any later success the context is sent to nobody, so a
    workflow whose third or later action belongs to another worker is never
    handed over. Failed and timed-out workflows are sent to nobody. *)
Theorem db_context_recipients s id i row workerID :
  (∀ n, db_fault n = None) →
  pg_uuid id = Some i → t_state (db_tables s) !! i = Some row → row_ok row →
  sr_action_list row ≠ [] →
  let st := sr_current_action_state row in
  let idx := sr_current_action_index row in
  ∃ b s', isApplicableToSend (context_of_row id row) workerID s = (Ret b, s') ∧
    (b = true ↔
      st ≠ State_STATE_FAILED ∧ st ≠ State_STATE_TIMEOUT ∧
      if decide (st = State_STATE_SUCCESS)
      then idx = 0 ∧ wa_WorkerId <$> sr_action_list row !! 1%nat = Some workerID
      else wa_WorkerId <$> zlookup (sr_action_list row) idx = Some workerID).
Proof.
  intros Hrel Hi Hrow [Htot Hcur] Hne st idx. unfold isApplicableToSend. simpl.
  fold st. fold idx. case_decide as Hterm; [eexists _, _; split; [done|]; naive_solver|].
  assert (getWorkflowActions id s = (Ret (Ok (sr_action_list row)), db_next s)) as Hget.
  { unfold getWorkflowActions.
    by rewrite (go_bind_Ret _ _ _ _ _ (actions_reliable Hrel id i row s Hi Hrow)). }
  rewrite (go_bind_Ret _ _ _ _ _ Hget).
  assert (∃ a, zlookup (sr_action_list row) idx = Some a) as [a Ha].
  { destruct Hcur as [(_ & H0 & _)|(a & Ha & _)]; [|eauto]. unfold idx. rewrite H0.
    destruct (sr_action_list row) as [|a l]; [done|]. by exists a. }
  unfold go_bind. destruct (decide (st = State_STATE_SUCCESS)) as [Hs|Hs].
  - unfold isLastAction. simpl. fold idx. case_bool_decide as Hlast.
    + eexists _, _. split; [done|]. split; [done|]. intros (_ & _ & H0 & Hw).
      destruct (sr_action_list row !! 1%nat) eqn:E; [|done]. apply lookup_lt_Some in E. lia.
    + case_decide as H0; [|eexists _, _; split; [done|]; naive_solver].
      assert (∃ a1, sr_action_list row !! 1%nat = Some a1) as [a1 Ha1].
      { apply lookup_lt_is_Some. destruct (sr_action_list row) as [|? [|]]; simpl in *; [done|lia|lia]. }
      unfold go_index. rewrite H0, Z.add_0_l, (zlookup_of_nat _ 1), Ha1. simpl.
      eexists _, _. split; [done|]. rewrite bool_decide_eq_true. naive_solver.
  - unfold go_index. rewrite Ha. simpl. eexists _, _. split; [done|].
    rewrite bool_decide_eq_true. naive_solver.
Qed.

(** The state shown for a workflow is, as its comment says, the state of the
    current action, except that a success counts as running until it is the
    success of the last action. *)
Theorem db_state_shown s id i row :
  (∀ n, db_fault n = None) →
  pg_uuid id = Some i → t_state (db_tables s) !! i = Some row → row_ok row →
  Z.of_nat (length (sr_action_list row)) < 2 ^ 63 →
  ∃ st s', getWorkflowState id s = (Ret st, s') ∧
    (st = State_STATE_SUCCESS ↔ sr_current_action_state row = State_STATE_SUCCESS ∧
       sr_current_action_index row = Z.of_nat (length (sr_action_list row)) - 1) ∧
    (sr_current_action_state row ≠ State_STATE_SUCCESS → st = sr_current_action_state row) ∧
    (sr_current_action_state row = State_STATE_SUCCESS → st ≠ State_STATE_SUCCESS →
       st = State_STATE_RUNNING).
Proof.
  intros Hrel Hi Hrow [Htot _] Hlen. unfold getWorkflowState.
  rewrite (go_bind_Ret _ _ _ _ _ (contexts_reliable Hrel id i row s Hi Hrow)). simpl.
  rewrite Htot, wrap64_id by (unfold in_int64; lia). eexists _, _. split; [done|].
  case_decide as Hs; [naive_solver|]. case_decide; split_and!; naive_solver.
Qed.

(** C14 A workflow runs to its end on the database backend, whatever its tasks
    are, provided it has an action, fewer than 2^31 of them, and their names and workers
    fit the columns: when the database answers, a worker that reports each action running and
    then successful, in order, has every report accepted, and the workflow is
    then shown as successful. *)
Theorem db_workflow_completes id i worker s row :
  (∀ n, db_fault n = None) → id ≠ "" → pg_uuid id = Some i → pg_uuid worker ≠ None →
  t_state (db_tables s) !! i = Some row → row = initial_state (sr_action_list row) →
  Forall action_fits (sr_action_list row) → sr_action_list row ≠ [] →
  Z.of_nat (length (sr_action_list row)) < 2 ^ 31 →
  ∃ s', run_reports ReportActionStatus (action_reports id worker (sr_action_list row)) s =
    (Ret None, s') ∧ (getWorkflowState id s').1 = Ret State_STATE_SUCCESS.
Proof.
  intros Hrel Hne Hid Hw Hrow Hinit Hfit Hnil Hlen.
  destruct (run_reports_ok Hrel id i worker (sr_action_list row) Hne Hid Hw Hfit Hlen
    (sr_action_list row) [] s row) as (s' & row' & Hrun & Hrow' & Hat); [done|done| |].
  { split; [done|]. split; [rewrite Hinit; split; [done|by left]|]. by rewrite Hinit. }
  exists s'. split; [done|].
  by apply (end_shown Hrel id i worker (sr_action_list row) Hne Hid Hw Hfit Hlen s' row').
Qed.

(** C38 Every handler that counts itself in flight returns the in-flight gauges to where
    they were, when it returns, on every error and on a panic: the thirteen that answer
    with one message, and the four that stream rows. A watch, whose stream stays open
    while other handlers run, raises its gauge by one when it is registered, leaves all
    gauges alone on every turn of its loop after which it goes on, and lowers its gauge
    by one on the turn on which it returns or panics. *)
Theorem in_flight_balanced `{ServerEnv} `{HardwareJson} :
  ((∀ t h, keeps_gauge id (CreateWorkflow t h)) ∧ (∀ i, keeps_gauge id (GetWorkflow i)) ∧
   (∀ i, keeps_gauge id (DeleteWorkflow i)) ∧ (∀ i, keeps_gauge id (GetWorkflowContext i)) ∧
   (∀ n d, keeps_gauge id (CreateTemplate n d)) ∧ (∀ r, keeps_gauge id (GetTemplate r)) ∧
   (∀ r, keeps_gauge id (DeleteTemplate r)) ∧ (∀ t, keeps_gauge id (UpdateTemplate t)) ∧
   (∀ hw, keeps_gauge id (Push hw)) ∧ (∀ m, keeps_gauge id (ByMAC m)) ∧
   (∀ i, keeps_gauge id (ByIP i)) ∧ (∀ i, keeps_gauge id (ByID i)) ∧
   (∀ i, keeps_gauge id (Delete i))) ∧
  ((∀ f, keeps_gauge fst (ListWorkflows f)) ∧ (∀ f i, keeps_gauge fst (ShowWorkflowEvents f i)) ∧
   (∀ f n, keeps_gauge fst (ListTemplates f n)) ∧ (∀ f, keeps_gauge fst (All f))) ∧
  (∀ i, changes_gauge id (watch_open i)
     (λ o, watch_gauge (match o with Ret _ => 1 | _ => 0 end))) ∧
  (∀ f i ch ev, changes_gauge fst (watch_turn f i ch ev)
     (λ o, watch_gauge (match o with Ret None => 0 | _ => -1 end))).
Proof.
  split; [|split; [|split]]; [split_and!; intros| |intros i|intros f i ch ev].
  - unfold CreateWorkflow. gauge_walk.
  - unfold GetWorkflow. gauge_walk.
  - unfold DeleteWorkflow. gauge_walk.
  - unfold GetWorkflowContext. gauge_walk.
  - unfold CreateTemplate. gauge_walk.
  - unfold GetTemplate. gauge_walk.
  - unfold DeleteTemplate. gauge_walk.
  - unfold UpdateTemplate. gauge_walk.
  - unfold Push. handler_walk.
  - unfold ByMAC, by_. gauge_walk.
  - unfold ByIP, by_. gauge_walk.
  - unfold ByID, by_. gauge_walk.
  - unfold Delete. handler_walk.
  - split; [|split; [|split]]; intros;
      unfold ListWorkflows, ShowWorkflowEvents, ListTemplates, All; apply keeps_listing.
  - apply watch_open_gauge.
  - apply watch_turn_gauge.
Qed.
End properties.

(** ** Witnesses *)
#[local] Existing Instance demo_db_env.
#[local] Instance demo_range : MapRange :=
  {| range_map := map_to_list; range_map_perm m := reflexivity _ |}.
#[local] Instance demo_tenv : TemplateEnv := const_template_env demo_ywf.

Definition demo_pb_action (n w : string) : WorkflowAction :=
  {| wa_TaskName := "t"; wa_Name := n; wa_Image := "img"; wa_Timeout := 5; wa_Command := [];
     wa_OnTimeout := []; wa_OnFailure := []; wa_WorkerId := w; wa_Volumes := [];
     wa_Environment := []; wa_Pid := "" |}.

(** A workflow at index [n] of [l] with state [st]. *)
Definition demo_row (l : WorkflowActionList) (name : string) (n : Z) (st : State) : StateRow :=
  {| sr_current_task_name := "t"; sr_current_action_name := name; sr_current_action_state := st;
     sr_current_worker := "w"; sr_action_list := l; sr_current_action_index := n;
     sr_total_number_of_actions := Z.of_nat (length l) |}.
Definition demo_rows (row : StateRow) : DB := demo_db (set_t_state {[ "wf" := row ]} emptyTables).
Definition one : WorkflowActionList := [demo_pb_action "a" "w"].
Definition three : WorkflowActionList :=
  [demo_pb_action "a" "w"; demo_pb_action "b" "w"; demo_pb_action "c" "w2"].

Lemma demo_no_fault : ∀ n, db_fault n = None.
Proof. done. Qed.

Lemma demo_row_ok l name n st a :
  zlookup l n = Some a → wa_TaskName a = "t" → wa_Name a = name → wa_WorkerId a = "w" →
  row_ok (demo_row l name n st).
Proof. intros. split; [done|]. right. by exists a. Qed.

Lemma db_reachable_rows_witness :
  map_Forall (λ _, row_ok) (t_state (db_tables
    (DbWorkflow.CreateWorkflow demo_wf "yaml" "wf" (demo_db demo_tables)).2)).
Proof.
  apply (db_reachable_rows (demo_db demo_tables)); [reflexivity|].
  apply rtc_once. eapply (dbstep_create demo_wf "yaml" "wf"). apply surjective_pairing.
Defined.

Lemma db_report_answers_witness :
  ∃ s', ReportActionStatus (action_report "wf" "w" 1 (demo_pb_action "b" "w"))
    (demo_rows (demo_row three "a" 0 4)) = (Ret None, s') ∧
    (sr_current_action_index <$> t_state (db_tables s') !! "wf") = Some 1.
Proof.
  destruct (db_report_answers (action_report "wf" "w" 1 (demo_pb_action "b" "w"))
    (demo_rows (demo_row three "a" 0 4)) "wf" (demo_row three "a" 0 4) demo_no_fault)
    as (r & s' & Hrun & Hst & _ & Hr & _); [done|done|done|reflexivity|reflexivity| |].
  - by apply (demo_row_ok _ _ _ _ (demo_pb_action "a" "w")).
  - exists s'. rewrite Hr in Hrun. split; [exact Hrun|]. rewrite Hst, lookup_insert_eq. reflexivity.
Defined.

Lemma db_single_action_rerun_panics_witness :
  ∃ s', ReportActionStatus (action_report "wf" "w" 1 (demo_pb_action "a" "w"))
    (demo_rows (demo_row one "a" 0 1)) = (Panic "index out of range", s').
Proof.
  apply (db_single_action_rerun_panics (action_report "wf" "w" 1 (demo_pb_action "a" "w"))
    (demo_rows (demo_row one "a" 0 1)) "wf" (demo_row one "a" 0 1) demo_no_fault);
    [done|done|done|reflexivity|reflexivity| |reflexivity|done|reflexivity].
  by apply (demo_row_ok _ _ _ _ (demo_pb_action "a" "w")).
Defined.

(** The second call fails. *)
Definition failing_env : DbEnv :=
  {| db_fault n := if decide (n = 1%nat) then Some (ExtErr "connection reset") else None;
     db_clock n := Z.of_nat n; pg_uuid := some_text; uuid_parse := some_text; jsonb := some_text;
     jsonb_contains d a := Some (bool_decide (d = a)); jsonb_id := some_text;
     ilike s p := bool_decide (s = p); ParseMAC := some_text; ParseIP_To4 s := false |}.

Lemma db_actions_error_panics_witness :
  ∃ s', @ReportActionStatus failing_env (action_report "wf" "w" 4 (demo_pb_action "a" "w"))
    (demo_rows (demo_row one "a" 0 1)) = (Panic "index out of range", s').
Proof.
  apply (@db_actions_error_panics failing_env
    (action_report "wf" "w" 4 (demo_pb_action "a" "w"))
    (demo_rows (demo_row one "a" 0 1)) "wf" (demo_row one "a" 0 1) (ExtErr "connection reset"));
    done.
Defined.

Lemma db_context_recipients_witness :
  ∃ b s', isApplicableToSend (context_of_row "wf" (demo_row three "b" 1 4)) "w2"
    (demo_rows (demo_row three "b" 1 4)) = (Ret b, s') ∧ b = false.
Proof.
  destruct (db_context_recipients (demo_rows (demo_row three "b" 1 4)) "wf" "wf"
    (demo_row three "b" 1 4) "w2" demo_no_fault) as (b & s' & Hrun & Hb);
    [reflexivity|reflexivity| |done|].
  - by apply (demo_row_ok _ _ _ _ (demo_pb_action "b" "w")).
  - exists b, s'. split; [exact Hrun|]. destruct b; [|done].
    destruct (proj1 Hb eq_refl) as (_ & _ & Hbad). vm_compute in Hbad. by destruct Hbad.
Defined.

Lemma db_state_shown_witness :
  ∃ st s', getWorkflowState "wf" (demo_rows (demo_row three "a" 0 4)) = (Ret st, s') ∧ st = 1.
Proof.
  destruct (db_state_shown (demo_rows (demo_row three "a" 0 4)) "wf" "wf" (demo_row three "a" 0 4)
    demo_no_fault) as (st & s' & Hrun & Hs & _ & Hr); [reflexivity|reflexivity| |done|].
  - by apply (demo_row_ok _ _ _ _ (demo_pb_action "a" "w")).
  - exists st, s'. split; [exact Hrun|]. apply Hr; [done|]. rewrite Hs. by intros [_ ?].
Defined.

Lemma db_workflow_completes_witness :
  ∃ s', run_reports ReportActionStatus (action_reports "wf" "w" three)
    (demo_rows (initial_state three)) = (Ret None, s') ∧
    (getWorkflowState "wf" s').1 = Ret State_STATE_SUCCESS.
Proof.
  apply (db_workflow_completes "wf" "wf" "w" (demo_rows (initial_state three)) (initial_state three)
    demo_no_fault); [done|reflexivity|done|reflexivity|reflexivity| |done|done].
  by repeat constructor.
Defined.

(** A worker that polls while a workflow without actions is assigned to it
    crashes the server. *)
Example empty_workflow_poll_panics :
  (isApplicableToSend (context_of_row "wf" (initial_state [])) "w"
    (demo_rows (initial_state []))).1 = Panic "index out of range".
Proof. reflexivity. Qed.
