(* ===== verification/DbRace.v ===== *)
(** * DbRace: reports to the database-backed server, interleaved

    [ReportActionStatus] makes four calls of the database, each in a transaction of
    its own. Here the handler goes from call to call ([call_step]); without interruption
    it is the handler of [DbServer] ([run_report]). Handlers, creations and deletions of
    workflows interleave between the calls, and the server may end at any time. *)
From S2P Require Import Prelude Proto Template Service DbBase DbWorkflow DbTemplate DbServer DbHardware DbReport.
From stdpp Require Import options.

(** ** The handler by its calls of the database *)

(** Where a handler stands. *)
Inductive call :=
  | CStart (req : WorkflowActionStatus)
  (** With the context that was read. *)
  | CRead (req : WorkflowActionStatus) (wfContext : WorkflowContext)
  (** With the context to store. *)
  | CStore (req : WorkflowActionStatus) (wfContext : WorkflowContext)
  | CTime (req : WorkflowActionStatus)
  | CEvent (req : WorkflowActionStatus) (t : Z)
  | CDone (err : option error).

Definition is_done (c : call) : bool := match c with CDone _ => true | _ => false end.

Section handler.
Context `{DE : DbEnv}.
#[local] Open Scope go_scope.

Definition from_outcome {A} (P : A → Prop) (Q : Prop) (o : outcome A) : Prop :=
  match o with Ret a => P a | _ => Q end.

(** The context that is stored for a report on [action]. *)
Definition reported (req : WorkflowActionStatus) (c : WorkflowContext) (action : WorkflowAction) (idx : Z)
    : WorkflowContext :=
  {| wc_WorkflowId := wc_WorkflowId c; wc_CurrentWorker := wa_WorkerId action;
     wc_CurrentTask := ws_TaskName req; wc_CurrentAction := ws_ActionName req;
     wc_CurrentActionIndex := idx; wc_CurrentActionState := ws_ActionStatus req;
     wc_TotalNumberOfActions := wc_TotalNumberOfActions c |}.

(** The checks between the reads and the write. *)
Definition report_check (req : WorkflowActionStatus) (wfContext : WorkflowContext)
    (wfActions : WorkflowActionList) : go DB call :=
  let actionIndex :=
    if decide (ws_ActionStatus req = State_STATE_RUNNING ∧ wc_CurrentAction wfContext ≠ "")
    then wrap64 (wc_CurrentActionIndex wfContext + 1) else wc_CurrentActionIndex wfContext in
  if decide (1 < wc_TotalNumberOfActions wfContext ∧ wc_TotalNumberOfActions wfContext ≤ actionIndex)
  then go_ret (CDone (Some (StatusErr FailedPrecondition errInvalidActionIndex)))
  else
    let* action := go_index wfActions actionIndex in
    go_ret (if decide (wa_TaskName action ≠ ws_TaskName req) then
              CDone (Some (StatusErr InvalidArgument errInvalidTaskReported))
            else if decide (wa_Name action ≠ ws_ActionName req) then
              CDone (Some (StatusErr InvalidArgument errInvalidActionReported))
            else CStore req (reported req wfContext action actionIndex)).

(** A handler up to its next call of the database, and that call. *)
Definition call_step (c : call) : go DB call :=
  match c with
  | CStart req =>
      if decide (ws_WorkflowId req = "") then
        go_ret (CDone (Some (StatusErr InvalidArgument errInvalidWorkflowID)))
      else if decide (ws_TaskName req = "") then
        go_ret (CDone (Some (StatusErr InvalidArgument errInvalidTaskName)))
      else if decide (ws_ActionName req = "") then
        go_ret (CDone (Some (StatusErr InvalidArgument errInvalidActionName)))
      else
        let* r := DbWorkflow.GetWorkflowContexts (ws_WorkflowId req) in
        go_ret (match r with
                | (_, Some e) => CDone (Some (aborted e))
                | (wfContext, None) => CRead req wfContext
                end)
  | CRead req wfContext =>
      let* r := DbWorkflow.GetWorkflowActions (ws_WorkflowId req) in
      match r with
      | (_, Some e) => go_ret (CDone (Some (aborted e)))
      | (wfActions, None) => report_check req wfContext wfActions
      end
  | CStore req wfContext =>
      let* err := DbWorkflow.UpdateWorkflowState wfContext in
      go_ret (match err with Some e => CDone (Some (aborted e)) | None => CTime req end)
  | CTime req => let* t := time_Now in go_ret (CEvent req t)
  | CEvent req t =>
      let* err := DbWorkflow.InsertIntoWorkflowEventTable req t in
      go_ret (CDone (aborted <$> err))
  | CDone err => go_ret (CDone err)
  end.

(** A handler that is not interrupted. *)
Fixpoint run_call (fuel : nat) (c : call) : go DB (option error) :=
  match c, fuel with
  | CDone err, _ => go_ret err
  | _, O => go_ret None
  | _, S fuel' => let* c' := call_step c in run_call fuel' c'
  end.

Lemma run_done n err s : run_call n (CDone err) s = (Ret err, s).
Proof. by destruct n. Qed.
Lemma run_S n c s :
  run_call (S n) c s = match call_step c s with
                       | (Ret c', s') => run_call n c' s'
                       | (Panic m, s') => (Panic m, s')
                       | (Exit k, s') => (Exit k, s')
                       end.
Proof. destruct c; try reflexivity. simpl. by rewrite run_done. Qed.
#[local] Opaque run_call.

Lemma run_store n req c s :
  run_call (3 + n) (CStore req c) s =
  (let* err := DbWorkflow.UpdateWorkflowState c in
   match err with
   | Some e => go_ret (Some (aborted e))
   | None =>
       let* t := time_Now in
       let* err := DbWorkflow.InsertIntoWorkflowEventTable req t in
       match err with Some e => go_ret (Some (aborted e)) | None => go_ret None end
   end) s.
Proof.
  change (3 + n)%nat with (S (S (S n))). rewrite run_S. cbn [call_step]. unfold go_bind, go_ret.
  destruct (DbWorkflow.UpdateWorkflowState c s) as [[[e|]|?|?] s1]; [by rewrite run_done| |done..].
  rewrite run_S. cbn [call_step]. unfold go_bind, go_ret.
  destruct (time_Now s1) as [[t|?|?] s2]; [|done..].
  rewrite run_S. cbn [call_step]. unfold go_bind, go_ret.
  by destruct (DbWorkflow.InsertIntoWorkflowEventTable req t s2) as [[[e|]|?|?] s3];
    rewrite ?run_done.
Qed.
(** Five calls are enough, and without interruption they are the handler. *)
Lemma run_report n req s : run_call (5 + n) (CStart req) s = ReportActionStatus req s.
Proof.
  change (5 + n)%nat with (S (S (3 + n))). rewrite run_S. unfold ReportActionStatus. cbn [call_step].
  do 3 (case_decide; [apply run_done|]). unfold go_bind at 1. symmetry. unfold go_bind at 1.
  destruct (DbWorkflow.GetWorkflowContexts _ s) as [[[c [e|]]|?|?] s1];
    [by unfold go_ret; rewrite run_done| |done..].
  symmetry. unfold go_ret at 1. rewrite run_S. cbn [call_step]. unfold go_bind at 1. symmetry.
  unfold go_bind at 1.
  destruct (DbWorkflow.GetWorkflowActions _ s1) as [[[l [e|]]|?|?] s2];
    [by unfold go_ret; rewrite run_done| |done..].
  unfold report_check, report_at. cbv zeta.
  match goal with |- context [go_index l ?i] => set (idx := i) end.
  case_decide; [by unfold go_ret; rewrite run_done|]. unfold go_bind, go_index.
  destruct (zlookup l idx) as [a|]; [|done]. unfold go_ret.
  case_decide; [by rewrite run_done|]. case_decide; [by rewrite run_done|].
  symmetry. apply run_store.
Qed.
End handler.

(** ** The system *)

(** The database, the handlers that are under way, and the workflows that were ever
    created, with their actions: ids are not given out twice. *)
Record Sys := {
  y_db : DB; y_calls : list call; y_created : gmap string WorkflowActionList }.

Inductive op :=
  (** A report arrives. *)
  | OReport (req : WorkflowActionStatus)
  (** The next call of the database by a handler, or its end. *)
  | OCall (n : nat)
  (** The server ends, and with it all handlers. *)
  | OKill
  | OCreate (wf : DbWorkflow) (data id : string)
  | ODelete (id : string).

Section system.
Context `{DE : DbEnv} `{TE : TemplateEnv} `{MR : MapRange}.

Definition exec (o : op) (s : Sys) : option Sys :=
  let with_db db := {| y_db := db; y_calls := y_calls s; y_created := y_created s |} in
  let with_calls db l := {| y_db := db; y_calls := l; y_created := y_created s |} in
  match o with
  | OReport req => Some (with_calls (y_db s) (y_calls s ++ [CStart req]))
  | OCall n =>
      c ← y_calls s !! n;
      if is_done c then Some (with_calls (y_db s) (delete n (y_calls s)))
      else
        match call_step c (y_db s) with
        | (Ret c', db) => Some (with_calls db (<[n := c']> (y_calls s)))
        (** A panic of a handler ends the server. *)
        | (_, db) => Some (with_calls db [])
        end
  | OKill => Some (with_calls (y_db s) [])
  | OCreate wf data id =>
      if decide (y_created s !! id = None) then
        let '(_, db) := DbWorkflow.CreateWorkflow wf data id (y_db s) in
        Some {| y_db := db; y_calls := y_calls s;
                y_created := match t_state (db_tables db) !! id with
                             | Some row => <[id := sr_action_list row]> (y_created s)
                             | None => y_created s
                             end |}
      else None
  | ODelete id => Some (with_db (DbWorkflow.DeleteWorkflow id (y_db s)).2)
  end.

Inductive rstep : Sys → Sys → Prop :=
  | r_exec o s s' : exec o s = Some s' → rstep s s'
  (** Whatever else is done with the database leaves the states of workflows alone. *)
  | r_other s db :
      t_state (db_tables db) = t_state (db_tables (y_db s)) →
      rstep s {| y_db := db; y_calls := y_calls s; y_created := y_created s |}.

Definition start (db : DB) : Sys := {| y_db := db; y_calls := []; y_created := ∅ |}.
Definition reachable (s : Sys) : Prop :=
  ∃ db, t_state (db_tables db) = ∅ ∧ rtc rstep (start db) s.

(** *** The invariant *)
Definition rows_ok (created : gmap string WorkflowActionList) (db : DB) : Prop :=
  ∀ i row, t_state (db_tables db) !! i = Some row →
    row_ok row ∧ in_int4 (sr_current_action_index row) = true ∧
    created !! i = Some (sr_action_list row).

(** A context that was read of a workflow, and one that will be stored for it. *)
Definition read_ok (created : gmap string WorkflowActionList) (req : WorkflowActionStatus) (c : WorkflowContext) : Prop :=
  ∃ i row, pg_uuid (ws_WorkflowId req) = Some i ∧ created !! i = Some (sr_action_list row) ∧
    row_ok row ∧ c = context_of_row (ws_WorkflowId req) row.
Definition store_ok (created : gmap string WorkflowActionList) (req : WorkflowActionStatus) (c : WorkflowContext) : Prop :=
  ∃ i l a, pg_uuid (wc_WorkflowId c) = Some i ∧ created !! i = Some l ∧
    zlookup l (wc_CurrentActionIndex c) = Some a ∧ wa_TaskName a = ws_TaskName req ∧
    wa_Name a = ws_ActionName req ∧
    ∃ c0, c = reported req c0 a (wc_CurrentActionIndex c).

Definition call_ok (created : gmap string WorkflowActionList) (c : call) : Prop :=
  match c with
  | CRead req c => read_ok created req c
  | CStore req c => store_ok created req c
  | _ => True
  end.

Record sys_ok (s : Sys) : Prop := {
  sk_rows : rows_ok (y_created s) (y_db s);
  sk_calls : Forall (call_ok (y_created s)) (y_calls s)
}.

Lemma call_ok_created m m' c : m ⊆ m' → call_ok m c → call_ok m' c.
Proof.
  intros Hm. assert (∀ i l, m !! i = Some l → m' !! i = Some l) as Hl by (intros; by eapply lookup_weaken).
  destruct c; simpl; try done.
  - intros (i & row & ? & ? & ?). exists i, row. auto.
  - intros (i & l & a & ? & ? & ?). exists i, l, a. auto.
Qed.

(** An index that is stored fits its column. *)
Lemma update_state_int4 c db r db' :
  DbWorkflow.UpdateWorkflowState c db = (r, db') →
  db_tables db' = db_tables db ∨ in_int4 (wc_CurrentActionIndex c) = true.
Proof.
  intros Hrun. unfold DbWorkflow.UpdateWorkflowState in Hrun.
  destruct (exec_tx_spec "INSERT in to workflow_state" (stmt_update_state c) db)
    as (r' & s1 & Hrun' & Hr). rewrite Hrun in Hrun'. simplify_eq.
  destruct r' as [e|]; [by left|]. destruct Hr as (now & t & n & Hst & ->).
  unfold stmt_update_state in Hst. right. destruct (pg_uuid (wc_WorkflowId c)); [|done].
  case_match; [done|]. destruct (in_int4 (wc_CurrentActionIndex c)); [done|].
  by rewrite andb_false_r in Hst.
Qed.

(** What a stored context makes of a row of its workflow. *)
Lemma update_row created req c db r db' :
  rows_ok created db → store_ok created req c → DbWorkflow.UpdateWorkflowState c db = (r, db') →
  t_state (db_tables db') = t_state (db_tables db) ∨
  ∃ i row a, r = Ret None ∧ pg_uuid (wc_WorkflowId c) = Some i ∧
    t_state (db_tables db) !! i = Some row ∧ in_int4 (wc_CurrentActionIndex c) = true ∧
    zlookup (sr_action_list row) (wc_CurrentActionIndex c) = Some a ∧
    wa_TaskName a = ws_TaskName req ∧ wa_Name a = ws_ActionName req ∧
    t_state (db_tables db') =
      <[i := advance req row a (wc_CurrentActionIndex c)]> (t_state (db_tables db)).
Proof.
  intros Hrows (i & l & a & Hi & Hl & Hz & Ht & Hn & c0 & Hc) Hu.
  destruct (update_state_int4 _ _ _ _ Hu) as [->|H4]; [by left|].
  apply update_state_inv in Hu as [->|(i' & row & -> & Hi' & Hrow & ->)]; [by left|].
  simplify_eq. destruct (Hrows _ _ Hrow) as (_ & _ & Hl'). simplify_eq. right. exists i, row, a.
  split_and!; try done. rewrite Hc. done.
Qed.

Lemma rows_ok_advance created db db' req i row a idx :
  rows_ok created db → t_state (db_tables db) !! i = Some row →
  in_int4 idx = true → zlookup (sr_action_list row) idx = Some a → wa_TaskName a = ws_TaskName req →
  wa_Name a = ws_ActionName req →
  t_state (db_tables db') = <[i := advance req row a idx]> (t_state (db_tables db)) →
  rows_ok created db'.
Proof.
  intros Hrows Hrow H4 Hz Ht Hn Hst j row'. rewrite Hst.
  intros [[<- <-]|[_ Hj]]%lookup_insert_Some; [|by eapply Hrows].
  destruct (Hrows _ _ Hrow) as ([Htot _] & _ & Hc). split; [|done]. split; [done|]. right. by exists a.
Qed.

Lemma report_check_ok created req c l i db :
  read_ok created req c → pg_uuid (ws_WorkflowId req) = Some i → (l = [] ∨ created !! i = Some l) →
  ∃ o, report_check req c l db = (o, db) ∧ from_outcome (call_ok created) True o.
Proof.
  intros (i' & row & Hi' & Hc & Hrow & ->) Hi Hl. simplify_eq. unfold report_check. cbv zeta.
  match goal with |- context [go_index l ?x] => set (idx := x) end.
  case_decide; [by eexists|]. unfold go_bind, go_index.
  destruct (zlookup l idx) as [a|] eqn:Hz; [|by eexists]. unfold go_ret. eexists. split; [done|]. simpl.
  case_decide as Ht; [done|]. case_decide as Hn; [done|].
  destruct Hl as [->|Hl]; [by apply zlookup_Some in Hz as [_ ?]|].
  exists i', l, a. split_and!; try done. by eexists.
Qed.

(** One call of a handler: where it gets, and what it does to the rows. *)
Lemma call_step_ok created c db o db' :
  rows_ok created db → call_ok created c → call_step c db = (o, db') →
  from_outcome (call_ok created) True o ∧
  (t_state (db_tables db') = t_state (db_tables db) ∨
   ∃ req ctx i row a, c = CStore req ctx ∧ pg_uuid (wc_WorkflowId ctx) = Some i ∧
     t_state (db_tables db) !! i = Some row ∧ in_int4 (wc_CurrentActionIndex ctx) = true ∧
     zlookup (sr_action_list row) (wc_CurrentActionIndex ctx) = Some a ∧
     wa_TaskName a = ws_TaskName req ∧ wa_Name a = ws_ActionName req ∧
     t_state (db_tables db') =
       <[i := advance req row a (wc_CurrentActionIndex ctx)]> (t_state (db_tables db))).
Proof.
  intros Hrows Hok Hs. destruct c as [req|req c|req c|req|req t|err]; cbn [call_step] in Hs.
  - do 3 (case_decide; [unfold go_ret in Hs; simplify_eq; by split; [|left]|]).
    destruct (db_contexts_pure (ws_WorkflowId req) db) as ([c e] & s1 & Hc & Ht1).
    rewrite (go_bind_Ret _ _ _ _ _ Hc) in Hs. unfold go_ret in Hs. simplify_eq.
    split; [|left; by rewrite Ht1]. destruct e as [e|]; [done|]. simpl.
    apply db_contexts_inv in Hc as (_ & i & row & Hi & Hrow & ->).
    destruct (Hrows _ _ Hrow) as (? & _ & ?). by exists i, row.
  - unfold go_bind in Hs. destruct (DbWorkflow.GetWorkflowActions _ db) as [x s1] eqn:Ha.
    apply db_actions_inv in Ha as (Ht & l & -> & Hl). pose proof Hok as (i & row & Hi & _).
    destruct (report_check_ok created req c l i s1) as (o' & Ho & Hok'); [done|done| |].
    { destruct Hl as [->|(i' & row' & Hi' & Hrow' & ->)]; [by left|]. right. simplify_eq.
      by destruct (Hrows _ _ Hrow') as (_ & _ & ?). }
    rewrite Ho in Hs. simplify_eq. split; [done|]. left. by rewrite Ht.
  - unfold go_bind in Hs. destruct (DbWorkflow.UpdateWorkflowState c db) as [x s1] eqn:Hu.
    assert (s1 = db' ∧ from_outcome (call_ok created) True o) as [-> Ho].
    { destruct x as [[e|]|?|?]; unfold go_ret in Hs; by simplify_eq. }
    split; [done|]. apply (update_row created req) in Hu as
      [Heq|(i & row & a & _ & Hi & Hrow & H4 & Hz & Ht & Hn & Heq)]; [by left| |done..].
    right. by exists req, c, i, row, a.
  - unfold go_bind, time_Now, go_ret in Hs. simplify_eq. by split; [|left].
  - unfold go_bind in Hs. destruct (DbWorkflow.InsertIntoWorkflowEventTable req t db) as [x s1] eqn:He.
    apply insert_event_state in He. destruct x; unfold go_ret in Hs; simplify_eq; by split; [|left].
  - unfold go_ret in Hs. simplify_eq. by split; [|left].
Qed.
Lemma call_step_rows created c db o db' :
  rows_ok created db → call_ok created c → call_step c db = (o, db') → rows_ok created db'.
Proof.
  intros Hrows Hok Hs. destruct (call_step_ok _ _ _ _ _ Hrows Hok Hs) as
    [_ [Heq|(req & ctx & i & row & a & _ & _ & Hrow & H4 & Hz & Ht & Hn & Heq)]].
  - unfold rows_ok. by rewrite Heq.
  - by eapply rows_ok_advance.
Qed.

Lemma rows_ok_same created db db' :
  t_state (db_tables db') = t_state (db_tables db) → rows_ok created db → rows_ok created db'.
Proof. unfold rows_ok. by intros ->. Qed.

(** The rows after the creation of a workflow, and after a deletion. *)
Lemma create_rows wf data id db o db' :
  DbWorkflow.CreateWorkflow wf data id db = (o, db') →
  t_state (db_tables db') = t_state (db_tables db) ∨
  ∃ l, t_state (db_tables db') = <[id := initial_state l]> (t_state (db_tables db)).
Proof.
  intros Hr. destruct (CreateWorkflow_atomic wf data id db) as (r & s1 & Hr' & Hat).
  rewrite Hr in Hr'. simplify_eq. destruct r as [e|]; [left; by rewrite Hat|]. right.
  apply create_stores in Hr as (ywf & ws & _ & _ & _ & _ & _ & _ & _ & _ & _ & -> & _). by eexists.
Qed.
Lemma delete_rows id db :
  t_state (db_tables (DbWorkflow.DeleteWorkflow id db).2) ⊆ t_state (db_tables db).
Proof.
  destruct (DeleteWorkflow_atomic id db) as (r & s1 & Hr & Hat). rewrite Hr. simpl.
  destruct r as [e|]; [by rewrite Hat|]. destruct (pg_uuid id) as [i|] eqn:Hid.
  - apply (delete_effect id i) in Hr as (row & now & _ & _ & -> & _); [|done]. apply delete_subseteq.
  - by destruct (delete_without_uuid id db s1 Hid Hr).
Qed.

Lemma exec_ok o s s' : exec o s = Some s' → sys_ok s → sys_ok s'.
Proof.
  destruct s as [db calls created]. intros Hx [Hrows Hcalls]. simpl in *.
  destruct o as [req|n| |wf data id|id]; cbn [exec y_db y_calls y_created] in Hx.
  - simplify_eq. split; [done|]. simpl. apply Forall_app_2; [done|]. by repeat constructor.
  - destruct (calls !! n) as [c|] eqn:Hn; [|done]. cbn [mbind option_bind] in Hx.
    pose proof (Forall_lookup_1 _ _ _ _ Hcalls Hn) as Hc.
    destruct (call_step c db) as [o db'] eqn:Hs.
    pose proof (call_step_rows _ _ _ _ _ Hrows Hc Hs) as Hrows'.
    destruct (call_step_ok _ _ _ _ _ Hrows Hc Hs) as [Ho _].
    assert (sys_ok {| y_db := db; y_calls := delete n calls; y_created := created |}) as Hdel
      by (split; [done|by apply Forall_delete]).
    assert (from_outcome (λ c', sys_ok {| y_db := db'; y_calls := <[n := c']> calls; y_created := created |})
      (sys_ok {| y_db := db'; y_calls := []; y_created := created |}) o) as Hins.
    { destruct o; simpl in *; split; try done. by apply Forall_insert. }
    destruct (is_done c), o; by simplify_eq/=.
  - simplify_eq. by split.
  - case_decide as Hid; [|done]. destruct (DbWorkflow.CreateWorkflow wf data id db) as [o db'] eqn:Hc.
    simplify_eq. destruct (create_rows _ _ _ _ _ _ Hc) as [Heq|[l Heq]].
    + rewrite Heq. destruct (t_state (db_tables db) !! id) as [row|] eqn:Hrow.
      { destruct (Hrows _ _ Hrow) as (_ & _ & ?). congruence. }
      split; simpl; [by eapply rows_ok_same|done].
    + rewrite Heq, lookup_insert_eq. split; simpl.
      * intros i row. rewrite Heq. intros [[<- <-]|[Hne Hi]]%lookup_insert_Some.
        { split; [apply row_ok_initial|by rewrite lookup_insert_eq]. }
        rewrite lookup_insert_ne by done. by apply Hrows.
      * eapply Forall_impl; [done|]. intros p. apply call_ok_created. by apply insert_subseteq.
  - simplify_eq. split; simpl; [|done]. intros i row Hi. apply Hrows.
    eapply lookup_weaken; [done|apply delete_rows].
Qed.

Lemma db_reachable_ok s : reachable s → sys_ok s.
Proof.
  intros (db & Hdb & Hr). assert (sys_ok (start db)) as Hok.
  { split; simpl; [|constructor]. intros i row. by rewrite Hdb, lookup_empty. }
  clear Hdb. revert Hok. induction Hr as [|s1 s2 s3 Hstep _ IH]; [done|]. intros Hok. apply IH.
  destruct Hstep as [o s s' Hx|s db' Heq]; [by eapply exec_ok|].
  destruct Hok. split; [by eapply rows_ok_same|done].
Qed.
End system.

(** ** Atomic reports as a specification *)

(** The states of workflows under whole reports: nothing changes, a report moves the
    workflow to the action it is about, a workflow is created or deleted. *)
Inductive row_step (m : gmap string StateRow) : gmap string StateRow → Prop :=
  | row_same : row_step m m
  | row_report req i row a :
      m !! i = Some row → zlookup (sr_action_list row) (report_index req row) = Some a →
      wa_TaskName a = ws_TaskName req → wa_Name a = ws_ActionName req →
      row_step m (<[i := advance req row a (report_index req row)]> m)
  | row_create i l : m !! i = None → row_step m (<[i := initial_state l]> m)
  | row_delete m' : m' ⊆ m → row_step m m'.

(** Workflows do not go back. *)
Lemma report_index_grows req row a :
  in_int4 (sr_current_action_index row) = true →
  zlookup (sr_action_list row) (report_index req row) = Some a →
  sr_current_action_index row ≤ report_index req row.
Proof.
  intros Hb Hz. unfold report_index in *. case_decide; [|lia].
  unfold in_int4 in Hb. apply bool_decide_eq_true in Hb. rewrite wrap64_id; [lia|].
  unfold in_int64. lia.
Qed.

(** The write of a handler, when the database answers. *)
Lemma store_reliable `{DE : DbEnv} (Hrel : ∀ n, db_fault n = None) req c i row a db created :
  created !! i = Some (sr_action_list row) → store_ok created req c →
  pg_uuid (wc_WorkflowId c) = Some i → t_state (db_tables db) !! i = Some row →
  zlookup (sr_action_list row) (wc_CurrentActionIndex c) = Some a →
  row_fits req a (wc_CurrentActionIndex c) = true →
  ∃ db', call_step (CStore req c) db = (Ret (CTime req), db') ∧
    t_state (db_tables db') =
      <[i := advance req row a (wc_CurrentActionIndex c)]> (t_state (db_tables db)).
Proof.
  intros Hcr (i' & l & a' & Hi' & Hl & Hz & _ & _ & c0 & Hc) Hi Hrow Ha Hfit.
  rewrite Hi in Hi'. injection Hi' as <-. rewrite Hcr in Hl. injection Hl as <-.
  rewrite Ha in Hz. injection Hz as <-. rewrite Hc in Hfit. unfold row_fits in Hfit. simpl in Hfit. rewrite !andb_true_iff in Hfit.
  destruct Hfit as ((((H1 & H2) & H3) & H4) & H5).
  destruct (exec_tx_reliable Hrel "INSERT in to workflow_state" (stmt_update_state c) db
    (set_t_state (<[i := advance req row a (wc_CurrentActionIndex c)]> (t_state (db_tables db)))
      (db_tables db)) 1) as (db' & Hu & Ht).
  { intros now. unfold stmt_update_state. rewrite Hi, Hc. simpl. rewrite H1, H2, H3, H4, H5. simpl.
    by rewrite Hrow. }
  exists db'. cbn [call_step]. unfold DbWorkflow.UpdateWorkflowState.
  rewrite (go_bind_Ret _ _ _ _ _ Hu). split; [done|]. by rewrite Ht.
Qed.

Section properties.
Context `{DE : DbEnv} `{TE : TemplateEnv} `{MR : MapRange}.

(** A write that was computed from another state of the workflow than the one it
    finds. *)
Definition stale (s : Sys) (o : op) : Prop :=
  ∃ n req c i row, o = OCall n ∧ y_calls s !! n = Some (CStore req c) ∧
    pg_uuid (wc_WorkflowId c) = Some i ∧ t_state (db_tables (y_db s)) !! i = Some row ∧
    wc_CurrentActionIndex c ≠ report_index req row.

Lemma exec_rows o s s' :
  sys_ok s → exec o s = Some s' → ¬ stale s o →
  row_step (t_state (db_tables (y_db s))) (t_state (db_tables (y_db s'))).
Proof.
  destruct s as [db calls created]. intros [Hrows Hcalls] Hx Hstale. simpl in *.
  destruct o as [req|n| |wf data id|id]; cbn [exec y_db y_calls y_created] in Hx.
  - simplify_eq. constructor.
  - destruct (calls !! n) as [c|] eqn:Hn; [|done]. cbn [mbind option_bind] in Hx.
    pose proof (Forall_lookup_1 _ _ _ _ Hcalls Hn) as Hc.
    destruct (call_step c db) as [o db'] eqn:Hs.
    assert (row_step (t_state (db_tables db)) (t_state (db_tables db'))) as Hstep.
    { destruct (call_step_ok _ _ _ _ _ Hrows Hc Hs) as
        [_ [->|(req & ctx & i & row & a & -> & Hi & Hrow & _ & Hz & Ht & Hname & ->)]]; [constructor|].
      destruct (decide (wc_CurrentActionIndex ctx = report_index req row)) as [E|E].
      - rewrite E in *. by apply row_report.
      - destruct Hstale. by exists n, req, ctx, i, row. }
    destruct (is_done c), o; simplify_eq/=; try done; constructor.
  - simplify_eq. constructor.
  - case_decide as Hid; [|done]. destruct (DbWorkflow.CreateWorkflow wf data id db) as [o db'] eqn:Hc.
    simplify_eq. simpl. destruct (create_rows _ _ _ _ _ _ Hc) as [->|[l ->]]; [constructor|].
    apply row_create. destruct (t_state (db_tables db) !! id) as [row|] eqn:Hrow; [|done].
    destruct (Hrows _ _ Hrow) as (_ & _ & ?). congruence.
  - simplify_eq. simpl. apply row_delete, delete_rows.
Qed.

(** C9 However reports, creations and deletions of workflows interleave with the
    single calls of the database that the handlers make, whichever calls fail, and
    whenever the server ends, every state row is fresh or points to one of its own
    actions and shows the task, the name and the worker of that action, and its
    total is the number of its actions. *)
Theorem db_race_rows s : reachable s → map_Forall (λ _, row_ok) (t_state (db_tables (y_db s))).
Proof. intros Hr i row Hrow. by destruct (sk_rows _ (db_reachable_ok _ Hr) _ _ Hrow). Qed.

(** C10 As long as no handler writes what it computed from an older state of its
    workflow, the interleaved system refines one in which reports are atomic: every
    step changes the states of workflows as a whole report, a creation or a deletion
    does, or not at all; and no workflow goes back to an earlier action. *)
Theorem db_race_refines s s' o :
  reachable s → exec o s = Some s' → ¬ stale s o →
  row_step (t_state (db_tables (y_db s))) (t_state (db_tables (y_db s'))) ∧
  ∀ i row row', t_state (db_tables (y_db s)) !! i = Some row →
    t_state (db_tables (y_db s')) !! i = Some row' →
    sr_current_action_index row ≤ sr_current_action_index row'.
Proof.
  intros Hr Hx Hst. pose proof (db_reachable_ok _ Hr) as Hok. pose proof (exec_rows _ _ _ Hok Hx Hst) as Hrow.
  split; [done|]. intros i row row' Hi. pose proof (sk_rows _ Hok _ _ Hi) as (_ & H4 & _).
  destruct Hrow as [|req j row0 a Hj Hz _ _|j l Hj|m' Hm].
  - intros; by simplify_eq.
  - intros [[-> <-]|[_ ?]]%lookup_insert_Some; simplify_eq; [by eapply report_index_grows|done].
  - intros [[-> <-]|[_ ?]]%lookup_insert_Some; by simplify_eq.
  - intros Hi'. eapply lookup_weaken in Hi'; [|done]. by simplify_eq.
Qed.

(** C11 A late report undoes a workflow. The handler of a report checks a state it has
    read and stores the outcome in another transaction, without looking at the row again:
    in every reachable state in which a handler of a report of RUNNING stands before its
    write, however far the workflow has got since the handler read it (other handlers may
    have reported all its actions successful), if the texts of the report fit the columns
    and the database answers, the write succeeds and sets the workflow back to the action
    the report is about: the workflow is shown as running, and its context is offered to
    the worker of that action again. *)
Theorem db_late_report_reverts s n req c i row a :
  reachable s → (∀ t, db_fault t = None) →
  y_calls s !! n = Some (CStore req c) → pg_uuid (wc_WorkflowId c) = Some i →
  t_state (db_tables (y_db s)) !! i = Some row → ws_ActionStatus req = State_STATE_RUNNING →
  zlookup (sr_action_list row) (wc_CurrentActionIndex c) = Some a →
  row_fits req a (wc_CurrentActionIndex c) = true →
  let row' := advance req row a (wc_CurrentActionIndex c) in
  ∃ s', exec (OCall n) s = Some s' ∧
    t_state (db_tables (y_db s')) = <[i := row']> (t_state (db_tables (y_db s))) ∧
    (getWorkflowState (wc_WorkflowId c) (y_db s')).1 = Ret State_STATE_RUNNING ∧
    (isApplicableToSend (context_of_row (wc_WorkflowId c) row') (wa_WorkerId a) (y_db s')).1 = Ret true.
Proof.
  intros Hr Hrel Hn Hi Hrow Hrun Ha Hfit row'. pose proof (db_reachable_ok _ Hr) as Hok.
  destruct (store_reliable Hrel req c i row a (y_db s) (y_created s)) as (db & Hst & Hdb); [| |done..|].
  { by destruct Hok as [Hrows _]; apply Hrows in Hrow as (_ & _ & ?). }
  { by eapply (Forall_lookup_1 _ _ _ _ (sk_calls _ Hok) Hn). }
  eexists. split; [cbn [exec]; rewrite Hn; cbn [mbind option_bind is_done]; by rewrite Hst|].
  cbn [y_db]. split; [done|].
  assert (t_state (db_tables db) !! i = Some row') as Hrow' by by rewrite Hdb, lookup_insert_eq.
  split.
  - unfold getWorkflowState.
    rewrite (go_bind_Ret _ _ _ _ _ (contexts_reliable Hrel _ i row' db Hi Hrow')). simpl.
    by rewrite Hrun, decide_True by done.
  - unfold isApplicableToSend. simpl. rewrite Hrun, decide_False by naive_solver.
    assert (getWorkflowActions (wc_WorkflowId c) db = (Ret (Ok (sr_action_list row')), db_next db)) as Hget.
    { unfold getWorkflowActions.
      by rewrite (go_bind_Ret _ _ _ _ _ (actions_reliable Hrel _ i row' db Hi Hrow')). }
    rewrite (go_bind_Ret _ _ _ _ _ Hget). rewrite decide_False by done. simpl.
    unfold go_bind, go_index. simpl. rewrite Ha. simpl. by rewrite bool_decide_eq_true_2.
Qed.

Lemma db_run_reachable db l s :
  t_state (db_tables db) = ∅ → foldl (λ x o, x ≫= exec o) (Some (start db)) l = Some s → reachable s.
Proof.
  intros Hdb Hl. exists db. split; [done|]. revert s Hl. induction l as [|o l IH] using rev_ind; intros s Hl.
  - simplify_eq/=. done.
  - rewrite foldl_snoc in Hl. destruct (foldl _ _ l) as [s0|]; [|done]. simpl in Hl.
    eapply rtc_r; [by apply IH|by eapply r_exec].
Qed.
End properties.

(** ** A late report *)
Section demo.
#[local] Existing Instance demo_db_env.
#[local] Instance race_range : MapRange :=
  {| range_map := map_to_list; range_map_perm m := reflexivity _ |}.
Definition race_action (name : string) : YAction :=
  {| ya_Name := name; ya_Image := "img"; ya_Timeout := 5; ya_Command := []; ya_OnTimeout := [];
     ya_OnFailure := []; ya_Volumes := []; ya_Environment := ∅; ya_Pid := "" |}.
#[local] Instance race_tenv : TemplateEnv := const_template_env
  {| yw_Version := "0.1"; yw_Name := "n"; yw_ID := ""; yw_GlobalTimeout := 9;
     yw_Tasks := [{| yt_Name := "t"; yt_WorkerAddr := "mac";
                     yt_Actions := [race_action "a"; race_action "b"];
                     yt_Volumes := []; yt_Environment := ∅ |}] |}.

Definition race_report (name : string) (st : State) : WorkflowActionStatus :=
  action_report "wf" "hw" st (demo_pb_action name "hw").
(** A report whose calls follow one another, as the only handler. *)
Definition at_once (n : nat) (name : string) (st : State) : list op :=
  [OReport (race_report name st); OCall n; OCall n; OCall n; OCall n; OCall n; OCall n].
(** A first report that the action [a] runs has read the state when the connection
    breaks; the worker reports again, and goes on to the end of the workflow. *)
Definition late_report : list op :=
  [OCreate demo_wf "yaml" "wf"; OReport (race_report "a" State_STATE_RUNNING); OCall 0; OCall 0] ++
  at_once 1 "a" State_STATE_RUNNING ++ at_once 1 "a" State_STATE_SUCCESS ++
  at_once 1 "b" State_STATE_RUNNING ++ at_once 1 "b" State_STATE_SUCCESS.
Definition race_run (l : list op) : Sys :=
  default (start (demo_db emptyTables))
    (foldl (λ x o, x ≫= exec o) (Some (start (demo_db demo_tables))) l).

(** What is shown of the workflow, and whether its context is sent to the worker. *)
Definition shown_row (s : Sys) : option (string * Z * State * outcome bool) :=
  (λ r, (sr_current_action_name r, sr_current_action_index r, sr_current_action_state r,
         (isApplicableToSend (context_of_row "wf" r) "hw" (y_db s)).1)) <$>
  t_state (db_tables (y_db s)) !! "wf".

Lemma race_run_reachable l :
  bool_decide (is_Some (foldl (λ x o, x ≫= exec o) (Some (start (demo_db demo_tables))) l)) = true →
  reachable (race_run l).
Proof.
  intros [s Hs]%bool_decide_eq_true. unfold race_run. rewrite Hs. simpl.
  by apply (db_run_reachable (demo_db demo_tables) l).
Qed.
Lemma race_run_step l o :
  bool_decide (is_Some (foldl (λ x o, x ≫= exec o) (Some (start (demo_db demo_tables))) (l ++ [o]))) = true →
  exec o (race_run l) = Some (race_run (l ++ [o])).
Proof.
  intros [s Hs]%bool_decide_eq_true. unfold race_run. rewrite Hs. rewrite foldl_snoc in Hs.
  by destruct (foldl _ _ l).
Qed.

(** The run above: the write of the first report arrives when both actions have
    succeeded, and starts the workflow over. *)
Lemma db_late_report_reverts_witness :
  shown_row (race_run late_report) = Some ("b", 1, State_STATE_SUCCESS, Ret false) ∧
  ∃ s', exec (OCall 0) (race_run late_report) = Some s' ∧
    (sr_current_action_index <$> t_state (db_tables (y_db s')) !! "wf") = Some 0 ∧
    (getWorkflowState "wf" (y_db s')).1 = Ret State_STATE_RUNNING.
Proof.
  split; [vm_compute; reflexivity|].
  pose proof (race_run_reachable late_report ltac:(by vm_compute)) as Hr.
  destruct (y_calls (race_run late_report) !! 0%nat) as [c|] eqn:Hc; [|by vm_compute in Hc].
  pose proof Hc as Hc'. vm_compute in Hc'. injection Hc' as <-.
  destruct (t_state (db_tables (y_db (race_run late_report))) !! "wf") as [row|] eqn:Hrow;
    [|by vm_compute in Hrow].
  pose proof Hrow as Hrow'. vm_compute in Hrow'. injection Hrow' as Hrow'.
  destruct (db_late_report_reverts _ 0 _ _ "wf" row (demo_pb_action "a" "hw") Hr demo_no_fault
    Hc eq_refl Hrow)
    as (s' & Hx & Hst & Hshown & _);
    [reflexivity|rewrite <- Hrow'; reflexivity|vm_compute; reflexivity|].
  exists s'. split; [exact Hx|]. split; [|exact Hshown]. rewrite Hst, lookup_insert_eq. reflexivity.
Defined.

Lemma db_race_rows_witness :
  map_Forall (λ _, row_ok) (t_state (db_tables (y_db (race_run late_report)))).
Proof. apply (db_race_rows (race_run late_report)). apply race_run_reachable. by vm_compute. Defined.

Definition first_report : list op :=
  [OCreate demo_wf "yaml" "wf"; OReport (race_report "a" State_STATE_RUNNING); OCall 0; OCall 0].
Lemma db_race_refines_witness :
  row_step (t_state (db_tables (y_db (race_run first_report))))
    (t_state (db_tables (y_db (race_run (first_report ++ [OCall 0]))))) ∧
  shown_row (race_run (first_report ++ [OCall 0])) = Some ("a", 0, State_STATE_RUNNING, Ret true).
Proof.
  split; [|vm_compute; reflexivity].
  eapply (db_race_refines (race_run first_report) (race_run (first_report ++ [OCall 0])) (OCall 0)).
  - apply race_run_reachable. by vm_compute.
  - apply race_run_step. by vm_compute.
  - intros (n & req & c & i & row & [= <-] & Hn & Hi & Hrow & Hne). vm_compute in Hn.
    injection Hn as <- <-. vm_compute in Hi. injection Hi as <-. vm_compute in Hrow.
    injection Hrow as <-. by vm_compute in Hne.
Defined.
End demo.
