(* ===== verification/Worker.v ===== *)
(** * Worker: the workflow agent
    (src/cmd/tink-worker/worker/worker.go)

    The worker polls the server for the contexts of its workflows and runs the
    actions that are its turn, one container each. Its world is the server at the
    other end of the network, the machine it runs on (the file system with the
    data files, and the containers) and the checksums it remembers. The map
    workflowcontexts is only ever deleted from, and is left out, as is logging. *)
From S2P Require Import Prelude Proto Service.
From stdpp Require Import options.

(** ** The file system *)
Record FS := { fs_dirs : gset string; fs_files : gmap string string }.

(** [f.Write(data)] at the start of an open file: the bytes after it stay. *)
Fixpoint overwrite (data old : string) : string :=
  match data, old with
  | EmptyString, _ => old
  | String c d, EmptyString => data
  | String c d, String _ o => String c (overwrite d o)
  end.

(** ** Checksums *)
Definition base64_alphabet : string :=
  "ABCDEFGHIJKLMNOPQRSTUVWXYZabcdefghijklmnopqrstuvwxyz0123456789+/".
Definition base64_char (n : nat) : string :=
  match String.get n base64_alphabet with Some c => String c "" | None => "" end.
Fixpoint base64_bytes (l : list nat) : string :=
  match l with
  | a :: b :: c :: l' =>
      base64_char (a / 4) +:+ base64_char (a mod 4 * 16 + b / 16) +:+
      base64_char (b mod 16 * 4 + c / 64) +:+ base64_char (c mod 64) +:+ base64_bytes l'
  | [a; b] =>
      base64_char (a / 4) +:+ base64_char (a mod 4 * 16 + b / 16) +:+
      base64_char (b mod 16 * 4) +:+ "="
  | [a] => base64_char (a / 4) +:+ base64_char (a mod 4 * 16) +:+ "=="
  | [] => ""
  end%nat.
Definition bytes (s : string) : list nat := Ascii.nat_of_ascii <$> String.list_ascii_of_string s.

(** SHA-256 of the empty message. *)
Definition sha256_empty : list nat :=
  [227; 176; 196; 66; 152; 252; 28; 20; 154; 251; 244; 200; 153; 111; 185; 36;
   39; 174; 65; 228; 100; 155; 147; 76; 164; 149; 153; 27; 120; 82; 184; 85]%nat.

(** [base64.StdEncoding.EncodeToString(sha.New().Sum(data))]: [Sum] appends the
    hash of what was written, nothing, to its argument. *)
Definition checksum (data : string) : string := base64_bytes (bytes data ++ sha256_empty).

Record WorkflowMetadata := {
  wm_WorkerID : string; wm_Action : string; wm_Task : string; wm_UpdatedAt : Z; wm_SHA : string
}.

(** ** Collaborators *)

(** A context: the time left, when it has a deadline. *)
Abbreviation ctx := (option Z) (only parsing).

(** [ContainerManager]: its operations may change the files a container has
    mounted. *)
Class ContainerManager (C : Type) := {
  cm_CreateContainer :
    list string → string → WorkflowAction → bool → bool → go (FS * C) (string * option error);
  cm_StartContainer : ctx → string → go (FS * C) (option error);
  cm_WaitForContainer : ctx → string → go (FS * C) (State * option error);
  cm_WaitForFailedContainer : ctx → string → go (FS * C) State;
  cm_RemoveContainer : string → go (FS * C) (option error);
  cm_PullImage : string → go (FS * C) (option error)
}.

(** What happened to a remote call. *)
Inductive net_event := RequestLost | ReplyLost.
#[global] Instance net_event_eq_dec : EqDecision net_event.
Proof. solve_decision. Defined.

(** The [n]-th event of the worker's life. *)
Class WorkerEnv := {
  net_fault : nat → option net_event;
  (** How many messages of a stream arrive before it breaks; all by default. *)
  stream_cut : nat → option nat;
  os_fault : nat → option error;
  wk_clock : nat → Z;
  (** Whether the goroutine of a reaction waits before the container starts. *)
  wait_first : nat → bool;
  (** [json.Unmarshal(data, &map)] accepts the text; [json.Marshal] of the metadata. *)
  json_map : string → bool;
  marshal_metadata : WorkflowMetadata → result string
}.

Record World (S C : Type) := {
  k_srv : S;
  (** The server is running: a panic of a handler ends it. *)
  k_up : bool;
  k_host : FS * C;
  k_sha : gmap string string;
  k_tick : nat
}.
Arguments k_srv {_ _} _.
Arguments k_up {_ _} _.
Arguments k_host {_ _} _.
Arguments k_sha {_ _} _.
Arguments k_tick {_ _} _.

(** ** Configuration *)
Record Worker := {
  w_workerID : string; w_dataDir : string; w_maxSize : Z; w_createPrivileged : bool;
  w_captureLogs : bool; w_retries : Z
}.
Definition dataFile := "data".
Definition defaultDataDir := "/worker".

(** [Option]: the retry interval only paces the loop and is left out. *)
Abbreviation Option_ := (Worker → Worker) (only parsing).
Definition WithRetries (retries : Z) : Option_ := λ w,
  {| w_workerID := w_workerID w; w_dataDir := w_dataDir w; w_maxSize := w_maxSize w;
     w_createPrivileged := w_createPrivileged w; w_captureLogs := w_captureLogs w;
     w_retries := retries |}.
Definition WithDataDir (dir : string) : Option_ := λ w,
  {| w_workerID := w_workerID w; w_dataDir := dir; w_maxSize := w_maxSize w;
     w_createPrivileged := w_createPrivileged w; w_captureLogs := w_captureLogs w;
     w_retries := w_retries w |}.
Definition WithMaxFileSize (maxSize : Z) : Option_ := λ w,
  {| w_workerID := w_workerID w; w_dataDir := w_dataDir w; w_maxSize := maxSize;
     w_createPrivileged := w_createPrivileged w; w_captureLogs := w_captureLogs w;
     w_retries := w_retries w |}.
Definition WithLogCapture (capture : bool) : Option_ := λ w,
  {| w_workerID := w_workerID w; w_dataDir := w_dataDir w; w_maxSize := w_maxSize w;
     w_createPrivileged := w_createPrivileged w; w_captureLogs := capture;
     w_retries := w_retries w |}.
Definition WithPrivileged (privileged : bool) : Option_ := λ w,
  {| w_workerID := w_workerID w; w_dataDir := w_dataDir w; w_maxSize := w_maxSize w;
     w_createPrivileged := privileged; w_captureLogs := w_captureLogs w;
     w_retries := w_retries w |}.
Definition NewWorker (workerID : string) (opts : list Option_) : Worker :=
  foldl (λ w opt, opt w)
    {| w_workerID := workerID; w_dataDir := defaultDataDir; w_maxSize := 2 ^ 20;
       w_createPrivileged := false; w_captureLogs := false; w_retries := 3 |} opts.

Definition errGetWfContext := "failed to get workflow context".
Definition errGetWfActions := "failed to get actions for workflow".
Definition unavailable : error := ExtErr "rpc error: code = Unavailable".
Definition hour : Z := 3600 * second.

Section worker.
Context {S C : Type} `{SV : WorkflowService S} `{CM : ContainerManager C} `{WE : WorkerEnv}.
Abbreviation W := (World S C).
#[local] Open Scope go_scope.

(** ** Calls *)
Definition set_srv (s : S) (up : bool) (k : W) : W :=
  {| k_srv := s; k_up := up; k_host := k_host k; k_sha := k_sha k; k_tick := k_tick k |}.
Definition set_host (h : FS * C) (k : W) : W :=
  {| k_srv := k_srv k; k_up := k_up k; k_host := h; k_sha := k_sha k; k_tick := k_tick k |}.
Definition set_sha (m : gmap string string) (k : W) : W :=
  {| k_srv := k_srv k; k_up := k_up k; k_host := k_host k; k_sha := m; k_tick := k_tick k |}.

(** The number of the next event. *)
Definition tick : go W nat := λ k,
  (Ret (k_tick k),
   {| k_srv := k_srv k; k_up := k_up k; k_host := k_host k; k_sha := k_sha k;
      k_tick := Datatypes.S (k_tick k) |}).

(** A remote call: its handler may not be reached, or its answer be lost after
    it has run, and a handler that panics takes the server down. *)
Definition rpc {A} (c : go S A) : go W (result A) :=
  let* n := tick in
  let* k := go_get in
  if negb (k_up k) || bool_decide (net_fault n = Some RequestLost) then go_ret (Err unavailable)
  else
    match c (k_srv k) with
    | (Ret a, s') =>
        go_modify (set_srv s' true) ;;;
        go_ret (if bool_decide (net_fault n = Some ReplyLost) then Err unavailable else Ok a)
    | (_, s') => go_modify (set_srv s' false) ;;; go_ret (Err unavailable)
    end.

Definition call_err (r : result (option error)) : option error :=
  match r with Ok e => e | Err e => Some e end.

(** The streaming call: the handler runs and the client receives what it sent,
    or the part that arrives. An error that ends the stream is not seen. *)
Definition GetWorkflowContexts_stream (workerID : string) : go W (result (list WorkflowContext)) :=
  let* n := tick in
  let* k := go_get in
  if negb (k_up k) || bool_decide (net_fault n = Some RequestLost) then go_ret (Err unavailable)
  else
    let '(o, (s', sent)) := svc_GetWorkflowContexts (λ _, None) workerID (k_srv k, []) in
    go_modify (set_srv s' (match o with Ret _ => true | _ => false end)) ;;;
    go_ret (Ok (match stream_cut n with Some m => take m sent | None => sent end)).

Definition cm {A} (c : go (FS * C) A) : go W A := go_zoom k_host set_host c.

Definition os_call : go W (option error) := let* n := tick in go_ret (os_fault n).
Definition get_fs : go W FS := let* k := go_get in go_ret (k_host k).1.
Definition put_file (p text : string) : go W unit :=
  go_modify (λ k, set_host
    ({| fs_dirs := fs_dirs (k_host k).1; fs_files := <[p := text]> (fs_files (k_host k).1) |},
     (k_host k).2) k).

(** [openDataFile]: the file is created when it does not exist, and never
    truncated; it fails when its directory does not exist. *)
Definition data_path (wfDir : string) : string := Clean (wfDir +:+ "/" +:+ dataFile).
Definition openDataFile (wfDir : string) : go W unit :=
  let* err := os_call in
  let* fs := get_fs in
  if decide (err ≠ None ∨ wfDir ∉ fs_dirs fs) then go_exit 1
  else put_file (data_path wfDir) (default "" (fs_files fs !! data_path wfDir)).

(** [f.Write(data)] on the file just opened; on an error nothing is written. *)
Definition write_data (wfDir data : string) : go W (option error) :=
  let* err := os_call in
  match err with
  | Some e => go_ret (Some e)
  | None =>
      let* fs := get_fs in
      put_file (data_path wfDir)
        (overwrite data (default "" (fs_files fs !! data_path wfDir))) ;;;
      go_ret None
  end.

Definition time_now : go W Z := let* n := tick in go_ret (wk_clock n).

(** ** Running an action *)
Context (w : Worker).

Definition executeReaction (cmd : list string) (wfID : string) (action : WorkflowAction)
    : go W State :=
  let* r := cm (cm_CreateContainer cmd wfID action (w_captureLogs w) (w_createPrivileged w)) in
  let id := r.1 in
  let* n := tick in
  if wait_first n then
    let* st := cm (cm_WaitForFailedContainer None id) in
    cm (cm_StartContainer None id) ;;;
    go_ret st
  else
    cm (cm_StartContainer None id) ;;;
    cm (cm_WaitForFailedContainer None id).

Definition execute (wfID : string) (action : WorkflowAction) : go W (State * option error) :=
  let* err := cm (cm_PullImage (wa_Image action)) in
  match err with
  | Some e => go_ret (State_STATE_RUNNING, Some (WrapErr e "pull image"))
  | None =>
      let* r := cm (cm_CreateContainer (wa_Command action) wfID action
                      (w_captureLogs w) (w_createPrivileged w)) in
      match r with
      | (_, Some e) => go_ret (State_STATE_RUNNING, Some (WrapErr e "create container"))
      | (id, None) =>
          let timeCtx := Some (if decide (0 < wa_Timeout action)
                               then seconds_dur (wa_Timeout action) else hour) in
          let* err := cm (cm_StartContainer timeCtx id) in
          match err with
          | Some e => go_ret (State_STATE_RUNNING, Some (WrapErr e "start container"))
          | None =>
              let* r := cm (cm_WaitForContainer timeCtx id) in
              go_defer (cm (cm_RemoveContainer id) ;;; go_ret tt) (
                match r with
                | (st, Some e) => go_ret (st, Some (WrapErr e "wait container"))
                | (st, None) =>
                    if decide (st = State_STATE_SUCCESS) then go_ret (st, None)
                    else
                      (if decide (st = State_STATE_TIMEOUT ∧ wa_OnTimeout action ≠ []) then
                         executeReaction (wa_OnTimeout action) wfID action ;;; go_ret tt
                       else if decide (wa_OnFailure action ≠ []) then
                         executeReaction (wa_OnFailure action) wfID action ;;; go_ret tt
                       else go_ret tt) ;;;
                      go_ret (st, None)
                end)
          end
      end
  end.

(** ** Reports: [for r := 1; r <= w.retries; r++] *)
Fixpoint report_loop (n : nat) (last : option error) (req : WorkflowActionStatus)
    : go W (option error) :=
  match n with
  | O => go_ret last
  | Datatypes.S n' =>
      let* r := rpc (svc_ReportActionStatus req) in
      match call_err r with
      | None => go_ret None
      | Some e => report_loop n' (Some e) req
      end
  end.
Definition reportActionStatus (req : WorkflowActionStatus) : go W (option error) :=
  report_loop (Z.to_nat (w_retries w)) None req.

(** A report that fails for good ends the process ([exitWithGrpcError]). *)
Definition must_report (req : WorkflowActionStatus) : go W unit :=
  let* err := reportActionStatus req in
  match err with Some _ => go_exit 1 | None => go_ret tt end.

(** ** The data of the workflow *)
Definition wf_dir (wfID : string) : string := path_Join [w_dataDir w; wfID].

Definition getWorkflowData (wfID : string) : go W unit :=
  let* r := rpc (svc_GetWorkflowData {| gd_WorkflowId := wfID; gd_Version := 0 |}) in
  let data := match r with Ok (res, None) => gr_Data res | _ => "" end in
  if decide (data = "") then go_ret tt
  else
    openDataFile (wf_dir wfID) ;;;
    write_data (wf_dir wfID) data ;;;
    go_modify (λ k, set_sha (<[wfID := checksum data]> (k_sha k)) k).

(** [isValidDataFile]: a JSON object that is not too large. *)
Definition isValidDataFile (data : string) (size : Z) : go W bool :=
  if negb (json_map data) then go_ret false
  else
    let* err := os_call in
    go_ret (match err with Some _ => false | None => bool_decide (size ≤ w_maxSize w) end).

Definition sendUpdate (st : WorkflowActionStatus) (data sha : string) : go W unit :=
  let* now := time_now in
  match marshal_metadata {| wm_WorkerID := ws_WorkerId st; wm_Action := ws_ActionName st;
                            wm_Task := ws_TaskName st; wm_UpdatedAt := now; wm_SHA := sha |} with
  | Err _ => go_exit 1
  | Ok metadata =>
      let* r := rpc (svc_UpdateWorkflowData
        {| ud_WorkflowId := ws_WorkflowId st; ud_Metadata := metadata; ud_Data := data |}) in
      match call_err r with Some _ => go_exit 1 | None => go_ret tt end
  end.

Definition updateWorkflowData (st : WorkflowActionStatus) : go W unit :=
  let wfID := ws_WorkflowId st in
  openDataFile (wf_dir wfID) ;;;
  let* err := os_call in
  let* fs := get_fs in
  let content := default "" (fs_files fs !! data_path (wf_dir wfID)) in
  let data := match err with Some _ => "" | None => content end in
  let* valid := isValidDataFile data (strlen content) in
  if (valid : bool) then
    let* k := go_get in
    match k_sha k !! wfID with
    | None =>
        go_modify (λ k, set_sha (<[wfID := checksum data]> (k_sha k)) k) ;;;
        sendUpdate st data (checksum data)
    | Some old =>
        if EqualFold old (checksum data) then go_ret tt else sendUpdate st data (checksum data)
    end
  else go_ret tt.

(** ** The loop *)
Definition isLastAction (c : WorkflowContext) (actions : WorkflowActionList) : bool :=
  bool_decide (wc_CurrentActionIndex c = Z.of_nat (length actions) - 1).

(** The index of the action that is this worker's turn. *)
Definition my_turn (idx : Z) (a : WorkflowAction) : option Z :=
  if decide (wa_WorkerId a = w_workerID w) then Some idx else None.
Definition choose_action (c : WorkflowContext) (actions : WorkflowActionList)
    : go W (option Z) :=
  let idx := wc_CurrentActionIndex c in
  if decide (wc_CurrentAction c = "") then
    let* a := go_index actions 0 in go_ret (my_turn 0 a)
  else if decide (wc_CurrentActionState c = State_STATE_SUCCESS) then
    if isLastAction c actions then go_ret None
    else let* a := go_index actions (wrap64 (idx + 1)) in go_ret (my_turn (wrap64 (idx + 1)) a)
  else if decide (wc_CurrentActionState c = State_STATE_FAILED ∨
                  wc_CurrentActionState c = State_STATE_TIMEOUT) then go_ret None
  else let* a := go_index actions idx in go_ret (my_turn idx a).

(** The directory of the workflow, with an empty JSON object. *)
Definition prepare_dir (wfDir : string) : go W unit :=
  let* err := os_call in
  let* fs := get_fs in
  if decide (err = None ∧ (wfDir ∉ fs_dirs fs) ∧ fs_files fs !! wfDir = None) then
    let* err := os_call in
    match err with
    | Some _ => go_exit 1
    | None =>
        go_modify (λ k, set_host
          ({| fs_dirs := fs_dirs (k_host k).1 ∪ {[ wfDir ]}; fs_files := fs_files (k_host k).1 |},
           (k_host k).2) k) ;;;
        openDataFile wfDir ;;;
        let* err := write_data wfDir "{}" in
        match err with
        | Some _ => go_exit 1
        | None =>
            let* err := os_call in
            match err with Some _ => go_exit 1 | None => go_ret tt end
        end
    end
  else go_ret tt.

Definition status_of (wfID : string) (action : WorkflowAction) (st : State) (seconds : Z)
    (message : string) : WorkflowActionStatus :=
  {| ws_WorkflowId := wfID; ws_TaskName := wa_TaskName action; ws_ActionName := wa_Name action;
     ws_ActionStatus := st; ws_Seconds := seconds; ws_Message := message;
     ws_CreatedAt := None; ws_WorkerId := wa_WorkerId action |}.
Definition msg_started := "Started execution".
Definition msg_finished := "finished execution successfully".

(** [for turn { ... }] from the action at the head of the list on. [Some err] is
    a return of the whole loop, with that error or nil. The context is the one
    received, also for the actions after the first. *)
Fixpoint run_actions (c : WorkflowContext) (l : WorkflowActionList)
    : go W (option (option error)) :=
  match l with
  | [] => go_panic "index out of range"
  | action :: rest =>
      let wfID := wc_WorkflowId c in
      (if decide (wc_CurrentActionState c ≠ State_STATE_RUNNING) then
         must_report (status_of wfID action State_STATE_RUNNING 0 msg_started)
       else go_ret tt) ;;;
      getWorkflowData wfID ;;;
      let* start := time_now in
      let* r := execute wfID action in
      let* end_ := time_now in
      let seconds := dur_seconds (time_sub end_ start) in
      let '(st, err) := r in
      if decide (err ≠ None ∨ st ≠ State_STATE_SUCCESS) then
        must_report (status_of wfID action
          (if decide (st = State_STATE_TIMEOUT) then State_STATE_TIMEOUT else State_STATE_FAILED)
          seconds "") ;;;
        go_ret (Some err)
      else
        let actionStatus := status_of wfID action State_STATE_SUCCESS seconds msg_finished in
        must_report actionStatus ;;;
        updateWorkflowData actionStatus ;;;
        match rest with
        | [] => go_ret None
        | next :: _ =>
            if decide (wa_WorkerId next = w_workerID w) then run_actions c rest
            else go_ret None
        end
  end.

Definition process_context (c : WorkflowContext) : go W (option (option error)) :=
  let* r := rpc (svc_GetWorkflowActions (wc_WorkflowId c)) in
  match r with
  | Err e | Ok (Err e) => go_ret (Some (Some (WrapErr e errGetWfActions)))
  | Ok (Ok actions) =>
      let* turn := choose_action c actions in
      match turn with
      | None => go_ret None
      | Some idx =>
          prepare_dir (wf_dir (wc_WorkflowId c)) ;;;
          run_actions c (drop (Z.to_nat idx) actions)
      end
  end.

Fixpoint process_contexts (l : list WorkflowContext) : go W (option (option error)) :=
  match l with
  | [] => go_ret None
  | c :: l' =>
      let* r := process_context c in
      match r with Some err => go_ret (Some err) | None => process_contexts l' end
  end.

(** [polls] turns of the endless loop; [None] when it has not returned. *)
Fixpoint ProcessWorkflowActions (polls : nat) : go W (option (option error)) :=
  match polls with
  | O => go_ret None
  | Datatypes.S n =>
      let* r := GetWorkflowContexts_stream (w_workerID w) in
      match r with
      | Err e => go_ret (Some (Some (WrapErr e errGetWfContext)))
      | Ok cs =>
          let* r := process_contexts cs in
          match r with Some err => go_ret (Some err) | None => ProcessWorkflowActions n end
      end
  end.
End worker.
