(* ===== verification/Docker.v ===== *)
(** * Docker: the container managers
    (src/cmd/tink-worker/worker/container_manager.go, registry.go,
    src/cmd/virtual-worker/worker/container_manager.go)

    The manager of tink-worker over the Docker API, which is a parameter with the
    laws the theorems use, and the manager of virtual-worker, which only sleeps. *)
From S2P Require Import Prelude Proto Service Worker.
From stdpp Require Import options.

(** ** The Docker API *)
Record RegistryConnDetails := { rc_Registry : string; rc_Username : string; rc_Password : string }.

(** [container.Config] and [container.HostConfig], the fields that are set. *)
Record ContainerConfig := {
  cc_Image : string; cc_AttachStdout : bool; cc_AttachStderr : bool; cc_Cmd : list string;
  cc_Tty : bool; cc_Env : list string
}.
Record HostConfig := { hc_Privileged : bool; hc_Binds : list string; hc_PidMode : string }.

(** Which case of the [select] on a wait fires: the exit code, an error of the
    API, or the end of the context. *)
Inductive wait_result := WaitExit (code : Z) | WaitErr (e : error) | WaitDone (e : error).

(** [ContainerRemoveOptions]. *)
Record RemoveOptions := { ro_Force : bool; ro_RemoveLinks : bool; ro_RemoveVolumes : bool }.

Class DockerClient (D : Type) := {
  (** [base64.URLEncoding] of the JSON of the credentials. *)
  dk_auth : RegistryConnDetails → result string;
  (** What decoding the progress gives, up to the end of the stream: an error, a
      JSON null, or a status with its error text. *)
  dk_ImagePull : string → string → go (FS * D) (result (list (result (option string))));
  dk_ContainerCreate : ContainerConfig → HostConfig → string → go (FS * D) (result string);
  dk_ContainerStart : ctx → string → go (FS * D) (option error);
  dk_ContainerInspect : ctx → string → go (FS * D) (option error);
  dk_ContainerWait : ctx → string → go (FS * D) wait_result;
  dk_ContainerRemove : string → RemoveOptions → go (FS * D) (option error);
  (** Views: the names in use, and the containers created so far. *)
  dk_names : D → gset string;
  dk_created : D → list ContainerConfig
}.

(** Calls that return and neither create containers nor free names. *)
Definition dk_keeps `{DockerClient D} {A} (c : go (FS * D) A) : Prop :=
  ∀ h, ∃ a h', c h = (Ret a, h') ∧ dk_names h'.2 = dk_names h.2 ∧ dk_created h'.2 = dk_created h.2.

(** What the API documents of names: they are unique among the containers that
    exist, running or not, so a container is not created under one in use. *)
Class DockerLaws (D : Type) `{DockerClient D} := {
  dk_pull_keeps ref auth : dk_keeps (dk_ImagePull ref auth);
  dk_start_keeps c id : dk_keeps (dk_ContainerStart c id);
  dk_inspect_keeps c id : dk_keeps (dk_ContainerInspect c id);
  dk_wait_keeps c id : dk_keeps (dk_ContainerWait c id);
  dk_remove_creates id opts h : ∃ r h', dk_ContainerRemove id opts h = (Ret r, h') ∧
    dk_created h'.2 = dk_created h.2;
  dk_create_spec cfg host name h : name ≠ "" →
    ∃ r h', dk_ContainerCreate cfg host name h = (Ret r, h') ∧
      match r with
      | Ok _ => (name ∉ dk_names h.2) ∧ dk_names h'.2 = {[ name ]} ∪ dk_names h.2 ∧
                dk_created h'.2 = dk_created h.2 ++ [cfg]
      | Err _ => dk_names h'.2 = dk_names h.2 ∧ dk_created h'.2 = dk_created h.2
      end
}.

(** ** The manager *)
Section manager.
Context {D : Type} `{DC : DockerClient D} (registryDetails : RegistryConnDetails).
#[local] Open Scope go_scope.

Definition container_config (cmd : list string) (action : WorkflowAction) (captureLogs : bool)
    : ContainerConfig :=
  {| cc_Image := path_Join [rc_Registry registryDetails; wa_Image action];
     cc_AttachStdout := captureLogs; cc_AttachStderr := captureLogs; cc_Cmd := cmd;
     cc_Tty := captureLogs; cc_Env := wa_Environment action |}.
Definition host_config (wfID : string) (action : WorkflowAction) (privileged : bool)
    : HostConfig :=
  {| hc_Privileged := privileged;
     hc_Binds := [path_Join [defaultDataDir; wfID] +:+ ":/workflow"] ++ wa_Volumes action;
     hc_PidMode := wa_Pid action |}.

Definition CreateContainer (cmd : list string) (wfID : string) (action : WorkflowAction)
    (captureLogs privileged : bool) : go (FS * D) (string * option error) :=
  let* r := dk_ContainerCreate (container_config cmd action captureLogs)
              (host_config wfID action privileged) (wa_Name action) in
  go_ret (match r with
          | Err e => ("", Some (WrapErr e "DOCKER CREATE"))
          | Ok id => (id, None)
          end).

Definition StartContainer (c : ctx) (id : string) : go (FS * D) (option error) :=
  let* err := dk_ContainerStart c id in go_ret (wrap err "DOCKER START").

Definition WaitForContainer (c : ctx) (id : string) : go (FS * D) (State * option error) :=
  let* err := dk_ContainerInspect c id in
  match err with
  | Some _ => go_ret (State_STATE_FAILED, None)
  | None =>
      let* r := dk_ContainerWait c id in
      go_ret (match r with
              | WaitExit code =>
                  (if decide (code = 0) then State_STATE_SUCCESS else State_STATE_FAILED, None)
              | WaitErr e => (State_STATE_FAILED, Some e)
              | WaitDone e => (State_STATE_TIMEOUT, Some e)
              end)
  end.

Definition WaitForFailedContainer (c : ctx) (id : string) : go (FS * D) State :=
  let* r := dk_ContainerWait c id in
  go_ret (match r with
          | WaitExit code => if decide (code = 0) then State_STATE_SUCCESS else State_STATE_FAILED
          | WaitErr _ => State_STATE_FAILED
          | WaitDone _ => State_STATE_TIMEOUT
          end).

Definition RemoveContainer (id : string) : go (FS * D) (option error) :=
  let* err := dk_ContainerRemove id
    {| ro_Force := true; ro_RemoveLinks := false; ro_RemoveVolumes := true |} in
  go_ret (wrap err "DOCKER STOP").

(** The loop over the progress: a JSON null is a nil pointer. *)
Fixpoint pull_progress (l : list (result (option string))) : go (FS * D) (option error) :=
  match l with
  | [] => go_ret None
  | Err e :: _ => go_ret (if err_is e EOF then None else Some (WrapErr e "DOCKER PULL"))
  | Ok None :: _ => go_panic "nil pointer dereference"
  | Ok (Some text) :: l' =>
      if decide (text ≠ "") then go_ret (Some (WrapErr (NewErr text) "DOCKER PULL"))
      else pull_progress l'
  end.

Definition PullImage (image : string) : go (FS * D) (option error) :=
  match dk_auth registryDetails with
  | Err e => go_ret (Some (WrapErr e "DOCKER AUTH"))
  | Ok auth =>
      try out := dk_ImagePull (path_Join [rc_Registry registryDetails; image]) auth
        onerr (λ e, Some (WrapErr e "DOCKER PULL")) in
      pull_progress out
  end.

Definition docker_manager : ContainerManager D :=
  {| cm_CreateContainer := CreateContainer; cm_StartContainer := StartContainer;
     cm_WaitForContainer := WaitForContainer;
     cm_WaitForFailedContainer := WaitForFailedContainer;
     cm_RemoveContainer := RemoveContainer; cm_PullImage := PullImage |}.
End manager.

(** ** The fake manager of virtual-worker

    It draws container ids of 64 hexadecimal digits and sleeps; the state is the
    number of draws. [Int31n] needs a positive bound, which a jitter of a
    millisecond or more gives. *)
Record fakeManager := { fm_sleepMinimum : Z; fm_sleepJitter : Z; fm_draws : nat }.
Definition millisecond : Z := 1000000.

Definition NewFakeContainerManager (sleepMinimum sleepJitter : Z) : fakeManager :=
  {| fm_sleepMinimum := if decide (sleepMinimum ≤ 0) then 1 else sleepMinimum;
     fm_sleepJitter := if decide (sleepJitter ≤ 0) then 1 else sleepJitter; fm_draws := 0 |}.

Section fake.
(** The [n]-th value of [Intn(16)]. *)
Context (rand : nat → nat).
#[local] Open Scope go_scope.

Definition draw : go (FS * fakeManager) nat := λ h,
  (Ret (rand (fm_draws h.2)),
   (h.1, {| fm_sleepMinimum := fm_sleepMinimum h.2; fm_sleepJitter := fm_sleepJitter h.2;
            fm_draws := S (fm_draws h.2) |})).
Definition hex_alphabet := "1234567890abcdef".
Fixpoint getRandHexStr (length : nat) : go (FS * fakeManager) string :=
  match length with
  | O => go_ret ""
  | S n =>
      let* d := draw in
      let* rest := getRandHexStr n in
      go_ret (match String.get (d mod 16) hex_alphabet with
              | Some c => String c rest
              | None => rest
              end)
  end.

(** [m.r.Int31n(int32(m.sleepJitter.Milliseconds()))] panics on a bound that is
    not positive. *)
Definition fake_sleep : go (FS * fakeManager) unit :=
  let* h := go_get in
  if decide (wrap32 (Z.quot (fm_sleepJitter h.2) millisecond) ≤ 0) then
    go_panic "invalid argument to Int31n"
  else draw ;;; go_ret tt.

Definition fake_manager : ContainerManager fakeManager :=
  {| cm_CreateContainer _ _ _ _ _ := let* id := getRandHexStr 64 in go_ret (id, None);
     cm_StartContainer _ _ := go_ret None;
     cm_WaitForContainer _ _ := fake_sleep ;;; go_ret (State_STATE_SUCCESS, None);
     cm_WaitForFailedContainer _ _ := fake_sleep ;;; go_ret State_STATE_SUCCESS;
     cm_RemoveContainer _ := go_ret None;
     cm_PullImage _ := fake_sleep ;;; go_ret None |}.
End fake.

(** ** Lemmas *)
Section lemmas.
#[local] Set Default Proof Using "Type*".
Context {D : Type} `{DL : DockerLaws D} (rd : RegistryConnDetails).
Context {S : Type} `{SV : WorkflowService S} `{WE : WorkerEnv} (w : Worker).
#[local] Instance cm_docker : ContainerManager D := docker_manager rd.
Abbreviation W := (World S D).

(** What the engine of a world has created, and the names it has in use. *)
Definition created (k : W) : list ContainerConfig := dk_created (k_host k).2.
Definition names (k : W) : gset string := dk_names (k_host k).2.

(** A computation of the worker that leaves them alone, whatever its outcome. *)
Definition engine_keeps {A} (c : go W A) : Prop :=
  ∀ k, created (c k).2 = created k ∧ names (c k).2 = names k.
(** One that creates nothing. *)
Definition engine_creates_none {A} (c : go W A) : Prop := ∀ k, created (c k).2 = created k.

Lemma engine_bind {A B} (c : go W A) (f : A → go W B) :
  engine_keeps c → (∀ a, engine_keeps (f a)) → engine_keeps (go_bind c f).
Proof.
  intros Hc Hf k. unfold go_bind. specialize (Hc k). destruct (c k) as [[a|m|n] k']; [|done..].
  destruct Hc as [<- <-]. apply Hf.
Qed.
Lemma engine_ret {A} (a : A) : engine_keeps (go_ret a).
Proof. done. Qed.
Lemma engine_tick : engine_keeps (tick (S:=S) (C:=D)).
Proof. done. Qed.
Lemma keeps_creates_none {A} (c : go W A) : engine_keeps c → engine_creates_none c.
Proof. intros Hc k. by destruct (Hc k). Qed.

Lemma keeps_cm {A} (c : go (FS * D) A) :
  (∀ h, dk_names (c h).2.2 = dk_names h.2 ∧ dk_created (c h).2.2 = dk_created h.2) →
  engine_keeps (cm (S:=S) c).
Proof.
  intros Hc k. unfold cm, go_zoom. specialize (Hc (k_host k)).
  destruct (c (k_host k)) as [o h']. by destruct Hc.
Qed.

(** A call of the API that keeps the engine, and what is made of its result. *)
Lemma dk_keeps_bind {A B} (c : go (FS * D) A) (f : A → go (FS * D) B) :
  dk_keeps c →
  (∀ a h, dk_names (f a h).2.2 = dk_names h.2 ∧ dk_created (f a h).2.2 = dk_created h.2) →
  ∀ h, dk_names (go_bind c f h).2.2 = dk_names h.2 ∧
       dk_created (go_bind c f h).2.2 = dk_created h.2.
Proof.
  intros Hc Hf h. destruct (Hc h) as (a & h' & Hrun & Hn & Hcr).
  rewrite (go_bind_Ret _ _ _ _ _ Hrun). destruct (Hf a h') as [-> ->]. done.
Qed.

Lemma keeps_start c id : engine_keeps (cm (cm_StartContainer c id)).
Proof. apply keeps_cm. apply dk_keeps_bind; [apply dk_start_keeps|done]. Qed.
Lemma keeps_wait c id : engine_keeps (cm (cm_WaitForContainer c id)).
Proof.
  apply keeps_cm. apply dk_keeps_bind; [apply dk_inspect_keeps|]. intros [e|] h; [done|].
  apply dk_keeps_bind; [apply dk_wait_keeps|done].
Qed.
Lemma keeps_wait_failed c id : engine_keeps (cm (cm_WaitForFailedContainer c id)).
Proof. apply keeps_cm. apply dk_keeps_bind; [apply dk_wait_keeps|done]. Qed.
Lemma pull_progress_keeps l h : (pull_progress (D:=D) l h).2 = h.
Proof.
  induction l as [|[[text|]|e] l IH]; simpl; [done| |done|done]. case_decide; done.
Qed.
Lemma keeps_pull image : engine_keeps (cm (cm_PullImage image)).
Proof.
  apply keeps_cm. simpl. unfold PullImage. destruct (dk_auth rd) as [auth|e]; [|done].
  apply dk_keeps_bind; [apply dk_pull_keeps|]. intros [l|e] h; [|done].
  by rewrite pull_progress_keeps.
Qed.
Lemma creates_none_remove id : engine_creates_none (cm (cm_RemoveContainer id)).
Proof.
  intros k. unfold cm, go_zoom, created. simpl. unfold RemoveContainer, go_bind.
  destruct (dk_remove_creates id
    {| ro_Force := true; ro_RemoveLinks := false; ro_RemoveVolumes := true |} (k_host k))
    as (r & h' & -> & Hc). done.
Qed.

(** Creating a container under a name that is in use fails. *)
Lemma create_taken cmd wfID a b1 b2 k :
  wa_Name a ≠ "" → wa_Name a ∈ names k →
  ∃ e k', cm (cm_CreateContainer cmd wfID a b1 b2) k = (Ret ("", Some e), k') ∧
    created k' = created k ∧ names k' = names k.
Proof.
  intros Hne Hin. unfold cm, go_zoom. simpl. unfold CreateContainer, go_bind.
  destruct (dk_create_spec (container_config rd cmd a b1) (host_config wfID a b2) (wa_Name a)
    (k_host k) Hne) as (r & h' & -> & Hr). destruct r as [id|e].
  - by destruct Hr as [Hnot _].
  - destruct Hr as [Hn Hc]. simpl. by eexists _, _.
Qed.

(** A reaction creates nothing while the container of the action exists. *)
Lemma reaction_creates_none cmd wfID a k :
  wa_Name a ≠ "" → wa_Name a ∈ names k →
  created (executeReaction w cmd wfID a k).2 = created k.
Proof.
  intros Hne Hin. unfold executeReaction.
  destruct (create_taken cmd wfID a (w_captureLogs w) (w_createPrivileged w) k Hne Hin)
    as (e & k' & Hrun & Hc & _). rewrite (go_bind_Ret _ _ _ _ _ Hrun), <- Hc.
  match goal with |- created (?c k').2 = _ => enough (engine_keeps c) as Hk by apply Hk end.
  apply engine_bind; [apply engine_tick|]. intros n. destruct (wait_first n).
  - apply engine_bind; [apply keeps_wait_failed|]. intros st.
    apply engine_bind; [apply keeps_start|]. intros _. apply engine_ret.
  - apply engine_bind; [apply keeps_start|]. intros _. apply keeps_wait_failed.
Qed.

Lemma defer_created {A} (d : go W unit) (c : go W A) k :
  engine_creates_none d → created (go_defer d c k).2 = created (c k).2.
Proof.
  intros Hd. unfold go_defer. destruct (c k) as [[a|m|n] k']; simpl; [| |done];
    specialize (Hd k'); destruct (d k') as [[]? ]; done.
Qed.

Lemma bind_created_same {A B} (c : go W A) (f : A → go W B) k :
  engine_creates_none c → (∀ a, engine_creates_none (f a)) →
  created (go_bind c f k).2 = created k.
Proof.
  intros Hc Hf. unfold go_bind. specialize (Hc k). destruct (c k) as [[a|m|n] k']; [|done..].
  by rewrite Hf.
Qed.

(** The part of [execute] after the container of the action was created. *)
Lemma execute_started_created wfID a id timeCtx k :
  wa_Name a ≠ "" → wa_Name a ∈ names k →
  created (go_bind (cm (cm_StartContainer timeCtx id)) (λ err,
    match err with
    | Some e => go_ret (State_STATE_RUNNING, Some (WrapErr e "start container"))
    | None =>
        go_bind (cm (cm_WaitForContainer timeCtx id)) (λ r,
        go_defer (go_bind (cm (cm_RemoveContainer id)) (λ _, go_ret tt))
          match r with
          | (st, Some e) => go_ret (st, Some (WrapErr e "wait container"))
          | (st, None) =>
              if decide (st = State_STATE_SUCCESS) then go_ret (st, None)
              else
                go_bind
                  (if decide (st = State_STATE_TIMEOUT ∧ wa_OnTimeout a ≠ []) then
                     go_bind (executeReaction w (wa_OnTimeout a) wfID a) (λ _, go_ret tt)
                   else if decide (wa_OnFailure a ≠ []) then
                     go_bind (executeReaction w (wa_OnFailure a) wfID a) (λ _, go_ret tt)
                   else go_ret tt) (λ _, go_ret (st, None))
          end)
    end) k).2 = created k.
Proof.
  intros Hne Hin. unfold go_bind at 1.
  destruct (keeps_start timeCtx id k) as [Hc1 Hn1].
  destruct (cm (cm_StartContainer timeCtx id) k) as [[[e|]|m|n] k1]; [done| |done..].
  simpl in Hc1, Hn1. unfold go_bind at 1.
  destruct (keeps_wait timeCtx id k1) as [Hc2 Hn2].
  destruct (cm (cm_WaitForContainer timeCtx id) k1) as [[[st err]|m|n] k2]; simpl in Hc2, Hn2;
    [|simpl; congruence..].
  assert (wa_Name a ∈ names k2) as Hin2 by by rewrite Hn2, Hn1.
  rewrite defer_created.
  2: { intros k3. apply bind_created_same; [apply creates_none_remove|done]. }
  rewrite <- Hc1, <- Hc2. destruct err as [e|]; [done|]. case_decide; [done|].
  assert (∀ cmd : list string,
    created (go_bind (go_bind (executeReaction w cmd wfID a) (λ _, go_ret tt))
      (λ _, go_ret (st, @None error)) k2).2 = created k2) as Hreact.
  { intros cmd. pose proof (reaction_creates_none cmd wfID a k2 Hne Hin2) as Hr.
    unfold go_bind. by destruct (executeReaction w cmd wfID a k2) as [[?|?|?] k3]. }
  case_decide; [apply Hreact|]. case_decide; [apply Hreact|done].
Qed.
End lemmas.

(** ** Properties *)
Section properties.
#[local] Set Default Proof Using "Type*".
Context {D : Type} `{DL : DockerLaws D} (rd : RegistryConnDetails).
Context {S : Type} `{SV : WorkflowService S} `{WE : WorkerEnv} (w : Worker).
#[local] Existing Instance cm_docker.

(** C34 With the Docker manager the on-timeout and on-failure commands of an
    action never run: whatever the outcome, executing an action creates at most
    one container, the one with the action's own command. A timeout is always
    reported with an error, on which the reaction is skipped, and the reaction to
    a failure is created under the name of the container that failed, which is
    removed only afterwards. *)
Theorem reactions_never_run wfID (a : WorkflowAction) (k : World S D) :
  wa_Name a ≠ "" →
  created (execute (CM:=cm_docker rd) w wfID a k).2 = created k ∨
  created (execute (CM:=cm_docker rd) w wfID a k).2 =
    created k ++ [container_config rd (wa_Command a) a (w_captureLogs w)].
Proof.
  intros Hne.
  pose (P l := l = created k ∨
    l = created k ++ [container_config rd (wa_Command a) a (w_captureLogs w)]).
  change (P (created (execute (CM:=cm_docker rd) w wfID a k).2)).
  unfold execute, go_bind at 1.
  destruct (keeps_pull rd (S:=S) (wa_Image a) k) as [Hc1 Hn1].
  destruct (cm (cm_PullImage (ContainerManager:=cm_docker rd) (wa_Image a)) k)
    as [[[e|]|m|n] k1]; [by left| |by left..].
  simpl in Hc1, Hn1. unfold go_bind at 1. unfold cm at 1, go_zoom at 1. simpl.
  unfold CreateContainer, go_bind at 1.
  destruct (dk_create_spec (container_config rd (wa_Command a) a (w_captureLogs w))
    (host_config wfID a (w_createPrivileged w)) (wa_Name a) (k_host k1) Hne)
    as (r & h' & -> & Hr). simpl. destruct r as [id|e].
  - destruct Hr as (_ & Hn & Hc). right. rewrite <- Hc1.
    change (created k1) with (dk_created (k_host k1).2). rewrite <- Hc.
    apply (execute_started_created rd w wfID a id _ (set_host h' k1) Hne).
    unfold names. simpl. rewrite Hn. set_solver.
  - left. rewrite <- Hc1. apply Hr.
Qed.
End properties.

(** ** An engine for the witnesses

    Containers are known by their names; each exits with the given code. *)
Record memDocker := { md_names : gset string; md_created : list ContainerConfig }.

Section mem.
Context (exit_code : Z).

#[local] Instance memDocker_client : DockerClient memDocker :=
  {| dk_auth d := Ok (rc_Username d);
     dk_ImagePull _ _ := go_ret (Ok [Ok (Some ""); Err EOF]);
     dk_ContainerCreate cfg _ name := λ h,
       if decide (name ∈ md_names h.2) then (Ret (Err (ExtErr "name already in use")), h)
       else (Ret (Ok name), (h.1, {| md_names := {[ name ]} ∪ md_names h.2;
                                     md_created := md_created h.2 ++ [cfg] |}));
     dk_ContainerStart _ _ := go_ret None;
     dk_ContainerInspect _ _ := go_ret None;
     dk_ContainerWait _ _ := go_ret (WaitExit exit_code);
     dk_ContainerRemove id _ := λ h,
       (Ret None, (h.1, {| md_names := md_names h.2 ∖ {[ id ]}; md_created := md_created h.2 |}));
     dk_names := md_names; dk_created := md_created |}.

#[local] Instance memDocker_laws : DockerLaws memDocker.
Proof.
  split; try (intros; intros h; by eexists _, _).
  - intros id opts h. by eexists _, _.
  - intros cfg host name h _. simpl. case_decide; eexists _, _; (split; [done|]); done.
Qed.
End mem.

Definition docker_fails : DockerClient memDocker := memDocker_client 1.
#[local] Existing Instance docker_fails.
#[local] Instance docker_fails_laws : DockerLaws memDocker := memDocker_laws 1.

(** A service that answers every call, and a quiet world. *)
#[local] Instance unit_service : WorkflowService unit :=
  {| svc_GetWorkflowContexts _ _ := go_ret None; svc_GetWorkflowActions _ := go_ret (Ok []);
     svc_ReportActionStatus _ := go_ret None;
     svc_GetWorkflowData _ := go_ret ({| gr_Data := ""; gr_Version := 0 |}, None);
     svc_GetWorkflowMetadata _ := go_ret ({| gr_Data := ""; gr_Version := 0 |}, None);
     svc_UpdateWorkflowData _ := go_ret None |}.
Definition quiet_env : WorkerEnv :=
  {| net_fault _ := None; stream_cut _ := None; os_fault _ := None; wk_clock _ := 0;
     wait_first _ := false; json_map s := bool_decide (s ≠ "");
     marshal_metadata m := Ok ("sha256: " +:+ wm_SHA m) |}.
#[local] Existing Instance quiet_env.

Definition reacting_action : WorkflowAction :=
  {| wa_TaskName := "t"; wa_Name := "a"; wa_Image := "img"; wa_Timeout := 5; wa_Command := ["run"];
     wa_OnTimeout := ["on-timeout"]; wa_OnFailure := ["on-failure"]; wa_WorkerId := "w";
     wa_Volumes := []; wa_Environment := []; wa_Pid := "" |}.
Definition no_registry : RegistryConnDetails :=
  {| rc_Registry := ""; rc_Username := ""; rc_Password := "" |}.
Definition quiet_world {S C} (s : S) (c : C) : World S C :=
  {| k_srv := s; k_up := true; k_host := ({| fs_dirs := ∅; fs_files := ∅ |}, c); k_sha := ∅;
     k_tick := 0 |}.
Definition docker_world : World unit memDocker :=
  quiet_world tt {| md_names := ∅; md_created := [] |}.

(** The action fails and has a command for it; one container was created. *)
Lemma reactions_never_run_witness :
  (execute (CM:=cm_docker no_registry) (NewWorker "w" []) "wf" reacting_action docker_world).1 =
    Ret (State_STATE_FAILED, None) ∧
  (created (execute (CM:=cm_docker no_registry) (NewWorker "w" []) "wf" reacting_action
     docker_world).2 = [] ∨
   cc_Cmd <$> created (execute (CM:=cm_docker no_registry) (NewWorker "w" []) "wf" reacting_action
     docker_world).2 = [["run"]]).
Proof.
  split; [vm_compute; reflexivity|].
  destruct (reactions_never_run no_registry (NewWorker "w" []) "wf" reacting_action docker_world)
    as [->| ->]; [done|by left|by right].
Defined.

(** The jitter set in place of one that is not positive is a nanosecond, less
    than the millisecond the generator counts in. *)
Example fake_default_jitter_panics rand fs :
  (fake_sleep rand (fs, NewFakeContainerManager 0 0)).1 = Panic "invalid argument to Int31n".
Proof. reflexivity. Qed.
