(* ===== verification/WorkerRun.v ===== *)
(** * WorkerRun: what the worker does with its workflows

    The contract a workflow service owes to a worker, as a class; the run of a
    worker against any service that keeps it; and the data file. *)
From S2P Require Import Prelude Proto Service Worker Docker.
From stdpp Require Import options.

(** ** The contract

    [ready n], [running n] and [finished n] describe the server when the actions
    before [n] are over and action [n] is not started, started, and reported
    successful. *)
Class WorkflowContract (S : Type) `{WorkflowService S} (id : string) (l : WorkflowActionList) := {
  ready : nat → S → Prop;
  running : nat → S → Prop;
  finished : nat → S → Prop;
  (** Updates of the data the service takes. *)
  update_ok : UpdateWorkflowDataRequest → Prop;
  ct_actions n s : ready n s →
    ∃ s', svc_GetWorkflowActions id s = (Ret (Ok l), s') ∧ ready n s';
  ct_run n a s : l !! n = Some a → ready n s →
    ∃ s', svc_ReportActionStatus (status_of id a State_STATE_RUNNING 0 msg_started) s =
      (Ret None, s') ∧ running n s';
  ct_get n s : running n s →
    ∃ r s', svc_GetWorkflowData {| gd_WorkflowId := id; gd_Version := 0 |} s = (Ret r, s') ∧
      running n s';
  ct_finish n a s sec : l !! n = Some a → 0 ≤ sec < 2 ^ 31 → running n s →
    ∃ s', svc_ReportActionStatus (status_of id a State_STATE_SUCCESS sec msg_finished) s =
      (Ret None, s') ∧ finished n s';
  ct_update n s req : (n < length l)%nat → ud_WorkflowId req = id → update_ok req →
    finished n s → ∃ s', svc_UpdateWorkflowData req s = (Ret None, s') ∧ ready (Datatypes.S n) s';
  ct_skip n s : finished n s → ready (Datatypes.S n) s
}.

(** Containers that can be created, exit with success, and leave the directories
    of the machine alone. *)
Definition cm_call {C A} (c : go (FS * C) A) (P : A → Prop) : Prop :=
  ∀ h, ∃ a h', c h = (Ret a, h') ∧ P a ∧ fs_dirs h'.1 = fs_dirs h.1.
Record cm_cooperative (C : Type) `{ContainerManager C} : Prop := {
  cmc_pull image : cm_call (cm_PullImage image) (λ e, e = None);
  cmc_create cmd wfID a b1 b2 : cm_call (cm_CreateContainer cmd wfID a b1 b2) (λ r, r.2 = None);
  cmc_start c id : cm_call (cm_StartContainer c id) (λ e, e = None);
  cmc_wait c id : cm_call (cm_WaitForContainer c id) (λ r, r = (State_STATE_SUCCESS, None));
  cmc_remove id : cm_call (cm_RemoveContainer id) (λ _, True)
}.

(** A network and a machine without faults, and a clock that does not jump. *)
Record env_quiet `{WorkerEnv} : Prop := {
  eq_net n : net_fault n = None;
  eq_os n : os_fault n = None;
  eq_meta m : ∃ t, marshal_metadata m = Ok t;
  eq_clock n m : (n < m)%nat → 0 ≤ dur_seconds (time_sub (wk_clock m) (wk_clock n)) < 2 ^ 31
}.

(** ** What a step of the worker leaves alone *)
Section frames.
Context {S C : Type}.
Abbreviation W := (World S C).

(** The server and the directories are as they were, and time has passed. *)
Definition calm (k k' : W) : Prop :=
  k_srv k' = k_srv k ∧ k_up k' = k_up k ∧ fs_dirs (k_host k').1 = fs_dirs (k_host k).1 ∧
  (k_tick k ≤ k_tick k')%nat.
(** The containers, too. *)
Definition same (k k' : W) : Prop := calm k k' ∧ (k_host k').2 = (k_host k).2.
(** The same but for the state of the server. *)
Definition served (s' : S) (k k' : W) : Prop :=
  (k_srv k' = s' ∧ k_up k' = k_up k ∧ fs_dirs (k_host k').1 = fs_dirs (k_host k).1 ∧
   (k_tick k ≤ k_tick k')%nat) ∧ (k_host k').2 = (k_host k).2.

End frames.

Ltac frame := unfold same, calm, served in *; simpl in *; split_and?; (congruence || lia).

Section frame_lemmas.
Context {S C : Type}.
Implicit Types k : World S C.

Lemma same_trans k1 k2 k3 : same k1 k2 → same k2 k3 → same k1 k3.
Proof. intros; unfold same, calm, served in *; destruct_and!; frame. Qed.
Lemma calm_trans k1 k2 k3 : calm k1 k2 → calm k2 k3 → calm k1 k3.
Proof. intros; unfold same, calm, served in *; destruct_and!; frame. Qed.
Lemma served_same s k1 k2 k3 : served s k1 k2 → same k2 k3 → served s k1 k3.
Proof. intros; unfold same, calm, served in *; destruct_and!; frame. Qed.
Lemma same_served s k1 k2 k3 : same k1 k2 → served s k2 k3 → served s k1 k3.
Proof. intros; unfold same, calm, served in *; destruct_and!; frame. Qed.
Lemma served_trans s s' k1 k2 k3 : served s k1 k2 → served s' k2 k3 → served s' k1 k3.
Proof. intros; unfold same, calm, served in *; destruct_and!; frame. Qed.

End frame_lemmas.

Section run.
#[local] Set Default Proof Using "Type*".
Context {S C : Type} `{SV : WorkflowService S} `{CM : ContainerManager C} `{WE : WorkerEnv}.
Context (w : Worker) (Hquiet : env_quiet) (Hretries : 1 ≤ w_retries w).
Abbreviation W := (World S C).
Implicit Types k : W.

Definition next (k : W) : W :=
  {| k_srv := k_srv k; k_up := k_up k; k_host := k_host k; k_sha := k_sha k;
     k_tick := Datatypes.S (k_tick k) |}.
Lemma os_call_ok (k : W) : os_call k = (Ret None, next k).
Proof. unfold os_call, go_bind, tick, go_ret. by rewrite (eq_os Hquiet). Qed.
Lemma time_now_ok (k : W) : time_now k = (Ret (wk_clock (k_tick k)), next k).
Proof. done. Qed.
Lemma get_fs_ok (k : W) : get_fs k = (Ret (k_host k).1, k).
Proof. done. Qed.
Lemma go_get_ok (k : W) : go_get k = (Ret k, k).
Proof. done. Qed.

Lemma rpc_ok {A} (c : go S A) k a s' :
  k_up k = true → c (k_srv k) = (Ret a, s') →
  ∃ k', rpc c k = (Ret (Ok a), k') ∧ served s' k k'.
Proof.
  intros Hup Hc. unfold rpc, go_bind, tick, go_get, go_modify, go_ret. simpl.
  rewrite Hup, (eq_net Hquiet). simpl. rewrite Hc. simpl.
  eexists. split; [done|]. frame.
Qed.

Lemma must_report_ok req k s' :
  k_up k = true → svc_ReportActionStatus req (k_srv k) = (Ret None, s') →
  ∃ k', must_report w req k = (Ret tt, k') ∧ served s' k k'.
Proof.
  intros Hup Hc. destruct (rpc_ok _ k None s' Hup Hc) as (k' & Hrun & Hs).
  exists k'. split; [|done]. unfold must_report, reportActionStatus.
  destruct (Z.to_nat (w_retries w)) as [|n] eqn:E; [lia|]. simpl.
  unfold go_bind in *. by rewrite Hrun.
Qed.

Lemma cm_ok {A} (c : go (FS * C) A) (P : A → Prop) k :
  cm_call c P → ∃ a k', cm (S:=S) c k = (Ret a, k') ∧ P a ∧ calm k k'.
Proof.
  intros Hc. destruct (Hc (k_host k)) as (a & h' & Hrun & HP & Hd).
  exists a, (set_host h' k). unfold cm, go_zoom. rewrite Hrun.
  split; [done|]. split; [done|]. frame.
Qed.

Lemma execute_ok (Hcm : cm_cooperative C) wfID a k :
  ∃ k', execute w wfID a k = (Ret (State_STATE_SUCCESS, None), k') ∧ calm k k'.
Proof.
  unfold execute.
  destruct (cm_ok _ _ k (cmc_pull _ Hcm (wa_Image a))) as (e & k1 & H1 & -> & S1).
  rewrite (go_bind_Ret _ _ _ _ _ H1).
  destruct (cm_ok _ _ k1 (cmc_create _ Hcm (wa_Command a) wfID a (w_captureLogs w)
    (w_createPrivileged w))) as ([id e] & k2 & H2 & He & S2). simpl in He. subst e.
  rewrite (go_bind_Ret _ _ _ _ _ H2). cbn zeta iota beta.
  set (tc := Some _).
  destruct (cm_ok _ _ k2 (cmc_start _ Hcm tc id)) as (e & k3 & H3 & -> & S3).
  rewrite (go_bind_Ret _ _ _ _ _ H3).
  destruct (cm_ok _ _ k3 (cmc_wait _ Hcm tc id)) as (r & k4 & H4 & -> & S4).
  rewrite (go_bind_Ret _ _ _ _ _ H4). unfold go_defer. rewrite decide_True by done. simpl.
  destruct (cm_ok _ _ k4 (cmc_remove _ Hcm id)) as (r & k5 & H5 & _ & S5).
  unfold go_bind. rewrite H5. simpl. exists k5. split; [done|].
  eauto using calm_trans.
Qed.

(** ** The data file *)
Lemma open_ok wfDir k :
  wfDir ∈ fs_dirs (k_host k).1 →
  ∃ k', openDataFile wfDir k = (Ret tt, k') ∧ same k k' ∧ k_sha k' = k_sha k ∧
    fs_files (k_host k').1 = <[data_path wfDir :=
      default "" (fs_files (k_host k).1 !! data_path wfDir)]> (fs_files (k_host k).1).
Proof.
  intros Hd. unfold openDataFile, os_call, get_fs, go_bind, tick, go_get, go_ret. simpl.
  rewrite (eq_os Hquiet), decide_False by tauto. unfold put_file, go_modify.
  eexists. split; [done|]. unfold same, calm. simpl. auto 10 with lia.
Qed.

Lemma write_ok wfDir data k :
  ∃ k', write_data wfDir data k = (Ret None, k') ∧ same k k' ∧ k_sha k' = k_sha k ∧
    fs_files (k_host k').1 = <[data_path wfDir :=
      overwrite data (default "" (fs_files (k_host k).1 !! data_path wfDir))]>
      (fs_files (k_host k).1).
Proof.
  unfold write_data, os_call, get_fs, go_bind, tick, go_get, go_ret. simpl.
  rewrite (eq_os Hquiet). unfold put_file, go_modify. simpl.
  eexists. split; [done|]. unfold same, calm. simpl. auto 10 with lia.
Qed.

Lemma get_data_ok wfID k r s' :
  k_up k = true → wf_dir w wfID ∈ fs_dirs (k_host k).1 →
  svc_GetWorkflowData {| gd_WorkflowId := wfID; gd_Version := 0 |} (k_srv k) = (Ret r, s') →
  ∃ k', getWorkflowData w wfID k = (Ret tt, k') ∧ served s' k k'.
Proof.
  intros Hup Hd Hget. unfold getWorkflowData.
  destruct (rpc_ok _ k _ _ Hup Hget) as (k1 & H1 & S1).
  rewrite (go_bind_Ret _ _ _ _ _ H1). cbn zeta. case_decide as Hdata; [by exists k1|].
  destruct (open_ok (wf_dir w wfID) k1) as (k2 & H2 & S2 & _).
  { by destruct S1 as ((_ & _ & -> & _) & _). }
  rewrite (go_bind_Ret _ _ _ _ _ H2).
  match goal with |- context [write_data _ ?d] =>
    destruct (write_ok (wf_dir w wfID) d k2) as (k3 & H3 & S3 & _) end.
  rewrite (go_bind_Ret _ _ _ _ _ H3). unfold go_modify. eexists. split; [done|].
  eapply served_same; [exact S1|]. eapply same_trans; [exact S2|]. apply S3.
Qed.

Lemma send_update_ok (P : S → Prop) st data sha k :
  k_up k = true →
  (∀ m t, marshal_metadata m = Ok t → ∃ s', svc_UpdateWorkflowData
     {| ud_WorkflowId := ws_WorkflowId st; ud_Metadata := t; ud_Data := data |} (k_srv k) =
     (Ret None, s') ∧ P s') →
  ∃ k', sendUpdate st data sha k = (Ret tt, k') ∧ served (k_srv k') k k' ∧ P (k_srv k').
Proof.
  intros Hup Hupd. unfold sendUpdate. rewrite (go_bind_Ret _ _ _ _ _ (time_now_ok k)).
  match goal with |- context [marshal_metadata ?m] => destruct (eq_meta Hquiet m) as [t Ht] end.
  rewrite Ht. destruct (Hupd _ t Ht) as (s' & Hs' & HP).
  set (k0 := next k).
  destruct (rpc_ok (A:=option error) (svc_UpdateWorkflowData
    {| ud_WorkflowId := ws_WorkflowId st; ud_Metadata := t; ud_Data := data |}) k0 None s')
    as (k2 & H2 & S2); [done|done|].
  rewrite (go_bind_Ret _ _ _ _ _ H2). exists k2. split; [done|].
  destruct S2 as ((Hs & Hu & Hd & Ht2) & Hc2). split; [subst k0; frame|by rewrite Hs].
Qed.

(** Sending the data after an action, when the service takes it or need not. *)
Lemma update_data_ok (P : S → Prop) st k :
  k_up k = true → wf_dir w (ws_WorkflowId st) ∈ fs_dirs (k_host k).1 → P (k_srv k) →
  (∀ data m t, json_map data = true → marshal_metadata m = Ok t → ∃ s', svc_UpdateWorkflowData
     {| ud_WorkflowId := ws_WorkflowId st; ud_Metadata := t; ud_Data := data |} (k_srv k) =
     (Ret None, s') ∧ P s') →
  ∃ k', updateWorkflowData w st k = (Ret tt, k') ∧ served (k_srv k') k k' ∧ P (k_srv k').
Proof.
  intros Hup Hd HP Hupd. unfold updateWorkflowData. cbn zeta.
  destruct (open_ok (wf_dir w (ws_WorkflowId st)) k Hd) as (k1 & H1 & S1 & _).
  rewrite (go_bind_Ret _ _ _ _ _ H1).
  destruct S1 as ((Hsrv & Hup1 & Hd1 & Ht1) & Hc1).
  rewrite (go_bind_Ret _ _ _ _ _ (os_call_ok k1)), (go_bind_Ret _ _ _ _ _ (get_fs_ok _)).
  set (data := default "" _). unfold isValidDataFile.
  destruct (json_map data) eqn:Hj; simpl.
  - unfold go_bind at 1. rewrite (go_bind_Ret _ _ _ _ _ (os_call_ok (next k1))). simpl.
    case_bool_decide.
    + rewrite (go_bind_Ret _ _ _ _ _ (go_get_ok _)). simpl. case_match eqn:Hsha.
      * case_match.
        { eexists. split; [done|]. split; [frame|simpl; by rewrite Hsrv]. }
        match goal with |- context [sendUpdate st data _ ?k1] => set (k2 := k1) end.
        destruct (send_update_ok P st data (checksum data) k2) as (k3 & H3 & S3 & HP3).
        { simpl. congruence. } { simpl. rewrite Hsrv. eauto. }
        exists k3. split; [done|]. split; [|done]. eapply same_served; [|exact S3].
        frame.
      * unfold go_bind at 1, go_modify.
        match goal with |- context [sendUpdate st data _ ?k1] => set (k2 := k1) end.
        destruct (send_update_ok P st data (checksum data) k2) as (k3 & H3 & S3 & HP3).
        { simpl. congruence. } { simpl. rewrite Hsrv. eauto. }
        exists k3. split; [done|]. split; [|done]. eapply same_served; [|exact S3].
        frame.
    + eexists. split; [done|]. split; [frame|simpl; by rewrite Hsrv].
  - eexists. split; [done|]. split; [frame|simpl; by rewrite Hsrv].
Qed.

(** ** A run against the contract *)
Context {id : string} {l : WorkflowActionList} `{WC : !WorkflowContract S id l}.
Context (Hupdate : ∀ data m t, json_map data = true → marshal_metadata m = Ok t →
  update_ok {| ud_WorkflowId := id; ud_Metadata := t; ud_Data := data |}).
Context (c : WorkflowContext) (Hid : wc_WorkflowId c = id)
  (Hstate : wc_CurrentActionState c ≠ State_STATE_RUNNING).

(** The server answers and the directory of the workflow exists. *)
Definition live (k : W) : Prop := k_up k = true ∧ wf_dir w id ∈ fs_dirs (k_host k).1.
Lemma live_served s k k' : served s k k' → live k → live k'.
Proof. intros ((_ & Hu & Hd & _) & _) [? ?]. unfold live. by rewrite Hu, Hd. Qed.
Lemma live_calm k k' : calm k k' → live k → live k'.
Proof. intros (_ & Hu & Hd & _) [? ?]. unfold live. by rewrite Hu, Hd. Qed.

(** What is known of the containers when the actions before [n] have been run. *)
Context (ran : nat → C → Prop).
Context (Hexec : ∀ n a k, l !! n = Some a → ran n (k_host k).2 →
  ∃ k', execute w id a k = (Ret (State_STATE_SUCCESS, None), k') ∧ calm k k' ∧
    ran (Datatypes.S n) (k_host k').2).

(** One action, from its first report to its data: the rest of the loop goes on
    from a server that is ready for the next one. *)
Lemma run_action_ok n a rest k :
  l !! n = Some a → live k → ready n (k_srv k) → ran n (k_host k).2 →
  ∃ k', run_actions w c (a :: rest) k =
    match rest with
    | [] => go_ret None
    | nxt :: _ =>
        if decide (wa_WorkerId nxt = w_workerID w) then run_actions w c rest else go_ret None
    end k' ∧ live k' ∧ ready (Datatypes.S n) (k_srv k') ∧ ran (Datatypes.S n) (k_host k').2.
Proof.
  intros Ha [Hup Hd] Hready Hran. pose proof (lookup_lt_Some _ _ _ Ha) as Hn.
  cbn [run_actions]. cbn zeta. rewrite Hid.
  destruct (ct_run n a _ Ha Hready) as (s1 & R1 & Hrun).
  destruct (must_report_ok _ k s1 Hup R1) as (k1 & H1 & S1).
  rewrite decide_True, (go_bind_Ret _ _ _ _ _ H1) by done.
  assert (live k1) as L1 by (eapply live_served; [done|by split]).
  destruct S1 as ((Hs1 & _) & Hc1). rewrite <- Hs1 in Hrun. rewrite <- Hc1 in Hran.
  destruct (ct_get n _ Hrun) as (r & s2 & R2 & Hrun2).
  destruct (get_data_ok id k1 r s2) as (k2 & H2 & S2); [apply L1|apply L1|done|].
  rewrite (go_bind_Ret _ _ _ _ _ H2), (go_bind_Ret _ _ _ _ _ (time_now_ok k2)).
  assert (live k2) as L2 by by eapply live_served.
  destruct (Hexec n a (next k2) Ha) as (k3 & H3 & S3 & Hran3).
  { simpl. destruct S2 as [_ ->]. done. }
  rewrite (go_bind_Ret _ _ _ _ _ H3), (go_bind_Ret _ _ _ _ _ (time_now_ok k3)).
  assert (live (next k3)) as L3 by (eapply live_calm in S3; done).
  rewrite decide_False by naive_solver.
  assert (0 ≤ dur_seconds (time_sub (wk_clock (k_tick k3)) (wk_clock (k_tick k2))) < 2 ^ 31)
    as Hsec. { apply (eq_clock Hquiet). destruct S3 as (_ & _ & _ & Ht). simpl in Ht. lia. }
  set (sec := dur_seconds _) in *.
  assert (k_srv (next k3) = s2) as Hs3.
  { destruct S3 as (Hs & _), S2 as ((Hs' & _) & _). simpl in *. congruence. }
  rewrite <- Hs3 in Hrun2.
  destruct (ct_finish n a _ sec Ha Hsec Hrun2) as (s4 & R4 & Hfin).
  destruct (must_report_ok _ (next k3) s4 (proj1 L3) R4) as (k4 & H4 & S4).
  rewrite (go_bind_Ret _ _ _ _ _ H4).
  assert (live k4) as L4 by by eapply live_served.
  destruct S4 as ((Hs4 & _) & Hc4). rewrite <- Hs4 in Hfin.
  destruct (update_data_ok (ready (Datatypes.S n))
    (status_of id a State_STATE_SUCCESS sec msg_finished) k4) as (k5 & H5 & S5 & Hr5).
  - apply L4.
  - apply L4.
  - by apply ct_skip.
  - intros data m t Hj Hm. apply (ct_update n); [done|done|by eapply Hupdate|done].
  - rewrite (go_bind_Ret _ _ _ _ _ H5). exists k5. split; [done|].
    split; [by eapply live_served|]. split; [done|]. destruct S5 as [_ ->]. by rewrite Hc4.
Qed.

(** The actions from [n] on, up to the first of another worker. *)
Lemma run_actions_ok n k :
  (n < length l)%nat → live k → ready n (k_srv k) → ran n (k_host k).2 →
  ∃ m k', run_actions w c (drop n l) k = (Ret None, k') ∧
    (ready m (k_srv k') ∧ ran m (k_host k').2) ∧
    (n < m ≤ length l)%nat ∧
    (∀ j a, (n < j < m)%nat → l !! j = Some a → wa_WorkerId a = w_workerID w) ∧
    (∀ a, l !! m = Some a → wa_WorkerId a ≠ w_workerID w).
Proof.
  remember (length l - n)%nat as fuel eqn:Hf. revert n k Hf.
  induction fuel as [|fuel IH]; intros n k Hf Hn Hl Hr Hran; [lia|].
  destruct (lookup_lt_is_Some_2 l n Hn) as [a Ha].
  rewrite (drop_S l a n Ha).
  destruct (run_action_ok n a (drop (Datatypes.S n) l) k Ha Hl Hr Hran)
    as (k1 & -> & Hl1 & Hr1 & Hran1).
  destruct (l !! Datatypes.S n) as [nxt|] eqn:Hnxt.
  - rewrite (drop_S l nxt _ Hnxt). pose proof (lookup_lt_Some _ _ _ Hnxt).
    case_decide as Hmine.
    + destruct (IH (Datatypes.S n) k1) as (m & k' & Hrun & Hrm & Hm & Hown & Hother);
        [lia|lia|done|done|done|].
      rewrite <- (drop_S l nxt _ Hnxt). exists m, k'. split; [done|]. split; [done|].
      split; [lia|]. split; [|done]. intros j b Hj Hb.
      destruct (decide (j = Datatypes.S n)) as [->|]; [by simplify_eq|]. apply (Hown j); [lia|done].
    + exists (Datatypes.S n), k1. split; [done|]. split; [done|]. split; [lia|].
      split; [intros; lia|]. intros b Hb. by simplify_eq.
  - apply lookup_ge_None in Hnxt. rewrite drop_ge by lia. exists (Datatypes.S n), k1.
    split; [done|]. split; [done|]. split; [lia|]. split; [intros; lia|].
    intros b Hb. apply lookup_lt_Some in Hb. lia.
Qed.

Lemma prepare_ok wfDir (k : W) :
  k_up k = true → fs_files (k_host k).1 !! wfDir = None →
  ∃ k', prepare_dir wfDir k = (Ret tt, k') ∧ k_srv k' = k_srv k ∧ k_up k' = true ∧
    wfDir ∈ fs_dirs (k_host k').1 ∧ (k_host k').2 = (k_host k).2.
Proof using All.
  intros Hup Hfile. unfold prepare_dir.
  rewrite (go_bind_Ret _ _ _ _ _ (os_call_ok k)), (go_bind_Ret _ _ _ _ _ (get_fs_ok _)).
  destruct (decide (wfDir ∈ fs_dirs (k_host k).1)) as [Hd|Hd].
  { rewrite decide_False by (simpl; tauto). exists (next k). done. }
  rewrite decide_True by (simpl; tauto). rewrite (go_bind_Ret _ _ _ _ _ (os_call_ok _)).
  unfold go_bind at 1, go_modify. match goal with |- context [openDataFile wfDir] => idtac end.
  match goal with |- context [go_bind _ _ ?k1] => set (k0 := k1) end.
  destruct (open_ok wfDir k0) as (k1 & H1 & S1 & _); [subst k0; simpl; set_solver|].
  rewrite (go_bind_Ret _ _ _ _ _ H1).
  destruct (write_ok wfDir "{}" k1) as (k2 & H2 & S2 & _).
  rewrite (go_bind_Ret _ _ _ _ _ H2), (go_bind_Ret _ _ _ _ _ (os_call_ok _)).
  pose proof (same_trans _ _ _ S1 S2) as ((Hs & Hu & Hdirs & _) & Hc).
  exists (next k2). split; [done|]. simpl. rewrite Hs, Hu, Hdirs, Hc. subst k0. simpl.
  split; [done|]. split; [done|]. split; [set_solver|done].
Qed.
End run.

Lemma substring_full s : String.substring 0 (String.length s) s = s.
Proof. induction s as [|x s IH]; simpl; [done|]. by rewrite IH. Qed.

(** What writing over a file leaves of it. *)
Lemma overwrite_spec data old :
  overwrite data old =
    data +:+ String.substring (String.length data) (String.length old - String.length data) old.
Proof.
  revert old. induction data as [|ch data IH]; intros old.
  - simpl. by rewrite Nat.sub_0_r, substring_full.
  - destruct old as [|x old].
    + simpl. symmetry. apply string_app_nil.
    + change (String ch data +:+ ?t) with (String ch (data +:+ t)). simpl. by rewrite IH.
Qed.

(** ** Recording

    A service that also keeps the reports it has accepted, and a container manager that
    also keeps the calls it got: what a run has done can be read off. *)
Definition recorded {S M A} (note : outcome A → list M) (c : go S A) : go (S * list M) A :=
  λ '(s, log), let '(o, s') := c s in (o, (s', log ++ note o)).

Definition recording_service {S} (SV : WorkflowService S)
    : WorkflowService (S * list WorkflowActionStatus) :=
  let plain {A} (c : go S A) := recorded (λ _, []) c in
  {| svc_GetWorkflowContexts fails w := λ '((s, log), sent),
       let '(o, (s', sent')) := svc_GetWorkflowContexts fails w (s, sent) in (o, ((s', log), sent'));
     svc_GetWorkflowActions id := plain (svc_GetWorkflowActions id);
     svc_ReportActionStatus req := recorded
       (λ o, match o with Ret None => [req] | _ => [] end) (svc_ReportActionStatus req);
     svc_GetWorkflowData req := plain (svc_GetWorkflowData req);
     svc_GetWorkflowMetadata req := plain (svc_GetWorkflowMetadata req);
     svc_UpdateWorkflowData req := plain (svc_UpdateWorkflowData req) |}.

Inductive cm_event :=
  | EPull (image : string)
  | ECreate (cmd : list string) (wfID : string) (action : WorkflowAction) (captureLogs privileged : bool)
      (id : string)
  | EStart (c : ctx) (id : string)
  | EWait (c : ctx) (id : string)
  | EWaitFailed (c : ctx) (id : string)
  | ERemove (id : string).

(** A call of the container manager, noted with what it returned. *)
Definition noted {C A} (note : outcome A → cm_event) (c : go (FS * C) A)
    : go (FS * (C * list cm_event)) A := λ '(fs, (d, log)),
  let '(o, (fs', d')) := c (fs, d) in (o, (fs', (d', log ++ [note o]))).

Definition recording_manager {C} (CM : ContainerManager C) : ContainerManager (C * list cm_event) :=
  {| cm_CreateContainer cmd wfID a logs priv := noted
       (λ o, ECreate cmd wfID a logs priv (match o with Ret (id, _) => id | _ => "" end))
       (cm_CreateContainer cmd wfID a logs priv);
     cm_StartContainer c id := noted (λ _, EStart c id) (cm_StartContainer c id);
     cm_WaitForContainer c id := noted (λ _, EWait c id) (cm_WaitForContainer c id);
     cm_WaitForFailedContainer c id := noted (λ _, EWaitFailed c id) (cm_WaitForFailedContainer c id);
     cm_RemoveContainer id := noted (λ _, ERemove id) (cm_RemoveContainer id);
     cm_PullImage image := noted (λ _, EPull image) (cm_PullImage image) |}.

(** The reports and the container calls of one action that succeeds. *)
Definition reports_of (id : string) (a : WorkflowAction) (l : list WorkflowActionStatus) : Prop :=
  ∃ sec, 0 ≤ sec < 2 ^ 31 ∧
    l = [status_of id a State_STATE_RUNNING 0 msg_started;
         status_of id a State_STATE_SUCCESS sec msg_finished].
Definition containers_of (w : Worker) (id : string) (a : WorkflowAction) (l : list cm_event) : Prop :=
  ∃ cid, let timeout := Some (if decide (0 < wa_Timeout a) then seconds_dur (wa_Timeout a) else hour) in
    l = [EPull (wa_Image a);
         ECreate (wa_Command a) id a (w_captureLogs w) (w_createPrivileged w) cid;
         EStart timeout cid; EWait timeout cid; ERemove cid].

(** [log] is [before] followed by what [per] says of each of the actions from [n] to [m]. *)
Definition logged {M} (per : WorkflowAction → list M → Prop) (l : WorkflowActionList)
    (before : list M) (n m : nat) (log : list M) : Prop :=
  ∃ parts, Forall2 per (take (m - n) (drop n l)) parts ∧ log = before ++ mjoin parts.

Lemma logged_none {M} (per : WorkflowAction → list M → Prop) l before n : logged per l before n n before.
Proof. exists []. rewrite Nat.sub_diag, take_0. split; [constructor|]. by rewrite app_nil_r. Qed.
Lemma logged_snoc {M} (per : WorkflowAction → list M → Prop) l before n m log a new :
  (n ≤ m)%nat → l !! m = Some a → per a new → logged per l before n m log →
  logged per l before n (S m) (log ++ new).
Proof.
  intros Hle Ha Hof (parts & Hp & ->). exists (parts ++ [new]).
  replace (S m - n)%nat with (S (m - n)) by lia.
  rewrite (take_S_r _ _ a) by (rewrite lookup_drop; by replace (n + (m - n))%nat with m by lia).
  split; [apply Forall2_app; [done|by repeat constructor]|].
  rewrite join_app. simpl. by rewrite app_nil_r, (assoc_L (++)).
Qed.

Lemma recorded_Ret {S M A} (note : outcome A → list M) (c : go S A) s log a s' :
  c s = (Ret a, s') → recorded note c (s, log) = (Ret a, (s', log ++ note (Ret a))).
Proof. intros Hc. unfold recorded. by rewrite Hc. Qed.

(** A service that keeps the contract keeps it when it is recorded, with the log of what
    it accepted from action [n0] on. *)
Section recording_contract.
Context {S : Type} `{SV : WorkflowService S} {id : string} {l : WorkflowActionList}.
Context (WC : WorkflowContract S id l) (n0 : nat) (log0 : list WorkflowActionStatus).

Definition rec_at (P : nat → S → Prop) (d : nat) (n : nat) (s : S * list WorkflowActionStatus) : Prop :=
  P n s.1 ∧ (n0 ≤ n)%nat ∧ logged (reports_of id) l log0 n0 (d + n) s.2.
Definition rec_running (n : nat) (s : S * list WorkflowActionStatus) : Prop :=
  running n s.1 ∧ (n0 ≤ n)%nat ∧ ∃ a log, l !! n = Some a ∧
    logged (reports_of id) l log0 n0 n log ∧
    s.2 = log ++ [status_of id a State_STATE_RUNNING 0 msg_started].

Definition recording_contract :
  WorkflowContract (S * list WorkflowActionStatus) (H:=recording_service SV) id l.
Proof using All.
  refine {| ready := rec_at ready 0; running := rec_running; finished := rec_at finished 1;
            update_ok := update_ok |}.
  - abstract (intros n [s log] (Hr & Hn & Hl); simpl in *;
      destruct (ct_actions n s Hr) as (s' & Hc & Hr'); eexists;
      split; [by apply recorded_Ret|]; split; [done|]; split; [done|]; by rewrite app_nil_r).
  - abstract (intros n a [s log] Ha (Hr & Hn & Hl); simpl in *;
      destruct (ct_run n a s Ha Hr) as (s' & Hc & Hr'); eexists;
      split; [by apply recorded_Ret|]; split; [done|]; split; [done|]; by exists a, log).
  - abstract (intros n [s log] (Hr & Hn & a & log' & Ha & Hl & Hlog); simpl in *;
      destruct (ct_get n s Hr) as (r & s' & Hc & Hr'); eexists r, _;
      split; [by apply recorded_Ret|]; split; [done|]; split; [done|];
      exists a, log'; by rewrite app_nil_r).
  - abstract (intros n a [s log] sec Ha Hsec (Hr & Hn & a' & log' & Ha' & Hl & Hlog); simpl in *;
      destruct (ct_finish n a s sec Ha Hsec Hr) as (s' & Hc & Hr'); eexists;
      split; [by apply recorded_Ret|]; split; [done|]; split; [done|]; simpl;
      rewrite Ha in Ha'; injection Ha' as <-; rewrite Hlog, <- (assoc_L (++));
      eapply logged_snoc; [done|done|by exists sec|done]).
  - abstract (intros n [s log] req Hlt Hid Hok (Hr & Hn & Hl); simpl in *;
      destruct (ct_update n s req Hlt Hid Hok Hr) as (s' & Hc & Hr'); eexists;
      split; [by apply recorded_Ret|]; split; [done|]; split; [simpl; lia|]; by rewrite app_nil_r).
  - abstract (intros n [s log] (Hr & Hn & Hl); split; [by apply ct_skip|]; split; [lia|done]).
Defined.
End recording_contract.

(** The containers of an action, when each call of the manager does its part. *)
Section recording_run.
#[local] Set Default Proof Using "Type*".
Context {S C : Type} `{SV : WorkflowService S} `{CM : ContainerManager C} `{WE : WorkerEnv}.
Context (w : Worker) (Hcm : cm_cooperative C).
#[local] Instance the_recording_manager : ContainerManager (C * list cm_event) := recording_manager CM.
Abbreviation W := (World S (C * list cm_event)).

Lemma noted_ok {A} (note : outcome A → cm_event) (c : go (FS * C) A) (P : A → Prop) (k : W) :
  cm_call c P →
  ∃ a k', cm (noted note c) k = (Ret a, k') ∧ P a ∧ calm k k' ∧
    (k_host k').2.2 = (k_host k).2.2 ++ [note (Ret a)].
Proof.
  intros Hc. destruct k as [srv up [fs [d log]] sha t].
  destruct (Hc (fs, d)) as (a & [fs' d'] & Hrun & HP & Hd).
  eexists a, _. unfold cm, go_zoom, noted. simpl. rewrite Hrun. split; [done|]. split; [done|].
  split; [|done]. unfold calm. simpl in *. auto with lia.
Qed.

Lemma execute_recorded wfID a (k : W) :
  ∃ k' new, execute w wfID a k = (Ret (State_STATE_SUCCESS, None), k') ∧ calm k k' ∧
    containers_of w wfID a new ∧ (k_host k').2.2 = (k_host k).2.2 ++ new.
Proof.
  unfold execute. cbn [cm_PullImage cm_CreateContainer cm_StartContainer cm_WaitForContainer
    cm_RemoveContainer the_recording_manager recording_manager].
  destruct (noted_ok (λ _, EPull (wa_Image a)) _ _ k (cmc_pull _ Hcm (wa_Image a)))
    as (e & k1 & H1 & -> & S1 & L1).
  rewrite (go_bind_Ret _ _ _ _ _ H1).
  edestruct (noted_ok (λ o, ECreate (wa_Command a) wfID a (w_captureLogs w) (w_createPrivileged w)
      (match o with Ret (id, _) => id | _ => "" end)) _ _ k1
    (cmc_create _ Hcm (wa_Command a) wfID a (w_captureLogs w) (w_createPrivileged w)))
    as ([id e] & k2 & H2 & He & S2 & L2). simpl in He. subst e.
  rewrite (go_bind_Ret _ _ _ _ _ H2). cbn zeta iota beta.
  set (tc := Some (if decide (0 < wa_Timeout a) then _ else _)).
  destruct (noted_ok (λ _, EStart tc id) _ _ k2 (cmc_start _ Hcm tc id)) as (e & k3 & H3 & -> & S3 & L3).
  rewrite (go_bind_Ret _ _ _ _ _ H3).
  destruct (noted_ok (λ _, EWait tc id) _ _ k3 (cmc_wait _ Hcm tc id)) as (r & k4 & H4 & -> & S4 & L4).
  rewrite (go_bind_Ret _ _ _ _ _ H4). unfold go_defer. rewrite decide_True by done. simpl.
  destruct (noted_ok (λ _, ERemove id) _ _ k4 (cmc_remove _ Hcm id)) as (r & k5 & H5 & _ & S5 & L5).
  unfold go_bind. rewrite H5. simpl. exists k5. eexists. split; [done|].
  split; [eapply calm_trans; [|exact S5]; eauto using calm_trans|]. split; [exists id; reflexivity|].
  rewrite L5, L4, L3, L2, L1, <- !(assoc_L (++)). done.
Qed.
End recording_run.

(** ** Runs *)
Section runs.
#[local] Set Default Proof Using "Type*".
Context {S C : Type} `{SV : WorkflowService S} `{CM : ContainerManager C} `{WE : WorkerEnv}.

(** The run of a worker from its turn to the next hand-off; [ran n] is what the caller
    knows of the containers when the actions before [n] have been run. *)
Lemma runs_with w id l `{!WorkflowContract S id l} c n (ran : nat → C → Prop) (k : World S C) :
  env_quiet → 1 ≤ w_retries w →
  (∀ n a (k : World S C), l !! n = Some a → ran n (k_host k).2 →
     ∃ k', execute w id a k = (Ret (State_STATE_SUCCESS, None), k') ∧ calm k k' ∧
       ran (Datatypes.S n) (k_host k').2) →
  (∀ data m t, json_map data = true → marshal_metadata m = Ok t →
     update_ok {| ud_WorkflowId := id; ud_Metadata := t; ud_Data := data |}) →
  wc_WorkflowId c = id → wc_CurrentActionState c ≠ State_STATE_RUNNING →
  (∀ k : World S C, choose_action w c l k = (Ret (Some (Z.of_nat n)), k)) →
  (n < length l)%nat → k_up k = true → fs_files (k_host k).1 !! wf_dir w id = None →
  ready n (k_srv k) → ran n (k_host k).2 →
  ∃ m k', process_context w c k = (Ret None, k') ∧
    (ready m (k_srv k') ∧ ran m (k_host k').2) ∧ (n < m ≤ length l)%nat ∧
    (∀ j a, (n < j < m)%nat → l !! j = Some a → wa_WorkerId a = w_workerID w) ∧
    (∀ a, l !! m = Some a → wa_WorkerId a ≠ w_workerID w).
Proof.
  intros Hq Hret Hexec Hupd Hid Hst Hturn Hn Hup Hfile Hready Hran.
  unfold process_context. rewrite Hid.
  destruct (ct_actions n _ Hready) as (s1 & R1 & Hready1).
  destruct (rpc_ok Hq _ k _ _ Hup R1) as (k1 & H1 & (Hs1 & Hu1 & _) & Hc1).
  assert (fs_files (k_host k1).1 !! wf_dir w id = None) as Hfile1.
  { revert H1. unfold rpc, go_bind, tick, go_get, go_modify, go_ret. simpl. rewrite Hup, (eq_net Hq).
    simpl. rewrite R1. simpl. by intros [= <-]. }
  rewrite (go_bind_Ret _ _ _ _ _ H1), (go_bind_Ret _ _ _ _ _ (Hturn k1)).
  destruct (prepare_ok w Hq Hret Hupd c Hid Hst ran Hexec (wf_dir w id) k1)
    as (k2 & H2 & Hs2 & Hu2 & Hd2 & Hc2); [congruence|done|].
  rewrite (go_bind_Ret _ _ _ _ _ H2), Nat2Z.id.
  apply (run_actions_ok w Hq Hret Hupd c Hid Hst ran Hexec n k2 Hn); [done|congruence|congruence].
Qed.

(** The same for clients that only look at the server. *)
Lemma runs_until_handoff w id l `{!WorkflowContract S id l} c n (k : World S C) :
  env_quiet → cm_cooperative C → 1 ≤ w_retries w →
  (∀ data m t, json_map data = true → marshal_metadata m = Ok t →
     update_ok {| ud_WorkflowId := id; ud_Metadata := t; ud_Data := data |}) →
  wc_WorkflowId c = id → wc_CurrentActionState c ≠ State_STATE_RUNNING →
  (∀ k : World S C, choose_action w c l k = (Ret (Some (Z.of_nat n)), k)) →
  (n < length l)%nat → k_up k = true → fs_files (k_host k).1 !! wf_dir w id = None →
  ready n (k_srv k) →
  ∃ m k', process_context w c k = (Ret None, k') ∧ ready m (k_srv k') ∧
    (n < m ≤ length l)%nat ∧
    (∀ j a, (n < j < m)%nat → l !! j = Some a → wa_WorkerId a = w_workerID w) ∧
    (∀ a, l !! m = Some a → wa_WorkerId a ≠ w_workerID w).
Proof.
  intros Hq Hcm Hret Hupd Hid Hst Hturn Hn Hup Hfile Hready.
  destruct (runs_with w id l c n (λ _ _, True) k Hq Hret) as (m & k' & Hrun & [Hr _] & Hrest);
    [|done..|by exists m, k'].
  intros n' a k0 _ _. destruct (execute_ok w Hq Hret Hcm id a k0) as (k1 & ? & ?). eauto.
Qed.

End runs.

(** ** Properties *)
Section properties.
#[local] Set Default Proof Using "Type*".
Context {S C : Type} `{SV : WorkflowService S} `{CM : ContainerManager C} `{WE : WorkerEnv}.

(** C12 A worker whose turn it is at action [n] of a workflow (the context it received does
    not say that the current action is running, and the server is ready for action [n]),
    against any service that keeps the contract, without faults and with containers that
    succeed, runs that action and the ones after it up to the first action of another
    worker or the end of the workflow, and then goes on polling. For each of these
    actions and for no other, in order, it pulls the image, creates the container for the
    action's command, starts it and waits for it with the action's timeout (an hour when
    there is none), and removes it; and the reports that the service accepts are exactly,
    for each of them in order, one that it runs and one that it has succeeded. *)
Theorem worker_runs_until_handoff w id l `{WC : !WorkflowContract S id l} c n
    (k : World (S * list WorkflowActionStatus) (C * list cm_event)) :
  env_quiet → cm_cooperative C → 1 ≤ w_retries w →
  (∀ data m t, json_map data = true → marshal_metadata m = Ok t →
     update_ok {| ud_WorkflowId := id; ud_Metadata := t; ud_Data := data |}) →
  wc_WorkflowId c = id → wc_CurrentActionState c ≠ State_STATE_RUNNING →
  (∀ k : World (S * list WorkflowActionStatus) (C * list cm_event),
     choose_action w c l k = (Ret (Some (Z.of_nat n)), k)) →
  (n < length l)%nat → k_up k = true → fs_files (k_host k).1 !! wf_dir w id = None →
  ready n (k_srv k).1 →
  ∃ m k', process_context (SV:=recording_service SV) (CM:=recording_manager CM) w c k = (Ret None, k') ∧
    ready m (k_srv k').1 ∧ (n < m ≤ length l)%nat ∧
    (∀ j a, (n < j < m)%nat → l !! j = Some a → wa_WorkerId a = w_workerID w) ∧
    (∀ a, l !! m = Some a → wa_WorkerId a ≠ w_workerID w) ∧
    logged (reports_of id) l (k_srv k).2 n m (k_srv k').2 ∧
    logged (containers_of w id) l (k_host k).2.2 n m (k_host k').2.2.
Proof.
  intros Hq Hcm Hret Hupd Hid Hst Hturn Hn Hup Hfile Hready.
  pose (WC' := recording_contract WC n (k_srv k).2).
  destruct (runs_with (SV:=recording_service SV) (CM:=recording_manager CM) w id l
    (WorkflowContract0:=WC') c n
    (λ m d, (n ≤ m)%nat ∧ logged (containers_of w id) l (k_host k).2.2 n m d.2) k Hq Hret)
    as (m & k' & Hrun & [(Hr & _ & Hlog) [_ Hran]] & Hm & Hown & Hother); try done.
  - intros n' a k0 Ha [Hle Hl]. destruct (execute_recorded (SV:=recording_service SV) w Hcm id a k0)
      as (k1 & new & H1 & S1 & Hof & L1).
    exists k1. split; [done|]. split; [done|]. split; [lia|]. rewrite L1. by eapply logged_snoc.
  - split; [done|]. split; [done|]. apply logged_none.
  - split; [done|]. apply logged_none.
  - exists m, k'. do 5 (split; [done|]). split; [exact Hlog|exact Hran].
Qed.

(** Fetching the data of a workflow does not replace the data file: when the
    file is longer than the data, its tail stays behind the new content, while
    the checksum remembered is that of the data alone. *)
Theorem fetched_data_keeps_tail w wfID data ver s' (k : World S C) :
  env_quiet → k_up k = true → wf_dir w wfID ∈ fs_dirs (k_host k).1 → data ≠ "" →
  svc_GetWorkflowData {| gd_WorkflowId := wfID; gd_Version := 0 |} (k_srv k) =
    (Ret ({| gr_Data := data; gr_Version := ver |}, None), s') →
  let old := default "" (fs_files (k_host k).1 !! data_path (wf_dir w wfID)) in
  ∃ k', getWorkflowData w wfID k = (Ret tt, k') ∧
    fs_files (k_host k').1 !! data_path (wf_dir w wfID) =
      Some (data +:+ String.substring (String.length data)
                       (String.length old - String.length data) old) ∧
    k_sha k' !! wfID = Some (checksum data).
Proof.
  intros Hq Hup Hd Hne Hget old. unfold getWorkflowData, rpc, go_bind, tick, go_get, go_modify.
  simpl. rewrite Hup, (eq_net Hq). simpl. rewrite Hget. simpl. rewrite decide_False by done.
  unfold openDataFile, os_call, get_fs, go_bind, tick, go_get, go_ret. simpl.
  rewrite (eq_os Hq), decide_False by (simpl; tauto). unfold write_data, os_call, go_bind, tick.
  simpl. rewrite (eq_os Hq). unfold get_fs, go_bind, go_get, put_file, go_modify, go_ret. simpl.
  eexists. split; [done|]. simpl. rewrite !lookup_insert_eq. split; [|done].
  simpl. f_equal. apply overwrite_spec.
Qed.
End properties.

(** ** Witnesses *)

(** A service that counts the reports it has taken, has the given actions, and
    the given data. *)
Definition count_service (l : WorkflowActionList) (data : string) : WorkflowService nat :=
  {| svc_GetWorkflowContexts _ _ := go_ret None; svc_GetWorkflowActions _ := go_ret (Ok l);
     svc_ReportActionStatus _ := λ n, (Ret None, S n);
     svc_GetWorkflowData _ := go_ret ({| gr_Data := data; gr_Version := 0 |}, None);
     svc_GetWorkflowMetadata _ := go_ret ({| gr_Data := ""; gr_Version := 0 |}, None);
     svc_UpdateWorkflowData _ := go_ret None |}.
Definition count_contract (l : WorkflowActionList) : WorkflowContract nat (H:=count_service l "") "wf" l.
Proof.
  refine {| ready n s := s = (2 * n)%nat; running n s := s = S (2 * n)%nat;
            finished n s := s = (2 * S n)%nat; update_ok _ := True |}; simpl;
    intros; subst; try (eexists _, _; done); try (eexists; split; [done|lia]); lia.
Defined.

(** Containers that do nothing and succeed. *)
#[local] Instance trivial_manager : ContainerManager unit :=
  {| cm_CreateContainer _ _ _ _ _ := go_ret ("c", None); cm_StartContainer _ _ := go_ret None;
     cm_WaitForContainer _ _ := go_ret (State_STATE_SUCCESS, None);
     cm_WaitForFailedContainer _ _ := go_ret State_STATE_SUCCESS;
     cm_RemoveContainer _ := go_ret None; cm_PullImage _ := go_ret None |}.
#[local] Existing Instance quiet_env.

Lemma trivial_cooperative : cm_cooperative unit.
Proof. split; intros; intros h; by eexists _, _. Qed.
Lemma quiet_env_quiet : env_quiet.
Proof.
  split; [done|done|intros m; eexists; reflexivity|]. intros n m _. vm_compute. by split.
Qed.

Definition action_for (name worker : string) : WorkflowAction :=
  {| wa_TaskName := "t"; wa_Name := name; wa_Image := "img"; wa_Timeout := 5; wa_Command := [];
     wa_OnTimeout := []; wa_OnFailure := []; wa_WorkerId := worker; wa_Volumes := [];
     wa_Environment := []; wa_Pid := "" |}.
Definition shared_actions : WorkflowActionList :=
  [action_for "a" "w"; action_for "b" "w"; action_for "c" "w2"].
Definition fresh_context : WorkflowContext :=
  {| wc_WorkflowId := "wf"; wc_CurrentWorker := ""; wc_CurrentTask := ""; wc_CurrentAction := "";
     wc_CurrentActionIndex := 0; wc_CurrentActionState := State_STATE_PENDING;
     wc_TotalNumberOfActions := 3 |}.

(** Two actions of the worker and one of another: the reports and containers of two. *)
Lemma worker_runs_until_handoff_witness :
  ∃ m k', process_context (SV:=recording_service (count_service shared_actions ""))
      (CM:=recording_manager trivial_manager) (NewWorker "w" []) fresh_context
      (quiet_world (0%nat, []) (tt, [])) = (Ret None, k') ∧ (0 < m ≤ 3)%nat ∧
    (∀ a, shared_actions !! m = Some a → wa_WorkerId a ≠ "w") ∧
    logged (reports_of "wf") shared_actions [] 0 m (k_srv k').2 ∧
    logged (containers_of (NewWorker "w" []) "wf") shared_actions [] 0 m (k_host k').2.2.
Proof.
  destruct (worker_runs_until_handoff (SV:=count_service shared_actions "") (NewWorker "w" []) "wf"
    shared_actions (WC:=count_contract shared_actions) fresh_context 0
    (quiet_world (0%nat, []) (tt, [])) quiet_env_quiet trivial_cooperative)
    as (m & k' & Hrun & _ & Hm & _ & Ho & Hl1 & Hl2);
    [done|done|done|done|reflexivity|simpl; lia|reflexivity|reflexivity|reflexivity|].
  exists m, k'. split; [exact Hrun|]. split; [exact Hm|]. split; [exact Ho|].
  split; [exact Hl1|exact Hl2].
Defined.

(** The file holds a longer text than the data fetched. *)
Definition old_file_world : World nat unit :=
  {| k_srv := 0%nat; k_up := true;
     k_host := ({| fs_dirs := {[ "/worker/wf" ]}; fs_files := {[ "/worker/wf/data" := "abcdef" ]} |}, tt);
     k_sha := ∅; k_tick := 0 |}.
Lemma fetched_data_keeps_tail_witness :
  ∃ k', getWorkflowData (SV:=count_service [] "{}") (NewWorker "w" []) "wf" old_file_world =
      (Ret tt, k') ∧
    fs_files (k_host k').1 !! "/worker/wf/data" = Some "{}cdef".
Proof.
  destruct (fetched_data_keeps_tail (SV:=count_service [] "{}") (NewWorker "w" []) "wf" "{}" 0 0%nat
    old_file_world quiet_env_quiet) as (k' & Hrun & Hfile & _);
    [reflexivity|by vm_compute|done|reflexivity|].
  exists k'. split; [exact Hrun|exact Hfile].
Defined.
