(* ===== verification/K8sWorker.v ===== *)
(** * K8sWorker: the worker, the controller and the server on one cluster

    The Kubernetes-backed server keeps the contract of the worker for workflows
    of one task, and a workflow resource is taken from its creation to its end by
    one reconciliation and one poll of its worker. *)
From S2P Require Import Prelude Proto Template Crd Progress Convert Kube Service K8sServer Controller K8sSystem.
From S2P Require Import Worker Docker WorkerRun.
From stdpp Require Import options.

(** ** The part of a task that reports leave alone *)
Definition plain (a : Action) : Action := set_status "" (set_started None (set_seconds 0 a)).
Definition plain_task (t : Task) : Task := set_actions (plain <$> tk_Actions t) t.
Definition plain_tasks (wf : Workflow) : list Task := plain_task <$> st_Tasks (wf_Status wf).

Lemma plain_reported s f a : reported s f → plain (f a) = plain a.
Proof. intros H. destruct (H a) as (t & n & -> & _). done. Qed.

Lemma plain_upd_action f ti ai w :
  (∀ a, plain (f a) = plain a) → plain_tasks (upd_action f ti ai w) = plain_tasks w.
Proof.
  intros Hf. unfold plain_tasks, upd_action, alter_action. simpl. apply fmap_alter_same.
  intros t. unfold plain_task, set_actions. simpl. by rewrite fmap_alter_same.
Qed.

Lemma plain_stored w base :
  plain_tasks (set_wf_status (stored_status (wf_Status w)) base) = plain_tasks w.
Proof.
  unfold plain_tasks. simpl. rewrite <- list_fmap_compose. apply list_fmap_ext. intros _ t _.
  unfold compose, plain_task, set_actions. simpl. f_equal. rewrite <- list_fmap_compose.
  by apply list_fmap_ext.
Qed.

Lemma plain_shape wf t :
  plain_tasks wf = [plain_task t] → shape wf = [(tk_Name t, ac_Name <$> tk_Actions t)].
Proof.
  intros H. assert (task_shape <$> plain_tasks wf = [task_shape t]) as Hs.
  { rewrite H. unfold task_shape, plain_task. csimpl. by rewrite <- list_fmap_compose. }
  unfold plain_tasks in Hs. rewrite <- list_fmap_compose in Hs. unfold shape.
  change [(tk_Name t, ac_Name <$> tk_Actions t)] with [task_shape t]. rewrite <- Hs.
  apply list_fmap_ext. intros _ t' _. unfold compose, task_shape, plain_task. simpl.
  by rewrite <- list_fmap_compose.
Qed.

(** The messages of the actions are made of that part. *)
Lemma task_to_proto_plain `{MapRange} t :
  task_to_proto (deepcopy_cap t) t = task_to_proto (deepcopy_cap t) (plain_task t).
Proof.
  unfold task_to_proto. simpl. rewrite <- !list_fmap_compose. by apply list_fmap_ext.
Qed.

Lemma plain_actions `{MapRange} wf t :
  plain_tasks wf = [plain_task t] →
  default [] (WorkflowActionListCRDToProto deepcopy_cap (Some wf)) = task_to_proto (deepcopy_cap t) t.
Proof.
  unfold plain_tasks. simpl. destruct (st_Tasks (wf_Status wf)) as [|t' [|? ?]]; csimpl; [done| |done].
  intros Heq. assert (plain_task t' = plain_task t) as Hp by congruence.
  rewrite app_nil_r, (task_to_proto_plain t'), (task_to_proto_plain t), Hp.
  f_equal. by apply (f_equal deepcopy_cap) in Hp.
Qed.

Lemma task_message `{MapRange} t n a :
  task_to_proto (deepcopy_cap t) t !! n = Some a →
  wa_TaskName a = tk_Name t ∧ wa_WorkerId a = tk_WorkerAddr t ∧
  (ac_Name <$> tk_Actions t) !! n = Some (wa_Name a).
Proof.
  unfold task_to_proto. rewrite !list_lookup_fmap.
  destruct (tk_Actions t !! n); intros [= <-]. done.
Qed.
Lemma length_task_to_proto `{MapRange} c t : length (task_to_proto c t) = length (tk_Actions t).
Proof. apply length_fmap. Qed.

(** ** The contract *)
Section contract.
#[local] Set Default Proof Using "Type*".
Context {W : Type} `{KL : KubeLaws W} `{MR : MapRange}.
Context (namespace id : string) (t : Task).
Context (Hrel : kube_reliable W) (Hid : id ≠ "") (Htn : tk_Name t ≠ "").
#[local] Abbreviation names := (ac_Name <$> tk_Actions t).
#[local] Abbreviation l := (task_to_proto (deepcopy_cap t) t).
Context (Hnames : Forall (.≠ "") names) (Hnd : NoDup names).
Context (Hlen : Z.of_nat (length names) < 2 ^ 63).
#[local] Instance the_k8s_service : WorkflowService W := k8s_service namespace.

(** The workflow is stored, made of the task, [n] of its actions have succeeded
    and those after [cur] are pending; at the end it has succeeded. *)
Definition k8s_at (n : nat) (cur : list WorkflowState) (w : W) : Prop :=
  ∃ wf, kworkflows w !! (namespace, id) = Some wf ∧ plain_tasks wf = [plain_task t] ∧
    (n + length cur ≤ length names)%nat ∧
    statuses wf = replicate n WorkflowStateSuccess ++ cur ++
                  replicate (length names - n - length cur) WorkflowStatePending ∧
    (n = length names → st_State (wf_Status wf) = WorkflowStateSuccess).

Lemma k8s_at_frame n cur w w' : same_cluster w w' → k8s_at n cur w → k8s_at n cur w'.
Proof. intros (Hw & _). unfold k8s_at. by rewrite Hw. Qed.

(** A report that is accepted keeps what is not progress. *)
Lemma report_plain req w w' wf wf' :
  K8sServer.ReportActionStatus namespace req w = (Ret None, w') →
  kworkflows w !! (namespace, ws_WorkflowId req) = Some wf →
  kworkflows w' !! (namespace, ws_WorkflowId req) = Some wf' → plain_tasks wf' = plain_tasks wf.
Proof.
  intros Hrun Hwf Hwf'. destruct (report_spec namespace req w) as (r & w1 & Hrun1 & _ & _ & Hr).
  rewrite Hrun in Hrun1. simplify_eq. destruct Hr as (wf0 & wf1 & H0 & _ & (_ & f & Hf & ->) & Hw).
  rewrite Hw, lookup_insert_eq in Hwf'. simplify_eq. rewrite plain_stored.
  apply (plain_upd_action f). intros a. by eapply plain_reported.
Qed.

Lemma k8s_report n a st sec msg s w cur :
  l !! n = Some a → k8s_at n cur w →
  cur ++ replicate (length names - n - length cur) WorkflowStatePending =
    s :: replicate (length names - n - 1) WorkflowStatePending →
  open_status s → known_state st → st ≠ State_STATE_PENDING →
  ∃ w' wf', K8sServer.ReportActionStatus namespace (status_of id a st sec msg) w = (Ret None, w') ∧
    kworkflows w' !! (namespace, id) = Some wf' ∧ plain_tasks wf' = [plain_task t] ∧
    statuses wf' = replicate n WorkflowStateSuccess ++ state_name_of st ::
                   replicate (length names - n - 1) WorkflowStatePending ∧
    (S n = length names → st_State (wf_Status wf') = state_name_of st).
Proof.
  intros Ha (wf & Hwf & Hp & _ & Hst & _) Hcur Ho Hk Hnp. rewrite Hcur in Hst.
  pose proof (task_message t n a Ha) as (Htask & _ & Hname).
  destruct (stage_report namespace id (tk_Name t) names Hrel Hid Htn Hnames Hnd Hlen
    (status_of id a st sec msg) w n s (length names - n - 1) (st_State (wf_Status wf)))
    as (w' & wf' & Hrun & Hwf' & _ & Hst' & Hs'); [|done..|].
  { exists wf. split_and!; [done| |done|done]. by apply plain_shape. }
  exists w', wf'. split_and!; [done|done| |done|].
  - rewrite <- Hp. by eapply (report_plain (status_of id a st sec msg)).
  - intros Hl. rewrite Hs'. simpl. rewrite decide_False; [done|]. by intros [_ ?].
Qed.

Lemma k8s_ct_actions n w : k8s_at n [] w →
  ∃ w', svc_GetWorkflowActions id w = (Ret (Ok l), w') ∧ k8s_at n [] w'.
Proof.
  intros Hat. pose proof Hat as (wf & Hwf & Hp & _). simpl.
  unfold K8sServer.GetWorkflowActions, getWorkflowByName. rewrite decide_False by done.
  destruct (reconcile_get namespace id w wf Hrel Hwf) as (w' & Hg & Hs & _).
  rewrite (go_try_Ret _ _ _ _ _ _ Hg), (plain_actions wf t) by done. exists w'.
  split; [done|]. by apply (k8s_at_frame _ _ w).
Qed.

Lemma k8s_ct_run n a w : l !! n = Some a → k8s_at n [] w →
  ∃ w', svc_ReportActionStatus (status_of id a State_STATE_RUNNING 0 msg_started) w =
    (Ret None, w') ∧ k8s_at n [WorkflowStateRunning] w'.
Proof.
  intros Ha Hat. pose proof (lookup_lt_Some _ _ _ Ha) as Hlt.
  rewrite length_task_to_proto, <- (length_fmap ac_Name) in Hlt.
  destruct (k8s_report n a State_STATE_RUNNING 0 msg_started WorkflowStatePending w [])
    as (w' & wf' & Hrun & Hwf' & Hp' & Hst' & _); [done|done| |by left|..].
  - simpl. rewrite Nat.sub_0_r. destruct (length names - n)%nat eqn:E; [lia|]. simpl. by rewrite Nat.sub_0_r.
  - by apply (bool_decide_unpack _).
  - done.
  - exists w'. split; [done|]. exists wf'. split_and!; [done|done|simpl; lia|done|lia].
Qed.

Lemma k8s_ct_finish n a w sec : l !! n = Some a → 0 ≤ sec < 2 ^ 31 →
  k8s_at n [WorkflowStateRunning] w →
  ∃ w', svc_ReportActionStatus (status_of id a State_STATE_SUCCESS sec msg_finished) w =
    (Ret None, w') ∧ k8s_at (S n) [] w'.
Proof.
  intros Ha _ Hat. pose proof (lookup_lt_Some _ _ _ Ha) as Hlt.
  rewrite length_task_to_proto, <- (length_fmap ac_Name) in Hlt.
  destruct (k8s_report n a State_STATE_SUCCESS sec msg_finished WorkflowStateRunning w
    [WorkflowStateRunning]) as (w' & wf' & Hrun & Hwf' & Hp' & Hst' & Hs');
    [done|done|done|by right; left|by apply (bool_decide_unpack _)|done|].
  exists w'. split; [done|]. exists wf'. split_and!; [done|done|simpl; lia| |done].
  rewrite Hst'. change (state_name_of State_STATE_SUCCESS) with WorkflowStateSuccess.
  rewrite replicate_S_end, <- (assoc_L (++)). simpl. do 3 f_equal. lia.
Qed.

Definition k8s_contract : WorkflowContract W id l :=
  {| ready n := k8s_at n []; running n := k8s_at n [WorkflowStateRunning];
     finished n := k8s_at (S n) []; update_ok _ := True;
     ct_actions := k8s_ct_actions; ct_run := k8s_ct_run;
     ct_get n s Hs := ex_intro _ _ (ex_intro _ s (conj eq_refl Hs));
     ct_finish := k8s_ct_finish;
     ct_update n s req _ _ _ Hs := ex_intro _ s (conj eq_refl Hs);
     ct_skip n s Hs := Hs |}.
End contract.

(** ** One poll of the worker *)
Section poll.
#[local] Set Default Proof Using "Type*".
Context {W C : Type} `{KL : KubeLaws W} `{MR : MapRange} `{CM : ContainerManager C} `{WE : WorkerEnv}.
Context (namespace : string).
#[local] Instance poll_service : WorkflowService W := k8s_service namespace.

(** The context of a workflow that waits for its action [n]. *)
Lemma waiting_context wf t n m :
  plain_tasks wf = [plain_task t] →
  statuses wf = replicate n WorkflowStateSuccess ++ replicate (S m) WorkflowStatePending →
  wc_CurrentActionIndex (getWorkflowContext wf) = Z.of_nat n ∧
  wc_CurrentActionState (getWorkflowContext wf) = State_STATE_PENDING ∧
  (ac_Name <$> tk_Actions t) !! n = Some (wc_CurrentAction (getWorkflowContext wf)).
Proof.
  intros Hp Hst.
  destruct (single_task_current wf (tk_Name t) (ac_Name <$> tk_Actions t) n WorkflowStatePending
    (replicate m WorkflowStatePending)) as (x & Hc & Hai & _ & Hn);
    [by apply plain_shape|done|by left|].
  assert (statuses_known wf) as Hk.
  { apply statuses_known_statuses. rewrite Hst. apply Forall_app.
    split; apply Forall_replicate; [by left|by right; left]. }
  simpl. unfold GetCurrentAction, GetCurrentActionState.
  rewrite (current_index wf n x Hk Hc), getTaskActionInfo_current, Hc. simpl. split_and!; [done| |done].
  pose proof (current_slot_lookup _ _ _ Hc) as Hx.
  assert (statuses wf !! n = Some (ac_Status (sl_action x))) as Hs.
  { by rewrite statuses_slots, list_lookup_fmap, Hx. }
  rewrite Hst, lookup_app_r, length_replicate, Nat.sub_diag in Hs by by rewrite length_replicate.
  simpl in Hs. injection Hs as Hs. by rewrite <- Hs.
Qed.

Lemma run_waiting w id t wf n m (k : World W C) :
  kube_reliable W → env_quiet → cm_cooperative C → 1 ≤ w_retries w → id ≠ "" →
  tk_Name t ≠ "" → tk_WorkerAddr t = w_workerID w → Forall (.≠ "") (ac_Name <$> tk_Actions t) →
  NoDup (ac_Name <$> tk_Actions t) → Z.of_nat (length (tk_Actions t)) < 2 ^ 63 →
  kworkflows (k_srv k) !! (namespace, id) = Some wf → plain_tasks wf = [plain_task t] →
  statuses wf = replicate n WorkflowStateSuccess ++ replicate (S m) WorkflowStatePending →
  k_up k = true → fs_files (k_host k).1 !! wf_dir w id = None →
  ∃ k', process_context w (getWorkflowContext wf) k = (Ret None, k') ∧
    k8s_at namespace id t (length (tk_Actions t)) [] (k_srv k').
Proof.
  intros Hrel Hq Hcm Hret Hid Htn Hw Hnames Hnd Hlen Hwf Hp Hst Hup Hfile.
  destruct (waiting_context wf t n m Hp Hst) as (Hidx & Hstate & Hact).
  assert (length (ac_Name <$> tk_Actions t) = n + S m)%nat as Hnm.
  { rewrite <- (shape_length _ _ wf (plain_shape _ _ Hp)).
    rewrite <- (length_fmap (λ x, ac_Status (sl_action x))), <- statuses_slots, Hst.
    by rewrite length_app, !length_replicate. }
  rewrite <- (length_fmap ac_Name) in Hlen.
  pose (ct := k8s_contract namespace id t Hrel Hid Htn Hnames Hnd Hlen).
  assert (∀ j a, task_to_proto (deepcopy_cap t) t !! j = Some a → wa_WorkerId a = w_workerID w)
    as Hmine. { intros j a (_ & Hwk & _)%task_message. congruence. }
  destruct (runs_until_handoff w id _ (WorkflowContract0:=ct) (getWorkflowContext wf) n k)
    as (m' & k' & Hrun & Hready & Hm & _ & Hother); try done.
  - apply kworkflows_key in Hwf. unfold workflow_key in Hwf. simpl. congruence.
  - by rewrite Hstate.
  - intros k0. unfold choose_action.
    rewrite decide_False by exact (Forall_lookup_1 _ _ _ _ Hnames Hact). rewrite Hstate, !decide_False, Hidx by naive_solver. unfold go_index.
    rewrite zlookup_of_nat. destruct (task_to_proto _ t !! n) as [a|] eqn:Ha.
    + unfold go_bind, go_ret, my_turn. simpl. by rewrite decide_True by by eapply Hmine.
    + apply lookup_ge_None in Ha. rewrite length_task_to_proto in Ha. rewrite length_fmap in Hnm. lia.
  - rewrite length_task_to_proto. rewrite length_fmap in Hnm. lia.
  - exists wf. split_and!; [done|done|simpl; lia| |lia]. rewrite Hst. simpl.
    by replace (length (ac_Name <$> tk_Actions t) - n - 0)%nat with (S m) by lia.
  - exists k'. split; [done|]. rewrite length_task_to_proto in Hm.
    destruct (decide (m' = length (tk_Actions t))) as [->|Hne]; [done|]. exfalso.
    destruct (lookup_lt_is_Some_2 (task_to_proto (deepcopy_cap t) t) m') as [a Ha];
      [rewrite length_task_to_proto; lia|]. by apply (Hother a Ha), (Hmine m').
Qed.

(** The list of a cluster in which one workflow only is the worker's. *)
Lemma only_assigned (worker id : string) (wf : Workflow) (m : gmap key Workflow) :
  assigned namespace worker wf = true →
  (∀ x wf', m !! x = Some wf' → x ≠ (namespace, id) → assigned namespace worker wf' = false) →
  filter (λ wf, assigned namespace worker wf = true)
    (map_to_list (<[(namespace, id) := wf]> m)).*2 ≡ₚ [wf].
Proof.
  intros Hwf Hother. rewrite <- insert_delete_eq, map_to_list_insert by apply lookup_delete_eq.
  csimpl. rewrite filter_cons_True by done. rewrite (elem_of_nil_inv (filter _ _)); [done|].
  intros wf' [Hin ([x ?] & -> & Hx)%list_elem_of_fmap]%list_elem_of_filter. simpl in Hin.
  apply elem_of_map_to_list, lookup_delete_Some in Hx as [Hne Hx].
  by rewrite (Hother x) in Hin.
Qed.

(** The poll receives the context of that workflow. *)
Lemma poll_one w (id : string) (wf : Workflow) m (k : World W C) :
  env_quiet → (∀ n, stream_cut n = None) → w_workerID w ≠ "" → k_up k = true →
  (∀ e w', klist_workflows namespace WorkflowWorkerNonTerminalStateIndexFunc (w_workerID w)
     (k_srv k) ≠ (Ret (Err e), w')) →
  kworkflows (k_srv k) = <[(namespace, id) := wf]> m →
  assigned namespace (w_workerID w) wf = true →
  (∀ x wf', m !! x = Some wf' → x ≠ (namespace, id) →
     assigned namespace (w_workerID w) wf' = false) →
  ∃ k', GetWorkflowContexts_stream (w_workerID w) k = (Ret (Ok [getWorkflowContext wf]), k') ∧
    same_cluster (k_srv k) (k_srv k') ∧ k_up k' = true ∧ k_host k' = k_host k.
Proof.
  intros Hq Hcut Hw Hup Hlist Hm Has Hother.
  destruct (contexts_exact namespace (w_workerID w) (k_srv k) Hw) as (r & s' & sent & Hrun & Hs & Hr).
  destruct r as [e|]; [by destruct Hr as (_ & w1 & ?%Hlist)|].
  rewrite Hm, only_assigned in Hr by done. apply Permutation_singleton_r in Hr as ->.
  unfold GetWorkflowContexts_stream, go_bind, tick, go_get, go_modify, go_ret. simpl.
  rewrite Hup, (eq_net Hq), Hrun, Hcut. simpl. by eexists.
Qed.
End poll.

(** ** The workflow made of a template *)
Definition fresh (y : YWorkflow) (stored : Workflow) : Workflow :=
  set_wf_status (stored_status
    {| st_State := WorkflowStatePending; st_GlobalTimeout := yw_GlobalTimeout y;
       st_Tasks := task_of_yaml <$> yw_Tasks y |}) stored.

Lemma fresh_plain y stored task :
  yw_Tasks y = [task] → plain_tasks (fresh y stored) = [plain_task (task_of_yaml task)].
Proof.
  intros Ht. unfold plain_tasks, fresh. simpl. rewrite Ht. unfold plain_task, set_actions. simpl.
  do 2 f_equal. rewrite <- !list_fmap_compose. by apply list_fmap_ext.
Qed.

Lemma fresh_statuses y stored task :
  yw_Tasks y = [task] →
  statuses (fresh y stored) = replicate (length (yt_Actions task)) WorkflowStatePending.
Proof.
  intros Ht. unfold statuses, fresh. simpl. rewrite tasks_statuses_stored, Ht.
  symmetry. apply replicate_as_Forall_2; 
    [|eapply Forall_impl; [apply (fresh_tasks_statuses [task])|]; by intros ? ->].
  unfold tasks_statuses, task_statuses. simpl. by rewrite app_nil_r, !length_fmap.
Qed.

Lemma fresh_assigned ns y stored task :
  yw_Tasks y = [task] → om_Namespace (wf_Meta stored) = ns →
  assigned ns (yt_WorkerAddr task) (fresh y stored) = true.
Proof.
  intros Ht Hns. destruct (task_index_in_range (fresh y stored)) as [t Hl].
  { unfold fresh. simpl. by rewrite Ht. }
  unfold assigned. rewrite !andb_true_iff, orb_true_iff, !bool_decide_eq_true.
  split_and!; [done|by right|]. rewrite Hl. simpl. f_equal. unfold fresh in Hl. simpl in Hl.
  rewrite Ht in Hl. apply zlookup_Some in Hl as [_ Hl]. simpl in Hl.
  apply list_lookup_singleton_Some in Hl as [_ <-]. done.
Qed.

(** ** Properties *)
Section properties.
#[local] Set Default Proof Using "Type*".
Context {W C : Type} `{KL : KubeLaws W} `{MR : MapRange} `{TE : TemplateEnv}.
Context `{CM : ContainerManager C} `{WE : WorkerEnv}.
Context (namespace : string).
#[local] Instance run_service : WorkflowService W := k8s_service namespace.

(** The world after a step of the cluster by someone else. *)
Definition on_cluster (c : W) (k : World W C) : World W C := set_srv c (k_up k) k.

(** C13 A workflow resource runs from its creation to its end. When the API, the
    network and the machine do not fail and the containers succeed, the template
    renders to one task with actions for the worker, and no other workflow is the
    worker's, then one reconciliation and one poll of the worker run all the
    actions: afterwards the workflow and each of its actions have succeeded. *)
Theorem k8s_provisions w id stored tpl hw y buf task (k : World W C) :
  kube_reliable W → env_quiet → (∀ n, stream_cut n = None) → cm_cooperative C →
  (∀ ns f v c e c', klist_workflows ns f v c ≠ (Ret (Err e), c')) →
  1 ≤ w_retries w → w_workerID w ≠ "" → id ≠ "" →
  kworkflows (k_srv k) !! (namespace, id) = Some stored →
  st_State (wf_Status stored) = "" → om_DeletionTimestamp (wf_Meta stored) = None →
  ktemplates (k_srv k) !! (namespace, sp_TemplateRef (wf_Spec stored)) = Some tpl →
  khardware (k_srv k) !! (namespace, sp_HardwareRef (wf_Spec stored)) = Some hw →
  RenderTemplateHardware id (default "" (tp_Data tpl))
    (<["Hardware" := VHardware (dk_Device <$> hs_Disks (hw_Spec hw))]>
       (VString <$> sp_HardwareMap (wf_Spec stored))) = Ok (y, buf) →
  yw_Tasks y = [task] → yt_WorkerAddr task = w_workerID w → yt_Actions task ≠ [] →
  Z.of_nat (length (yt_Actions task)) < 2 ^ 63 →
  (∀ x wf', kworkflows (k_srv k) !! x = Some wf' → x ≠ (namespace, id) →
     assigned namespace (w_workerID w) wf' = false) →
  k_up k = true → fs_files (k_host k).1 !! wf_dir w id = None →
  ∃ c k' wf', Reconcile namespace id (k_srv k) = (Ret (noResult, None), c) ∧
    ProcessWorkflowActions w 1 (on_cluster c k) = (Ret None, k') ∧
    kworkflows (k_srv k') !! (namespace, id) = Some wf' ∧
    statuses wf' = replicate (length (yt_Actions task)) WorkflowStateSuccess ∧
    st_State (wf_Status wf') = WorkflowStateSuccess.
Proof.
  intros Hrel Hq Hcut Hcm Hlist Hret Hwk Hid Hst Hnew Hdel Htpl Hhw Hren Htask Haddr Hne Hlen
    Hother Hup Hfile.
  pose proof (RenderTemplateHardware_ok _ _ _ _ _ Hren) as (_ & _ & _ & Hok & _).
  rewrite Htask, Forall_singleton in Hok. destruct Hok as ((Htn & _) & Hacts & Hnd).
  pose proof (kworkflows_key _ _ _ Hst) as Hkey. injection Hkey as Hns _.
  destruct (reconcile_new namespace id (k_srv k) stored tpl hw y buf) as (c & Hrec & Hc); try done.
  change (set_wf_status _ stored) with (fresh y stored) in Hc.
  destruct (poll_one namespace w id (fresh y stored) (kworkflows (k_srv k)) (on_cluster c k))
    as (k1 & H1 & (Hs1 & _) & Hup1 & Hh1); try done.
  { rewrite <- Haddr. by apply fresh_assigned. }
  destruct (run_waiting namespace w id (task_of_yaml task) (fresh y stored) 0
    (pred (length (yt_Actions task))) k1) as (k' & H2 & wf' & Hwf' & _ & _ & Hst' & Hs');
    try done; rewrite ?length_fmap; simpl; rewrite ?length_fmap; try done.
  { rewrite <- list_fmap_compose. apply Forall_fmap. eapply Forall_impl; [exact Hacts|].
    by intros a [[]]. }
  { by rewrite <- list_fmap_compose. }
  { rewrite Hs1. simpl. by rewrite Hc, lookup_insert_eq. }
  { by apply fresh_plain. }
  { rewrite (fresh_statuses _ _ task) by done. by destruct (yt_Actions task). }
  { by rewrite Hh1. }
  exists c, k', wf'. split; [done|]. split; [|split_and!; [done| |by apply Hs'; rewrite !length_fmap]].
  - simpl. rewrite (go_bind_Ret _ _ _ _ _ H1). unfold go_bind at 1. simpl.
    by rewrite (go_bind_Ret _ _ _ _ _ H2).
  - rewrite Hst'. simpl. rewrite !length_fmap. rewrite Nat.sub_diag. simpl. by rewrite app_nil_r.
Qed.
End properties.

(** ** Witnesses *)
#[local] Existing Instance mapRange_list.
#[local] Existing Instance quiet_env.
#[local] Existing Instance trivial_manager.
#[local] Existing Instance demo_env.

Definition demo_yaml_task : YTask :=
  default {| yt_Name := ""; yt_WorkerAddr := ""; yt_Actions := []; yt_Volumes := [];
             yt_Environment := ∅ |} (head (yw_Tasks demo_yaml)).

Lemma k8s_provisions_witness :
  ∃ c k' wf', Reconcile "default" "wf1" (demo_full "" []) = (Ret (noResult, None), c) ∧
    ProcessWorkflowActions (SV:=k8s_service "default") (NewWorker (yt_WorkerAddr demo_yaml_task) []) 1
      (on_cluster c (quiet_world (demo_full "" []) tt)) = (Ret None, k') ∧
    kworkflows (k_srv k') !! ("default", "wf1") = Some wf' ∧
    statuses wf' = replicate (length (yt_Actions demo_yaml_task)) WorkflowStateSuccess ∧
    st_State (wf_Status wf') = WorkflowStateSuccess.
Proof.
  apply (k8s_provisions "default" (NewWorker (yt_WorkerAddr demo_yaml_task) []) "wf1"
    (demo_workflow "" []) demo_template demo_hardware demo_yaml "" demo_yaml_task
    (quiet_world (demo_full "" []) tt) demo_reliable quiet_env_quiet); try done.
  - apply trivial_cooperative.
  - intros x wf' Hx Hne. change (({[ ("default", "wf1") := demo_workflow "" [] ]} : gmap key Workflow) !! x =
      Some wf') in Hx. by apply lookup_singleton_Some in Hx as [<- _].
Defined.
