(* ===== verification/LogCapture.v ===== *)
(** * LogCapture: the logs of the containers
    (src/cmd/tink-worker/worker/log_capturer.go,
    src/cmd/virtual-worker/worker/log_capturer.go)

    The logs of a container are copied line by line, with the scanner of [bufio]:
    it keeps an unfinished line in a buffer that does not grow beyond 64 KiB. *)
From S2P Require Import Prelude Json.
From stdpp Require Import options.

Definition newline : Ascii.ascii := Ascii.ascii_of_nat 10.
Definition MaxScanTokenSize : Z := 65536.

(** A carriage return at the end of a line is dropped. *)
Fixpoint dropCR (s : string) : string :=
  match s with
  | EmptyString => ""
  | String c EmptyString => if Ascii.eqb c (Ascii.ascii_of_nat 13) then "" else s
  | String c s' => String c (dropCR s')
  end.

(** The lines [scanner.Text()] goes through: [buf] holds the [n] bytes of the line
    that is being read. When the buffer is full the scanner stops; at the end of the
    stream what it holds is a line. *)
Fixpoint scan (buf : string) (n : Z) (s : string) : list string :=
  match s with
  | EmptyString => if decide (n = 0) then [] else [dropCR buf]
  | String c s' =>
      if Ascii.eqb c newline then dropCR buf :: scan "" 0 s'
      else if decide (n + 1 = MaxScanTokenSize) then []
      else scan (buf +:+ String c "") (n + 1) s'
  end.

(** [ContainerLogsOptions]. *)
Record LogsOptions := { lo_Stdout : bool; lo_Stderr : bool; lo_Follow : bool; lo_Timestamps : bool }.

Section capture.
(** [ContainerLogs]: the stream of a container, until it ends or breaks off. *)
Context (ContainerLogs : string → LogsOptions → result string).

(** What is written; an error is logged. *)
Definition CaptureLogs (id : string) : go string unit := λ out,
  match ContainerLogs id {| lo_Stdout := true; lo_Stderr := true; lo_Follow := true;
                            lo_Timestamps := false |} with
  | Err _ => (Ret tt, out)
  | Ok stream =>
      (Ret tt, foldl (λ out line, out +:+ line +:+ String newline "") out (scan "" 0 stream))
  end.
(** The capturer of virtual-worker. *)
Definition emptyLogger_CaptureLogs (id : string) : go string unit := go_ret tt.
End capture.

(** ** Lemmas *)

(** A line: no newline in it. *)
Definition one_line (s : string) : bool := all_chars (λ c, negb (Ascii.eqb c newline)) s.
Definition fits (s : string) : bool := bool_decide (strlen s < MaxScanTokenSize).
(** Lines as a stream. *)
Definition unlines (l : list string) : string :=
  foldr (λ line s, line +:+ String newline s) "" l.

Lemma strlen_cons c s : strlen (String c s) = strlen s + 1.
Proof. unfold strlen. simpl. lia. Qed.
Lemma strlen_pos s : 0 ≤ strlen s.
Proof. unfold strlen. lia. Qed.

Lemma scan_line line buf n s :
  one_line line = true → n + strlen line < MaxScanTokenSize →
  scan buf n (line +:+ s) = scan (buf +:+ line) (n + strlen line) s.
Proof.
  revert buf n. induction line as [|c line IH]; intros buf n Hl Hn.
  { rewrite string_app_nil. unfold strlen. simpl. by rewrite Z.add_0_r. }
  rewrite str_app_cons. cbn [scan]. unfold one_line in Hl. rewrite strlen_cons in *. simpl in Hl.
  apply andb_prop in Hl as [Hc Hl]. apply negb_true_iff in Hc. rewrite Hc.
  rewrite decide_False by (pose proof (strlen_pos line); lia). rewrite IH by (done || lia).
  rewrite str_app_assoc. f_equal; lia.
Qed.

Lemma scan_unlines l s :
  Forall (λ line, one_line line = true ∧ fits line = true) l →
  scan "" 0 (unlines l +:+ s) = (dropCR <$> l) ++ scan "" 0 s.
Proof.
  induction 1 as [|line l [H1 H2] _ IH]; [done|]. cbn [unlines foldr]. fold (unlines l).
  rewrite str_app_assoc, scan_line; [|done|by apply bool_decide_eq_true in H2].
  rewrite str_app_cons. cbn [scan]. change (Ascii.eqb newline newline) with true. cbn iota.
  simpl. by rewrite IH.
Qed.

(** A line that is too long. *)
Lemma scan_long line buf n s :
  one_line line = true → n < MaxScanTokenSize →
  MaxScanTokenSize ≤ n + strlen line → scan buf n (line +:+ s) = [].
Proof.
  revert buf n. induction line as [|c line IH]; intros buf n Hl Hn Hlen; [change (strlen "") with 0 in Hlen; lia|].
  rewrite str_app_cons. cbn [scan]. unfold one_line in Hl. rewrite strlen_cons in *. simpl in Hl.
  apply andb_prop in Hl as [Hc Hl]. apply negb_true_iff in Hc. rewrite Hc.
  case_decide; [done|]. apply IH; [done|lia|lia].
Qed.

(** Which logs are captured. Lines shorter than 64 KiB are copied, in order and
    without their carriage returns, and so is a last line without a newline; from the
    first line that is not shorter on, everything is dropped without an error. *)
Theorem logs_captured (logs : string → LogsOptions → result string) id out lines last rest :
  (∀ o, logs id o = Ok (unlines lines +:+ last +:+ rest)) →
  Forall (λ line, one_line line = true ∧ fits line = true) lines → one_line last = true →
  let copied := foldl (λ out line, out +:+ line +:+ String newline "") out (dropCR <$> lines) in
  (fits last = false → CaptureLogs logs id out = (Ret tt, copied)) ∧
  (fits last = true → rest = "" → last ≠ "" →
    CaptureLogs logs id out = (Ret tt, copied +:+ dropCR last +:+ String newline "")).
Proof.
  intros Hlogs Hlines Hlast copied. unfold CaptureLogs. rewrite Hlogs, scan_unlines by done.
  rewrite foldl_app. fold copied. split.
  - intros Hf. apply bool_decide_eq_false in Hf. rewrite scan_long; [done|done|unfold MaxScanTokenSize; lia|].
    unfold MaxScanTokenSize in *. lia.
  - intros Hf -> Hne. apply bool_decide_eq_true in Hf. rewrite scan_line by done. cbn [scan].
    rewrite decide_False; [done|]. destruct last as [|c l]; [done|].
    rewrite strlen_cons. pose proof (strlen_pos l). lia.
Qed.

(** ** Witness *)
Lemma logs_captured_witness :
  CaptureLogs (λ _ _, Ok (unlines ["one"; "two"] +:+ "end" +:+ "")) "id" "" =
    (Ret tt, unlines ["one"; "two"; "end"]).
Proof.
  apply (logs_captured (λ _ _, Ok (unlines ["one"; "two"] +:+ "end" +:+ "")) "id" "" ["one"; "two"] "end" "");
    [done|by repeat constructor|done|done|done|done].
Defined.
