(* ===== verification/Config.v ===== *)
(** * Config: flags, configuration files and environment of the programs
    (src/cmd/tink-server/main.go, src/cmd/tink-controller/main.go)

    The flags of a program are a list in the order of their names, as pflag visits
    them; the help flag that cobra adds is left out, and pflag's messages are
    shortened. Viper is what it finds for a name in the environment and in the
    configuration file. *)
From S2P Require Import Prelude Json.
From stdpp Require Import options.

(** ** Flags *)
Inductive kind := KString | KBool | KInt | KDuration.
Record Flag := { f_name : string; f_kind : kind; f_value : string; f_changed : bool }.

(** [strconv.ParseBool]. *)
Definition ParseBool (s : string) : option bool :=
  if decide (s ∈ ["1"; "t"; "T"; "true"; "TRUE"; "True"]) then Some true
  else if decide (s ∈ ["0"; "f"; "F"; "false"; "FALSE"; "False"]) then Some false
  else None.
Definition bool_text (b : bool) : string := if b then "true" else "false".

(** What pflag and cast do with the texts of numbers: pflag parses integers with
    [strconv.ParseInt(s, 0, 64)] and durations with [time.ParseDuration]; cast, which
    Viper reads with, takes a duration without a unit as nanoseconds. *)
Class FlagText := {
  parse_int : string → option Z;
  parse_duration : string → option Z;
  duration_text : Z → string;
  cast_int : string → Z;
  cast_duration : string → Z;
  parse_int_range s n : parse_int s = Some n → -2 ^ 63 ≤ n < 2 ^ 63;
  parse_duration_range s d : parse_duration s = Some d → -2 ^ 63 ≤ d < 2 ^ 63;
  parse_int_Itoa n : -2 ^ 63 ≤ n < 2 ^ 63 → parse_int (Itoa n) = Some n;
  parse_duration_text d : -2 ^ 63 ≤ d < 2 ^ 63 → parse_duration (duration_text d) = Some d;
  cast_int_parse s n : parse_int s = Some n → cast_int s = n;
  cast_duration_parse s d : parse_duration s = Some d → cast_duration s = d;
  cast_duration_nounit n : -2 ^ 63 ≤ n < 2 ^ 63 → cast_duration (Itoa n) = n
}.

Section flags.
Context `{FT : FlagText}.

Definition string_flag (name def : string) : Flag :=
  {| f_name := name; f_kind := KString; f_value := def; f_changed := false |}.
Definition bool_flag (name : string) (def : bool) : Flag :=
  {| f_name := name; f_kind := KBool; f_value := bool_text def; f_changed := false |}.
Definition int_flag (name : string) (def : Z) : Flag :=
  {| f_name := name; f_kind := KInt; f_value := Itoa def; f_changed := false |}.
Definition duration_flag (name : string) (def : Z) : Flag :=
  {| f_name := name; f_kind := KDuration; f_value := duration_text def; f_changed := false |}.

(** The value as a flag of its kind keeps it. *)
Definition parse_value (k : kind) (val : string) : option string :=
  match k with
  | KString => Some val
  | KBool => bool_text <$> ParseBool val
  | KInt => Itoa <$> parse_int val
  | KDuration => duration_text <$> parse_duration val
  end.
Definition set_flag (val : string) (f : Flag) : option Flag :=
  v ← parse_value (f_kind f) val;
  Some {| f_name := f_name f; f_kind := f_kind f; f_value := v; f_changed := true |}.
Definition flag_error (f : Flag) (val : string) : string :=
  "invalid argument " +:+ val +:+ " for --" +:+ f_name f +:+ " flag".

(** [fs.Set(name, val)]. *)
Fixpoint fs_Set (name val : string) (fs : list Flag) : result (list Flag) :=
  match fs with
  | [] => Err (NewErr ("no such flag -" +:+ name))
  | f :: fs' =>
      if decide (f_name f = name) then
        match set_flag val f with
        | Some f' => Ok (f' :: fs')
        | None => Err (NewErr (flag_error f val))
        end
      else match fs_Set name val fs' with Ok l => Ok (f :: l) | Err e => Err e end
  end.

(** The flags given on the command line, in order. *)
Fixpoint parse_flags (given : list (string * string)) (fs : list Flag) : result (list Flag) :=
  match given with
  | [] => Ok fs
  | (name, val) :: given' =>
      match fs_Set name val fs with Ok fs' => parse_flags given' fs' | Err e => Err e end
  end.

Definition flag_get (name : string) (fs : list Flag) : string :=
  match list_find (λ f, f_name f = name) fs with Some (_, f) => f_value f | None => "" end.
Definition flag_get_bool (name : string) (fs : list Flag) : bool :=
  default false (ParseBool (flag_get name fs)).

(** ** Viper *)

(** [v.IsSet(name)] and [fmt.Sprintf("%v", v.Get(name))], and the error of
    reading a configuration file that exists. *)
Record Viper := { v_get : string → option string; v_config_error : option error }.

(** [createViper]. *)
Definition createViper (v : Viper) : result Viper :=
  match v_config_error v with Some e => Err e | None => Ok v end.

(** [applyViper]: flags that were not given take what Viper has; the errors are
    collected. *)
Fixpoint apply_flags (v : Viper) (fs : list Flag) : list Flag * list string :=
  match fs with
  | [] => ([], [])
  | f :: fs' =>
      let '(l, errs) := apply_flags v fs' in
      if f_changed f then (f :: l, errs)
      else match v_get v (f_name f) with
           | None => (f :: l, errs)
           | Some val =>
               match set_flag val f with
               | Some f' => (f' :: l, errs)
               | None => (f :: l, flag_error f val :: errs)
               end
           end
  end.
Definition applyViper (v : Viper) (fs : list Flag) : result (list Flag) :=
  let '(l, errs) := apply_flags v fs in
  if decide (errs = []) then Ok l else Err (NewErr (Join errs ", ")).

(** ** tink-server *)
Definition backendPostgres := "postgres".
Definition backendKubernetes := "kubernetes".

Record DaemonConfig := {
  Facility : string; PGDatabase : string; PGUSer : string; PGPassword : string;
  PGSSLMode : string; OnlyMigration : bool; GRPCAuthority : string; CertDir : string;
  HTTPAuthority : string; TLS : bool; Backend : string; KubeconfigPath : string;
  KubeAPI : string; KubeNamespace : string
}.

Definition server_AddFlags : list Flag :=
  [string_flag "backend" backendPostgres; string_flag "cert-dir" "";
   string_flag "facility" "deprecated"; string_flag "grpc-authority" ":42113";
   string_flag "http-authority" ":42114"; string_flag "kube-namespace" "";
   string_flag "kubeconfig" ""; string_flag "kubernetes" ""; bool_flag "only-migration" false;
   string_flag "postgres-database" "tinkerbell"; string_flag "postgres-password" "tinkerbell";
   string_flag "postgres-sslmode" "disable"; string_flag "postgres-user" "tinkerbell";
   bool_flag "tls" true].

Definition server_config (fs : list Flag) : DaemonConfig :=
  {| Facility := flag_get "facility" fs; PGDatabase := flag_get "postgres-database" fs;
     PGUSer := flag_get "postgres-user" fs; PGPassword := flag_get "postgres-password" fs;
     PGSSLMode := flag_get "postgres-sslmode" fs; OnlyMigration := flag_get_bool "only-migration" fs;
     GRPCAuthority := flag_get "grpc-authority" fs; CertDir := flag_get "cert-dir" fs;
     HTTPAuthority := flag_get "http-authority" fs; TLS := flag_get_bool "tls" fs;
     Backend := flag_get "backend" fs; KubeconfigPath := flag_get "kubeconfig" fs;
     KubeAPI := flag_get "kubernetes" fs; KubeNamespace := flag_get "kube-namespace" fs |}.

(** [env.Get(name, def)] and [env.Bool(name, def)] of packethost/pkg/env: the
    variable, or [def] when it is not set. *)
Class LegacyEnv := {
  legacy_Get : string → string → string;
  legacy_Bool : string → bool → bool;
  legacy_var : string → option string;
  legacy_bool_var : string → option bool;
  legacy_Get_spec name def : legacy_Get name def = default def (legacy_var name);
  legacy_Bool_spec name def : legacy_Bool name def = default def (legacy_bool_var name)
}.

Definition PopulateFromLegacyEnvVar `{LegacyEnv} (c : DaemonConfig) : DaemonConfig :=
  {| Facility := legacy_Get "FACILITY" (Facility c);
     PGDatabase := legacy_Get "PGDATABASE" (PGDatabase c);
     PGUSer := legacy_Get "PGUSER" (PGUSer c);
     PGPassword := legacy_Get "PGPASSWORD" (PGPassword c);
     PGSSLMode := legacy_Get "PGSSLMODE" (PGSSLMode c);
     OnlyMigration := legacy_Bool "ONLY_MIGRATION" (OnlyMigration c);
     GRPCAuthority := legacy_Get "TINKERBELL_GRPC_AUTHORITY" (GRPCAuthority c);
     CertDir := legacy_Get "TINKERBELL_CERTS_DIR" (CertDir c);
     HTTPAuthority := legacy_Get "TINKERBELL_HTTP_AUTHORITY" (HTTPAuthority c);
     TLS := legacy_Bool "TINKERBELL_TLS" (TLS c);
     Backend := Backend c; KubeconfigPath := KubeconfigPath c; KubeAPI := KubeAPI c;
     KubeNamespace := KubeNamespace c |}.

(** The configuration a server runs with: the flags, the hook before the command,
    and the first statement of its body. *)
Definition server_settings `{LegacyEnv} (given : list (string * string)) (v : Viper)
    : result DaemonConfig :=
  match parse_flags given server_AddFlags with
  | Err e => Err e
  | Ok fs =>
      match createViper v with
      | Err e => Err e
      | Ok v =>
          match applyViper v fs with
          | Err e => Err e
          | Ok fs => Ok (PopulateFromLegacyEnvVar (server_config fs))
          end
      end
  end.

(** ** tink-controller *)
Record ControllerConfig := { K8sAPI : string; Kubeconfig : string }.
Definition controller_AddFlags : list Flag := [string_flag "kubeconfig" ""; string_flag "kubernetes" ""].
Definition controller_config (fs : list Flag) : ControllerConfig :=
  {| K8sAPI := flag_get "kubernetes" fs; Kubeconfig := flag_get "kubeconfig" fs |}.
(** The program has its own copies of the two functions. *)
Definition controller_createViper : Viper → result Viper := createViper.
Definition controller_applyViper : Viper → list Flag → result (list Flag) := applyViper.
Definition controller_settings (given : list (string * string)) (v : Viper) : result ControllerConfig :=
  match parse_flags given controller_AddFlags with
  | Err e => Err e
  | Ok fs =>
      match controller_createViper v with
      | Err e => Err e
      | Ok v => match controller_applyViper v fs with Err e => Err e | Ok fs => Ok (controller_config fs) end
      end
  end.

(** ** Where a value comes from *)
Definition lookup_flag (name : string) (fs : list Flag) : option Flag :=
  snd <$> list_find (λ f, f_name f = name) fs.

(** The last value given for a flag on the command line. *)
Fixpoint last_given (name : string) (given : list (string * string)) : option string :=
  match given with
  | [] => None
  | (n, val) :: given' =>
      match last_given name given' with
      | Some x => Some x
      | None => if decide (n = name) then Some val else None
      end
  end.

(** The command line first, then Viper. *)
Definition setting (name : string) (given : list (string * string)) (v : Viper) : option string :=
  match last_given name given with Some x => Some x | None => v_get v name end.

Lemma lookup_flag_cons name f fs :
  lookup_flag name (f :: fs) = if decide (f_name f = name) then Some f else lookup_flag name fs.
Proof.
  unfold lookup_flag. simpl. case_decide; [done|]. by destruct (list_find _ fs) as [[]|].
Qed.

Lemma set_flag_inv val f f' :
  set_flag val f = Some f' →
  f_name f' = f_name f ∧ f_kind f' = f_kind f ∧ f_changed f' = true ∧
  parse_value (f_kind f) val = Some (f_value f').
Proof.
  unfold set_flag. destruct (parse_value _ _) as [x|]; simpl; intros H; simplify_eq. done.
Qed.

Lemma fs_Set_lookup name val fs fs' n :
  fs_Set name val fs = Ok fs' →
  (n ≠ name → lookup_flag n fs' = lookup_flag n fs) ∧
  ∃ f f', lookup_flag name fs = Some f ∧ lookup_flag name fs' = Some f' ∧ set_flag val f = Some f'.
Proof.
  revert fs'. induction fs as [|f fs IH]; intros fs' Hs; simpl in Hs; [done|].
  case_decide as Hn.
  - destruct (set_flag val f) as [f'|] eqn:E; simplify_eq.
    destruct (set_flag_inv _ _ _ E) as (Hname & _). rewrite !lookup_flag_cons. rewrite Hname. split.
    + intros Hne. rewrite !decide_False by congruence. done.
    + rewrite !decide_True by done. eauto.
  - destruct (fs_Set name val fs) as [l|] eqn:E; simplify_eq.
    destruct (IH l eq_refl) as (H1 & f1 & f2 & Hf1 & Hf2 & Hset).
    rewrite !lookup_flag_cons, !(decide_False (P := f_name f = name)) by done. split; [|eauto].
    intros Hne. rewrite H1 by done. done.
Qed.

Lemma parse_flags_lookup n given fs fs' f :
  parse_flags given fs = Ok fs' → lookup_flag n fs = Some f →
  ∃ f', lookup_flag n fs' = Some f' ∧ f_name f' = f_name f ∧ f_kind f' = f_kind f ∧
    match last_given n given with
    | Some val => f_changed f' = true ∧ parse_value (f_kind f) val = Some (f_value f')
    | None => f' = f
    end.
Proof.
  revert fs f. induction given as [|[name val] given IH]; intros fs f Hp Hf; simpl in Hp.
  { simplify_eq. by exists f. }
  destruct (fs_Set name val fs) as [fs1|] eqn:E; [|done].
  destruct (fs_Set_lookup _ _ _ _ n E) as (Hother & f0 & f1 & Hf0 & Hf1 & Hset).
  simpl. destruct (decide (name = n)) as [->|Hne].
  - assert (f0 = f) as -> by congruence.
    destruct (set_flag_inv _ _ _ Hset) as (Hn1 & Hk1 & Hc1 & Hv1).
    destruct (IH fs1 f1 Hp Hf1) as (f' & Hf' & Hn' & Hk' & H). exists f'.
    split; [done|]. split; [congruence|]. split; [congruence|].
    destruct (last_given n given); [by rewrite Hk1 in H|]. by subst.
  - rewrite <- Hother in Hf by done. destruct (IH fs1 f Hp Hf) as (f' & Hf' & Hn' & Hk' & H).
    exists f'. split_and!; [done..|]. by destruct (last_given n given).
Qed.

Lemma apply_flags_lookup v n fs l f :
  apply_flags v fs = (l, []) → lookup_flag n fs = Some f → f_name f = n →
  ∃ f', lookup_flag n l = Some f' ∧
    match (if f_changed f then None else v_get v n) with
    | Some val => parse_value (f_kind f) val = Some (f_value f')
    | None => f' = f
    end.
Proof.
  revert l. induction fs as [|g fs IH]; intros l Ha Hf Hn; [done|]. simpl in Ha.
  destruct (apply_flags v fs) as [l1 errs] eqn:E. rewrite lookup_flag_cons in Hf.
  assert (∃ g', l = g' :: l1 ∧ errs = [] ∧ f_name g' = f_name g ∧
    match (if f_changed g then None else v_get v (f_name g)) with
    | Some val => parse_value (f_kind g) val = Some (f_value g')
    | None => g' = g
    end) as (g' & -> & -> & Hname & Hg').
  { destruct (f_changed g); [simplify_eq; eauto|].
    destruct (v_get v (f_name g)) as [val|]; [|simplify_eq; eauto].
    destruct (set_flag val g) as [g'|] eqn:Es; simplify_eq.
    destruct (set_flag_inv _ _ _ Es) as (H1 & _ & _ & H2). eauto 10. }
  rewrite lookup_flag_cons, Hname. case_decide as Hgn.
  - simplify_eq. eauto.
  - by apply IH.
Qed.

(** The value of a flag after the command line and Viper. *)
Lemma settings_flag n given v fs fs1 fs2 f :
  lookup_flag n fs = Some f → f_name f = n → f_changed f = false →
  parse_flags given fs = Ok fs1 → applyViper v fs1 = Ok fs2 →
  match setting n given v with
  | Some val => parse_value (f_kind f) val = Some (flag_get n fs2)
  | None => flag_get n fs2 = f_value f
  end.
Proof.
  intros Hf Hn Hc Hp Ha. unfold applyViper in Ha.
  destruct (apply_flags v fs1) as [l errs] eqn:E. case_decide; simplify_eq.
  destruct (parse_flags_lookup (f_name f) _ _ _ _ Hp Hf) as (f1 & Hf1 & Hn1 & Hk1 & H1).
  destruct (apply_flags_lookup _ (f_name f) _ _ _ E Hf1 Hn1) as (f2 & Hf2 & H2).
  assert (flag_get (f_name f) fs2 = f_value f2) as ->.
  { unfold flag_get, lookup_flag in *. by destruct (list_find _ fs2) as [[]|]; simplify_eq/=. }
  unfold setting. destruct (last_given (f_name f) given) as [val|].
  - destruct H1 as [Hch Hv]. rewrite Hch in H2. by subst.
  - subst f1. rewrite Hc in H2. destruct (v_get v (f_name f)); [done|by subst].
Qed.

Lemma string_setting n def given v fs1 fs2 fs :
  lookup_flag n fs = Some (string_flag n def) →
  parse_flags given fs = Ok fs1 → applyViper v fs1 = Ok fs2 →
  flag_get n fs2 = default def (setting n given v).
Proof.
  intros Hf Hp Ha. pose proof (settings_flag _ _ _ _ _ _ _ Hf eq_refl eq_refl Hp Ha) as H.
  destruct (setting n given v); simpl in *; congruence.
Qed.

Lemma ParseBool_text b : ParseBool (bool_text b) = Some b.
Proof. by destruct b. Qed.

Lemma bool_setting n def given v fs1 fs2 fs :
  lookup_flag n fs = Some (bool_flag n def) →
  parse_flags given fs = Ok fs1 → applyViper v fs1 = Ok fs2 →
  flag_get_bool n fs2 = default def (setting n given v ≫= ParseBool).
Proof.
  intros Hf Hp Ha. pose proof (settings_flag _ _ _ _ _ _ _ Hf eq_refl eq_refl Hp Ha) as H.
  unfold flag_get_bool. destruct (setting n given v) as [val|]; simpl in *.
  - destruct (ParseBool val); simplify_eq/=. by rewrite <- H, ParseBool_text.
  - by rewrite H, ParseBool_text.
Qed.

Section properties.
Context `{LE : LegacyEnv}.

(** C36 Where tink-server takes its settings from. A value given on the command
    line overrides Viper (the environment and the file), and Viper the default;
    but one of the ten variables of the old configuration overrides them all,
    flags that were given included. The backend and the three settings for
    Kubernetes have no such variable. *)
Theorem server_config_precedence given v c :
  server_settings given v = Ok c →
  let str name def := default def (setting name given v) in
  let bool name def := default def (setting name given v ≫= ParseBool) in
  let legacy var x := default x (legacy_var var) in
  let legacy_bool var x := default x (legacy_bool_var var) in
  Facility c = legacy "FACILITY" (str "facility" "deprecated") ∧
  PGDatabase c = legacy "PGDATABASE" (str "postgres-database" "tinkerbell") ∧
  PGUSer c = legacy "PGUSER" (str "postgres-user" "tinkerbell") ∧
  PGPassword c = legacy "PGPASSWORD" (str "postgres-password" "tinkerbell") ∧
  PGSSLMode c = legacy "PGSSLMODE" (str "postgres-sslmode" "disable") ∧
  OnlyMigration c = legacy_bool "ONLY_MIGRATION" (bool "only-migration" false) ∧
  GRPCAuthority c = legacy "TINKERBELL_GRPC_AUTHORITY" (str "grpc-authority" ":42113") ∧
  CertDir c = legacy "TINKERBELL_CERTS_DIR" (str "cert-dir" "") ∧
  HTTPAuthority c = legacy "TINKERBELL_HTTP_AUTHORITY" (str "http-authority" ":42114") ∧
  TLS c = legacy_bool "TINKERBELL_TLS" (bool "tls" true) ∧
  Backend c = str "backend" "postgres" ∧ KubeconfigPath c = str "kubeconfig" "" ∧
  KubeAPI c = str "kubernetes" "" ∧ KubeNamespace c = str "kube-namespace" "".
Proof.
  intros Hs. unfold server_settings, createViper in Hs.
  destruct (parse_flags given server_AddFlags) as [fs1|] eqn:Hp; [|done].
  destruct (v_config_error v); [done|]. destruct (applyViper v fs1) as [fs2|] eqn:Ha; [|done].
  injection Hs as <-. simpl. rewrite !legacy_Get_spec, !legacy_Bool_spec.
  repeat match goal with
  | |- context [flag_get ?n fs2] =>
      rewrite (string_setting n _ _ _ _ _ server_AddFlags eq_refl Hp Ha)
  | |- context [flag_get_bool ?n fs2] =>
      rewrite (bool_setting n _ _ _ _ _ server_AddFlags eq_refl Hp Ha)
  end.
  split_and!; reflexivity.
Qed.
End properties.
End flags.

(** ** Numbers as decimal texts, durations in nanoseconds: for the witnesses *)
Fixpoint strip_ns (s : string) : option string :=
  match s with
  | EmptyString => None
  | String c s' => if decide (s = "ns") then Some "" else String c <$> strip_ns s'
  end.

Lemma strip_ns_app s : strip_ns (s +:+ "ns") = Some s.
Proof.
  induction s as [|c s IH]; [done|]. rewrite str_app_cons. cbn [strip_ns].
  rewrite decide_False, IH; [done|]. destruct s as [|c' [|c'' s]]; intros H; discriminate H.
Qed.

Lemma strip_ns_digits acc s t : strip_ns s = Some t → digits acc s = None.
Proof.
  revert acc t. induction s as [|c s IH]; intros acc t Hs; [done|]. cbn [strip_ns] in Hs.
  destruct (decide (String c s = "ns")) as [->|]; [done|].
  destruct (strip_ns s) as [t'|] eqn:E; [|done]. cbn [digits].
  case_decide; [|done]. by apply (IH _ t').
Qed.

Lemma strip_ns_number s t : strip_ns s = Some t → parse_int64 s = None.
Proof.
  intros Hs. unfold parse_int64. enough (Atoi s = None) as -> by done.
  destruct s as [|c s]; [done|]. unfold Atoi. pose proof (strip_ns_digits 0 _ _ Hs) as H0.
  assert (strip_ns s = None → String c s = "ns") as Hc.
  { intros E. cbn [strip_ns] in Hs. case_decide; [done|]. by rewrite E in Hs. }
  destruct (strip_ns s) as [t'|] eqn:E.
  - pose proof (strip_ns_digits 0 _ _ E) as H1. rewrite H1. by repeat case_match.
  - by injection (Hc eq_refl) as -> ->.
Qed.

Lemma parse_int64_range s n : parse_int64 s = Some n → -2 ^ 63 ≤ n < 2 ^ 63.
Proof. unfold parse_int64. destruct (Atoi s); simpl; [|done]. case_decide; intros; by simplify_eq. Qed.

Definition plain_text : FlagText.
Proof.
  refine {| parse_int := parse_int64; parse_duration s := strip_ns s ≫= parse_int64;
            duration_text d := Itoa d +:+ "ns"; cast_int s := default 0 (parse_int64 s);
            cast_duration s := match parse_int64 s with
                               | Some n => n
                               | None => default 0 (strip_ns s ≫= parse_int64)
                               end |}.
  - apply parse_int64_range.
  - intros s d. destruct (strip_ns s); [apply parse_int64_range|done].
  - intros n Hn. by apply parse_int64_Itoa.
  - intros d Hd. rewrite strip_ns_app. by apply parse_int64_Itoa.
  - intros s n Hs. by rewrite Hs.
  - intros s d Hs. destruct (strip_ns s) as [t|] eqn:E; [|done]. rewrite (strip_ns_number _ _ E).
    by rewrite Hs.
  - intros n Hn. by rewrite parse_int64_Itoa.
Defined.

(** ** Witness: TLS is switched off by the old variable although --tls is given. *)
Definition demo_legacy : LegacyEnv.
Proof.
  refine {| legacy_Get n d := default d (if decide (n = "PGUSER") then Some "root" else None);
            legacy_Bool n d := default d (if decide (n = "TINKERBELL_TLS") then Some false else None) |};
    reflexivity.
Defined.
Definition demo_viper : Viper :=
  {| v_get n := if decide (n = "grpc-authority") then Some ":1" else None; v_config_error := None |}.

Lemma server_config_precedence_witness :
  ∃ c, server_settings (FT := plain_text) (H := demo_legacy) [("tls", "true"); ("postgres-user", "me")] demo_viper = Ok c ∧
    TLS c = false ∧ PGUSer c = "root" ∧ GRPCAuthority c = ":1" ∧ HTTPAuthority c = ":42114".
Proof.
  eexists. split; [vm_compute; reflexivity|].
  destruct (server_config_precedence (FT := plain_text) (LE := demo_legacy) [("tls", "true"); ("postgres-user", "me")]
    demo_viper _ eq_refl) as (_ & _ & H3 & _ & _ & _ & H7 & _ & H9 & H10 & _).
  split; [exact H10|]. split; [exact H3|]. split; [exact H7|exact H9].
Defined.
