(* ===== verification/WorkerMain.v ===== *)
(** * WorkerMain: the programs tink-worker and virtual-worker
    (src/cmd/tink-worker/cmd/root.go, src/cmd/virtual-worker/cmd/root.go)

    Both read every setting through Viper, to which the flags are bound: a flag
    that was given, then the environment and the configuration file, then the
    default of the flag. cobra runs [PreRunE], checks the required flags, and
    runs [RunE]. *)
From S2P Require Import Prelude Proto Service Worker Docker Client Config.
From stdpp Require Import options.

Section programs.
Context `{FT : FlagText} `{PE : ProcessEnv}.

(** ** Viper with bound flags *)
Definition IsSet (fs : list Flag) (v : Viper) (name : string) : bool :=
  match lookup_flag name fs with
  | Some f => f_changed f || bool_decide (is_Some (v_get v name))
  | None => bool_decide (is_Some (v_get v name))
  end.
Definition viper_Get (fs : list Flag) (v : Viper) (name : string) : option string :=
  match lookup_flag name fs with
  | Some f => if f_changed f then Some (f_value f)
              else Some (default (f_value f) (v_get v name))
  | None => v_get v name
  end.
Definition GetString (fs : list Flag) (v : Viper) (name : string) : string :=
  default "" (viper_Get fs v name).
Definition cast_bool (s : string) : bool := default false (ParseBool s).
Definition GetBool (fs : list Flag) (v : Viper) (name : string) : bool :=
  from_option cast_bool false (viper_Get fs v name).
Definition GetInt (fs : list Flag) (v : Viper) (name : string) : Z :=
  from_option cast_int 0 (viper_Get fs v name).
Definition GetDuration (fs : list Flag) (v : Viper) (name : string) : Z :=
  from_option cast_duration 0 (viper_Get fs v name).

(** [initViper]: the flags that stay required are those that nothing sets. *)
Definition initViper (v : Viper) (fs : list Flag) (required : list string) : result (list string) :=
  match v_config_error v with
  | Some e => Err e
  | None => Ok (filter (λ name, IsSet fs v name = false) required)
  end.
(** virtual-worker has its own copy of the function. *)
Definition virtual_createViper : Viper → list Flag → list string → result (list string) := initViper.

(** cobra's [validateRequiredFlags]. *)
Definition validateRequiredFlags (fs : list Flag) (required : list string) : option error :=
  let missing := filter (λ name, from_option f_changed false (lookup_flag name fs) = false) required in
  if decide (missing = []) then None
  else Some (NewErr ("required flag(s) " +:+ Join missing ", " +:+ " not set")).

(** The flags before [RunE], with [PreRunE] as a parameter. *)
Definition pre_run (hook : Viper → list Flag → list string → result (list string))
    (flags : list Flag) (required : list string) (given : list (string * string))
    (v : Viper) : result (list Flag) :=
  match parse_flags given flags with
  | Err e => Err e
  | Ok fs =>
      match hook v fs required with
      | Err e => Err e
      | Ok required =>
          match validateRequiredFlags fs required with Some e => Err e | None => Ok fs end
      end
  end.

(** ** tink-worker *)
Definition defaultRetryIntervalSeconds : Z := 3.
Definition defaultRetryCount : Z := 3.
Definition defaultMaxFileSize : Z := 10 * 1024 * 1024.
Definition defaultTimeoutMinutes : Z := 60.

Definition worker_flags : list Flag :=
  [bool_flag "capture-action-logs" true; string_flag "docker-registry" ""; string_flag "id" "";
   int_flag "max-file-size" defaultMaxFileSize; int_flag "max-retry" defaultRetryCount;
   string_flag "registry-password" ""; string_flag "registry-username" "";
   duration_flag "retry-interval" (defaultRetryIntervalSeconds * second);
   duration_flag "timeout" (defaultTimeoutMinutes * 60 * second);
   string_flag "tinkerbell-grpc-authority" ""; bool_flag "tinkerbell-tls" true].
Definition worker_required : list string := ["id"; "tinkerbell-grpc-authority"].

(** What [RunE] builds before it processes workflows. *)
Record WorkerSetup := {
  su_conn : ClientConn; su_registry : RegistryConnDetails; su_retryInterval : Z; su_worker : Worker
}.

(** [docker_err] is the error of [dockercli.NewClientWithOpts]. *)
Definition worker_setup (docker_err : option error) (fs : list Flag) (v : Viper) : result WorkerSetup :=
  match NewClientConn (GetString fs v "tinkerbell-grpc-authority") (GetBool fs v "tinkerbell-tls") with
  | Err e => Err e
  | Ok conn =>
      match docker_err with
      | Some e => Err e
      | None =>
          Ok {| su_conn := conn;
                su_registry := {| rc_Registry := GetString fs v "docker-registry";
                                  rc_Username := GetString fs v "registry-username";
                                  rc_Password := GetString fs v "registry-password" |};
                su_retryInterval := GetDuration fs v "retry-interval";
                su_worker :=
                  NewWorker (GetString fs v "id")
                    [WithMaxFileSize (GetInt fs v "max-file-size");
                     WithRetries (GetInt fs v "max-retry");
                     WithLogCapture (GetBool fs v "capture-action-logs");
                     WithPrivileged true] |}
      end
  end.
Definition tink_worker_setup (docker_err : option error) (given : list (string * string)) (v : Viper)
    : result WorkerSetup :=
  match pre_run initViper worker_flags worker_required given v with
  | Err e => Err e
  | Ok fs => worker_setup docker_err fs v
  end.

(** ** virtual-worker *)
Definition virtual_flags : list Flag :=
  [bool_flag "capture-action-logs" true; string_flag "id" "";
   int_flag "max-file-size" defaultMaxFileSize; int_flag "max-retry" defaultRetryCount;
   duration_flag "retry-interval" (defaultRetryIntervalSeconds * second);
   duration_flag "sleep-jitter" (2 * second); duration_flag "sleep-min" (4 * second)].
Definition virtual_required : list string := ["id"].

Record VirtualSetup := {
  vs_conn : ClientConn; vs_manager : fakeManager; vs_retryInterval : Z; vs_worker : Worker
}.
Definition virtual_setup (fs : list Flag) (v : Viper) : result VirtualSetup :=
  match NewClientConn (GetString fs v "tinkerbell-grpc-authority") (GetBool fs v "tinkerbell-tls") with
  | Err e => Err e
  | Ok conn =>
      Ok {| vs_conn := conn;
            vs_manager := NewFakeContainerManager (GetDuration fs v "sleep-min")
                            (GetDuration fs v "sleep-jitter");
            vs_retryInterval := GetDuration fs v "retry-interval";
            vs_worker :=
              NewWorker (GetString fs v "id")
                [WithMaxFileSize (GetInt fs v "max-file-size"); WithRetries (GetInt fs v "max-retry");
                 WithDataDir "./worker"; WithLogCapture (GetBool fs v "capture-action-logs")] |}
  end.
Definition virtual_worker_setup (given : list (string * string)) (v : Viper) : result VirtualSetup :=
  match pre_run virtual_createViper virtual_flags virtual_required given v with
  | Err e => Err e
  | Ok fs => virtual_setup fs v
  end.

(** ** Running
    [None] when the loop of the worker has not returned after [polls] turns;
    otherwise the error the command returns. *)
Section run.
Context {S D : Type} `{SV : WorkflowService S} `{DC : DockerClient D} `{WE : WorkerEnv}.
#[local] Open Scope go_scope.

Definition finished_with (r : option (option error)) : option (option error) :=
  (λ err, wrap err "worker Finished with error") <$> r.

Definition tink_worker (docker_err : option error) (given : list (string * string)) (v : Viper)
    (polls : nat) : go (World S D) (option (option error)) :=
  match tink_worker_setup docker_err given v with
  | Err e => go_ret (Some (Some e))
  | Ok su =>
      let* r := ProcessWorkflowActions (CM := docker_manager (su_registry su)) (su_worker su) polls in
      go_ret (finished_with r)
  end.

(** The manager of [k] is replaced by the one the program makes. *)
Definition virtual_worker (rand : nat → nat) (given : list (string * string)) (v : Viper)
    (polls : nat) : go (World S fakeManager) (option (option error)) :=
  match virtual_worker_setup given v with
  | Err e => go_ret (Some (Some e))
  | Ok su =>
      go_modify (λ k, set_host ((k_host k).1, vs_manager su) k) ;;;
      let* r := ProcessWorkflowActions (CM := fake_manager rand) (vs_worker su) polls in
      go_ret (finished_with r)
  end.
End run.
End programs.

(** ** Where the settings come from *)
Section settings.
Context `{FT : FlagText} `{PE : ProcessEnv}.

Lemma viper_Get_setting n given v fs fs1 f :
  lookup_flag n fs = Some f → f_name f = n → f_changed f = false → parse_flags given fs = Ok fs1 →
  ∃ x, viper_Get fs1 v n = Some x ∧
    match last_given n given with
    | Some val => parse_value (f_kind f) val = Some x
    | None => x = default (f_value f) (v_get v n)
    end.
Proof using.
  intros Hf Hn Hc Hp. destruct (parse_flags_lookup n _ _ _ _ Hp Hf) as (f1 & Hf1 & _ & _ & H).
  unfold viper_Get. rewrite Hf1. destruct (last_given n given).
  - destruct H as [-> Hv]. eauto.
  - subst f1. rewrite Hc. eauto.
Qed.

Lemma GetString_setting n def given v fs fs1 :
  lookup_flag n fs = Some (string_flag n def) → parse_flags given fs = Ok fs1 →
  GetString fs1 v n = default def (setting n given v).
Proof using.
  intros Hf Hp. destruct (viper_Get_setting n given v _ _ _ Hf eq_refl eq_refl Hp) as (x & Hx & H).
  unfold GetString, setting. rewrite Hx. destruct (last_given n given); simpl in *; congruence.
Qed.

Lemma GetBool_setting n def given v fs fs1 :
  lookup_flag n fs = Some (bool_flag n def) → parse_flags given fs = Ok fs1 →
  GetBool fs1 v n = from_option cast_bool def (setting n given v).
Proof using.
  intros Hf Hp. destruct (viper_Get_setting n given v _ _ _ Hf eq_refl eq_refl Hp) as (x & Hx & H).
  unfold GetBool, setting, cast_bool. rewrite Hx. destruct (last_given n given) as [val|]; simpl in *.
  - destruct (ParseBool val); simplify_eq/=. by rewrite ParseBool_text.
  - subst x. destruct (v_get v n); [done|]. simpl. by rewrite ParseBool_text.
Qed.

Lemma GetInt_setting n def given v fs fs1 :
  lookup_flag n fs = Some (int_flag n def) → -2 ^ 63 ≤ def < 2 ^ 63 → parse_flags given fs = Ok fs1 →
  GetInt fs1 v n = from_option cast_int def (setting n given v).
Proof using.
  intros Hf Hd Hp. destruct (viper_Get_setting n given v _ _ _ Hf eq_refl eq_refl Hp) as (x & Hx & H).
  unfold GetInt, setting. rewrite Hx. destruct (last_given n given) as [val|]; simpl in *.
  - destruct (parse_int val) as [z|] eqn:E; simplify_eq/=.
    rewrite (cast_int_parse _ _ E). apply cast_int_parse, parse_int_Itoa. by eapply parse_int_range.
  - subst x. destruct (v_get v n); [done|]. by apply cast_int_parse, parse_int_Itoa.
Qed.

Lemma GetDuration_setting n def given v fs fs1 :
  lookup_flag n fs = Some (duration_flag n def) → -2 ^ 63 ≤ def < 2 ^ 63 →
  parse_flags given fs = Ok fs1 →
  GetDuration fs1 v n = from_option cast_duration def (setting n given v).
Proof using.
  intros Hf Hd Hp. destruct (viper_Get_setting n given v _ _ _ Hf eq_refl eq_refl Hp) as (x & Hx & H).
  unfold GetDuration, setting. rewrite Hx. destruct (last_given n given) as [val|]; simpl in *.
  - destruct (parse_duration val) as [z|] eqn:E; simplify_eq/=.
    rewrite (cast_duration_parse _ _ E). apply cast_duration_parse, parse_duration_text.
    by eapply parse_duration_range.
  - subst x. destruct (v_get v n); [done|]. by apply cast_duration_parse, parse_duration_text.
Qed.

(** A flag that is given is declared. *)
Lemma given_declared n given fs fs1 :
  parse_flags given fs = Ok fs1 → lookup_flag n fs = None → last_given n given = None.
Proof using.
  revert fs. induction given as [|[name val] given IH]; intros fs Hp Hn; simpl in *; [done|].
  destruct (fs_Set name val fs) as [fs2|] eqn:E; [|done].
  destruct (fs_Set_lookup _ _ _ _ n E) as (Hother & f0 & f1 & Hf0 & _).
  assert (name ≠ n) as Hne by congruence.
  rewrite (IH fs2 Hp) by by rewrite Hother. by rewrite decide_False.
Qed.

Lemma undeclared n given fs fs1 :
  parse_flags given fs = Ok fs1 → lookup_flag n fs = None → lookup_flag n fs1 = None.
Proof using.
  revert fs. induction given as [|[name val] given IH]; intros fs Hp Hn; simpl in *.
  { by simplify_eq. }
  destruct (fs_Set name val fs) as [fs2|] eqn:E; [|done].
  destruct (fs_Set_lookup _ _ _ _ n E) as (Hother & f0 & f1 & Hf0 & _).
  apply (IH fs2 Hp). rewrite Hother; congruence.
Qed.

(** What is required is set somewhere. *)
Lemma pre_run_required flags required given v fs n f :
  pre_run initViper flags required given v = Ok fs → n ∈ required →
  lookup_flag n flags = Some f → f_changed f = false →
  parse_flags given flags = Ok fs ∧ is_Some (setting n given v).
Proof using.
  unfold pre_run, initViper, validateRequiredFlags. intros H Hn Hf Hc.
  destruct (parse_flags given flags) as [fs1|] eqn:Hp; [|done].
  destruct (v_config_error v); [done|]. cbn zeta in H.
  case_decide as Hmiss; [|done]. injection H as ->. split; [done|].
  destruct (parse_flags_lookup n _ _ _ _ Hp Hf) as (f1 & Hf1 & _ & _ & Hl).
  unfold setting. destruct (last_given n given); [by eexists|]. subst f1.
  destruct (v_get v n) eqn:Hv; [by eexists|]. exfalso.
  apply (filter_nil_not_elem_of _ _ n Hmiss); [by rewrite Hf1|].
  apply list_elem_of_filter. unfold IsSet. by rewrite Hf1, Hc, Hv.
Qed.

(** Where tink-worker takes its settings from. When it gets as far as building
    its worker, an id and the authority of the server have been set, by a flag, the
    environment or the file, in this order; every other setting has a default. The
    containers are privileged, and the data directory cannot be changed. A retry
    interval from the environment or the file is what cast makes of it: without a
    unit it is nanoseconds. The timeout is read nowhere. *)
Theorem worker_settings docker_err given v su :
  tink_worker_setup docker_err given v = Ok su →
  let str name := default "" (setting name given v) in
  ∃ id authority,
    setting "id" given v = Some id ∧ setting "tinkerbell-grpc-authority" given v = Some authority ∧
    su = {| su_conn := {| cc_authority := authority;
                          cc_tls := from_option cast_bool true (setting "tinkerbell-tls" given v) |};
            su_registry := {| rc_Registry := str "docker-registry";
                              rc_Username := str "registry-username";
                              rc_Password := str "registry-password" |};
            su_retryInterval := from_option cast_duration (3 * second) (setting "retry-interval" given v);
            su_worker :=
              {| w_workerID := id; w_dataDir := "/worker";
                 w_maxSize := from_option cast_int 10485760 (setting "max-file-size" given v);
                 w_createPrivileged := true;
                 w_captureLogs := from_option cast_bool true (setting "capture-action-logs" given v);
                 w_retries := from_option cast_int 3 (setting "max-retry" given v) |} |}.
Proof.
  intros Hs. unfold tink_worker_setup in Hs.
  destruct (pre_run initViper worker_flags worker_required given v) as [fs|] eqn:Hr; [|done].
  destruct (pre_run_required _ _ _ _ _ "id" _ Hr ltac:(set_solver) eq_refl eq_refl) as [Hp [id Hid]].
  destruct (pre_run_required _ _ _ _ _ "tinkerbell-grpc-authority" _ Hr ltac:(set_solver) eq_refl
    eq_refl) as [_ [authority Hauth]].
  cbn zeta. exists id, authority. split_and!; [done..|]. unfold worker_setup, NewClientConn in Hs.
  destruct (grpc_dial _ _); [done|]. destruct docker_err; [done|]. injection Hs as <-.
  rewrite !(GetBool_setting _ true given v worker_flags fs) by done.
  rewrite !(GetString_setting _ "" given v worker_flags fs) by done.
  rewrite (GetDuration_setting "retry-interval" (3 * second) given v worker_flags fs) by done.
  rewrite (GetInt_setting "max-file-size" 10485760 given v worker_flags fs) by done.
  rewrite (GetInt_setting "max-retry" 3 given v worker_flags fs) by done.
  by rewrite Hid, Hauth.
Qed.

(** Where virtual-worker takes its settings from. It declares no flags for the
    server: the authority and TLS come from the environment or the file only, a
    flag for them is an error, and without them it connects to the empty authority
    in plain text. *)
Theorem virtual_worker_settings given v su :
  virtual_worker_setup given v = Ok su →
  last_given "tinkerbell-grpc-authority" given = None ∧ last_given "tinkerbell-tls" given = None ∧
  ∃ id, setting "id" given v = Some id ∧
    su = {| vs_conn := {| cc_authority := default "" (v_get v "tinkerbell-grpc-authority");
                          cc_tls := from_option cast_bool false (v_get v "tinkerbell-tls") |};
            vs_manager := NewFakeContainerManager
              (from_option cast_duration (4 * second) (setting "sleep-min" given v))
              (from_option cast_duration (2 * second) (setting "sleep-jitter" given v));
            vs_retryInterval := from_option cast_duration (3 * second) (setting "retry-interval" given v);
            vs_worker :=
              {| w_workerID := id; w_dataDir := "./worker";
                 w_maxSize := from_option cast_int 10485760 (setting "max-file-size" given v);
                 w_createPrivileged := false;
                 w_captureLogs := from_option cast_bool true (setting "capture-action-logs" given v);
                 w_retries := from_option cast_int 3 (setting "max-retry" given v) |} |}.
Proof.
  intros Hs. unfold virtual_worker_setup in Hs.
  destruct (pre_run virtual_createViper virtual_flags virtual_required given v) as [fs|] eqn:Hr; [|done].
  destruct (pre_run_required _ _ _ _ _ "id" _ Hr ltac:(set_solver) eq_refl eq_refl) as [Hp [id Hid]].
  split_and!; [by eapply given_declared..|]. exists id. split; [done|].
  unfold virtual_setup, NewClientConn in Hs. destruct (grpc_dial _ _); [done|]. injection Hs as <-.
  assert (∀ n, lookup_flag n virtual_flags = None → viper_Get fs v n = v_get v n) as Hnone.
  { intros n Hn. unfold viper_Get. destruct (lookup_flag n fs) as [f|] eqn:E; [|done]. 
    by rewrite (undeclared n _ _ _ Hp Hn) in E. }
  rewrite (GetBool_setting "capture-action-logs" true given v virtual_flags fs) by done.
  rewrite (GetString_setting "id" "" given v virtual_flags fs) by done.
  rewrite (GetDuration_setting "retry-interval" (3 * second) given v virtual_flags fs) by done.
  rewrite (GetDuration_setting "sleep-min" (4 * second) given v virtual_flags fs) by done.
  rewrite (GetDuration_setting "sleep-jitter" (2 * second) given v virtual_flags fs) by done.
  rewrite (GetInt_setting "max-file-size" 10485760 given v virtual_flags fs) by done.
  rewrite (GetInt_setting "max-retry" 3 given v virtual_flags fs) by done.
  unfold GetString, GetBool. rewrite !Hnone by done. by rewrite Hid.
Qed.
End settings.

(** ** Witnesses *)
Definition open_net : ProcessEnv :=
  {| env_Get _ := ""; env_Bool _ def := def; grpc_dial _ _ := None |}.
Definition worker_file : Viper :=
  {| v_get n := if decide (n = "id") then Some "w1"
                else if decide (n = "retry-interval") then Some "5" else None;
     v_config_error := None |}.

(** The id comes from the file, the authority from a flag, and an interval of 5
    is taken as 5 nanoseconds. *)
Lemma worker_settings_witness :
  ∃ su, tink_worker_setup (FT := plain_text) (PE := open_net) None
      [("tinkerbell-grpc-authority", "tink:42113"); ("max-retry", "7")] worker_file = Ok su ∧
    cc_authority (su_conn su) = "tink:42113" ∧ w_workerID (su_worker su) = "w1" ∧
    w_retries (su_worker su) = 7 ∧ su_retryInterval su = 5.
Proof.
  eexists. split; [vm_compute; reflexivity|].
  destruct (worker_settings (FT := plain_text) (PE := open_net) None
    [("tinkerbell-grpc-authority", "tink:42113"); ("max-retry", "7")] worker_file _ eq_refl)
    as (id & a & Hid & Ha & Hsu).
  injection Hid as <-. injection Ha as <-. vm_compute in Hsu. split_and!; reflexivity.
Defined.

Lemma virtual_worker_settings_witness :
  ∃ su, virtual_worker_setup (FT := plain_text) (PE := open_net) [("sleep-jitter", "0ns")] worker_file
      = Ok su ∧
    vs_conn su = {| cc_authority := ""; cc_tls := false |} ∧
    fm_sleepJitter (vs_manager su) = 1.
Proof.
  eexists. split; [vm_compute; reflexivity|].
  destruct (virtual_worker_settings (FT := plain_text) (PE := open_net) [("sleep-jitter", "0ns")]
    worker_file _ eq_refl) as (_ & _ & id & Hid & Hsu).
  injection Hid as <-. vm_compute in Hsu. split; reflexivity.
Defined.

(** Neither program starts without an id. *)
Example worker_needs_id :
  tink_worker_setup (FT := plain_text) (PE := open_net) None [("tinkerbell-grpc-authority", "a")]
    {| v_get _ := None; v_config_error := None |} = Err (NewErr "required flag(s) id not set").
Proof. reflexivity. Qed.
