(* ===== verification/CliMain.v ===== *)
(** * CliMain: the program tink (src/cmd/tink-cli/cmd/root.go,
    hardware.go, template.go, workflow.go, completion.go, docs.go)

    The flags of the root command and the connection they lead to. Viper sees the
    environment only: no path for a configuration file is set. The commands that
    generate completion scripts and documentation. *)
From S2P Require Import Prelude Proto Template DbBase Client Json Cli CliCmd Config WorkerMain.
From stdpp Require Import options.

Section execute.
Context {S : Type} `{FT : FlagText} `{PE : ProcessEnv}.
#[local] Open Scope go_scope.

Definition cli_flags : list Flag :=
  [string_flag "facility" ""; string_flag "tinkerbell-grpc-authority" "";
   bool_flag "tinkerbell-tls" true].
(** The flags are visited before they are bound to Viper. *)
Definition cli_required (v : Viper) : list string :=
  filter (λ name, v_get v name = None) ["tinkerbell-grpc-authority"].

(** The run of a subcommand with its arguments: cobra checks the arguments, runs
    the nearest persistent hook and that of the command, and only then checks the
    required flags. *)
Definition execute_cmd (pre : string → bool → go (Cli S) (option error)) (given : list (string * string))
    (v : Viper) (cmd : command) (args : list string) : go (Cli S) (option error) :=
  match parse_flags given cli_flags with
  | Err e => go_ret (Some e)
  | Ok fs =>
      match cmd_Args cmd args with
      | Some e => go_ret (Some e)
      | None =>
          let* err := pre (GetString fs v "tinkerbell-grpc-authority") (GetBool fs v "tinkerbell-tls") in
          match err with
          | Some e => go_ret (Some e)
          | None =>
              let* err := cmd_PreRunE cmd in
              match err with
              | Some e => go_ret (Some e)
              | None =>
                  match validateRequiredFlags fs (cli_required v) with
                  | Some e => go_ret (Some e)
                  | None => cmd_RunE cmd args
                  end
              end
          end
      end
  end.
(** [Execute] for a subcommand without a persistent hook of its own. *)
Definition Execute (given : list (string * string)) (v : Viper) (cmd : command) (args : list string)
    : go (Cli S) (option error) := execute_cmd root_PersistentPreRunE given v cmd args.

Lemma authority_required given v fs :
  parse_flags given cli_flags = Ok fs →
  validateRequiredFlags fs (cli_required v) = None ↔
  is_Some (setting "tinkerbell-grpc-authority" given v).
Proof.
  intros Hp. destruct (parse_flags_lookup "tinkerbell-grpc-authority" _ _ _ _ Hp eq_refl)
    as (f & Hf & _ & _ & Hl).
  unfold validateRequiredFlags, cli_required, setting. rewrite filter_cons, filter_nil.
  destruct (v_get v "tinkerbell-grpc-authority") as [a|].
  - rewrite (decide_False (P := Some a = None)) by done.
    split; [destruct (last_given _ _); by eexists|done].
  - rewrite (decide_True (P := None = None)), filter_cons, filter_nil, Hf by done.
    destruct (last_given _ given) as [x|].
    + destruct Hl as [Hch _]. rewrite (decide_False (P := from_option f_changed false (Some f) = false))
        by (simpl; congruence). by split; [eexists|].
    + subst f. by split; [|intros [? ?]].
Qed.

(** Which server a command talks to. With an authority on the command line or
    in the environment, in this order, the command runs over a connection to it,
    with TLS unless that is switched off. Without one its body never runs: the
    client fails with an error, unless a hook ends it earlier, and no server is
    called. *)
Theorem cli_execute given v cmd args (w : Cli S) fs :
  parse_flags given cli_flags = Ok fs →
  match setting "tinkerbell-grpc-authority" given v with
  | Some authority =>
      Execute given v cmd args w =
        run_command authority (from_option cast_bool true (setting "tinkerbell-tls" given v))
          cmd args w
  | None =>
      (∀ w, c_srv (cmd_PreRunE cmd w).2 = c_srv w) →
      c_srv (Execute given v cmd args w).2 = c_srv w ∧
      (Execute given v cmd args w).1 ≠ Ret None
  end.
Proof.
  intros Hp. unfold Execute, execute_cmd, run_command. rewrite Hp.
  rewrite (GetString_setting _ "" given v cli_flags fs) by done.
  rewrite (GetBool_setting _ true given v cli_flags fs) by done.
  pose proof (authority_required given v fs Hp) as Hreq.
  destruct (setting "tinkerbell-grpc-authority" given v) as [a|]; simpl.
  - destruct (cmd_Args cmd args); [done|]. rewrite (proj2 Hreq) by by eexists. done.
  - intros Hhook. destruct (validateRequiredFlags _ _) as [e|].
    2: { destruct (proj1 Hreq eq_refl). done. }
    destruct (cmd_Args cmd args); [done|]. unfold go_bind, root_PersistentPreRunE.
    destruct (NewClientConn _ _); [|done]. simpl.
    set (w' := {| c_srv := c_srv w |}). pose proof (Hhook w') as Hw.
    by destruct (cmd_PreRunE cmd w') as [[[e'|]|s|z] w2].
Qed.
End execute.

(** ** Completion scripts and documentation *)

(** What cobra generates: the text a generator writes and its error; trees of
    documents go to files under a path. *)
Class CobraGen := {
  GenBashCompletion : string * option error;
  GenZshCompletion : string * option error;
  (** With descriptions or without. *)
  GenFishCompletion : bool → string * option error;
  GenPowerShellCompletion : string * option error;
  GenMarkdownTree : string → option error;
  (** On the title of the header and the path. *)
  GenManTree : string → string → option error
}.

(** [cobra.ExactValidArgs(1)]. *)
Definition exact_valid_arg (valid args : list string) : option error :=
  match args with
  | [a] => if decide (a ∈ valid) then None else Some (ExtErr ("invalid argument: " +:+ a))
  | _ => Some (ExtErr ("accepts 1 arg(s), received " +:+ Itoa (Z.of_nat (length args))))
  end.

Section generate.
Context {S : Type} `{FT : FlagText} `{PE : ProcessEnv} `{CG : CobraGen}.
#[local] Open Scope go_scope.

Definition emit (r : string * option error) : go (Cli S) (option error) :=
  print (Line r.1) ;;; go_ret r.2.

Definition completion_shells : list string := ["bash"; "zsh"; "fish"; "powershell"].
Definition completion_RunE (args : list string) : go (Cli S) (option error) :=
  match args with
  | [] => go_panic "index out of range"
  | a :: _ =>
      if decide (a = "bash") then emit GenBashCompletion
      else if decide (a = "zsh") then emit GenZshCompletion
      else if decide (a = "fish") then emit (GenFishCompletion true)
      else if decide (a = "powershell") then emit GenPowerShellCompletion
      else go_ret (Some (NewErr ("unknown shell: " +:+ a)))
  end.
Definition completionCmd : command :=
  {| cmd_Args := exact_valid_arg completion_shells; cmd_PreRunE := no_hook; cmd_RunE := completion_RunE |}.

(** [docsPath] is the flag; [name] is [rootCmd.CalledAs()] at initialization. *)
Definition docs_formats : list string := ["markdown"; "man"].
Definition docs_RunE (name docsPath : string) (args : list string) : go (Cli S) (option error) :=
  match args with
  | [] => go_panic "index out of range"
  | format :: _ =>
      if decide (format = "markdown") then go_ret (GenMarkdownTree docsPath)
      else if decide (format = "man") then go_ret (GenManTree name docsPath)
      else go_ret (Some (NewErr ("unknown format: " +:+ format)))
  end.
Definition docsCmd (name docsPath : string) : command :=
  {| cmd_Args := exact_valid_arg docs_formats; cmd_PreRunE := no_hook;
     cmd_RunE := docs_RunE name docsPath |}.

(** The persistent hook of the two commands, in place of the root's. *)
Definition no_connection (authority : string) (tls : bool) : go (Cli S) (option error) := go_ret None.

(** What is generated for an argument. *)
Definition completions : gmap string (string * option error) :=
  {["bash" := GenBashCompletion; "zsh" := GenZshCompletion; "fish" := GenFishCompletion true;
    "powershell" := GenPowerShellCompletion]}.
Definition documents (name path : string) : gmap string (option error) :=
  {["markdown" := GenMarkdownTree path; "man" := GenManTree name path]}.
Definition asked {A} (m : gmap string A) (args : list string) : option A :=
  match args with [a] => m !! a | _ => None end.

(** The two commands generate what the one argument names and refuse any other, so
    that the error at the end of their bodies never arises. They make no connection;
    but the authority of a server is required of them as of every command. *)
Theorem generators_run given v args (w : Cli S) fs name path :
  parse_flags given cli_flags = Ok fs →
  let required := validateRequiredFlags fs (cli_required v) in
  (execute_cmd no_connection given v completionCmd args w =
    match asked completions args, required with
    | Some r, None => emit r w
    | Some _, Some e => (Ret (Some e), w)
    | None, _ => (Ret (exact_valid_arg completion_shells args), w)
    end) ∧
  (execute_cmd no_connection given v (docsCmd name path) args w =
    match asked (documents name path) args, required with
    | Some r, None => (Ret r, w)
    | Some _, Some e => (Ret (Some e), w)
    | None, _ => (Ret (exact_valid_arg docs_formats args), w)
    end) ∧
  (required = None ↔ is_Some (setting "tinkerbell-grpc-authority" given v)).
Proof.
  intros Hp required. split_and!; [..|by apply authority_required]; unfold execute_cmd; rewrite Hp.
  - destruct args as [|a [|? ?]]; [done| |done]. simpl. unfold completions. fold required.
    case_decide as Ha; unfold completion_shells in Ha.
    + rewrite !elem_of_cons in Ha. destruct required; destruct_or? Ha; subst; simplify_map_eq;
        try done; set_solver.
    + by rewrite !lookup_insert_ne, lookup_singleton_ne by set_solver.
  - destruct args as [|a [|? ?]]; [done| |done]. simpl. unfold documents. fold required.
    case_decide as Ha; unfold docs_formats in Ha.
    + rewrite !elem_of_cons in Ha. destruct required; destruct_or? Ha; subst; simplify_map_eq;
        try done; set_solver.
    + by rewrite !lookup_insert_ne, lookup_singleton_ne by set_solver.
Qed.
End generate.

(** ** The groups of commands (template.go, hardware.go, workflow.go)

    A group is a command without a body. Cobra looks for a subcommand by the next
    argument; for a command without a body it prints the help and reports no error,
    before it would check the arguments. *)
Section groups.
Context {S : Type} `{TC : TinkClient S} `{DE : DbEnv} `{TE : TemplateEnv} `{CE : CliEnv} `{FL : Floats}.
Context `{FT : FlagText} `{PE : ProcessEnv}.
#[local] Open Scope go_scope.

(** The flags of the subcommands. *)
Record LocalFlags := {
  lf_file : option string; lf_path : option string; lf_push : string; lf_quiet : bool;
  lf_details : bool; lf_format : string; lf_noheaders : bool; lf_template : option string;
  lf_hardware : option string; lf_version : Z; lf_metadata : bool; lf_latest : bool
}.
Record Group := { g_Args : list string → option error; g_commands : list (string * command (S := S)) }.

(** [Args] of the three groups. *)
Definition group_Args (useLine : string) (args : list string) : option error :=
  if decide (args = []) then Some (NewErr (useLine +:+ " requires arguments")) else None.

Definition NewHardwareCommand (fl : LocalFlags) : Group :=
  {| g_Args := group_Args "tink hardware";
     g_commands :=
       [("get", get_command (hardware_get_options (lf_format fl) (lf_noheaders fl)));
        ("delete", delete_command hardware_DeleteByID);
        ("id", hardware_id); ("ip", hardware_ip (lf_details fl)); ("list", hardware_list (lf_quiet fl));
        ("mac", hardware_mac (lf_details fl)); ("push", hardware_push (lf_push fl))] |}.
(** [version] is the variable TINK_CLI_VERSION. *)
Definition NewTemplateCommand (version : string) (fl : LocalFlags) : Group :=
  {| g_Args := group_Args "tink template";
     g_commands :=
       [("create", template_create (lf_file fl)); ("delete", delete_command template_DeleteByID);
        ("list", template_list (lf_quiet fl)); ("update", template_update (lf_path fl));
        ("get", NewTemplateCommand_get version (lf_format fl) (lf_noheaders fl))] |}.
Definition NewWorkflowCommand (version : string) (fl : LocalFlags) : Group :=
  {| g_Args := group_Args "tink workflow";
     g_commands :=
       [("create", workflow_create (lf_template fl) (lf_hardware fl));
        ("data", workflow_data (lf_version fl) (lf_metadata fl) (lf_latest fl));
        ("delete", delete_command workflow_DeleteByID); ("events", workflow_events);
        ("list", workflow_list (lf_quiet fl)); ("state", workflow_state);
        ("get", NewWorkflowCommand_get version (lf_format fl) (lf_noheaders fl))] |}.
Definition root_groups (version : string) (fl : LocalFlags) : list (string * Group) :=
  [("hardware", NewHardwareCommand fl); ("template", NewTemplateCommand version fl);
   ("workflow", NewWorkflowCommand version fl)].

Definition by_name {A} (name : string) (l : list (string * A)) : option A :=
  snd ∘ snd <$> list_find (λ e, e.1 = name) l.

(** [tink group args...]. *)
Definition run_group (help : string) (given : list (string * string)) (v : Viper) (g : Group)
    (args : list string) : go (Cli S) (option error) :=
  match args with
  | [] => print (Line help) ;;; go_ret None
  | name :: rest =>
      match by_name name (g_commands g) with
      | Some cmd => Execute given v cmd rest
      | None => print (Line help) ;;; go_ret None
      end
  end.

Lemma by_name_elem {A} (l : list (string * A)) name x :
  NoDup l.*1 → (name, x) ∈ l → by_name name l = Some x.
Proof.
  intros Hnd Hin. apply list_elem_of_lookup in Hin as [i Hi]. unfold by_name.
  rewrite (proj2 (list_find_Some _ _ i (name, x))); [done|]. split_and!; [done|done|].
  intros j [n y] Hj Hlt Hn. simpl in Hn. subst.
  assert (j = i); [|lia]. eapply (NoDup_lookup l.*1); [done|by rewrite list_lookup_fmap, Hj|].
  by rewrite list_lookup_fmap, Hi.
Qed.
Lemma by_name_None {A} (l : list (string * A)) name : name ∉ l.*1 → by_name name l = None.
Proof.
  intros Hn. unfold by_name. rewrite (proj2 (list_find_None _ l)); [done|].
  apply Forall_forall. intros [n y] Hin Hy. simpl in Hy. subst. apply Hn, list_elem_of_fmap.
  by exists (name, y).
Qed.

(** What [tink] does with a group. A subcommand of the group runs on the rest of
    the arguments. Without one, and with a word that names none, the help is
    printed and the program succeeds: the check of a group that it has arguments is
    never made, and no server is called. *)
Theorem group_runs version fl group g help given v args (w : Cli S) :
  (group, g) ∈ root_groups version fl →
  (∀ name cmd rest, (name, cmd) ∈ g_commands g → args = name :: rest →
     run_group help given v g args w = Execute given v cmd rest w) ∧
  ((∀ name, head args = Some name → name ∉ (g_commands g).*1) →
     run_group help given v g args w = (Ret None, add_out [Line help] w)).
Proof.
  intros Hg. assert (NoDup (g_commands g).*1) as Hnd.
  { unfold root_groups in Hg. rewrite !elem_of_cons in Hg.
    destruct_or? Hg; simplify_eq; [apply (bool_decide_unpack _); vm_compute; exact I..|].
    by apply elem_of_nil in Hg. }
  split.
  - intros name cmd rest Hin ->. simpl. by rewrite (by_name_elem _ _ _ Hnd Hin).
  - intros Hno. destruct args as [|name rest]; [done|]. simpl.
    by rewrite by_name_None by by apply Hno.
Qed.
End groups.

(** ** Witness *)
Definition print_line : command (S := unit) :=
  {| cmd_Args _ := None; cmd_PreRunE := go_ret None;
     cmd_RunE _ := go_bind (print (Line "ran")) (λ _, go_ret None) |}.
Definition fresh_cli : Cli unit :=
  {| c_srv := tt; c_stdin := Ok ""; c_out := []; c_err := []; c_conn := None |}.
Definition no_env : Viper := {| v_get _ := None; v_config_error := None |}.

Lemma cli_execute_witness :
  (let r := Execute (FT := plain_text) (PE := open_net)
     [("tinkerbell-grpc-authority", "tink:42113"); ("tinkerbell-tls", "f")] no_env print_line []
     fresh_cli in
   r.1 = Ret None ∧ c_conn r.2 = Some {| cc_authority := "tink:42113"; cc_tls := false |}) ∧
  (Execute (FT := plain_text) (PE := open_net) [] no_env print_line [] fresh_cli).1 ≠ Ret None.
Proof.
  split.
  - cbn zeta. rewrite (cli_execute (FT := plain_text) (PE := open_net)
      [("tinkerbell-grpc-authority", "tink:42113"); ("tinkerbell-tls", "f")] no_env print_line []
      fresh_cli _ eq_refl). split; reflexivity.
  - apply (cli_execute (FT := plain_text) (PE := open_net) [] no_env print_line [] fresh_cli _ eq_refl).
    intros w. reflexivity.
Defined.

(** Without the authority of a server, the command that the help gives prints
    nothing and fails. *)
Example completion_needs_authority :
  let gen := {| GenBashCompletion := ("complete -F __start_tink tink", None);
                GenZshCompletion := ("", None); GenFishCompletion _ := ("", None);
                GenPowerShellCompletion := ("", None); GenMarkdownTree _ := None;
                GenManTree _ _ := None |} in
  execute_cmd (FT := plain_text) no_connection [] no_env (completionCmd (CG := gen)) ["bash"] fresh_cli =
    (Ret (Some (NewErr "required flag(s) tinkerbell-grpc-authority not set")), fresh_cli).
Proof. reflexivity. Qed.
