(* ===== verification/Daemon.v ===== *)
(** * Daemon: the programs tink-server and tink-controller
    (src/cmd/tink-server, src/cmd/tink-controller, src/grpc-server, src/http-server,
    src/server/kubernetes_api.go, the construction of src/pkg/controllers/manager.go,
    and connecting and migrating in src/db)

    How the programs come up, and the life of tink-server as a step relation. *)
From S2P Require Import Prelude Json Crd Kube DbBase Migrations DbServer DbHardware Config.
From stdpp Require Import options.

(** ** What the programs call *)

(** clientcmd's loading rules and overrides. *)
Record ClientConfig := { cfg_ExplicitPath : string; cfg_Server : string; cfg_Namespace : string }.

(** The fields of [controllerruntime.Options] that are set. *)
Record ManagerOptions := {
  mo_LeaderElection : bool; mo_LeaderElectionID : string; mo_LeaderElectionNamespace : string;
  mo_MetricsBindAddress : string; mo_HealthProbeBindAddress : string; mo_Namespace : string
}.

Class DaemonEnv := {
  Cert : Type;
  RestConfig : Type;
  (** [tls.LoadX509KeyPair] on the names of the two files. *)
  LoadX509KeyPair : string → string → result Cert;
  (** [ccfg.ClientConfig()] and [ccfg.Namespace()]. *)
  cc_ClientConfig : ClientConfig → result RestConfig;
  cc_Namespace : ClientConfig → result string;
  (** The manager of controller-runtime: its construction, the registration of an
      index, of a controller, of a health check, and its run. *)
  cr_NewManager : RestConfig → ManagerOptions → option error;
  cr_IndexField : string → option error;
  cr_Register : option error;
  cr_AddHealthzCheck : option error;
  cr_Start : option error;
  (** [sql.Open] on the connection string, and [net.Listen], with its address. *)
  sql_Open : string → option error;
  net_Listen : string → result string
}.

(** sql-migrate: the identifiers of the migrations that were applied to a
    database are its records. *)
Class Migrate := {
  (** [migrate.Exec] upwards: the number of migrations it applied. *)
  migrate_Exec : list string → list string → result Z * list string;
  (** [migrate.GetMigrationRecords]. *)
  migrate_GetMigrationRecords : list string → result (list string);
  migrate_Exec_applies ids recs n recs' :
    migrate_Exec ids recs = (Ok n, recs') →
    n = Z.of_nat (length (filter (λ i, i ∉ recs) ids)) ∧ recs' ≡ₚ recs ++ filter (λ i, i ∉ recs) ids;
  migrate_records recs l : migrate_GetMigrationRecords recs = Ok l → l ≡ₚ recs
}.

(** ** The controller manager *)
Section manager.
Context `{DV : DaemonEnv} {W : Type}.
#[local] Open Scope go_scope.

(** [options] of the package is never set: its ports are 0. *)
Definition options_MetricsPort : Z := 0.
Definition options_HealthProbePort : Z := 0.

Definition GetControllerOptions : ManagerOptions :=
  {| mo_LeaderElection := true; mo_LeaderElectionID := "tink-leader-election";
     mo_LeaderElectionNamespace := "";
     mo_MetricsBindAddress := ":" +:+ Itoa options_MetricsPort;
     mo_HealthProbeBindAddress := ":" +:+ Itoa options_HealthProbePort; mo_Namespace := "" |}.
Definition set_mo_Namespace (ns : string) (o : ManagerOptions) : ManagerOptions :=
  {| mo_LeaderElection := mo_LeaderElection o; mo_LeaderElectionID := mo_LeaderElectionID o;
     mo_LeaderElectionNamespace := mo_LeaderElectionNamespace o;
     mo_MetricsBindAddress := mo_MetricsBindAddress o;
     mo_HealthProbeBindAddress := mo_HealthProbeBindAddress o; mo_Namespace := ns |}.
Definition set_mo_LeaderElectionNamespace (ns : string) (o : ManagerOptions) : ManagerOptions :=
  {| mo_LeaderElection := mo_LeaderElection o; mo_LeaderElectionID := mo_LeaderElectionID o;
     mo_LeaderElectionNamespace := ns; mo_MetricsBindAddress := mo_MetricsBindAddress o;
     mo_HealthProbeBindAddress := mo_HealthProbeBindAddress o; mo_Namespace := mo_Namespace o |}.
Definition GetNamespacedControllerOptions (namespace : string) : ManagerOptions :=
  set_mo_Namespace namespace GetControllerOptions.
Definition GetServerOptions : ManagerOptions :=
  {| mo_LeaderElection := false; mo_LeaderElectionID := ""; mo_LeaderElectionNamespace := "";
     mo_MetricsBindAddress := ":" +:+ Itoa options_MetricsPort;
     mo_HealthProbeBindAddress := ":" +:+ Itoa options_HealthProbePort; mo_Namespace := "" |}.

(** The manager: what it was made with, and the fields it has indexed. *)
Record Manager := {
  mgr_options : ManagerOptions; mgr_indexes : list (string * (Object → list string))
}.

Fixpoint index_fields (done l : list (string * (Object → list string)))
    : result (list (string * (Object → list string))) :=
  match l with
  | [] => Ok done
  | (field, extract) :: l' =>
      match cr_IndexField field with
      | Some e => Err (NewErr ("failed to setup " +:+ field +:+ " indexer, " +:+ err_string e))
      | None => index_fields (done ++ [(field, extract)]) l'
      end
  end.
Definition NewManager (config : RestConfig) (options : ManagerOptions) : result Manager :=
  match cr_NewManager config options with
  | Some e => Err e
  | None =>
      match index_fields [] indexers with
      | Err e => Err e
      | Ok l => Ok {| mgr_options := options; mgr_indexes := l |}
      end
  end.
Definition NewManagerOrDie (config : RestConfig) (options : ManagerOptions) : go W Manager :=
  match NewManager config options with Err e => go_panic (err_string e) | Ok m => go_ret m end.

(** [RegisterControllers] for one controller. *)
Definition RegisterControllers (m : Manager) : go W Manager :=
  match cr_Register with
  | Some e => go_panic (err_string e)
  | None =>
      match cr_AddHealthzCheck with
      | Some e => go_panic ("Failed to add readiness probe, " +:+ err_string e)
      | None => go_ret m
      end
  end.

(** ** The Kubernetes-backed server

    The manager is started in the background; an error of its run is logged. *)
Record KubernetesBackedServer := { ks_namespace : string; ks_manager : Manager }.

Definition NewKubeBackedServerFromREST (config : RestConfig) (namespace : string)
    : go W KubernetesBackedServer :=
  let* m := NewManagerOrDie config (set_mo_Namespace namespace GetServerOptions) in
  go_ret {| ks_namespace := namespace; ks_manager := m |}.

Definition NewKubeBackedServer (kubeconfig apiserver namespace : string)
    : go W (result KubernetesBackedServer) :=
  let ccfg := {| cfg_ExplicitPath := kubeconfig; cfg_Server := apiserver;
                 cfg_Namespace := namespace |} in
  match cc_ClientConfig ccfg with
  | Err e => go_ret (Err e)
  | Ok cfg =>
      match cc_Namespace ccfg with
      | Err e => go_ret (Err e)
      | Ok namespace => let* s := NewKubeBackedServerFromREST cfg namespace in go_ret (Ok s)
      end
  end.

(** ** tink-controller *)
Definition controller_RunE (c : ControllerConfig) : go W (option error) :=
  let ccfg := {| cfg_ExplicitPath := Kubeconfig c; cfg_Server := K8sAPI c; cfg_Namespace := "" |} in
  match cc_ClientConfig ccfg with
  | Err e => go_ret (Some e)
  | Ok cfg =>
      match cc_Namespace ccfg with
      | Err e => go_ret (Some e)
      | Ok namespace =>
          match NewManager cfg (set_mo_LeaderElectionNamespace namespace GetControllerOptions) with
          | Err e => go_ret (Some e)
          | Ok m => RegisterControllers m ;;; go_ret cr_Start
          end
      end
  end.
End manager.

(** ** Metrics

    [SetupMetrics] creates series at 0 ([initCounterLabels], [initGaugeLabels] and
    [initObserverLabels]: [With] returns a series that exists as it is). The labels of
    the service and of the facility are the same in every series and left out. *)
Definition CacheDuration := "cache_ops_duration_seconds".
Definition ingestCount := "ingest_op_count_total".
Definition ingestDuration := "ingest_op_duration_seconds".
Definition ingestErrors := "ingest_error_count_total".

Definition init_labels (labels : list (string * string)) (m : gmap metric Z) (family : string)
    : gmap metric Z :=
  foldl (λ m l, if decide (is_Some (m !! (family, l.1, l.2))) then m
                else <[(family, l.1, l.2) := 0]> m) m labels.

Definition push_ingest : list (string * string) := [("Push", ""); ("Ingest", "")].
Definition push_ops : list (string * string) := [("Push", "insert"); ("Push", "delete")].
Definition hardware_ops : list (string * string) :=
  [("ByMAC", "get"); ("ByIP", "get"); ("ByID", "get"); ("All", "get"); ("Ingest", "");
   ("Watch", "get"); ("Watch", "push"); ("Delete", "delete")].
Definition ingest_ops : list (string * string) :=
  [("Ingest", ""); ("Ingest", "fetch"); ("Ingest", "copy")].

Definition SetupMetrics : gmap metric Z :=
  let m := foldl (init_labels push_ingest) ∅ [CacheErrors; CacheInFlight; CacheStalls; CacheTotals] in
  let m := foldl (init_labels push_ops) m [CacheDuration; CacheHits] in
  let m := foldl (init_labels hardware_ops) m
    [CacheErrors; CacheInFlight; CacheStalls; CacheTotals; CacheDuration; CacheHits] in
  let m := foldl (init_labels ingest_ops) m [ingestCount; ingestDuration; ingestErrors] in
  <[(WatchMissTotal, "", "") := 0]> m.

Lemma init_labels_zero labels m family :
  map_Forall (λ _ v, v = 0) m → map_Forall (λ _ v, v = 0) (init_labels labels m family).
Proof.
  revert m. induction labels as [|l labels IH]; intros m Hm; simpl; [done|]. apply IH.
  case_decide; [done|by apply map_Forall_insert_2].
Qed.
Lemma init_families_zero labels families m :
  map_Forall (λ _ v, v = 0) m → map_Forall (λ _ v, v = 0) (foldl (init_labels labels) m families).
Proof.
  revert m. induction families as [|f families IH]; intros m Hm; simpl; [done|].
  by apply IH, init_labels_zero.
Qed.

(** A server reads what one reads whose series are created on their first use. *)
Lemma setup_metrics_zero k : default 0 (SetupMetrics !! k) = 0.
Proof.
  assert (map_Forall (λ _ v, v = 0) SetupMetrics) as H.
  { unfold SetupMetrics. apply map_Forall_insert_2; [done|].
    repeat apply init_families_zero. apply map_Forall_empty. }
  destruct (SetupMetrics !! k) as [v|] eqn:E; [|done]. by apply H in E.
Qed.

(** ** Migrations *)
(** The identifiers of the migrations of [GetMigrations]. *)
Definition migration_ids : list string := m_Id <$> GetMigrations.

Section postgres.
Context `{MG : Migrate} `{DV : DaemonEnv}.
#[local] Open Scope go_scope.

(** The state is the records of the database. *)
Abbreviation Pg := (list string) (only parsing).

Definition Migrate_up : go Pg (result Z) := λ recs,
  let '(r, recs') := migrate_Exec migration_ids recs in (Ret r, recs').
Definition CheckRequiredMigrations : go Pg (result Z) := λ recs,
  (Ret (match migrate_GetMigrationRecords recs with
        | Err e => Err e
        | Ok l => Ok (Z.of_nat (length migration_ids) - Z.of_nat (length l))
        end), recs).

(** [SetupPostgres]: nil for the database when it only migrates. The second
    component is whether the schema is reported to be out of date. *)
Definition SetupPostgres (connInfo : string) (onlyMigrate : bool) : go Pg (result (bool * bool)) :=
  match sql_Open connInfo with
  | Some e => go_ret (Err e)
  | None =>
      if onlyMigrate then
        let* r := Migrate_up in
        go_ret (match r with Err e => Err e | Ok _ => Ok (false, false) end)
      else
        let* r := CheckRequiredMigrations in
        go_ret (match r with Err e => Err e | Ok n => Ok (true, bool_decide (n ≠ 0)) end)
  end.

(** ** tink-server until it serves *)

Inductive registrar := KubeServer (s : KubernetesBackedServer) | PgServer.
Record Serving := {
  sv_registrar : registrar; sv_creds : option Cert; sv_address : string; sv_http : string
}.
Inductive launch := Returns (err : option error) | Serves (s : Serving).

Definition GetCerts (certsDir : string) : result Cert :=
  match LoadX509KeyPair (path_Join [certsDir; "bundle.pem"]) (path_Join [certsDir; "server-key.pem"]) with
  | Err e => Err (WrapErr e "failed to load TLS files")
  | Ok cert => Ok cert
  end.

(** [SetupGRPC] up to its goroutines: registering a server has no outcome. *)
Definition SetupGRPC (listenAddr : string) : result string :=
  match net_Listen listenAddr with
  | Err e => Err (WrapErr e "failed to listen")
  | Ok addr => Ok addr
  end.

Section server.
Context `{LE : LegacyEnv}.

Definition cert_dir (c : DaemonConfig) : string :=
  if decide (CertDir c = "") then
    legacy_Get "TINKERBELL_CERTS_DIR" (path_Join ["/certs"; Facility c])
  else CertDir c.
Definition server_creds (c : DaemonConfig) : result (option Cert) :=
  if TLS c then match GetCerts (cert_dir c) with Err e => Err e | Ok cert => Ok (Some cert) end
  else Ok None.
Definition connInfo (c : DaemonConfig) : string :=
  "dbname=" +:+ PGDatabase c +:+ " user=" +:+ PGUSer c +:+ " password=" +:+ PGPassword c +:+
  " sslmode=" +:+ PGSSLMode c.

(** [RunE] on the configuration [PopulateFromLegacyEnvVar] leaves, up to the
    [select]. *)
Definition start_serving (c : DaemonConfig) (creds : option Cert) (r : registrar) : launch :=
  match SetupGRPC (GRPCAuthority c) with
  | Err e => Returns (Some e)
  | Ok addr => Serves {| sv_registrar := r; sv_creds := creds; sv_address := addr;
                         sv_http := HTTPAuthority c |}
  end.
Definition server_RunE (c : DaemonConfig) : go Pg launch :=
  match server_creds c with
  | Err e => go_ret (Returns (Some e))
  | Ok creds =>
      if decide (Backend c = backendKubernetes) then
        let* r := NewKubeBackedServer (KubeconfigPath c) (KubeAPI c) (KubeNamespace c) in
        go_ret (match r with
                | Err e => Returns (Some e)
                | Ok s => start_serving c creds (KubeServer s)
                end)
      else if decide (Backend c = backendPostgres) then
        let* r := SetupPostgres (connInfo c) (OnlyMigration c) in
        go_ret (match r with
                | Err e => Returns (Some e)
                | Ok _ => if OnlyMigration c then Returns None else start_serving c creds PgServer
                end)
      else go_ret (Returns (Some (NewErr ("invalid backend: " +:+ Backend c))))
  end.
End server.
End postgres.

(** ** The HTTP server *)
Section http.
(** [gitRev], and what the runtime reports: the uptime as JSON writes the float,
    and the number of goroutines. *)
Context (gitRev : string).

(** The answer to a request: its status, its content type and its body. *)
Record http_response := { hr_status : Z; hr_type : string; hr_body : string }.

Definition healthCheckHandler (uptime : string) (goroutines : Z) : http_response :=
  {| hr_status := 200; hr_type := "application/json";
     hr_body := json_print (JObj [("git_rev", JStr gitRev); ("uptime", JNum uptime);
                                  ("goroutines", JNum (Itoa goroutines))]) |}.
Definition getGitRevJSONHandler : http_response :=
  {| hr_status := 200; hr_type := "application/json";
     hr_body := json_print (JObj [("git_rev", JStr gitRev); ("service_name", JStr "tinkerbell")]) |}.
End http.

Lemma http_bodies_parse gitRev uptime goroutines :
  valid_num uptime = true →
  json_parse (hr_body (healthCheckHandler gitRev uptime goroutines)) =
    Some (JObj [("git_rev", JStr gitRev); ("uptime", JNum uptime);
                ("goroutines", JNum (Itoa goroutines))]) ∧
  json_parse (hr_body (getGitRevJSONHandler gitRev)) =
    Some (JObj [("git_rev", JStr gitRev); ("service_name", JStr "tinkerbell")]).
Proof.
  intros Hu. split; apply json_parse_print; [|done]. simpl. by rewrite Hu, (proj1 (Itoa_number _)).
Qed.

(** ** The life of tink-server

    The goroutines of the two servers, of their shutdown, and the end of [RunE].
    A server sends what it returned once, and the channel has room for both. [l_calls]
    counts the calls in flight whose handlers return by themselves, [l_streams] the open
    streams that end only when their client leaves (a watch of hardware, which the server
    never closes when it stops, and reflection). *)
Inductive pc := PSelect | PWait1 | PWait2 | PDone (err : option error).
Record life := {
  l_grpc : bool; l_http : bool; l_calls : nat; l_streams : nat; l_ctx : bool; l_stopping : bool;
  l_ch : list (option error); l_sig : bool; l_pc : pc
}.
Definition l_start : life :=
  {| l_grpc := true; l_http := true; l_calls := 0; l_streams := 0; l_ctx := false;
     l_stopping := false; l_ch := []; l_sig := false; l_pc := PSelect |}.

Definition at_pc (p : pc) (ctx : bool) (ch : list (option error)) (s : life) : life :=
  {| l_grpc := l_grpc s; l_http := l_http s; l_calls := l_calls s; l_streams := l_streams s;
     l_ctx := ctx; l_stopping := l_stopping s; l_ch := ch; l_sig := l_sig s; l_pc := p |}.
Definition grpc_returns (r : option error) (s : life) : life :=
  {| l_grpc := false; l_http := l_http s; l_calls := l_calls s; l_streams := l_streams s;
     l_ctx := l_ctx s; l_stopping := l_stopping s; l_ch := l_ch s ++ [r]; l_sig := l_sig s;
     l_pc := l_pc s |}.
Definition http_returns (r : option error) (s : life) : life :=
  {| l_grpc := l_grpc s; l_http := false; l_calls := l_calls s; l_streams := l_streams s;
     l_ctx := l_ctx s; l_stopping := l_stopping s; l_ch := l_ch s ++ [r]; l_sig := l_sig s;
     l_pc := l_pc s |}.
Definition set_calls (n m : nat) (s : life) : life :=
  {| l_grpc := l_grpc s; l_http := l_http s; l_calls := n; l_streams := m; l_ctx := l_ctx s;
     l_stopping := l_stopping s; l_ch := l_ch s; l_sig := l_sig s; l_pc := l_pc s |}.
Definition set_sig (b : bool) (s : life) : life :=
  {| l_grpc := l_grpc s; l_http := l_http s; l_calls := l_calls s; l_streams := l_streams s;
     l_ctx := l_ctx s; l_stopping := l_stopping s; l_ch := l_ch s; l_sig := b; l_pc := l_pc s |}.
Definition set_stopping (s : life) : life :=
  {| l_grpc := l_grpc s; l_http := l_http s; l_calls := l_calls s; l_streams := l_streams s;
     l_ctx := l_ctx s; l_stopping := true; l_ch := l_ch s; l_sig := l_sig s; l_pc := l_pc s |}.

Definition running (s : life) : Prop := match l_pc s with PDone _ => False | _ => True end.

(** Who takes a step: the program, or a client or the operating system. *)
Inductive who := Program | Outside.

(** A step of the process. A signal that finds one waiting is dropped. *)
Inductive step : who → life → life → Prop :=
  (* the select: only the branch of the signal calls closer() *)
  | step_select_err s r ch :
      l_pc s = PSelect → l_ch s = r :: ch → step Program s (at_pc PWait1 (l_ctx s) ch s)
  | step_select_sig s :
      l_pc s = PSelect → l_sig s = true →
      step Program s (set_sig false (at_pc PWait1 true (l_ch s) s))
  (* the two receives; closer() is deferred *)
  | step_wait1_err s e ch :
      l_pc s = PWait1 → l_ch s = Some e :: ch → step Program s (at_pc (PDone (Some e)) true ch s)
  | step_wait1_ok s ch :
      l_pc s = PWait1 → l_ch s = None :: ch → step Program s (at_pc PWait2 (l_ctx s) ch s)
  | step_wait2 s r ch :
      l_pc s = PWait2 → l_ch s = r :: ch → step Program s (at_pc (PDone r) true ch s)
  (* the gRPC server: Serve fails, or returns nil when GracefulStop is over *)
  | step_grpc_fails s e : running s → l_grpc s = true → step Outside s (grpc_returns (Some e) s)
  | step_graceful_stop s :
      running s → l_ctx s = true → l_stopping s = false → step Program s (set_stopping s)
  | step_grpc_stops s :
      running s → l_grpc s = true → l_stopping s = true → l_calls s = O → l_streams s = O →
      step Program s (grpc_returns None s)
  (* the HTTP server: ListenAndServe fails, or is closed by Shutdown *)
  | step_http_fails s e : running s → l_http s = true → step Outside s (http_returns (Some e) s)
  | step_http_stops s :
      running s → l_http s = true → l_ctx s = true → step Program s (http_returns None s)
  (* calls: a handler returns by itself, a stream is left by its client *)
  | step_call s :
      running s → l_grpc s = true → l_stopping s = false →
      step Outside s (set_calls (S (l_calls s)) (l_streams s) s)
  | step_return s n :
      running s → l_calls s = S n → step Program s (set_calls n (l_streams s) s)
  | step_open s :
      running s → l_grpc s = true → l_stopping s = false →
      step Outside s (set_calls (l_calls s) (S (l_streams s)) s)
  | step_leave s n :
      running s → l_streams s = S n → step Outside s (set_calls (l_calls s) n s)
  (* the operating system *)
  | step_signal s : running s → l_sig s = false → step Outside s (set_sig true s).

Definition steps : life → life → Prop := rtc (λ s s', ∃ b, step b s s').
Definition reachable (s : life) : Prop := steps l_start s.

(** *** The invariant *)
Definition b2n (b : bool) : nat := if b then 1 else 0.

(** How many values the end of [RunE] has received. *)
Definition received (s : life) : nat :=
  match l_pc s with
  | PSelect => 0
  | PWait1 => if l_ctx s then 0 else 1
  | PWait2 => 1
  | PDone _ => 2 - length (l_ch s) - b2n (l_grpc s) - b2n (l_http s)
  end.

Record life_inv (s : life) : Prop := {
  li_count : (length (l_ch s) + received s + b2n (l_grpc s) + b2n (l_http s) = 2)%nat;
  li_nil : None ∈ l_ch s → l_ctx s = true;
  li_stop : l_stopping s = true → l_ctx s = true;
  li_pc : match l_pc s with
          | PSelect => l_ctx s = false
          | PWait1 => True
          | PWait2 => l_ctx s = true
          | PDone (Some _) => l_ctx s = true
          | PDone None => l_ctx s = true ∧ l_grpc s = false ∧ l_http s = false
          end
}.

(** The fields of the next state, by cases on what the counting depends on. *)
Ltac life_solve :=
  constructor; unfold received in *; simpl in *; rewrite ?length_app; simpl in *;
  repeat match goal with
  | |- context [b2n ?b] => destruct b; simpl in *
  | |- context [if ?b then _ else _] => destruct b; simpl in *
  | |- context [match ?p with _ => _ end] => destruct p; simpl in *
  end; try done; try lia;
  try match goal with
  | Hn : None ∈ _ → _ |- _ =>
      intros Hin; apply Hn;
      first [by apply list_elem_of_further
            |by apply elem_of_app in Hin as [Hin|Hin%list_elem_of_singleton]]
  end.

Lemma step_inv b s s' : life_inv s → step b s s' → life_inv s'.
Proof.
  intros [Hc Hn Hs Hp] Hstep. unfold received in Hc.
  destruct Hstep; unfold running in *; destruct s as [g h calls strs ctx stop ch0 sig p];
    simpl in *; subst; simpl in *; try rewrite (Hn (list_elem_of_here _ _)) in *; life_solve.
  - destruct g, h; simpl in *; lia || done.
  - intros _. by apply Hs.
Qed.

Lemma steps_inv s s' : life_inv s → steps s s' → life_inv s'.
Proof. intros Hi Hs. induction Hs as [|s1 s2 s3 [b Hb] _ IH]; [done|]. eauto using step_inv. Qed.
Lemma reachable_inv s : reachable s → life_inv s.
Proof. apply steps_inv. constructor; simpl; try done. set_solver. Qed.

(** *** Termination *)
Definition pc_weight (p : pc) : nat :=
  match p with PSelect => 3 | PWait1 => 2 | PWait2 => 1 | PDone _ => 0 end.
Definition measure (s : life) : nat :=
  l_calls s + l_streams s + 2 * b2n (l_grpc s) + 2 * b2n (l_http s) + 2 * pc_weight (l_pc s) +
  length (l_ch s) + b2n (negb (l_sig s)) + b2n (negb (l_stopping s)).

(** Once [GracefulStop] was called no call starts, and every step comes closer to the
    end. *)
Lemma step_measure b s s' : step b s s' → l_stopping s = true → (measure s' < measure s)%nat.
Proof.
  intros Hstep Hst. destruct Hstep; unfold running in *;
    destruct s as [g h calls strs ctx stop ch0 sig p]; simpl in *; subst; try done;
    unfold measure; simpl; rewrite ?length_app; simpl; lia.
Qed.

Lemma step_stopping b s s' : step b s s' → l_stopping s = true → l_stopping s' = true.
Proof. intros Hstep Hs. by destruct Hstep. Qed.

Lemma stopping_finite s : l_stopping s = true → Acc (λ s' s, ∃ b, step b s s') s.
Proof.
  induction s as [s IH] using (induction_ltof1 _ measure). intros Hs. constructor.
  intros s' [b Hb]. apply IH; [by eapply step_measure|by eapply step_stopping].
Qed.

(** When the context is cancelled and no stream is open, the program can go on. *)
Lemma cancelled_progress s :
  life_inv s → l_ctx s = true → l_streams s = O → running s → ∃ s', step Program s s'.
Proof.
  intros [Hc Hn Hst Hp] Hctx Hstr Hr.
  destruct (l_stopping s) eqn:Es; [|eexists; by apply step_graceful_stop].
  destruct (l_http s) eqn:Eh; [eexists; by apply step_http_stops|].
  destruct (l_calls s) as [|n] eqn:Ecalls; [|eexists; by apply (step_return s n)].
  destruct (l_grpc s) eqn:Eg; [eexists; by apply step_grpc_stops|].
  unfold received in Hc. unfold running in Hr. destruct (l_pc s) as [| | |err] eqn:Epc.
  - congruence.
  - rewrite Hctx in Hc. destruct (l_ch s) as [|[e|] ch] eqn:Ech; [simpl in Hc; lia| |].
    + eexists. by apply (step_wait1_err s e ch).
    + eexists. by apply (step_wait1_ok s ch).
  - destruct (l_ch s) as [|r ch] eqn:Ech; [simpl in Hc; lia|]. eexists. by apply (step_wait2 s r ch).
  - done.
Qed.

(** The context stays cancelled. *)
Lemma step_ctx b s s' : step b s s' → l_ctx s = true → l_ctx s' = true.
Proof. intros Hstep Hs. by destruct Hstep. Qed.
Lemma steps_ctx s s' : steps s s' → l_ctx s = true → l_ctx s' = true.
Proof. induction 1 as [|s1 s2 s3 [b Hb] _ IH]; [done|]. eauto using step_ctx. Qed.

(** How the [select] is left. *)
Lemma select_left b s s' :
  step b s s' → l_pc s = PSelect → l_pc s' ≠ PSelect →
  (∃ r ch, l_ch s = r :: ch ∧ s' = at_pc PWait1 (l_ctx s) ch s) ∨
  (l_sig s = true ∧ s' = set_sig false (at_pc PWait1 true (l_ch s) s)).
Proof.
  intros Hstep Hp Hne. destruct Hstep; simpl in *; try congruence.
  - left. by eexists _, _.
  - by right.
Qed.

(** C30 tink-server stops after a signal. When [RunE] waits in its [select], no server has
    returned and a signal has come, then, once the [select] was left, at every later time
    the program can go on by itself as long as it has not returned, unless a stream is open
    that ends only when its client leaves (a watch of hardware, or reflection); and once
    the goroutine of the gRPC server has called [GracefulStop], every run is finite and
    ends, when the clients of open streams have left, with the program returning, with
    nil only if both servers have returned. *)
Theorem shutdown_terminates s b s1 s2 :
  reachable s → l_pc s = PSelect → l_ch s = [] → l_sig s = true →
  step b s s1 → l_pc s1 ≠ PSelect → steps s1 s2 →
  (running s2 → l_streams s2 = O → ∃ s', step Program s2 s') ∧
  (l_stopping s2 = true →
    Acc (λ s' s, ∃ b, step b s s') s2 ∧
    ∀ s', steps s2 s' → (∀ b s'', ¬ step b s' s'') →
      ∃ err, l_pc s' = PDone err ∧ (err = None → l_grpc s' = false ∧ l_http s' = false)).
Proof.
  intros Hr Hpc Hch Hsig Hstep Hne Hs12.
  assert (l_ctx s1 = true) as Hctx1.
  { apply select_left in Hstep as [(r & ch & E & _)|[_ ->]]; [congruence|done..]. }
  pose proof (step_inv _ _ _ (reachable_inv _ Hr) Hstep) as Hi1.
  pose proof (steps_inv _ _ Hi1 Hs12) as Hi. pose proof (steps_ctx _ _ Hs12 Hctx1) as Hctx.
  split; [intros; by apply cancelled_progress|].
  intros Hst. split; [by apply stopping_finite|]. intros s' Hs Hend.
  pose proof (steps_inv _ _ Hi Hs) as Hi'. pose proof (steps_ctx _ _ Hs Hctx) as Hctx'.
  destruct (l_pc s') as [| | |err] eqn:Epc.
  1-3: assert (running s') as Hr' by (unfold running; by rewrite Epc);
    destruct (l_streams s') as [|n] eqn:Estr;
    [destruct (cancelled_progress s' Hi' Hctx' Estr Hr') as [s'' Hstep'];
     by destruct (Hend Program s'')
    |destruct (Hend Outside (set_calls (l_calls s') n s')); by apply step_leave].
  exists err. split; [done|]. intros ->. pose proof (li_pc _ Hi') as Hp. rewrite Epc in Hp. by apply Hp.
Qed.

(** The program waits for the server that has not failed, or has returned its
    error. *)
Definition waits_for_other (s : life) : Prop :=
  match l_pc s with
  | PWait1 => l_ctx s = false
  | PDone err => err ≠ None ∧ l_grpc s = false ∧ l_http s = false
  | _ => False
  end.

Lemma step_waits b s s' : life_inv s → waits_for_other s → step b s s' → waits_for_other s'.
Proof.
  intros [Hc Hn Hst Hp] Hw Hb. unfold received, waits_for_other in *.
  destruct Hb; unfold running in *; destruct s as [g h calls strs ctx stop ch0 sig p]; simpl in *; subst;
    simpl in *; try done; try (by destruct p).
  - subst ctx. destruct g, h; simpl in Hc; lia || done.
  - specialize (Hn (list_elem_of_here _ _)). congruence.
Qed.

(** C31 tink-server does not stop when one of its servers fails. When [RunE] waits in its
    [select] and no signal has come, the [select] is left with what a server returned; from
    then on the program waits for the other server without cancelling the context and
    without reading signals: whatever follows, it returns only when the other server has
    failed too, although a signal or a new call may come at any time. *)
Theorem failed_server_hangs s b s1 s' :
  reachable s → l_pc s = PSelect → l_sig s = false → step b s s1 → l_pc s1 ≠ PSelect →
  steps s1 s' →
  waits_for_other s' ∧ (l_grpc s' = true ∨ l_http s' = true → running s').
Proof.
  intros Hr Hpc Hsig Hstep Hne Hs. pose proof (reachable_inv _ Hr) as Hi.
  assert (waits_for_other s1) as Hw.
  { apply select_left in Hstep as [(r & ch & _ & ->)|[E _]]; [|congruence|done..].
    unfold waits_for_other. simpl. pose proof (li_pc _ Hi) as Hp. by rewrite Hpc in Hp. }
  assert (waits_for_other s') as Hw'.
  { apply step_inv in Hstep; [|done]. clear Hpc Hsig Hne Hi Hr.
    induction Hs as [|s2 s3 s4 [b' Hb] _ IH]; [done|].
    apply IH; eauto using step_inv, step_waits. }
  split; [done|]. unfold waits_for_other, running in *.
  intros Hone. destruct (l_pc s'); try done. destruct Hw' as (_ & Hg & Hh), Hone; congruence.
Qed.

(** ** Starting *)
Section start.
Context `{MG : Migrate} `{DV : DaemonEnv} `{LE : LegacyEnv}.

Lemma index_fields_all done l :
  index_fields done l = Ok (done ++ l) ∨ ∃ e, index_fields done l = Err e.
Proof using.
  revert done. induction l as [|[f x] l IH]; intros done; simpl; [left; by rewrite app_nil_r|].
  destruct (cr_IndexField f); [by right; eexists|].
  destruct (IH (done ++ [(f, x)])) as [H|H]; [left; by rewrite H, <- app_assoc|by right].
Qed.

(** C37 What is true of a tink-server that serves: it has not touched the schema; it
    serves without TLS exactly when TLS is switched off, and with the certificate of
    the configured directory otherwise; with the postgres backend it was not asked
    to migrate only; and with the kubernetes backend its manager watches one
    namespace, the one clientcmd chooses, without leader election, and has all the
    indexes the handlers query. *)
Theorem server_start c recs sv recs' :
  server_RunE c recs = (Ret (Serves sv), recs') →
  recs' = recs ∧ sv_http sv = HTTPAuthority c ∧
  net_Listen (GRPCAuthority c) = Ok (sv_address sv) ∧
  (sv_creds sv = None ↔ TLS c = false) ∧
  (∀ cert, sv_creds sv = Some cert → GetCerts (cert_dir c) = Ok cert) ∧
  match sv_registrar sv with
  | PgServer => Backend c = "postgres" ∧ OnlyMigration c = false
  | KubeServer s =>
      Backend c = "kubernetes" ∧
      cc_Namespace {| cfg_ExplicitPath := KubeconfigPath c; cfg_Server := KubeAPI c;
                      cfg_Namespace := KubeNamespace c |} = Ok (ks_namespace s) ∧
      mo_Namespace (mgr_options (ks_manager s)) = ks_namespace s ∧
      mo_LeaderElection (mgr_options (ks_manager s)) = false ∧
      mgr_indexes (ks_manager s) = indexers
  end.
Proof.
  intros H. unfold server_RunE in H.
  destruct (server_creds c) as [creds|] eqn:Hcreds; [|done].
  assert ((creds = None ↔ TLS c = false) ∧ ∀ cert, creds = Some cert → GetCerts (cert_dir c) = Ok cert)
    as [Htls Hcert].
  { unfold server_creds in Hcreds. destruct (TLS c); [|by simplify_eq].
    destruct (GetCerts _); naive_solver. }
  assert (∀ r, start_serving c creds r = Serves sv → sv_registrar sv = r ∧ sv_creds sv = creds ∧
    sv_http sv = HTTPAuthority c ∧ net_Listen (GRPCAuthority c) = Ok (sv_address sv)) as Hserve.
  { intros r Hr. unfold start_serving, SetupGRPC in Hr. destruct (net_Listen _); by simplify_eq/=. }
  case_decide as Hk; [|case_decide as Hpg; [|done]].
  - unfold NewKubeBackedServer in H. destruct (cc_ClientConfig _) as [cfg|]; [|done].
    destruct (cc_Namespace _) as [ns|]; [|done].
    unfold NewKubeBackedServerFromREST, NewManagerOrDie, NewManager in H.
    destruct (cr_NewManager _ _); [done|].
    destruct (index_fields_all [] indexers) as [Hix|[e Hix]]; rewrite Hix in H; [|done].
    unfold go_bind, go_ret in H. injection H as Hs <-.
    destruct (Hserve _ Hs) as (-> & -> & -> & ->). by split_and!.
  - unfold SetupPostgres in H. destruct (sql_Open _); [done|]. unfold go_bind, go_ret in H.
    destruct (OnlyMigration c) eqn:Hom.
    + unfold Migrate_up in H. destruct (migrate_Exec _ _) as [[] ?]; done.
    + unfold CheckRequiredMigrations in H. destruct (migrate_GetMigrationRecords recs); [|done].
      injection H as Hs <-. destruct (Hserve _ Hs) as (-> & -> & -> & ->). by split_and!.
Qed.

(** The migrations of a database. On records that are some of the program's
    migrations, each once, the number a start finds to be required is that of the
    migrations that were not applied; and a run that only migrates and succeeds
    applies exactly these, after which nothing is required. *)
Theorem migrations_counted recs :
  NoDup recs → (∀ i, i ∈ recs → i ∈ migration_ids) →
  let missing := Z.of_nat (length (filter (λ i, i ∉ recs) migration_ids)) in
  (∀ n recs', CheckRequiredMigrations recs = (Ret (Ok n), recs') → n = missing ∧ recs' = recs) ∧
  (∀ n recs', Migrate_up recs = (Ret (Ok n), recs') →
    n = missing ∧ recs' ≡ₚ migration_ids ∧
    ∀ m l, CheckRequiredMigrations recs' = (Ret (Ok m), l) → m = 0).
Proof.
  intros Hnd Hsub missing.
  assert (recs ++ filter (λ i, i ∉ recs) migration_ids ≡ₚ migration_ids) as Hall.
  { apply NoDup_Permutation.
    - apply NoDup_app. split_and!; [done|by intros i ? [??]%list_elem_of_filter|].
      apply NoDup_filter. by apply (bool_decide_unpack _).
    - by apply (bool_decide_unpack _).
    - intros i. rewrite elem_of_app, list_elem_of_filter. destruct (decide (i ∈ recs)); naive_solver. }
  assert (∀ l n l', CheckRequiredMigrations l = (Ret (Ok n), l') →
    n = Z.of_nat (length migration_ids) - Z.of_nat (length l) ∧ l' = l) as Hcheck.
  { intros l n l' H. unfold CheckRequiredMigrations in H.
    destruct (migrate_GetMigrationRecords l) as [x|] eqn:E; simplify_eq.
    by rewrite (migrate_records _ _ E). }
  split.
  - intros n recs' H. destruct (Hcheck recs n recs' H) as [-> ->].
    split; [|done]. unfold missing. rewrite <- Hall at 1. rewrite length_app. lia.
  - intros n recs' H. unfold Migrate_up in H. destruct (migrate_Exec _ _) as [r recs1] eqn:E.
    simplify_eq. destruct (migrate_Exec_applies _ _ _ _ E) as [-> Hp]. rewrite Hall in Hp.
    split; [done|]. split; [done|]. intros m l H. destruct (Hcheck _ _ _ H) as [-> _].
    rewrite Hp. lia.
Qed.
End start.

(** ** Witnesses *)
Definition demo_daemon : DaemonEnv :=
  {| Cert := string; RestConfig := unit; LoadX509KeyPair b k := Ok (b +:+ "," +:+ k);
     cc_ClientConfig _ := Ok tt; cc_Namespace c := Ok (cfg_Namespace c);
     cr_NewManager _ _ := None; cr_IndexField _ := None; cr_Register := None;
     cr_AddHealthzCheck := None; cr_Start := None; sql_Open _ := None; net_Listen a := Ok a |}.

(** A database to which migrations are applied in order, one by one. *)
Definition demo_migrate : Migrate.
Proof.
  refine {| migrate_Exec ids recs := (Ok (Z.of_nat (length (filter (λ i, i ∉ recs) ids))),
                                      recs ++ filter (λ i, i ∉ recs) ids);
            migrate_GetMigrationRecords recs := Ok recs |}.
  - intros ids recs n recs' H. by simplify_eq.
  - intros recs l H. by simplify_eq.
Defined.

Definition demo_config : DaemonConfig :=
  {| Facility := "onprem"; PGDatabase := "tink"; PGUSer := "tink"; PGPassword := "tink";
     PGSSLMode := "disable"; OnlyMigration := true; GRPCAuthority := ":42113"; CertDir := "";
     HTTPAuthority := ":42114"; TLS := true; Backend := "kubernetes"; KubeconfigPath := "";
     KubeAPI := ""; KubeNamespace := "tink-system" |}.

(** The kubernetes backend serves although only migrations were asked for. *)
Lemma server_start_witness :
  ∃ sv, server_RunE (MG := demo_migrate) (DV := demo_daemon) (LE := demo_legacy) demo_config [] =
      (Ret (Serves sv), []) ∧
    sv_creds sv = Some "/certs/onprem/bundle.pem,/certs/onprem/server-key.pem" ∧
    OnlyMigration demo_config = true ∧ Backend demo_config = "kubernetes".
Proof.
  eexists. split; [vm_compute; reflexivity|].
  destruct (server_start (MG := demo_migrate) (DV := demo_daemon) (LE := demo_legacy) demo_config [] _ _
    eq_refl) as (_ & _ & _ & _ & Hc & Hk).
  split; [|split; [reflexivity|exact (proj1 Hk)]].
  specialize (Hc _ eq_refl). reflexivity.
Defined.

(** Four migrations are missing, and are counted before and after. *)
Lemma migrations_counted_witness :
  (∀ n l, CheckRequiredMigrations (MG := demo_migrate) (take 3 migration_ids) = (Ret (Ok n), l) → n = 4) ∧
  (∀ n l, Migrate_up (MG := demo_migrate) (take 3 migration_ids) = (Ret (Ok n), l) → l ≡ₚ migration_ids).
Proof.
  destruct (migrations_counted (MG := demo_migrate) (take 3 migration_ids)) as [H1 H2].
  - apply (bool_decide_unpack _). vm_compute. exact I.
  - intros i Hi. rewrite <- (take_drop 3 migration_ids). apply elem_of_app. by left.
  - split; [|intros n l H; by apply (H2 n l H)].
    intros n l H. destruct (H1 n l H) as [-> _]. reflexivity.
Defined.

(** A migration the program does not know hides one that is missing. *)
Example unknown_migration_hides :
  CheckRequiredMigrations (MG := demo_migrate) ("9999-newer" :: take 6 migration_ids) =
    (Ret (Ok 0), "9999-newer" :: take 6 migration_ids).
Proof. reflexivity. Qed.

Lemma steps_once b s s' : step b s s' → steps s s'.
Proof. intros H. apply rtc_once. by exists b. Qed.

(** A signal has come, with a call in flight; the [select] is left, and the gRPC server is
    stopped. *)
Definition signal_waits : life :=
  {| l_grpc := true; l_http := true; l_calls := 1; l_streams := 0; l_ctx := false;
     l_stopping := false; l_ch := []; l_sig := true; l_pc := PSelect |}.
Definition signal_taken : life := set_sig false (at_pc PWait1 true [] signal_waits).

Lemma shutdown_terminates_witness :
  reachable signal_waits ∧ step Program signal_waits signal_taken ∧
  steps signal_taken (set_stopping signal_taken) ∧
  Acc (λ s' s, ∃ b, step b s s') (set_stopping signal_taken) ∧
  ∃ s', step Program (set_stopping signal_taken) s'.
Proof.
  assert (reachable signal_waits) as Hr.
  { eapply rtc_l; [exists Outside; by apply (step_call l_start)|].
    eapply rtc_l; [exists Outside; by eapply step_signal|]. apply rtc_refl. }
  assert (step Program signal_waits signal_taken) as Hs by by apply step_select_sig.
  assert (steps signal_taken (set_stopping signal_taken)) as Hs2
    by (apply (steps_once Program); by apply step_graceful_stop).
  destruct (shutdown_terminates signal_waits Program signal_taken (set_stopping signal_taken) Hr
    eq_refl eq_refl eq_refl Hs ltac:(discriminate) Hs2) as [H1 H2].
  split; [exact Hr|]. split; [exact Hs|]. split; [exact Hs2|].
  split; [exact (proj1 (H2 eq_refl))|exact (H1 I eq_refl)].
Defined.

(** A watch that is open when the signal comes keeps the program from returning: once the
    HTTP server has stopped, only the client can go on. *)
Example watch_keeps_running :
  let s := {| l_grpc := true; l_http := false; l_calls := 0; l_streams := 1; l_ctx := true;
              l_stopping := true; l_ch := []; l_sig := false; l_pc := PWait2 |} in
  running s ∧ ∀ s', ¬ step Program s s'.
Proof.
  split; [done|]. intros s' Hs. remember Program as b eqn:Eb.
  remember ({| l_grpc := true; l_http := false; l_calls := 0; l_streams := 1; l_ctx := true;
              l_stopping := true; l_ch := []; l_sig := false; l_pc := PWait2 |}) as s eqn:Es.
  destruct Hs; subst; simpl in *; try discriminate.
Qed.

(** The HTTP server cannot listen; the [select] receives that, a signal follows and changes
    nothing. *)
Definition http_failed : life := http_returns (Some (ExtErr "address already in use")) l_start.
Definition failure_taken : life := at_pc PWait1 false [] http_failed.

Lemma failed_server_hangs_witness :
  reachable http_failed ∧ step Program http_failed failure_taken ∧
  steps failure_taken (set_sig true failure_taken) ∧
  waits_for_other (set_sig true failure_taken) ∧ running (set_sig true failure_taken).
Proof.
  assert (reachable http_failed) as Hr.
  { apply (steps_once Outside). by apply step_http_fails. }
  assert (step Program http_failed failure_taken) as Hs
    by by apply (step_select_err http_failed (Some (ExtErr "address already in use")) []).
  assert (steps failure_taken (set_sig true failure_taken)) as Hs2
    by (apply (steps_once Outside); by apply step_signal).
  destruct (failed_server_hangs http_failed Program failure_taken (set_sig true failure_taken) Hr
    eq_refl eq_refl Hs ltac:(discriminate) Hs2) as [H1 H2].
  split; [exact Hr|]. split; [exact Hs|]. split; [exact Hs2|].
  split; [exact H1|]. apply H2. left. reflexivity.
Defined.
