(* ===== verification/Servers.v ===== *)
(** * Servers: what tink-server serves (src/grpc-server/grpc_server.go,
    src/http-server/http_server.go, the [Register] methods of
    src/server/dbserver.go and kubernetes_api.go, and the service descriptions of
    src/protos)

    The services that a backend registers on the gRPC server and the calls that
    reach a handler; the pages of the HTTP server and Go's [ServeMux], with its
    redirects to clean paths. *)
From S2P Require Import Prelude Proto Json Template Service Kube K8sServer DbBase DbServer DbHardware Client Config Daemon.
From stdpp Require Import options.

(** Decides a closed goal. *)
Ltac decided := apply (bool_decide_unpack _); vm_compute; exact I.

(** ** Service descriptions (protos/*/*_grpc.pb.go) *)
Record ServiceDesc := {
  sd_ServiceName : string; sd_Methods : list string; sd_Streams : list string
}.

Definition HardwareService_ServiceDesc : ServiceDesc :=
  {| sd_ServiceName := "github.com.tinkerbell.tink.protos.hardware.HardwareService";
     sd_Methods := ["Push"; "ByMAC"; "ByIP"; "ByID"; "Delete"];
     sd_Streams := ["All"; "DeprecatedWatch"] |}.
Definition TemplateService_ServiceDesc : ServiceDesc :=
  {| sd_ServiceName := "github.com.tinkerbell.tink.protos.template.TemplateService";
     sd_Methods := ["CreateTemplate"; "GetTemplate"; "DeleteTemplate"; "UpdateTemplate"];
     sd_Streams := ["ListTemplates"] |}.
Definition WorkflowService_ServiceDesc : ServiceDesc :=
  {| sd_ServiceName := "github.com.tinkerbell.tink.protos.workflow.WorkflowService";
     sd_Methods := ["CreateWorkflow"; "GetWorkflow"; "DeleteWorkflow"; "GetWorkflowContext";
                    "GetWorkflowContextList"; "GetWorkflowActions"; "ReportActionStatus";
                    "GetWorkflowData"; "GetWorkflowMetadata"; "GetWorkflowDataVersion";
                    "UpdateWorkflowData"];
     sd_Streams := ["ListWorkflows"; "ShowWorkflowEvents"; "GetWorkflowContexts"] |}.

(** The name under which gRPC calls a method of a service. *)
Definition full_method (service m : string) : string := "/" +:+ service +:+ "/" +:+ m.
Definition paths (d : ServiceDesc) : list string :=
  full_method (sd_ServiceName d) <$> sd_Methods d ++ sd_Streams d.

(** ** The gRPC server *)
Section grpc.
Context `{DV : DaemonEnv}.

(** The options that are passed: chains of interceptors by their names, and
    credentials. *)
Inductive ServerOption :=
  | UnaryServerChain (l : list string)
  | StreamServerChain (l : list string)
  | Creds (c : Cert).

Definition is_unary (o : ServerOption) : bool :=
  match o with UnaryServerChain _ => true | _ => false end.
Definition is_stream (o : ServerOption) : bool :=
  match o with StreamServerChain _ => true | _ => false end.

(** What grpc-go documents of its server: setting an interceptor twice panics,
    registering the name of a service twice ends the process, and a call reaches a
    handler when its service is registered and has the method. [None] is the end of
    the process. *)
Class GrpcServer := {
  gserver : Type;
  grpc_NewServer : list ServerOption → option gserver;
  RegisterService : ServiceDesc → gserver → option gserver;
  (** The service that [reflection.Register] registers. *)
  reflection_desc : ServiceDesc;
  (** [GetServiceInfo], and whether a call of this name has a handler. *)
  gs_services : gserver → list ServiceDesc;
  gs_handles : gserver → string → bool;
  NewServer_ok opts :
    (length (filter is_unary opts) ≤ 1)%nat → (length (filter is_stream opts) ≤ 1)%nat →
    ∃ s, grpc_NewServer opts = Some s ∧ gs_services s = [];
  RegisterService_ok d s :
    sd_ServiceName d ∉ sd_ServiceName <$> gs_services s →
    ∃ s', RegisterService d s = Some s' ∧ gs_services s' ≡ₚ d :: gs_services s;
  RegisterService_twice d s :
    sd_ServiceName d ∈ sd_ServiceName <$> gs_services s → RegisterService d s = None;
  gs_handles_spec s p : gs_handles s p = true ↔ ∃ d, d ∈ gs_services s ∧ p ∈ paths d;
  reflection_name : sd_ServiceName reflection_desc = "grpc.reflection.v1alpha.ServerReflection"
}.

Context `{GS : GrpcServer}.

Definition RegisterTemplateServiceServer : gserver → option gserver :=
  RegisterService TemplateService_ServiceDesc.
Definition RegisterWorkflowServiceServer : gserver → option gserver :=
  RegisterService WorkflowService_ServiceDesc.
Definition RegisterHardwareServiceServer : gserver → option gserver :=
  RegisterService HardwareService_ServiceDesc.

(** [Register] of the two servers, and of the interface [Registrar]. *)
Definition DBServer_Register (s : gserver) : option gserver :=
  s ← RegisterTemplateServiceServer s;
  s ← RegisterWorkflowServiceServer s;
  RegisterHardwareServiceServer s.
Definition KubernetesBackedServer_Register (s : gserver) : option gserver :=
  RegisterWorkflowServiceServer s.

Definition Register (r : registrar) : gserver → option gserver :=
  match r with
  | PgServer => DBServer_Register
  | KubeServer _ => KubernetesBackedServer_Register
  end.

(** The server that [SetupGRPC] builds before it listens; registering it for
    Prometheus creates its counters. *)
Definition grpc_params (opts : list ServerOption) : list ServerOption :=
  [UnaryServerChain ["grpc_prometheus.UnaryServerInterceptor"; "otelgrpc.UnaryServerInterceptor"];
   StreamServerChain ["grpc_prometheus.StreamServerInterceptor"; "otelgrpc.StreamServerInterceptor"]]
  ++ opts.
Definition build_grpc (r : registrar) (opts : list ServerOption) : option gserver :=
  s ← grpc_NewServer (grpc_params opts);
  s ← Register r s;
  RegisterService reflection_desc s.

(** [SetupGRPC] with its server, and the options of tink-server's [RunE]. *)
Definition SetupGRPC_server (r : registrar) (listenAddr : string) (opts : list ServerOption)
    : option (gserver * result string) :=
  s ← build_grpc r opts; Some (s, SetupGRPC listenAddr).
Definition grpc_opts (creds : option Cert) : list ServerOption :=
  match creds with Some c => [Creds c] | None => [] end.

(** *** What is served *)
Definition services (r : registrar) : list ServiceDesc :=
  match r with
  | PgServer => [HardwareService_ServiceDesc; WorkflowService_ServiceDesc; TemplateService_ServiceDesc]
  | KubeServer _ => [WorkflowService_ServiceDesc]
  end.

Lemma register_new d s l :
  gs_services s ≡ₚ l → sd_ServiceName d ∉ sd_ServiceName <$> l →
  ∃ s', RegisterService d s = Some s' ∧ gs_services s' ≡ₚ d :: l.
Proof.
  intros Hl Hd. destruct (RegisterService_ok d s) as (s' & Hs & Hp); [by rewrite Hl|].
  exists s'. by rewrite Hp, Hl.
Qed.

Lemma Register_services r s :
  gs_services s = [] → ∃ s', Register r s = Some s' ∧ gs_services s' ≡ₚ services r.
Proof.
  intros H0. destruct r as [k|]; simpl.
  - destruct (register_new WorkflowService_ServiceDesc s []) as (s' & ? & ?); [by rewrite H0|set_solver|].
    by exists s'.
  - unfold DBServer_Register.
    destruct (register_new TemplateService_ServiceDesc s []) as (s1 & E1 & H1); [by rewrite H0|set_solver|].
    destruct (register_new WorkflowService_ServiceDesc s1 _ H1) as (s2 & E2 & H2).
    { decided. }
    destruct (register_new HardwareService_ServiceDesc s2 _ H2) as (s3 & E3 & H3).
    { decided. }
    exists s3. unfold RegisterTemplateServiceServer. rewrite E1. simpl.
    unfold RegisterWorkflowServiceServer. by rewrite E2.
Qed.

(** However the registrar and the credentials are chosen, the server is built. *)
Lemma build_grpc_services r creds :
  ∃ s, build_grpc r (grpc_opts creds) = Some s ∧ gs_services s ≡ₚ reflection_desc :: services r.
Proof.
  unfold build_grpc.
  destruct (NewServer_ok (grpc_params (grpc_opts creds))) as (s0 & -> & H0);
    [by destruct creds; vm_compute; lia..|].
  simpl. destruct (Register_services r s0 H0) as (s1 & -> & H1). simpl.
  apply register_new; [done|]. rewrite reflection_name.
  by destruct r; decided.
Qed.
End grpc.

(** ** The calls of the client

    A call with its request, the name it is invoked under (the clients of
    protos/*/*_grpc.pb.go), and the error it ends with. *)
Inductive rpc :=
  | RPush (d : option PbHardware) | RByMAC (mac : string) | RByIP (ip : string)
  | RByID (id : string) | RAll | RDelete (id : string)
  | RCreateTemplate (name data : string) | RGetTemplate (by_ : option GetBy)
  | RDeleteTemplate (by_ : option GetBy) | RListTemplates (name : string)
  | RUpdateTemplate (t : WorkflowTemplate)
  | RCreateWorkflow (template hardware : string) | RGetWorkflow (id : string)
  | RDeleteWorkflow (id : string) | RListWorkflows | RGetWorkflowContext (id : string)
  | RShowWorkflowEvents (id : string) | RGetWorkflowData (req : GetWorkflowDataRequest)
  | RGetWorkflowMetadata (req : GetWorkflowDataRequest)
  | RGetWorkflowDataVersion (req : GetWorkflowDataRequest).

Definition hardware_path : string → string := full_method (sd_ServiceName HardwareService_ServiceDesc).
Definition template_path : string → string := full_method (sd_ServiceName TemplateService_ServiceDesc).
Definition workflow_path : string → string := full_method (sd_ServiceName WorkflowService_ServiceDesc).

Definition rpc_path (c : rpc) : string :=
  match c with
  | RPush _ => hardware_path "Push" | RByMAC _ => hardware_path "ByMAC"
  | RByIP _ => hardware_path "ByIP" | RByID _ => hardware_path "ByID"
  | RAll => hardware_path "All" | RDelete _ => hardware_path "Delete"
  | RCreateTemplate _ _ => template_path "CreateTemplate"
  | RGetTemplate _ => template_path "GetTemplate"
  | RDeleteTemplate _ => template_path "DeleteTemplate"
  | RListTemplates _ => template_path "ListTemplates"
  | RUpdateTemplate _ => template_path "UpdateTemplate"
  | RCreateWorkflow _ _ => workflow_path "CreateWorkflow"
  | RGetWorkflow _ => workflow_path "GetWorkflow"
  | RDeleteWorkflow _ => workflow_path "DeleteWorkflow"
  | RListWorkflows => workflow_path "ListWorkflows"
  | RGetWorkflowContext _ => workflow_path "GetWorkflowContext"
  | RShowWorkflowEvents _ => workflow_path "ShowWorkflowEvents"
  | RGetWorkflowData _ => workflow_path "GetWorkflowData"
  | RGetWorkflowMetadata _ => workflow_path "GetWorkflowMetadata"
  | RGetWorkflowDataVersion _ => workflow_path "GetWorkflowDataVersion"
  end.

Section answers.
Context {S : Type} `{TC : TinkClient S}.
#[local] Open Scope go_scope.

Definition ends_with {A} (c : go S (result A)) : go S (option error) :=
  let* r := c in go_ret (result_err r).
(** A stream that was read to its end. *)
Definition stream_ends_with {M} (c : go S (result (stream M))) : go S (option error) :=
  let* r := c in
  go_ret (match r with
          | Err e => Some e
          | Ok st => if decide (st_err st = EOF) then None else Some (st_err st)
          end).

Definition answer (c : rpc) : go S (option error) :=
  match c with
  | RPush d => ends_with (hc_Push d)
  | RByMAC m => ends_with (hc_ByMAC m)
  | RByIP i => ends_with (hc_ByIP i)
  | RByID i => ends_with (hc_ByID i)
  | RAll => stream_ends_with hc_All
  | RDelete i => ends_with (hc_Delete i)
  | RCreateTemplate n d => ends_with (tc_CreateTemplate n d)
  | RGetTemplate b => ends_with (tc_GetTemplate b)
  | RDeleteTemplate b => ends_with (tc_DeleteTemplate b)
  | RListTemplates n => stream_ends_with (tc_ListTemplates n)
  | RUpdateTemplate t => ends_with (tc_UpdateTemplate t)
  | RCreateWorkflow t h => ends_with (wc_CreateWorkflow t h)
  | RGetWorkflow i => ends_with (wc_GetWorkflow i)
  | RDeleteWorkflow i => ends_with (wc_DeleteWorkflow i)
  | RListWorkflows => stream_ends_with wc_ListWorkflows
  | RGetWorkflowContext i => ends_with (wc_GetWorkflowContext i)
  | RShowWorkflowEvents i => stream_ends_with (wc_ShowWorkflowEvents i)
  | RGetWorkflowData r => ends_with (wc_GetWorkflowData r)
  | RGetWorkflowMetadata r => ends_with (wc_GetWorkflowMetadata r)
  | RGetWorkflowDataVersion r => ends_with (wc_GetWorkflowDataVersion r)
  end.
End answers.

(** The methods of the two servers, as clients see their results. The Kubernetes-backed
    one has those of the workflow service and no others. *)
Section handlers.
Context `{DE : DbEnv} `{TE : TemplateEnv} `{MR : MapRange} `{SE : ServerEnv} `{HJ : HardwareJson}.
Context {W : Type}.

Definition db_handler (c : rpc) : option (go (Remote DBServer) (option error)) :=
  Some (answer (TC := db_client) c).
Definition k8s_handler (c : rpc) : option (go (Remote W) (option error)) :=
  match c with
  | RCreateWorkflow t h => Some (ends_with (unary (K8sServer.CreateWorkflow t h)))
  | RGetWorkflow i => Some (ends_with (unary (K8sServer.GetWorkflow i)))
  | RDeleteWorkflow i => Some (ends_with (unary_err (K8sServer.DeleteWorkflow i)))
  | RListWorkflows => Some (stream_ends_with (streaming K8sServer.ListWorkflows))
  | RGetWorkflowContext i => Some (ends_with (unary (K8sServer.GetWorkflowContext i)))
  | RShowWorkflowEvents i => Some (stream_ends_with (streaming (K8sServer.ShowWorkflowEvents i)))
  | RGetWorkflowData r => Some (ends_with (unary_pair (K8sServer.GetWorkflowData r)))
  | RGetWorkflowMetadata r => Some (ends_with (unary_pair (K8sServer.GetWorkflowMetadata r)))
  | RGetWorkflowDataVersion r => Some (ends_with (unary_pair (K8sServer.GetWorkflowDataVersion r)))
  | _ => None
  end.
End handlers.

Definition unimplemented : error := StatusErr Unimplemented "unknown service".

Section served.
Context `{DV : DaemonEnv} `{GS : !GrpcServer}.
Context `{DE : DbEnv} `{TE : TemplateEnv} `{MR : MapRange} `{SE : ServerEnv} `{HJ : HardwareJson}.
Context {W : Type}.

(** A call that arrives at a gRPC server whose services are implemented by [methods]: gRPC
    looks up its name among the services that were registered, and answers itself when it
    is not there. A service is registered with a value that has all its methods. *)
Definition serve {S} (s : gserver) (methods : rpc → option (go (Remote S) (option error))) (c : rpc)
    : go (Remote S) (option error) := λ st,
  if rm_up st then
    if gs_handles s (rpc_path c) then
      match methods c with
      | Some h => h st
      | None => (Panic "no such method", st)
      end
    else (Ret (Some unimplemented), st)
  else (Ret (Some unavailable), st).

(** A call has a handler when its service is among those of the registrar. *)
Lemma call_routed r c s :
  gs_services s ≡ₚ reflection_desc :: services r →
  gs_handles s (rpc_path c) = true ↔ ∃ d, d ∈ services r ∧ rpc_path c ∈ paths d.
Proof.
  intros Hs. rewrite gs_handles_spec. setoid_rewrite Hs. split.
  - intros (d & [->|Hd]%elem_of_cons & Hp); [|by exists d]. exfalso. revert Hp.
    unfold paths. rewrite reflection_name, list_elem_of_fmap. intros (m & Hm & _).
    destruct c; discriminate Hm.
  - intros (d & Hd & Hp). exists d. split; [by right|done].
Qed.

End served.

(** ** The HTTP server

    [http.DefaultServeMux], for patterns without a host and a slash at the end:
    a request is answered by the handler of its path; a path that is not clean is
    redirected to the clean one. *)

(** [cleanPath] of net/http; a path ends in a slash when nothing follows the
    last one. *)
Definition ends_in_slash (p : string) : bool := bool_decide (last (split_on slash p) = Some "").
Definition cleanPath (p : string) : string :=
  if decide (p = "") then "/"
  else
    let p := if HasPrefix p "/" then p else "/" +:+ p in
    let np := Clean p in
    if ends_in_slash p && bool_decide (np ≠ "/") then np +:+ "/" else np.

Record request := { rq_Method : string; rq_Path : string }.
Inductive http_answer := Answer (r : http_response) | MovedPermanently (path : string).

Definition not_found : http_response :=
  {| hr_status := 404; hr_type := "text/plain; charset=utf-8";
     hr_body := "404 page not found" +:+ String (Ascii.ascii_of_nat 10) "" |}.

Section http.
(** The revision of the build, what promhttp answers, and the runtime: the
    uptime and the number of goroutines. *)
Context (gitRev : string) (metrics_page : http_response).
#[local] Open Scope go_scope.

Definition runtime : Type := string * Z.
Definition handler : Type := runtime → http_response.
Definition ServeMux : Type := list (string * handler).

Definition http_Handle (pattern : string) (h : handler) : go ServeMux unit := λ mux,
  if decide (pattern ∈ mux.*1) then (Panic ("http: multiple registrations for " +:+ pattern), mux)
  else (Ret tt, mux ++ [(pattern, h)]).

(** [SetupHTTP] up to its goroutines. *)
Definition SetupHTTP : go ServeMux unit :=
  http_Handle "/metrics" (λ _, metrics_page) ;;;
  http_Handle "/version" (λ _, getGitRevJSONHandler gitRev) ;;;
  http_Handle "/healthz" (λ rt, healthCheckHandler gitRev rt.1 rt.2).

Definition mux_handler (mux : ServeMux) (path : string) (rt : runtime) : http_response :=
  match list_find (λ e, e.1 = path) mux with Some (_, (_, h)) => h rt | None => not_found end.
Definition ServeHTTP (mux : ServeMux) (rq : request) (rt : runtime) : http_answer :=
  if decide (rq_Method rq = "CONNECT") then Answer (mux_handler mux (rq_Path rq) rt)
  else if decide (cleanPath (rq_Path rq) = rq_Path rq) then Answer (mux_handler mux (rq_Path rq) rt)
  else MovedPermanently (cleanPath (rq_Path rq)).

(** *** Clean paths *)
(** A string without a slash. *)
Definition plain (e : string) : Prop := split_on slash e = [e].

Lemma split_on_plain s : Forall plain (split_on slash s).
Proof.
  unfold plain. induction s as [|c s IH]; simpl; [by repeat constructor|].
  destruct (split_on slash s) as [|w ws] eqn:E; [by repeat constructor|].
  apply Forall_cons in IH as [Hw Hws].
  destruct (Ascii.eqb c slash) eqn:Ec; repeat constructor; try done.
  simpl. by rewrite Hw, Ec.
Qed.

Lemma split_on_app_slash e s : plain e → split_on slash (e +:+ "/" +:+ s) = e :: split_on slash s.
Proof.
  unfold plain. induction e as [|c e IH]; simpl; intros He.
  - destruct (split_on slash s) as [|w ws] eqn:E; [by apply split_on_nonempty in E|].
    change ("" +:+ s) with s. by rewrite E.
  - destruct (split_on slash e) as [|w ws] eqn:E; [by apply split_on_nonempty in E|].
    destruct (Ascii.eqb c slash) eqn:Ec; [done|]. simplify_eq. by rewrite IH by done.
Qed.

Lemma split_on_Join l : l ≠ [] → Forall plain l → split_on slash (Join l "/") = l.
Proof.
  intros Hne. induction 1 as [|e l He Hl IH]; [done|]. destruct l as [|e' l]; [done|].
  change (Join (e :: e' :: l) "/") with (e +:+ "/" +:+ Join (e' :: l) "/").
  by rewrite split_on_app_slash, IH.
Qed.

(** An element that [Clean] keeps as it is. *)
Definition name_elem (e : string) : Prop := plain e ∧ e ≠ "" ∧ e ≠ "." ∧ e ≠ "..".

Lemma clean_elems_names acc l :
  Forall name_elem acc → Forall plain l → Forall name_elem (clean_elems true acc l).
Proof.
  intros Ha Hl. revert acc Ha. induction Hl as [|e l He Hl IH]; intros acc Ha; simpl.
  { by apply List.Forall_rev. }
  destruct (decide (e = "" ∨ e = ".")) as [|Hn]; [by apply IH|].
  destruct (decide (e = "..")) as [->|Hd].
  - destruct Ha as [|d acc Hd Ha]; [by apply IH|].
    destruct (decide (d = "..")); [by destruct Hd as (_ & _ & _ & ?)|by apply IH].
  - apply IH. constructor; [|done]. unfold name_elem. naive_solver.
Qed.

Lemma clean_elems_id acc l :
  Forall name_elem l → clean_elems true acc l = rev acc ++ l.
Proof.
  intros Hl. revert acc. induction Hl as [|e l He Hl IH]; intros acc; simpl.
  { by rewrite app_nil_r. }
  destruct He as (_ & ? & ? & ?).
  rewrite decide_False by (by intros [|]). rewrite decide_False by done. rewrite IH.
  simpl. by rewrite <- (assoc_L (++)).
Qed.

Lemma clean_elems_blank acc l : clean_elems true acc (l ++ [""]) = clean_elems true acc l.
Proof.
  revert acc. induction l as [|e l IH]; intros acc; simpl; [done|].
  destruct (decide (e = "" ∨ e = ".")); [done|]. destruct (decide (e = "..")); [|done].
  destruct acc as [|d acc]; [done|]. by destruct (decide (d = "..")).
Qed.

(** The elements of a clean path: the names, and an empty one for a slash at the
    end. *)
Definition clean_split (names : list string) (dir : bool) : list string :=
  "" :: (if decide (names = []) then [""] else names ++ (if dir then [""] else [])).

Lemma Join_snoc_blank l : l ≠ [] → Join (l ++ [""]) "/" = Join l "/" +:+ "/".
Proof.
  induction l as [|e l IH]; intros Hl; [done|]. destruct l as [|e' l]; [done|].
  change (e +:+ "/" +:+ Join ((e' :: l) ++ [""]) "/" = (e +:+ "/" +:+ Join (e' :: l) "/") +:+ "/").
  rewrite IH by done. by rewrite !str_app_assoc.
Qed.

Lemma clean_split_plain names dir : Forall name_elem names → Forall plain (clean_split names dir).
Proof.
  intros Hn. assert (Forall plain names) as Hp by (eapply Forall_impl; [done|by intros ? []]).
  unfold clean_split. constructor; [done|]. case_decide; [by repeat constructor|].
  apply Forall_app. split; [done|]. destruct dir; by repeat constructor.
Qed.

Lemma clean_elems_split names dir :
  Forall name_elem names → clean_elems true [] (clean_split names dir) = names.
Proof.
  intros Hn. unfold clean_split. simpl. case_decide as E; [by subst|].
  destruct dir; rewrite ?clean_elems_blank, ?app_nil_r; by apply (clean_elems_id []).
Qed.

Lemma clean_split_join names dir :
  Join (clean_split names dir) "/" =
    if decide (names = []) then "/"
    else if dir then ("/" +:+ Join names "/") +:+ "/" else "/" +:+ Join names "/".
Proof.
  unfold clean_split. case_decide as E; [done|].
  assert (∀ l, l ≠ [] → Join ("" :: l) "/" = "/" +:+ Join l "/") as H by (by intros []).
  destruct dir; rewrite ?app_nil_r, H by (by destruct names); [|done].
  by rewrite Join_snoc_blank, str_app_assoc.
Qed.

Lemma last_clean_split names dir :
  Forall name_elem names → names ≠ [] → last (clean_split names dir) = Some "" ↔ dir = true.
Proof.
  intros Hn Hne. unfold clean_split. rewrite decide_False by done.
  destruct dir; [by rewrite app_comm_cons, last_snoc|]. rewrite app_nil_r.
  split; [|done]. intros Hl. exfalso. destruct (last_is_Some names) as [_ [x Hx]]; [done|].
  rewrite last_cons, Hx in Hl. apply last_Some_elem_of in Hx.
  rewrite Forall_forall in Hn. destruct (Hn _ Hx) as (_ & ? & _). by simplify_eq.
Qed.

Lemma Join_names_ne names : Forall name_elem names → names ≠ [] → "/" +:+ Join names "/" ≠ "/".
Proof.
  intros Hn Hne. destruct Hn as [|e l (_ & He & _) _]; [done|].
  destruct e as [|c e]; [done|]. by destruct l.
Qed.

Lemma slash_prefix s : HasPrefix ("/" +:+ s) "/" = true.
Proof. by destruct s. Qed.

Lemma cleanPath_split p :
  ∃ names dir, Forall name_elem names ∧ cleanPath p = Join (clean_split names dir) "/".
Proof.
  unfold cleanPath. case_decide as E; [by exists [], false|].
  set (p' := if HasPrefix p "/" then p else "/" +:+ p).
  assert (HasPrefix p' "/" = true) as Hp.
  { unfold p'. destruct (HasPrefix p "/") eqn:Ep; [done|apply slash_prefix]. }
  set (names := clean_elems true [] (split_on slash p')).
  assert (Forall name_elem names) as Hn by (by apply clean_elems_names, split_on_plain).
  exists names, (ends_in_slash p'). split; [done|]. rewrite clean_split_join.
  assert (Clean p' = "/" +:+ Join names "/") as -> by (unfold Clean; by rewrite Hp).
  case_decide as E'; [rewrite E'; by rewrite bool_decide_false, andb_false_r by (by intros [])|].
  rewrite bool_decide_true by by apply Join_names_ne. by rewrite andb_true_r.
Qed.

(** A clean path stays. *)
Lemma cleanPath_idemp p : cleanPath (cleanPath p) = cleanPath p.
Proof.
  destruct (cleanPath_split p) as (names & dir & Hn & ->). set (q := Join _ "/").
  assert (split_on slash q = clean_split names dir) as Hq
    by (by apply split_on_Join, clean_split_plain).
  assert (q ≠ "" ∧ HasPrefix q "/" = true) as [Hne Hp].
  { unfold q. rewrite clean_split_join. repeat case_match; split; try done; apply slash_prefix. }
  unfold cleanPath. rewrite decide_False, Hp by done.
  assert (Clean q = "/" +:+ Join names "/") as ->.
  { unfold Clean. by rewrite Hp, Hq, clean_elems_split. }
  unfold ends_in_slash. rewrite Hq. unfold q. rewrite clean_split_join. case_decide as E.
  - subst. by rewrite (bool_decide_false ("/" +:+ Join [] "/" ≠ "/")), andb_false_r by (by intros []).
  - rewrite (bool_decide_true (_ ≠ "/")) by by apply Join_names_ne.
    rewrite andb_true_r. rewrite (bool_decide_ext _ _ (last_clean_split _ dir Hn E)).
    by destruct dir.
Qed.

(** What the HTTP server answers. [SetupHTTP] registers its pages on the mux of
    the package once: a second call panics. A request for /version, /healthz or
    /metrics is answered with the page, by any method; one for any other clean
    path with 404. A path that is not clean is redirected to the clean one, which
    is answered without a further redirect. *)
Theorem http_serves rq rt :
  ∃ mux, SetupHTTP [] = (Ret tt, mux) ∧
    (∃ m, SetupHTTP mux = (Panic m, mux)) ∧
    match ServeHTTP mux rq rt with
    | Answer r =>
        r = if decide (rq_Path rq = "/version") then getGitRevJSONHandler gitRev
            else if decide (rq_Path rq = "/healthz") then healthCheckHandler gitRev rt.1 rt.2
            else if decide (rq_Path rq = "/metrics") then metrics_page
            else not_found
    | MovedPermanently path =>
        path ≠ rq_Path rq ∧
        ∀ rq', rq_Path rq' = path → ∃ r, ServeHTTP mux rq' rt = Answer r
    end.
Proof.
  eexists. split; [reflexivity|]. split; [by eexists|].
  unfold ServeHTTP at 1. destruct (decide (rq_Method rq = "CONNECT")) as [|Hm].
  2: destruct (decide (cleanPath (rq_Path rq) = rq_Path rq)) as [|Hc].
  3: { split; [done|]. intros rq' Hp. unfold ServeHTTP. rewrite Hp, cleanPath_idemp.
       case_decide; [by eexists|]. rewrite decide_True by done. by eexists. }
  all: unfold mux_handler; clear; destruct rq as [m path]; simpl.
  all: repeat (case_decide; simplify_eq/=); try done.
Qed.
End http.

(** ** Witnesses *)

(** A server that keeps the descriptions it was given. *)
Definition demo_grpc : GrpcServer (DV := demo_daemon).
Proof.
  refine {| gserver := list ServiceDesc;
            grpc_NewServer opts :=
              if decide (length (filter is_unary opts) ≤ 1 ∧ length (filter is_stream opts) ≤ 1)%nat
              then Some [] else None;
            RegisterService d s :=
              if decide (sd_ServiceName d ∈ sd_ServiceName <$> s) then None else Some (d :: s);
            reflection_desc := {| sd_ServiceName := "grpc.reflection.v1alpha.ServerReflection";
                                  sd_Methods := []; sd_Streams := ["ServerReflectionInfo"] |};
            gs_services s := s;
            gs_handles s p := bool_decide (p ∈ s ≫= paths) |}; simpl.
  - intros opts Hu Hs. rewrite decide_True by done. by exists [].
  - intros d s Hd. rewrite decide_False by done. by exists (d :: s).
  - intros d s Hd. by rewrite decide_True.
  - intros s p. rewrite bool_decide_eq_true, list_elem_of_bind. split; intros (d & ? & ?); by exists d.
  - done.
Defined.

#[local] Existing Instance demo_db_env.
#[local] Instance served_range : MapRange :=
  {| range_map := map_to_list; range_map_perm m := reflexivity _ |}.
#[local] Instance served_template : TemplateEnv := const_template_env
  {| yw_Version := "0.1"; yw_Name := "n"; yw_ID := ""; yw_GlobalTimeout := 9; yw_Tasks := [] |}.
#[local] Instance served_uuids : ServerEnv := {| new_uuid n := Ok "id" |}.
#[local] Instance served_json : HardwareJson :=
  {| hw_marshal hw := Ok (ph_Id hw); hw_unmarshal j := Err (NewErr j) |}.


(** A path is cleaned before it is looked up. *)
Example version_redirected gitRev page :
  ServeHTTP (SetupHTTP gitRev page []).2 {| rq_Method := "GET"; rq_Path := "//api/../version" |} ("1.5", 9) =
    MovedPermanently "/version".
Proof. reflexivity. Qed.
