(* ===== verification/Mains.v ===== *)
(** * Mains: the main functions (src/cmd/tink-server/main.go,
    src/cmd/tink-controller/main.go, src/cmd/tink-worker/main.go,
    src/cmd/virtual-worker/main.go, src/cmd/tink-cli/main.go)

    How the programs begin and end: the logger and the telemetry they open, the
    command they run, and the status they end with. *)
From S2P Require Import Prelude Proto DbBase Client Config WorkerMain Service Worker Docker WorkerRun Daemon.
From stdpp Require Import options.

(** A program that runs over the world [W]: whether its logger was closed, and
    whether its traces were sent. *)
Record Process (W : Type) := { pr_world : W; pr_closed : bool; pr_flushed : bool }.
Arguments pr_world {_} _.
Arguments pr_closed {_} _.
Arguments pr_flushed {_} _.
Arguments Build_Process {_} _ _ _.
Definition started {W} (w : W) : Process W := Build_Process w false false.

Section main.
Context {W : Type}.
#[local] Open Scope go_scope.

(** [Execute] of the root command, with its error. *)
Definition Cmd : Type := go W (option error).

Definition run_cmd (c : Cmd) : go (Process W) (option error) :=
  go_zoom pr_world (λ w p, Build_Process w (pr_closed p) (pr_flushed p)) c.
Definition logger_Close : go (Process W) unit :=
  go_modify (λ p, Build_Process (pr_world p) true (pr_flushed p)).
Definition otelShutdown : go (Process W) unit :=
  go_modify (λ p, Build_Process (pr_world p) (pr_closed p) true).

(** [log.Init] with its error, on which every program panics. *)
Definition log_Init (err : option error) : go (Process W) unit :=
  match err with Some e => go_panic (err_string e) | None => go_ret tt end.

Definition server_main (log_err : option error) (c : Cmd) : go (Process W) unit :=
  log_Init log_err ;;;
  let* err := run_cmd c in
  match err with Some _ => go_exit 1 | None => logger_Close ;;; otelShutdown end.
Definition worker_main (log_err : option error) (c : Cmd) : go (Process W) unit :=
  log_Init log_err ;;;
  let* err := run_cmd c in
  match err with Some _ => go_exit 1 | None => logger_Close ;;; otelShutdown end.
Definition virtual_worker_main (log_err : option error) (c : Cmd) : go (Process W) unit :=
  log_Init log_err ;;;
  let* err := run_cmd c in
  match err with Some _ => go_exit 1 | None => logger_Close end.
(** The deferred calls run when the function returns, the last one first. *)
Definition controller_main (log_err : option error) (c : Cmd) : go (Process W) unit :=
  log_Init log_err ;;;
  go_defer logger_Close (
    let* err := run_cmd c in
    match err with Some _ => go_defer (go_exit 1) (go_ret tt) | None => go_ret tt end).
End main.

(** ** How the programs end *)
Inductive program := TinkServer | TinkController | TinkWorker | VirtualWorker.
#[global] Instance program_eq_dec : EqDecision program.
Proof. solve_decision. Defined.

Definition main_of (p : program) {W} : option error → go W (option error) → go (Process W) unit :=
  match p with
  | TinkServer => server_main
  | TinkController => controller_main
  | TinkWorker => worker_main
  | VirtualWorker => virtual_worker_main
  end.

(** The programs that send traces. *)
Definition traced (p : program) : bool :=
  match p with TinkServer | TinkWorker => true | _ => false end.

(** How a program ends. When its command succeeds it returns with its logger
    closed and its traces sent. When the command fails the process ends with
    status 1 at once: nothing is closed or sent, in tink-controller neither,
    whose [os.Exit] is deferred after, and runs before, the call that closes its
    logger; that logger is closed only when the command panics. A program that
    cannot make its logger panics before its command runs. *)
Theorem programs_end p {W} (c : go W (option error)) w :
  match c w with
  | (Ret None, w') => main_of p None c (started w) = (Ret tt, Build_Process w' true (traced p))
  | (Ret (Some _), w') => main_of p None c (started w) = (Exit 1, Build_Process w' false false)
  | (Panic m, w') =>
      main_of p None c (started w) =
        (Panic m, Build_Process w' (bool_decide (p = TinkController)) false)
  | (Exit n, w') => main_of p None c (started w) = (Exit n, Build_Process w' false false)
  end ∧
  ∀ e, main_of p (Some e) c (started w) = (Panic (err_string e), started w).
Proof.
  split; [|by destruct p].
  destruct (c w) as [[[e|]|m|n] w'] eqn:E; destruct p; simpl;
    unfold server_main, controller_main, worker_main, virtual_worker_main, go_defer, go_bind,
      log_Init, run_cmd, go_zoom; simpl; rewrite E; reflexivity.
Qed.

(** ** tink-server and tink-controller *)
Section daemons.
Context `{FT : FlagText} `{MG : Migrate} `{DV : DaemonEnv} `{LE : LegacyEnv}.
#[local] Open Scope go_scope.

(** The commands: [PreRunE] and [RunE]. [wait] is the error that [RunE] returns
    for a server that has come up. *)
Definition server_command (given : list (string * string)) (v : Viper)
    (wait : Serving → option error) : go (list string) (option error) :=
  match server_settings given v with
  | Err e => go_ret (Some e)
  | Ok c =>
      let* l := server_RunE c in
      go_ret (match l with Returns err => err | Serves sv => wait sv end)
  end.
Definition controller_command {W} (given : list (string * string)) (v : Viper) : go W (option error) :=
  match controller_settings given v with
  | Err e => go_ret (Some e)
  | Ok c => controller_RunE c
  end.

(** [RunE] returns nil before it serves only after it has applied the
    migrations. *)
Lemma server_RunE_nil c recs recs' :
  server_RunE c recs = (Ret (Returns None), recs') →
  Backend c = backendPostgres ∧ OnlyMigration c = true ∧ migration_ids ⊆ recs'.
Proof.
  intros H. unfold server_RunE in H. destruct (server_creds c) as [creds|]; [|done].
  assert (∀ r, start_serving c creds r ≠ Returns None) as Hs.
  { intros r. unfold start_serving. by destruct (SetupGRPC _). }
  case_decide; [|case_decide; [|done]]; unfold go_bind in H.
  { destruct (NewKubeBackedServer _ _ _ recs) as [[[k|e]|m|n] w]; try done.
    injection H as H _. by apply Hs in H. }
  unfold SetupPostgres in H. destruct (sql_Open _); [done|]. unfold go_bind in H.
  destruct (OnlyMigration c).
  - unfold Migrate_up in H. destruct (migrate_Exec _ _) as [[n|e] recs1] eqn:E; [|done].
    injection H as <-. destruct (migrate_Exec_applies _ _ _ _ E) as [_ Hp].
    split_and!; [done..|]. intros i Hi. rewrite Hp, elem_of_app, list_elem_of_filter.
    destruct (decide (i ∈ recs)); [by left|by right].
  - destruct (CheckRequiredMigrations recs) as [[[n|e]|m|n] w]; try done.
    injection H as H _. by apply Hs in H.
Qed.

(** When tink-server ends with status 0: after it was asked for the migrations
    only, with PostgreSQL, and the database has all of them; or after it has
    served and its wait for the two servers returned no error. *)
Theorem server_status_zero given v wait recs p :
  server_main None (server_command given v wait) (started recs) = (Ret tt, p) →
  ∃ c, server_settings given v = Ok c ∧
    ((Backend c = backendPostgres ∧ OnlyMigration c = true ∧ migration_ids ⊆ pr_world p) ∨
     ∃ sv, server_RunE c recs = (Ret (Serves sv), pr_world p) ∧ wait sv = None).
Proof.
  intros Hm. unfold server_main, go_bind, run_cmd, go_zoom, server_command in Hm. simpl in Hm.
  destruct (server_settings given v) as [c|]; [|done]. exists c. split; [done|].
  unfold go_bind in Hm. destruct (server_RunE c recs) as [[l|m|n] w] eqn:Er; try done.
  simpl in Hm. destruct l as [[e|]|sv]; [done|left|right].
  - injection Hm as <-. by apply (server_RunE_nil c recs).
  - exists sv. destruct (wait sv); [done|]. by injection Hm as <-.
Qed.
End daemons.

(** ** tink-worker *)
(** Splits a run that returned at its calls. *)
Ltac split_run H :=
  let k := fresh "k" in let a := fresh "a" in let E := fresh "E" in
  apply go_bind_inv in H as (a & k & E & H).

Section worker.
Context {S C : Type} `{SV : WorkflowService S} `{CM : ContainerManager C} `{WE : WorkerEnv}.
Context (w : Worker).

(** The last thing the worker did: an action ended without success and without an
    error, and the server was told. *)
Definition gave_up (k' : World S C) : Prop :=
  ∃ wfID action st seconds (k1 k2 k3 : World S C),
    execute w wfID action k1 = (Ret (st, None), k2) ∧ st ≠ State_STATE_SUCCESS ∧
    must_report w (status_of wfID action
      (if decide (st = State_STATE_TIMEOUT) then State_STATE_TIMEOUT else State_STATE_FAILED)
      seconds "") k3 = (Ret tt, k').

Lemma run_actions_nil c l k k' : run_actions w c l k = (Ret (Some None), k') → gave_up k'.
Proof.
  revert k. induction l as [|action rest IH]; intros k H; [done|]. simpl in H.
  split_run H. split_run H. split_run H. split_run H. split_run H.
  destruct a2 as [st err]. case_decide as Hst.
  - split_run H. unfold go_ret in H. injection H as -> <-. destruct a2.
    exists (wc_WorkflowId c), action, st. eexists _, _, _, _. split; [eassumption|].
    split; [by destruct Hst|eassumption].
  - split_run H. split_run H. destruct rest as [|next rest]; [done|]. case_decide; [|done].
    by apply (IH _ H).
Qed.

Lemma process_contexts_nil l k k' : process_contexts w l k = (Ret (Some None), k') → gave_up k'.
Proof.
  revert k. induction l as [|c l IH]; intros k H; [done|]. simpl in H. split_run H.
  destruct a as [err|]; [|by apply (IH _ H)]. unfold go_ret in H. injection H as -> <-.
  unfold process_context in E. split_run E. destruct a as [[actions|e]|e]; [|done..].
  split_run E. destruct a as [idx|]; [|done]. split_run E. by apply run_actions_nil in E.
Qed.

Lemma loop_nil polls k k' : ProcessWorkflowActions w polls k = (Ret (Some None), k') → gave_up k'.
Proof.
  revert k. induction polls as [|n IH]; intros k H; [done|]. simpl in H. split_run H.
  destruct a as [cs|e]; [|done]. split_run H. destruct a as [err|]; [|by apply (IH _ H)].
  unfold go_ret in H. injection H as -> <-. by apply process_contexts_nil in E0.
Qed.
End worker.

Section programs.
Context `{FT : FlagText} `{PE : ProcessEnv}.
Context {S D : Type} `{SV : WorkflowService S} `{DC : DockerClient D} `{WE : WorkerEnv}.

(** When tink-worker ends with status 0. Its loop has no end of its own: the
    command returns nil, and the program ends as if it had succeeded, only after
    one of its actions has ended without success and this was reported. *)
Theorem worker_status_zero docker_err given v polls (k k' : World S D) :
  tink_worker docker_err given v polls k = (Ret (Some None), k') →
  ∃ su, tink_worker_setup docker_err given v = Ok su ∧
    gave_up (CM := docker_manager (su_registry su)) (su_worker su) k' ∧
    ∀ c, c k = (Ret None, k') →
      worker_main None c (started k) = (Ret tt, Build_Process k' true true).
Proof.
  intros H. unfold tink_worker in H. destruct (tink_worker_setup _ _ _) as [su|e]; [|done].
  exists su. split; [done|]. split.
  - split_run H. destruct a as [[e|]|]; [done| |done]. unfold go_ret in H. injection H as <-.
    by apply loop_nil in E.
  - intros c Hc. unfold worker_main, go_bind, run_cmd, go_zoom. simpl. by rewrite Hc.
Qed.
End programs.

(** ** Witnesses *)

(** A server with one workflow of one action, that keeps the reports. *)
Definition one_workflow : WorkflowService (list WorkflowActionStatus) :=
  {| svc_GetWorkflowContexts _ _ := λ '(s, sent), (Ret None, (s, sent ++ [fresh_context]));
     svc_GetWorkflowActions _ := go_ret (Ok [action_for "a" "w1"]);
     svc_ReportActionStatus req := λ l, (Ret None, l ++ [req]);
     svc_GetWorkflowData _ := go_ret ({| gr_Data := ""; gr_Version := 0 |}, None);
     svc_GetWorkflowMetadata _ := go_ret ({| gr_Data := ""; gr_Version := 0 |}, None);
     svc_UpdateWorkflowData _ := go_ret None |}.

(** The container of the action ends with 1: the action is reported running and
    failed, and the worker returns. *)
Lemma worker_status_zero_witness :
  ∃ su k', tink_worker (FT := plain_text) (PE := open_net) (SV := one_workflow) (DC := docker_fails)
      (WE := quiet_env) None [("tinkerbell-grpc-authority", "tink:42113")] worker_file 1
      (quiet_world [] {| md_names := ∅; md_created := [] |}) = (Ret (Some None), k') ∧
    (ws_ActionStatus <$> k_srv k') = [State_STATE_RUNNING; State_STATE_FAILED] ∧
    gave_up (SV := one_workflow) (CM := docker_manager (DC := docker_fails) (su_registry su))
      (WE := quiet_env) (su_worker su) k'.
Proof.
  destruct (tink_worker (FT := plain_text) (PE := open_net) (SV := one_workflow) (DC := docker_fails)
      (WE := quiet_env) None [("tinkerbell-grpc-authority", "tink:42113")] worker_file 1
      (quiet_world [] {| md_names := ∅; md_created := [] |})) as [o k'] eqn:E.
  assert (o = Ret (Some None)) as ->.
  { change o with (o, k').1. rewrite <- E. vm_compute. reflexivity. }
  destruct (worker_status_zero (FT := plain_text) (PE := open_net) (SV := one_workflow)
    (DC := docker_fails) (WE := quiet_env) None _ worker_file 1 _ k' E) as (su & _ & Hg & _).
  exists su, k'. split; [reflexivity|]. split; [|exact Hg].
  change k' with (Ret (Some None : option (option error)), k').2. rewrite <- E. vm_compute. reflexivity.
Defined.
