(* ===== verification/System.v ===== *)
(** * System: a worker and the database-backed server together

    The server of [DbServer] keeps the contract of [WorkerRun], so that a worker
    of [Worker] takes a workflow through it from its creation to its end; and what
    goes wrong between the two when a worker restarts or an answer is lost. *)
From S2P Require Import Prelude Proto Template Service DbBase DbWorkflow DbTemplate DbServer.
From S2P Require Import DbReport Worker Docker WorkerRun.
From stdpp Require Import options.

Section contract.
#[local] Set Default Proof Using "Type*".
Context `{DE : DbEnv} (Hrel : ∀ n, db_fault n = None) (mv : Z).
Context (id i : string) (l : WorkflowActionList).
Context (Hne : id ≠ "") (Hid : pg_uuid id = Some i).
Context (Hfit : Forall action_fits l) (Hlen : Z.of_nat (length l) < 2 ^ 31).
Context (Hworkers : Forall (λ a, pg_uuid (wa_WorkerId a) ≠ None) l).

(** The workflow is at action [n], with at most [d] versions of its data. *)
Definition db_at (n : nat) (started : bool) (d : nat) (s : DB) : Prop :=
  ∃ row, t_state (db_tables s) !! i = Some row ∧ at_action l row n started ∧
    (length (data_rows i (db_tables s)) ≤ d)%nat.

Lemma db_at_frame n b d s s' :
  t_state (db_tables s') = t_state (db_tables s) →
  t_data (db_tables s') = t_data (db_tables s) → db_at n b d s → db_at n b d s'.
Proof. intros Hs Hd (row & Hrow & Hat & Hl). exists row. unfold data_rows in *. by rewrite Hs, Hd. Qed.

Lemma insert_data_reliable req s m d :
  pg_uuid (ud_WorkflowId req) = Some i → jsonb (ud_Metadata req) = Some m →
  jsonb (ud_Data req) = Some d →
  Z.of_nat (length (data_rows i (db_tables s))) < 2 ^ 31 →
  ∃ s', InsertIntoWfDataTable mv req s = (Ret None, s') ∧
    t_state (db_tables s') = t_state (db_tables s) ∧
    length (data_rows i (db_tables s')) = S (length (data_rows i (db_tables s))).
Proof.
  intros Hi Hm Hd Hlt. unfold InsertIntoWfDataTable, getLatestVersionWfData, go_bind, QueryRow.
  rewrite Hrel. unfold count_data. rewrite Hi. fold (data_rows i (db_tables s)).
  unfold in_int4. rewrite bool_decide_eq_true_2 by lia. simpl.
  unfold insert_data_version, go_try, go_bind, BeginTx, ExecContext. simpl. rewrite !Hrel. simpl.
  unfold stmt_insert_data. rewrite Hi, Hm, Hd. simpl.
  set (tx := set_t_data _ _).
  assert (length (data_rows i tx) = S (length (data_rows i (db_tables s)))) as Hcount.
  { unfold data_rows, tx. cbn [t_data set_t_data]. rewrite filter_app, filter_cons_True by done.
    rewrite length_app. simpl. lia. }
  case_decide.
  - unfold stmt_clean_data. rewrite Hrel, Hi. simpl.
    unfold commit_or, go_bind, Commit. simpl. rewrite Hrel. eexists. split; [done|]. simpl.
    split; [done|]. unfold data_rows. simpl. rewrite filter_clean_rows, length_fmap. exact Hcount.
  - unfold commit_or, go_bind, Commit. simpl. rewrite Hrel. by eexists.
Qed.

Lemma status_fits st a sec msg :
  a ∈ l → known_state st → varchar200 msg = true → 0 ≤ sec < 2 ^ 31 →
  report_fits id (status_of id a st sec msg) a.
Proof.
  intros Ha Hk Hm Hs. unfold report_fits. simpl. split_and!; try done.
  - unfold in_int4. apply bool_decide_eq_true_2. lia.
  - rewrite Forall_forall in Hworkers. by apply Hworkers.
Qed.

(** The server keeps the contract, for a workflow whose texts fit its columns
    and whose workers are known by their ids. *)
#[local] Existing Instance db_service.
Definition db_update_ok (req : UpdateWorkflowDataRequest) : Prop :=
  jsonb (ud_Metadata req) ≠ None ∧ jsonb (ud_Data req) ≠ None.

Lemma db_ct_actions n s : db_at n false n s →
  ∃ s', svc_GetWorkflowActions (WorkflowService:=db_service mv) id s = (Ret (Ok l), s') ∧
    db_at n false n s'.
Proof.
  intros (row & Hrow & Hat & Hd). simpl. unfold DbServer.GetWorkflowActions, getWorkflowActions.
  rewrite decide_False by done.
  rewrite (go_bind_Ret _ _ _ _ _ (actions_reliable Hrel id i row s Hid Hrow)).
  destruct Hat as (Hl & Hat). exists (db_next s). unfold go_ret. rewrite Hl. split; [done|].
  exists row. split; [done|]. by split.
Qed.

Lemma db_ct_start n a s : l !! n = Some a → db_at n false n s →
  ∃ s', svc_ReportActionStatus (WorkflowService:=db_service mv)
    (status_of id a State_STATE_RUNNING 0 msg_started) s = (Ret None, s') ∧ db_at n true n s'.
Proof.
  intros Ha (row & Hrow & Hat & Hd).
  destruct (start_action Hrel id i (wa_WorkerId a) l Hne Hid) with
    (req := status_of id a State_STATE_RUNNING 0 msg_started) (s := s) (row := row) (n := n)
    (a := a) as (s' & row' & Hrun & Hrow' & Hat' & Hdata); try done.
  - rewrite Forall_forall in Hworkers. by apply Hworkers, list_elem_of_lookup_2 with n.
  - apply status_fits; [by eapply list_elem_of_lookup_2|by apply (bool_decide_unpack _)|done|lia].
  - exists s'. split; [done|]. exists row'. unfold data_rows in *. by rewrite Hdata.
Qed.

Lemma db_ct_finish n a s sec : l !! n = Some a → 0 ≤ sec < 2 ^ 31 → db_at n true n s →
  ∃ s', svc_ReportActionStatus (WorkflowService:=db_service mv)
    (status_of id a State_STATE_SUCCESS sec msg_finished) s = (Ret None, s') ∧
    db_at (S n) false n s'.
Proof.
  intros Ha Hsec (row & Hrow & Hat & Hd).
  destruct (finish_action Hrel id i (wa_WorkerId a) l Hne Hid) with
    (req := status_of id a State_STATE_SUCCESS sec msg_finished) (s := s) (row := row) (n := n)
    (a := a) as (s' & row' & Hrun & Hrow' & Hat' & Hdata); try done.
  - rewrite Forall_forall in Hworkers. by apply Hworkers, list_elem_of_lookup_2 with n.
  - apply status_fits; [by eapply list_elem_of_lookup_2|by apply (bool_decide_unpack _)|done|lia].
  - exists s'. split; [done|]. exists row'. unfold data_rows in *. by rewrite Hdata.
Qed.

Lemma db_ct_get n s : db_at n true n s →
  ∃ r s', svc_GetWorkflowData (WorkflowService:=db_service mv)
    {| gd_WorkflowId := id; gd_Version := 0 |} s = (Ret r, s') ∧ db_at n true n s'.
Proof.
  intros Hat. assert (db_pure (DbServer.GetWorkflowData
    {| gd_WorkflowId := id; gd_Version := 0 |})) as Hpure.
  { unfold DbServer.GetWorkflowData, GetfromWfDataTable, get_data, getLatestVersionWfData.
    simpl. rewrite decide_False by done. db_walk. }
  destruct (Hpure s) as (r & s' & Hrun & Ht). exists r, s'. split; [done|].
  by apply (db_at_frame n true n s); [rewrite Ht..|].
Qed.

Lemma db_ct_update n s req : (n < length l)%nat → ud_WorkflowId req = id → db_update_ok req →
  db_at (S n) false n s →
  ∃ s', svc_UpdateWorkflowData (WorkflowService:=db_service mv) req s = (Ret None, s') ∧
    db_at (S n) false (S n) s'.
Proof.
  intros Hn Hreq [Hm Hd] (row & Hrow & Hat & Hcount).
  destruct (jsonb (ud_Metadata req)) as [m|] eqn:Em; [|done].
  destruct (jsonb (ud_Data req)) as [d|] eqn:Ed; [|done].
  destruct (insert_data_reliable req s m d) as (s' & Hrun & Hst & Hc);
    [by rewrite Hreq|done|done|lia|].
  simpl. unfold DbServer.UpdateWorkflowData. rewrite Hreq, decide_False by done.
  rewrite (go_bind_Ret _ _ _ _ _ Hrun). exists s'. split; [done|]. exists row.
  rewrite Hst, Hc. split; [done|]. split; [done|lia].
Qed.

Definition db_contract : WorkflowContract DB (H:=db_service mv) id l :=
  {| ready n := db_at n false n; running n := db_at n true n; finished n := db_at (S n) false n;
     update_ok := db_update_ok; ct_actions := db_ct_actions; ct_run := db_ct_start;
     ct_get := db_ct_get; ct_finish := db_ct_finish; ct_update := db_ct_update;
     ct_skip n s := ltac:(abstract (intros (row & ? & ? & ?); exists row; auto)) |}.
End contract.

(** ** Properties *)
Section properties.
#[local] Set Default Proof Using "Type*".
Context `{DE : DbEnv} {C : Type} `{CM : ContainerManager C} `{WE : WorkerEnv} (mv : Z).
#[local] Instance the_db_service : WorkflowService DB := db_service mv.

(** A workflow as it is created, with row [row] under the id [i]: its actions
    are all of worker [worker], its texts fit the columns, and it has no data. *)
Definition new_workflow (worker i : string) (row : StateRow) (s : DB) : Prop :=
  t_state (db_tables s) !! i = Some row ∧ row = initial_state (sr_action_list row) ∧
  sr_action_list row ≠ [] ∧ Z.of_nat (length (sr_action_list row)) < 2 ^ 31 ∧
  Forall action_fits (sr_action_list row) ∧
  Forall (λ a, wa_WorkerId a = worker) (sr_action_list row) ∧
  data_rows i (db_tables s) = [].

(** C1 A worker takes a new workflow of the database-backed server to its end:
    when database, network and machine do not fail and the containers succeed,
    all the actions belong to the worker and their texts fit the columns of the
    database, processing the context the server
    sends runs every action, every report and every update of the data is
    accepted, and the workflow is then shown as successful. *)
Theorem db_worker_completes w id i row (k : World DB C) :
  (∀ n, db_fault n = None) → env_quiet → cm_cooperative C → 1 ≤ w_retries w →
  (∀ d, json_map d = true → jsonb d ≠ None) →
  (∀ m t, marshal_metadata m = Ok t → jsonb t ≠ None) →
  id ≠ "" → pg_uuid id = Some i → pg_uuid (w_workerID w) ≠ None →
  new_workflow (w_workerID w) i row (k_srv k) →
  k_up k = true → fs_files (k_host k).1 !! wf_dir w id = None →
  ∃ k', process_context w (context_of_row id row) k = (Ret None, k') ∧
    (getWorkflowState id (k_srv k')).1 = Ret State_STATE_SUCCESS.
Proof.
  intros Hrel Hq Hcm Hret Hjson Hmeta Hne Hid Hw
    (Hrow & Hinit & Hnil & Hlen & Hfit & Hmine & Hdata) Hup Hfile.
  set (l := sr_action_list row) in *.
  assert (Forall (λ a, pg_uuid (wa_WorkerId a) ≠ None) l) as Hworkers.
  { eapply Forall_impl; [exact Hmine|]. by intros a ->. }
  pose (ct := db_contract Hrel mv id i l Hne Hid Hfit Hlen Hworkers).
  destruct (runs_until_handoff w id l (WorkflowContract0:=ct) (context_of_row id row) 0 k)
    as (m & k' & Hrun & Hready & Hm & _ & Hother); try done.
  - intros data md t Hj Ht. split; simpl; eauto.
  - by rewrite Hinit.
  - intros k0. unfold choose_action. simpl. rewrite Hinit. simpl.
    destruct l as [|a l']; [done|]. unfold go_bind, go_index. simpl. unfold my_turn.
    apply Forall_cons in Hmine as [Ha _]. by rewrite decide_True by done.
  - destruct l; [done|simpl; lia].
  - exists row. split; [done|]. rewrite Hdata. split; [|simpl; lia]. split; [done|].
    split; [rewrite Hinit; split; [done|by left]|]. by rewrite Hinit.
  - exists k'. split; [done|]. destruct Hready as (row' & Hrow' & Hat & _).
    assert (m = length l) as ->.
    { destruct (decide (m = length l)) as [|Hne']; [done|].
      destruct (lookup_lt_is_Some_2 l m) as [a Ha]; [lia|]. exfalso. apply (Hother a Ha).
      rewrite Forall_forall in Hmine. by apply Hmine, list_elem_of_lookup_2 with m. }
    by apply (end_shown Hrel id i (w_workerID w) l Hne Hid Hw Hfit Hlen (k_srv k') row').
Qed.
End properties.

(** ** Witnesses *)
#[local] Existing Instance demo_db_env.
#[local] Existing Instance quiet_env.
#[local] Instance demo_db_service : WorkflowService DB := db_service 3.

#[local] Existing Instance trivial_manager.

Definition two_own : WorkflowActionList := [demo_pb_action "a" "w"; demo_pb_action "b" "w"].
Definition own_world (row : StateRow) : World DB unit := quiet_world (demo_rows row) tt.

Lemma db_worker_completes_witness :
  ∃ k', process_context (NewWorker "w" []) (context_of_row "wf" (initial_state two_own))
    (own_world (initial_state two_own)) = (Ret None, k') ∧
    (getWorkflowState "wf" (k_srv k')).1 = Ret State_STATE_SUCCESS.
Proof.
  apply (db_worker_completes 3 (NewWorker "w" []) "wf" "wf" (initial_state two_own)
    (own_world (initial_state two_own)) demo_no_fault quiet_env_quiet trivial_cooperative);
    try done.
  - intros d Hd. simpl in *. unfold some_text. rewrite bool_decide_eq_true in Hd.
    by rewrite decide_False.
  - intros m t [= <-]. done.
  - split_and!; [reflexivity|reflexivity|done|done|by repeat constructor..|reflexivity].
Defined.

(** What the worker does to a workflow: the action that was running when it
    restarted is run again, and not reported running. The next one is then not
    reported running either, since the loop looks at the context it received, and
    the report of its success is refused: the worker exits. *)
Example resumed_worker_exits :
  (process_context (NewWorker "w" []) (context_of_row "wf" (demo_row two_own "a" 0 1))
    (own_world (demo_row two_own "a" 0 1))).1 = Exit 1.
Proof. vm_compute. reflexivity. Qed.

(** The answer to the first report is lost: the report is repeated, taken for the
    start of the next action, and refused until the worker exits. *)
Definition lossy_env : WorkerEnv :=
  {| net_fault n := if decide (n = 6%nat) then Some ReplyLost else None; stream_cut _ := None;
     os_fault _ := None; wk_clock _ := 0; wait_first _ := false;
     json_map s := bool_decide (s ≠ ""); marshal_metadata m := Ok ("sha256: " +:+ wm_SHA m) |}.
Example lost_answer_exits :
  let r := process_context (WE:=lossy_env) (NewWorker "w" [])
    (context_of_row "wf" (initial_state two_own)) (own_world (initial_state two_own)) in
  r.1 = Exit 1 ∧
  (sr_current_action_state <$> t_state (db_tables (k_srv r.2)) !! "wf") = Some State_STATE_RUNNING.
Proof. vm_compute. done. Qed.

(** Without retries nothing is reported, and that is not an error. *)
Example no_retries_no_reports req :
  (reportActionStatus (WithRetries 0 (NewWorker "w" [])) req (own_world (initial_state two_own))).1 =
    Ret None.
Proof. reflexivity. Qed.

(** Checksums are compared without regard to case, in which base64 differs for
    different data: such a change of the data is not sent. *)
Example checksums_collide :
  EqualFold (checksum (json_text "{'k':'aaa'}")) (checksum (json_text "{'k':'aaG'}")) = true.
Proof. vm_compute. reflexivity. Qed.
